(* ===== verification/_CoqProject ===== *)
-Q . S2P
Prelude.v
Str.v
Json.v
Documents.v
Xml.v
Regex.v
Sha256.v
Py.v
Store.v
Lib.v
Bytes.v
Elf2mem.v
Mmi.v
PatchBit.v
BramFlow.v
Helpers.v
Writes.v
SocContract.v
CheckMap.v
IsaData.v
BuildSoftware.v
Verilator.v
IsaTests.v
Regression.v
RtlClean.v
Filelists.v
Trees.v
Legacy.v
Fpga.v
Dependencies.v
Release.v
Competition.v
Replay.v
Spike.v
Checks.v
PatchChain.v
Environment.v
ImageFlow.v
UnitTests.v
PatchFlow.v
