(* ===== verification/Prelude.v ===== *)
(** * SocRV build and verification flow: a Rocq development

    SocRV is a RISC-V system on chip with a flow of Python scripts (src/scripts) that builds its
    software, its simulation model and its bitstreams, runs the tests, and refuses what does
    not agree with the memory map and the contracts.  This development models those scripts
    and proves that what they accept, generate and remove is what they promise.

    ** The model

    A script is an operation of the monad [Py.M]: a function from a world to a result (a
    value or a Python exception, [Py.exn]) and a world.  A world is a file store
    with symbolic links, modification times and unreadable entries, and the log of what was
    printed and run.  What a script takes from its machine is the class [Py.Host]: the
    place of the repository, the environment, the programs (git, make, the compilers,
    Verilator, Vivado, updatemem, the shell: [host_exec], any function from a command and a
    world to an outcome and a world), the JSON-schema validator of the package [jsonschema],
    clock, temporary names and privileges.  Theorems hold for every host; the instances
    at the end of each file run the scripts on a small one.  Integers are unbounded as
    in Python; a text is the list of its UTF-8 bytes; a Python [dict] is an association list in
    the order of insertion; [None], exceptions and exit codes are values.

    ** The files

    Support, for the language and its standard library: [Str] (str, int), [Json] (json),
    [Xml] (ElementTree), [Regex] (re), [Sha256] (hashlib), [Py] (exceptions, pathlib,
    the store, shutil, subprocess), [Store] (what each operation keeps of the store),
    [Bytes] (bytes, struct, the MEM text), [Helpers] (idioms of several scripts; the class
    of operations that only look, [Reads], with its tactic), [Writes] (operations that
    succeed, and all that they change), [Documents] (every document that [json.loads] returns
    is well formed).

    Components, each with the scripts of its definitions:
    - [Lib]: lib/repo.py, manifest.py, hashing.py, command.py, wsl.py, fpga.py;
    - [Elf2mem]: elf2mem.py, from an ELF file to the memory images of the SoC;
    - [Mmi]: generate_manual_mmi.py, the description of the placed block RAMs;
    - [PatchBit]: patch_bitstream.py, software images patched into a bitstream;
    - [SocContract], [CheckMap]: generate_soc_contract.py, check_memory_map.py;
    - [IsaData], [IsaTests], [Legacy]: generate_isa_data.py, run_isa_tests.py,
      import_legacy_isa.py;
    - [BuildSoftware]: build_software.py, which calls [Elf2mem] as a program;
    - [Verilator]: run_verilator.py, which builds software through [BuildSoftware];
    - [Regression]: run_regression.py, which runs the tests of a list through [Verilator];
    - [Replay]: difftest_selftest.py and replay_difftest.py, which start run_verilator.py;
    - [Spike]: build_spike.py, the reference model;
    - [Fpga]: run_vivado.py, check_fpga_reports.py, program_board.py;
    - [Dependencies], [Release], [Competition]: fetch_dependencies.py, package_release.py and
      verify_release.py, prepare_competition_run.py;
    - [Checks]: check_images.py, validate_schemas.py;
    - [Filelists], [RtlClean], [Trees]: check_filelists.py, clean_rtl_sources.py, and
      clean.py, check_generated_tree.py, write_sha256_manifest.py;
    - [Environment]: check_environment.py, lint_rtl.py, project_cli.py,
      repair_competition_run_permissions.py.

    Compositions, which state what several scripts promise together and add no model of
    their own: [BramFlow] (elf2mem.py, generate_manual_mmi.py, patch_bitstream.py),
    [ImageFlow] (elf2mem.py, check_images.py), [PatchChain] (patch_bitstream.py,
    hashing.py), [PatchFlow] (generate_manual_mmi.py, patch_bitstream.py and an updatemem
    that does what its manual says); and [UnitTests], tests of src/scripts/tests, run by the kernel on the
    definitions.

    A definition has the name of the Python function it models, or names a part of one; a
    record with [args] in its name holds what [argparse] returns.

    ** What is proved

    - The images are the program: [Elf2mem.convert_writes_loaded_memory] (end to end),
      [parse_blob_refines] (the ELF32 format as a specification), the banks
      ([write_interleaved_banks_stride], [PatchBit.split_image_banks]).
    - The bitstream gets those images: every bit of every word is in one block RAM
      ([Mmi.layout_covers_once]), a classified table is complete, the patcher accepts the
      generated MMI ([PatchBit.mmi_document_validates]), no step is believed without
      evidence, nothing is overwritten; [Fpga.check_signs_off] and [vivado_main_fresh].
    - Together: each bit of each word that the program header loads is in one block RAM, in
      the image that updatemem gets for its bank ([BramFlow.loaded_bits_in_block_rams]);
      what elf2mem.py writes, check_images.py accepts
      ([ImageFlow.converted_image_accepted]); the recorded steps of a patch are a chain of
      digests from the base bitstream to the final one ([PatchChain.patch_steps_chain]).
    - The helpers: writing a manifest is atomic and reads back, what is read is a well-formed
      document ([Lib.read_json_typed]), containment is decided on
      resolved paths, quoting keeps words apart, hashing by blocks is hashing, the clocks of
      the boards are what their tables say.
    - A patch delivers: with an updatemem that merges the words it is given, [patch] ends
      with the base bitstream patched by the twelve images in their order, the result file
      says so, and nothing else of the store has changed ([PatchFlow.patch_delivers]).
    - Checks are sound: the memory map against the SystemVerilog package, the C header and
      the generated headers ([CheckMap.memory_map_agrees]), the dataset, the frozen sources of a competition entry, the image
      documents, the dependencies, the release, the file lists, the generated tree; with
      the writers they belong to where both are here ([SocContract.generate_then_check],
      [Release.package_verifies], [Competition.prepared_sources_verify],
      [Trees.write_manifest_lists]).
    - Builds are current or made anew: [Verilator.build_model_current],
      [Spike.spike_main_rebuilds]; results are consistent: [Verilator.run_image_checked]; the
      exit code of a regression is the verdict of its tests, each of which was run
      ([Regression.regression_verdict]); the tests of a gate are exactly those asked for
      ([IsaTests.select_tests_exact]); a recorded command line is read back word
      for word ([Replay.replay_repeats_run]); every injected fault is tried and has to be
      found ([Replay.selftest_verdict]).
    - Termination: the recursive file lists end for every store
      ([Verilator.filelist_inputs_total], [Filelists.check_filelists_sound]).
    - Comment removal refines a lexical specification: [RtlClean.strip_comments_tokens].
    - [clean] removes nothing outside the build directory: [Trees.clean_inside_build].

    ** Fuel

    Recursion that is not structural takes a fuel that is shown to be enough or that
    bounds what the code does: the JSON parser takes twice the length of the text and two
    ([Json.loads_dump]); the matcher's [findall] and [sub] one step per character, the XML
    parser twice the length of the text and four; decimal digits the logarithm of the number; the comment remover one step per
    character ([RtlClean.strip_comments_tokens] has no case for an end of fuel); the
    file lists one level per file of the store, after which the model raises
    [RecursionError], shown never to happen.

    ** Hypotheses

    About programs: [updatemem_writes_output] in [PatchChain] (updatemem changes no file
    but its output) and [updatemem_conforms] in [PatchFlow] (it succeeds on readable inputs,
    prints no error and writes the merged bitstream). About documents: [patch_inputs] and
    [mmi_table] in [PatchFlow], the inputs of a patch and the table the MMI comes from. About
    places: that the files of a run are apart from its inputs
    ([run_apart], [soc_inputs]), where a script would otherwise overwrite what it reads.
    Each theorem with such a hypothesis has a witness on a concrete store.

    ** Not modelled

    The RTL, test benches, embedded C and assembly, Tcl and constraints: they are not Python,
    and for the scripts they are inputs or programs of the host.  The earlier copies of
    the scripts under src/backup.  Seven unit tests: three read the RTL, the constraints
    and the Tcl of the repository, three generate an MMI of a whole design and one patches
    a bitstream, which takes digests too long to evaluate in the kernel (that case is the
    instance of [PatchFlow.patch_delivers], proved without evaluating the digests).  Of the scripts:
    the parsing of the command line by [argparse] (its result is an argument; its usage errors are
    [Py.parser_error]); floating-point arithmetic (a float is the text of its literal; the
    few conversions needed are section variables); white space and letter case outside
    ASCII; concurrency of other processes with a script, except what a program run by it
    does.  A modification time is a counter of the store. *)
From Stdlib Require Import ZArith Lia Permutation Sorted.
From stdpp Require Export base list strings gmap sets.
From Stdlib Require Ascii.
From Stdlib Require String.
Export Stdlib.Strings.Ascii (ascii(..)).
Export (notations) Stdlib.Strings.Ascii Stdlib.Strings.String.

#[global] Set Warnings "-notation-overridden".

(** ** Scopes and notations *)

Declare Scope py_scope.
Delimit Scope py_scope with py.
#[export] Set Default Goal Selector "!".

Notation "'len' l" := (Z.of_nat (List.length l)) (at level 9, l at level 9) : py_scope.
Notation "'slen' s" := (Z.of_nat (String.length s)) (at level 9, s at level 9) : py_scope.

(** ** Automation *)

Create HintDb pydb.
Create Rewrite HintDb pyrw.

(** Opens conjunctions and existentials of the context. *)
Ltac deex :=
  repeat match goal with
  | H : exists x, _ |- _ => let y := fresh x in destruct H as [y H]
  | H : _ /\ _ |- _ => destruct H
  end.

(** Turns the boolean tests of the code into propositions. *)
Ltac bool_props :=
  repeat match goal with
  | H : negb _ = true |- _ => apply negb_true_iff in H
  | H : negb _ = false |- _ => apply negb_false_iff in H
  | H : (_ && _)%bool = true |- _ => apply andb_true_iff in H; destruct H
  | H : (_ || _)%bool = false |- _ => apply orb_false_iff in H; destruct H
  | H : (_ && _)%bool = false |- _ => apply andb_false_iff in H
  | H : (_ || _)%bool = true |- _ => apply orb_true_iff in H
  | H : (_ =? _)%Z = true |- _ => apply Z.eqb_eq in H
  | H : (_ =? _)%Z = false |- _ => apply Z.eqb_neq in H
  | H : (_ <? _)%Z = true |- _ => apply Z.ltb_lt in H
  | H : (_ <? _)%Z = false |- _ => apply Z.ltb_ge in H
  | H : (_ <=? _)%Z = true |- _ => apply Z.leb_le in H
  | H : (_ <=? _)%Z = false |- _ => apply Z.leb_gt in H
  | H : bool_decide _ = true |- _ => apply bool_decide_eq_true in H
  | H : bool_decide _ = false |- _ => apply bool_decide_eq_false in H
  | H : String.eqb _ _ = true |- _ => apply String.eqb_eq in H
  | H : String.eqb _ _ = false |- _ => apply String.eqb_neq in H
  end.

(** Linear arithmetic with division and remainder by constants. *)
Ltac dlia := zify; Z.to_euclidean_division_equations; lia.

Lemma pair_fst {A B} (p : A * B) (a : A) : p.1 = a -> p = (a, p.2).
Proof. intros <-. by destruct p. Qed.

(** Closes an equation between closed terms by evaluation, keeping the proof term
    as small as its statement.  The second component of a result that is written as
    the projection of the result itself is not evaluated. *)
Ltac by_eval :=
  try lazymatch goal with |- ?p = (?a, ?p.2) => refine (pair_fst p a _) end;
  match goal with
  | |- ?a = _ => vm_cast_no_check (@eq_refl _ a)
  | _ => vm_compute; reflexivity
  end.

(** ** Lists *)

(** [chunks n l] cuts [l] in pieces of [n] elements (the last may be shorter);
    the first argument of the worker is a counter. *)
Fixpoint chunks_aux {A} (fuel n : nat) (l : list A) : list (list A) :=
  match fuel, l with
  | O, _ | _, [] => []
  | S fuel, _ => take n l :: chunks_aux fuel n (drop n l)
  end.
Definition chunks {A} (n : nat) (l : list A) : list (list A) :=
  chunks_aux (List.length l) n l.

(** Stable insertion sort: what [sorted(l, key=...)] returns for a total preorder. *)
Fixpoint insert_by {A} (leb : A -> A -> bool) (x : A) (l : list A) : list A :=
  match l with
  | [] => [x]
  | y :: l' => if leb x y then x :: l else y :: insert_by leb x l'
  end.
Definition sort_by {A} (leb : A -> A -> bool) (l : list A) : list A :=
  foldr (insert_by leb) [] l.

Lemma insert_by_Permutation {A} (leb : A -> A -> bool) x l :
  Permutation (insert_by leb x l) (x :: l).
Proof.
  induction l as [|y l IH]; simpl; [done|].
  destruct (leb x y); [done|]. rewrite IH. constructor.
Qed.

Lemma sort_by_Permutation {A} (leb : A -> A -> bool) l : Permutation (sort_by leb l) l.
Proof.
  induction l as [|x l IH]; simpl; [done|]. by rewrite insert_by_Permutation, IH.
Qed.

Lemma elem_of_sort_by {A} (leb : A -> A -> bool) l x : x ∈ sort_by leb l <-> x ∈ l.
Proof. by rewrite (sort_by_Permutation leb l). Qed.

Lemma length_sort_by {A} (leb : A -> A -> bool) l :
  List.length (sort_by leb l) = List.length l.
Proof. apply Permutation_length, sort_by_Permutation. Qed.

Section sorting.
Context {A : Type} (leb : A -> A -> bool).
Hypothesis leb_total : forall x y, leb x y = true \/ leb y x = true.
Hypothesis leb_trans : forall x y z, leb x y = true -> leb y z = true -> leb x z = true.

Lemma insert_by_sorted x l :
  StronglySorted (fun a b => leb a b = true) l ->
  StronglySorted (fun a b => leb a b = true) (insert_by leb x l).
Proof.
  induction 1 as [|y l Hs IH Hall]; simpl; [repeat constructor|].
  destruct (leb x y) eqn:E.
  - constructor; [by constructor|]. constructor; [done|].
    eapply Forall_impl; [exact Hall|]. intros z Hz. by eapply leb_trans.
  - constructor; [done|]. rewrite insert_by_Permutation. constructor; [|done].
    destruct (leb_total x y); congruence.
Qed.

Lemma sort_by_sorted l : StronglySorted (fun a b => leb a b = true) (sort_by leb l).
Proof. induction l; simpl; [constructor|]. by apply insert_by_sorted. Qed.
End sorting.

(** Sorting a list that is sorted already changes nothing. *)
Lemma sort_by_id {A} (leb : A -> A -> bool) l :
  StronglySorted (fun a b => leb a b = true) l -> sort_by leb l = l.
Proof.
  induction 1 as [|y l Hs IH Hall]; [done|].
  change (sort_by leb (y :: l)) with (insert_by leb y (sort_by leb l)). rewrite IH.
  destruct l as [|z l]; simpl; [done|]. apply Forall_inv in Hall. by rewrite Hall.
Qed.

Lemma drop_cons_lookup {A} (l : list A) i x :
  l !! i = Some x -> drop i l = x :: drop (S i) l.
Proof. intros H. by apply drop_S. Qed.

Lemma take_add {A} (l : list A) i n : take (i + n) l = take i l ++ take n (drop i l).
Proof.
  revert i; induction l as [|x l IH]; intros [|i]; simpl; try done.
  - by rewrite !take_nil.
  - by rewrite IH.
Qed.

Lemma chunks_aux_concat {A} n : n <> O -> forall fuel (l : list A),
  List.length l <= fuel -> concat (chunks_aux fuel n l) = l.
Proof.
  intros Hn. induction fuel as [|fuel IH]; intros l Hl.
  - destruct l; simpl in *; [done|lia].
  - destruct l as [|x l]; [done|]. cbn [chunks_aux concat].
    rewrite IH; [by rewrite take_drop|].
    rewrite length_drop. simpl in *. lia.
Qed.

Lemma chunks_concat {A} n (l : list A) : n <> O -> concat (chunks n l) = l.
Proof. intros Hn. by apply chunks_aux_concat. Qed.

Lemma chunks_aux_fuel {A} n : n <> O -> forall fuel fuel' (l : list A),
  List.length l <= fuel -> List.length l <= fuel' ->
  chunks_aux fuel n l = chunks_aux fuel' n l.
Proof.
  intros Hn. induction fuel as [|fuel IH]; intros [|fuel'] [|x l] H1 H2; simpl in *; try done; try lia.
  f_equal. destruct n; [done|]. simpl. apply IH; rewrite length_drop; lia.
Qed.

Lemma chunks_nil {A} n : chunks n ([] : list A) = [].
Proof. done. Qed.

Lemma chunks_cons {A} n (l : list A) : n <> O -> l <> [] ->
  chunks n l = take n l :: chunks n (drop n l).
Proof.
  intros Hn Hl. unfold chunks. destruct l as [|x l]; [done|].
  change (chunks_aux (List.length (x :: l)) n (x :: l)) with
    (take n (x :: l) :: chunks_aux (List.length l) n (drop n (x :: l))).
  f_equal. apply chunks_aux_fuel; [done| |lia].
  rewrite length_drop. simpl. lia.
Qed.

Lemma chunks_lookup {A} n (l : list A) i : n <> O -> i * n < List.length l ->
  chunks n l !! i = Some (take n (drop (i * n) l)).
Proof.
  intros Hn. revert l. induction i as [|i IH]; intros l Hi.
  - rewrite chunks_cons; [done|done|]. intros ->. simpl in Hi. lia.
  - rewrite chunks_cons; [|done|intros ->; simpl in *; lia]. simpl.
    rewrite IH; [|rewrite length_drop; simpl in Hi; lia].
    by rewrite drop_drop.
Qed.

Lemma chunks_length {A} n k (l : list A) : n <> O -> List.length l = k * n ->
  List.length (chunks n l) = k.
Proof.
  intros Hn. revert l. induction k as [|k IH]; intros l Hl.
  - destruct l; [done|simpl in *; lia].
  - rewrite chunks_cons; [|done|intros ->; simpl in *; lia]. simpl. f_equal.
    apply IH. rewrite length_drop. simpl in Hl. lia.
Qed.

(** ** Insertion-ordered dictionaries *)

Section alist.
Context {V : Type}.
Implicit Type d : list (string * V).

Fixpoint dict_get (k : string) d : option V :=
  match d with
  | [] => None
  | (k', v) :: d' => if String.eqb k k' then Some v else dict_get k d'
  end.

(** [d[k] = v]: an existing key keeps its place, a new one goes last. *)
Fixpoint dict_set (k : string) (v : V) d : list (string * V) :=
  match d with
  | [] => [(k, v)]
  | (k', v') :: d' => if String.eqb k k' then (k', v) :: d' else (k', v') :: dict_set k v d'
  end.

Definition dict_mem (k : string) d : bool :=
  match dict_get k d with Some _ => true | None => false end.

Definition dict_keys d : list string := d.*1.

Lemma dict_get_set k v d : dict_get k (dict_set k v d) = Some v.
Proof.
  induction d as [|[k' v'] d IH]; simpl; [by rewrite String.eqb_refl|].
  destruct (String.eqb k k') eqn:E; simpl; rewrite E; done.
Qed.

Lemma dict_get_set_ne k k' v d : k <> k' -> dict_get k (dict_set k' v d) = dict_get k d.
Proof.
  intros Hne. apply String.eqb_neq in Hne.
  induction d as [|[k2 v2] d IH]; simpl; [by rewrite Hne|].
  destruct (String.eqb k' k2) eqn:E; simpl.
  - apply String.eqb_eq in E as ->. by rewrite Hne.
  - by rewrite IH.
Qed.

Lemma dict_get_elem k v d : dict_get k d = Some v -> (k, v) ∈ d.
Proof.
  induction d as [|[k' v'] d IH]; simpl; [done|].
  destruct (String.eqb k k') eqn:E; intros H.
  - apply String.eqb_eq in E as ->. simplify_eq. left.
  - right. by apply IH.
Qed.

Lemma elem_dict_get k v d : NoDup (dict_keys d) -> (k, v) ∈ d -> dict_get k d = Some v.
Proof.
  induction d as [|[k' v'] d IH]; simpl; intros Hnd Hin; [by apply not_elem_of_nil in Hin|].
  inversion Hnd as [|? ? Hni Hnd']; subst.
  apply elem_of_cons in Hin as [Heq|Hin].
  - simplify_eq. by rewrite String.eqb_refl.
  - destruct (String.eqb k k') eqn:E; [|by apply IH].
    apply String.eqb_eq in E as ->. exfalso. apply Hni.
    apply list_elem_of_fmap. by exists (k', v).
Qed.

Lemma dict_get_None k d : dict_get k d = None <-> k ∉ dict_keys d.
Proof.
  induction d as [|[k' v'] d IH]; simpl; [split; [intros _; apply not_elem_of_nil|done]|].
  rewrite not_elem_of_cons. destruct (String.eqb k k') eqn:E.
  - apply String.eqb_eq in E as ->. split; [done|intros [? _]; done].
  - apply String.eqb_neq in E. rewrite IH. tauto.
Qed.
End alist.

#[export] Hint Rewrite @dict_get_set : pyrw.
#[export] Hint Resolve dict_get_elem elem_dict_get : pydb.

(** ** Integers *)

(** [(n + 3) & ~3] rounds up to a multiple of four. *)
Lemma land_lnot3 n : Z.land (n + 3) (Z.lnot 3) = (4 * ((n + 3) / 4))%Z.
Proof.
  rewrite <- Z.ldiff_land. change 3%Z with (Z.ones 2) at 2.
  rewrite Z.ldiff_ones_r by lia. rewrite Z.shiftr_div_pow2, Z.shiftl_mul_pow2 by lia.
  change (2 ^ 2)%Z with 4%Z. lia.
Qed.
