(* ===== verification/Str.v ===== *)
(** Python [str] operations used by the scripts, on byte strings (the UTF-8
    encoding of the text): slicing, searching, splitting, stripping, joining,
    number formatting ([str(n)], [f"{n:08x}"], [f"{n:x}"]) and parsing
    ([int(s)], [int(s, 0)], [int(s, 16)]), with the round-trip lemmas that the
    components share.  White space and letter case are the ASCII ones. *)
From Stdlib Require Import ZArith Lia.
From S2P Require Import Prelude.
Local Open Scope Z_scope.

Definition chr (n : N) : ascii := Ascii.ascii_of_N n.
Definition ord (c : ascii) : Z := Z.of_N (Ascii.N_of_ascii c).
Definition ch (c : ascii) : string := String c EmptyString.
Definition nl : string := ch (chr 10).
Definition cr : string := ch (chr 13).
Definition tab : string := ch (chr 9).
(** The double quote. *)
Definition dq : string := ch (chr 34).
Definition bsl : string := ch (chr 92).

(** ** Slicing and searching *)

Fixpoint stake (n : nat) (s : string) : string :=
  match n, s with
  | S n, String c s => String c (stake n s)
  | _, _ => ""
  end.

Fixpoint sdrop (n : nat) (s : string) : string :=
  match n, s with
  | S n, String _ s => sdrop n s
  | _, _ => s
  end.

Definition startswith (s p : string) : bool := String.prefix p s.

Definition endswith (s p : string) : bool :=
  Nat.leb (String.length p) (String.length s) &&
  String.eqb (sdrop (String.length s - String.length p) s) p.

(** [s.find(sub)]: the first index, if any. *)
Fixpoint find (sub s : string) : option nat :=
  if String.prefix sub s then Some O else
  match s with
  | EmptyString => None
  | String _ s' => S <$> find sub s'
  end.

(** [sub in s] *)
Definition contains (sub s : string) : bool :=
  match find sub s with Some _ => true | None => false end.

Fixpoint sforall (f : ascii -> bool) (s : string) : bool :=
  match s with
  | EmptyString => true
  | String c s => f c && sforall f s
  end.

Fixpoint sexists (f : ascii -> bool) (s : string) : bool :=
  match s with
  | EmptyString => false
  | String c s => f c || sexists f s
  end.

Fixpoint smap (f : ascii -> ascii) (s : string) : string :=
  match s with
  | EmptyString => ""
  | String c s => String (f c) (smap f s)
  end.

Fixpoint srepeat (c : ascii) (n : nat) : string :=
  match n with
  | O => ""
  | S n => String c (srepeat c n)
  end.

(** ** Character classes *)

Definition in_range (lo hi : Z) (c : ascii) : bool := (lo <=? ord c) && (ord c <=? hi).
Definition is_space (c : ascii) : bool :=
  in_range 9 13 c || in_range 28 32 c.
Definition is_digit (c : ascii) : bool := in_range 48 57 c.
Definition is_upper (c : ascii) : bool := in_range 65 90 c.
Definition is_lower (c : ascii) : bool := in_range 97 122 c.
Definition is_alnum (c : ascii) : bool := is_digit c || is_upper c || is_lower c.
Definition is_hex (c : ascii) : bool := is_digit c || in_range 65 70 c || in_range 97 102 c.
Definition char_in (set : string) (c : ascii) : bool := sexists (Ascii.eqb c) set.

Definition lower_char (c : ascii) : ascii :=
  if is_upper c then chr (Ascii.N_of_ascii c + 32) else c.
Definition upper_char (c : ascii) : ascii :=
  if is_lower c then chr (Ascii.N_of_ascii c - 32) else c.
Definition lower : string -> string := smap lower_char.
Definition upper : string -> string := smap upper_char.

(** ** Stripping *)

Fixpoint lstrip_by (f : ascii -> bool) (s : string) : string :=
  match s with
  | EmptyString => ""
  | String c s' => if f c then lstrip_by f s' else s
  end.

Fixpoint rstrip_by (f : ascii -> bool) (s : string) : string :=
  match s with
  | EmptyString => ""
  | String c s' =>
      match rstrip_by f s' with
      | EmptyString => if f c then "" else ch c
      | t => String c t
      end
  end.

Definition strip_by (f : ascii -> bool) (s : string) : string := rstrip_by f (lstrip_by f s).
Definition strip : string -> string := strip_by is_space.
Definition rstrip : string -> string := rstrip_by is_space.

(** ** Splitting and joining *)

Fixpoint split_char (c : ascii) (s : string) : list string :=
  match s with
  | EmptyString => [""]
  | String d s' =>
      if Ascii.eqb d c then "" :: split_char c s'
      else match split_char c s' with
           | h :: t => String d h :: t
           | [] => [ch d]
           end
  end.

(** [s.split(c, n)]: at most [n] cuts. *)
Fixpoint split_max (c : ascii) (n : nat) (s : string) : list string :=
  match s with
  | EmptyString => [""]
  | String d s' =>
      match n with
      | O => [s]
      | S n' =>
          if Ascii.eqb d c then "" :: split_max c n' s'
          else match split_max c n s' with
               | h :: t => String d h :: t
               | [] => [ch d]
               end
      end
  end.

(** [s.partition(c)] without the separator. *)
Definition partition (c : ascii) (s : string) : string * string :=
  match split_max c 1 s with
  | [a; b] => (a, b)
  | _ => (s, "")
  end.

(** [s.split()] *)
Fixpoint split_ws (s : string) : list string :=
  match s with
  | EmptyString => []
  | String c s' =>
      if is_space c then split_ws s'
      else match s' with
           | EmptyString => [ch c]
           | String d _ =>
               if is_space d then ch c :: split_ws s'
               else match split_ws s' with
                    | h :: t => String c h :: t
                    | [] => [ch c]
                    end
           end
  end.

Definition join (sep : string) (l : list string) : string := String.concat sep l.

Definition lines_push (c : ascii) (l : list (string * string)) : list (string * string) :=
  match l with
  | [] => [(ch c, "")]
  | (b, e) :: r => (String c b, e) :: r
  end.

(** [s.splitlines()] as (body, line ending) pairs.  The separators are those of
    Python: LF, CR, CRLF, VT, FF, FS, GS, RS, NEL (C2 85), LS and PS (E2 80 A8/A9). *)
Fixpoint line_pairs (s : string) : list (string * string) :=
  match s with
  | EmptyString => []
  | String c s' =>
      if Ascii.eqb c (chr 13) then
        match s' with
        | String d s'' => if Ascii.eqb d (chr 10) then ("", String c (ch d)) :: line_pairs s''
                          else ("", ch c) :: line_pairs s'
        | EmptyString => [("", ch c)]
        end
      else if in_range 10 12 c || in_range 28 30 c then ("", ch c) :: line_pairs s'
      else
        match s' with
        | String d s'' =>
            if Ascii.eqb c (chr 194) && Ascii.eqb d (chr 133)
            then ("", String c (ch d)) :: line_pairs s''
            else
              match s'' with
              | String e s3 =>
                  if Ascii.eqb c (chr 226) && Ascii.eqb d (chr 128) &&
                     (Ascii.eqb e (chr 168) || Ascii.eqb e (chr 169))
                  then ("", String c (String d (ch e))) :: line_pairs s3
                  else lines_push c (line_pairs s')
              | EmptyString => lines_push c (line_pairs s')
              end
        | EmptyString => lines_push c (line_pairs s')
        end
  end.

Definition splitlines (s : string) : list string := (line_pairs s).*1.
Definition splitlines_keepends (s : string) : list string :=
  (fun p => p.1 +:+ p.2) <$> line_pairs s.

(** What text-mode reading does to line ends. *)
Fixpoint universal_newlines (s : string) : string :=
  match s with
  | EmptyString => ""
  | String c s' =>
      if Ascii.eqb c (chr 13) then
        match s' with
        | String d s'' =>
            if Ascii.eqb d (chr 10) then String d (universal_newlines s'')
            else String (chr 10) (universal_newlines s')
        | EmptyString => nl
        end
      else String c (universal_newlines s')
  end.

Fixpoint replace_aux (old new : string) (skip : nat) (s : string) : string :=
  match s with
  | EmptyString => ""
  | String c s' =>
      match skip with
      | S k => replace_aux old new k s'
      | O => if String.prefix old s
             then new +:+ replace_aux old new (pred (String.length old)) s'
             else String c (replace_aux old new O s')
      end
  end.
(** [s.replace(old, new)] for a non-empty [old]. *)
Definition replace (old new s : string) : string := replace_aux old new O s.

(** ** Numbers *)

Definition digit_char (d : Z) : ascii :=
  chr (Z.to_N (if d <? 10 then 48 + d else 87 + d)).

Definition digit_val (c : ascii) : option Z :=
  if is_digit c then Some (ord c - 48)
  else if is_lower c then Some (ord c - 87)
  else if is_upper c then Some (ord c - 55)
  else None.

Fixpoint digits_aux (fuel : nat) (b n : Z) (acc : string) : string :=
  match fuel with
  | O => acc
  | S fuel =>
      if n <? b then String (digit_char n) acc
      else digits_aux fuel b (n / b) (String (digit_char (n mod b)) acc)
  end.
(** The digits of [n >= 0] in base [b]. *)
Definition digits (b n : Z) : string := digits_aux (S (Z.to_nat (Z.log2 n + 1))) b n "".

(** The value of a digit string read after [acc]. *)
Fixpoint val_from (b acc : Z) (s : string) : option Z :=
  match s with
  | EmptyString => Some acc
  | String c s' =>
      match digit_val c with
      | Some d => if d <? b then val_from b (acc * b + d) s' else None
      | None => None
      end
  end.

Definition signed (f : Z -> string) (n : Z) : string :=
  if n <? 0 then "-" +:+ f (- n) else f n.

(** [str(n)] *)
Definition str_of_Z : Z -> string := signed (digits 10).
(** [f"{n:x}"] *)
Definition hex : Z -> string := signed (digits 16).

Definition zfill (w : nat) (s : string) : string :=
  srepeat "0" (w - String.length s) +:+ s.
(** [f"{n:08x}"] *)
Definition hex08 (n : Z) : string :=
  if n <? 0 then "-" +:+ zfill 7 (digits 16 (- n)) else zfill 8 (digits 16 n).

(** Digits with single underscores between them; [d] tells whether the previous
    character was a digit. *)
Fixpoint int_scan (b acc : Z) (d : bool) (s : string) : option Z :=
  match s with
  | EmptyString => if d then Some acc else None
  | String c s' =>
      if Ascii.eqb c "_" then (if d then int_scan b acc false s' else None)
      else match digit_val c with
           | Some v => if v <? b then int_scan b (acc * b + v) true s' else None
           | None => None
           end
  end.

(** An optional underscore may follow a base prefix. *)
Definition int_scan_prefixed (b : Z) (s : string) : option Z :=
  match s with
  | String c s' => if Ascii.eqb c "_" then int_scan b 0 false s' else int_scan b 0 false s
  | EmptyString => None
  end.

Definition int_base0 (s : string) : option Z :=
  match s with
  | String z (String x r) =>
      if Ascii.eqb z "0" then
        if char_in "xX" x then int_scan_prefixed 16 r
        else if char_in "oO" x then int_scan_prefixed 8 r
        else if char_in "bB" x then int_scan_prefixed 2 r
        else match int_scan 10 0 false s with
             | Some 0 => Some 0
             | _ => None
             end
      else int_scan 10 0 false s
  | _ => int_scan 10 0 false s
  end.

Definition int_base16 (s : string) : option Z :=
  match s with
  | String z (String x r) =>
      if Ascii.eqb z "0" && char_in "xX" x then int_scan_prefixed 16 r
      else int_scan 16 0 false s
  | _ => int_scan 16 0 false s
  end.

Definition with_sign (f : string -> option Z) (s : string) : option Z :=
  match strip s with
  | String c r => if Ascii.eqb c "-" then Z.opp <$> f r
                  else if Ascii.eqb c "+" then f r
                  else f (String c r)
  | EmptyString => None
  end.

(** [int(s)], [int(s, 0)], [int(s, 16)]; [None] is the [ValueError]. *)
Definition py_int : string -> option Z := with_sign (int_scan 10 0 false).
Definition py_int0 : string -> option Z := with_sign int_base0.
Definition py_int16 : string -> option Z := with_sign int_base16.

(** ** Representations and bytes *)

Definition hex2 (n : Z) : string := String (digit_char (n / 16)) (ch (digit_char (n mod 16))).

Fixpoint repr_body (q : ascii) (s : string) : string :=
  match s with
  | EmptyString => ""
  | String c s' =>
      (if Ascii.eqb c (chr 92) then bsl +:+ bsl
       else if Ascii.eqb c q then bsl +:+ ch q
       else if Ascii.eqb c (chr 10) then bsl +:+ "n"
       else if Ascii.eqb c (chr 13) then bsl +:+ "r"
       else if Ascii.eqb c (chr 9) then bsl +:+ "t"
       else if (ord c <? 32) || (ord c =? 127) then bsl +:+ "x" +:+ hex2 (ord c)
       else ch c) +:+ repr_body q s'
  end.

(** [repr(s)] *)
Definition repr_str (s : string) : string :=
  let sq := chr 39 in
  if char_in s sq && negb (char_in s (chr 34)) then dq +:+ repr_body (chr 34) s +:+ dq
  else ch sq +:+ repr_body sq s +:+ ch sq.

(** [repr([...])] of already represented items. *)
Definition repr_list (l : list string) : string := "[" +:+ join ", " l +:+ "]".

Fixpoint to_bytes (s : string) : list Z :=
  match s with
  | EmptyString => []
  | String c s' => ord c :: to_bytes s'
  end.

Fixpoint of_bytes (l : list Z) : string :=
  match l with
  | [] => ""
  | b :: l' => String (chr (Z.to_N b)) (of_bytes l')
  end.

(** Well-formed UTF-8 (RFC 3629). *)
Fixpoint utf8_valid (s : string) : bool :=
  let cont := in_range 128 191 in
  match s with
  | EmptyString => true
  | String c r =>
      if ord c <? 128 then utf8_valid r
      else match r with
      | EmptyString => false
      | String d r2 =>
          if in_range 194 223 c then cont d && utf8_valid r2
          else match r2 with
          | EmptyString => false
          | String e r3 =>
              if in_range 224 239 c then
                cont d && cont e && negb ((ord c =? 224) && (ord d <? 160)) &&
                negb ((ord c =? 237) && (159 <? ord d)) && utf8_valid r3
              else match r3 with
              | EmptyString => false
              | String f r4 =>
                  in_range 240 244 c && cont d && cont e && cont f &&
                  negb ((ord c =? 240) && (ord d <? 144)) &&
                  negb ((ord c =? 244) && (143 <? ord d)) && utf8_valid r4
              end
          end
      end
  end.

Definition string_leb (a b : string) : bool :=
  match String.compare a b with Gt => false | _ => true end.

(** ** Lemmas *)

Lemma sapp_cons c (a b : string) : String c a +:+ b = String c (a +:+ b).
Proof. done. Qed.

Lemma sapp_nil_l (a : string) : "" +:+ a = a.
Proof. done. Qed.

Lemma sapp_assoc (a b c : string) : (a +:+ b) +:+ c = a +:+ b +:+ c.
Proof. induction a as [|x a IH]; [done|]. rewrite !sapp_cons. by rewrite IH. Qed.

Lemma sapp_nil_r (a : string) : a +:+ "" = a.
Proof. induction a as [|x a IH]; [done|]. rewrite sapp_cons. by rewrite IH. Qed.

Lemma slength_app a b : String.length (a +:+ b) = (String.length a + String.length b)%nat.
Proof. induction a as [|x a IH]; [done|]. rewrite sapp_cons. simpl. by rewrite IH. Qed.

Lemma sapp_inj_l a b c : a +:+ b = a +:+ c -> b = c.
Proof.
  induction a as [|x a IH]; [done|]. rewrite !sapp_cons. intros H. apply IH. congruence.
Qed.
Lemma sapp_inj_r (a b c : string) : a +:+ c = b +:+ c -> a = b.
Proof.
  revert b. induction a as [|x a IH]; intros [|y b]; rewrite ?sapp_cons, ?sapp_nil_l; intros E; [done| | |].
  - apply (f_equal String.length) in E. simpl in E. rewrite slength_app in E. lia.
  - apply (f_equal String.length) in E. simpl in E. rewrite slength_app in E. lia.
  - injection E as -> E. f_equal. by apply IH.
Qed.

Lemma sapp_suffix (a b c d : string) : String.length c = String.length d -> a +:+ c = b +:+ d -> c = d.
Proof.
  intros Hl. revert b. induction a as [|x a IH]; intros [|y b]; rewrite ?sapp_cons, ?sapp_nil_l; intros E; [done| | |].
  - apply (f_equal String.length) in E. simpl in E. rewrite slength_app in E. lia.
  - apply (f_equal String.length) in E. simpl in E. rewrite slength_app in E. lia.
  - injection E as _ E. by eapply IH.
Qed.

#[export] Hint Rewrite sapp_cons sapp_nil_l sapp_assoc sapp_nil_r slength_app : pyrw.

Lemma prefix_app p s : String.prefix p (p +:+ s) = true.
Proof.
  induction p as [|c p IH]; [by destruct s|]. rewrite sapp_cons. simpl.
  by destruct (Ascii.ascii_dec c c).
Qed.

Lemma prefix_inv p s : String.prefix p s = true -> exists r, s = p +:+ r.
Proof.
  revert s. induction p as [|c p IH]; intros s H; [by exists s|].
  destruct s as [|d s]; simpl in H; [done|]. destruct (Ascii.ascii_dec c d) as [->|]; [|done].
  destruct (IH s H) as [r ->]. by exists r.
Qed.

Lemma ord_range c : 0 <= ord c < 256.
Proof.
  unfold ord. pose proof (Ascii.N_ascii_bounded c). lia.
Qed.

Lemma ord_chr n : (n < 256)%N -> ord (chr n) = Z.of_N n.
Proof. intros H. unfold ord, chr. by rewrite Ascii.N_ascii_embedding. Qed.

Lemma ord_inj a b : ord a = ord b -> a = b.
Proof.
  unfold ord. intros H. apply N2Z.inj in H.
  rewrite <- (Ascii.ascii_N_embedding a), <- (Ascii.ascii_N_embedding b). by rewrite H.
Qed.

(** Case analysis on the finite type of characters, by computation. *)
Definition all_chars : list ascii := chr <$> (N.of_nat <$> seq 0 256).

Lemma elem_of_all_chars c : c ∈ all_chars.
Proof.
  apply list_elem_of_fmap. exists (Ascii.N_of_ascii c). split.
  - unfold chr. by rewrite Ascii.ascii_N_embedding.
  - apply list_elem_of_fmap. exists (N.to_nat (Ascii.N_of_ascii c)).
    split; [by rewrite N2Nat.id|]. apply elem_of_seq.
    pose proof (Ascii.N_ascii_bounded c). lia.
Qed.

Lemma forall_chars (f : ascii -> bool) :
  forallb f all_chars = true -> forall c, f c = true.
Proof.
  intros H c. rewrite forallb_forall in H. apply H.
  apply list_elem_of_In, elem_of_all_chars.
Qed.

Ltac by_chars c :=
  match goal with |- ?f = true =>
    let g := eval pattern c in f in
    match g with ?h c => exact (forall_chars h eq_refl c) end
  end.

Lemma digit_val_char d : 0 <= d < 36 -> digit_val (digit_char d) = Some d.
Proof.
  intros H. assert (Hin : d ∈ seqZ 0 36) by (apply elem_of_seqZ; lia).
  assert (Hall : forallb (fun d => bool_decide (digit_val (digit_char d) = Some d)) (seqZ 0 36)
                 = true) by (vm_compute; reflexivity).
  rewrite forallb_forall in Hall. apply list_elem_of_In, Hall in Hin. by bool_props.
Qed.

Lemma digits_aux_S fuel b n acc :
  digits_aux (S fuel) b n acc =
  if n <? b then String (digit_char n) acc
  else digits_aux fuel b (n / b) (String (digit_char (n mod b)) acc).
Proof. done. Qed.

Lemma val_from_digit b d s : 0 <= d < b -> b <= 36 ->
  forall a, val_from b a (String (digit_char d) s) = val_from b (a * b + d) s.
Proof.
  intros Hd Hb a. cbn [val_from]. rewrite digit_val_char by lia.
  destruct (Z.ltb_spec d b); [done|lia].
Qed.

Lemma val_from_digits_aux b fuel n acc :
  2 <= b <= 36 -> 0 <= n -> n < 2 ^ Z.of_nat fuel ->
  val_from b 0 (digits_aux (S fuel) b n acc) = val_from b n acc.
Proof.
  intros Hb. revert n acc. induction fuel as [|fuel IH]; intros n acc Hn Hlt;
    rewrite digits_aux_S; destruct (Z.ltb_spec n b).
  - by rewrite val_from_digit by lia.
  - change (2 ^ Z.of_nat 0) with 1 in Hlt. lia.
  - by rewrite val_from_digit by lia.
  - assert (0 <= n mod b < b) by (apply Z.mod_pos_bound; lia).
    rewrite Nat2Z.inj_succ, Z.pow_succ_r in Hlt by lia.
    rewrite IH; [|apply Z.div_pos; lia|apply Z.div_lt_upper_bound; nia].
    rewrite val_from_digit by lia. f_equal. pose proof (Z.div_mod n b). lia.
Qed.

(** The digits of [n] in base [b] read back as [n]. *)
Lemma val_from_digits b n : 2 <= b <= 36 -> 0 <= n -> val_from b 0 (digits b n) = Some n.
Proof.
  intros Hb Hn. unfold digits. pose proof (Z.log2_nonneg n).
  rewrite val_from_digits_aux; [done|done|done|].
  rewrite Z2Nat.id by lia. destruct (Z.eq_dec n 0) as [->|Hnz]; [done|].
  rewrite Z.add_1_r. apply Z.log2_spec. lia.
Qed.

Lemma val_from_app b a s t :
  val_from b a (s +:+ t) =
  match val_from b a s with Some a' => val_from b a' t | None => None end.
Proof.
  revert a. induction s as [|c s IH]; intros a; [done|]. rewrite sapp_cons. simpl.
  destruct (digit_val c); [|done]. case_match; auto.
Qed.

Lemma val_from_zeros b k : 0 < b -> val_from b 0 (srepeat "0" k) = Some 0.
Proof.
  intros Hb. induction k as [|k IH]; [done|]. cbn [srepeat val_from].
  change (digit_val "0") with (Some 0). cbv beta iota. destruct (Z.ltb_spec 0 b); [exact IH|lia].
Qed.

Lemma val_from_zfill b w s : 0 < b -> val_from b 0 (zfill w s) = val_from b 0 s.
Proof. intros Hb. unfold zfill. by rewrite val_from_app, val_from_zeros. Qed.

(** Every character of a digit string is a digit below the base. *)
Definition is_digit_of (b : Z) (c : ascii) : bool :=
  match digit_val c with Some d => d <? b | None => false end.

Lemma digits_aux_sforall b fuel n acc : 2 <= b <= 36 -> 0 <= n ->
  sforall (is_digit_of b) acc = true ->
  sforall (is_digit_of b) (digits_aux fuel b n acc) = true.
Proof.
  intros Hb. revert n acc. induction fuel as [|fuel IH]; intros n acc Hn Ha; simpl; [done|].
  assert (Hd : forall d, 0 <= d < b -> is_digit_of b (digit_char d) = true).
  { intros d Hd. unfold is_digit_of. rewrite digit_val_char by lia. apply Z.ltb_lt; lia. }
  destruct (n <? b) eqn:E; bool_props.
  - simpl. by rewrite Hd, Ha by lia.
  - apply IH; [apply Z.div_pos; lia|]. simpl.
    rewrite Hd, Ha; [done|]. apply Z.mod_pos_bound. lia.
Qed.

Lemma digits_sforall b n : 2 <= b <= 36 -> 0 <= n ->
  sforall (is_digit_of b) (digits b n) = true.
Proof. intros. by apply digits_aux_sforall. Qed.

Lemma digits_aux_length b fuel n acc :
  (String.length acc <= String.length (digits_aux fuel b n acc))%nat.
Proof.
  revert n acc. induction fuel as [|fuel IH]; intros n acc; simpl; [lia|].
  case_match; simpl; [lia|]. etransitivity; [|apply IH]. simpl. lia.
Qed.

Lemma digits_nonempty b n : digits b n <> "".
Proof.
  unfold digits. cbn [digits_aux]. case_match; [done|].
  match goal with |- digits_aux ?f _ ?m ?a <> _ =>
    pose proof (digits_aux_length b f m a) as Hl; simpl in Hl end.
  intros H0. rewrite H0 in Hl. simpl in Hl. lia.
Qed.

Lemma sforall_app f s t : sforall f (s +:+ t) = sforall f s && sforall f t.
Proof.
  induction s as [|c s IH]; [done|]. rewrite sapp_cons. simpl. by rewrite IH, andb_assoc.
Qed.

Lemma sforall_srepeat f c k : f c = true -> sforall f (srepeat c k) = true.
Proof. intros H. induction k as [|k IH]; simpl; [done|]. by rewrite H. Qed.

Lemma sforall_impl (f g : ascii -> bool) s :
  (forall c, f c = true -> g c = true) -> sforall f s = true -> sforall g s = true.
Proof.
  intros H. induction s as [|c s IH]; simpl; [done|]. intros Hs. bool_props.
  rewrite H by done. by apply IH.
Qed.

Lemma zfill_sforall b w s : 2 <= b -> sforall (is_digit_of b) s = true ->
  sforall (is_digit_of b) (zfill w s) = true.
Proof.
  intros Hb Hs. unfold zfill. rewrite sforall_app, Hs, sforall_srepeat; [done|].
  unfold is_digit_of. change (digit_val "0") with (Some 0). apply Z.ltb_lt. lia.
Qed.

Lemma slength_srepeat c k : String.length (srepeat c k) = k.
Proof. induction k; simpl; auto. Qed.

Lemma zfill_length w s : String.length (zfill w s) = Nat.max w (String.length s).
Proof. unfold zfill. rewrite slength_app, slength_srepeat. lia. Qed.

(** A digit string without underscores is scanned to its value. *)
Lemma int_scan_val b a d s : s <> "" \/ d = true -> sforall (is_digit_of b) s = true ->
  int_scan b a d s = val_from b a s.
Proof.
  revert a d. induction s as [|c s IH]; intros a d Hne Hall; simpl in *.
  - destruct Hne; [done|]. by subst.
  - bool_props. unfold is_digit_of in *. destruct (digit_val c) as [v|] eqn:Ev; [|done].
    destruct (Ascii.eqb c "_") eqn:Eu.
    + apply Ascii.eqb_eq in Eu. subst. done.
    + destruct (v <? b); [|done]. apply IH; auto.
Qed.

Lemma is_digit_of_not_us b c : is_digit_of b c = true -> Ascii.eqb c "_" = false.
Proof.
  unfold is_digit_of. destruct (Ascii.eqb c "_") eqn:E; [|done].
  apply Ascii.eqb_eq in E. by subst.
Qed.

Lemma is_digit_of_not_space b c : is_digit_of b c = true -> is_space c = false.
Proof.
  unfold is_digit_of. intros H.
  assert (Hc : implb (match digit_val c with Some _ => true | None => false end)
                 (negb (is_space c)) = true) by by_chars c.
  destruct (digit_val c); [|done]. simpl in Hc. by bool_props.
Qed.

Lemma rstrip_by_id f s : sforall (fun c => negb (f c)) s = true -> rstrip_by f s = s.
Proof.
  induction s as [|c s IH]; simpl; [done|]. intros H. bool_props.
  rewrite IH by done. destruct s; [|done]. by rewrite H.
Qed.

Lemma lstrip_by_id f s : sforall (fun c => negb (f c)) s = true -> lstrip_by f s = s.
Proof. destruct s; simpl; [done|]. intros H. bool_props. by rewrite H. Qed.

Lemma strip_by_id f s : sforall (fun c => negb (f c)) s = true -> strip_by f s = s.
Proof. intros H. unfold strip_by. rewrite lstrip_by_id by done. by apply rstrip_by_id. Qed.

(** [int(f"0x{n:08x}", 0) == n] for a non-negative [n]. *)
Lemma py_int0_hex08 n : 0 <= n -> py_int0 ("0x" +:+ hex08 n) = Some n.
Proof.
  intros Hn. unfold py_int0, with_sign, hex08.
  destruct (n <? 0) eqn:E; bool_props; [lia|].
  assert (Hd : sforall (is_digit_of 16) (zfill 8 (digits 16 n)) = true)
    by (apply zfill_sforall; [lia|]; apply digits_sforall; lia).
  assert (Hl : (8 <= String.length (zfill 8 (digits 16 n)))%nat) by (rewrite zfill_length; lia).
  assert (Hv : val_from 16 0 (zfill 8 (digits 16 n)) = Some n)
    by (rewrite val_from_zfill by lia; apply val_from_digits; lia).
  unfold strip. rewrite strip_by_id; cycle 1.
  { simpl. eapply sforall_impl; [|exact Hd]. intros c Hc.
    by rewrite (is_digit_of_not_space _ _ Hc). }
  change ("0x" +:+ zfill 8 (digits 16 n)) with
    (String "0" (String "x" (zfill 8 (digits 16 n)))). cbv beta iota.
  change (Ascii.eqb "0" "-") with false. change (Ascii.eqb "0" "+") with false.
  unfold int_base0. change (Ascii.eqb "0" "0") with true.
  change (char_in "xX" "x") with true. cbv iota. unfold int_scan_prefixed.
  destruct (zfill 8 (digits 16 n)) as [|c r]; [simpl in Hl; lia|].
  pose proof Hd as Hd'. simpl in Hd. bool_props.
  rewrite (is_digit_of_not_us 16) by done. rewrite int_scan_val; [done|by left|done].
Qed.

(** The leading digit of a positive number is not zero. *)
Lemma digits_aux_head b fuel n acc : 2 <= b <= 36 -> 0 < n -> n < 2 ^ Z.of_nat fuel ->
  exists d t, digits_aux (S fuel) b n acc = String (digit_char d) t /\ 0 < d < b.
Proof.
  intros Hb. revert n acc. induction fuel as [|fuel IH]; intros n acc Hn Hlt;
    rewrite digits_aux_S; destruct (Z.ltb_spec n b).
  - by exists n, acc.
  - change (2 ^ Z.of_nat 0) with 1 in Hlt. lia.
  - by exists n, acc.
  - rewrite Nat2Z.inj_succ, Z.pow_succ_r in Hlt by lia.
    apply IH; [apply Z.div_str_pos; lia|apply Z.div_lt_upper_bound; nia].
Qed.

Lemma digits_head b n : 2 <= b <= 36 -> 0 < n ->
  exists d t, digits b n = String (digit_char d) t /\ 0 < d < b.
Proof.
  intros Hb Hn. apply digits_aux_head; [done|done|]. pose proof (Z.log2_nonneg n).
  rewrite Z2Nat.id by lia. rewrite Z.add_1_r. by apply Z.log2_spec.
Qed.

Lemma is_digit_of_10 c : is_digit_of 10 c = is_digit c.
Proof.
  assert (Hc : Bool.eqb (is_digit_of 10 c) (is_digit c) = true) by by_chars c.
  by apply eqb_prop.
Qed.

Lemma digits_10_sforall n : 0 <= n -> sforall is_digit (digits 10 n) = true.
Proof.
  intros Hn. apply (sforall_impl (is_digit_of 10)).
  - intros c. by rewrite is_digit_of_10.
  - apply digits_sforall; lia.
Qed.

Lemma str_of_Z_nonneg n : 0 <= n -> str_of_Z n = digits 10 n.
Proof. intros Hn. unfold str_of_Z, signed. destruct (Z.ltb_spec n 0); [lia|done]. Qed.

(** ** Text that survives being written and read *)

(** [universal_newlines] changes nothing in a text without carriage returns. *)
Definition not_cr (c : ascii) : bool := negb (Ascii.eqb c (chr 13)).
Definition text_ok (s : string) : bool := utf8_valid s && sforall not_cr s.

Lemma universal_newlines_id s : sforall not_cr s = true -> universal_newlines s = s.
Proof.
  induction s as [|c s IH]; cbn [universal_newlines sforall]; [done|]. intros H.
  apply andb_true_iff in H as [Hc H]. apply negb_true_iff in Hc. by rewrite Hc, IH.
Qed.

Lemma utf8_valid_app a b : utf8_valid a = true -> utf8_valid (a +:+ b) = utf8_valid b.
Proof.
  remember (String.length a) as n eqn:Hn. revert a Hn.
  induction n as [n IH] using lt_wf_ind. intros a -> Ha.
  assert (Hs : forall t, utf8_valid t = true -> (String.length t < String.length a)%nat ->
                 utf8_valid (t +:+ b) = utf8_valid b).
  { intros t Ht Hl. by eapply (IH _ Hl t). }
  clear IH.
  destruct a as [|c a]; [done|]. rewrite sapp_cons. cbn [utf8_valid] in *.
  destruct (ord c <? 128); [apply Hs; [done|simpl; lia]|].
  destruct a as [|d a]; [done|]. rewrite sapp_cons.
  destruct (in_range 194 223 c).
  { bool_props. match goal with H : in_range 128 191 d = true |- _ => rewrite H end.
    apply Hs; [done|simpl; lia]. }
  destruct a as [|e a]; [done|]. rewrite sapp_cons.
  destruct (in_range 224 239 c).
  { apply andb_true_iff in Ha as [Ha Ht]. rewrite Ha. apply Hs; [done|simpl; lia]. }
  destruct a as [|f a]; [done|]. rewrite sapp_cons.
  apply andb_true_iff in Ha as [Ha Ht]. rewrite Ha. apply Hs; [done|simpl; lia].
Qed.

Lemma text_ok_app a b : text_ok a = true -> text_ok b = true -> text_ok (a +:+ b) = true.
Proof.
  unfold text_ok. intros Ha Hb. bool_props. rewrite utf8_valid_app, sforall_app by done.
  apply andb_true_iff. split; [done|]. by apply andb_true_iff.
Qed.

(** Printable ASCII, tabs and line feeds. *)
Definition plain (c : ascii) : bool := (ord c <? 128) && not_cr c.

Lemma text_ok_plain s : sforall plain s = true -> text_ok s = true.
Proof.
  intros H. induction s as [|c s IH]; [done|]. simpl in H. unfold plain in H. bool_props.
  unfold text_ok in *. simpl. apply Z.ltb_lt in H. rewrite H.
  assert (Hs : utf8_valid s && sforall not_cr s = true) by auto. bool_props.
  repeat (apply andb_true_iff; split); done.
Qed.

Lemma text_ok_join sep l : text_ok sep = true -> Forall (fun s => text_ok s = true) l ->
  text_ok (join sep l) = true.
Proof.
  intros Hs Hl. induction Hl as [|x l Hx Hl IH]; [done|].
  destruct l as [|y l]; [done|]. change (join sep (x :: y :: l)) with (x +:+ sep +:+ join sep (y :: l)).
  by apply text_ok_app, text_ok_app.
Qed.

Lemma digit_plain b c : is_digit_of b c = true -> plain c = true.
Proof.
  intros H. assert (Hc : implb (match digit_val c with Some _ => true | None => false end)
                           (plain c) = true) by by_chars c.
  unfold is_digit_of in H. destruct (digit_val c); [done|done].
Qed.

Lemma digits_plain b n : 2 <= b <= 36 -> 0 <= n -> sforall plain (digits b n) = true.
Proof.
  intros. eapply sforall_impl; [apply (digit_plain b)|]. by apply digits_sforall.
Qed.

Lemma str_of_Z_plain n : sforall plain (str_of_Z n) = true.
Proof.
  unfold str_of_Z, signed. destruct (Z.ltb_spec n 0); [|apply digits_plain; lia].
  rewrite sforall_app, digits_plain by lia. done.
Qed.

Lemma hex08_plain n : sforall plain (hex08 n) = true.
Proof.
  unfold hex08. destruct (Z.ltb_spec n 0); rewrite ?sforall_app; unfold zfill;
    rewrite sforall_app, sforall_srepeat, digits_plain by (done || lia); done.
Qed.

#[export] Hint Resolve text_ok_app text_ok_plain str_of_Z_plain hex08_plain : pydb.

Lemma py_int_str_of_Z n : 0 <= n -> py_int (str_of_Z n) = Some n.
Proof.
  intros Hn. rewrite str_of_Z_nonneg by done. pose proof (digits_sforall 10 n) as Hd.
  specialize (Hd ltac:(lia) Hn). pose proof (digits_nonempty 10 n) as Hne.
  unfold py_int, with_sign, strip. rewrite strip_by_id; cycle 1.
  { eapply sforall_impl; [|exact Hd]. intros c Hc. by rewrite (is_digit_of_not_space _ _ Hc). }
  pose proof (val_from_digits 10 n ltac:(lia) Hn) as Hv.
  destruct (digits 10 n) as [|c r]; [done|]. pose proof Hd as Hd'. simpl in Hd'.
  apply andb_true_iff in Hd' as [Hc _].
  assert (Hs : implb (is_digit_of 10 c) (negb (Ascii.eqb c "-") && negb (Ascii.eqb c "+")) = true)
    by by_chars c.
  rewrite Hc in Hs. cbn [implb] in Hs. apply andb_true_iff in Hs as [H1 H2].
  apply negb_true_iff in H1, H2. rewrite H1, H2. rewrite int_scan_val; [done|by left|done].
Qed.

(** ** Eight hexadecimal digits *)

Lemma digits_aux_forall (P : ascii -> bool) b fuel n acc : 2 <= b -> 0 <= n ->
  (forall d, 0 <= d < b -> P (digit_char d) = true) ->
  sforall P acc = true -> sforall P (digits_aux fuel b n acc) = true.
Proof.
  intros Hb Hn HP. revert n acc Hn. induction fuel as [|fuel IH]; intros n acc Hn Ha; simpl; [done|].
  destruct (Z.ltb_spec n b).
  - simpl. by rewrite HP, Ha by lia.
  - apply IH; [apply Z.div_pos; lia|]. simpl. rewrite HP, Ha; [done|]. apply Z.mod_pos_bound. lia.
Qed.

Lemma digits_aux_length_le b fuel k n acc : 2 <= b -> 0 <= n -> n < b ^ Z.of_nat (S k) ->
  (String.length (digits_aux fuel b n acc) <= S k + String.length acc)%nat.
Proof.
  intros Hb. revert k n acc. induction fuel as [|fuel IH]; intros k n acc Hn Hlt; simpl; [lia|].
  destruct (Z.ltb_spec n b); [simpl; lia|].
  destruct k as [|k]; [change (Z.of_nat 1) with 1 in Hlt; rewrite Z.pow_1_r in Hlt; lia|].
  rewrite Nat2Z.inj_succ, Z.pow_succ_r in Hlt by lia.
  etransitivity; [apply (IH k)|simpl; lia].
  - apply Z.div_pos; lia.
  - apply Z.div_lt_upper_bound; lia.
Qed.

(** A lower-case hexadecimal digit. *)
Definition hex_lower (c : ascii) : bool := is_digit c || in_range 97 102 c.

Lemma hex08_spec n : 0 <= n < 2 ^ 32 ->
  String.length (hex08 n) = 8%nat /\ sforall hex_lower (hex08 n) = true.
Proof.
  intros Hn. unfold hex08. destruct (Z.ltb_spec n 0); [lia|]. split.
  - rewrite zfill_length. unfold digits.
    pose proof (digits_aux_length_le 16 (S (Z.to_nat (Z.log2 n + 1))) 7 n "") as Hl.
    specialize (Hl ltac:(lia) ltac:(lia) ltac:(simpl; lia)). simpl in Hl. simpl. lia.
  - unfold zfill. rewrite sforall_app, sforall_srepeat by done. unfold digits.
    apply digits_aux_forall; [lia|lia| |done]. intros d Hd.
    assert (Hin : d ∈ seqZ 0 16) by (apply elem_of_seqZ; lia).
    assert (Hall : forallb (fun d => hex_lower (digit_char d)) (seqZ 0 16) = true)
      by (vm_compute; reflexivity).
    rewrite forallb_forall in Hall. by apply Hall, list_elem_of_In.
Qed.

Lemma hex_lower_spec c : hex_lower c = true ->
  is_hex c = true /\ is_space c = false /\ lower_char c = c /\ (ord c <? 128) = true.
Proof.
  intros H. assert (Hc : implb (hex_lower c) (is_hex c && negb (is_space c) &&
    Ascii.eqb (lower_char c) c && (ord c <? 128)) = true) by by_chars c.
  rewrite H in Hc. cbn [implb] in Hc. apply andb_true_iff in Hc as [Hc H4].
  apply andb_true_iff in Hc as [Hc H3]. apply andb_true_iff in Hc as [H1 H2].
  apply negb_true_iff in H2. apply Ascii.eqb_eq in H3. done.
Qed.

Lemma smap_id f s : sforall (fun c => Ascii.eqb (f c) c) s = true -> smap f s = s.
Proof.
  induction s as [|c s IH]; simpl; [done|]. intros H. apply andb_true_iff in H as [Hc H].
  apply Ascii.eqb_eq in Hc. by rewrite Hc, IH.
Qed.

Lemma lower_hex s : sforall hex_lower s = true -> lower s = s.
Proof.
  intros H. apply smap_id. eapply sforall_impl; [|exact H]. intros c Hc.
  apply hex_lower_spec in Hc as (_ & _ & Hc & _). rewrite Hc. apply Ascii.eqb_refl.
Qed.

Lemma strip_hex s : sforall hex_lower s = true -> strip s = s.
Proof.
  intros H. apply strip_by_id. eapply sforall_impl; [|exact H]. intros c Hc.
  by apply hex_lower_spec in Hc as (_ & -> & _).
Qed.

(** A character that neither ends a line nor starts a multi-byte line end. *)
Definition line_char (c : ascii) : bool :=
  negb (Ascii.eqb c (chr 13) || in_range 10 12 c || in_range 28 30 c || Ascii.eqb c (chr 194) ||
        Ascii.eqb c (chr 226)).

Lemma line_pairs_char c s : line_char c = true -> line_pairs (String c s) = lines_push c (line_pairs s).
Proof.
  unfold line_char. intros H. apply negb_true_iff in H.
  do 4 (apply orb_false_iff in H as [H ?]). cbn [line_pairs].
  match goal with H1 : in_range 10 12 c = false, H2 : in_range 28 30 c = false,
    H3 : Ascii.eqb c (chr 194) = false, H4 : Ascii.eqb c (chr 226) = false |- _ =>
    rewrite H, H1, H2, H3, H4 end.
  destruct s as [|d s]; [done|]. cbn [orb andb]. by destruct s.
Qed.

Lemma line_pairs_line s r : sforall line_char s = true ->
  line_pairs (s +:+ nl +:+ r) = (s, nl) :: line_pairs r.
Proof.
  induction s as [|c s IH]; intros H; [done|]. simpl in H. apply andb_true_iff in H as [Hc H].
  rewrite sapp_cons, line_pairs_char, IH by done. done.
Qed.

Lemma splitlines_line s r : sforall line_char s = true ->
  splitlines (s +:+ nl +:+ r) = s :: splitlines r.
Proof. intros H. unfold splitlines. by rewrite line_pairs_line. Qed.

Lemma hex_lower_line c : hex_lower c = true -> line_char c = true.
Proof.
  intros H. assert (Hc : implb (hex_lower c) (line_char c) = true) by by_chars c. by rewrite H in Hc.
Qed.
