(* ===== verification/Json.v ===== *)
(** JSON documents as the module [json] represents them: a Python [dict] is an
    insertion-ordered association list, a float is carried as its literal.
    [dumps] is [json.dumps] with its [indent], [sort_keys] and [ensure_ascii]
    options, [loads] is [json.loads]; [loads_dumps] is the round trip that the
    manifests of every script rely on. *)
From Stdlib Require Import ZArith Lia.
From S2P Require Import Prelude Str.
Local Open Scope Z_scope.
#[local] Set Warnings "-register-all".

Inductive json :=
  | JNull
  | JBool (b : bool)
  | JInt (n : Z)
  | JFloat (lit : string)
  | JStr (s : string)
  | JArr (l : list json)
  | JObj (d : list (string * json)).

(** Induction through the nested lists. *)
Fixpoint json_ind' (P : json -> Prop)
  (Hnull : P JNull) (Hbool : forall b, P (JBool b)) (Hint : forall n, P (JInt n))
  (Hfloat : forall l, P (JFloat l)) (Hstr : forall s, P (JStr s))
  (Harr : forall l, Forall P l -> P (JArr l))
  (Hobj : forall d, Forall (fun kv => P kv.2) d -> P (JObj d)) (v : json) : P v :=
  let rec := json_ind' P Hnull Hbool Hint Hfloat Hstr Harr Hobj in
  match v with
  | JNull => Hnull
  | JBool b => Hbool b
  | JInt n => Hint n
  | JFloat l => Hfloat l
  | JStr s => Hstr s
  | JArr l => Harr l ((fix go (l : list json) : Forall P l := match l with
      | [] => Forall_nil_2 _
      | x :: l' => Forall_cons_2 _ x l' (rec x) (go l')
      end) l)
  | JObj d => Hobj d ((fix go (d : list (string * json)) : Forall (fun kv => P kv.2) d := match d with
      | [] => Forall_nil_2 _
      | kv :: d' => Forall_cons_2 _ kv d' (rec kv.2) (go d')
      end) d)
  end.

(** [a == b] on documents. *)
Fixpoint json_eqb (a b : json) {struct a} : bool :=
  match a, b with
  | JNull, JNull => true
  | JBool x, JBool y => Bool.eqb x y
  | JInt x, JInt y => Z.eqb x y
  | JBool x, JInt y | JInt y, JBool x => Z.eqb y (if x then 1 else 0)
  | JFloat x, JFloat y => String.eqb x y
  | JStr x, JStr y => String.eqb x y
  | JArr x, JArr y =>
      (fix go (x y : list json) : bool :=
         match x, y with
         | [], [] => true
         | u :: x, v :: y => json_eqb u v && go x y
         | _, _ => false
         end) x y
  | JObj x, JObj y =>
      Nat.eqb (length x) (length y) &&
      (fix go (x : list (string * json)) : bool :=
         match x with
         | [] => true
         | (k, u) :: x' =>
             match dict_get k y with Some v => json_eqb u v | None => false end && go x'
         end) x
  | _, _ => false
  end.

(** ** Writing *)

Definition u_escape (n : Z) : string :=
  bsl +:+ "u" +:+ zfill 4 (digits 16 n).

Definition escape_char (c : ascii) : string :=
  if Ascii.eqb c (chr 34) then bsl +:+ dq
  else if Ascii.eqb c (chr 92) then bsl +:+ bsl
  else if Ascii.eqb c (chr 8) then bsl +:+ "b"
  else if Ascii.eqb c (chr 12) then bsl +:+ "f"
  else if Ascii.eqb c (chr 10) then bsl +:+ "n"
  else if Ascii.eqb c (chr 13) then bsl +:+ "r"
  else if Ascii.eqb c (chr 9) then bsl +:+ "t"
  else if ord c <? 32 then u_escape (ord c)
  else ch c.

Fixpoint escape (s : string) : string :=
  match s with
  | EmptyString => ""
  | String c s' => escape_char c +:+ escape s'
  end.

(** [ensure_ascii=True]: a code point above the ASCII range is written as one
    or two UTF-16 units. *)
Definition u_escape_point (n : Z) : string :=
  if n <? 65536 then u_escape n
  else u_escape (55296 + (n - 65536) / 1024) +:+ u_escape (56320 + (n - 65536) mod 1024).

Fixpoint escape_ascii (s : string) : string :=
  match s with
  | EmptyString => ""
  | String c r =>
      if ord c <? 128 then
        (if ord c =? 127 then u_escape 127 else escape_char c) +:+ escape_ascii r
      else match r with
      | EmptyString => ""
      | String d r2 =>
          if ord c <? 224 then u_escape_point ((ord c - 192) * 64 + (ord d - 128)) +:+ escape_ascii r2
          else match r2 with
          | EmptyString => ""
          | String e r3 =>
              if ord c <? 240 then
                u_escape_point ((ord c - 224) * 4096 + (ord d - 128) * 64 + (ord e - 128))
                +:+ escape_ascii r3
              else match r3 with
              | EmptyString => ""
              | String f r4 =>
                  u_escape_point ((ord c - 240) * 262144 + (ord d - 128) * 4096
                                  + (ord e - 128) * 64 + (ord f - 128)) +:+ escape_ascii r4
              end
          end
      end
  end.

Definition dump_str (ascii_only : bool) (s : string) : string :=
  dq +:+ (if ascii_only then escape_ascii s else escape s) +:+ dq.

(** The line break and indentation before an item at level [lvl]. *)
Definition break (indent : option nat) (lvl : nat) : string :=
  match indent with Some n => nl +:+ srepeat " " (n * lvl) | None => "" end.
Definition item_sep (indent : option nat) (lvl : nat) : string :=
  match indent with Some n => "," +:+ break indent lvl | None => ", " end.

Fixpoint dump (ao : bool) (ind : option nat) (lvl : nat) (v : json) : string :=
  match v with
  | JNull => "null"
  | JBool b => if b then "true" else "false"
  | JInt n => str_of_Z n
  | JFloat l => l
  | JStr s => dump_str ao s
  | JArr [] => "[]"
  | JArr l =>
      "[" +:+ break ind (S lvl) +:+
      join (item_sep ind (S lvl)) (map (dump ao ind (S lvl)) l) +:+ break ind lvl +:+ "]"
  | JObj [] => "{}"
  | JObj d =>
      "{" +:+ break ind (S lvl) +:+
      join (item_sep ind (S lvl))
        (map (fun kv => dump_str ao kv.1 +:+ ": " +:+ dump ao ind (S lvl) kv.2) d)
      +:+ break ind lvl +:+ "}"
  end.

Definition key_leb (a b : string * json) : bool := string_leb a.1 b.1.

(** [sort_keys=True] *)
Fixpoint sort_keys (v : json) : json :=
  match v with
  | JArr l => JArr (map sort_keys l)
  | JObj d => JObj (sort_by key_leb (map (fun kv => (kv.1, sort_keys kv.2)) d))
  | _ => v
  end.

(** [json.dumps(v)] and [json.dumps(v, sort_keys=True)] *)
Definition dumps (v : json) : string := dump true None 0 v.
Definition dumps_sorted (v : json) : string := dumps (sort_keys v).
(** [json.dumps(v, indent=2)] *)
Definition dumps_indent (v : json) : string := dump true (Some 2%nat) 0 v.
(** [json.dump(v, ensure_ascii=False, indent=2, sort_keys=True)] *)
Definition dumps_manifest (v : json) : string := dump false (Some 2%nat) 0 (sort_keys v).

(** ** Reading *)

Definition is_ws (c : ascii) : bool := char_in (" " +:+ tab +:+ nl +:+ cr) c.

Fixpoint skip_ws (s : string) : string :=
  match s with
  | String c s' => if is_ws c then skip_ws s' else s
  | EmptyString => ""
  end.

(** The UTF-8 bytes of a code point. *)
Definition utf8_encode (n : Z) : string :=
  let b k := chr (Z.to_N k) in
  if n <? 128 then ch (b n)
  else if n <? 2048 then String (b (192 + n / 64)) (ch (b (128 + n mod 64)))
  else if n <? 65536 then
    String (b (224 + n / 4096)) (String (b (128 + n / 64 mod 64)) (ch (b (128 + n mod 64))))
  else
    String (b (240 + n / 262144)) (String (b (128 + n / 4096 mod 64))
      (String (b (128 + n / 64 mod 64)) (ch (b (128 + n mod 64))))).

Definition hex4 (a b c d : ascii) : option Z :=
  if is_hex a && is_hex b && is_hex c && is_hex d
  then val_from 16 0 (String a (String b (String c (ch d)))) else None.

(** The rest of a string literal after its opening quote. *)
Fixpoint parse_str (s : string) : option (string * string) :=
  match s with
  | EmptyString => None
  | String c r =>
      let push t := match parse_str r with Some (u, k) => Some (t +:+ u, k) | None => None end in
      if Ascii.eqb c (chr 34) then Some ("", r)
      else if Ascii.eqb c (chr 92) then
        match r with
        | EmptyString => None
        | String e r' =>
            let esc t := match parse_str r' with Some (u, k) => Some (t +:+ u, k) | None => None end in
            if Ascii.eqb e (chr 34) then esc dq
            else if Ascii.eqb e (chr 92) then esc bsl
            else if Ascii.eqb e "/" then esc "/"
            else if Ascii.eqb e "b" then esc (ch (chr 8))
            else if Ascii.eqb e "f" then esc (ch (chr 12))
            else if Ascii.eqb e "n" then esc nl
            else if Ascii.eqb e "r" then esc cr
            else if Ascii.eqb e "t" then esc tab
            else if Ascii.eqb e "u" then
              match r' with
              | String h1 (String h2 (String h3 (String h4 r2))) =>
                  match hex4 h1 h2 h3 h4 with
                  | None => None
                  | Some n =>
                      let lone := match parse_str r2 with
                                  | Some (u, k) => Some (utf8_encode n +:+ u, k)
                                  | None => None
                                  end in
                      if (55296 <=? n) && (n <=? 56319) then
                        match r2 with
                        | String b1 (String b2 (String g1 (String g2 (String g3 (String g4 r3))))) =>
                            if Ascii.eqb b1 (chr 92) && Ascii.eqb b2 "u" then
                              match hex4 g1 g2 g3 g4 with
                              | None => None
                              | Some m =>
                                  if (56320 <=? m) && (m <=? 57343) then
                                    match parse_str r3 with
                                    | Some (u, k) =>
                                        Some (utf8_encode (65536 + (n - 55296) * 1024 + (m - 56320))
                                              +:+ u, k)
                                    | None => None
                                    end
                                  else lone
                              end
                            else lone
                        | _ => lone
                        end
                      else lone
                  end
              | _ => None
              end
            else None
        end
      else if ord c <? 32 then None
      else push (ch c)
  end.

Fixpoint span_digits (s : string) : string * string :=
  match s with
  | String c r =>
      if is_digit c then let '(d, k) := span_digits r in (String c d, k) else ("", s)
  | EmptyString => ("", "")
  end.

Definition scan_frac (s : string) : string * string :=
  match s with
  | String c r =>
      if Ascii.eqb c "." then
        match span_digits r with
        | (EmptyString, _) => ("", s)
        | (d, k) => (String c d, k)
        end
      else ("", s)
  | EmptyString => ("", "")
  end.

Definition scan_exp (s : string) : string * string :=
  match s with
  | String c r =>
      if char_in "eE" c then
        let '(sg, r') := match r with
                         | String x r' => if char_in "+-" x then (ch x, r') else ("", r)
                         | EmptyString => ("", r)
                         end in
        match span_digits r' with
        | (EmptyString, _) => ("", s)
        | (d, k) => (String c (sg +:+ d), k)
        end
      else ("", s)
  | EmptyString => ("", "")
  end.

(** The unsigned part of a number: an integer, or a float kept as its literal. *)
Definition scan_unsigned (s : string) : option (bool * string * string) :=
  match span_digits s with
  | (EmptyString, _) => None
  | (String z d, k) =>
      let '(ip, k) := if Ascii.eqb z "0" then ("0", d +:+ k) else (String z d, k) in
      let '(fp, k1) := scan_frac k in
      let '(ep, k2) := scan_exp k1 in
      Some (negb (String.eqb (fp +:+ ep) ""), ip +:+ fp +:+ ep, k2)
  end.

Definition parse_number (s : string) : option (json * string) :=
  match s with
  | EmptyString => None
  | String c r =>
      let neg := Ascii.eqb c "-" in
      match scan_unsigned (if neg then r else s) with
      | None => None
      | Some (is_float, lit, k) =>
          if is_float then Some (JFloat (if neg then "-" +:+ lit else lit), k)
          else match val_from 10 0 lit with
               | Some n => Some (JInt (if neg then - n else n), k)
               | None => None
               end
      end
  end.

(** [null], [true], [false], [NaN], [Infinity], [-Infinity] *)
Definition literals : list (string * json) :=
  [("null", JNull); ("true", JBool true); ("false", JBool false);
   ("NaN", JFloat "NaN"); ("Infinity", JFloat "Infinity"); ("-Infinity", JFloat "-Infinity")].

Fixpoint parse_literal (ls : list (string * json)) (s : string) : option (json * string) :=
  match ls with
  | [] => None
  | (t, v) :: ls' => if startswith s t then Some (v, sdrop (String.length t) s)
                     else parse_literal ls' s
  end.

Definition expect (c : ascii) (s : string) : option string :=
  match s with
  | String d r => if Ascii.eqb d c then Some r else None
  | EmptyString => None
  end.

(** What the scanner makes of a text: a result, a [JSONDecodeError], or a [RecursionError] when
    it opens more arrays and objects within one another than the interpreter allows. *)
Inductive parsed (A : Type) :=
  | Parsed (a : A)
  | NotJson
  | TooDeep.
Arguments Parsed {A} a.
Arguments NotJson {A}.
Arguments TooDeep {A}.

#[export] Instance parsed_ret : MRet parsed := fun A a => Parsed a.
#[export] Instance parsed_bind : MBind parsed := fun A B f m =>
  match m with Parsed a => f a | NotJson => NotJson | TooDeep => TooDeep end.

Definition parsed_opt {A} (o : option A) : parsed A :=
  match o with Some a => Parsed a | None => NotJson end.

(** [depth] is the number of arrays and objects that may still be opened. *)
Fixpoint parse_value (fuel depth : nat) (s : string) {struct fuel} : parsed (json * string) :=
  match fuel with
  | O => NotJson
  | S fuel =>
      match s with
      | EmptyString => NotJson
      | String c r =>
          if Ascii.eqb c (chr 34) then '(t, k) ← parsed_opt (parse_str r); Parsed (JStr t, k)
          else if Ascii.eqb c "[" then
            match depth with
            | O => TooDeep
            | S depth =>
                let r := skip_ws r in
                match expect "]" r with
                | Some k => Parsed (JArr [], k)
                | None => '(l, k) ← parse_items fuel depth r; Parsed (JArr l, k)
                end
            end
          else if Ascii.eqb c "{" then
            match depth with
            | O => TooDeep
            | S depth =>
                let r := skip_ws r in
                match expect "}" r with
                | Some k => Parsed (JObj [], k)
                | None => '(d, k) ← parse_members fuel depth r;
                          Parsed (JObj (foldl (fun d kv => dict_set kv.1 kv.2 d) [] d), k)
                end
            end
          else match parse_literal literals s with
               | Some x => Parsed x
               | None => parsed_opt (parse_number s)
               end
      end
  end
with parse_items (fuel depth : nat) (s : string) {struct fuel} : parsed (list json * string) :=
  match fuel with
  | O => NotJson
  | S fuel =>
      '(v, k) ← parse_value fuel depth s;
      match skip_ws k with
      | String c k' =>
          if Ascii.eqb c "]" then Parsed ([v], k')
          else if Ascii.eqb c "," then
            '(l, k2) ← parse_items fuel depth (skip_ws k'); Parsed (v :: l, k2)
          else NotJson
      | EmptyString => NotJson
      end
  end
with parse_members (fuel depth : nat) (s : string) {struct fuel}
    : parsed (list (string * json) * string) :=
  match fuel with
  | O => NotJson
  | S fuel =>
      r ← parsed_opt (expect (chr 34) s);
      '(key, k) ← parsed_opt (parse_str r);
      k1 ← parsed_opt (expect ":" (skip_ws k));
      '(v, k2) ← parse_value fuel depth (skip_ws k1);
      match skip_ws k2 with
      | String c k3 =>
          if Ascii.eqb c "}" then Parsed ([(key, v)], k3)
          else if Ascii.eqb c "," then
            '(d, k4) ← parse_members fuel depth (skip_ws k3); Parsed ((key, v) :: d, k4)
          else NotJson
      | EmptyString => NotJson
      end
  end.

(** [json.loads(s)], with at most [depth] arrays and objects within one another. *)
Definition loads (depth : nat) (s : string) : parsed json :=
  '(v, k) ← parse_value (2 * String.length s + 2) depth (skip_ws s);
  if String.eqb (skip_ws k) "" then Parsed v else NotJson.

(** How deep the arrays and objects of a document are within one another. *)
Fixpoint nesting (v : json) : nat :=
  match v with
  | JArr l => S (max_list_with nesting l)
  | JObj d => S (max_list_with (fun kv => nesting kv.2) d)
  | _ => 0
  end.

(** ** Python access to documents *)

Definition is_dict (v : json) : bool := match v with JObj _ => true | _ => false end.
Definition is_list (v : json) : bool := match v with JArr _ => true | _ => false end.
Definition is_str (v : json) : bool := match v with JStr _ => true | _ => false end.

(** [bool(v)] *)
Definition truthy (v : json) : bool :=
  match v with
  | JNull => false
  | JBool b => b
  | JInt n => negb (n =? 0)
  | JFloat l => sexists (char_in "123456789ni") (partition "e" (lower l)).1
  | JStr s => negb (String.eqb s "")
  | JArr l => match l with [] => false | _ => true end
  | JObj d => match d with [] => false | _ => true end
  end.

Definition repr_float (l : string) : string :=
  if String.eqb l "NaN" then "nan"
  else if String.eqb l "Infinity" then "inf"
  else if String.eqb l "-Infinity" then "-inf" else l.

(** [repr(v)] and [str(v)] *)
Fixpoint repr_json (v : json) : string :=
  match v with
  | JNull => "None"
  | JBool b => if b then "True" else "False"
  | JInt n => str_of_Z n
  | JFloat l => repr_float l
  | JStr s => repr_str s
  | JArr l => "[" +:+ join ", " (map repr_json l) +:+ "]"
  | JObj d => "{" +:+ join ", " (map (fun kv => repr_str kv.1 +:+ ": " +:+ repr_json kv.2) d) +:+ "}"
  end.
Definition str_json (v : json) : string :=
  match v with JStr s => s | _ => repr_json v end.

(** ** The round trip *)

(** A document [json.loads] can produce from what [json.dumps] writes: the keys
    of an object are distinct and a float is a float literal or one of the three names. *)
Definition not_finite (l : string) : bool := existsb (String.eqb l) ["NaN"; "Infinity"; "-Infinity"].
Definition float_literal (l : string) : bool :=
  match l with
  | String c r =>
      let neg := Ascii.eqb c "-" in
      match scan_unsigned (if neg then r else l) with
      | Some (true, lit, k) => String.eqb lit (if neg then r else l) && String.eqb k ""
      | _ => false
      end
  | EmptyString => false
  end.
Definition float_ok (l : string) : bool := not_finite l || float_literal l.

Fixpoint json_wf (v : json) : bool :=
  match v with
  | JFloat l => float_ok l
  | JArr l => forallb json_wf l
  | JObj d => bool_decide (NoDup d.*1) && forallb (fun kv => json_wf kv.2) d
  | _ => true
  end.

(** The nodes of a document bound the recursion of the parser. *)
Fixpoint size (v : json) : nat :=
  match v with
  | JArr l => S (sum_list_with (fun x => S (size x)) l)
  | JObj d => S (sum_list_with (fun kv => S (size kv.2)) d)
  | _ => 1
  end.

Definition head_is (f : ascii -> bool) (s : string) : bool :=
  match s with String c _ => f c | EmptyString => false end.

(** What may follow a value inside a document. *)
Definition delim_char (c : ascii) : bool := is_ws c || char_in ",]}" c.
Definition delim (s : string) : bool :=
  match s with String c _ => delim_char c | EmptyString => true end.

(** The characters a value starts with. *)
Definition value_char (c : ascii) : bool := negb (is_ws c) && negb (char_in "]},:" c).

Lemma skip_ws_head s : head_is (fun c => negb (is_ws c)) s = true -> skip_ws s = s.
Proof. destruct s; simpl; [done|]. intros H. bool_props. by rewrite H. Qed.

Lemma skip_ws_spaces n s : skip_ws (srepeat " " n +:+ s) = skip_ws s.
Proof. induction n as [|n IH]; [done|]. exact IH. Qed.

Lemma skip_ws_break ind lvl s : skip_ws (break ind lvl +:+ s) = skip_ws s.
Proof.
  destruct ind; [|done]. exact (skip_ws_spaces _ _).
Qed.

Lemma delim_break ind lvl s : delim s = true -> delim (break ind lvl +:+ s) = true.
Proof. by destruct ind. Qed.

Lemma parse_escape_char c s :
  parse_str (escape_char c +:+ s) =
  match parse_str s with Some (u, k) => Some (String c u, k) | None => None end.
Proof. destruct c as [[] [] [] [] [] [] [] []]; reflexivity. Qed.

Lemma parse_str_escape s k : parse_str (escape s +:+ dq +:+ k) = Some (s, k).
Proof.
  induction s as [|c s IH]; [reflexivity|]. cbn [escape]. rewrite sapp_assoc.
  rewrite parse_escape_char. by rewrite IH.
Qed.

Lemma span_digits_app d k : sforall is_digit d = true ->
  head_is is_digit k = false -> span_digits (d +:+ k) = (d, k).
Proof.
  intros Hd Hk. induction d as [|c d IH].
  - rewrite sapp_nil_l. destruct k as [|c k]; [done|]. simpl in *. by rewrite Hk.
  - rewrite sapp_cons. simpl in *. bool_props. by rewrite H, IH.
Qed.

Lemma delim_not c : delim_char c = true ->
  is_digit c = false /\ Ascii.eqb c "." = false /\ char_in "eE" c = false.
Proof.
  intros H.
  assert (Hc : implb (delim_char c)
    (negb (is_digit c) && negb (Ascii.eqb c ".") && negb (char_in "eE" c)) = true) by by_chars c.
  rewrite H in Hc. simpl in Hc. bool_props. done.
Qed.

Lemma span_digits_eq s d k : span_digits s = (d, k) ->
  s = d +:+ k /\ sforall is_digit d = true /\ head_is is_digit k = false.
Proof.
  revert d k. induction s as [|c s IH]; simpl; intros d k H; [by simplify_eq|].
  destruct (is_digit c) eqn:E.
  - destruct (span_digits s) as [d' k']. simplify_eq. destruct (IH d' k eq_refl) as (-> & Hd & Hk).
    rewrite sapp_cons. simpl. by rewrite E.
  - simplify_eq. simpl. by rewrite E.
Qed.

(** Scanning stops at a delimiter: appending one changes nothing but the rest. *)
Lemma span_digits_delim s d k r : delim r = true -> span_digits s = (d, k) ->
  span_digits (s +:+ r) = (d, k +:+ r).
Proof.
  intros Hr H. apply span_digits_eq in H as (-> & Hd & Hk). rewrite sapp_assoc.
  apply span_digits_app; [done|].
  destruct k as [|c k]; [|by rewrite sapp_cons].
  destruct r as [|c r]; [done|]. simpl in *. by apply delim_not.
Qed.

Lemma scan_frac_delim s f k r : delim r = true -> scan_frac s = (f, k) ->
  scan_frac (s +:+ r) = (f, k +:+ r).
Proof.
  intros Hr H. destruct s as [|c s].
  - simpl in H. injection H as <- <-. rewrite !sapp_nil_l. destruct r as [|c r]; [done|].
    simpl in *. apply delim_not in Hr as (_ & Hd & _). by rewrite Hd.
  - rewrite sapp_cons. simpl in *. destruct (Ascii.eqb c "."); [|by simplify_eq].
    destruct (span_digits s) as [d k'] eqn:E. erewrite span_digits_delim; [|done..].
    destruct d; by simplify_eq.
Qed.

Lemma delim_sign r : delim r = true -> head_is (char_in "+-") r = false.
Proof.
  destruct r as [|c r]; [done|]. simpl. intros Hr.
  assert (Hc : implb (delim_char c) (negb (char_in "+-" c)) = true) by by_chars c.
  rewrite Hr in Hc. simpl in Hc. by bool_props.
Qed.

Lemma scan_exp_delim s f k r : delim r = true -> scan_exp s = (f, k) ->
  scan_exp (s +:+ r) = (f, k +:+ r).
Proof.
  intros Hr H. destruct s as [|c s].
  - simpl in H. injection H as <- <-. rewrite !sapp_nil_l. destruct r as [|c r]; [done|].
    simpl in *. apply delim_not in Hr as (_ & _ & Hd). by rewrite Hd.
  - rewrite sapp_cons. simpl in *. destruct (char_in "eE" c); [|by simplify_eq].
    destruct s as [|x s].
    + simpl in H. simplify_eq. rewrite sapp_nil_l. destruct r as [|y r]; [done|].
      pose proof (delim_sign _ Hr) as Hs. simpl in Hs. rewrite Hs.
      assert (Hsp : span_digits (String y r) = ("", String y r)).
      { simpl in Hr. apply delim_not in Hr as (Hdg & _ & _). simpl. by rewrite Hdg. }
      by rewrite Hsp.
    + rewrite sapp_cons. destruct (char_in "+-" x).
      * destruct (span_digits s) as [d k'] eqn:E. erewrite span_digits_delim; [|done..].
        destruct d; by simplify_eq.
      * destruct (span_digits (String x s)) as [d k'] eqn:E.
        pose proof (span_digits_delim _ _ _ _ Hr E) as E'. rewrite sapp_cons in E'. rewrite E'.
        destruct d; by simplify_eq.
Qed.

Lemma scan_unsigned_delim s b l k r : delim r = true ->
  scan_unsigned s = Some (b, l, k) -> scan_unsigned (s +:+ r) = Some (b, l, k +:+ r).
Proof.
  intros Hr H. unfold scan_unsigned in *.
  destruct (span_digits s) as [d k0] eqn:E. rewrite (span_digits_delim _ _ _ _ Hr E).
  destruct d as [|z d]; [done|].
  assert (Hk : (if Ascii.eqb z "0" then ("0", d +:+ k0 +:+ r) else (String z d, k0 +:+ r)) =
    let '(ip, k1) := if Ascii.eqb z "0" then ("0", d +:+ k0) else (String z d, k0) in
    (ip, k1 +:+ r)) by (destruct (Ascii.eqb z "0"); by rewrite ?sapp_assoc).
  rewrite Hk. clear Hk.
  destruct (if Ascii.eqb z "0" then _ else _) as [ip k1].
  destruct (scan_frac k1) as [fp k2] eqn:Ef. rewrite (scan_frac_delim _ _ _ _ Hr Ef).
  destruct (scan_exp k2) as [ep k3] eqn:Ee. rewrite (scan_exp_delim _ _ _ _ Hr Ee).
  by simplify_eq.
Qed.

Lemma scan_unsigned_digits n : 0 <= n ->
  scan_unsigned (digits 10 n) = Some (false, digits 10 n, "").
Proof.
  intros Hn. unfold scan_unsigned.
  pose proof (span_digits_app (digits 10 n) "" (digits_10_sforall n Hn) eq_refl) as Hs.
  rewrite sapp_nil_r in Hs. rewrite Hs. clear Hs.
  destruct (Z.eq_dec n 0) as [->|Hnz]; [reflexivity|].
  destruct (digits_head 10 n) as (d & t & Hd & Hr); [lia..|]. rewrite Hd.
  assert (Hz : Ascii.eqb (digit_char d) "0" = false).
  { apply Ascii.eqb_neq. intros Hc. pose proof (digit_val_char d) as Hv.
    rewrite Hc in Hv. change (digit_val "0") with (Some 0) in Hv.
    assert (Some 0 = Some d) by (apply Hv; lia). simplify_eq. lia. }
  rewrite Hz. simpl. by rewrite sapp_nil_r.
Qed.

Lemma parse_number_delim s v r : delim r = true ->
  parse_number s = Some (v, "") -> parse_number (s +:+ r) = Some (v, r).
Proof.
  intros Hr. destruct s as [|c s]; [done|]. rewrite sapp_cons. unfold parse_number.
  set (body := if Ascii.eqb c "-" then s else String c s).
  assert (Hb : (if Ascii.eqb c "-" then s +:+ r else String c (s +:+ r)) = body +:+ r)
    by (unfold body; by destruct (Ascii.eqb c "-")).
  rewrite Hb. destruct (scan_unsigned body) as [[[b l] k]|] eqn:E; [|done].
  rewrite (scan_unsigned_delim _ _ _ _ _ Hr E). intros H.
  assert (k = "") as -> by (destruct b; [|destruct (val_from 10 0 l)]; by simplify_eq).
  rewrite sapp_nil_l. destruct b; [by simplify_eq|]. destruct (val_from 10 0 l); by simplify_eq.
Qed.

Lemma digits_10_head_is n : 0 <= n -> head_is is_digit (digits 10 n) = true.
Proof.
  intros Hn. pose proof (digits_10_sforall n Hn) as H. pose proof (digits_nonempty 10 n).
  destruct (digits 10 n); [done|]. simpl in *. by bool_props.
Qed.

Lemma parse_number_int n : parse_number (str_of_Z n) = Some (JInt n, "").
Proof.
  unfold str_of_Z, signed. destruct (Z.ltb_spec n 0).
  - change ("-" +:+ digits 10 (- n)) with (String "-" (digits 10 (- n))).
    unfold parse_number. change (Ascii.eqb "-" "-") with true. cbv iota.
    rewrite scan_unsigned_digits by lia. rewrite val_from_digits by lia.
    do 3 f_equal. lia.
  - pose proof (digits_10_head_is n) as Hh. pose proof (scan_unsigned_digits n) as Hs.
    pose proof (val_from_digits 10 n) as Hv. unfold parse_number.
    destruct (digits 10 n) as [|c r]; [specialize (Hh H); done|]. simpl in Hh.
    assert (Ascii.eqb c "-" = false) as ->.
    { specialize (Hh H). destruct (Ascii.eqb c "-") eqn:E; [|done].
      apply Ascii.eqb_eq in E. by subst. }
    rewrite Hs by done. by rewrite Hv by lia.
Qed.

(** A number does not look like one of the other literals. *)
Definition number_head (s : string) : bool :=
  match s with
  | String c r => is_digit c || Ascii.eqb c "-" && head_is is_digit r
  | EmptyString => false
  end.

Lemma number_head_app s r : number_head s = true -> number_head (s +:+ r) = true.
Proof.
  destruct s as [|c s]; [done|]. rewrite sapp_cons. simpl.
  destruct (is_digit c); [done|]. simpl. destruct (Ascii.eqb c "-"); [|done]. simpl.
  by destruct s.
Qed.

Lemma startswith_digit c r t d : is_digit c = true -> is_digit d = false ->
  startswith (String c r) (String d t) = false.
Proof.
  intros Hc Hd. unfold startswith. simpl.
  destruct (Ascii.ascii_dec d c) as [->|]; [by rewrite Hc in Hd|done].
Qed.

Lemma number_head_literal s : number_head s = true -> parse_literal literals s = None.
Proof.
  destruct s as [|c r]; [done|]. cbn [number_head]. intros H.
  destruct (is_digit c) eqn:E.
  - unfold literals. cbn [parse_literal]. by rewrite !startswith_digit.
  - simpl in H. bool_props. apply Ascii.eqb_eq in H as ->.
    destruct r as [|x r]; [done|]. simpl in H0.
    assert (Hn : startswith (String "-" (String x r)) "-Infinity" = false).
    { unfold startswith. cbn [String.prefix]. destruct (Ascii.ascii_dec "-" "-"); [|done].
      destruct (Ascii.ascii_dec "I" x) as [<-|]; done. }
    unfold literals. cbn [parse_literal]. rewrite Hn. reflexivity.
Qed.

Lemma number_head_value s fuel depth : number_head s = true ->
  parse_value (S fuel) depth s = parsed_opt (parse_number s).
Proof.
  intros H. pose proof (number_head_literal s H) as Hl. destruct s as [|c r]; [done|].
  cbn [parse_value]. rewrite Hl.
  assert (Hc : implb (is_digit c || Ascii.eqb c "-")
    (negb (Ascii.eqb c (chr 34)) && negb (Ascii.eqb c "[") && negb (Ascii.eqb c "{")) = true)
    by by_chars c.
  simpl in H. assert (is_digit c || Ascii.eqb c "-" = true) as Hd.
  { destruct (is_digit c); [done|]. simpl in *. by bool_props. }
  rewrite Hd in Hc. cbn [implb] in Hc. bool_props. by rewrite H0, H1, H2.
Qed.

Lemma str_of_Z_head n : number_head (str_of_Z n) = true.
Proof.
  unfold str_of_Z, signed. destruct (Z.ltb_spec n 0).
  - change ("-" +:+ digits 10 (- n)) with (String "-" (digits 10 (- n))). simpl.
    apply digits_10_head_is. lia.
  - pose proof (digits_10_head_is n H) as Hh. destruct (digits 10 n); [done|]. simpl in *.
    by rewrite Hh.
Qed.

Lemma scan_unsigned_head s x : scan_unsigned s = Some x -> head_is is_digit s = true.
Proof.
  unfold scan_unsigned. destruct s as [|c r]; [done|]. simpl. by destruct (is_digit c).
Qed.

Lemma float_literal_spec l : float_literal l = true ->
  number_head l = true /\ parse_number l = Some (JFloat l, "").
Proof.
  unfold float_literal, parse_number. destruct l as [|c r]; [done|]. intros H.
  destruct (scan_unsigned (if Ascii.eqb c "-" then r else String c r)) as [[[b lit] k]|] eqn:E;
    [|done].
  destruct b; [|done]. bool_props. subst. apply scan_unsigned_head in E.
  destruct (Ascii.eqb c "-") eqn:Ec; simpl in E.
  - apply Ascii.eqb_eq in Ec as ->. simpl. by rewrite E.
  - simpl. by rewrite E.
Qed.

Lemma not_finite_spec l : not_finite l = true -> l = "NaN" \/ l = "Infinity" \/ l = "-Infinity".
Proof. unfold not_finite. cbn [existsb]. rewrite !orb_true_iff, !String.eqb_eq. intros [?|[?|[?|?]]]; auto; done. Qed.

Lemma value_char_number s : number_head s = true -> head_is value_char s = true.
Proof.
  destruct s as [|c r]; [done|]. simpl. intros H.
  assert (Hc : implb (is_digit c || Ascii.eqb c "-") (value_char c) = true) by by_chars c.
  destruct (is_digit c); [done|]. simpl in H. bool_props. rewrite H in Hc. done.
Qed.

Lemma dump_head ind lvl v : json_wf v = true -> head_is value_char (dump false ind lvl v) = true.
Proof.
  destruct v as [|[]| | | |[]|[]]; try reflexivity; intros Hwf.
  - apply value_char_number, str_of_Z_head.
  - cbn [json_wf] in Hwf. unfold float_ok in Hwf. apply orb_true_iff in Hwf as [Hn|Hl].
    + by apply not_finite_spec in Hn as [-> | [-> | ->]].
    + by apply value_char_number, float_literal_spec.
Qed.

Lemma head_is_app f s r : head_is f s = true -> head_is f (s +:+ r) = true.
Proof. by destruct s. Qed.

Lemma head_is_impl (f g : ascii -> bool) s :
  (forall c, f c = true -> g c = true) -> head_is f s = true -> head_is g s = true.
Proof. destruct s; simpl; auto. Qed.

Lemma skip_ws_value s : head_is value_char s = true -> skip_ws s = s.
Proof.
  intros H. apply skip_ws_head. eapply head_is_impl; [|exact H].
  intros c Hc. unfold value_char in Hc. by apply andb_true_iff in Hc as [? _].
Qed.

Lemma expect_value s c : char_in "]}" c = true -> head_is value_char s = true ->
  expect c s = None.
Proof.
  intros Hc. destruct s as [|d s]; [done|]. simpl. intros Hd.
  destruct (Ascii.eqb d c) eqn:E; [|done]. apply Ascii.eqb_eq in E as ->.
  assert (Hf : implb (value_char c) (negb (char_in "]}" c)) = true) by by_chars c.
  by rewrite Hd, Hc in Hf.
Qed.

Lemma skip_ws_sep ind lvl s : exists s',
  item_sep ind lvl +:+ s = String "," s' /\ skip_ws s' = skip_ws s.
Proof.
  destruct ind as [n|]; simpl.
  - exists (break (Some n) lvl +:+ s). rewrite sapp_assoc. split; [done|apply skip_ws_break].
  - by exists (" " +:+ s).
Qed.

Lemma delim_sep ind lvl s : delim (item_sep ind lvl +:+ s) = true.
Proof. by destruct ind. Qed.

Lemma join_cons2 sep x y l : join sep (x :: y :: l) = x +:+ sep +:+ join sep (y :: l).
Proof. done. Qed.

(** What the round trip says of one value. *)
Definition reads_back (ind : option nat) (v : json) : Prop := forall fuel depth lvl r,
  (size v <= fuel)%nat -> (nesting v <= depth)%nat -> delim r = true ->
  parse_value fuel depth (dump false ind lvl v +:+ r) = Parsed (v, r).

Lemma parse_items_dump ind lvl l r fuel depth :
  l <> [] -> forallb json_wf l = true -> Forall (reads_back ind) l ->
  (sum_list_with (fun x => S (size x)) l <= fuel)%nat -> (max_list_with nesting l <= depth)%nat ->
  parse_items fuel depth
    (join (item_sep ind (S lvl)) (map (dump false ind (S lvl)) l) +:+ break ind lvl +:+ "]" +:+ r)
  = Parsed (l, r).
Proof.
  intros Hne Hwf Hrb. revert fuel. induction Hrb as [|v l Hv Hl IH]; [done|]; intros fuel Hf Hd.
  simpl in Hwf, Hd. bool_props. destruct fuel as [|fuel]; simpl in Hf; [lia|].
  destruct l as [|v2 l].
  - change (join _ (map _ [v])) with (dump false ind (S lvl) v). cbn [parse_items].
    rewrite Hv; [|lia|lia|apply delim_break; reflexivity]. cbn [mbind parsed_bind]. by rewrite skip_ws_break.
  - cbn [map]. rewrite join_cons2. rewrite !sapp_assoc. cbn [parse_items].
    rewrite Hv; [|lia|lia|apply delim_sep]. cbn [mbind parsed_bind].
    edestruct (skip_ws_sep ind (S lvl)) as (s' & Hs & Hs'). rewrite Hs. cbn [skip_ws].
    change (is_ws ",") with false. cbv iota. change (Ascii.eqb "," "]") with false.
    change (Ascii.eqb "," ",") with true. cbv iota. rewrite Hs', skip_ws_value.
    + rewrite IH; [done|done|done|simpl in *; lia|simpl in *; lia].
    + apply head_is_app. destruct l; cbn [map];
        [apply dump_head|rewrite join_cons2; apply head_is_app, dump_head];
        simpl in H0; by bool_props.
Qed.

Definition dump_member (ind : option nat) (lvl : nat) (kv : string * json) : string :=
  dump_str false kv.1 +:+ ": " +:+ dump false ind lvl kv.2.

Lemma parse_members_dump ind lvl d r fuel depth :
  d <> [] -> forallb (fun kv => json_wf kv.2) d = true ->
  Forall (fun kv => reads_back ind kv.2) d ->
  (sum_list_with (fun kv => S (size kv.2)) d <= fuel)%nat ->
  (max_list_with (fun kv => nesting kv.2) d <= depth)%nat ->
  parse_members fuel depth
    (join (item_sep ind (S lvl)) (map (dump_member ind (S lvl)) d) +:+ break ind lvl +:+ "}" +:+ r)
  = Parsed (d, r).
Proof.
  intros Hne Hwf Hrb. revert fuel. induction Hrb as [|[k v] d Hv Hd IH]; [done|]; intros fuel Hf Hdep.
  simpl in Hwf, Hdep. bool_props. destruct fuel as [|fuel]; simpl in Hf; [lia|].
  assert (Hstep : forall s, parse_members (S fuel) depth (dump_member ind (S lvl) (k, v) +:+ s) =
    '(v, k2) ← parse_value fuel depth (dump false ind (S lvl) v +:+ s);
    match skip_ws k2 with
    | String c k3 =>
        if Ascii.eqb c "}" then Parsed ([(k, v)], k3)
        else if Ascii.eqb c "," then
          '(d, k4) ← parse_members fuel depth (skip_ws k3); Parsed ((k, v) :: d, k4)
        else NotJson
    | EmptyString => NotJson
    end).
  { intros s. unfold dump_member, dump_str. rewrite !sapp_assoc. cbn [fst snd parse_members].
    change (expect (chr 34) (dq +:+ ?x)) with (Some x).
    cbn [mbind parsed_bind parsed_opt]. rewrite parse_str_escape. cbn [mbind parsed_bind parsed_opt].
    match goal with |- context [expect ":" (skip_ws (": " +:+ ?x))] =>
      change (expect ":" (skip_ws (": " +:+ x))) with (Some (" " +:+ x)) end.
    cbn [mbind parsed_bind parsed_opt].
    match goal with |- context [skip_ws (" " +:+ ?x)] =>
      change (skip_ws (" " +:+ x)) with (skip_ws x) end.
    rewrite skip_ws_value; [reflexivity|]. by apply head_is_app, dump_head. }
  destruct d as [|kv2 d].
  - change (join _ (map _ [(k, v)])) with (dump_member ind (S lvl) (k, v)). rewrite Hstep.
    rewrite Hv; [|simpl; lia|simpl; lia|apply delim_break; reflexivity]. cbn [mbind parsed_bind].
    by rewrite skip_ws_break.
  - cbn [map]. rewrite join_cons2. rewrite !(sapp_assoc (dump_member _ _ _)), Hstep.
    rewrite Hv; [|simpl; lia|simpl; lia|rewrite !sapp_assoc; apply delim_sep]. rewrite !sapp_assoc.
    cbn [mbind parsed_bind].
    edestruct (skip_ws_sep ind (S lvl)) as (s' & Hs & Hs'). rewrite Hs. cbn [skip_ws].
    change (is_ws ",") with false. cbv iota. change (Ascii.eqb "," "}") with false.
    change (Ascii.eqb "," ",") with true. cbv iota. rewrite Hs', skip_ws_head.
    + rewrite IH; [done|done|done|simpl in *; lia|simpl in *; lia].
    + apply head_is_app. by destruct d.
Qed.

Lemma foldl_dict_set {V} (d d0 : list (string * V)) :
  NoDup (d0 ++ d).*1 -> foldl (fun d kv => dict_set kv.1 kv.2 d) d0 d = d0 ++ d.
Proof.
  revert d0. induction d as [|[k v] d IH]; intros d0 Hnd; simpl; [by rewrite app_nil_r|].
  assert (Hset : dict_set k v d0 = d0 ++ [(k, v)]).
  { clear IH. rewrite fmap_app in Hnd. apply NoDup_app in Hnd as (_ & Hdis & _).
    assert (Hk : k ∉ d0.*1) by (intros Hin; apply (Hdis k Hin); simpl; left).
    clear Hdis. induction d0 as [|[k' v'] d0 IH]; simpl in *; [done|].
    apply not_elem_of_cons in Hk as [Hne Hk]. apply String.eqb_neq in Hne. rewrite Hne.
    by rewrite IH. }
  rewrite Hset, IH; by rewrite <- app_assoc.
Qed.

Lemma parse_value_str fuel depth t r :
  parse_value (S fuel) depth (dump_str false t +:+ r) = Parsed (JStr t, r).
Proof.
  unfold dump_str. rewrite !sapp_assoc.
  change (parse_value (S fuel) depth (dq +:+ escape t +:+ dq +:+ r)) with
    ('(t, k) ← parsed_opt (parse_str (escape t +:+ dq +:+ r)); Parsed (JStr t, k)).
  by rewrite parse_str_escape.
Qed.

Lemma dump_arr ind lvl l : l <> [] -> dump false ind lvl (JArr l) =
  "[" +:+ break ind (S lvl) +:+ join (item_sep ind (S lvl)) (map (dump false ind (S lvl)) l)
  +:+ break ind lvl +:+ "]".
Proof. by destruct l. Qed.

Lemma dump_obj ind lvl d : d <> [] -> dump false ind lvl (JObj d) =
  "{" +:+ break ind (S lvl) +:+ join (item_sep ind (S lvl)) (map (dump_member ind (S lvl)) d)
  +:+ break ind lvl +:+ "}".
Proof. by destruct d. Qed.

Lemma join_head f sep x l s : head_is f x = true -> head_is f (join sep (x :: l) +:+ s) = true.
Proof. intros H. apply head_is_app. destruct l; [done|]. rewrite join_cons2. by apply head_is_app. Qed.

(** Every well-formed document reads back, whatever follows it. *)
Lemma parse_value_dump ind v : json_wf v = true -> reads_back ind v.
Proof.
  induction v as [|b|n|l|s|l IH|d IH] using json_ind'; intros Hwf fuel depth lvl r Hf Hdep Hr;
    (destruct fuel as [|fuel]; [simpl in Hf; lia|]).
  - by destruct r.
  - destruct b; by destruct r.
  - cbn [dump]. rewrite number_head_value by apply number_head_app, str_of_Z_head.
    erewrite parse_number_delim; [done|done|apply parse_number_int].
  - cbn [json_wf] in Hwf. unfold float_ok in Hwf. apply orb_true_iff in Hwf as [Hn|Hwf].
    { apply not_finite_spec in Hn as [-> | [-> | ->]]; by destruct r. }
    apply float_literal_spec in Hwf as [Hh Hp]. cbn [dump].
    rewrite number_head_value by by apply number_head_app. by erewrite parse_number_delim.
  - apply parse_value_str.
  - destruct depth as [|depth]; [simpl in Hdep; lia|].
    destruct (decide (l = [])) as [->|Hne]; [done|].
    rewrite dump_arr by done. rewrite !sapp_assoc.
    match goal with |- parse_value _ _ ("[" +:+ ?s) = _ =>
      change (parse_value (S fuel) (S depth) ("[" +:+ s)) with
        match expect "]" (skip_ws s) with
        | Some k => Parsed (JArr [], k)
        | None => '(l, k) ← parse_items fuel depth (skip_ws s); Parsed (JArr l, k)
        end end.
    cbn [json_wf] in Hwf. rewrite skip_ws_break.
    assert (Hhd : head_is value_char (join (item_sep ind (S lvl))
      (map (dump false ind (S lvl)) l) +:+ break ind lvl +:+ "]" +:+ r) = true).
    { destruct l as [|x l]; [done|]. cbn [map]. apply join_head, dump_head.
      simpl in Hwf. by bool_props. }
    rewrite skip_ws_value by done. rewrite expect_value by done.
    rewrite parse_items_dump; [done|done|done| |simpl in Hf; lia|simpl in Hdep; lia].
    apply Forall_forall. intros x Hx. rewrite Forall_forall in IH.
    rewrite forallb_forall in Hwf. apply IH; [done|]. by apply Hwf, list_elem_of_In.
  - destruct depth as [|depth]; [simpl in Hdep; lia|].
    destruct (decide (d = [])) as [->|Hne]; [done|].
    rewrite dump_obj by done. rewrite !sapp_assoc.
    match goal with |- parse_value _ _ ("{" +:+ ?s) = _ =>
      change (parse_value (S fuel) (S depth) ("{" +:+ s)) with
        match expect "}" (skip_ws s) with
        | Some k => Parsed (JObj [], k)
        | None => '(d, k) ← parse_members fuel depth (skip_ws s);
                  Parsed (JObj (foldl (fun d kv => dict_set kv.1 kv.2 d) [] d), k)
        end end.
    cbn [json_wf] in Hwf. apply andb_true_iff in Hwf as [Hnd Hwf].
    apply bool_decide_eq_true in Hnd. rewrite skip_ws_break.
    assert (Hhd : head_is value_char (join (item_sep ind (S lvl))
      (map (dump_member ind (S lvl)) d) +:+ break ind lvl +:+ "}" +:+ r) = true)
      by (destruct d as [|x d]; [done|]; by apply join_head).
    rewrite skip_ws_value by done. rewrite expect_value by done.
    rewrite parse_members_dump; [|done|done| |simpl in Hf; lia|simpl in Hdep; lia].
    + cbn [mbind parsed_bind]. by rewrite foldl_dict_set.
    + apply Forall_forall. intros x Hx. rewrite Forall_forall in IH.
      rewrite forallb_forall in Hwf. apply IH; [done|]. by apply Hwf, list_elem_of_In.
Qed.

Lemma sum_list_le {A} (f g : A -> nat) l : Forall (fun x => f x <= g x)%nat l ->
  (sum_list_with f l <= sum_list_with g l)%nat.
Proof. induction 1; simpl; lia. Qed.

Lemma join_length sep l : sep <> "" ->
  (sum_list_with (fun s => S (String.length s)) l <= S (String.length (join sep l)))%nat.
Proof.
  intros Hsep. assert (1 <= String.length sep)%nat by (destruct sep; [done|simpl; lia]).
  induction l as [|x l IH]; [simpl; lia|]. destruct l as [|y l].
  - simpl. unfold join. simpl. lia.
  - rewrite join_cons2, !slength_app. simpl in *. lia.
Qed.

Lemma item_sep_nonempty ind lvl : item_sep ind lvl <> "".
Proof. by destruct ind. Qed.

Lemma sum_list_with_map {A B} (f : B -> nat) (g : A -> B) l :
  sum_list_with f (map g l) = sum_list_with (fun x => f (g x)) l.
Proof. induction l; simpl; auto. Qed.

Lemma sum_list_double {A} (f g : A -> nat) l :
  Forall (fun x => f x <= 2 * g x)%nat l -> (sum_list_with f l <= 2 * sum_list_with g l)%nat.
Proof. induction 1; simpl; lia. Qed.

(** The text of a document is long enough for the fuel of [loads]. *)
Lemma size_dump ind lvl v : (size v <= 2 * String.length (dump false ind lvl v) + 1)%nat.
Proof.
  revert lvl. induction v as [|b|n|l|s|l IH|d IH] using json_ind'; intros lvl; try (simpl; lia).
  - destruct (decide (l = [])) as [->|Hne]; [simpl; lia|].
    rewrite dump_arr by done. rewrite !slength_app.
    pose proof (join_length (item_sep ind (S lvl)) (map (dump false ind (S lvl)) l)
      (item_sep_nonempty _ _)) as Hj. rewrite sum_list_with_map in Hj.
    pose proof (sum_list_double (fun x => S (size x))
      (fun x => S (String.length (dump false ind (S lvl) x))) l) as Hd.
    simpl. enough (Forall (fun x => S (size x) <=
      2 * S (String.length (dump false ind (S lvl) x)))%nat l) by (specialize (Hd H); simpl; lia).
    eapply Forall_impl; [exact IH|]. intros x Hx. simpl. specialize (Hx (S lvl)). lia.
  - destruct (decide (d = [])) as [->|Hne]; [simpl; lia|].
    rewrite dump_obj by done. rewrite !slength_app.
    pose proof (join_length (item_sep ind (S lvl)) (map (dump_member ind (S lvl)) d)
      (item_sep_nonempty _ _)) as Hj. rewrite sum_list_with_map in Hj.
    pose proof (sum_list_double (fun kv => S (size kv.2))
      (fun kv => S (String.length (dump_member ind (S lvl) kv))) d) as Hd.
    simpl. enough (Forall (fun kv => S (size kv.2) <=
      2 * S (String.length (dump_member ind (S lvl) kv)))%nat d) by (specialize (Hd H); simpl; lia).
    eapply Forall_impl; [exact IH|]. intros x Hx. simpl. specialize (Hx (S lvl)).
    unfold dump_member. rewrite !slength_app. lia.
Qed.

Lemma skip_ws_newline : skip_ws nl = "".
Proof. done. Qed.

(** [json.loads] inverts [json.dumps(ensure_ascii=False)], a final line break
    included. *)
Lemma loads_dump depth ind v : json_wf v = true -> (nesting v <= depth)%nat ->
  loads depth (dump false ind 0 v +:+ nl) = Parsed v.
Proof.
  intros Hwf Hd. unfold loads. rewrite skip_ws_value by by apply head_is_app, dump_head.
  rewrite parse_value_dump; [done|done| |done|done].
  rewrite slength_app. pose proof (size_dump ind 0 v). lia.
Qed.

(** ** Sorting keys *)

Lemma keys_map {V W} (f : V -> W) (d : list (string * V)) :
  (map (fun kv => (kv.1, f kv.2)) d).*1 = d.*1.
Proof. induction d as [|x d IH]; [done|]. exact (f_equal (cons x.1) IH). Qed.

Lemma sort_keys_wf v : json_wf v = true -> json_wf (sort_keys v) = true.
Proof.
  induction v as [|b|n|l|s|l IH|d IH] using json_ind'; try done; simpl; intros Hwf.
  - rewrite forallb_forall in Hwf. rewrite Forall_forall in IH.
    apply forallb_forall. intros x Hx. apply in_map_iff in Hx as (y & <- & Hy).
    apply IH; [by apply list_elem_of_In|by apply Hwf].
  - apply andb_true_iff in Hwf as [Hnd Hwf]. apply bool_decide_eq_true in Hnd.
    rewrite forallb_forall in Hwf. rewrite Forall_forall in IH. apply andb_true_iff. split.
    + apply bool_decide_eq_true. rewrite sort_by_Permutation.
      by rewrite keys_map.
    + apply forallb_forall. intros x Hx.
      apply list_elem_of_In, elem_of_sort_by, list_elem_of_In, in_map_iff in Hx as (y & <- & Hy).
      apply IH; [by apply list_elem_of_In|by apply Hwf].
Qed.

Lemma dict_get_perm {V} (d d' : list (string * V)) k :
  NoDup d.*1 -> Permutation d d' -> dict_get k d = dict_get k d'.
Proof.
  intros Hnd Hp. assert (Hnd' : NoDup d'.*1) by by rewrite <- Hp.
  destruct (dict_get k d') as [v|] eqn:E.
  - apply dict_get_elem in E. apply elem_dict_get; [done|]. by rewrite Hp.
  - apply dict_get_None. apply dict_get_None in E. unfold dict_keys in *. by rewrite Hp.
Qed.

Lemma dict_get_map {V W} (f : V -> W) (d : list (string * V)) k :
  dict_get k (map (fun kv => (kv.1, f kv.2)) d) = f <$> dict_get k d.
Proof. induction d as [|[k' v] d IH]; simpl; [done|]. by destruct (String.eqb k k'). Qed.

(** Sorting the keys of a document does not change what its fields hold. *)
Lemma dict_get_sort_keys d k : NoDup d.*1 ->
  exists d', sort_keys (JObj d) = JObj d' /\ dict_get k d' = sort_keys <$> dict_get k d.
Proof.
  intros Hnd. simpl. eexists. split; [done|].
  rewrite <- dict_get_map. symmetry. apply dict_get_perm; [|by rewrite sort_by_Permutation].
  by rewrite keys_map.
Qed.

(** ** The text of a document *)

(** The strings are UTF-8 and the float literals ASCII. *)
Fixpoint json_text (v : json) : bool :=
  match v with
  | JFloat l => sforall plain l
  | JStr s => utf8_valid s
  | JArr l => forallb json_text l
  | JObj d => forallb (fun kv => utf8_valid kv.1 && json_text kv.2) d
  | _ => true
  end.

Lemma escape_char_low c : (ord c <? 128) = true -> text_ok (escape_char c) = true.
Proof.
  intros H. assert (Hc : implb (ord c <? 128) (text_ok (escape_char c)) = true) by by_chars c.
  by rewrite H in Hc.
Qed.

Lemma escape_char_high c : (ord c <? 128) = false -> escape_char c = ch c /\ not_cr c = true.
Proof.
  intros H. assert (Hc : orb (ord c <? 128) (String.eqb (escape_char c) (ch c) && not_cr c) = true)
    by by_chars c.
  rewrite H in Hc. simpl in Hc. by bool_props.
Qed.

Lemma in_range_high lo hi c : (128 <=? lo) = true -> in_range lo hi c = true -> (ord c <? 128) = false.
Proof. unfold in_range. intros. bool_props. apply Z.ltb_ge. lia. Qed.

Lemma escape_text_ok s : utf8_valid s = true -> text_ok (escape s) = true.
Proof.
  remember (String.length s) as n eqn:Hn. revert s Hn.
  induction n as [n IH] using lt_wf_ind. intros s -> Hs.
  assert (Ht : forall t, utf8_valid t = true -> (String.length t < String.length s)%nat ->
                 text_ok (escape t) = true) by (intros t ? Hl; by eapply (IH _ Hl t)).
  clear IH. unfold text_ok in *.
  destruct s as [|c s]; [done|]. cbn [escape utf8_valid] in *.
  destruct (ord c <? 128) eqn:Ec.
  { apply text_ok_app; [by apply escape_char_low|]. apply Ht; [done|simpl; lia]. }
  apply escape_char_high in Ec as Ec'. destruct Ec' as [-> Hc].
  destruct s as [|d s]; [done|]. cbn [escape].
  destruct (in_range 194 223 c) eqn:E2.
  { apply andb_true_iff in Hs as [Hh Hs].
    destruct (escape_char_high d) as [-> Hd]; [by apply (in_range_high 128 191)|].
    assert (Hr : utf8_valid (escape s) && sforall not_cr (escape s) = true)
      by (apply Ht; [done|simpl; lia]). apply andb_true_iff in Hr as [Hr1 Hr2].
    unfold ch. rewrite ?sapp_cons, ?sapp_nil_l. cbn [utf8_valid sforall]. rewrite Ec, E2, Hc, Hd, Hh, Hr1, Hr2. done. }
  destruct s as [|e s]; [done|]. cbn [escape].
  destruct (in_range 224 239 c) eqn:E3.
  { apply andb_true_iff in Hs as [Hh Hs].
    assert (Hr : utf8_valid (escape s) && sforall not_cr (escape s) = true)
      by (apply Ht; [done|simpl; lia]).
    apply andb_true_iff in Hr as [Hr1 Hr2].
    assert (Hde : in_range 128 191 d = true /\ in_range 128 191 e = true)
      by (clear -Hh; bool_props; done). destruct Hde as [Hd' He'].
    destruct (escape_char_high d) as [-> Hd]; [by apply (in_range_high 128 191)|].
    destruct (escape_char_high e) as [-> He]; [by apply (in_range_high 128 191)|].
    unfold ch. rewrite ?sapp_cons, ?sapp_nil_l. cbn [utf8_valid sforall].
    rewrite Ec, E2, E3, Hc, Hd, He, Hh, Hr1, Hr2. done. }
  destruct s as [|f s]; [done|]. cbn [escape].
  apply andb_true_iff in Hs as [Hh Hs].
  assert (Hr : utf8_valid (escape s) && sforall not_cr (escape s) = true)
    by (apply Ht; [done|simpl; lia]).
  apply andb_true_iff in Hr as [Hr1 Hr2].
  assert (Hde : in_range 128 191 d = true /\ in_range 128 191 e = true /\ in_range 128 191 f = true)
    by (clear -Hh; bool_props; done). destruct Hde as (Hd' & He' & Hf').
  destruct (escape_char_high d) as [-> Hd]; [by apply (in_range_high 128 191)|].
  destruct (escape_char_high e) as [-> He]; [by apply (in_range_high 128 191)|].
  destruct (escape_char_high f) as [-> Hf]; [by apply (in_range_high 128 191)|].
  unfold ch. rewrite ?sapp_cons, ?sapp_nil_l. cbn [utf8_valid sforall].
  rewrite Ec, E2, E3, Hc, Hd, He, Hf, Hh, Hr1, Hr2. done.
Qed.

Lemma dump_str_text_ok s : utf8_valid s = true -> text_ok (dump_str false s) = true.
Proof. intros Hs. apply text_ok_app; [done|]. apply text_ok_app; [by apply escape_text_ok|done]. Qed.

Lemma break_text_ok ind lvl : text_ok (break ind lvl) = true.
Proof.
  apply text_ok_plain. destruct ind as [n|]; [|done]. unfold break.
  rewrite sforall_app. by rewrite sforall_srepeat.
Qed.

Lemma item_sep_text_ok ind lvl : text_ok (item_sep ind lvl) = true.
Proof. destruct ind; [|done]. apply text_ok_app; [done|apply break_text_ok]. Qed.

(** What [json.dumps] writes is UTF-8 without carriage returns. *)
Lemma dump_text_ok ind v : json_text v = true -> forall lvl, text_ok (dump false ind lvl v) = true.
Proof.
  induction v as [|b|n|l|s|l IH|d IH] using json_ind'; intros Hv lvl; cbn [json_text] in Hv.
  - done.
  - by destruct b.
  - apply text_ok_plain, str_of_Z_plain.
  - by apply text_ok_plain.
  - by apply dump_str_text_ok.
  - destruct (decide (l = [])) as [->|Hne]; [done|]. rewrite dump_arr by done.
    repeat (apply text_ok_app; [first [done|apply break_text_ok|idtac]|];
            try apply break_text_ok); try done.
    apply text_ok_join; [apply item_sep_text_ok|]. apply Forall_map.
    rewrite forallb_forall in Hv. eapply Forall_forall. intros x Hx.
    rewrite Forall_forall in IH. apply IH; [done|]. by apply Hv, list_elem_of_In.
  - destruct (decide (d = [])) as [->|Hne]; [done|]. rewrite dump_obj by done.
    repeat (apply text_ok_app; [first [done|apply break_text_ok|idtac]|];
            try apply break_text_ok); try done.
    apply text_ok_join; [apply item_sep_text_ok|]. apply Forall_map.
    rewrite forallb_forall in Hv. eapply Forall_forall. intros x Hx.
    rewrite Forall_forall in IH. assert (Hx' : utf8_valid x.1 && json_text x.2 = true)
      by by apply Hv, list_elem_of_In. bool_props.
    apply text_ok_app; [by apply dump_str_text_ok|]. apply text_ok_app; [done|]. by apply IH.
Qed.

Lemma sort_keys_text v : json_text v = true -> json_text (sort_keys v) = true.
Proof.
  induction v as [|b|n|l|s|l IH|d IH] using json_ind'; try done; simpl; intros Hv;
    rewrite forallb_forall in Hv; rewrite Forall_forall in IH; apply forallb_forall; intros x Hx.
  - apply in_map_iff in Hx as (y & <- & Hy). apply IH; [by apply list_elem_of_In|by apply Hv].
  - apply list_elem_of_In, elem_of_sort_by, list_elem_of_In, in_map_iff in Hx as (y & <- & Hy).
    apply Hv in Hy as Hy'. bool_props. apply andb_true_iff. split; [done|].
    apply IH; [by apply list_elem_of_In|done].
Qed.

(** Sorting keys does not change how deep a document is. *)
Lemma max_list_with_ext {A} (f g : A -> nat) l : Forall (fun x => f x = g x) l ->
  max_list_with f l = max_list_with g l.
Proof. induction 1 as [|x l Hx _ IH]; simpl; [done|by rewrite Hx, IH]. Qed.

Lemma max_list_with_fmap {A B} (f : B -> nat) (g : A -> B) l :
  max_list_with f (g <$> l) = max_list_with (fun x => f (g x)) l.
Proof. induction l as [|x l IH]; [done|]. cbn [fmap list_fmap max_list_with]. by rewrite <- IH. Qed.

Lemma nesting_sort_keys v : nesting (sort_keys v) = nesting v.
Proof.
  induction v as [|b|n|l|s|l IH|d IH] using json_ind'; try done; cbn [sort_keys nesting]; f_equal.
  - change (map sort_keys l) with (sort_keys <$> l). rewrite max_list_with_fmap. by apply max_list_with_ext.
  - rewrite sort_by_Permutation. change (map ?f d) with (f <$> d). rewrite max_list_with_fmap. by apply max_list_with_ext.
Qed.
