(* ===== verification/Documents.v ===== *)
(** What [json.loads] returns: a document whose objects have distinct keys and whose floats are
    literals of the JSON grammar, or one of the three names that Python adds, and which is no deeper
    than the interpreter allows. *)
From Stdlib Require Import ZArith Lia.
From S2P Require Import Prelude Str Json.
Local Open Scope Z_scope.

(** ** Scanning a literal alone *)

Lemma span_digits_alone s d k : span_digits s = (d, k) -> span_digits d = (d, "").
Proof.
  intros (_ & Hd & _)%span_digits_eq. pose proof (span_digits_app d "" Hd eq_refl) as H.
  by rewrite sapp_nil_r in H.
Qed.

(** The head of a fraction or exponent. *)
Lemma scan_frac_head s f k : scan_frac s = (f, k) ->
  head_is is_digit f = false /\ (f = "" \/ exists d, f = String "." d /\ d <> "" /\ sforall is_digit d = true).
Proof.
  destruct s as [|c s]; simpl; [intros [= <- _]; eauto|].
  destruct (Ascii.eqb c ".") eqn:Ec; [|intros [= <- _]; eauto]. apply Ascii.eqb_eq in Ec as ->.
  destruct (span_digits s) as [[|y d] k'] eqn:E; [intros [= <- _]; eauto|]. intros [= <- _].
  apply span_digits_eq in E as (_ & Hd & _). split; [done|]. right. by eexists.
Qed.

Lemma scan_exp_alone s e k : scan_exp s = (e, k) ->
  scan_exp e = (e, "") /\ head_is is_digit e = false /\ head_is (fun c => Ascii.eqb c ".") e = false.
Proof.
  destruct s as [|c s]; simpl; [by intros [= <- _]|].
  destruct (char_in "eE" c) eqn:Ec; [|by intros [= <- _]].
  set (sr := match s with String x r' => _ | EmptyString => _ end).
  destruct sr as [sg r'] eqn:Es. destruct (span_digits r') as [[|y d] k'] eqn:E; [by intros [= <- _]|].
  intros [= <- _]. pose proof (span_digits_alone _ _ _ E) as Ha.
  assert (Hdot : implb (char_in "eE" c) (negb (is_digit c) && negb (Ascii.eqb c ".")) = true) by by_chars c.
  rewrite Ec in Hdot. cbn [implb] in Hdot. split; [|cbn [head_is]; by bool_props].
  cbn [scan_exp]. rewrite Ec.
  apply span_digits_eq in E as (_ & Hd & _). cbn [sforall] in Hd. apply andb_true_iff in Hd as [Hy _].
  assert (Hsg : sg = "" \/ exists x, sg = ch x /\ char_in "+-" x = true).
  { unfold sr in Es. destruct s as [|x s]; [by injection Es as <- _; left|].
    destruct (char_in "+-" x) eqn:Ex; injection Es as <- _; [right; eauto|by left]. }
  destruct Hsg as [->|(x & -> & Hx)].
  - rewrite sapp_nil_l. assert (Hn : implb (is_digit y) (negb (char_in "+-" y)) = true) by by_chars y.
    rewrite Hy in Hn. cbn [implb] in Hn. apply negb_true_iff in Hn. rewrite Hn. by rewrite Ha.
  - change (ch x +:+ String y d) with (String x (String y d)).
    cbv beta iota. rewrite Hx. by rewrite Ha.
Qed.

Lemma scan_frac_alone s f k e : scan_frac s = (f, k) -> head_is is_digit e = false ->
  head_is (fun c => Ascii.eqb c ".") e = false -> scan_frac (f +:+ e) = (f, e).
Proof.
  intros H He Hdot. apply scan_frac_head in H as [_ [->|(d & -> & Hne & Hd)]].
  - rewrite sapp_nil_l. destruct e as [|c e]; [done|]. simpl in *. by rewrite Hdot.
  - rewrite sapp_cons. cbn [scan_frac]. rewrite (span_digits_app _ _ Hd He). by destruct d.
Qed.

(** A scanned float is a float literal. *)
Lemma scan_unsigned_alone s b l k : scan_unsigned s = Some (b, l, k) -> scan_unsigned l = Some (b, l, "").
Proof.
  unfold scan_unsigned. destruct (span_digits s) as [[|z d] k0] eqn:E; [done|].
  destruct (if Ascii.eqb z "0" then _ else _) as [ip k1] eqn:Ei.
  destruct (scan_frac k1) as [fp k2] eqn:Ef. destruct (scan_exp k2) as [ep k3] eqn:Ee.
  intros [= <- <- <-]. apply span_digits_eq in E as (_ & Hd & _). cbn [sforall] in Hd.
  apply andb_true_iff in Hd as [Hz Hd].
  assert (Hip : exists d', ip = String z d' /\ sforall is_digit d' = true /\ (Ascii.eqb z "0" = true -> d' = "")).
  { destruct (Ascii.eqb z "0") eqn:Ez; injection Ei as <- _.
    - apply Ascii.eqb_eq in Ez as ->. by exists "".
    - exists d. split_and!; [done|done|done]. }
  destruct Hip as (d' & -> & Hd' & Hz0). apply scan_exp_alone in Ee as (He & Hed & Hedot).
  pose proof (scan_frac_head _ _ _ Ef) as [Hfd _].
  assert (Hhead : head_is is_digit (fp +:+ ep) = false) by (destruct fp; [by rewrite sapp_nil_l|done]).
  assert (Hsp : span_digits (String z d' +:+ (fp +:+ ep)) = (String z d', fp +:+ ep)).
  { apply span_digits_app; [|done]. cbn [sforall]. by rewrite Hz. }
  rewrite Hsp. destruct (Ascii.eqb z "0") eqn:Ez.
  - rewrite Hz0 by done. apply Ascii.eqb_eq in Ez as ->. rewrite sapp_nil_l.
    rewrite (scan_frac_alone _ _ _ _ Ef Hed Hedot), He. done.
  - rewrite (scan_frac_alone _ _ _ _ Ef Hed Hedot), He. done.
Qed.

Lemma parse_number_wf s v k : parse_number s = Some (v, k) -> json_wf v = true.
Proof.
  unfold parse_number. destruct s as [|c s]; [done|].
  destruct (scan_unsigned _) as [[[b l] k']|] eqn:E; [|done]. destruct b.
  - intros [= <- _]. apply scan_unsigned_alone in E. cbn [json_wf]. unfold float_ok.
    apply orb_true_iff. right. destruct (Ascii.eqb c "-").
    + change (float_literal (String "-" l) = true). unfold float_literal.
      change (Ascii.eqb "-" "-") with true. cbv iota. rewrite E. by rewrite String.eqb_refl.
    + unfold float_literal. destruct l as [|x l]; [done|].
      assert (Hx : Ascii.eqb x "-" = false).
      { pose proof (scan_unsigned_head _ _ E) as Hh. cbn [head_is] in Hh.
        assert (Hc : implb (is_digit x) (negb (Ascii.eqb x "-")) = true) by by_chars x.
        rewrite Hh in Hc. by apply negb_true_iff in Hc. }
      rewrite Hx, E. by rewrite String.eqb_refl.
  - destruct (val_from 10 0 l); by intros [= <- _].
Qed.

(** ** Objects *)

Lemma dict_set_nodup {V} k (v : V) d : NoDup d.*1 -> NoDup (dict_set k v d).*1.
Proof.
  intros Hd. assert (Hk : (dict_set k v d).*1 = if dict_mem k d then d.*1 else d.*1 ++ [k]).
  { clear Hd. unfold dict_mem. induction d as [|[k' v'] d IH]; simpl; [done|].
    destruct (String.eqb k k') eqn:E; simpl; [by apply String.eqb_eq in E as ->|].
    change (list_fmap _ _ fst (dict_set k v d)) with ((dict_set k v d).*1).
    rewrite IH. by destruct (dict_get k d). }
  rewrite Hk. unfold dict_mem. destruct (dict_get k d) eqn:E; [done|].
  apply dict_get_None in E. apply NoDup_app. split_and!; [done| |apply NoDup_singleton].
  intros x Hx ->%list_elem_of_singleton. done.
Qed.

Lemma dict_set_wf k v d : json_wf v = true -> forallb (fun kv => json_wf kv.2) d = true ->
  forallb (fun kv => json_wf kv.2) (dict_set k v d) = true.
Proof.
  intros Hv. induction d as [|[k' v'] d IH]; cbn [dict_set forallb snd]; [by rewrite Hv|].
  intros [Hv' Hd]%andb_true_iff. destruct (String.eqb k k'); cbn [forallb snd].
  - by rewrite Hv, Hd.
  - by rewrite Hv', IH.
Qed.

(** The members of an object, the last one of a key winning. *)
Lemma members_wf l d : forallb (fun kv => json_wf kv.2) l = true -> json_wf (JObj d) = true ->
  json_wf (JObj (foldl (fun d kv => dict_set kv.1 kv.2 d) d l)) = true.
Proof.
  revert d. induction l as [|[k v] l IH]; intros d Hl Hd; [done|]. cbn [forallb foldl fst snd] in *.
  apply andb_true_iff in Hl as [Hv Hl]. apply IH; [done|]. cbn [json_wf] in *.
  apply andb_true_iff in Hd as [Hn Hd]. apply bool_decide_eq_true in Hn.
  apply andb_true_iff. split; [by apply bool_decide_eq_true, dict_set_nodup|by apply dict_set_wf].
Qed.

(** *** How deep a document is *)

Lemma dict_set_nesting k v d n : (nesting v <= n)%nat -> (max_list_with (fun kv => nesting kv.2) d <= n)%nat ->
  (max_list_with (fun kv => nesting kv.2) (dict_set k v d) <= n)%nat.
Proof.
  intros Hv. induction d as [|[k' v'] d IH]; simpl; [lia|]. intros Hd. destruct (String.eqb k k'); simpl; lia.
Qed.

Lemma members_nesting l d n : (max_list_with (fun kv => nesting kv.2) l <= n)%nat ->
  (max_list_with (fun kv => nesting kv.2) d <= n)%nat ->
  (max_list_with (fun kv => nesting kv.2) (foldl (fun d kv => dict_set kv.1 kv.2 d) d l) <= n)%nat.
Proof.
  revert d. induction l as [|[k v] l IH]; intros d Hl Hd; [done|]. simpl in *.
  apply IH; [lia|]. apply dict_set_nesting; [lia|done].
Qed.

(** The brackets of a text that open an array or an object. *)
Fixpoint opens (s : string) : nat :=
  match s with
  | EmptyString => 0
  | String c s => (if Ascii.eqb c "[" || Ascii.eqb c "{" then 1 else 0) + opens s
  end.

Lemma opens_tail c s : (opens s <= opens (String c s))%nat.
Proof. simpl. lia. Qed.

Lemma opens_skip_ws s : (opens (skip_ws s) <= opens s)%nat.
Proof. induction s as [|c s IH]; [done|]. simpl. destruct (is_ws c); simpl; lia. Qed.

Lemma opens_app s t : opens (s +:+ t) = (opens s + opens t)%nat.
Proof. induction s as [|c s IH]; [done|]. rewrite sapp_cons. simpl. rewrite IH. lia. Qed.

Lemma opens_expect c s k : expect c s = Some k -> (opens k <= opens s)%nat.
Proof. destruct s as [|d s]; [done|]. simpl. destruct (Ascii.eqb d c); [|done]. intros [= ->]. lia. Qed.

Lemma opens_parse_str n : forall s t k, (String.length s <= n)%nat ->
  parse_str s = Some (t, k) -> (opens k <= opens s)%nat.
Proof.
  induction n as [|n IH]; intros s t k Hn; [by destruct s; simpl in Hn; try lia|].
  assert (Hrec : forall r u k, (String.length r < String.length s)%nat -> parse_str r = Some (u, k) ->
    (opens k <= opens r)%nat) by (intros r u k' Hr E; eapply IH; [lia|exact E]).
  clear IH Hn. destruct s as [|c s]; [done|]. cbn [parse_str]. cbv zeta. intros E.
  repeat case_match; simplify_eq; try (apply opens_tail);
    match goal with E : parse_str _ = Some _ |- _ => apply Hrec in E; [|simpl; lia] end; simpl in *; lia.
Qed.

Lemma opens_span_digits s d k : span_digits s = (d, k) -> (opens k <= opens s)%nat.
Proof. intros (-> & _ & _)%span_digits_eq. rewrite opens_app. lia. Qed.

Lemma opens_scan_frac s f k : scan_frac s = (f, k) -> (opens k <= opens s)%nat.
Proof.
  destruct s as [|c s]; cbn [scan_frac]; [by intros [= _ <-]|].
  destruct (Ascii.eqb c "."); [|by intros [= _ <-]].
  destruct (span_digits s) as [[|y d] k'] eqn:E; [by intros [= _ <-]|]. intros [= _ <-].
  apply opens_span_digits in E. simpl. lia.
Qed.

Lemma opens_scan_exp s e k : scan_exp s = (e, k) -> (opens k <= opens s)%nat.
Proof.
  destruct s as [|c s]; cbn [scan_exp]; [by intros [= _ <-]|].
  destruct (char_in "eE" c); [|by intros [= _ <-]].
  set (sr := match s with String x r' => _ | EmptyString => _ end).
  assert (Hr : (opens sr.2 <= opens s)%nat)
    by (unfold sr; destruct s as [|x s]; [done|]; destruct (char_in "+-" x); simpl; lia).
  destruct sr as [sg r']. cbn [snd] in Hr.
  destruct (span_digits r') as [[|y d] k'] eqn:E; intros [= _ <-]; [done|].
  apply opens_span_digits in E. simpl. lia.
Qed.

Lemma opens_scan_unsigned s b l k : scan_unsigned s = Some (b, l, k) -> (opens k <= opens s)%nat.
Proof.
  unfold scan_unsigned. destruct (span_digits s) as [[|z d] k0] eqn:E; [done|].
  destruct (if Ascii.eqb z "0" then _ else _) as [ip k1] eqn:Ei.
  destruct (scan_frac k1) as [fp k2] eqn:Ef. destruct (scan_exp k2) as [ep k3] eqn:Ee.
  intros [= _ _ <-]. apply opens_scan_frac in Ef. apply opens_scan_exp in Ee.
  apply span_digits_eq in E as (-> & _ & _). rewrite opens_app.
  destruct (Ascii.eqb z "0"); injection Ei as _ <-; [rewrite opens_app in Ef|]; simpl; lia.
Qed.

Lemma opens_parse_number s v k : parse_number s = Some (v, k) -> (opens k <= opens s)%nat.
Proof.
  unfold parse_number. destruct s as [|c s]; [done|].
  destruct (scan_unsigned _) as [[[b l] k']|] eqn:E; [|done]. apply opens_scan_unsigned in E.
  assert (Hs : (opens (if Ascii.eqb c "-" then s else String c s) <= opens (String c s))%nat)
    by (destruct (Ascii.eqb c "-"); simpl; lia).
  destruct b; [intros [= _ <-]; lia|]. destruct (val_from 10 0 l); [|done]. intros [= _ <-]. lia.
Qed.

Lemma opens_sdrop n s : (opens (sdrop n s) <= opens s)%nat.
Proof. revert s. induction n as [|n IH]; intros [|c s]; try done. cbn [sdrop opens]. specialize (IH s). lia. Qed.

(** A document is scanned from the left: what is left has no more brackets than there were. *)
Lemma parse_literal_parts s v k : parse_literal literals s = Some (v, k) ->
  json_wf v = true /\ nesting v = 0%nat /\ (opens k <= opens s)%nat.
Proof.
  assert (Hl : Forall (fun tv => json_wf tv.2 = true /\ nesting tv.2 = 0%nat) literals) by by repeat constructor.
  revert Hl. generalize literals. induction l as [|[t x] l IH]; intros Hl; [done|]. cbn [parse_literal].
  apply Forall_cons in Hl as [[Hx Hx'] Hl]. destruct (startswith s t); [|by apply IH].
  intros [= <- <-]. split_and!; [done|done|apply opens_sdrop].
Qed.

Lemma parse_number_nesting s v k : parse_number s = Some (v, k) -> nesting v = 0%nat.
Proof.
  unfold parse_number. destruct s as [|c s]; [done|].
  destruct (scan_unsigned _) as [[[b l] k']|]; [|done]. destruct b; [by intros [= <- _]|].
  destruct (val_from 10 0 l); [|done]. by intros [= <- _].
Qed.

(** What is known of an outcome: a result satisfies [P] and leaves a part of the text; a scan that
    opened too much had more brackets before it than it was allowed. *)
Definition scanned {A} (P : A -> Prop) (depth : nat) (s : string) (r : parsed (A * string)) : Prop :=
  match r with
  | Parsed (a, k) => P a /\ (opens k <= opens s)%nat
  | NotJson => True
  | TooDeep => (depth < opens s)%nat
  end.

Lemma scanned_bind {A B} (P : A -> Prop) (Q : B -> Prop) d d' s s' (m : parsed (A * string)) f :
  scanned P d s m -> ((d < opens s)%nat -> (d' < opens s')%nat) ->
  (forall a k, P a -> (opens k <= opens s)%nat -> scanned Q d' s' (f (a, k))) ->
  scanned Q d' s' (m ≫= f).
Proof. intros Hm Hs Hf. destruct m as [[a k]| |]; [by apply Hf; apply Hm|done|by apply Hs]. Qed.

Lemma scanned_opt {A} (P : A -> Prop) depth s (o : option (A * string)) :
  (forall a k, o = Some (a, k) -> P a /\ (opens k <= opens s)%nat) -> scanned P depth s (parsed_opt o).
Proof. intros H. destruct o as [[a k]|]; [|done]. by apply H. Qed.

Definition doc_ok (depth : nat) (v : json) : Prop := json_wf v = true /\ (nesting v <= depth)%nat.
Definition items_ok (depth : nat) (l : list json) : Prop :=
  forallb json_wf l = true /\ (max_list_with nesting l <= depth)%nat.
Definition members_ok (depth : nat) (d : list (string * json)) : Prop :=
  forallb (fun kv => json_wf kv.2) d = true /\ (max_list_with (fun kv => nesting kv.2) d <= depth)%nat.

Definition scans (fuel : nat) : Prop := forall depth s,
  scanned (doc_ok depth) depth s (parse_value fuel depth s) /\
  scanned (items_ok depth) depth s (parse_items fuel depth s) /\
  scanned (members_ok depth) depth s (parse_members fuel depth s).

Lemma scan_members fuel depth s : scans fuel -> scanned (members_ok depth) depth s (parse_members (S fuel) depth s).
Proof.
  intros IH. cbn [parse_members].
  destruct (expect (chr 34) s) as [r|] eqn:E1; [|done]. apply opens_expect in E1. cbn [parsed_opt mbind parsed_bind].
  destruct (parse_str r) as [[key k]|] eqn:E2; [|done]. eapply opens_parse_str in E2; [|done]. cbn [parsed_opt mbind parsed_bind].
  destruct (expect ":" (skip_ws k)) as [k1|] eqn:E3; [|done]. apply opens_expect in E3. cbn [parsed_opt mbind parsed_bind].
  pose proof (opens_skip_ws k). pose proof (opens_skip_ws k1).
  destruct (IH depth (skip_ws k1)) as (Hv & _). eapply scanned_bind; [exact Hv|lia|].
  intros v k2 [Hvw Hvn] Hk2. pose proof (opens_skip_ws k2) as Hk3. destruct (skip_ws k2) as [|c k3]; [done|].
  destruct (Ascii.eqb c "}").
  { simpl in *. unfold members_ok. simpl. rewrite Hvw. split_and!; [done|lia|lia]. }
  destruct (Ascii.eqb c ","); [|done]. pose proof (opens_skip_ws k3). simpl in Hk3.
  destruct (IH depth (skip_ws k3)) as (_ & _ & Hm). eapply scanned_bind; [exact Hm|lia|].
  intros d k4 [Hdw Hdn] Hk4. unfold members_ok. simpl. rewrite Hvw, Hdw. split_and!; [done|lia|lia].
Qed.

Lemma scan_items fuel depth s : scans fuel -> scanned (items_ok depth) depth s (parse_items (S fuel) depth s).
Proof.
  intros IH. cbn [parse_items]. destruct (IH depth s) as (Hv & _). eapply scanned_bind; [exact Hv|done|].
  intros v k [Hvw Hvn] Hk. pose proof (opens_skip_ws k) as Hk'. destruct (skip_ws k) as [|c k']; [done|].
  destruct (Ascii.eqb c "]").
  { simpl in *. unfold items_ok. simpl. rewrite Hvw. split_and!; [done|lia|lia]. }
  destruct (Ascii.eqb c ","); [|done]. pose proof (opens_skip_ws k'). simpl in Hk'.
  destruct (IH depth (skip_ws k')) as (_ & Hi & _). eapply scanned_bind; [exact Hi|lia|].
  intros l k2 [Hlw Hln] Hk2. unfold items_ok. simpl. rewrite Hvw, Hlw. split_and!; [done|lia|lia].
Qed.

(** One more array or object is open. *)
Lemma scan_array fuel depth r c : scans fuel -> Ascii.eqb c "[" = true ->
  scanned (doc_ok (S depth)) (S depth) (String c r)
    match expect "]" (skip_ws r) with
    | Some k => Parsed (JArr [], k)
    | None => '(l, k) ← parse_items fuel depth (skip_ws r); Parsed (JArr l, k)
    end.
Proof.
  intros IH Hc. pose proof (opens_skip_ws r). destruct (expect "]" (skip_ws r)) as [k|] eqn:Ee.
  { apply opens_expect in Ee. simpl. split; [split; [done|simpl; lia]|rewrite Hc; simpl; lia]. }
  destruct (IH depth (skip_ws r)) as (_ & Hi & _). eapply scanned_bind; [exact Hi|simpl; rewrite Hc; simpl; lia|].
  intros l k [Hl Hn] Hk. simpl. rewrite Hc. simpl. split; [split; [done|simpl; lia]|lia].
Qed.

Lemma scan_object fuel depth r c : scans fuel -> Ascii.eqb c "{" = true ->
  scanned (doc_ok (S depth)) (S depth) (String c r)
    match expect "}" (skip_ws r) with
    | Some k => Parsed (JObj [], k)
    | None => '(d, k) ← parse_members fuel depth (skip_ws r);
              Parsed (JObj (foldl (fun d kv => dict_set kv.1 kv.2 d) [] d), k)
    end.
Proof.
  intros IH Hc. pose proof (opens_skip_ws r).
  assert (Ho : opens (String c r) = S (opens r)) by (cbn [opens]; by rewrite Hc, orb_true_r).
  destruct (expect "}" (skip_ws r)) as [k|] eqn:Ee.
  { apply opens_expect in Ee. unfold scanned. rewrite Ho. split; [split; [done|simpl; lia]|lia]. }
  destruct (IH depth (skip_ws r)) as (_ & _ & Hm). eapply scanned_bind; [exact Hm|lia|].
  intros d k [Hd Hn] Hk. unfold scanned. rewrite Ho. split; [split|lia].
  - by apply members_wf.
  - cbn [nesting]. apply le_n_S. apply members_nesting; [done|simpl; lia].
Qed.

Lemma scan fuel : scans fuel.
Proof.
  induction fuel as [|fuel IH]; [done|]. intros depth s. split_and!; [|by apply scan_items|by apply scan_members].
  destruct s as [|c r]; [done|]. cbn [parse_value].
  destruct (Ascii.eqb c (chr 34)).
  { destruct (parse_str r) as [[t k]|] eqn:E; [|done]. eapply opens_parse_str in E; [|done].
    simpl. split; [split; [done|simpl; lia]|lia]. }
  destruct (Ascii.eqb c "[") eqn:Ea.
  { destruct depth as [|depth]; [simpl; rewrite Ea; simpl; lia|by apply scan_array]. }
  destruct (Ascii.eqb c "{") eqn:Eo.
  { destruct depth as [|depth]; [simpl; rewrite Eo, orb_true_r; simpl; lia|by apply scan_object]. }
  destruct (parse_literal literals (String c r)) as [[x k]|] eqn:E.
  { apply parse_literal_parts in E as (Hw & Hn & Hk). simpl in *. split; [split; [done|lia]|done]. }
  apply scanned_opt. intros v k Ep. split; [split|by eapply opens_parse_number].
  - by eapply parse_number_wf.
  - rewrite (parse_number_nesting _ _ _ Ep). lia.
Qed.

(** Every document read is well formed and no deeper than allowed; a text refused for its depth has
    more brackets than that. *)
Lemma loads_scan depth s :
  match loads depth s with
  | Parsed v => json_wf v = true /\ (nesting v <= depth)%nat
  | NotJson => True
  | TooDeep => (depth < opens s)%nat
  end.
Proof.
  unfold loads. pose proof (opens_skip_ws s).
  destruct (scan (2 * String.length s + 2) depth (skip_ws s)) as (Hv & _).
  destruct (parse_value _ _ _) as [[v k]| |]; cbn [mbind parsed_bind]; [|done|simpl in Hv; lia].
  destruct (String.eqb _ _); [|done]. apply Hv.
Qed.
