(* ===== verification/Xml.v ===== *)
(** The part of [xml.etree.ElementTree] the scripts use: element trees, their
    indented serialisation, the parser (elements, attributes with entity and
    character references, ignored character data), and the look-ups [findall(tag)]
    and [find("./a/b[@k='v']")]; with the round trip of writing and reading. *)
From Stdlib Require Import ZArith Lia.
From S2P Require Import Prelude Str.
Local Open Scope nat_scope.
#[local] Set Warnings "-register-all".

Inductive xml := Elem (tag : string) (attrib : list (string * string)) (children : list xml).

Definition tag (x : xml) : string := let '(Elem t _ _) := x in t.
Definition attrib (x : xml) : list (string * string) := let '(Elem _ a _) := x in a.
Definition children (x : xml) : list xml := let '(Elem _ _ c) := x in c.

(** [root.findall(t)] and [root.find("./t/u[@k='v']")] *)
Definition findall (t : string) (x : xml) : list xml :=
  filter (fun c => tag c = t) (children x).
Definition find_attr (t u k v : string) (x : xml) : option xml :=
  head (filter (fun o => dict_get k (attrib o) = Some v)
          (concat (findall u <$> findall t x))).

(** ** Writing *)

Definition esc_char (c : ascii) : string :=
  if Ascii.eqb c "&" then "&amp;"
  else if Ascii.eqb c "<" then "&lt;"
  else if Ascii.eqb c ">" then "&gt;"
  else if Ascii.eqb c (chr 34) then "&quot;"
  else if Ascii.eqb c (chr 13) then "&#13;"
  else if Ascii.eqb c (chr 10) then "&#10;"
  else if Ascii.eqb c (chr 9) then "&#09;"
  else ch c.
Fixpoint esc (s : string) : string :=
  match s with EmptyString => "" | String c s' => esc_char c +:+ esc s' end.

Fixpoint print_attrs (a : list (string * string)) : string :=
  match a with
  | [] => ""
  | (k, v) :: a' => " " +:+ k +:+ "=" +:+ dq +:+ esc v +:+ dq +:+ print_attrs a'
  end.

Definition newline (lvl : nat) : string := nl +:+ srepeat " " (2 * lvl).

(** [ET.indent(root, space="  ")] and the element serialised. *)
Fixpoint print (lvl : nat) (x : xml) : string :=
  match x with
  | Elem t a [] => "<" +:+ t +:+ print_attrs a +:+ " />"
  | Elem t a cs =>
      "<" +:+ t +:+ print_attrs a +:+ ">" +:+
      String.concat "" (map (fun c => newline (S lvl) +:+ print (S lvl) c) cs) +:+
      newline lvl +:+ "</" +:+ t +:+ ">"
  end.

Definition xml_declaration : string := "<?xml version='1.0' encoding='UTF-8'?>" +:+ nl.
Definition document (x : xml) : string := xml_declaration +:+ print 0 x.

(** ** Reading *)

Definition name_char (c : ascii) : bool := is_alnum c || char_in "_.:-" c.

Fixpoint span (p : ascii -> bool) (s : string) : string * string :=
  match s with
  | EmptyString => ("", "")
  | String c s' =>
      if p c then let '(a, b) := span p s' in (String c a, b) else ("", s)
  end.

Definition xml_space (c : ascii) : bool := char_in (" " +:+ tab +:+ nl +:+ cr) c.
Definition skip_space (s : string) : string := (span xml_space s).2.

Definition entities : list (string * ascii) :=
  [("&amp;", chr 38); ("&lt;", chr 60); ("&gt;", chr 62); ("&quot;", chr 34); ("&apos;", chr 39);
   ("&#13;", chr 13); ("&#10;", chr 10); ("&#09;", chr 9)].

Fixpoint entity (l : list (string * ascii)) (s : string) : option (ascii * string) :=
  match l with
  | [] => None
  | (e, c) :: l' => if startswith s e then Some (c, sdrop (String.length e) s) else entity l' s
  end.

(** A quoted value, after the opening quote; a line break or tab reads as a space. *)
Fixpoint read_value (fuel : nat) (s : string) : option (string * string) :=
  match fuel, s with
  | O, _ | _, EmptyString => None
  | S fuel, String c s' =>
      if Ascii.eqb c (chr 34) then Some ("", s')
      else if Ascii.eqb c "<" then None
      else
        let step := if Ascii.eqb c "&" then entity entities s
                    else if xml_space c then Some (" "%char, s')
                    else if (ord c <? 32)%Z then None else Some (c, s') in
        match step with
        | None => None
        | Some (d, rest) =>
            match read_value fuel rest with
            | Some (v, k) => Some (String d v, k)
            | None => None
            end
        end
  end.

Definition strip_prefix (p s : string) : option string :=
  if startswith s p then Some (sdrop (String.length p) s) else None.

(** Attributes up to the end of the tag. *)
Fixpoint read_attrs (fuel : nat) (s : string) : option (list (string * string) * string) :=
  match fuel with
  | O => None
  | S fuel =>
      let '(k, r) := span name_char (skip_space s) in
      if String.eqb k "" then Some ([], skip_space s)
      else
        match strip_prefix ("=" +:+ dq) r with
        | None => None
        | Some r1 =>
            match read_value fuel r1 with
            | None => None
            | Some (v, r2) =>
                match read_attrs fuel r2 with
                | Some (a, r3) => Some ((k, v) :: a, r3)
                | None => None
                end
            end
        end
  end.

Definition not_markup (c : ascii) : bool := negb (Ascii.eqb c "<").

Fixpoint read_elem (fuel : nat) (s : string) {struct fuel} : option (xml * string) :=
  match fuel with
  | O => None
  | S fuel =>
      match strip_prefix "<" s with
      | None => None
      | Some s1 =>
          let '(t, s2) := span name_char s1 in
          match read_attrs fuel s2 with
          | None => None
          | Some (a, s3) =>
              match strip_prefix "/>" s3 with
              | Some k => if String.eqb t "" then None else Some (Elem t a [], k)
              | None =>
                  match strip_prefix ">" s3 with
                  | None => None
                  | Some s4 =>
                      match read_children fuel s4 with
                      | None => None
                      | Some (cs, s5) =>
                          match strip_prefix ("</" +:+ t) s5 with
                          | None => None
                          | Some s6 =>
                              match strip_prefix ">" (skip_space s6) with
                              | Some k => if String.eqb t "" then None else Some (Elem t a cs, k)
                              | None => None
                              end
                          end
                      end
                  end
              end
          end
      end
  end
with read_children (fuel : nat) (s : string) {struct fuel} : option (list xml * string) :=
  match fuel with
  | O => None
  | S fuel =>
      let r := (span not_markup s).2 in
      if startswith r "</" then Some ([], r)
      else
        match read_elem fuel r with
        | None => None
        | Some (c, r1) =>
            match read_children fuel r1 with
            | Some (cs, r2) => Some (c :: cs, r2)
            | None => None
            end
        end
  end.

(** [ET.parse]: [None] is the [ParseError] of a malformed document. *)
Definition parse_xml (s : string) : option xml :=
  let body := if startswith s "<?xml" then
                match find "?>" s with Some i => sdrop (i + 2) s | None => s end
              else s in
  match read_elem (2 * String.length s + 4) (skip_space body) with
  | Some (x, rest) => if String.eqb (skip_space rest) "" then Some x else None
  | None => None
  end.

(** ** The round trip *)

Definition name_ok (s : string) : bool := negb (String.eqb s "") && sforall name_char s.
Definition value_char (c : ascii) : bool :=
  (32 <=? ord c)%Z || char_in (tab +:+ nl +:+ cr) c.

Fixpoint xml_ok (x : xml) : bool :=
  match x with
  | Elem t a cs =>
      name_ok t && forallb (fun kv => name_ok kv.1 && sforall value_char kv.2) a &&
      forallb xml_ok cs
  end.

Fixpoint xml_ind' (P : xml -> Prop)
    (step : forall t a cs, Forall P cs -> P (Elem t a cs)) (x : xml) : P x :=
  match x with
  | Elem t a cs =>
      step t a cs ((fix go (l : list xml) : Forall P l :=
        match l with
        | [] => Forall_nil_2 _
        | c :: l' => Forall_cons_2 _ c l' (xml_ind' P step c) (go l')
        end) cs)
  end.

Lemma strip_prefix_app p s : strip_prefix p (p +:+ s) = Some s.
Proof.
  unfold strip_prefix, startswith. rewrite prefix_app. f_equal.
  induction p as [|c p IH]; [done|]. rewrite sapp_cons. exact IH.
Qed.

Definition stops (p : ascii -> bool) (s : string) : bool :=
  match s with String c _ => negb (p c) | EmptyString => true end.

Lemma span_app p a k : sforall p a = true -> stops p k = true -> span p (a +:+ k) = (a, k).
Proof.
  induction a as [|c a IH]; intros Ha Hk.
  - destruct k as [|c k]; [done|]. rewrite sapp_nil_l. simpl in *. apply negb_true_iff in Hk. by rewrite Hk.
  - simpl in Ha. apply andb_true_iff in Ha as [Hc Ha]. rewrite sapp_cons. simpl. rewrite Hc.
    by rewrite IH.
Qed.

Lemma skip_space_app a k : sforall xml_space a = true -> stops xml_space k = true ->
  skip_space (a +:+ k) = k.
Proof. intros Ha Hk. unfold skip_space. by rewrite span_app. Qed.

Lemma read_value_step c k fuel : value_char c = true ->
  read_value (S fuel) (esc_char c +:+ k) =
  match read_value fuel k with Some (v, r) => Some (String c v, r) | None => None end.
Proof.
  intros Hc. destruct (char_in ("&<>" +:+ dq +:+ cr +:+ nl +:+ tab) c) eqn:E.
  - assert (Hin : c = "&"%char \/ c = "<"%char \/ c = ">"%char \/ c = chr 34 \/ c = chr 13 \/
              c = chr 10 \/ c = chr 9).
    { unfold char_in in E. simpl in E. repeat (apply orb_true_iff in E as [E|E];
        [apply Ascii.eqb_eq in E; tauto|]). done. }
    repeat (destruct Hin as [->|Hin]; [destruct k; reflexivity|]). subst. destruct k; reflexivity.
  - assert (Hs : implb (value_char c && negb (char_in ("&<>" +:+ dq +:+ cr +:+ nl +:+ tab) c))
      (String.eqb (esc_char c) (ch c) && negb (Ascii.eqb c (chr 34)) && negb (Ascii.eqb c "<") &&
       negb (Ascii.eqb c "&") && (negb (xml_space c) || Ascii.eqb c " ") &&
       negb (ord c <? 32)%Z) = true) by by_chars c.
    rewrite Hc, E in Hs. cbn [implb andb negb] in Hs. repeat (apply andb_true_iff in Hs as [Hs ?]).
    apply String.eqb_eq in Hs. rewrite Hs. unfold ch. rewrite sapp_cons, sapp_nil_l.
    cbn [read_value]. repeat match goal with H : negb _ = true |- _ => apply negb_true_iff in H; rewrite H end.
    destruct (xml_space c) eqn:Ex; [|done].
    match goal with H : (negb _ || _) = true |- _ => apply orb_true_iff in H as [H|H]; [done|] end.
    by match goal with H : Ascii.eqb c " " = true |- _ => apply Ascii.eqb_eq in H; subst end.
Qed.

Lemma read_value_esc v k fuel : sforall value_char v = true -> String.length v < fuel ->
  read_value fuel (esc v +:+ dq +:+ k) = Some (v, k).
Proof.
  revert fuel. induction v as [|c v IH]; intros fuel Hv Hf; (destruct fuel as [|fuel]; [lia|]).
  - reflexivity.
  - simpl in Hv. apply andb_true_iff in Hv as [Hc Hv]. cbn [esc]. rewrite sapp_assoc.
    rewrite read_value_step by done. rewrite IH; [done|done|]. simpl in Hf. lia.
Qed.

Lemma value_char_str_of_Z n : sforall value_char (str_of_Z n) = true.
Proof.
  assert (Hd : forall m, (0 <= m)%Z -> sforall value_char (digits 10 m) = true).
  { intros m Hm. eapply sforall_impl; [|apply (digits_sforall 10 m); lia]. intros c Hc.
    assert (Hi : implb (is_digit_of 10 c) (value_char c) = true) by by_chars c. by rewrite Hc in Hi. }
  unfold str_of_Z, signed. destruct (Z.ltb_spec n 0); [|by apply Hd].
  rewrite sforall_app, Hd by lia. done.
Qed.

(** Twice the length of what was written is fuel enough. *)
Fixpoint xml_size (x : xml) : nat :=
  match x with
  | Elem t a cs => String.length (print_attrs a) + length a + 2 + sum_list_with (fun c => S (xml_size c)) cs
  end.

Lemma read_attrs_print a k fuel : forallb (fun kv => name_ok kv.1 && sforall value_char kv.2) a = true ->
  String.length (print_attrs a) + length a < fuel ->
  stops name_char (skip_space k) = true -> stops name_char k = true ->
  read_attrs fuel (print_attrs a +:+ k) = Some (a, skip_space k).
Proof.
  revert fuel. induction a as [|[x v] a IH]; intros fuel Ha Hf Hk Hk';
    (destruct fuel as [|fuel]; [lia|]).
  - rewrite sapp_nil_l. cbn [read_attrs].
    replace (span name_char (skip_space k)) with ("", skip_space k); [done|].
    symmetry. rewrite <- (sapp_nil_l (skip_space k)) at 1. by apply span_app.
  - simpl in Ha. apply andb_true_iff in Ha as [Hxv Ha]. apply andb_true_iff in Hxv as [Hx Hv].
    unfold name_ok in Hx. apply andb_true_iff in Hx as [Hne Hx].
    cbn [print_attrs] in *. rewrite !slength_app in Hf. simpl in Hf.
    rewrite !sapp_assoc. cbn [read_attrs].
    rewrite (skip_space_app " "); [|done|].
    2: { destruct x as [|c x]; [done|]. simpl in Hx. apply andb_true_iff in Hx as [Hc _].
         rewrite sapp_cons. simpl. assert (Hi : implb (name_char c) (negb (xml_space c)) = true)
           by by_chars c. by rewrite Hc in Hi. }
    rewrite span_app by done. apply negb_true_iff in Hne. rewrite Hne.
    rewrite <- (sapp_assoc "=" dq), strip_prefix_app.
    rewrite read_value_esc; [|done|]. 2: { assert (String.length v <= String.length (esc v)); [|lia].
      clear. induction v as [|c v IHv]; [done|]. cbn [esc]. rewrite slength_app. simpl.
      assert (1 <= String.length (esc_char c)); [|lia]. unfold esc_char.
      repeat case_match; simpl; lia. }
    rewrite IH; [done|done|lia|done|done].
Qed.

Definition reads_back (x : xml) : Prop := forall lvl k fuel,
  xml_size x < fuel -> read_elem fuel (print lvl x +:+ k) = Some (x, k).

Lemma span_newline lvl s : (span not_markup (newline lvl +:+ "<" +:+ s)).2 = "<" +:+ s.
Proof.
  rewrite span_app; [done| |done]. unfold newline. rewrite sforall_app.
  by rewrite sforall_srepeat.
Qed.

Lemma name_head c s : name_ok (String c s) = true -> Ascii.eqb c "/" = false /\ Ascii.eqb c "<" = false.
Proof.
  intros Hn. unfold name_ok in Hn. simpl in Hn. apply andb_true_iff in Hn as [Hc _].
  assert (Hi : implb (name_char c) (negb (Ascii.eqb c "/") && negb (Ascii.eqb c "<")) = true) by by_chars c.
  rewrite Hc in Hi. simpl in Hi. apply andb_true_iff in Hi as [H1 H2].
  by apply negb_true_iff in H1, H2.
Qed.

(** An element begins with [<] and a name, never with [</]. *)
Lemma print_open lvl x k : xml_ok x = true -> exists s, print lvl x +:+ k = "<" +:+ s /\
  startswith (print lvl x +:+ k) "</" = false.
Proof.
  destruct x as [t a cs]. intros Hok. cbn [xml_ok] in Hok. do 2 apply andb_true_iff in Hok as [Hok _].
  destruct t as [|c t]; [done|]. apply name_head in Hok as [Hc _].
  assert (Hs : exists s, print lvl (Elem (String c t) a cs) +:+ k = "<" +:+ String c s).
  { destruct cs; cbn [print]; rewrite !sapp_assoc, sapp_cons; by eexists. }
  destruct Hs as [s Hs]. rewrite Hs. exists (String c s). split; [done|].
  rewrite sapp_cons, sapp_nil_l. unfold startswith. cbn [String.prefix].
  destruct (Ascii.ascii_dec "<" "<"); [|done]. destruct (Ascii.ascii_dec "/" c) as [<-|]; done.
Qed.

Lemma read_children_print lvl cs k fuel : Forall reads_back cs -> forallb xml_ok cs = true ->
  sum_list_with (fun c => S (xml_size c)) cs + 1 < fuel ->
  read_children fuel (String.concat "" (map (fun c => newline (S lvl) +:+ print (S lvl) c) cs) +:+
                      newline lvl +:+ "</" +:+ k) = Some (cs, "</" +:+ k).
Proof.
  intros Hr. revert fuel. induction Hr as [|c cs Hc Hr IH]; intros fuel Hok Hf;
    (destruct fuel as [|fuel]; [simpl in Hf; lia|]).
  - cbn [map String.concat]. rewrite sapp_nil_l. cbn [read_children].
    change ("</" +:+ k) with ("<" +:+ "/" +:+ k). rewrite span_newline. by destruct k.
  - simpl in Hok. apply andb_true_iff in Hok as [Hc' Hok].
    assert (Hcat : forall x l r, String.concat "" (x :: l) +:+ r = x +:+ String.concat "" l +:+ r).
    { intros x [|y l] r; [done|].
      change (String.concat "" (x :: y :: l)) with (x +:+ "" +:+ String.concat "" (y :: l)).
      by rewrite !sapp_assoc. }
    cbn [map]. rewrite Hcat, sapp_assoc. cbn [read_children].
    match goal with |- context [print (S lvl) c +:+ ?r] =>
      destruct (print_open (S lvl) c r Hc') as (s & Hs & Hns); rewrite Hs, span_newline, <- Hs, Hns end.
    simpl in Hf. rewrite Hc by lia. rewrite IH; [done|done|lia].
Qed.

Lemma span_name t k : name_ok t = true -> stops name_char k = true -> span name_char (t +:+ k) = (t, k).
Proof.
  intros Ht Hk. unfold name_ok in Ht. apply andb_true_iff in Ht as [_ Ht]. by apply span_app.
Qed.

Lemma stops_attrs a k : stops name_char k = true -> stops name_char (print_attrs a +:+ k) = true.
Proof. destruct a as [|[x v] a]; [by rewrite sapp_nil_l|done]. Qed.

Lemma read_elem_print x : xml_ok x = true -> reads_back x.
Proof.
  induction x as [t a cs IH] using xml_ind'. intros Hok lvl k fuel Hf.
  cbn [xml_ok] in Hok. apply andb_true_iff in Hok as [Hok Hcs]. apply andb_true_iff in Hok as [Ht Ha].
  destruct fuel as [|fuel]; [lia|].
  assert (Hrb : Forall reads_back cs).
  { apply Forall_forall. intros c Hc. rewrite Forall_forall in IH. rewrite forallb_forall in Hcs.
    apply IH; [done|]. by apply Hcs, list_elem_of_In. }
  cbn [xml_size] in Hf. pose proof Ht as Hne. unfold name_ok in Hne.
  apply andb_true_iff in Hne as [Hne _]. apply negb_true_iff in Hne.
  destruct cs as [|c cs]; cbn [print]; rewrite !sapp_assoc; cbn [read_elem];
    rewrite strip_prefix_app, span_name; try done; try (by apply stops_attrs).
  - rewrite read_attrs_print; [|done|lia|done|done].
    change (skip_space (" />" +:+ k)) with ("/>" +:+ k). by rewrite strip_prefix_app, Hne.
  - rewrite read_attrs_print; [|done|simpl in Hf; lia|done|done].
    match goal with |- context [skip_space (">" +:+ ?s)] =>
      change (skip_space (">" +:+ s)) with (">" +:+ s) end.
    match goal with |- context [strip_prefix "/>" (">" +:+ ?s)] =>
      change (strip_prefix "/>" (">" +:+ s)) with (@None string) end.
    rewrite strip_prefix_app, (read_children_print lvl (c :: cs)); [|done|done|lia].
    rewrite <- (sapp_assoc "</" t), strip_prefix_app.
    change (skip_space (">" +:+ k)) with (">" +:+ k). by rewrite strip_prefix_app, Hne.
Qed.

Lemma print_attrs_count a : length a <= String.length (print_attrs a).
Proof.
  induction a as [|[x v] a IH]; [done|]. cbn [print_attrs]. rewrite !slength_app. simpl. lia.
Qed.

Lemma concat_length {A} (f : A -> string) l :
  String.length (String.concat "" (map f l)) = sum_list_with (fun x => String.length (f x)) l.
Proof.
  induction l as [|x [|y l] IH]; [done|simpl; lia|].
  change (String.concat "" (map f (x :: y :: l))) with
    (f x +:+ "" +:+ String.concat "" (map f (y :: l))).
  rewrite !slength_app, IH. done.
Qed.

Lemma xml_size_print x : forall lvl, xml_size x <= 2 * String.length (print lvl x).
Proof.
  induction x as [t a cs IH] using xml_ind'. intros lvl. pose proof (print_attrs_count a).
  destruct cs as [|c cs]; cbn [print xml_size]; rewrite !slength_app; [simpl; lia|].
  rewrite concat_length.
  assert (Hs : sum_list_with (fun c => S (xml_size c)) (c :: cs) <=
    2 * sum_list_with (fun x => String.length (newline (S lvl) +:+ print (S lvl) x)) (c :: cs)).
  { induction IH as [|x l Hx Hl IHl]; [done|]. cbn [sum_list_with]. specialize (Hx (S lvl)).
    rewrite slength_app. unfold newline at 1. rewrite slength_app. simpl String.length at 1. lia. }
  assert (String.length "<" = 1) by done. assert (String.length ">" = 1) by done. lia.
Qed.

(** A serialised document reads back as the same tree. *)
Lemma parse_xml_document x : xml_ok x = true -> parse_xml (document x) = Some x.
Proof.
  intros Hok. unfold parse_xml. destruct (print_open 0 x "" Hok) as (s & Hs & _).
  rewrite sapp_nil_r in Hs.
  assert (Hb : (if startswith (document x) "<?xml"
      then match find "?>" (document x) with Some i => sdrop (i + 2) (document x) | None => document x end
      else document x) = nl +:+ print 0 x) by (unfold document; rewrite Hs; reflexivity).
  rewrite Hb. assert (Hk : skip_space (nl +:+ print 0 x) = print 0 x)
    by (apply skip_space_app; [done|by rewrite Hs]).
  rewrite Hk, <- (sapp_nil_r (print 0 x)). rewrite read_elem_print; [done|done|].
  pose proof (xml_size_print x 0). unfold document. rewrite !slength_app. lia.
Qed.
