(* ===== verification/Regex.v ===== *)
(** The part of the module [re] the scripts use: a backtracking matcher with
    groups, greedy and lazy repetition of a character class, [$], and the calls
    [fullmatch], [search], [findall] and [sub].  The classes [\s] and [\d] are
    the ASCII ones. *)
From Stdlib Require Import ZArith Lia.
From S2P Require Import Prelude Str.

Inductive re :=
  | Eps
  | Chr (p : ascii -> bool)
  | Seq (a b : re)
  | Alt (a b : re)
  | Opt (a : re)
  | Rep (greedy : bool) (min : nat) (p : ascii -> bool)
  | Grp (n : nat) (a : re)
  | Eos.

Definition caps := list (nat * string).

Section matcher.
Context {X : Type}.

(** Repetition of a class: [k] is what has to match afterwards. *)
Fixpoint rep (greedy : bool) (p : ascii -> bool) (min : nat) (s : string)
    (k : string -> option X) : option X :=
  let more := match s with
              | String c s' => if p c then rep greedy p (pred min) s' k else None
              | EmptyString => None
              end in
  match min with
  | S _ => more
  | O => if greedy
         then match more with Some x => Some x | None => k s end
         else match k s with Some x => Some x | None => more end
  end.

Fixpoint run (r : re) (s : string) (g : caps) (k : string -> caps -> option X) : option X :=
  match r with
  | Eps => k s g
  | Chr p => match s with
             | String c s' => if p c then k s' g else None
             | EmptyString => None
             end
  | Seq a b => run a s g (fun s1 g1 => run b s1 g1 k)
  | Alt a b => match run a s g k with Some x => Some x | None => run b s g k end
  | Opt a => match run a s g k with Some x => Some x | None => k s g end
  | Rep gr min p => rep gr p min s (fun s1 => k s1 g)
  | Grp n a =>
      run a s g (fun s1 g1 =>
        k s1 ((n, stake (String.length s - String.length s1) s) :: g1))
  | Eos => if String.eqb s "" || String.eqb s nl then k s g else None
  end.
End matcher.

(** The literal text [s]. *)
Fixpoint lit (s : string) : re :=
  match s with
  | EmptyString => Eps
  | String c EmptyString => Chr (Ascii.eqb c)
  | String c s' => Seq (Chr (Ascii.eqb c)) (lit s')
  end.

Fixpoint seqs (l : list re) : re :=
  match l with
  | [] => Eps
  | [r] => r
  | r :: l' => Seq r (seqs l')
  end.

(** The text of group [n], if it took part in the match. *)
Fixpoint group (n : nat) (g : caps) : option string :=
  match g with
  | [] => None
  | (m, t) :: g' => if Nat.eqb n m then Some t else group n g'
  end.

Definition fullmatch (r : re) (s : string) : option caps :=
  run r s [] (fun rest g => if String.eqb rest "" then Some g else None).

(** A match at the front of [s]: its groups and the text after it. *)
Definition match_at (r : re) (s : string) : option (caps * string) :=
  run r s [] (fun rest g => Some (g, rest)).

(** [re.search]: the text before the first match, its groups, the text after. *)
Fixpoint search (r : re) (s : string) : option (string * caps * string) :=
  match match_at r s with
  | Some (g, rest) => Some ("", g, rest)
  | None =>
      match s with
      | EmptyString => None
      | String c s' =>
          match search r s' with
          | Some (pre, g, rest) => Some (String c pre, g, rest)
          | None => None
          end
      end
  end.

(** [re.findall] as the groups of the successive matches; [fuel] bounds their
    number, every match of the patterns used here being non-empty. *)
Fixpoint findall_aux (fuel : nat) (r : re) (s : string) : list caps :=
  match fuel with
  | O => []
  | S fuel =>
      match search r s with
      | None => []
      | Some (_, g, rest) => g :: findall_aux fuel r rest
      end
  end.
Definition findall (r : re) (s : string) : list caps := findall_aux (S (String.length s)) r s.

Fixpoint sub_aux (fuel : nat) (r : re) (new s : string) : string :=
  match fuel with
  | O => s
  | S fuel =>
      match search r s with
      | None => s
      | Some (pre, _, rest) => pre +:+ new +:+ sub_aux fuel r new rest
      end
  end.
(** [re.sub(r, new, s)] *)
Definition re_sub (r : re) (new s : string) : string := sub_aux (S (String.length s)) r new s.

(** ** Matching a repeated class *)

Lemma rep_greedy_all {X} p min s (k : string -> option X) x :
  sforall p s = true -> (min <= String.length s)%nat -> k "" = Some x ->
  rep true p min s k = Some x.
Proof.
  revert min. induction s as [|c s IH]; intros min Hs Hm Hk; simpl in *.
  - by destruct min; [rewrite Hk|lia].
  - bool_props. rewrite H, (IH (pred min)); [by destruct min|done|lia|done].
Qed.

Lemma rep_greedy_full_inv {X} p min s (k : string -> option X) x :
  rep true p min s k = Some x ->
  exists d r, s = d +:+ r /\ sforall p d = true /\ (min <= String.length d)%nat /\ k r = Some x.
Proof.
  revert min. induction s as [|c s IH]; intros min H.
  - simpl in H. destruct min; [|done]. exists "", "". by rewrite H.
  - simpl in H. destruct (p c) eqn:E.
    + destruct (rep true p (pred min) s k) as [y|] eqn:Er.
      * assert (y = x) as -> by (destruct min; congruence).
        destruct (IH _ Er) as (d & r & -> & Hd & Hl & Hk). exists (String c d), r.
        rewrite sapp_cons. simpl. rewrite E. repeat split; [done|lia|done].
      * destruct min; [|done]. by exists "", (String c s).
    + destruct min; [|done]. by exists "", (String c s).
Qed.

(** [re.fullmatch("[class]+", s)] accepts the non-empty words of the class. *)
Lemma fullmatch_rep p min s :
  (exists g, fullmatch (Rep true min p) s = Some g) <->
  sforall p s = true /\ (min <= String.length s)%nat.
Proof.
  unfold fullmatch. cbn [run]. split.
  - intros [g Hg]. apply rep_greedy_full_inv in Hg as (d & r & -> & Hd & Hl & Hk).
    destruct (String.eqb r "") eqn:E; [|done]. apply String.eqb_eq in E as ->.
    by rewrite sapp_nil_r.
  - intros [Hs Hl]. exists []. by apply rep_greedy_all.
Qed.

(** ** What a match says *)

(** [derives r s g s' g']: [r] matches the front of [s] and leaves [s'], the groups
    going from [g] to [g']. *)
Inductive derives : re -> string -> caps -> string -> caps -> Prop :=
  | d_eps s g : derives Eps s g s g
  | d_chr (p : ascii -> bool) c s g : p c = true -> derives (Chr p) (String c s) g s g
  | d_seq a b s g s1 g1 s2 g2 :
      derives a s g s1 g1 -> derives b s1 g1 s2 g2 -> derives (Seq a b) s g s2 g2
  | d_alt_l a b s g s1 g1 : derives a s g s1 g1 -> derives (Alt a b) s g s1 g1
  | d_alt_r a b s g s1 g1 : derives b s g s1 g1 -> derives (Alt a b) s g s1 g1
  | d_opt_some a s g s1 g1 : derives a s g s1 g1 -> derives (Opt a) s g s1 g1
  | d_opt_none a s g : derives (Opt a) s g s g
  | d_rep gr min p a s g : sforall p a = true -> (min <= String.length a)%nat ->
      derives (Rep gr min p) (a +:+ s) g s g
  | d_grp n a s g s1 g1 : derives a s g s1 g1 ->
      derives (Grp n a) s g s1 ((n, stake (String.length s - String.length s1) s) :: g1)
  | d_eos s g : derives Eos s g s g.

Lemma rep_derives {X} gr (p : ascii -> bool) : forall s min (k : string -> option X) x,
  rep gr p min s k = Some x ->
  exists a s', s = a +:+ s' /\ sforall p a = true /\ (min <= String.length a)%nat /\ k s' = Some x.
Proof.
  induction s as [|c s IH]; intros min k x E.
  - destruct min; [|done]. exists "", "". split_and!; [done|done|simpl; lia|].
    cbn [rep] in E. by destruct gr, (k "").
  - assert (Hmore : forall m, (if p c then rep gr p (pred m) s k else None) = Some x ->
      exists a s', String c s = a +:+ s' /\ sforall p a = true /\ (m <= String.length a)%nat /\ k s' = Some x).
    { intros m Em. destruct (p c) eqn:Hp; [|done]. apply IH in Em as (a & s' & -> & Ha & Hm & Hk).
      exists (String c a), s'. split_and!; [done|simpl; by rewrite Hp|simpl; lia|done]. }
    assert (Hstop : k (String c s) = Some x ->
      exists a s', String c s = a +:+ s' /\ sforall p a = true /\ (0 <= String.length a)%nat /\ k s' = Some x).
    { intros Ek. exists "", (String c s). split_and!; [done|done|simpl; lia|done]. }
    destruct min as [|m]; cbn [rep] in E; [|by apply Hmore].
    destruct gr.
    + destruct (if p c then rep true p (pred 0) s k else None) eqn:Em; [|by apply Hstop].
      simplify_eq. by apply Hmore.
    + destruct (k (String c s)) eqn:Ek; [simplify_eq; by apply Hstop|by apply Hmore].
Qed.

Lemma run_derives {X} r : forall s g (k : string -> caps -> option X) x,
  run r s g k = Some x -> exists s' g', derives r s g s' g' /\ k s' g' = Some x.
Proof.
  induction r as [|p|a IHa b IHb|a IHa b IHb|a IHa|gr min p|n a IHa|]; intros s g k x E; cbn [run] in E.
  - exists s, g. split; [constructor|done].
  - destruct s as [|c s]; [done|]. destruct (p c) eqn:Hp; [|done]. exists s, g. by split; [constructor|].
  - apply IHa in E as (s1 & g1 & H1 & E). apply IHb in E as (s2 & g2 & H2 & E).
    exists s2, g2. split; [by econstructor|done].
  - destruct (run a s g k) as [y|] eqn:Ea.
    + simplify_eq. apply IHa in Ea as (s1 & g1 & H1 & E). exists s1, g1. by split; [constructor|].
    + apply IHb in E as (s1 & g1 & H1 & E). exists s1, g1. by split; [apply d_alt_r|].
  - destruct (run a s g k) as [y|] eqn:Ea.
    + simplify_eq. apply IHa in Ea as (s1 & g1 & H1 & E). exists s1, g1. by split; [constructor|].
    + exists s, g. by split; [constructor|].
  - apply rep_derives in E as (a & s' & -> & Ha & Hm & Hk). exists s', g. by split; [constructor|].
  - apply IHa in E as (s1 & g1 & H1 & E). eexists s1, _. split; [by constructor|done].
  - case_match; [|done]. exists s, g. split; [constructor|done].
Qed.

Lemma match_at_derives r s g s' : match_at r s = Some (g, s') -> derives r s [] s' g.
Proof. intros E. apply run_derives in E as (s1 & g1 & H1 & E). by simplify_eq. Qed.

Lemma fullmatch_derives r s g : fullmatch r s = Some g -> derives r s [] "" g.
Proof.
  intros E. apply run_derives in E as (s1 & g1 & H1 & E). case_match; simplify_eq.
  by match goal with H : String.eqb _ _ = true |- _ => apply String.eqb_eq in H; subst end.
Qed.

Lemma search_derives r s pre g post : search r s = Some (pre, g, post) ->
  exists s0, s = pre +:+ s0 /\ derives r s0 [] post g.
Proof.
  revert pre. induction s as [|c s IH]; intros pre E; cbn [search] in E.
  - destruct (match_at r "") as [[g0 rest]|] eqn:Em; [|done]. simplify_eq.
    exists "". split; [done|by apply match_at_derives].
  - destruct (match_at r (String c s)) as [[g0 rest]|] eqn:Em.
    + simplify_eq. exists (String c s). split; [done|by apply match_at_derives].
    + destruct (search r s) as [[[pre' g'] rest]|] eqn:Es; [|done]. simplify_eq.
      destruct (IH _ eq_refl) as (s0 & -> & Hd). exists s0. by rewrite sapp_cons.
Qed.

Lemma findall_derives r s g : g ∈ findall r s -> exists s0 s1, derives r s0 [] s1 g.
Proof.
  unfold findall. generalize (S (String.length s)). intros fuel. revert s.
  induction fuel as [|fuel IH]; intros s Hg; [by apply elem_of_nil in Hg|]. cbn [findall_aux] in Hg.
  destruct (search r s) as [[[pre g'] rest]|] eqn:Es; [|by apply elem_of_nil in Hg].
  apply elem_of_cons in Hg as [->|Hg]; [|by eapply IH].
  apply search_derives in Es as (s0 & _ & Hd). eauto.
Qed.

(** A part without groups leaves the groups alone. *)
Fixpoint no_grp (r : re) : bool :=
  match r with
  | Grp _ _ => false
  | Seq a b | Alt a b => no_grp a && no_grp b
  | Opt a => no_grp a
  | _ => true
  end.

Lemma derives_no_grp r s g s' g' : no_grp r = true -> derives r s g s' g' -> g' = g.
Proof.
  intros Hn Hd. induction Hd; simpl in Hn; try done.
  - apply andb_true_iff in Hn as [Ha Hb]. by rewrite IHHd2, IHHd1.
  - apply andb_true_iff in Hn as [Ha Hb]. auto.
  - apply andb_true_iff in Hn as [Ha Hb]. auto.
  - auto.
Qed.

Lemma stake_app a s : stake (String.length (a +:+ s) - String.length s) (a +:+ s) = a.
Proof.
  rewrite slength_app. replace (String.length a + String.length s - String.length s)%nat
    with (String.length a) by lia.
  induction a as [|c a IH]; [by destruct s|]. rewrite sapp_cons. simpl. by rewrite IH.
Qed.

(** A group around a repeated class captures a string of the class. *)
Lemma derives_grp_rep n gr min p s g s' g' : derives (Grp n (Rep gr min p)) s g s' g' ->
  exists a, s = a +:+ s' /\ g' = (n, a) :: g /\ sforall p a = true /\ (min <= String.length a)%nat.
Proof.
  intros Hd. inversion Hd as [| | | | | | | |? ? ? ? ? ? Hr|]; subst.
  inversion Hr; subst. exists a. by rewrite stake_app.
Qed.

Lemma derives_lit t s g s' g' : derives (lit t) s g s' g' -> s = t +:+ s' /\ g' = g.
Proof.
  revert s g. induction t as [|c t IH]; intros s g Hd; [by inversion Hd; subst|].
  assert (Hc : forall s g s' g', derives (Chr (Ascii.eqb c)) s g s' g' -> s = String c s' /\ g' = g).
  { clear. intros s g s' g' Hd. inversion Hd; subst.
    match goal with H : Ascii.eqb _ _ = true |- _ => apply Ascii.eqb_eq in H end. by subst. }
  destruct t as [|d t].
  - by apply Hc in Hd.
  - cbn [lit] in Hd. inversion Hd as [| |? ? ? ? s1 g1 ? ? H1 H2| | | | | | |]; subst.
    apply Hc in H1 as [-> ->]. apply IH in H2 as [-> ->]. done.
Qed.

(** ** Replacing the runs of a class *)

Lemma match_at_class (q : ascii -> bool) s : match_at (Rep true 1 q) s = None ->
  match s with String c _ => q c = false | EmptyString => True end.
Proof.
  unfold match_at. destruct s as [|c s]; [done|]. cbn [run rep]. destruct (q c); [|done].
  intros E. exfalso. revert E. generalize (@nil (nat * string)). intros g.
  destruct s as [|d s]; cbn [pred rep]; [done|]. by destruct (if q d then _ else None).
Qed.

Lemma search_class_None (q : ascii -> bool) s : search (Rep true 1 q) s = None ->
  sforall (fun c => negb (q c)) s = true.
Proof.
  induction s as [|c s IH]; [done|]. cbn [search].
  destruct (match_at (Rep true 1 q) (String c s)) as [[g r]|] eqn:Em; [done|].
  apply match_at_class in Em. destruct (search _ s) as [[[? ?] ?]|]; [done|]. intros _.
  simpl. rewrite Em, IH; done.
Qed.

Lemma search_class_Some (q : ascii -> bool) s pre g post : search (Rep true 1 q) s = Some (pre, g, post) ->
  sforall (fun c => negb (q c)) pre = true /\
  exists a, s = pre +:+ a +:+ post /\ sforall q a = true /\ (1 <= String.length a)%nat.
Proof.
  revert pre. induction s as [|c s IH]; intros pre E; cbn [search] in E; [done|].
  destruct (match_at (Rep true 1 q) (String c s)) as [[g0 rest]|] eqn:Em.
  - simplify_eq. apply match_at_derives in Em. split; [done|]. inversion Em; subst.
    by exists a.
  - apply match_at_class in Em. destruct (search _ s) as [[[pre' g'] rest]|] eqn:Es; [|done].
    simplify_eq. destruct (IH _ eq_refl) as (Hp & a & -> & Ha & Hl).
    split; [simpl; by rewrite Em|]. exists a. by rewrite sapp_cons.
Qed.

Lemma sub_aux_class (q : ascii -> bool) new fuel s : sforall (fun c => negb (q c)) new = true ->
  (String.length s < fuel)%nat ->
  sforall (fun c => negb (q c)) (sub_aux fuel (Rep true 1 q) new s) = true.
Proof.
  intros Hnew. revert s. induction fuel as [|fuel IH]; intros s Hl; [lia|]. cbn [sub_aux].
  destruct (search _ s) as [[[pre g] rest]|] eqn:Es; [|by apply search_class_None].
  apply search_class_Some in Es as (Hp & a & -> & _ & Ha). rewrite !slength_app in Hl.
  rewrite !sforall_app, Hp, Hnew, IH; [done|lia].
Qed.

Lemma re_sub_class (q : ascii -> bool) new s : sforall (fun c => negb (q c)) new = true ->
  sforall (fun c => negb (q c)) (re_sub (Rep true 1 q) new s) = true.
Proof. intros Hn. apply sub_aux_class; [done|lia]. Qed.

Lemma re_sub_class_id (q : ascii -> bool) new s : sforall (fun c => negb (q c)) s = true ->
  re_sub (Rep true 1 q) new s = s.
Proof.
  intros Hs. unfold re_sub. cbn [sub_aux].
  destruct (search _ s) as [[[pre g] rest]|] eqn:Es; [|done].
  apply search_class_Some in Es as (_ & a & -> & Ha & Hl).
  rewrite !sforall_app in Hs. bool_props. destruct a as [|c a]; [simpl in Hl; lia|].
  simpl in *. bool_props. match goal with H : q c = true, H' : q c = false |- _ => congruence end.
Qed.
