(* ===== verification/Sha256.v ===== *)
(** SHA-256 ([hashlib.sha256]) as a state that absorbs bytes, its hexadecimal
    digest, and the loop of [lib/hashing.py] that feeds a file to it in blocks of
    one mebibyte; [hash_chunks_oneshot] shows that the block size is immaterial. *)
From Stdlib Require Import ZArith Lia.
From S2P Require Import Prelude Str.
Local Open Scope Z_scope.

(** ** Words of 32 bits *)

Definition mask (x : Z) : Z := x mod 2 ^ 32.
Definition rotr (n x : Z) : Z :=
  Z.lor (Z.shiftr x n) (mask (Z.shiftl x (32 - n))).
Definition big0 (x : Z) : Z := Z.lxor (rotr 2 x) (Z.lxor (rotr 13 x) (rotr 22 x)).
Definition big1 (x : Z) : Z := Z.lxor (rotr 6 x) (Z.lxor (rotr 11 x) (rotr 25 x)).
Definition small0 (x : Z) : Z := Z.lxor (rotr 7 x) (Z.lxor (rotr 18 x) (Z.shiftr x 3)).
Definition small1 (x : Z) : Z := Z.lxor (rotr 17 x) (Z.lxor (rotr 19 x) (Z.shiftr x 10)).
Definition choose (x y z : Z) : Z := Z.lxor z (Z.land x (Z.lxor y z)).
Definition majority (x y z : Z) : Z := Z.lor (Z.land x y) (Z.land z (Z.lor x y)).

(** ** The constants: fractional parts of roots of the first primes *)

Definition is_prime (n : Z) : bool :=
  (1 <? n) && forallb (fun d => negb (n mod d =? 0)) (seqZ 2 (Z.sqrt n - 1)).
Definition primes : list Z := filter (fun n => is_prime n = true) (seqZ 2 310).

(** The integer cube root of [n < 2^(3 k)], bit by bit. *)
Fixpoint cbrt (k : nat) (n r : Z) : Z :=
  match k with
  | O => r
  | S k => let r' := r + 2 ^ Z.of_nat k in
           cbrt k n (if r' * r' * r' <=? n then r' else r)
  end.

Definition round_constants : list Z :=
  Eval vm_compute in (fun p => mask (cbrt 36 (p * 2 ^ 96) 0)) <$> take 64 primes.
Definition initial_hash : list Z :=
  Eval vm_compute in (fun p => mask (Z.sqrt (p * 2 ^ 64))) <$> take 8 primes.

(** ** Compression *)

Fixpoint be_words (l : list Z) : list Z :=
  match l with
  | a :: b :: c :: d :: l' =>
      ((a * 256 + b) * 256 + c) * 256 + d :: be_words l'
  | _ => []
  end.

(** The schedule, newest word first. *)
Fixpoint schedule (n : nat) (rw : list Z) : list Z :=
  match n with
  | O => rw
  | S n =>
      let at_ i := nth i rw 0 in
      schedule n (mask (small1 (at_ 1%nat) + at_ 6%nat + small0 (at_ 14%nat) + at_ 15%nat) :: rw)
  end.

Definition round (v : list Z) (kw : Z * Z) : list Z :=
  match v with
  | [a; b; c; d; e; f; g; h] =>
      let t1 := h + big1 e + choose e f g + kw.1 + kw.2 in
      [mask (t1 + big0 a + majority a b c); a; b; c; mask (d + t1); e; f; g]
  | _ => v
  end.

Definition compress (h block : list Z) : list Z :=
  let w := rev (schedule 48 (rev (be_words block))) in
  zip_with (fun x y => mask (x + y)) h (foldl round h (zip round_constants w)).

(** ** The hash object *)

Record hasher := Hasher { h_state : list Z; h_pending : list Z; h_count : Z }.

Definition sha_init : hasher := Hasher initial_hash [] 0.

Definition sha_push (st : hasher) (b : Z) : hasher :=
  let p := h_pending st ++ [b] in
  if Nat.eqb (length p) 64
  then Hasher (compress (h_state st) p) [] (h_count st + 1)
  else Hasher (h_state st) p (h_count st + 1).

(** [digest.update(data)] *)
Definition sha_update (st : hasher) (data : list Z) : hasher := foldl sha_push st data.

Definition be64 (n : Z) : list Z :=
  (fun i => Z.shiftr n (8 * i) mod 256) <$> [7; 6; 5; 4; 3; 2; 1; 0].

(** [digest.hexdigest()] *)
Definition hexdigest (st : hasher) : string :=
  let zeros := Z.to_nat ((55 - h_count st) mod 64) in
  let st' := sha_update st (128 :: replicate zeros 0 ++ be64 (8 * h_count st)) in
  join "" (hex08 <$> h_state st').

(** [hashlib.sha256(data).hexdigest()] *)
Definition sha256_bytes (data : list Z) : string := hexdigest (sha_update sha_init data).

(** [lib/hashing.py: sha256_text] *)
Definition sha256_text (text : string) : string := sha256_bytes (to_bytes text).

(** [stream.read(n)]: the next [n] bytes and the rest of the stream. *)
Fixpoint read_block (n : Z) (l : list Z) : list Z * list Z :=
  match l with
  | [] => ([], [])
  | b :: l' => if n <=? 0 then ([], l)
               else let '(c, r) := read_block (n - 1) l' in (b :: c, r)
  end.

(** [for chunk in iter(lambda: stream.read(n), b""): digest.update(chunk)] *)
Fixpoint hash_chunks (fuel : nat) (n : Z) (st : hasher) (l : list Z) : hasher :=
  match fuel with
  | O => st
  | S fuel =>
      let '(c, r) := read_block n l in
      match c with
      | [] => st
      | _ => hash_chunks fuel n (sha_update st c) r
      end
  end.

Definition block_size : Z := 1024 * 1024.

(** The digest loop of [sha256_file] over the bytes of a file. *)
Definition sha256_stream (l : list Z) : string :=
  hexdigest (hash_chunks (S (length l)) block_size sha_init l).

(** ** Lemmas *)

Example sha256_abc :
  sha256_text "abc" = "ba7816bf8f01cfea414140de5dae2223b00361a396177a9cb410ff61f20015ad".
Proof. vm_compute. reflexivity. Qed.

Lemma sha_update_app st a b : sha_update st (a ++ b) = sha_update (sha_update st a) b.
Proof. apply foldl_app. Qed.

Lemma read_block_app n l : let '(c, r) := read_block n l in c ++ r = l.
Proof.
  revert n. induction l as [|b l IH]; intros n; simpl; [done|].
  destruct (n <=? 0); [done|]. specialize (IH (n - 1)). destruct (read_block (n - 1) l).
  simpl. by rewrite IH.
Qed.

Lemma read_block_nonempty n l : 0 < n -> l <> [] -> (read_block n l).1 <> [].
Proof.
  intros Hn Hl. destruct l as [|b l]; [done|]. simpl.
  destruct (Z.leb_spec n 0); [lia|]. by destruct (read_block (n - 1) l).
Qed.

(** Reading block by block absorbs the whole stream, whatever the block size. *)
Lemma hash_chunks_oneshot fuel n st l : 0 < n -> (length l < fuel)%nat ->
  hash_chunks fuel n st l = sha_update st l.
Proof.
  intros Hn. revert st l. induction fuel as [|fuel IH]; intros st l Hl; [lia|].
  cbn [hash_chunks]. pose proof (read_block_app n l) as Ha.
  pose proof (read_block_nonempty n l Hn) as Hne. destruct (read_block n l) as [c r].
  destruct c as [|x c]; simpl in Ha, Hne.
  - destruct l; [done|]. by destruct Hne.
  - rewrite <- Ha, app_comm_cons, sha_update_app. apply IH. subst l. simpl in Hl.
    rewrite length_app in Hl. lia.
Qed.

Lemma sha256_stream_bytes l : sha256_stream l = sha256_bytes l.
Proof. unfold sha256_stream. rewrite hash_chunks_oneshot; [done|reflexivity|lia]. Qed.
