(* ===== verification/Py.v ===== *)
(** The Python run-time the scripts rely on: exceptions, a state-and-exception
    monad, [pathlib] paths, a file store with symbolic links, modification times
    and unreadable entries, console output, and the host (commands, environment,
    schema validator, clock) as a type class.

    Operations raise the exception class the interpreter raises; the messages of
    exceptions raised by the scripts themselves are the scripts' own. *)
From Stdlib Require Import ZArith Lia.
From S2P Require Import Prelude Str Json.
Local Open Scope Z_scope.

(** ** Exceptions *)

Inductive exn_kind :=
  | ValueError | JSONDecodeError | UnicodeDecodeError
  | RuntimeError | KeyError | IndexError | TypeError | AttributeError | AssertionError
  | ZeroDivisionError | RecursionError
  | StructError | ValidationError | ParseError | ArgumentTypeError
  | OSError | FileNotFoundError | FileExistsError | NotADirectoryError
  | IsADirectoryError | PermissionError
  | TimeoutExpired | CalledProcessError.

#[export] Instance exn_kind_eq_dec : EqDecision exn_kind.
Proof. solve_decision. Defined.

(** [SysExit code msg] is [SystemExit]: with a message the code is 1. *)
Inductive exn :=
  | Err (k : exn_kind) (msg : string)
  | SysExit (code : Z) (msg : string).

Definition is_value_error (e : exn) : bool :=
  match e with
  | Err (ValueError | JSONDecodeError | UnicodeDecodeError) _ => true
  | _ => false
  end.
Definition is_os_error (e : exn) : bool :=
  match e with
  | Err (OSError | FileNotFoundError | FileExistsError | NotADirectoryError
        | IsADirectoryError | PermissionError) _ => true
  | _ => false
  end.
Definition is_key_error (e : exn) : bool :=
  match e with Err KeyError _ => true | _ => false end.
(** What [argparse] turns into a usage error when a [type=] function raises it. *)
Definition is_argument_error (e : exn) : bool :=
  match e with
  | Err (ArgumentTypeError | TypeError) _ => true
  | _ => is_value_error e
  end.
Definition is_runtime_error (e : exn) : bool :=
  match e with Err (RuntimeError | RecursionError) _ => true | _ => false end.
Definition is_permission_error (e : exn) : bool :=
  match e with Err PermissionError _ => true | _ => false end.
Definition is_subprocess_error (e : exn) : bool :=
  match e with Err (TimeoutExpired | CalledProcessError) _ => true | _ => false end.
Definition exn_msg (e : exn) : string :=
  match e with Err _ m => m | SysExit _ m => m end.

(** ** Paths *)

Record path := Path { p_abs : bool; p_parts : list string }.

#[export] Instance path_eq_dec : EqDecision path.
Proof. solve_decision. Defined.

Definition parse_path (s : string) : path :=
  Path (startswith s "/")
    (filter (fun x => bool_decide (x <> "") && bool_decide (x <> ".")) (split_char "/" s)).

Definition path_str (p : path) : string :=
  if p_abs p then "/" +:+ join "/" (p_parts p)
  else match p_parts p with [] => "." | l => join "/" l end.

Definition joinpath (p q : path) : path :=
  if p_abs q then q else Path (p_abs p) (p_parts p ++ p_parts q).
(** [p / "name"] *)
Definition pdiv (p : path) (s : string) : path := joinpath p (parse_path s).
(** [p / "a" / "b" / ...] for plain names *)
Definition pnames (p : path) (l : list string) : path := Path (p_abs p) (p_parts p ++ l).

Definition parent (p : path) : path := Path (p_abs p) (removelast (p_parts p)).
Definition name (p : path) : string := List.last (p_parts p) "".

(** The index of the dot that starts the suffix, if any. *)
Fixpoint rfind_dot (s : string) : option nat :=
  match s with
  | EmptyString => None
  | String c s' =>
      match rfind_dot s' with
      | Some i => Some (S i)
      | None => if Ascii.eqb c "." then Some O else None
      end
  end.
Definition suffix_at (s : string) : option nat :=
  match rfind_dot s with
  | Some i => if (0 <? Z.of_nat i) && (Z.of_nat i <? Z.of_nat (String.length s) - 1)
              then Some i else None
  | None => None
  end.
Definition suffix (p : path) : string :=
  match suffix_at (name p) with Some i => sdrop i (name p) | None => "" end.
Definition stem (p : path) : string :=
  match suffix_at (name p) with Some i => stake i (name p) | None => name p end.

Fixpoint is_prefix (a b : list string) : bool :=
  match a, b with
  | [], _ => true
  | x :: a, y :: b => String.eqb x y && is_prefix a b
  | _, _ => false
  end.

(** [root == p or root in p.parents], for paths of one kind. *)
Definition path_within (p root : path) : bool :=
  Bool.eqb (p_abs p) (p_abs root) && is_prefix (p_parts root) (p_parts p).

(** Paths are ordered by their parts. *)
Fixpoint parts_leb (a b : list string) : bool :=
  match a, b with
  | [], _ => true
  | _ :: _, [] => false
  | x :: a, y :: b =>
      match String.compare x y with Lt => true | Gt => false | Eq => parts_leb a b end
  end.
Definition path_leb (p q : path) : bool := parts_leb (p_parts p) (p_parts q).

Definition repr_path (p : path) : string := "PosixPath(" +:+ repr_str (path_str p) +:+ ")".
Definition repr_paths (l : list path) : string := repr_list (repr_path <$> l).

(** ** The world *)

Inductive node :=
  | File (content : string) (mtime : Z)
  | Dir.

Record command := MkCommand {
  c_argv : list string;
  c_cwd : option path;
  c_env : list (string * string);
  c_timeout : option Z;
  c_shell : bool
}.
(** A program that is run without a shell. *)
Notation Command av cwd env timeout := (MkCommand av cwd env timeout false).

Inductive event :=
  | EvOut (s : string)
  | EvErr (s : string)
  | EvRun (c : command).

(** [w_fs] maps canonical absolute paths (the list of their parts) to files and
    directories, [w_links] those of symbolic links to their targets; reading or
    listing an entry of [w_denied] is refused.  The root directory is implicit. *)
Record world := World {
  w_fs : gmap (list string) node;
  w_links : gmap (list string) path;
  w_denied : gset (list string);
  w_clock : Z;
  w_log : list event
}.

Definition set_fs (fs : gmap (list string) node) (w : world) : world :=
  World fs (w_links w) (w_denied w) (w_clock w) (w_log w).
Definition set_links (l : gmap (list string) path) (w : world) : world :=
  World (w_fs w) l (w_denied w) (w_clock w) (w_log w).
Definition tick (w : world) : world :=
  World (w_fs w) (w_links w) (w_denied w) (w_clock w + 1) (w_log w).
Definition log (e : event) (w : world) : world :=
  World (w_fs w) (w_links w) (w_denied w) (w_clock w) (w_log w ++ [e]).

(** The outcome of running a command. *)
Inductive exec_result :=
  | Done (returncode : Z) (out err : string)
  | TimedOut
  | NoProgram.

(** What the scripts take from the machine they run on.  [host_exec] is what a
    program does to the file store and what it prints; [host_max_links] is the number of
    links the system follows in one path; [host_more_recursion] is how much deeper than 100
    calls the interpreter's recursion goes; [host_write_stops k c w] is [Some n] when writing the content [c] to the file [k] fails
    after [n] bytes, as on a full device; [host_validate] is the
    third-party JSON-schema validator of the module [jsonschema], whose verdict
    is [None] for a valid document. *)
Class Host := {
  host_root : list string;
  host_cwd : list string;
  host_tmp : list string;
  host_max_links : nat;
  host_more_recursion : nat;
  host_write_stops : list string -> string -> world -> option nat;
  host_nt : bool;
  host_platform : string;
  host_environ : list (string * string);
  host_executable : string;
  host_which : string -> world -> option string;
  host_exec : command -> world -> exec_result * world;
  host_validate : json -> json -> option string;
  host_now : world -> string;
  host_uuid : world -> string;
  host_elevated : bool
}.

(** The number of calls (of the scanner and the writer of JSON, of a function that calls itself)
    that may be under way within one another before the interpreter raises [RecursionError]: Python's
    own limit is 1000 frames, which the scripts, few frames deep themselves, do not change. *)
Definition host_recursion `{Host} : nat := (100 + host_more_recursion)%nat.
#[global] Arguments host_recursion {_} : simpl never.

(** ** The monad *)

Inductive result (A : Type) :=
  | Ok (a : A)
  | Raise (e : exn).
Arguments Ok {A} a.
Arguments Raise {A} e.

Definition M (A : Type) : Type := world -> result A * world.

#[export] Instance M_ret : MRet M := fun A a w => (Ok a, w).
#[export] Instance M_bind : MBind M := fun A B f m w =>
  match m w with
  | (Ok a, w') => f a w'
  | (Raise e, w') => (Raise e, w')
  end.
#[export] Instance M_fmap : FMap M := fun A B f m => a ← m; mret (f a).

Definition throw {A} (e : exn) : M A := fun w => (Raise e, w).
Definition raise {A} (k : exn_kind) (msg : string) : M A := throw (Err k msg).
Definition get_world : M world := fun w => (Ok w, w).
Definition modify (f : world -> world) : M unit := fun w => (Ok tt, f w).
Definition gets {A} (f : world -> A) : M A := fun w => (Ok (f w), w).

(** [try: m  except <p> as error: h(error)] *)
Definition try_except {A} (m : M A) (p : exn -> bool) (h : exn -> M A) : M A := fun w =>
  match m w with
  | (Ok a, w') => (Ok a, w')
  | (Raise e, w') => if p e then h e w' else (Raise e, w')
  end.
(** [try: m  except BaseException: c; raise] *)
Definition on_error {A} (m : M A) (c : M unit) : M A :=
  try_except m (fun _ => true) (fun e => c ;; throw e).

(** [try: m  finally: c] *)
Definition finally {A} (m : M A) (c : M unit) : M A := fun w =>
  match m w with
  | (r, w1) => match c w1 with (Ok _, w2) => (r, w2) | (Raise e, w2) => (Raise e, w2) end
  end.

Definition when_ (b : bool) (m : M unit) : M unit := if b then m else mret tt.
(** [if b: raise k(msg)] *)
Definition fail_if (b : bool) (k : exn_kind) (msg : string) : M unit := when_ b (raise k msg).

Fixpoint for_ {A} (l : list A) (f : A -> M unit) : M unit :=
  match l with
  | [] => mret tt
  | x :: l' => f x ;; for_ l' f
  end.
Fixpoint map_m {A B} (f : A -> M B) (l : list A) : M (list B) :=
  match l with
  | [] => mret []
  | x :: l' => y ← f x; ys ← map_m f l'; mret (y :: ys)
  end.
Fixpoint fold_m {A B} (f : B -> A -> M B) (b : B) (l : list A) : M B :=
  match l with
  | [] => mret b
  | x :: l' => b' ← f b x; fold_m f b' l'
  end.
Fixpoint filter_m {A} (f : A -> M bool) (l : list A) : M (list A) :=
  match l with
  | [] => mret []
  | x :: l' => b ← f x; r ← filter_m f l'; mret (if b : bool then x :: r else r)
  end.
(** [all(f(x) for x in l)], stopping at the first false. *)
Fixpoint all_m {A} (f : A -> M bool) (l : list A) : M bool :=
  match l with
  | [] => mret true
  | x :: l' => b ← f x; if b : bool then all_m f l' else mret false
  end.

Definition lift_opt {A} (k : exn_kind) (msg : string) (o : option A) : M A :=
  match o with Some a => mret a | None => raise k msg end.

(** [print(s)], [print(s, end="")], and the same on standard error. *)
Definition print_end (s : string) : M unit := modify (log (EvOut s)).
Definition print (s : string) : M unit := print_end (s +:+ nl).
Definition eprint_end (s : string) : M unit := modify (log (EvErr s)).
Definition eprint (s : string) : M unit := eprint_end (s +:+ nl).

(** [parser.error(msg)]: usage on standard error, then exit with code 2. *)
Definition parser_error {A} (msg : string) : M A :=
  eprint ("error: " +:+ msg) ;; throw (SysExit 2 "").

(** [raise SystemExit(msg)] *)
Definition system_exit {A} (msg : string) : M A := throw (SysExit 1 msg).

(** ** Name resolution *)

(** Follows the links of a path; a relative link starts at the directory that
    holds it.  A chain of more than [k] links is treated as a loop and left as it
    is, which is what [realpath] does with a loop. *)
Fixpoint walk (k : nat) (ln : gmap (list string) path) : list string -> list string -> list string :=
  fix go (acc todo : list string) {struct todo} : list string :=
    match todo with
    | [] => acc
    | p :: rest =>
        if String.eqb p ".." then go (removelast acc) rest
        else
          let acc' := acc ++ [p] in
          match ln !! acc' with
          | None => go acc' rest
          | Some tgt =>
              match k with
              | O => acc' ++ rest
              | S k' => walk k' ln (if p_abs tgt then [] else acc) (p_parts tgt ++ rest)
              end
          end
    end.

Lemma walk_unfold k ln acc p rest :
  walk k ln acc (p :: rest) =
  if String.eqb p ".." then walk k ln (removelast acc) rest
  else match ln !! (acc ++ [p]) with
       | None => walk k ln (acc ++ [p]) rest
       | Some tgt =>
           match k with
           | O => (acc ++ [p]) ++ rest
           | S k' => walk k' ln (if p_abs tgt then [] else acc) (p_parts tgt ++ rest)
           end
       end.
Proof. destruct k; reflexivity. Qed.

Lemma walk_nil k ln acc : walk k ln acc [] = acc.
Proof. destruct k; reflexivity. Qed.

#[global] Arguments walk : simpl never.
#[global] Opaque walk.

(** ** The file store *)

Section fs.
Context `{Host}.

(** The canonical key of a path: what [path.resolve()] computes. *)
Definition canon (w : world) (p : path) : list string :=
  walk host_max_links (w_links w) (if p_abs p then [] else host_cwd) (p_parts p).

(** The key of the entry itself, a final link not followed. *)
Definition lcanon (w : world) (p : path) : list string :=
  match p_parts p with
  | [] => canon w p
  | _ => if String.eqb (name p) ".." then canon w p else canon w (parent p) ++ [name p]
  end.

Definition node_at (w : world) (k : list string) : option node :=
  match k with [] => Some Dir | _ => w_fs w !! k end.

Definition resolve (p : path) : M path := gets (fun w => Path true (canon w p)).

Definition exists_at (w : world) (p : path) : bool :=
  match node_at w (canon w p) with Some _ => true | None => false end.
Definition is_file_at (w : world) (p : path) : bool :=
  match node_at w (canon w p) with Some (File _ _) => true | _ => false end.
Definition is_dir_at (w : world) (p : path) : bool :=
  match node_at w (canon w p) with Some Dir => true | _ => false end.
Definition is_link_at (w : world) (p : path) : bool :=
  match w_links w !! lcanon w p with Some _ => true | None => false end.

Definition exists_ (p : path) : M bool := gets (fun w => exists_at w p).
Definition is_file (p : path) : M bool := gets (fun w => is_file_at w p).
Definition is_dir (p : path) : M bool := gets (fun w => is_dir_at w p).
Definition is_symlink (p : path) : M bool := gets (fun w => is_link_at w p).

Definition no_such (p : path) : string :=
  "[Errno 2] No such file or directory: " +:+ repr_str (path_str p).

(** The bytes of a file. *)
Definition read_raw (p : path) : M string := fun w =>
  let k := canon w p in
  match node_at w k with
  | None => raise FileNotFoundError (no_such p) w
  | Some Dir => raise IsADirectoryError ("[Errno 21] Is a directory: " +:+ repr_str (path_str p)) w
  | Some (File c _) =>
      if bool_decide (k ∈ w_denied w)
      then raise PermissionError ("[Errno 13] Permission denied: " +:+ repr_str (path_str p)) w
      else (Ok c, w)
  end.

Definition read_bytes (p : path) : M (list Z) := s ← read_raw p; mret (to_bytes s).

(** [read_text(encoding="utf-8")] *)
Definition read_text (p : path) : M string :=
  s ← read_raw p;
  if utf8_valid s then mret (universal_newlines s)
  else raise UnicodeDecodeError "'utf-8' codec can't decode byte: invalid data".

Definition put_file (k : list string) (c : string) (w : world) : world :=
  tick (set_fs (<[k := File c (w_clock w)]> (w_fs w)) w).

(** [open(p, "w")] and what is done with the entry: an existing file is overwritten, a new one
    needs a directory. *)
Definition with_entry (p : path) (f : list string -> M unit) : M unit := fun w =>
  let k := canon w p in
  match node_at w k with
  | Some Dir => raise IsADirectoryError ("[Errno 21] Is a directory: " +:+ repr_str (path_str p)) w
  | Some (File _ _) =>
      if bool_decide (k ∈ w_denied w)
      then raise PermissionError ("[Errno 13] Permission denied: " +:+ repr_str (path_str p)) w
      else f k w
  | None =>
      match node_at w (removelast k) with
      | Some Dir => f k w
      | Some (File _ _) => raise NotADirectoryError ("[Errno 20] Not a directory: " +:+ repr_str (path_str p)) w
      | None => raise FileNotFoundError (no_such p) w
      end
  end.

(** The bytes are written from the first to the last; a write that fails leaves a file with those
    that were written before. *)
Definition store_bytes (c : string) (k : list string) : M unit := fun w =>
  match host_write_stops k c w with
  | None => (Ok tt, put_file k c w)
  | Some n => (Raise (Err OSError "[Errno 28] No space left on device"), put_file k (stake n c) w)
  end.
Definition write_raw (p : path) (c : string) : M unit := with_entry p (store_bytes c).
(** An empty file, which takes no bytes. *)
Definition create_file (p : path) : M unit := with_entry p (fun k => modify (put_file k "")).

(** Text written with [newline="\n"], and with the platform's line ends. *)
Definition write_text (p : path) (s : string) : M unit := write_raw p s.
Definition write_text_native (p : path) (s : string) : M unit :=
  write_raw p (if host_nt then replace nl (cr +:+ nl) s else s).

Definition prefixes (k : list string) : list (list string) :=
  (fun i => take i k) <$> seq 1 (length k).

(** Creates the directory [k] and those above it. *)
Fixpoint make_dirs (ks : list (list string)) (w : world) : option world :=
  match ks with
  | [] => Some w
  | k :: ks' =>
      match node_at w k with
      | None => make_dirs ks' (set_fs (<[k := Dir]> (w_fs w)) w)
      | Some Dir => make_dirs ks' w
      | Some (File _ _) => None
      end
  end.

(** [p.mkdir(parents=..., exist_ok=...)] *)
Definition mkdir (parents exist_ok : bool) (p : path) : M unit := fun w =>
  let k := canon w p in
  match node_at w k with
  | Some Dir => if exist_ok then (Ok tt, w)
                else raise FileExistsError ("[Errno 17] File exists: " +:+ repr_str (path_str p)) w
  | Some (File _ _) =>
      raise FileExistsError ("[Errno 17] File exists: " +:+ repr_str (path_str p)) w
  | None =>
      match node_at w (removelast k) with
      | Some Dir => (Ok tt, set_fs (<[k := Dir]> (w_fs w)) w)
      | Some (File _ _) =>
          raise NotADirectoryError ("[Errno 20] Not a directory: " +:+ repr_str (path_str p)) w
      | None =>
          if parents then
            match make_dirs (prefixes k) w with
            | Some w' => (Ok tt, w')
            | None =>
                raise NotADirectoryError ("[Errno 20] Not a directory: " +:+ repr_str (path_str p)) w
            end
          else raise FileNotFoundError (no_such p) w
      end
  end.
Definition mkdir_p : path -> M unit := mkdir true true.

Definition unlink (missing_ok : bool) (p : path) : M unit := fun w =>
  let k := lcanon w p in
  match w_links w !! k with
  | Some _ => (Ok tt, set_links (delete k (w_links w)) w)
  | None =>
      match node_at w k with
      | None => if missing_ok then (Ok tt, w) else raise FileNotFoundError (no_such p) w
      | Some Dir =>
          raise IsADirectoryError ("[Errno 21] Is a directory: " +:+ repr_str (path_str p)) w
      | Some (File _ _) => (Ok tt, set_fs (delete k (w_fs w)) w)
      end
  end.

(** *** Trees *)

Definition below (k : list string) (k' : list string) : bool := is_prefix k k'.

Definition remove_tree (k : list string) (w : world) : world :=
  set_links (filter (fun kv => below k kv.1 = false) (w_links w))
    (set_fs (filter (fun kv => below k kv.1 = false) (w_fs w)) w).

(** The part of the store at and below [k], with [k] replaced by [k']. *)
Definition rebase (k k' : list string) {V} (m : gmap (list string) V) : gmap (list string) V :=
  list_to_map ((fun kv => (k' ++ drop (length k) kv.1, kv.2)) <$>
               map_to_list (filter (fun kv => below k kv.1 = true) m)).

Definition move_tree (k k' : list string) (w : world) : world :=
  let w0 := remove_tree k w in
  set_links (rebase k k' (w_links w) ∪ w_links w0)
    (set_fs (rebase k k' (w_fs w) ∪ w_fs w0) w0).

Definition has_children (w : world) (k : list string) : bool :=
  existsb (fun kv => below k kv.1 && negb (bool_decide (kv.1 = k))) (map_to_list (w_fs w)).

(** [src.replace(dst)]: an atomic rename. *)
Definition replace_path (src dst : path) : M unit := fun w =>
  let k := lcanon w src in
  let k' := lcanon w dst in
  match node_at w k, node_at w (removelast k') with
  | None, _ | _, None => raise FileNotFoundError (no_such src) w
  | _, Some (File _ _) =>
      raise NotADirectoryError ("[Errno 20] Not a directory: " +:+ repr_str (path_str dst)) w
  | Some (File c t), Some Dir =>
      match node_at w k' with
      | Some Dir =>
          raise IsADirectoryError ("[Errno 21] Is a directory: " +:+ repr_str (path_str dst)) w
      | _ => (Ok tt, set_links (delete k' (w_links w))
                       (set_fs (<[k' := File c t]> (delete k (w_fs w))) w))
      end
  | Some Dir, Some Dir =>
      match node_at w k' with
      | Some (File _ _) =>
          raise NotADirectoryError ("[Errno 20] Not a directory: " +:+ repr_str (path_str dst)) w
      | Some Dir =>
          if has_children w k'
          then raise OSError ("[Errno 39] Directory not empty: " +:+ repr_str (path_str dst)) w
          else (Ok tt, move_tree k k' w)
      | None => (Ok tt, move_tree k k' w)
      end
  end.

Definition rmtree (p : path) : M unit := fun w =>
  if is_link_at w p then raise OSError "Cannot call rmtree on a symbolic link" w else
  let k := canon w p in
  match node_at w k with
  | None => raise FileNotFoundError (no_such p) w
  | Some (File _ _) =>
      raise NotADirectoryError ("[Errno 20] Not a directory: " +:+ repr_str (path_str p)) w
  | Some Dir => (Ok tt, remove_tree k w)
  end.
Definition rmtree_ignore_errors (p : path) : M unit :=
  try_except (rmtree p) (fun _ => true) (fun _ => mret tt).

(** Stores a file with a given modification time, as [shutil.copy2] does. *)
Definition write_with_mtime (p : path) (c : string) (t : Z) : M unit :=
  write_raw p c ;;
  modify (fun w => set_fs (<[canon w p := File c t]> (w_fs w)) w).

Definition mtime_at (w : world) (p : path) : Z :=
  match node_at w (canon w p) with Some (File _ t) => t | _ => 0 end.

Definition copy2 (src dst : path) : M unit :=
  c ← read_raw src;
  t ← gets (fun w => mtime_at w src);
  d ← is_dir dst;
  write_with_mtime (if d : bool then pnames dst [name src] else dst) c t.

(** [shutil.copytree(src, dst)]; a link below [src] is copied as the file it
    leads to. *)
Definition copytree (src dst : path) : M unit := fun w =>
  let k := canon w src in
  match node_at w k with
  | Some Dir =>
      match mkdir true false dst w with
      | (Raise e, w') => (Raise e, w')
      | (Ok _, w1) =>
          let k' := canon w1 dst in
          let linked := omap (fun kv =>
            match node_at w (canon w (Path true kv.1)) with
            | Some (File c t) => Some (kv.1, File c t)
            | _ => None
            end) (map_to_list (w_links w)) in
          (Ok tt, set_fs (rebase k k' (list_to_map linked ∪ w_fs w) ∪ w_fs w1) w1)
      end
  | Some (File _ _) =>
      raise NotADirectoryError ("[Errno 20] Not a directory: " +:+ repr_str (path_str src)) w
  | None => raise FileNotFoundError (no_such src) w
  end.

Definition stat_size (p : path) : M Z := fun w =>
  match node_at w (canon w p) with
  | Some (File c _) => (Ok (Z.of_nat (String.length c)), w)
  | Some Dir => (Ok 4096, w)
  | None => raise FileNotFoundError (no_such p) w
  end.
Definition stat_mtime (p : path) : M Z := fun w =>
  match node_at w (canon w p) with
  | Some (File _ t) => (Ok t, w)
  | Some Dir => (Ok 0, w)
  | None => raise FileNotFoundError (no_such p) w
  end.

(** The keys strictly below [k], files, directories and links. *)
Definition keys_below (w : world) (k : list string) : list (list string) :=
  filter (fun k' => is_prefix k k' = true /\ k' <> k)
    ((map_to_list (w_fs w)).*1 ++ (map_to_list (w_links w)).*1).

(** [p.rglob("*")], in the order of the store. *)
Definition rglob_at (w : world) (p : path) : list path :=
  (fun k' => pnames p (drop (length (canon w p)) k')) <$> keys_below w (canon w p).
Definition rglob (p : path) : M (list path) := gets (fun w => rglob_at w p).

(** [p.iterdir()] *)
Definition iterdir (p : path) : M (list path) := fun w =>
  let k := canon w p in
  match node_at w k with
  | None => raise FileNotFoundError (no_such p) w
  | Some (File _ _) =>
      raise NotADirectoryError ("[Errno 20] Not a directory: " +:+ repr_str (path_str p)) w
  | Some Dir =>
      if bool_decide (k ∈ w_denied w)
      then raise PermissionError ("[Errno 13] Permission denied: " +:+ repr_str (path_str p)) w
      else (Ok (filter (fun q => length (p_parts q) = S (length (p_parts p))) (rglob_at w p)), w)
  end.

(** [p.glob("*/a/b")]: the names [rest] below each child of [p] that exist. *)
Definition glob_star (p : path) (rest : list string) : M (list path) := fun w =>
  let cs := filter (fun q => length (p_parts q) = S (length (p_parts p))) (rglob_at w p) in
  (Ok (filter (fun q => exists_at w q = true) ((fun q => pnames q rest) <$> cs)), w).

(** [p.glob("pre*post")] on the children of [p]. *)
Definition glob_name (p : path) (pre post : string) : M (list path) := fun w =>
  let cs := filter (fun q => length (p_parts q) = S (length (p_parts p))) (rglob_at w p) in
  (Ok (filter (fun q => startswith (name q) pre && endswith (name q) post &&
          Nat.leb (String.length pre + String.length post) (String.length (name q)) = true) cs), w).

(** [path.relative_to(root)] *)
Definition relative_to (p root : path) : M path :=
  if path_within p root
  then mret (Path false (drop (length (p_parts root)) (p_parts p)))
  else raise ValueError
    (repr_str (path_str p) +:+ " is not in the subpath of " +:+ repr_str (path_str root)).

(** [with tempfile.TemporaryDirectory(prefix=...) as d: body(d)] *)
Definition with_temp_dir {A} (prefix : string) (body : path -> M A) : M A := fun w =>
  let d := pnames (Path true host_tmp) [prefix +:+ host_uuid w] in
  (mkdir false false d ;; finally (body d) (rmtree d)) w.

(** *** Commands *)

Definition run_command (c : command) : M exec_result := fun w =>
  let '(r, w') := host_exec c w in
  (Ok r, World (w_fs w') (w_links w') (w_denied w') (w_clock w') (w_log w ++ [EvRun c])).

Definition getenv (k : string) : option string := dict_get k host_environ.

Definition which (n : string) : M (option string) := gets (host_which n).
End fs.

(** ** Reasoning about the monad *)

(** [wp m Q E w]: from [w], [m] returns [a] in a world where [Q a] holds or
    raises [e] in one where [E e] holds. *)
Definition wp {A} (m : M A) (Q : A -> world -> Prop) (E : exn -> world -> Prop) (w : world) : Prop :=
  match m w with
  | (Ok a, w') => Q a w'
  | (Raise e, w') => E e w'
  end.

Lemma wp_ret {A} (a : A) Q E w : Q a w -> wp (mret a) Q E w.
Proof. done. Qed.

Lemma wp_throw {A} e (Q : A -> world -> Prop) (E : exn -> world -> Prop) w :
  E e w -> wp (throw e) Q E w.
Proof. done. Qed.

Lemma wp_raise {A} k s (Q : A -> world -> Prop) (E : exn -> world -> Prop) w :
  E (Err k s) w -> wp (raise k s) Q E w.
Proof. done. Qed.

Lemma wp_bind {A B} (m : M A) (f : A -> M B) Q E w :
  wp m (fun a w' => wp (f a) Q E w') E w -> wp (m ≫= f) Q E w.
Proof. unfold wp, mbind, M_bind. by destruct (m w) as [[a|e] w']. Qed.

Lemma wp_gets {A} (f : world -> A) Q E w : Q (f w) w -> wp (gets f) Q E w.
Proof. done. Qed.

Lemma wp_modify f (Q : unit -> world -> Prop) (E : exn -> world -> Prop) w :
  Q tt (f w) -> wp (modify f) Q E w.
Proof. done. Qed.

Lemma wp_mono {A} (m : M A) (Q Q' : A -> world -> Prop) (E E' : exn -> world -> Prop) w :
  wp m Q E w -> (forall a w', Q a w' -> Q' a w') -> (forall e w', E e w' -> E' e w') ->
  wp m Q' E' w.
Proof. unfold wp. destruct (m w) as [[a|e] w']; auto. Qed.

Lemma wp_and {A} (m : M A) Q1 Q2 E1 E2 w :
  wp m Q1 E1 w -> wp m Q2 E2 w ->
  wp m (fun a w' => Q1 a w' /\ Q2 a w') (fun e w' => E1 e w' /\ E2 e w') w.
Proof. unfold wp. destruct (m w) as [[a|e] w']; auto. Qed.

Lemma wp_try {A} (m : M A) (p : exn -> bool) (h : exn -> M A) (Q : A -> world -> Prop) (E : exn -> world -> Prop) w :
  wp m Q (fun e w' => if p e then wp (h e) Q E w' else E e w') w ->
  wp (try_except m p h) Q E w.
Proof. unfold wp, try_except. destruct (m w) as [[a|e] w']; [done|]. by destruct (p e). Qed.

Lemma wp_for {A} (l : list A) (f : A -> M unit) (I : world -> Prop) (E : exn -> world -> Prop) w :
  I w -> (forall x w', x ∈ l -> I w' -> wp (f x) (fun _ => I) E w') -> wp (for_ l f) (fun _ => I) E w.
Proof.
  revert w. induction l as [|x l IH]; intros w Hw Hf; [done|].
  cbn [for_]. apply wp_bind. eapply wp_mono; [apply Hf; [left|done]| |done].
  intros [] w' Hw'. apply IH; [done|]. intros y w'' Hy. apply Hf. by right.
Qed.

Lemma run_ret {A} (a : A) w : (mret a : M A) w = (Ok a, w).
Proof. done. Qed.

Lemma bind_ok {A B} (m : M A) (f : A -> M B) b w w2 :
  (m ≫= f) w = (Ok b, w2) -> exists a w1, m w = (Ok a, w1) /\ f a w1 = (Ok b, w2).
Proof.
  unfold mbind, M_bind. destruct (m w) as [[a|e] w1]; [|done]. intros. by exists a, w1.
Qed.

Lemma bind_ok_eq {A B} (m : M A) (f : A -> M B) a w w1 :
  m w = (Ok a, w1) -> (m ≫= f) w = f a w1.
Proof. unfold mbind, M_bind. by intros ->. Qed.

Lemma bind_raise_eq {A B} (m : M A) (f : A -> M B) e w w1 :
  m w = (Raise e, w1) -> (m ≫= f) w = (Raise e, w1).
Proof. unfold mbind, M_bind. by intros ->. Qed.

Lemma bind_raise {A B} (m : M A) (f : A -> M B) e w w2 :
  (m ≫= f) w = (Raise e, w2) ->
  m w = (Raise e, w2) \/ exists a w1, m w = (Ok a, w1) /\ f a w1 = (Raise e, w2).
Proof.
  unfold mbind, M_bind. destruct (m w) as [[a|e'] w1].
  - intros. right. by exists a, w1.
  - intros. left. by simplify_eq.
Qed.

Lemma fmap_ok {A B} (g : A -> B) (m : M A) b w w2 :
  (g <$> m) w = (Ok b, w2) -> exists a, m w = (Ok a, w2) /\ b = g a.
Proof.
  unfold fmap, M_fmap. intros H. apply bind_ok in H as (a & w1 & H1 & H2).
  rewrite run_ret in H2. simplify_eq. eauto.
Qed.

Lemma fail_if_ok b k s u w w' : fail_if b k s w = (Ok u, w') -> b = false /\ w' = w.
Proof. destruct b; [done|]. unfold fail_if, when_. rewrite run_ret. by intros [= _ <-]. Qed.

Lemma lift_opt_ok {A} k s (o : option A) a w w' :
  lift_opt k s o w = (Ok a, w') -> o = Some a /\ w' = w.
Proof. destruct o; [|done]. unfold lift_opt. rewrite run_ret. by intros [= <- <-]. Qed.

Lemma raise_not_ok {A} k s (a : A) w w' : raise k s w = (Ok a, w') -> False.
Proof. done. Qed.

Lemma throw_not_ok {A} e (a : A) w w' : throw e w = (Ok a, w') -> False.
Proof. done. Qed.

Lemma gets_ok {A} (f : world -> A) a w w' : gets f w = (Ok a, w') -> a = f w /\ w' = w.
Proof. unfold gets. by intros [= <- <-]. Qed.

Lemma ret_ok {A} (a b : A) w w' : (mret a : M A) w = (Ok b, w') -> b = a /\ w' = w.
Proof. rewrite run_ret. by intros [= <- <-]. Qed.

(** Opens a hypothesis [m w = (Ok a, w')] that follows a sequence of binds. *)
Ltac inv_ok H :=
  match type of H with
  | (?m ≫= ?f) ?w = (Ok ?b, ?w2) =>
      let a := fresh "a" in let w1 := fresh "w" in let H1 := fresh "H" in
      apply bind_ok in H as (a & w1 & H1 & H); cbv beta in H
  | mret _ _ = (Ok _, _) => apply ret_ok in H as [? ?]; subst
  | gets _ _ = (Ok _, _) => apply gets_ok in H as [? ?]; subst
  | fail_if _ _ _ _ = (Ok _, _) => apply fail_if_ok in H as [? ?]; subst
  | lift_opt _ _ _ _ = (Ok _, _) => apply lift_opt_ok in H as [? ?]; subst
  | raise _ _ _ = (Ok _, _) => exfalso; exact (raise_not_ok _ _ _ _ _ H)
  | throw _ _ = (Ok _, _) => exfalso; exact (throw_not_ok _ _ _ _ H)
  end.

(** Opens every such hypothesis. *)
Ltac inv_oks :=
  repeat match goal with
  | H : _ = (Ok _, _) |- _ => inv_ok H
  end.
