(* ===== verification/Store.v ===== *)
(** How the file operations change the store: what each keeps, and what a
    successful write leaves to be read. *)
From Stdlib Require Import ZArith Lia.
From S2P Require Import Prelude Str Py.
Local Open Scope Z_scope.

(** From [w] to [w'], links and access rights are unchanged and so is every entry
    that existed, but for those at the keys [K]. *)
Record keeps (K : list (list string)) (w w' : world) : Prop := {
  keeps_links : w_links w' = w_links w;
  keeps_denied : w_denied w' = w_denied w;
  keeps_fs : forall k n, k ∉ K -> w_fs w !! k = Some n -> w_fs w' !! k = Some n
}.

Lemma keeps_refl K w : keeps K w w.
Proof. by constructor. Qed.

Lemma keeps_trans K w1 w2 w3 : keeps K w1 w2 -> keeps K w2 w3 -> keeps K w1 w3.
Proof. intros [L1 D1 F1] [L2 D2 F2]. constructor; [congruence|congruence|auto]. Qed.

Lemma keeps_mono K K' w w' : K ⊆ K' -> keeps K w w' -> keeps K' w w'.
Proof. intros Hs HK. constructor; [apply HK|apply HK|]. intros. apply (keeps_fs _ _ _ HK); set_solver. Qed.

(** What happens at an entry that did not exist is no change of an existing one. *)
Lemma keeps_fresh K k w w' : w_fs w !! k = None -> keeps (k :: K) w w' -> keeps K w w'.
Proof.
  intros Hk HK. constructor; [apply HK|apply HK|]. intros k' n Hk' Hn.
  apply (keeps_fs _ _ _ HK); [|done]. intros [->|Hin]%elem_of_cons; [congruence|done].
Qed.

Lemma keeps_nil K w w' : keeps [] w w' -> keeps K w w'.
Proof. apply keeps_mono, list_subseteq_nil. Qed.
Lemma keeps_head k K w w' : keeps [k] w w' -> keeps (k :: K) w w'.
Proof. apply keeps_mono. set_solver. Qed.
Lemma keeps_tail k K w w' : keeps K w w' -> keeps (k :: K) w w'.
Proof. apply keeps_mono. set_solver. Qed.

#[export] Instance keeps_preorder K : PreOrder (keeps K).
Proof. split; [intros w; apply keeps_refl|intros w1 w2 w3; apply keeps_trans]. Qed.

(** A world that differs in its clock and log only. *)
Lemma keeps_same K w w' : w_fs w' = w_fs w -> w_links w' = w_links w ->
  w_denied w' = w_denied w -> keeps K w w'.
Proof. intros Hf Hl Hd. constructor; [done|done|]. by rewrite Hf. Qed.

Create HintDb keeps.
#[export] Hint Resolve keeps_refl : pydb.

Section store.
Context `{Host}.

Lemma canon_links w w' p : w_links w' = w_links w -> canon w' p = canon w p.
Proof. intros E. unfold canon. by rewrite E. Qed.

Lemma lcanon_links w w' p : w_links w' = w_links w -> lcanon w' p = lcanon w p.
Proof.
  intros E. unfold lcanon. rewrite !(canon_links w w') by done. done.
Qed.

Lemma keeps_canon K w w' p : keeps K w w' -> canon w' p = canon w p.
Proof. intros HK. apply canon_links, HK. Qed.
Lemma keeps_lcanon K w w' p : keeps K w w' -> lcanon w' p = lcanon w p.
Proof. intros HK. apply lcanon_links, HK. Qed.

Lemma keeps_node K w w' k n : keeps K w w' -> k ∉ K -> node_at w k = Some n ->
  node_at w' k = Some n.
Proof. intros HK Hk. destruct k; [done|]. by apply (keeps_fs _ _ _ HK). Qed.

(** *** Reading *)

Lemma read_raw_ok p w c w' : read_raw p w = (Ok c, w') ->
  w' = w /\ exists t, node_at w (canon w p) = Some (File c t) /\ canon w p ∉ w_denied w.
Proof.
  unfold read_raw. destruct (node_at w (canon w p)) as [[c' t|]|]; [|done|done].
  case_bool_decide; [done|]. intros [= <- <-]. eauto.
Qed.

Lemma read_raw_state p w r w' : read_raw p w = (r, w') -> w' = w.
Proof.
  unfold read_raw. destruct (node_at w (canon w p)) as [[c' t|]|]; try by intros [= <- <-].
  case_bool_decide; by intros [= <- <-].
Qed.

Lemma read_raw_node p w c t : node_at w (canon w p) = Some (File c t) ->
  canon w p ∉ w_denied w -> read_raw p w = (Ok c, w).
Proof.
  intros Hn Hd. unfold read_raw. rewrite Hn. by rewrite bool_decide_eq_false_2.
Qed.

Lemma read_text_node p w c t : node_at w (canon w p) = Some (File c t) ->
  canon w p ∉ w_denied w -> utf8_valid c = true ->
  read_text p w = (Ok (universal_newlines c), w).
Proof.
  intros Hn Hd Hu. unfold read_text.
  rewrite (bind_ok_eq _ _ c w w); [by rewrite Hu|by eapply read_raw_node].
Qed.

Lemma read_bytes_node p w c t : node_at w (canon w p) = Some (File c t) ->
  canon w p ∉ w_denied w -> read_bytes p w = (Ok (to_bytes c), w).
Proof.
  intros Hn Hd. unfold read_bytes.
  rewrite (bind_ok_eq _ _ c w w); [done|by eapply read_raw_node].
Qed.

Lemma read_text_state p w r w' : read_text p w = (r, w') -> w' = w.
Proof.
  unfold read_text, mbind, M_bind. destruct (read_raw p w) as [[c|e] w1] eqn:E;
    apply read_raw_state in E as ->; [|by intros [= <- <-]].
  destruct (utf8_valid c); by intros [= <- <-].
Qed.

Lemma stat_size_state p w r w' : stat_size p w = (r, w') -> w' = w.
Proof. unfold stat_size. repeat case_match; by intros [= <- <-]. Qed.

Lemma read_bytes_state p w r w' : read_bytes p w = (r, w') -> w' = w.
Proof.
  unfold read_bytes, mbind, M_bind. destruct (read_raw p w) as [[c|e] w1] eqn:E;
    apply read_raw_state in E as ->; by intros [= <- <-].
Qed.

(** *** Writing *)

Lemma put_file_keeps w k c : keeps [k] w (put_file k c w).
Proof.
  constructor; [done|done|]. intros k' n Hk Hn. cbn [put_file tick set_fs w_fs].
  rewrite lookup_insert_ne; [done|set_solver].
Qed.

Lemma with_entry_ok p f w u w' : with_entry p f w = (Ok u, w') ->
  f (canon w p) w = (Ok u, w') /\ canon w p <> [] /\ (canon w p ∈ w_denied w -> w_fs w !! canon w p = None).
Proof.
  unfold with_entry. destruct (node_at w (canon w p)) as [[c' t|]|] eqn:En; [|done|].
  - case_bool_decide; [done|]. intros E. split_and!; [done| |done]. by intros E'; rewrite E' in En.
  - destruct (node_at w (removelast (canon w p))) as [[? ?|]|]; [done| |done].
    intros E. destruct (canon w p) as [|x k]; [done|]. done.
Qed.

Lemma with_entry_keeps p f w r w' : (forall r w', f (canon w p) w = (r, w') -> keeps [canon w p] w w') ->
  with_entry p f w = (r, w') -> keeps [canon w p] w w'.
Proof.
  intros Hf. unfold with_entry. repeat case_match; try (by apply Hf); intros E; inversion E; subst; apply keeps_refl.
Qed.

Lemma store_bytes_ok c k w u w' : store_bytes c k w = (Ok u, w') -> w' = put_file k c w.
Proof. unfold store_bytes. destruct (host_write_stops k c w); [done|]. by intros [= _ <-]. Qed.

Lemma write_raw_ok p c w u w' : write_raw p c w = (Ok u, w') ->
  w' = put_file (canon w p) c w /\ canon w p <> [] /\
  (canon w p ∈ w_denied w -> w_fs w !! canon w p = None).
Proof. intros E. apply with_entry_ok in E as (E & Hne & Hd). split_and!; [by apply store_bytes_ok in E|done|done]. Qed.

Lemma write_raw_keeps p c w r w' : write_raw p c w = (r, w') -> keeps [canon w p] w w'.
Proof.
  apply with_entry_keeps. intros r0 w0. unfold store_bytes.
  destruct (host_write_stops _ _ _); intros [= _ <-]; apply put_file_keeps.
Qed.

Lemma create_file_ok p w u w' : create_file p w = (Ok u, w') ->
  w' = put_file (canon w p) "" w /\ canon w p <> [].
Proof. intros E. apply with_entry_ok in E as (E & Hne & _). by injection E as _ <-. Qed.

Lemma create_file_keeps p w r w' : create_file p w = (r, w') -> keeps [canon w p] w w'.
Proof. apply with_entry_keeps. intros r0 w0 [= _ <-]. apply put_file_keeps. Qed.

(** No entry is made where none can be made. *)
Lemma create_file_raise p w e w' : create_file p w = (Raise e, w') -> w' = w.
Proof. unfold create_file, with_entry. intros E. repeat case_match; by inversion E. Qed.

(** A written file holds what was written. *)
Lemma write_raw_node p c w u w' : write_raw p c w = (Ok u, w') ->
  node_at w' (canon w p) = Some (File c (w_clock w)).
Proof.
  intros E. apply write_raw_ok in E as (-> & Hne & _).
  unfold node_at. destruct (canon w p) as [|x k] eqn:Ek; [done|].
  simpl. by rewrite lookup_insert_eq.
Qed.

Lemma unlink_keeps mo p w r w' : unlink mo p w = (r, w') -> w_links w !! lcanon w p = None ->
  keeps [lcanon w p] w w'.
Proof.
  unfold unlink. intros E Hl. rewrite Hl in E.
  destruct (node_at w (lcanon w p)) as [[? ?|]|]; [|inversion E; subst; apply keeps_refl|].
  - injection E as <- <-. constructor; [done|done|]. intros k n Hk Hn. simpl.
    rewrite lookup_delete_ne; [done|set_solver].
  - destruct mo; inversion E; subst; apply keeps_refl.
Qed.

Lemma unlink_file mo p w c t : w_links w !! lcanon w p = None ->
  node_at w (lcanon w p) = Some (File c t) ->
  unlink mo p w = (Ok tt, set_fs (delete (lcanon w p) (w_fs w)) w).
Proof. unfold unlink. by intros -> ->. Qed.

Lemma make_dirs_keeps ks w w' K : make_dirs ks w = Some w' -> keeps K w w'.
Proof.
  revert w. induction ks as [|k ks IH]; intros w; simpl; [by intros [= <-]|].
  destruct (node_at w k) as [[? ?|]|] eqn:En; [done|by apply IH|].
  intros E. apply IH in E. etransitivity; [|exact E].
  constructor; [done|done|]. intros k' n _ Hn. simpl.
  destruct (decide (k = k')) as [->|Hne]; [|by rewrite lookup_insert_ne].
  destruct k'; [done|]. simpl in En. congruence.
Qed.

Lemma mkdir_keeps K ps eo p w r w' : mkdir ps eo p w = (r, w') -> keeps K w w'.
Proof.
  unfold mkdir. destruct (node_at w (canon w p)) as [[? ?|]|] eqn:En.
  - intros [= <- <-]. apply keeps_refl.
  - destruct eo; intros [= <- <-]; apply keeps_refl.
  - assert (Hi : keeps K w (set_fs (<[canon w p := Dir]> (w_fs w)) w)).
    { constructor; [done|done|]. intros k' n _ Hn. simpl.
      destruct (decide (canon w p = k')) as [E|Hne]; [|by rewrite lookup_insert_ne].
      destruct (canon w p); [done|]. simpl in En. subst. congruence. }
    destruct (node_at w (removelast (canon w p))) as [[? ?|]|].
    + intros [= <- <-]. apply keeps_refl.
    + by intros [= <- <-].
    + destruct ps; [|intros [= <- <-]; apply keeps_refl].
      destruct (make_dirs _ w) as [w2|] eqn:E; intros [= <- <-]; [|apply keeps_refl].
      by eapply make_dirs_keeps.
Qed.

Lemma keeps_file_read K w w' p c t : keeps K w w' -> canon w p ∉ K ->
  node_at w (canon w p) = Some (File c t) -> node_at w' (canon w' p) = Some (File c t).
Proof.
  intros HK Hp Hn. rewrite (keeps_canon K w w') by done. by eapply keeps_node.
Qed.
End store.

(** ** Operations that leave the store alone *)

(** [Keeps K m]: whatever its outcome, [m] changes existing entries at [K] only. *)
Definition Keeps (K : list (list string)) {A} (m : M A) : Prop :=
  forall w r w', m w = (r, w') -> keeps K w w'.

Section Keeps.
Context {K : list (list string)}.

Lemma Keeps_ret {A} (a : A) : Keeps K (mret a).
Proof. intros w r w' [= <- <-]. apply keeps_refl. Qed.
Lemma Keeps_throw {A} e : Keeps K (throw e : M A).
Proof. intros w r w' [= <- <-]. apply keeps_refl. Qed.
Lemma Keeps_raise {A} k s : Keeps K (raise k s : M A).
Proof. apply Keeps_throw. Qed.
Lemma Keeps_gets {A} (f : world -> A) : Keeps K (gets f).
Proof. intros w r w' [= <- <-]. apply keeps_refl. Qed.
Lemma Keeps_print_end s : Keeps K (print_end s).
Proof. intros w r w' [= <- <-]. by apply keeps_same. Qed.
Lemma Keeps_eprint_end s : Keeps K (eprint_end s).
Proof. intros w r w' [= <- <-]. by apply keeps_same. Qed.

Lemma Keeps_bind {A B} (m : M A) (f : A -> M B) :
  Keeps K m -> (forall a, Keeps K (f a)) -> Keeps K (m ≫= f).
Proof.
  intros Hm Hf w r w'. unfold mbind, M_bind. destruct (m w) as [[a|e] w1] eqn:E; intros E'.
  - etransitivity; [by eapply Hm|by eapply Hf].
  - simplify_eq. by eapply Hm.
Qed.

Lemma Keeps_fmap {A B} (f : A -> B) (m : M A) : Keeps K m -> Keeps K (f <$> m).
Proof. intros Hm. apply Keeps_bind; [done|intros; apply Keeps_ret]. Qed.

Lemma Keeps_try {A} (m : M A) (p : exn -> bool) (h : exn -> M A) :
  Keeps K m -> (forall e, Keeps K (h e)) -> Keeps K (try_except m p h).
Proof.
  intros Hm Hh w r w'. unfold try_except. destruct (m w) as [[a|e] w1] eqn:E; intros E'.
  - simplify_eq. by eapply Hm.
  - destruct (p e).
    + etransitivity; [by eapply Hm|by eapply Hh].
    + simplify_eq. by eapply Hm.
Qed.

Lemma Keeps_when b m : Keeps K m -> Keeps K (when_ b m).
Proof. intros Hm. destruct b; [done|apply Keeps_ret]. Qed.
Lemma Keeps_fail_if b k s : Keeps K (fail_if b k s).
Proof. apply Keeps_when, Keeps_raise. Qed.
Lemma Keeps_lift_opt {A} k s (o : option A) : Keeps K (lift_opt k s o).
Proof. destruct o; [apply Keeps_ret|apply Keeps_raise]. Qed.

Lemma Keeps_for {A} (l : list A) (f : A -> M unit) :
  (forall x, x ∈ l -> Keeps K (f x)) -> Keeps K (for_ l f).
Proof.
  induction l as [|x l IH]; intros Hf; [apply Keeps_ret|]. simpl.
  apply Keeps_bind; [apply Hf; left|]. intros _. apply IH. intros y Hy. apply Hf. by right.
Qed.
Lemma Keeps_map_m {A B} (f : A -> M B) (l : list A) :
  (forall x, Keeps K (f x)) -> Keeps K (map_m f l).
Proof.
  intros Hf. induction l as [|x l IH]; [apply Keeps_ret|]. simpl.
  apply Keeps_bind; [done|]. intros y. apply Keeps_bind; [done|]. intros; apply Keeps_ret.
Qed.
Lemma Keeps_filter_m {A} (f : A -> M bool) (l : list A) :
  (forall x, Keeps K (f x)) -> Keeps K (filter_m f l).
Proof.
  intros Hf. induction l as [|x l IH]; [apply Keeps_ret|]. simpl.
  apply Keeps_bind; [done|]. intros y. apply Keeps_bind; [done|]. intros; apply Keeps_ret.
Qed.
Lemma Keeps_all_m {A} (f : A -> M bool) (l : list A) :
  (forall x, Keeps K (f x)) -> Keeps K (all_m f l).
Proof.
  intros Hf. induction l as [|x l IH]; [apply Keeps_ret|]. simpl.
  apply Keeps_bind; [done|]. intros []; [done|apply Keeps_ret].
Qed.
Lemma Keeps_fold_m {A B} (f : B -> A -> M B) (l : list A) b :
  (forall b x, Keeps K (f b x)) -> Keeps K (fold_m f b l).
Proof.
  intros Hf. revert b. induction l as [|x l IH]; intros b; [apply Keeps_ret|]. simpl.
  apply Keeps_bind; [done|]. intros. apply IH.
Qed.
End Keeps.

Section keeps_io.
Context `{Host} {K : list (list string)}.

Lemma Keeps_read_raw p : Keeps K (read_raw p).
Proof. intros w r w' E. apply read_raw_state in E as ->. apply keeps_refl. Qed.
Lemma Keeps_read_text p : Keeps K (read_text p).
Proof. intros w r w' E. apply read_text_state in E as ->. apply keeps_refl. Qed.
Lemma Keeps_read_bytes p : Keeps K (read_bytes p).
Proof. intros w r w' E. apply read_bytes_state in E as ->. apply keeps_refl. Qed.
Lemma Keeps_mkdir ps eo p : Keeps K (mkdir ps eo p).
Proof. intros w r w' E. by eapply mkdir_keeps. Qed.
Lemma Keeps_mkdir_p p : Keeps K (mkdir_p p).
Proof. apply Keeps_mkdir. Qed.
Lemma Keeps_resolve p : Keeps K (resolve p).
Proof. apply Keeps_gets. Qed.
Lemma Keeps_relative_to p root : Keeps K (relative_to p root).
Proof. unfold relative_to. destruct (path_within p root); [apply Keeps_ret|apply Keeps_raise]. Qed.
Lemma Keeps_iterdir p : Keeps K (iterdir p).
Proof.
  intros w r w' E. unfold iterdir in E. repeat case_match; inversion E; subst; apply keeps_refl.
Qed.
Lemma Keeps_stat_size p : Keeps K (stat_size p).
Proof.
  intros w r w' E. unfold stat_size in E. repeat case_match; inversion E; subst; apply keeps_refl.
Qed.
Lemma Keeps_stat_mtime p : Keeps K (stat_mtime p).
Proof.
  intros w r w' E. unfold stat_mtime in E. repeat case_match; inversion E; subst; apply keeps_refl.
Qed.
End keeps_io.

#[export] Hint Resolve Keeps_ret Keeps_throw Keeps_raise Keeps_gets Keeps_print_end
  Keeps_eprint_end Keeps_fail_if Keeps_lift_opt Keeps_read_raw Keeps_read_text Keeps_read_bytes
  Keeps_mkdir Keeps_mkdir_p Keeps_resolve Keeps_relative_to Keeps_iterdir Keeps_stat_size Keeps_stat_mtime : keeps.

(** Proves [Keeps] of an operation from its shape. *)
Ltac keeps_step :=
  match goal with
  | |- forall _, _ => intros ?
  | |- Keeps _ (mbind _ _) => apply Keeps_bind
  | |- Keeps _ (fmap _ _) => apply Keeps_fmap
  | |- Keeps _ (try_except _ _ _) => apply Keeps_try
  | |- Keeps _ (when_ _ _) => apply Keeps_when
  | |- Keeps _ (for_ _ _) => apply Keeps_for
  | |- Keeps _ (map_m _ _) => apply Keeps_map_m
  | |- Keeps _ (filter_m _ _) => apply Keeps_filter_m
  | |- Keeps _ (all_m _ _) => apply Keeps_all_m
  | |- Keeps _ (fold_m _ _ _) => apply Keeps_fold_m
  | |- Keeps _ (match ?x with _ => _ end) => destruct x
  | |- Keeps _ (let '_ := ?x in _) => destruct x
  | |- _ => solve [auto with keeps]
  end.
Ltac solve_keeps := repeat keeps_step.

(** ** Operations that write at known places *)

(** [Leaves K w0 m]: from any world where only entries at [K] have changed since
    [w0], [m] changes only such entries. *)
Definition Leaves (K : list (list string)) (w0 : world) {A} (m : M A) : Prop :=
  forall w r w', keeps K w0 w -> m w = (r, w') -> keeps K w0 w'.

Lemma Keeps_Leaves K w0 {A} (m : M A) : Keeps K m -> Leaves K w0 m.
Proof. intros Hm w r w' Hw E. etransitivity; [exact Hw|by eapply Hm]. Qed.

Lemma Leaves_keeps K w0 {A} (m : M A) r w' : Leaves K w0 m -> m w0 = (r, w') -> keeps K w0 w'.
Proof. intros Hm E. eapply Hm; [apply keeps_refl|exact E]. Qed.

Lemma Leaves_bind K w0 {A B} (m : M A) (f : A -> M B) :
  Leaves K w0 m -> (forall a, Leaves K w0 (f a)) -> Leaves K w0 (m ≫= f).
Proof.
  intros Hm Hf w r w' Hw. unfold mbind, M_bind. destruct (m w) as [[a|e] w1] eqn:E; intros E'.
  - eapply Hf; [by eapply Hm|exact E'].
  - simplify_eq. by eapply Hm.
Qed.

Lemma Leaves_for K w0 {A} (l : list A) (f : A -> M unit) :
  (forall x, x ∈ l -> Leaves K w0 (f x)) -> Leaves K w0 (for_ l f).
Proof.
  induction l as [|x l IH]; intros Hf; [apply Keeps_Leaves, Keeps_ret|]. cbn [for_].
  apply Leaves_bind; [apply Hf; left|]. intros _. apply IH. intros y Hy. apply Hf. by right.
Qed.

Lemma Leaves_write `{Host} K w0 p s : canon w0 p ∈ K -> Leaves K w0 (write_raw p s).
Proof.
  intros Hp w r w' Hw E. etransitivity; [exact Hw|]. apply write_raw_keeps in E.
  rewrite (keeps_canon _ _ _ _ Hw) in E. eapply keeps_mono; [|exact E].
  by intros k ->%list_elem_of_singleton.
Qed.

(** Proves [Leaves] of an operation from its shape; what is written is left to the
    caller. *)
Ltac leaves_step :=
  match goal with
  | |- forall _, _ => intros ?
  | |- Leaves _ _ (mbind _ _) => apply Leaves_bind
  | |- Leaves _ _ (write_text _ _) => apply Leaves_write
  | |- Leaves _ _ (for_ _ _) => apply Leaves_for
  | |- Leaves _ _ (match ?x with _ => _ end) => destruct x eqn:?
  | |- Leaves _ _ _ => apply Keeps_Leaves; solve [solve_keeps]
  end.
Ltac solve_leaves := repeat leaves_step.

(** ** Paths without links below a directory *)

(** A last name that is no link is appended to the resolved directory. *)
Lemma walk_snoc k ln acc todo n :
  n <> ".." -> ln !! (walk k ln acc todo ++ [n]) = None ->
  walk k ln acc (todo ++ [n]) = walk k ln acc todo ++ [n].
Proof.
  intros Hn. revert acc todo. induction k as [|k IHk]; intros acc todo;
    revert acc; induction todo as [|p rest IH]; intros acc Hl.
  1,3: (rewrite walk_nil in *; cbn [app]; rewrite walk_unfold; apply String.eqb_neq in Hn;
        rewrite Hn, Hl; by rewrite walk_nil).
  - cbn [app]. rewrite walk_unfold in *. rewrite walk_unfold. destruct (String.eqb p ".."); [by apply IH|].
    destruct (ln !! (acc ++ [p])); [|by apply IH]. by rewrite app_assoc.
  - cbn [app]. rewrite walk_unfold in *. rewrite walk_unfold. destruct (String.eqb p ".."); [by apply IH|].
    destruct (ln !! (acc ++ [p])) as [tgt|]; [|by apply IH].
    rewrite app_assoc. by apply IHk.
Qed.

Section links.
Context `{Host}.

Lemma canon_pname w p n : n <> ".." -> w_links w !! (canon w p ++ [n]) = None ->
  canon w (pnames p [n]) = canon w p ++ [n].
Proof. intros Hn Hl. unfold canon, pnames. cbn [p_abs p_parts]. by apply walk_snoc. Qed.

Lemma lcanon_pname w p n : n <> ".." -> lcanon w (pnames p [n]) = canon w p ++ [n].
Proof.
  intros Hn. unfold lcanon, pnames, name, parent. simpl.
  destruct (p_parts p ++ [n]) eqn:E; [by destruct (p_parts p)|]. rewrite <- E.
  rewrite last_last, removelast_last. apply String.eqb_neq in Hn. rewrite Hn. by destruct p.
Qed.

(** A path whose entry is no link denotes the entry. *)
Lemma canon_lcanon w p : w_links w !! lcanon w p = None -> canon w p = lcanon w p.
Proof.
  unfold lcanon. destruct (p_parts p) as [|x l] eqn:E; [done|].
  destruct (String.eqb (name p) "..") eqn:En; [done|]. bool_props. intros Hl.
  rewrite <- canon_pname by done. f_equal. unfold pnames, parent, name. simpl.
  destruct p as [a ps]. simpl in *. f_equal. subst. by apply app_removelast_last.
Qed.
End links.

(** *** Stores without links *)

Lemma walk_plain k acc todo : Forall (fun n => n <> "..") todo -> walk k ∅ acc todo = acc ++ todo.
Proof.
  revert acc. induction todo as [|p todo IH]; intros acc Ht; [by rewrite walk_nil, app_nil_r|].
  apply Forall_cons in Ht as [Hp Ht]. rewrite walk_unfold. apply String.eqb_neq in Hp.
  rewrite Hp, lookup_empty, IH by done. by rewrite <- app_assoc.
Qed.

Lemma Forall_removelast {A} (P : A -> Prop) l : Forall P l -> Forall P (removelast l).
Proof.
  intros Hl. induction Hl as [|x l Hx Hl IH]; [constructor|]. cbn [removelast].
  destruct l; [constructor|by constructor].
Qed.

Lemma walk_no_dots k acc todo : Forall (fun n => n <> "..") acc ->
  Forall (fun n => n <> "..") (walk k ∅ acc todo).
Proof.
  revert acc. induction todo as [|p todo IH]; intros acc Ha; [by rewrite walk_nil|].
  rewrite walk_unfold. destruct (String.eqb p "..") eqn:E; [apply IH, Forall_removelast, Ha|].
  rewrite lookup_empty. bool_props. apply IH, Forall_app. split; [done|by constructor].
Qed.

Lemma canon_no_links `{Host} w p : w_links w = ∅ -> Forall (fun n => n <> "..") host_cwd ->
  canon w (Path true (canon w p)) = canon w p.
Proof.
  intros Hl Hc. unfold canon. cbn [p_abs p_parts]. rewrite Hl, (walk_plain _ []); [done|].
  apply walk_no_dots. by destruct (p_abs p).
Qed.

Lemma canon_plain `{Host} w k : w_links w = ∅ -> Forall (fun n => n <> "..") k ->
  canon w (Path true k) = k.
Proof. intros Hl Hk. unfold canon. cbn [p_abs p_parts]. by rewrite Hl, (walk_plain _ []). Qed.

(** No entry on the way to [k] is a link. *)
Definition real_key (w : world) (k : list string) : Prop :=
  Forall (fun n => n <> "..") k /\ forall i, (i < length k)%nat -> w_links w !! take (S i) k = None.

Lemma walk_real n ln acc todo : Forall (fun n => n <> "..") todo ->
  (forall i, (i < length todo)%nat -> ln !! (acc ++ take (S i) todo) = None) ->
  walk n ln acc todo = acc ++ todo.
Proof.
  revert acc. induction todo as [|p todo IH]; intros acc Hd Hl; [by rewrite walk_nil, app_nil_r|].
  apply Forall_cons in Hd as [Hp Hd]. apply String.eqb_neq in Hp. rewrite walk_unfold, Hp.
  assert (H0 : ln !! (acc ++ [p]) = None) by (apply (Hl 0%nat); simpl; lia).
  rewrite H0, IH; [by rewrite <- app_assoc|done|].
  intros i Hi. rewrite <- app_assoc. apply (Hl (S i)). simpl. lia.
Qed.

Lemma canon_real `{Host} w k : real_key w k -> canon w (Path true k) = k.
Proof. intros [Hd Hl]. unfold canon. cbn [p_abs p_parts]. by rewrite walk_real. Qed.

(** Resolution is used through its lemmas. *)
#[global] Opaque canon lcanon.

(** ** A concrete host *)

(** A POSIX machine, given what its programs do. *)
Definition demo_exec_host (root : list string) (exec : command -> world -> exec_result * world)
    : Host := {|
  host_root := root;
  host_cwd := root;
  host_tmp := ["tmp"];
  host_max_links := 40;
  host_more_recursion := 0;
  host_write_stops := fun _ _ _ => None;
  host_nt := false;
  host_platform := "linux";
  host_environ := [];
  host_executable := "python3";
  host_which := fun _ _ => None;
  host_exec := exec;
  host_validate := fun _ _ => None;
  host_now := fun _ => "2025-01-01T00:00:00+00:00";
  host_uuid := fun _ => "uuid";
  host_elevated := false
|}.
(** One whose device has room for [n] bytes in a file. *)
Definition demo_full_host (root : list string) (n : nat) : Host := {|
  host_root := root;
  host_cwd := root;
  host_tmp := ["tmp"];
  host_max_links := 40;
  host_more_recursion := 0;
  host_write_stops := fun _ c _ => if (String.length c <=? n)%nat then None else Some n;
  host_nt := false;
  host_platform := "linux";
  host_environ := [];
  host_executable := "python3";
  host_which := fun _ _ => None;
  host_exec := fun c w => (NoProgram, w);
  host_validate := fun _ _ => None;
  host_now := fun _ => "2025-01-01T00:00:00+00:00";
  host_uuid := fun _ => "uuid";
  host_elevated := false
|}.
(** One without programs. *)
Definition demo_host (root : list string) : Host :=
  demo_exec_host root (fun c w => (NoProgram, w)).

Definition demo_world (files : list (list string * string)) (dirs : list (list string)) : world :=
  World (list_to_map (((fun kc => (kc.1, File kc.2 0)) <$> files) ++ ((fun k => (k, Dir)) <$> dirs)))
    ∅ ∅ 1 [].
