(* ===== verification/Lib.v ===== *)
(** The shared helpers under [scripts/lib/]: [repo.py] (the repository root and
    the containment check), [manifest.py] (JSON manifests, written atomically),
    [hashing.py], [command.py] and [wsl.py] (commands and their quoting), and
    [fpga.py] (the board table). *)
From Stdlib Require Import ZArith Lia.
From S2P Require Import Prelude Str Json Documents Regex Sha256 Py Store.
Local Open Scope Z_scope.
Local Open Scope py_scope.

(** ** Quoting: [shlex.quote] and [shlex.split] *)

Definition shell_safe (c : ascii) : bool := is_alnum c || char_in "_@%+=:,./-" c.
Definition sq : string := ch (chr 39).

Definition shlex_quote (s : string) : string :=
  if String.eqb s "" then sq +:+ sq
  else if sforall shell_safe s then s
  else sq +:+ replace sq (sq +:+ dq +:+ sq +:+ dq +:+ sq) s +:+ sq.

Inductive lex_state := LWhite | LWord | LSingle | LDouble | LEscape (in_double : bool).

Definition lex_space (c : ascii) : bool := char_in (" " +:+ tab +:+ cr +:+ nl) c.

(** [shlex.split(s, posix=True)]; [None] is the [ValueError] of an unclosed quote. *)
Fixpoint lex (st : lex_state) (cur : string) (s : string) : option (list string) :=
  match s with
  | EmptyString =>
      match st with LWhite => Some [] | LWord => Some [cur] | _ => None end
  | String c r =>
      match st with
      | LWhite =>
          if lex_space c then lex LWhite "" r
          else if Ascii.eqb c (chr 92) then lex (LEscape false) "" r
          else if Ascii.eqb c (chr 39) then lex LSingle "" r
          else if Ascii.eqb c (chr 34) then lex LDouble "" r
          else lex LWord (ch c) r
      | LWord =>
          if lex_space c then cons cur <$> lex LWhite "" r
          else if Ascii.eqb c (chr 92) then lex (LEscape false) cur r
          else if Ascii.eqb c (chr 39) then lex LSingle cur r
          else if Ascii.eqb c (chr 34) then lex LDouble cur r
          else lex LWord (cur +:+ ch c) r
      | LSingle => if Ascii.eqb c (chr 39) then lex LWord cur r else lex LSingle (cur +:+ ch c) r
      | LDouble =>
          if Ascii.eqb c (chr 34) then lex LWord cur r
          else if Ascii.eqb c (chr 92) then lex (LEscape true) cur r
          else lex LDouble (cur +:+ ch c) r
      | LEscape true =>
          if Ascii.eqb c (chr 34) || Ascii.eqb c (chr 92)
          then lex LDouble (cur +:+ ch c) r
          else lex LDouble (cur +:+ bsl +:+ ch c) r
      | LEscape false => lex LWord (cur +:+ ch c) r
      end
  end.
Definition shlex_split (s : string) : option (list string) := lex LWhite "" s.

(** ** What a shell makes of a command line

    Commands of literal words joined by [&&], in the grammar of POSIX shells and of bash.  [None]
    stands for everything else: every unquoted character that a shell could take for an operator,
    an expansion, a pattern, a comment or the end of the line makes a command line [None], and so
    does a first word that looks like an assignment or a reserved word. *)

Inductive sh_token := ShWord (s : string) | ShAnd.
Inductive sh_state := ShBlank | ShPlain (cur : string) | ShSingle (cur : string) | ShDouble (cur : string).

Definition sh_active (c : ascii) : bool :=
  char_in (";|<>()$*?[]{}~#!^" +:+ ch (chr 96) +:+ nl +:+ cr) c.

(** The end of a word, if there is one. *)
Definition sh_flush (st : sh_state) (rest : option (list sh_token)) : option (list sh_token) :=
  match st with ShPlain cur => cons (ShWord cur) <$> rest | _ => rest end.
Definition sh_text (st : sh_state) : string :=
  match st with ShBlank => "" | ShPlain cur | ShSingle cur | ShDouble cur => cur end.

Fixpoint sh_lex (st : sh_state) (s : string) : option (list sh_token) :=
  let cur := sh_text st in
  match s with
  | EmptyString => match st with ShBlank => Some [] | ShPlain cur => Some [ShWord cur] | _ => None end
  | String c r =>
      match st with
      | ShSingle _ => if Ascii.eqb c (chr 39) then sh_lex (ShPlain cur) r else sh_lex (ShSingle (cur +:+ ch c)) r
      | ShDouble _ =>
          if Ascii.eqb c (chr 34) then sh_lex (ShPlain cur) r
          else if Ascii.eqb c (chr 92) then
            match r with
            | String d r' =>
                if char_in ("$" +:+ dq +:+ bsl +:+ ch (chr 96)) d then sh_lex (ShDouble (cur +:+ ch d)) r'
                else if char_in nl d then sh_lex (ShDouble cur) r'
                else sh_lex (ShDouble (cur +:+ bsl +:+ ch d)) r'
            | EmptyString => None
            end
          else if char_in ("$" +:+ ch (chr 96)) c then None
          else sh_lex (ShDouble (cur +:+ ch c)) r
      | _ =>
          if char_in (" " +:+ tab) c then sh_flush st (sh_lex ShBlank r)
          else if Ascii.eqb c (chr 39) then sh_lex (ShSingle cur) r
          else if Ascii.eqb c (chr 34) then sh_lex (ShDouble cur) r
          else if Ascii.eqb c (chr 92) then
            match r with
            | String d r' => if char_in nl d then None else sh_lex (ShPlain (cur +:+ ch d)) r'
            | EmptyString => None
            end
          else if char_in "&" c then
            match r with
            | String d r' => if char_in "&" d then sh_flush st (cons ShAnd <$> sh_lex ShBlank r') else None
            | EmptyString => None
            end
          else if sh_active c then None
          else sh_lex (ShPlain (cur +:+ ch c)) r
      end
  end.

(** A word that is the name of a command when it comes first. *)
Definition sh_reserved : list string :=
  ["!"; "{"; "}"; "[["; "]]"; "case"; "coproc"; "do"; "done"; "elif"; "else"; "esac"; "fi"; "for"; "function"; "if";
   "in"; "select"; "then"; "time"; "until"; "while"].
Fixpoint sh_name_rest (s : string) : string :=
  match s with
  | String c r => if is_alnum c || char_in "_" c then sh_name_rest r else s
  | EmptyString => ""
  end.
Definition sh_command_word (s : string) : bool :=
  negb (startswith (sh_name_rest s) "=" || startswith (sh_name_rest s) "+=") && negb (bool_decide (s ∈ sh_reserved)).

(** The commands of the tokens: none of them is empty. *)
Definition sh_command (words : list string) : bool :=
  match words with w :: _ => sh_command_word w | [] => false end.
Fixpoint sh_and_list (words : list string) (l : list sh_token) : option (list (list string)) :=
  match l with
  | [] => if sh_command words then Some [words] else None
  | ShAnd :: l' => if sh_command words then cons words <$> sh_and_list [] l' else None
  | ShWord s :: l' => sh_and_list (words ++ [s]) l'
  end.
Definition sh_commands (s : string) : option (list (list string)) := sh_lex ShBlank s ≫= sh_and_list [].

(** ** [lib/fpga.py] *)

Record FpgaBoard := {
  board_name : string;
  build_prefix : string;
  default_profile : string;
  default_core_mhz : Z;
  supported_core_mhz : list Z;
  mmcm : list (Z * (string * string * string))
}.

Definition axku062 : FpgaBoard := {|
  board_name := "axku062";
  build_prefix := "axku062";
  default_profile := "rtthread-coremark";
  default_core_mhz := 100;
  supported_core_mhz :=
    [50; 100; 110; 120; 125; 130; 140; 150; 160; 170; 180; 190; 200; 210; 220; 230; 240; 250];
  mmcm := [
    (50, ("5.0", "20.0", "20"));
    (100, ("5.0", "10.0", "20"));
    (110, ("5.5", "10.0", "22"));
    (120, ("6.0", "10.0", "24"));
    (125, ("5.0", "8.0", "20"));
    (130, ("6.5", "10.0", "26"));
    (140, ("7.0", "10.0", "28"));
    (150, ("6.0", "8.0", "24"));
    (160, ("4.0", "5.0", "16"));
    (170, ("4.25", "5.0", "17"));
    (180, ("4.5", "5.0", "18"));
    (190, ("4.75", "5.0", "19"));
    (200, ("5.0", "5.0", "20"));
    (210, ("5.25", "5.0", "21"));
    (220, ("5.5", "5.0", "22"));
    (230, ("5.75", "5.0", "23"));
    (240, ("6.0", "5.0", "24"));
    (250, ("5.0", "4.0", "20"))]
|}.

Definition kintex7_competition : FpgaBoard := {|
  board_name := "kintex7_competition";
  build_prefix := "kintex7";
  default_profile := "rtthread-coremark";
  default_core_mhz := 100;
  supported_core_mhz :=
    [100; 110; 120; 125; 130; 140; 150; 160; 170; 180; 190; 200; 210; 220; 230; 240; 250];
  mmcm := [
    (100, ("5.0", "10.0", "20"));
    (110, ("5.5", "10.0", "22"));
    (120, ("6.0", "10.0", "24"));
    (125, ("5.0", "8.0", "20"));
    (130, ("3.25", "5.0", "13"));
    (140, ("3.5", "5.0", "14"));
    (150, ("6.0", "8.0", "24"));
    (160, ("4.0", "5.0", "16"));
    (170, ("4.25", "5.0", "17"));
    (180, ("4.5", "5.0", "18"));
    (190, ("4.75", "5.0", "19"));
    (200, ("5.0", "5.0", "20"));
    (210, ("5.25", "5.0", "21"));
    (220, ("5.5", "5.0", "22"));
    (230, ("5.75", "5.0", "23"));
    (240, ("6.0", "5.0", "24"));
    (250, ("5.0", "4.0", "20"))]
|}.

Definition pynq_z2 : FpgaBoard := {|
  board_name := "pynq_z2";
  build_prefix := "pynq_z2";
  default_profile := "rtthread";
  default_core_mhz := 50;
  supported_core_mhz := [50];
  mmcm := []
|}.

Definition BOARDS : list (string * FpgaBoard) :=
  [("axku062", axku062); ("kintex7_competition", kintex7_competition); ("pynq_z2", pynq_z2)].

Fixpoint mmcm_get (mhz : Z) (t : list (Z * (string * string * string))) : option (string * string * string) :=
  match t with
  | [] => None
  | (m, v) :: t' => if mhz =? m then Some v else mmcm_get mhz t'
  end.

Definition resolve_core_mhz (board : FpgaBoard) (requested : option Z) : M Z :=
  let core_mhz := match requested with None => default_core_mhz board | Some r => r end in
  if negb (existsb (Z.eqb core_mhz) (supported_core_mhz board))
  then raise ValueError
    (board_name board +:+ " does not support --core-mhz " +:+ str_of_Z core_mhz +:+
     "; choose one of: " +:+ join ", " (str_of_Z <$> supported_core_mhz board))
  else mret core_mhz.

(** ** The helpers that act on the machine *)

Record CommandResult := {
  argv : list string;
  returncode : Z;
  stdout : string;
  stderr : string
}.
Definition ok (r : CommandResult) : bool := returncode r =? 0.

Section lib.
Context `{Host}.

(** *** [lib/repo.py] *)

Definition repo_root : path := Path true host_root.
Definition repo_path (parts : list string) : path := foldl pdiv repo_root parts.

Definition ensure_within (p root : path) : M path :=
  resolved_path ← resolve p;
  resolved_root ← resolve root;
  if negb (bool_decide (resolved_path = resolved_root)) &&
     negb (path_within resolved_path resolved_root)
  then raise ValueError ("path escapes allowed root: " +:+ path_str resolved_path +:+
                         " (root " +:+ path_str resolved_root +:+ ")")
  else mret resolved_path.

Definition ensure_directory_accessible (p : path) (label : string) : M path :=
  try_except
    (d ← is_dir p;
     fail_if (negb d) ValueError
       (label +:+ " does not exist or is not a directory: " +:+ path_str p) ;;
     _ ← iterdir p;
     mret tt)
    is_permission_error
    (fun _ => raise ValueError
       (label +:+ " is not accessible: " +:+ path_str p +:+
        "; fix its Windows ACL or use a new run-id")) ;;
  mret p.

Definition build_path (parts : list string) : M path :=
  ensure_within (repo_path ("build" :: parts)) (repo_path ["build"]).

(** *** [lib/hashing.py] *)

Definition sha256_file (p : path) : M string :=
  content ← read_bytes p;
  mret (sha256_stream content).

(** *** [lib/manifest.py] *)

Definition json_loads (text : string) : M json :=
  match loads host_recursion text with
  | Parsed v => mret v
  | NotJson => raise JSONDecodeError "invalid JSON document"
  | TooDeep => raise RecursionError "maximum recursion depth exceeded while decoding a JSON document"
  end.

(** [json.loads(p.read_text(encoding="utf-8"))] *)
Definition load_json (p : path) : M json := text ← read_text p; json_loads text.

Definition read_json (p : path) : M json :=
  text ← read_text p;
  value ← json_loads text;
  if negb (is_dict value)
  then raise ValueError ("manifest root must be an object: " +:+ path_str p)
  else mret value.

(** [tempfile.mkstemp(prefix, suffix, dir)]: a file that did not exist. *)
Definition mkstemp (dir : path) (prefix suffix : string) : M path := fun w =>
  let p := pnames dir [prefix +:+ host_uuid w +:+ suffix] in
  let k := lcanon w p in
  match node_at w k, w_links w !! k with
  | None, None => (create_file p ;; mret p) w
  | _, _ => raise FileExistsError "[Errno 17] No usable temporary file name found" w
  end.

(** [json.dump(value, stream, ...)] and a line break, the stream being the file [p]: the writer calls
    itself for what is within an array or an object. *)
Definition dump_to (p : path) (value : json) : M unit :=
  fail_if (negb (nesting value <=? host_recursion)%nat) RecursionError
    "maximum recursion depth exceeded" ;;
  write_text p (dumps_manifest value +:+ nl).

Definition write_json_atomic (p : path) (value : json) : M unit :=
  mkdir_p (parent p) ;;
  temporary ← mkstemp (parent p) ("." +:+ name p +:+ ".") ".tmp";
  on_error
    (dump_to temporary value ;;
     replace_path temporary p)
    (unlink true temporary).

(** *** [lib/command.py] *)

(** [subprocess.run(...)] without [check]. *)
Definition subprocess_run (c : command) : M (Z * string * string) :=
  r ← run_command c;
  match r with
  | Done rc out err => mret (rc, out, err)
  | TimedOut => raise TimeoutExpired "command timed out"
  | NoProgram => raise FileNotFoundError "[Errno 2] No such file or directory"
  end.

Definition run (av : list string) (cwd : option path) (timeout : option Z) (check : bool)
    : M CommandResult :=
  '(rc, out, err) ← subprocess_run (Command av cwd host_environ timeout);
  let result := {| argv := av; returncode := rc; stdout := out; stderr := err |} in
  if check && negb (ok result) then
    raise RuntimeError
      ("command failed (" +:+ str_of_Z (returncode result) +:+ "): " +:+ join " " (argv result)
       +:+ nl +:+ stdout result +:+ stderr result)
  else mret result.

(** *** [lib/wsl.py] *)

Definition to_wsl_path (p : path) : M string :=
  if negb host_nt then q ← resolve p; mret (path_str q)
  else
    q ← resolve p;
    result ← run ["wsl.exe"; "-e"; "wslpath"; "-a"; path_str q] None None true;
    mret (strip (stdout result)).

Definition bash (command : string) (timeout : option Z) (check : bool) : M CommandResult :=
  if negb host_nt then run ["bash"; "-lc"; command] None timeout check
  else run ["wsl.exe"; "-e"; "bash"; "-lc"; command] None timeout check.

(** The world once what a command printed has been passed on to the console. *)
Definition printed (result : CommandResult) (w : world) : world :=
  let w1 := log (EvOut (stdout result)) w in
  if String.eqb (stderr result) "" then w1 else log (EvErr (stderr result)) w1.

Definition in_repo (repo : path) (av : list string) : M string :=
  repo_wsl ← to_wsl_path repo;
  let rendered := join " " (shlex_quote <$> av) in
  mret ("cd " +:+ shlex_quote repo_wsl +:+ " && " +:+ rendered).

(** *** [lib/fpga.py] *)

Definition tcl_dir (board : FpgaBoard) : path :=
  repo_path ["fpga"; "boards"; board_name board; "tcl"].

Definition fpga_build_root (board : FpgaBoard) (profile : string) (core_mhz : Z) : path :=
  repo_path ["build"; "vivado";
    build_prefix board +:+ "-" +:+ profile +:+ "-" +:+ str_of_Z core_mhz +:+ "mhz"].

(** *** Fields of documents *)

(** [v[k]] for a string key. *)
Definition getitem (v : json) (k : string) : M json :=
  match v with
  | JObj d => lift_opt KeyError (repr_str k) (dict_get k d)
  | JArr _ => raise TypeError "list indices must be integers or slices, not str"
  | JStr _ => raise TypeError "string indices must be integers, not 'str'"
  | _ => raise TypeError "object is not subscriptable"
  end.
Fixpoint getpath (v : json) (ks : list string) : M json :=
  match ks with
  | [] => mret v
  | k :: ks' => x ← getitem v k; getpath x ks'
  end.
(** [v.get(k, default)] *)
Definition get_default (v : json) (k : string) (d : json) : M json :=
  match v with
  | JObj o => mret (match dict_get k o with Some x => x | None => d end)
  | _ => raise AttributeError "object has no attribute 'get'"
  end.
Definition get (v : json) (k : string) : M json := get_default v k JNull.
Fixpoint char_items (s : string) : list json :=
  match s with EmptyString => [] | String c s' => JStr (ch c) :: char_items s' end.
(** [for x in v]; the characters of a string are the ASCII ones. *)
Definition items_of (v : json) : M (list json) :=
  match v with
  | JArr l => mret l
  | JObj d => mret (JStr <$> d.*1)
  | JStr s => mret (char_items s)
  | _ => raise TypeError "object is not iterable"
  end.
(** [v.items()] *)
Definition dict_items (v : json) : M (list (string * json)) :=
  match v with
  | JObj d => mret d
  | _ => raise AttributeError "object has no attribute 'items'"
  end.
(** [int(v, 0)] *)
Definition int0 (v : json) : M Z :=
  match v with
  | JStr s => lift_opt ValueError ("invalid literal for int() with base 0: " +:+ repr_str s)
                (py_int0 s)
  | _ => raise TypeError "int() can't convert non-string with explicit base"
  end.
(** [v] where the code needs a string, as in [Path(v)]. *)
Definition as_str (v : json) : M string :=
  match v with
  | JStr s => mret s
  | _ => raise TypeError "expected str, bytes or os.PathLike object"
  end.
(** [f"{v[k]...}"] *)
Definition text_at (v : json) (ks : list string) : M string :=
  x ← getpath v ks; mret (str_json x).
(** [len(v)] *)
Definition json_len (v : json) : M Z :=
  match v with
  | JArr l => mret (len l)
  | JObj d => mret (len d)
  | JStr s => mret (slen s)
  | _ => raise TypeError "object has no len()"
  end.
(** What a set member or a dictionary key has to be. *)
Definition hashable (v : json) : M unit :=
  match v with
  | JArr _ => raise TypeError "unhashable type: 'list'"
  | JObj _ => raise TypeError "unhashable type: 'dict'"
  | _ => mret tt
  end.
(** [v in l] for a list *)
Definition json_in (v : json) (l : list json) : bool := existsb (json_eqb v) l.
(** [list(dict.fromkeys(l))] *)
Fixpoint json_dedup (seen l : list json) : list json :=
  match l with
  | [] => []
  | v :: l' => if json_in v seen then json_dedup seen l' else v :: json_dedup (v :: seen) l'
  end.
(** [v[k1][k2]... = x] *)
Fixpoint set_path (v : json) (k : string) (ks : list string) (x : json) : M json :=
  match v with
  | JObj d =>
      match ks with
      | [] => mret (JObj (dict_set k x d))
      | k' :: ks' =>
          inner ← lift_opt KeyError (repr_str k) (dict_get k d);
          inner' ← set_path inner k' ks' x;
          mret (JObj (dict_set k inner' d))
      end
  | _ => raise TypeError "object does not support item assignment"
  end.
(** [Path(s).parts] *)
Definition path_parts (p : path) : list string := (if p_abs p then ["/"] else []) ++ p_parts p.
(** [repo_path( *Path(s).parts)] *)
Definition repo_file (s : string) : path := repo_path (path_parts (parse_path s)).

(** [Draft202012Validator(schema).validate(instance)] *)
Definition validate (schema instance : json) : M unit :=
  match host_validate schema instance with
  | None => mret tt
  | Some msg => raise ValidationError msg
  end.
End lib.

(** ** The atomic JSON writer *)

Section lib_facts.
Context `{Host}.

Lemma Keeps_sha256_file K p : Keeps K (sha256_file p).
Proof. unfold sha256_file. solve_keeps. Qed.
Lemma sha256_file_state p w r w' : sha256_file p w = (r, w') -> w' = w.
Proof.
  unfold sha256_file, mbind, M_bind. destruct (read_bytes p w) as [[c|e] w1] eqn:E;
    apply read_bytes_state in E as ->; by intros [= <- <-].
Qed.
(** The digest of a file is that of its content. *)
Lemma file_digest p d w w' : sha256_file p w = (Ok d, w') ->
  w' = w /\ exists c t, node_at w (canon w p) = Some (File c t) /\ canon w p ∉ w_denied w /\
    d = sha256_bytes (to_bytes c).
Proof.
  intros E. pose proof (sha256_file_state _ _ _ _ E) as ->. split; [done|]. unfold sha256_file in E.
  apply bind_ok in E as (b & w1 & Eb & E). apply ret_ok in E as [-> _]. unfold read_bytes in Eb.
  apply bind_ok in Eb as (c & w2 & Ec & Eb). apply ret_ok in Eb as [-> _].
  apply read_raw_ok in Ec as (_ & t & Hn & Hd). exists c, t. by rewrite sha256_stream_bytes.
Qed.

Lemma Keeps_getitem K v k : Keeps K (getitem v k).
Proof. unfold getitem. solve_keeps. Qed.
Lemma Keeps_getpath K v ks : Keeps K (getpath v ks).
Proof.
  revert v. induction ks as [|k ks IH]; intros v; simpl; [apply Keeps_ret|].
  apply Keeps_bind; [apply Keeps_getitem|done].
Qed.
Lemma Keeps_get_default K v k d : Keeps K (get_default v k d).
Proof. unfold get_default. solve_keeps. Qed.
Lemma Keeps_load_json K p : Keeps K (load_json p).
Proof. unfold load_json, json_loads. solve_keeps. Qed.
Lemma Keeps_int0 K v : Keeps K (int0 v).
Proof. unfold int0. solve_keeps. Qed.

#[local] Hint Resolve Keeps_sha256_file : keeps.

Lemma replace_file src dst w c t r w' :
  node_at w (lcanon w src) = Some (File c t) -> replace_path src dst w = (r, w') ->
  (exists e, r = Raise e /\ w' = w) \/
  (r = Ok tt /\ w_denied w' = w_denied w /\ w_links w' = delete (lcanon w dst) (w_links w) /\
   w_fs w' = <[lcanon w dst := File c t]> (delete (lcanon w src) (w_fs w)) /\
   lcanon w dst <> []).
Proof.
  intros Hn. unfold replace_path. rewrite Hn.
  destruct (node_at w (removelast (lcanon w dst))) as [[? ?|]|];
    [intros [= <- <-]; eauto| |intros [= <- <-]; eauto].
  destruct (node_at w (lcanon w dst)) as [[? ?|]|] eqn:Ed; intros [= <- <-]; [|by eauto|];
    right; split_and!; try done; intros E; by rewrite E in Ed.
Qed.

Definition temp_name (w : world) (p : path) : string :=
  ("." +:+ name p +:+ ".") +:+ host_uuid w +:+ ".tmp".

Lemma temp_name_ok w p : temp_name w p <> "..".
Proof.
  intros E. apply (f_equal String.length) in E. unfold temp_name in E.
  autorewrite with pyrw in E. simpl in E. lia.
Qed.

Lemma mkstemp_ok dir pre suf w t w' : mkstemp dir pre suf w = (Ok t, w') ->
  pre +:+ host_uuid w +:+ suf <> ".." ->
  t = pnames dir [pre +:+ host_uuid w +:+ suf] /\
  lcanon w t = canon w dir ++ [pre +:+ host_uuid w +:+ suf] /\
  w_fs w !! lcanon w t = None /\ w_links w !! lcanon w t = None /\
  canon w t = lcanon w t /\ w' = put_file (lcanon w t) "" w.
Proof.
  unfold mkstemp. intros E Hne. set (q := pnames dir [pre +:+ host_uuid w +:+ suf]) in *.
  assert (Hk : lcanon w q = canon w dir ++ [pre +:+ host_uuid w +:+ suf])
    by by apply lcanon_pname.
  destruct (node_at w (lcanon w q)) as [n|] eqn:En; [done|].
  destruct (w_links w !! lcanon w q) as [l|] eqn:El; [done|].
  apply bind_ok in E as (u & w1 & E1 & E2). apply ret_ok in E2 as [-> ->].
  apply create_file_ok in E1 as (-> & _).
  assert (Hc : canon w q = lcanon w q) by by apply canon_lcanon.
  rewrite Hc. split_and!; try done. destruct (lcanon w q); [done|]. by apply En.
Qed.

(** A failed [mkstemp] leaves everything as it was. *)
Lemma mkstemp_raise dir pre suf w e w' : mkstemp dir pre suf w = (Raise e, w') -> w' = w.
Proof.
  unfold mkstemp. set (q := pnames dir [pre +:+ host_uuid w +:+ suf]).
  destruct (node_at w (lcanon w q)) as [n|]; [by intros [= _ <-]|].
  destruct (w_links w !! lcanon w q) as [l|]; [by intros [= _ <-]|].
  intros E. apply bind_raise in E as [E|(u & w1 & E1 & E2)]; [by eapply create_file_raise|done].
Qed.

(** No file of [w'] outside [K] is new or changed. *)
Definition no_more (K : list (list string)) (w w' : world) : Prop :=
  forall k c t, k ∉ K -> w_fs w' !! k = Some (File c t) -> w_fs w !! k = Some (File c t).

#[local] Instance no_more_preorder K : PreOrder (no_more K).
Proof. split; [by intros w k c t|]. intros w1 w2 w3 H1 H2 k c t Hk Hn. by apply H1, H2. Qed.

Lemma no_more_mono K K' w w' : K ⊆ K' -> no_more K w w' -> no_more K' w w'.
Proof. intros HK Hn k c t Hk. apply Hn. set_solver. Qed.

Lemma put_file_no_more w k c : no_more [k] w (put_file k c w).
Proof. intros k' c' t Hk. cbn [put_file tick set_fs w_fs]. rewrite lookup_insert_ne; [done|set_solver]. Qed.

Lemma make_dirs_no_more ks w w' : make_dirs ks w = Some w' -> no_more [] w w'.
Proof.
  revert w. induction ks as [|k ks IH]; intros w; cbn [make_dirs]; [by intros [= <-]|].
  destruct (node_at w k) as [[? ?|]|]; [done|apply IH|]. intros E%IH. etransitivity; [|exact E].
  intros k' c t _. cbn [set_fs w_fs]. by intros [[_ ?]|[_ ?]]%lookup_insert_Some.
Qed.

Lemma mkdir_no_more ps eo p w r w' : mkdir ps eo p w = (r, w') -> no_more [] w w'.
Proof.
  unfold mkdir. intros E. repeat case_match; inversion E; subst; try done.
  - intros k' c t _. cbn [set_fs w_fs]. by intros [[_ ?]|[_ ?]]%lookup_insert_Some.
  - by eapply make_dirs_no_more.
Qed.

Lemma unlink_no_more w t r w' : w_links w !! lcanon w t = None -> lcanon w t <> [] ->
  unlink true t w = (r, w') -> forall w0, no_more [lcanon w t] w0 w -> no_more [] w0 w'.
Proof.
  unfold unlink. intros Hl Hne0. rewrite Hl. intros E w0 Hn k c m _ Hk.
  destruct (decide (k = lcanon w t)) as [->|Hne].
  - destruct (lcanon w t) as [|x l]; cbn [node_at] in E; [done|].
    destruct (w_fs w !! (x :: l)) as [[? ?|]|] eqn:En; injection E as _ <-;
      [by cbn [set_fs w_fs] in Hk; rewrite lookup_delete_eq in Hk|congruence|congruence].
  - apply Hn; [set_solver|]. destruct (node_at w (lcanon w t)) as [[? ?|]|]; injection E as _ <-; [|done|done].
    cbn [set_fs w_fs] in Hk. by rewrite lookup_delete_ne in Hk.
Qed.

(** The writer changes its file only; when it succeeds, the file holds the document. *)
Lemma dump_to_only t v w r w' : dump_to t v w = (r, w') -> keeps [canon w t] w w' /\ no_more [canon w t] w w'.
Proof.
  unfold dump_to. destruct (nesting v <=? host_recursion)%nat; [|by intros [= _ <-]; split; [apply keeps_refl|]].
  rewrite (bind_ok_eq _ _ tt w w) by done. intros E. split; [by eapply write_raw_keeps|].
  unfold write_text, write_raw, with_entry, store_bytes in E.
  repeat case_match; inversion E; subst; try done; apply put_file_no_more.
Qed.

Lemma dump_to_node t v w u w' : dump_to t v w = (Ok u, w') ->
  node_at w' (canon w t) = Some (File (dumps_manifest v +:+ nl) (w_clock w)) /\ (nesting v <= host_recursion)%nat.
Proof.
  unfold dump_to. intros E. apply bind_ok in E as ([] & w1 & E1 & E). apply fail_if_ok in E1 as [Hd ->].
  split; [by eapply write_raw_node|]. apply negb_false_iff, Nat.leb_le in Hd. done.
Qed.

(** Writing the temporary file [t] and renaming it to [p]. *)
Lemma write_replace_cases t p v w1 r w3 :
  let kt := lcanon w1 t in
  w_fs w1 !! kt = None -> w_links w1 !! lcanon w1 p = None -> canon w1 t = kt -> kt <> [] ->
  (dump_to t v ;; replace_path t p) (put_file kt "" w1) = (r, w3) ->
  match r with
  | Ok _ => keeps [kt; lcanon w1 p] w1 w3 /\ no_more [lcanon w1 p] w1 w3 /\ (nesting v <= host_recursion)%nat /\
            exists m, node_at w3 (lcanon w1 p) = Some (File (dumps_manifest v +:+ nl) m)
  | Raise _ => keeps [kt] w1 w3 /\ no_more [kt] w1 w3
  end.
Proof.
  intros kt Hf Hlink Hct Hkt E3. set (w2 := put_file kt "" w1) in *.
  assert (HK2 : keeps [kt] w1 w2) by apply put_file_keeps.
  assert (HN2 : no_more [kt] w1 w2) by apply put_file_no_more.
  assert (HK4 : forall u w4, dump_to t v w2 = (u, w4) -> keeps [kt] w1 w4 /\ no_more [kt] w1 w4).
  { intros u w4 E4. apply dump_to_only in E4. rewrite (keeps_canon _ _ _ t HK2), Hct in E4.
    split; (etransitivity; [|apply E4]; done). }
  assert (Hn4 : forall u w4, dump_to t v w2 = (Ok u, w4) ->
            node_at w4 (lcanon w4 t) = Some (File (dumps_manifest v +:+ nl) (w_clock w2)) /\
            (nesting v <= host_recursion)%nat).
  { intros u w4 E4. rewrite (keeps_lcanon _ _ _ t (proj1 (HK4 _ _ E4))). fold kt.
    rewrite <- Hct, <- (keeps_canon _ _ _ t HK2). by eapply dump_to_node. }
  destruct r as [u|e].
  - apply bind_ok in E3 as ([] & w4 & E4 & E5). destruct (HK4 _ _ E4) as [HK HN]. destruct (Hn4 _ _ E4) as [Hn Hd4].
    eapply replace_file in E5; [|exact Hn].
    destruct E5 as [(? & ? & _)|(_ & Hd & Hl' & Hf' & Hne)]; [discriminate|].
    rewrite (keeps_lcanon _ _ _ p HK) in Hl', Hf', Hne.
    rewrite (keeps_lcanon _ _ _ t HK) in Hf'. fold kt in Hf'.
    rewrite delete_id in Hl' by (by rewrite (keeps_links _ _ _ HK)). split_and!; [| |done|].
    + constructor; [rewrite Hl'; apply HK|rewrite Hd; apply HK|]. intros k n Hk Hkn.
      rewrite Hf', lookup_insert_ne by (clear -Hk; set_solver).
      rewrite lookup_delete_ne by (clear -Hk; set_solver).
      apply (keeps_fs _ _ _ HK); [clear -Hk; set_solver|done].
    + intros k c m Hk. rewrite Hf', lookup_insert_ne by (clear -Hk; set_solver).
      destruct (decide (kt = k)) as [<-|Hne4]; [by rewrite lookup_delete_eq|].
      rewrite lookup_delete_ne by done. apply HN. clear -Hne4. set_solver.
    + exists (w_clock w2). destruct (lcanon w1 p) eqn:Ep; [done|].
      unfold node_at. by rewrite Hf', lookup_insert_eq.
  - apply bind_raise in E3 as [E3|([] & w4 & E4 & E5)]; [by eapply HK4|].
    eapply replace_file in E5; [|by eapply Hn4].
    destruct E5 as [(? & _ & ->)|(? & _)]; [by eapply HK4|done].
Qed.

(** What [write_json_atomic] does, whatever happens: on success the target holds
    the whole document; on failure every entry is as it was before.  In both cases no
    other file changes, and none is left behind. *)
Lemma write_json_atomic_files p v w r w' :
  write_json_atomic p v w = (r, w') -> w_links w !! lcanon w p = None ->
  match r with
  | Ok _ => keeps [lcanon w p] w w' /\ no_more [lcanon w p] w w' /\ (nesting v <= host_recursion)%nat /\
            exists t, node_at w' (lcanon w p) = Some (File (dumps_manifest v +:+ nl) t)
  | Raise _ => keeps [] w w' /\ no_more [] w w'
  end.
Proof.
  intros E Hlink. unfold write_json_atomic in E.
  destruct (mkdir_p (parent p) w) as [[[]|e] w1] eqn:E1;
    [|rewrite (bind_raise_eq _ _ e w w1) in E by done; simplify_eq;
      split; [by eapply mkdir_keeps|by eapply mkdir_no_more]].
  rewrite (bind_ok_eq _ _ tt w w1) in E by done. cbv beta in E.
  assert (HN1 : forall K, no_more K w w1)
    by (intros K; eapply (no_more_mono []); [set_solver|by eapply mkdir_no_more]).
  assert (HK1 : forall K, keeps K w w1) by (intros K; by eapply mkdir_keeps).
  pose proof (HK1 []) as HK0. rewrite <- (keeps_lcanon _ _ _ p HK0) in *.
  assert (Hlink1 : w_links w1 !! lcanon w1 p = None)
    by by rewrite (keeps_links _ _ _ HK0).
  destruct (mkstemp (parent p) ("." +:+ name p +:+ ".") ".tmp" w1) as [[t|e] w2] eqn:E2;
    [|rewrite (bind_raise_eq _ _ e w1 w2) in E by done; simplify_eq; by apply mkstemp_raise in E2 as ->].
  rewrite (bind_ok_eq _ _ t w1 w2) in E by done. cbv beta in E.
  apply mkstemp_ok in E2 as (Ht & Hlt & Hf & Hl & Hct & ->); [|apply (temp_name_ok w1 p)].
  assert (Hkt : lcanon w1 t <> []) by (rewrite Hlt; by destruct (canon w1 (parent p))).
  clear Ht. unfold on_error, try_except in E.
  destruct ((dump_to t v;; replace_path t p) _) as [[u|e] w3] eqn:E3;
    (apply write_replace_cases in E3; [|done|done|done|done]).
  - injection E as <- <-. destruct E3 as (HK & HN & Hd & m & Hn). split_and!; [| |done|by eauto].
    + etransitivity; [apply HK1|]. by eapply keeps_fresh.
    + etransitivity; [apply HN1|exact HN].
  - destruct E3 as [HK3 HN3]. unfold mbind, M_bind in E. destruct (unlink true t w3) as [u w4] eqn:Eu.
    assert (Hl3 : w_links w3 !! lcanon w3 t = None)
      by by rewrite (keeps_lcanon _ _ _ t HK3), (keeps_links _ _ _ HK3).
    assert (Hkt3 : lcanon w3 t <> []) by by rewrite (keeps_lcanon _ _ _ t HK3).
    rewrite <- (keeps_lcanon _ _ _ t HK3) in HN3. pose proof (unlink_no_more _ _ _ _ Hl3 Hkt3 Eu _ HN3) as HN4.
    assert (HK4 : keeps [lcanon w1 t] w1 w4).
    { etransitivity; [exact HK3|]. apply unlink_keeps in Eu; [|done].
      by rewrite (keeps_lcanon _ _ _ t HK3) in Eu. }
    destruct u as [[]|e']; inversion E; subst;
      (split; [etransitivity; [apply HK1|by eapply keeps_fresh]|etransitivity; [apply HN1|exact HN4]]).
Qed.

Lemma write_json_atomic_cases p v w r w' :
  write_json_atomic p v w = (r, w') -> w_links w !! lcanon w p = None ->
  match r with
  | Ok _ => keeps [lcanon w p] w w' /\
            exists t, node_at w' (lcanon w p) = Some (File (dumps_manifest v +:+ nl) t)
  | Raise _ => keeps [] w w'
  end.
Proof. intros E Hl. apply write_json_atomic_files in E; [|done]. destruct r; naive_solver. Qed.

Lemma is_prefix_spec a b : is_prefix a b = true <-> exists rest, b = a ++ rest.
Proof.
  revert b. induction a as [|x a IH]; intros b; simpl; [split; eauto|].
  destruct b as [|y b]; [split; [done|by intros [? ?]]|].
  rewrite andb_true_iff, String.eqb_eq, IH. split.
  - intros [-> [rest ->]]. by exists rest.
  - intros [rest Heq]. simplify_eq. eauto.
Qed.

Lemma read_json_file p w d t : canon w p ∉ w_denied w -> json_wf (JObj d) = true ->
  json_text (JObj d) = true -> (nesting (JObj d) <= host_recursion)%nat ->
  node_at w (canon w p) = Some (File (dumps_manifest (JObj d) +:+ nl) t) ->
  read_json p w = (Ok (sort_keys (JObj d)), w).
Proof.
  intros Hd Hwf Htx Hdeep Hn. assert (Hok : text_ok (dumps_manifest (JObj d) +:+ nl) = true)
    by (apply text_ok_app; [by apply dump_text_ok, sort_keys_text|done]).
  unfold text_ok in Hok. apply andb_true_iff in Hok as [Hu Hc].
  unfold read_json. rewrite (bind_ok_eq _ _ (dumps_manifest (JObj d) +:+ nl) w w).
  2: { erewrite read_text_node by done. by rewrite universal_newlines_id. }
  unfold json_loads, dumps_manifest.
  rewrite loads_dump; [done|by apply sort_keys_wf|by rewrite nesting_sort_keys].
Qed.
Lemma json_loads_wf t v w w' : json_loads t w = (Ok v, w') -> w' = w /\ json_wf v = true.
Proof.
  unfold json_loads. pose proof (loads_scan host_recursion t) as Hs.
  destruct (loads host_recursion t); [|done|done]. intros E. apply ret_ok in E as [-> ->]. by split; [|apply Hs].
Qed.

Lemma load_json_wf p w v w' : load_json p w = (Ok v, w') -> json_wf v = true.
Proof. unfold load_json. intros E. apply bind_ok in E as (t & w1 & _ & E). by apply json_loads_wf in E as [_ ?]. Qed.

Lemma read_text_raises p w e w' : read_text p w = (Raise e, w') -> is_os_error e || is_value_error e = true.
Proof.
  unfold read_text, mbind, M_bind, read_raw. intros E.
  destruct (node_at w (canon w p)) as [[c t|]|]; [|by inversion E|by inversion E].
  destruct (bool_decide _); [by inversion E|]. destruct (utf8_valid c); by inversion E.
Qed.
End lib_facts.

#[export] Hint Resolve Keeps_sha256_file Keeps_getitem Keeps_getpath Keeps_get_default
  Keeps_load_json Keeps_int0 : keeps.

(** ** Quoting *)

Lemma replace_single c new s : replace (ch c) new s =
  match s with
  | EmptyString => ""
  | String d s' => (if Ascii.eqb d c then new else ch d) +:+ replace (ch c) new s'
  end.
Proof.
  destruct s as [|d s]; [done|]. unfold replace, ch. cbn [replace_aux String.prefix].
  destruct (Ascii.ascii_dec c d) as [->|Hne].
  - rewrite Ascii.eqb_refl. by destruct s.
  - destruct (Ascii.eqb d c) eqn:E; [|done]. apply Ascii.eqb_eq in E. congruence.
Qed.

Lemma shell_safe_plain c : shell_safe c = true ->
  lex_space c = false /\ Ascii.eqb c (chr 92) = false /\ Ascii.eqb c (chr 39) = false /\
  Ascii.eqb c (chr 34) = false.
Proof.
  intros H. assert (Hc : implb (shell_safe c) (negb (lex_space c) && negb (Ascii.eqb c (chr 92)) &&
    negb (Ascii.eqb c (chr 39)) && negb (Ascii.eqb c (chr 34))) = true) by by_chars c.
  rewrite H in Hc. simpl in Hc. by bool_props.
Qed.

Lemma lex_safe cur s k : sforall shell_safe s = true ->
  lex LWord cur (s +:+ k) = lex LWord (cur +:+ s) k.
Proof.
  revert cur. induction s as [|c s IH]; intros cur Hs; [by rewrite sapp_nil_r|].
  simpl in Hs. apply andb_true_iff in Hs as [Hc Hs].
  apply shell_safe_plain in Hc as (H1 & H2 & H3 & H4). rewrite sapp_cons. cbn [lex].
  rewrite H1, H2, H3, H4, IH by done. by rewrite sapp_assoc.
Qed.

Lemma shell_safe_literal c : shell_safe c = true ->
  char_in (" " +:+ tab) c = false /\ Ascii.eqb c (chr 39) = false /\ Ascii.eqb c (chr 34) = false /\
  Ascii.eqb c (chr 92) = false /\ char_in "&" c = false /\ sh_active c = false.
Proof.
  intros H. assert (Hc : implb (shell_safe c) (negb (char_in (" " +:+ tab) c) && negb (Ascii.eqb c (chr 39)) &&
    negb (Ascii.eqb c (chr 34)) && negb (Ascii.eqb c (chr 92)) && negb (char_in "&" c) && negb (sh_active c)) = true)
    by by_chars c.
  rewrite H in Hc. simpl in Hc. bool_props. by split_and!.
Qed.

Lemma sh_lex_safe s k : sforall shell_safe s = true -> forall cur,
  sh_lex (ShPlain cur) (s +:+ k) = sh_lex (ShPlain (cur +:+ s)) k.
Proof.
  induction s as [|c s IH]; intros Hs cur; [by rewrite sapp_nil_r|].
  simpl in Hs. apply andb_true_iff in Hs as [Hc Hs].
  apply shell_safe_literal in Hc as (H1 & H2 & H3 & H4 & H5 & H6). rewrite sapp_cons. cbn [sh_lex sh_text].
  rewrite H1, H2, H3, H4, H5, H6, IH by done. by rewrite sapp_assoc.
Qed.

Lemma sh_lex_quoted s k : forall cur,
  sh_lex (ShSingle cur) (replace sq (sq +:+ dq +:+ sq +:+ dq +:+ sq) s +:+ sq +:+ k) = sh_lex (ShPlain (cur +:+ s)) k.
Proof.
  induction s as [|c s IH]; intros cur.
  - rewrite sapp_nil_r. reflexivity.
  - unfold sq at 1. rewrite replace_single. fold sq. destruct (Ascii.eqb c (chr 39)) eqn:E.
    + apply Ascii.eqb_eq in E as ->. rewrite !sapp_assoc.
      transitivity (sh_lex (ShSingle (cur +:+ ch (chr 39)))
        (replace sq (sq +:+ dq +:+ sq +:+ dq +:+ sq) s +:+ sq +:+ k)); [reflexivity|].
      rewrite IH. by rewrite sapp_assoc.
    + rewrite sapp_assoc. unfold ch at 1. rewrite sapp_cons, sapp_nil_l. cbn [sh_lex sh_text].
      rewrite E, IH. by rewrite sapp_assoc.
Qed.

(** A quoted word is one literal word of the shell. *)
Lemma sh_lex_quote s k : sh_lex ShBlank (shlex_quote s +:+ k) = sh_lex (ShPlain s) k.
Proof.
  unfold shlex_quote. destruct (String.eqb s "") eqn:E0; [by bool_props; subst|].
  destruct (sforall shell_safe s) eqn:Es.
  - destruct s as [|c s]; [done|]. simpl in Es. apply andb_true_iff in Es as [Hc Hs].
    apply shell_safe_literal in Hc as (H1 & H2 & H3 & H4 & H5 & H6). rewrite sapp_cons. cbn [sh_lex sh_text].
    rewrite H1, H2, H3, H4, H5, H6, sh_lex_safe by done. done.
  - rewrite !sapp_assoc. transitivity (sh_lex (ShSingle "")
      (replace sq (sq +:+ dq +:+ sq +:+ dq +:+ sq) s +:+ sq +:+ k)); [reflexivity|].
    by rewrite sh_lex_quoted.
Qed.

Lemma sh_lex_words l : sh_lex ShBlank (join " " (shlex_quote <$> l)) = Some (ShWord <$> l).
Proof.
  induction l as [|x l IH]; [done|]. destruct l as [|y l].
  - simpl. rewrite <- (sapp_nil_r (shlex_quote x)). by rewrite sh_lex_quote.
  - change (join " " (shlex_quote <$> x :: y :: l)) with
      (shlex_quote x +:+ " " +:+ join " " (shlex_quote <$> y :: l)).
    rewrite sh_lex_quote. change (sh_lex (ShPlain x) (" " +:+ ?r)) with (cons (ShWord x) <$> sh_lex ShBlank r).
    by rewrite IH.
Qed.

Lemma sh_and_words l : forall words, sh_command (words ++ l) = true ->
  sh_and_list words (ShWord <$> l) = Some [words ++ l].
Proof.
  induction l as [|x l IH]; intros words Hc; [rewrite app_nil_r in *; simpl; by rewrite Hc|].
  rewrite fmap_cons. cbn [sh_and_list]. rewrite IH; by rewrite <- app_assoc.
Qed.

(** ** Properties *)

(** C16: a shell that is given the command line built by [in_repo] runs two commands, joined by
    [&&]: [cd] with the repository as its one argument, then the given one, with exactly the given
    arguments, whatever characters they hold: nothing in them is split, expanded, matched against
    files, redirected or run as another command.  (The name of the command must not look like an
    assignment or be a reserved word of the shell.) *)
Theorem in_repo_words `{Host} (repo : path) (av : list string) w s w' :
  in_repo repo av w = (Ok s, w') -> sh_command av = true ->
  exists dir, to_wsl_path repo w = (Ok dir, w') /\ sh_commands s = Some [["cd"; dir]; av].
Proof.
  unfold in_repo. intros E Hc. apply bind_ok in E as (dir & w1 & Ed & E). inv_ok E.
  exists dir. split; [done|]. unfold sh_commands.
  assert (Hl : sh_lex ShBlank ("cd " +:+ shlex_quote dir +:+ " && " +:+ join " " (shlex_quote <$> av)) =
    Some (ShWord "cd" :: ShWord dir :: ShAnd :: (ShWord <$> av))).
  { transitivity (cons (ShWord "cd") <$> sh_lex ShBlank (shlex_quote dir +:+ " && " +:+
      join " " (shlex_quote <$> av))); [reflexivity|].
    rewrite sh_lex_quote.
    transitivity (cons (ShWord "cd") <$> (cons (ShWord dir) <$> (cons ShAnd <$> sh_lex ShBlank
      (" " +:+ join " " (shlex_quote <$> av))))); [reflexivity|].
    change (sh_lex ShBlank (" " +:+ ?r)) with (sh_lex ShBlank r). by rewrite sh_lex_words. }
  rewrite Hl. cbn [mbind option_bind sh_and_list app]. change (sh_command ["cd"; dir]) with true. cbv iota.
  by rewrite sh_and_words.
Qed.

Definition demo : Host := demo_host ["repo"].

Lemma in_repo_words_witness :
  exists dir, to_wsl_path (H := demo) (Path true ["repo"]) (demo_world [] []) = (Ok dir, demo_world [] []) /\
  sh_commands ("cd /repo && echo 'a b' '$(rm x)' '; ls' '*'") =
    Some [["cd"; dir]; ["echo"; "a b"; "$(rm x)"; "; ls"; "*"]].
Proof.
  apply (in_repo_words (H := demo) (Path true ["repo"]) ["echo"; "a b"; "$(rm x)"; "; ls"; "*"]
    (demo_world [] []) _ (demo_world [] [])).
  - vm_compute. reflexivity.
  - vm_compute. reflexivity.
Defined.

(** Without quotes the same text is something else. *)
Example sh_commands_unquoted :
  sh_commands "echo a; ls" = None /\ sh_commands "echo $(rm x)" = None /\ sh_commands "A=b make" = None /\
  sh_commands "make | tee log" = None.
Proof. split_and!; by_eval. Qed.

(** [ensure_within] accepts a path exactly when its resolved form is the resolved
    root or lies below it, symbolic links and [..] included; it then returns the
    resolved path and touches nothing. *)
Theorem ensure_within_iff `{Host} (p root : path) w q w' :
  ensure_within p root w = (Ok q, w') <->
  w' = w /\ q = Path true (canon w p) /\ exists rest, canon w p = canon w root ++ rest.
Proof.
  unfold ensure_within, resolve, gets, mbind, M_bind, path_within. cbn [p_abs p_parts Bool.eqb andb].
  rewrite <- is_prefix_spec. destruct (is_prefix (canon w root) (canon w p)) eqn:E.
  - rewrite andb_false_r. unfold mret, M_ret.
    split; [by intros [= <- <-]|by intros (-> & -> & _)].
  - case_bool_decide as Heq.
    + injection Heq as Heq. rewrite Heq in E.
      assert (Hp : is_prefix (canon w root) (canon w root) = true)
        by (apply is_prefix_spec; exists []; by rewrite app_nil_r). congruence.
    + split; [done|by intros (_ & _ & ?)].
Qed.

(** C13: [write_json_atomic] is atomic, although a write may stop after any number of bytes (a
    full device), the writer may run out of stack, and the rename may be refused: whatever its
    outcome, every other entry that existed is unchanged and no other file is there that was
    not, so that no temporary file is left; the target holds the complete new document (on
    success) or exactly what it held before (on an exception), never a part of the new one. *)
Theorem write_json_atomic_atomic `{Host} (p : path) (v : json) w r w' :
  write_json_atomic p v w = (r, w') -> w_links w !! lcanon w p = None ->
  (forall k n, k <> lcanon w p -> w_fs w !! k = Some n -> w_fs w' !! k = Some n) /\
  (forall k c t, k <> lcanon w p -> w_fs w' !! k = Some (File c t) -> w_fs w !! k = Some (File c t)) /\
  match r with
  | Ok _ => exists t, node_at w' (lcanon w p) = Some (File (dumps_manifest v +:+ nl) t)
  | Raise _ => (forall n, w_fs w !! lcanon w p = Some n -> w_fs w' !! lcanon w p = Some n) /\
      (forall c t, w_fs w' !! lcanon w p = Some (File c t) -> w_fs w !! lcanon w p = Some (File c t))
  end.
Proof.
  intros E Hl. apply write_json_atomic_files in E; [|done]. destruct r as [u|e].
  - destruct E as (HK & HN & _ & Ht). split_and!; [| |done].
    + intros k n Hk. apply (keeps_fs _ _ _ HK). set_solver.
    + intros k c t Hk. apply HN. set_solver.
  - destruct E as [HK HN]. split_and!; intros; by (apply (keeps_fs _ _ _ HK) || apply HN); first [done|apply not_elem_of_nil].
Qed.

(** C14: a manifest reads back: after [write_json_atomic] succeeds, [read_json] of the
    same path returns the document, its keys sorted. *)
Theorem read_json_write_json_atomic `{Host} (p : path) (d : list (string * json)) w w' :
  write_json_atomic p (JObj d) w = (Ok tt, w') -> w_links w !! lcanon w p = None ->
  lcanon w p ∉ w_denied w -> json_wf (JObj d) = true -> json_text (JObj d) = true ->
  read_json p w' = (Ok (sort_keys (JObj d)), w').
Proof.
  intros E Hl Hd Hwf Htx. apply write_json_atomic_files in E as (HK & _ & Hdeep & t & Ht); [|done].
  assert (Hc : canon w' p = lcanon w p).
  { rewrite (keeps_canon _ _ _ p HK). by apply canon_lcanon. }
  eapply read_json_file; rewrite ?Hc; try done. by rewrite (keeps_denied _ _ _ HK).
Qed.

(** C15: the type of a manifest: [read_json] changes nothing; what it returns is an object,
    at every level of it the keys are distinct and every number is one of the JSON
    grammar (or NaN or an infinity), and it is no deeper than the interpreter's recursion goes,
    which is what [write_json_atomic] needs to write it back; and it raises an [OSError] or a
    [ValueError], unless the text opens more arrays and objects than that depth, when it may
    be a [RecursionError]: whatever the path leads to and whatever the file holds. *)
Theorem read_json_typed `{Host} (p : path) w :
  match read_json p w with
  | (Ok v, w') => w' = w /\ is_dict v = true /\ json_wf v = true /\ (nesting v <= host_recursion)%nat
  | (Raise e, w') => w' = w /\
      (is_os_error e || is_value_error e = true \/
       exists msg text, e = Err RecursionError msg /\ read_text p w = (Ok text, w) /\
         (host_recursion < opens text)%nat)
  end.
Proof.
  unfold read_json, mbind, M_bind. destruct (read_text p w) as [[t|e] w1] eqn:Et;
    pose proof (read_text_state _ _ _ _ Et) as ->; [|split; [done|left; by eapply read_text_raises]].
  unfold json_loads. pose proof (loads_scan host_recursion t) as Hs.
  destruct (loads host_recursion t) as [v| |]; [|split; [done|by left]|split; [done|right; by eexists _, t]].
  cbn [mret M_ret]. destruct v; try (split; [done|by left]). by split_and!; try apply Hs.
Qed.

Definition demo_store : world := demo_world [(["repo"; "m.json"], "old")] [["repo"]].
Definition demo_manifest : path := Path true ["repo"; "m.json"].
Definition demo_document : list (string * json) := [("kind", JStr "image"); ("bits", JInt 32)].

(** A device with room for 20 bytes in a file. *)
Definition demo_full : Host := demo_full_host ["repo"] 20.

(** The writer fails, and the old document is still there; written in place, it would be lost. *)
Example write_json_atomic_full :
  let r := write_json_atomic (H := demo_full) demo_manifest (JObj demo_document) demo_store in
  (exists e, r.1 = Raise e /\ is_os_error e = true) /\ w_fs r.2 !! ["repo"; "m.json"] = Some (File "old" 0) /\
  w_fs (dump_to (H := demo_full) demo_manifest (JObj demo_document) demo_store).2 !! ["repo"; "m.json"] <>
    Some (File "old" 0).
Proof. cbv zeta. split_and!; [eexists; split; vm_compute; reflexivity|vm_compute; reflexivity|by vm_compute]. Qed.

Lemma write_json_atomic_atomic_witness :
  let r := write_json_atomic (H := demo_full) demo_manifest (JObj demo_document) demo_store in
  w_fs r.2 !! ["repo"] = Some Dir.
Proof.
  cbv zeta. destruct (write_json_atomic demo_manifest (JObj demo_document) demo_store) as [r w'] eqn:E.
  refine (proj1 (write_json_atomic_atomic (H := demo_full) demo_manifest (JObj demo_document) demo_store r w' E _) _ _ _ _);
    [vm_compute; reflexivity|by vm_compute|vm_compute; reflexivity].
Defined.

Lemma read_json_write_json_atomic_witness :
  let r := write_json_atomic (H := demo) demo_manifest (JObj demo_document) demo_store in
  read_json (H := demo) demo_manifest r.2 = (Ok (JObj [("bits", JInt 32); ("kind", JStr "image")]), r.2).
Proof.
  cbv zeta. refine (read_json_write_json_atomic (H := demo) demo_manifest demo_document demo_store _ _ _ _ _ _);
    [vm_compute; reflexivity|vm_compute; reflexivity| |vm_compute; reflexivity|vm_compute; reflexivity].
  apply not_elem_of_empty.
Defined.

(** [sha256_file] returns the SHA-256 digest of the whole content of the file,
    although the file is read in blocks of one mebibyte; it changes nothing. *)
Theorem sha256_file_digest `{Host} (p : path) w :
  sha256_file p w =
  match read_bytes p w with
  | (Ok content, w') => (Ok (sha256_bytes content), w')
  | (Raise e, w') => (Raise e, w')
  end.
Proof.
  unfold sha256_file, mbind, M_bind. destruct (read_bytes p w) as [[content|e] w']; [|done].
  by rewrite sha256_stream_bytes.
Qed.

(** A decimal literal, in hundredths. *)
Definition hundredths (s : string) : option Z :=
  let '(a, b) := partition "." s in
  match val_from 10 0 a, val_from 10 0 b with
  | Some x, Some y =>
      match String.length b with
      | O => Some (x * 100)
      | 1%nat => Some (x * 100 + y * 10)
      | 2%nat => Some (x * 100 + y)
      | _ => None
      end
  | _, _ => None
  end.

Definition vco_range (board : FpgaBoard) : Z * Z :=
  if String.eqb (board_name board) "axku062" then (800, 1600) else (600, 1200).

Definition clock_ok (board : FpgaBoard) (mhz : Z) : bool :=
  match mmcm_get mhz (mmcm board) with
  | Some (mult, core_divide, peripheral_divide) =>
      match hundredths mult, hundredths core_divide, py_int peripheral_divide with
      | Some m, Some c, Some p =>
          (200 * m =? mhz * c) && (200 * m =? 50 * 100 * p) &&
          (100 * (vco_range board).1 <=? 200 * m) && (200 * m <=? 100 * (vco_range board).2)
      | _, _, _ => false
      end
  | None => false
  end.

(** C17: on the two boards with a clock table every frequency that
    [resolve_core_mhz] accepts has an MMCM entry; with the 200 MHz input it gives
    exactly that core clock and a 50 MHz peripheral clock, the VCO being in the
    range of the device. *)
Theorem resolved_clock_ok (board : FpgaBoard) (requested : option Z) w mhz w' :
  board = axku062 \/ board = kintex7_competition ->
  resolve_core_mhz board requested w = (Ok mhz, w') -> clock_ok board mhz = true.
Proof.
  intros Hb. unfold resolve_core_mhz.
  set (m := match requested with None => default_core_mhz board | Some r => r end).
  destruct (existsb (Z.eqb m) (supported_core_mhz board)) eqn:Ex; [|done].
  intros E. apply ret_ok in E as [-> _].
  apply existsb_exists in Ex as (x & Hx & ->%Z.eqb_eq).
  assert (Hall : forallb (clock_ok board) (supported_core_mhz board) = true)
    by (destruct Hb as [-> | ->]; vm_compute; reflexivity).
  rewrite forallb_forall in Hall. by apply Hall.
Qed.

Lemma resolved_clock_ok_witness : clock_ok kintex7_competition 170 = true.
Proof.
  apply (resolved_clock_ok kintex7_competition (Some 170) (demo_world [] []) 170 (demo_world [] []));
    [by right|vm_compute; reflexivity].
Defined.
