(* ===== verification/Bytes.v ===== *)
(** Byte sequences: Python slices and slice assignment on [bytes] and
    [bytearray], little-endian integers, [struct] unpacking, and the word-per-line
    hexadecimal text of a MEM image with its reader. *)
From Stdlib Require Import ZArith Lia.
From S2P Require Import Prelude Str Py.
Local Open Scope Z_scope.
Local Open Scope py_scope.

(** ** Slices *)

(** The position a slice bound denotes in a sequence of length [n]. *)
Definition slice_index (n i : Z) : nat :=
  Z.to_nat (if i <? 0 then Z.max 0 (n + i) else Z.min i n).

(** [l[a:b]] *)
Definition slice {A} (l : list A) (a b : Z) : list A :=
  let i := slice_index (Z.of_nat (length l)) a in
  let j := slice_index (Z.of_nat (length l)) b in
  take (j - i) (drop i l).

(** [l[a:b] = v] on a [bytearray] *)
Definition slice_set {A} (l : list A) (a b : Z) (v : list A) : list A :=
  let i := slice_index (Z.of_nat (length l)) a in
  let j := slice_index (Z.of_nat (length l)) b in
  take i l ++ v ++ drop (Nat.max i j) l.

(** [bytes(n)] *)
Definition zeros (n : Z) : list Z := replicate (Z.to_nat n) 0.

(** [range(a, b, step)] for a positive step *)
Definition range_step (a b step : Z) : list Z :=
  (fun i => a + step * i) <$> seqZ 0 ((b - a + step - 1) / step).

Definition is_byte (b : Z) : bool := (0 <=? b) && (b <? 256).
Definition bytes_ok (l : list Z) : Prop := Forall (fun b => 0 <= b < 256) l.

(** ** Little-endian integers *)

(** [int.from_bytes(l, "little")] *)
Fixpoint le (l : list Z) : Z :=
  match l with
  | [] => 0
  | b :: l' => b + 256 * le l'
  end.

(** [v.to_bytes(n, "little")] for [0 <= v < 256^n] *)
Fixpoint to_le (n : nat) (v : Z) : list Z :=
  match n with
  | O => []
  | S n' => v mod 256 :: to_le n' (v / 256)
  end.

(** ** [struct] *)

(** A little-endian structure, as the widths of its fields. *)
Definition struct_size (fmt : list nat) : Z := Z.of_nat (sum_list fmt).

Fixpoint unpack (fmt : list nat) (l : list Z) : list (list Z) :=
  match fmt with
  | [] => []
  | n :: fmt' => take n l :: unpack fmt' (drop n l)
  end.

(** [fmt.unpack_from(blob, offset)], the fields as bytes *)
Definition unpack_from (fmt : list nat) (blob : list Z) (offset : Z) : M (list (list Z)) :=
  if len blob <? offset + struct_size fmt
  then raise StructError "unpack_from requires a larger buffer"
  else mret (unpack fmt (drop (Z.to_nat offset) blob)).

(** The unsigned integer in field [i]. *)
Definition field (values : list (list Z)) (i : nat) : Z := le (nth i values []).

(** ** The text of a MEM image *)

(** One 32-bit word per line, eight hexadecimal digits. *)
Definition mem_line (word : Z) : string := hex08 word +:+ nl.
Definition mem_text (words : list Z) : string := String.concat "" (mem_line <$> words).

(** The word at byte offset [o]: [int.from_bytes(image[o:o+4], "little")]. *)
Definition word_at (image : list Z) (o : Z) : Z := le (slice image o (o + 4)).

(** ** Lemmas *)

Lemma slice_index_in n i : 0 <= i <= n -> slice_index n i = Z.to_nat i.
Proof. intros Hi. unfold slice_index. destruct (Z.ltb_spec i 0); f_equal; lia. Qed.

Lemma slice_in {A} (l : list A) a b : 0 <= a <= b -> b <= len l ->
  slice l a b = take (Z.to_nat (b - a)) (drop (Z.to_nat a) l).
Proof.
  intros Ha Hb. unfold slice. rewrite !slice_index_in by lia. f_equal. lia.
Qed.

Lemma slice_length {A} (l : list A) a b : 0 <= a <= b -> b <= len l ->
  len (slice l a b) = b - a.
Proof. intros Ha Hb. rewrite slice_in by done. rewrite length_take, length_drop. lia. Qed.

Lemma slice_set_in {A} (l v : list A) a b : 0 <= a <= b -> b <= len l ->
  slice_set l a b v = take (Z.to_nat a) l ++ v ++ drop (Z.to_nat b) l.
Proof.
  intros Ha Hb. unfold slice_set. rewrite !slice_index_in by lia.
  rewrite Nat.max_r by lia. done.
Qed.

Lemma slice_set_length {A} (l v : list A) a b : 0 <= a <= b -> b <= len l -> len v = b - a ->
  length (slice_set l a b v) = length l.
Proof.
  intros Ha Hb Hv. rewrite slice_set_in by done.
  rewrite !length_app, length_take, length_drop. lia.
Qed.

(** Reading a byte after a slice assignment of the same length. *)
Lemma slice_set_nth (l v : list Z) a b o : 0 <= a <= b -> b <= len l -> len v = b - a -> 0 <= o ->
  nth (Z.to_nat o) (slice_set l a b v) 0 =
  if (a <=? o) && (o <? b) then nth (Z.to_nat (o - a)) v 0 else nth (Z.to_nat o) l 0.
Proof.
  intros Ha Hb Hv Ho. rewrite slice_set_in by done.
  destruct (Z.leb_spec a o); simpl; [destruct (Z.ltb_spec o b)|].
  - rewrite app_nth2; rewrite length_take; [|lia]. rewrite app_nth1 by lia. f_equal. lia.
  - rewrite app_nth2; rewrite length_take; [|lia]. rewrite app_nth2 by lia.
    rewrite nth_skipn. f_equal. lia.
  - rewrite app_nth1; [|rewrite length_take; lia].
    rewrite <- (take_drop (Z.to_nat a) l) at 2. rewrite app_nth1; [done|rewrite length_take; lia].
Qed.

Lemma zeros_length n : 0 <= n -> len (zeros n) = n.
Proof. intros Hn. unfold zeros. rewrite length_replicate. lia. Qed.

Lemma zeros_nth n i : nth i (zeros n) 0 = 0.
Proof.
  unfold zeros. revert i. induction (Z.to_nat n) as [|m IH]; intros [|i]; simpl; auto.
Qed.

Lemma zeros_ok n : bytes_ok (zeros n).
Proof. apply Forall_replicate. lia. Qed.

Lemma bytes_ok_app l1 l2 : bytes_ok (l1 ++ l2) <-> bytes_ok l1 /\ bytes_ok l2.
Proof. apply Forall_app. Qed.

Lemma bytes_ok_take n l : bytes_ok l -> bytes_ok (take n l).
Proof. apply Forall_take. Qed.
Lemma bytes_ok_drop n l : bytes_ok l -> bytes_ok (drop n l).
Proof. apply Forall_drop. Qed.

Lemma to_bytes_ok s : bytes_ok (to_bytes s).
Proof. induction s as [|c s IH]; simpl; constructor; [apply ord_range|done]. Qed.

#[export] Hint Resolve zeros_ok bytes_ok_take bytes_ok_drop to_bytes_ok : pydb.

Lemma le_range l : bytes_ok l -> 0 <= le l < 256 ^ len l.
Proof.
  induction 1 as [|b l Hb Hl IH]; [simpl; lia|].
  cbn [le length]. rewrite Nat2Z.inj_succ, Z.pow_succ_r by lia. lia.
Qed.

Lemma to_le_le l : bytes_ok l -> to_le (length l) (le l) = l.
Proof.
  induction 1 as [|b l Hb Hl IH]; [done|]. cbn [to_le le length].
  replace ((b + 256 * le l) mod 256) with b by (rewrite Z.mul_comm, Z.mod_add by lia; by rewrite Z.mod_small).
  replace ((b + 256 * le l) / 256) with (le l) by (rewrite Z.mul_comm, Z.div_add by lia; by rewrite Z.div_small).
  by rewrite IH.
Qed.

Lemma le_to_le n v : 0 <= v < 256 ^ Z.of_nat n -> le (to_le n v) = v.
Proof.
  revert v. induction n as [|n IH]; intros v Hv; [simpl in *; lia|].
  rewrite Nat2Z.inj_succ, Z.pow_succ_r in Hv by lia. cbn [to_le le].
  rewrite IH by (split; [apply Z.div_pos; lia|apply Z.div_lt_upper_bound; lia]).
  pose proof (Z.div_mod v 256). lia.
Qed.

Lemma le_app l1 l2 : le (l1 ++ l2) = le l1 + 256 ^ len l1 * le l2.
Proof.
  induction l1 as [|b l1 IH]; [cbn [le length app]; change (256 ^ Z.of_nat 0) with 1; lia|].
  cbn [le length app]. rewrite IH, Nat2Z.inj_succ, Z.pow_succ_r by lia. ring.
Qed.

Lemma word_at_range image o : bytes_ok image -> 0 <= word_at image o < 2 ^ 32.
Proof.
  intros Hi. unfold word_at, slice.
  set (l := take _ _). assert (Hl : bytes_ok l) by (unfold l; auto with pydb).
  pose proof (le_range l Hl). assert (length l <= 4)%nat.
  { unfold l. rewrite length_take. unfold slice_index. case_match; case_match; lia. }
  assert (256 ^ len l <= 256 ^ 4) by (apply Z.pow_le_mono_r; lia). lia.
Qed.

(** A word is the sum of its four bytes. *)
Lemma word_at_nth image o : 0 <= o -> o + 4 <= len image ->
  word_at image o = nth (Z.to_nat o) image 0 + 256 * (nth (Z.to_nat (o + 1)) image 0 +
    256 * (nth (Z.to_nat (o + 2)) image 0 + 256 * nth (Z.to_nat (o + 3)) image 0)).
Proof.
  intros Ho Hl. unfold word_at. rewrite slice_in by lia.
  replace (Z.to_nat (o + 4 - o)) with 4%nat by lia.
  replace (Z.to_nat (o + 1)) with (1 + Z.to_nat o)%nat by lia.
  replace (Z.to_nat (o + 2)) with (2 + Z.to_nat o)%nat by lia.
  replace (Z.to_nat (o + 3)) with (3 + Z.to_nat o)%nat by lia.
  assert (Hd : forall i, nth (i + Z.to_nat o) image 0 = nth i (drop (Z.to_nat o) image) 0).
  { intros i. rewrite nth_skipn. f_equal. lia. }
  rewrite !Hd. pose proof (Hd 0%nat) as Hd0. cbn [Nat.add] in Hd0. rewrite Hd0.
  assert (Hlen : (4 <= length (drop (Z.to_nat o) image))%nat) by (rewrite length_drop; lia).
  destruct (drop (Z.to_nat o) image) as [|a [|b [|c [|d t]]]]; simpl in Hlen; try lia.
  cbn [firstn le nth]. rewrite take_0. cbn [le]. ring.
Qed.

(** ** Strided slices *)

(** [l[b::n]] for [n > 0] *)
Definition stride {A} (b n : nat) (l : list A) : list A :=
  omap head (chunks n (drop b l)).

Lemma chunks_aux_nonempty {A} n fuel (l : list A) : n <> O ->
  Forall (fun c => c <> []) (chunks_aux fuel n l).
Proof.
  intros Hn. revert l. induction fuel as [|fuel IH]; intros [|x l]; simpl; constructor; [|done].
  destruct n; done.
Qed.

Lemma omap_head_lookup {A} (ls : list (list A)) i : Forall (fun c => c <> []) ls ->
  omap head ls !! i = ls !! i ≫= head.
Proof.
  intros Hl. revert i. induction Hl as [|c ls Hc Hl IH]; intros i; [done|].
  destruct c as [|x c]; [done|]. destruct i; [done|]. apply IH.
Qed.

Lemma chunks_lookup_ge {A} n (l : list A) i : n <> O -> (length l <= i * n)%nat ->
  chunks n l !! i = None.
Proof.
  intros Hn. revert l. induction i as [|i IH]; intros l Hi.
  - destruct l; [done|simpl in Hi; lia].
  - destruct (decide (l = [])) as [->|Hne]; [done|].
    rewrite chunks_cons by done. simpl. apply IH. rewrite length_drop. simpl in Hi. lia.
Qed.

Lemma stride_lookup {A} b n (l : list A) r : n <> O ->
  stride b n l !! r = l !! (b + r * n)%nat.
Proof.
  intros Hn. unfold stride. rewrite omap_head_lookup by by apply chunks_aux_nonempty.
  destruct (decide (r * n < length (drop b l))%nat) as [Hr|Hr].
  - rewrite chunks_lookup by done. simpl. rewrite drop_drop.
    destruct (drop (b + r * n) l) as [|x t] eqn:E.
    { apply (f_equal length) in E. rewrite !length_drop in *. simpl in E. lia. }
    destruct n; [done|]. simpl. replace (b + r * S n)%nat with (b + r * S n + 0)%nat by lia.
    rewrite <- lookup_drop, E. done.
  - rewrite chunks_lookup_ge by (done || lia). simpl. symmetry. apply lookup_ge_None.
    rewrite length_drop in Hr. destruct (decide (length l <= b)%nat); nia || lia.
Qed.

(** The strided slices of a list of [depth * n] elements have [depth] elements. *)
Lemma stride_length {A} b n depth (l : list A) : n <> O -> (b < n)%nat ->
  length l = (depth * n)%nat -> length (stride b n l) = depth.
Proof.
  intros Hn Hb Hl. apply Nat.le_antisymm.
  - apply Nat.nlt_ge. intros Hc. apply lookup_lt_is_Some in Hc as [x Hx].
    rewrite stride_lookup in Hx by done. apply lookup_lt_Some in Hx. nia.
  - destruct depth as [|d]; [lia|]. apply Nat.le_succ_l, lookup_lt_is_Some.
    rewrite stride_lookup by done. apply lookup_lt_is_Some. nia.
Qed.
