(* ===== verification/Elf2mem.v ===== *)
(** [scripts/elf2mem.py]: an ELF32 image is parsed, its loadable segments are
    placed in the memory regions of the SoC, and the regions are written as
    word-oriented MEM files, flat and split across the TCM banks, with a manifest. *)
From Stdlib Require Import ZArith Lia.
From S2P Require Import Prelude Str Json Sha256 Py Store Lib Bytes.
Local Open Scope Z_scope.
Local Open Scope py_scope.

(** ** Data *)

(** ["<16sHHIIIIIHHHHHH"] and ["<IIIIIIII"] *)
Definition ELF_HEADER : list nat := [16; 2; 2; 4; 4; 4; 4; 4; 2; 2; 2; 2; 2; 2]%nat.
Definition PROGRAM_HEADER : list nat := [4; 4; 4; 4; 4; 4; 4; 4]%nat.
Definition PT_LOAD : Z := 1.

Record Segment := {
  address : Z;
  data : list Z;
  memory_size : Z;
  flags : Z
}.

Record Region := {
  region_name : string;
  base : Z;
  size : Z;
  output : path;
  image : list Z;
  used_end : Z;
  stored_words : Z
}.

Definition set_image (r : Region) (img : list Z) : Region :=
  {| region_name := region_name r; base := base r; size := size r; output := output r;
     image := img; used_end := used_end r; stored_words := stored_words r |}.
Definition set_used_end (r : Region) (n : Z) : Region :=
  {| region_name := region_name r; base := base r; size := size r; output := output r;
     image := image r; used_end := n; stored_words := stored_words r |}.
Definition set_stored_words (r : Region) (n : Z) : Region :=
  {| region_name := region_name r; base := base r; size := size r; output := output r;
     image := image r; used_end := used_end r; stored_words := n |}.

(** ** Regions *)

(** [int(text, 0)] *)
Definition int_base_0 (text : string) : M Z :=
  lift_opt ValueError ("invalid literal for int() with base 0: " +:+ repr_str text) (py_int0 text).

Definition parse (value : string) : M Region :=
  match split_max ":" 3 value with
  | [name; base_text; size_text; output_text] =>
      b ← int_base_0 base_text;
      n ← int_base_0 size_text;
      if String.eqb name "" || (n <=? 0) || (b <? 0)
      then raise ArgumentTypeError ("invalid region: " +:+ value)
      else mret {| region_name := name; base := b; size := n; output := parse_path output_text;
                   image := zeros n; used_end := 0; stored_words := 0 |}
  | _ => raise ArgumentTypeError "region must be NAME:BASE:SIZE:OUTPUT"
  end.

Definition contains (r : Region) (addr n : Z) : bool :=
  (base r <=? addr) && (addr + n <=? base r + size r).

Definition place (r : Region) (s : Segment) : Region :=
  let offset := address s - base r in
  let image1 := slice_set (image r) offset (offset + len (data s)) (data s) in
  let memory_end := offset + memory_size s in
  let image2 :=
    if offset + len (data s) <? memory_end
    then slice_set image1 (offset + len (data s)) memory_end
           (zeros (memory_end - offset - len (data s)))
    else image1 in
  set_used_end (set_image r image2) (Z.max (used_end r) memory_end).

(** ** The ELF file *)

(** The body of the loop over the program headers. *)
Definition parse_program_header (blob : list Z) (program_offset program_entry_size : Z)
    (segments : list Segment) (index : Z) : M (list Segment) :=
  let offset := program_offset + index * program_entry_size in
  fail_if (len blob <? offset + struct_size PROGRAM_HEADER) ValueError
    "program-header table extends beyond ELF" ;;
  v ← unpack_from PROGRAM_HEADER blob offset;
  let segment_type := field v 0 in
  let file_offset := field v 1 in
  let virtual_address := field v 2 in
  let physical_address := field v 3 in
  let file_size := field v 4 in
  let mem_size := field v 5 in
  if negb (segment_type =? PT_LOAD) || (mem_size =? 0) then mret segments
  else
    fail_if (mem_size <? file_size) ValueError
      ("PT_LOAD " +:+ str_of_Z index +:+ " has file size larger than memory size") ;;
    fail_if (len blob <? file_offset + file_size) ValueError
      ("PT_LOAD " +:+ str_of_Z index +:+ " extends beyond ELF") ;;
    mret (segments ++
      [{| address := if negb (physical_address =? 0) then physical_address else virtual_address;
          data := slice blob file_offset (file_offset + file_size);
          memory_size := mem_size;
          flags := field v 6 |}]).

Definition parse_blob (blob : list Z) : M (Z * list Segment) :=
  fail_if (len blob <? struct_size ELF_HEADER) ValueError "ELF file is too small" ;;
  values ← unpack_from ELF_HEADER blob 0;
  let ident := nth 0 values [] in
  fail_if (negb (bool_decide (take 4 ident = [127; 69; 76; 70]))) ValueError "not an ELF file" ;;
  fail_if (negb (nth 4 ident 0 =? 1)) ValueError "SocRV image conversion requires ELF32" ;;
  fail_if (negb (nth 5 ident 0 =? 1)) ValueError
    "SocRV image conversion requires little-endian ELF" ;;
  let entry := field values 4 in
  let program_offset := field values 5 in
  let program_entry_size := field values 9 in
  let program_count := field values 10 in
  fail_if (program_entry_size <? struct_size PROGRAM_HEADER) ValueError
    ("unsupported program-header size: " +:+ str_of_Z program_entry_size) ;;
  segments ← fold_m (parse_program_header blob program_offset program_entry_size) []
               (seqZ 0 program_count);
  fail_if (bool_decide (segments = [])) ValueError "ELF contains no loadable segments" ;;
  mret (entry, segments).

#[export] Instance Segment_eq_dec : EqDecision Segment.
Proof. solve_decision. Defined.

(** ** Output *)

Section elf2mem.
Context `{Host}.

Definition parse_elf32_little (p : path) : M (Z * list Segment) :=
  blob ← read_bytes p; parse_blob blob.

Definition manifest_path (p : path) : M string :=
  resolved ← resolve p;
  root ← resolve (repo_path []);
  if bool_decide (resolved = root) || path_within resolved root
  then q ← relative_to resolved root; mret (path_str q)
  else mret (path_str resolved).

(** The size written, and the image padded to it. *)
Definition padded_size (r : Region) (trim : bool) : Z :=
  let output_size := if trim then Z.max 4 (Z.land (used_end r + 3) (Z.lnot 3)) else size r in
  Z.land (output_size + 3) (Z.lnot 3).

Definition pad_image (r : Region) (n : Z) : Region :=
  if negb (n =? len (image r)) && (len (image r) <? n)
  then set_image r (image r ++ zeros (n - len (image r)))
  else r.

Definition write_word_mem (r : Region) (trim : bool) : M Region :=
  mkdir_p (parent (output r)) ;;
  let n := padded_size r trim in
  let r1 := set_stored_words (pad_image r n) (n / 4) in
  write_text (output r1) (mem_text (word_at (image r1) <$> range_step 0 n 4)) ;;
  mret r1.

(** A bank entry of the manifest. *)
Definition bank_entry (name : string) (p : path) (bank_size words : Z) : M json :=
  file ← manifest_path p;
  digest ← sha256_file p;
  mret (JObj [("name", JStr name); ("file", JStr file); ("size", JInt bank_size);
              ("stored_words", JInt words); ("sha256", JStr digest)]).

Definition write_instruction_banks (r : Region) (low_output high_output : path)
    : M (list json) :=
  fail_if (negb (String.eqb (region_name r) "CODE")) ValueError
    "instruction bank files can only be generated for CODE" ;;
  fail_if (negb (size r mod 8 =? 0)) ValueError
    "CODE region must be a multiple of one 64-bit fetch word" ;;
  mkdir_p (parent low_output) ;;
  mkdir_p (parent high_output) ;;
  write_text low_output "" ;;
  write_text high_output "" ;;
  write_text low_output (mem_text (word_at (image r) <$> range_step 0 (size r) 8)) ;;
  write_text high_output
    (mem_text ((fun o => word_at (image r) (o + 4)) <$> range_step 0 (size r) 8)) ;;
  low ← bank_entry "CODE_LO" low_output (size r / 2) (size r / 8);
  high ← bank_entry "CODE_HI" high_output (size r / 2) (size r / 8);
  mret [low; high].

(** The words of bank [bank] of [count], row by row. *)
Definition bank_words (img : list Z) (count depth bank : Z) : list Z :=
  (fun row => word_at img ((row * count + bank) * 4)) <$> seqZ 0 depth.

Fixpoint write_banks (r : Region) (name_prefix : string) (count depth bank : Z)
    (outputs : list path) : M (list json) :=
  match outputs with
  | [] => mret []
  | p :: outputs' =>
      mkdir_p (parent p) ;;
      write_text p (mem_text (bank_words (image r) count depth bank)) ;;
      entry ← bank_entry (name_prefix +:+ str_of_Z bank) p (size r / count) depth;
      rest ← write_banks r name_prefix count depth (bank + 1) outputs';
      mret (entry :: rest)
  end.

Definition write_interleaved_banks (r : Region) (outputs : list path) (name_prefix : string)
    : M (list json) :=
  let bank_count := len outputs in
  fail_if ((bank_count =? 0) || negb (size r mod (4 * bank_count) =? 0)) ValueError
    (region_name r +:+ " size must be a multiple of " +:+ str_of_Z bank_count +:+ " words") ;;
  write_banks r name_prefix bank_count (size r / (4 * bank_count)) 0 outputs.

(** *** [convert] *)

Definition hex_addr (n : Z) : string := "0x" +:+ hex08 n.

(** The indices of the regions that contain a segment. *)
Definition matches (regions : list Region) (s : Segment) : list nat :=
  filter (fun i => from_option (fun r => contains r (address s) (memory_size s))
                     false (regions !! i) = true) (seq 0 (length regions)).

(** The body of the loop over the segments. *)
Definition place_segment (st : list Region * list json) (s : Segment)
    : M (list Region * list json) :=
  let '(regions, placement) := st in
  match matches regions s with
  | [i] =>
      match regions !! i with
      | Some r =>
          mret (<[i := place r s]> regions,
                placement ++
                  [JObj [("region", JStr (region_name r));
                         ("address", JStr (hex_addr (address s)));
                         ("file_size", JInt (len (data s)));
                         ("memory_size", JInt (memory_size s));
                         ("flags", JInt (flags s))]])
      | None => raise IndexError "list index out of range"
      end
  | l => raise ValueError
      ("segment " +:+ hex_addr (address s) +:+ "+0x" +:+ hex (memory_size s) +:+
       " matches " +:+ str_of_Z (len l) +:+ " regions")
  end.

Definition region_entry (r : Region) : M json :=
  file ← manifest_path (output r);
  digest ← sha256_file (output r);
  mret (JObj [("name", JStr (region_name r));
              ("base", JStr (hex_addr (base r)));
              ("size", JInt (size r));
              ("used", JInt (used_end r));
              ("stored_words", JInt (stored_words r));
              ("file", JStr file);
              ("sha256", JStr digest);
              ("fill", JStr "0x00000000")]).

(** The regions written, as the objects are afterwards, and their entries. *)
Fixpoint write_regions (regions : list Region) (trim : bool) : M (list Region * list json) :=
  match regions with
  | [] => mret ([], [])
  | r :: regions' =>
      r1 ← write_word_mem r trim;
      e ← region_entry r1;
      '(rs, es) ← write_regions regions' trim;
      mret (r1 :: rs, e :: es)
  end.

Definition region_named (n : string) (regions : list Region) : option Region :=
  List.find (fun r => String.eqb (region_name r) n) regions.

(** The bank files: instruction banks, ICCM lanes, DCCM banks. *)
Definition write_all_banks (regions : list Region) (code_bank_low code_bank_high : option path)
    (iccm_lanes dccm_banks : option (list path)) : M (list json) :=
  banks ← match code_bank_low, code_bank_high with
          | Some low, Some high =>
              code_region ← lift_opt ValueError
                "CODE region is required for instruction bank generation"
                (region_named "CODE" regions);
              write_instruction_banks code_region low high
          | None, None => mret []
          | _, _ => raise ValueError "both instruction bank output paths are required"
          end;
  lanes ← match iccm_lanes with
          | None | Some [] => mret []
          | Some l =>
              fail_if (negb (len l =? 4)) ValueError
                "exactly four --iccm-lane outputs are required" ;;
              code_region ← lift_opt ValueError
                "CODE region is required for ICCM lane generation"
                (region_named "CODE" regions);
              write_interleaved_banks code_region l "ICCM_LANE"
          end;
  dccm ← match dccm_banks with
         | None | Some [] => mret []
         | Some l =>
             fail_if (negb (len l =? 8)) ValueError
               "exactly eight --dccm-bank outputs are required" ;;
             data_region ← lift_opt ValueError
               "DATA region is required for DCCM bank generation"
               (region_named "DATA" regions);
             write_interleaved_banks data_region l "DCCM_BANK"
         end;
  mret (banks ++ lanes ++ dccm).

(** The fields taken from the software contract. *)
Definition contract_fields (contract : option json) (test_status_base : option Z)
    : M (list (string * json)) :=
  match contract with
  | None => mret []
  | Some c =>
      cpu ← getitem c "cpu";
      test_status ← getitem c "test_status";
      xlen ← getitem cpu "xlen";
      march ← getitem cpu "march";
      mabi ← getitem cpu "mabi";
      status_base ← lift_opt TypeError
        "unsupported format string passed to NoneType.__format__" test_status_base;
      pass_magic ← getitem test_status "pass_magic";
      fail_magic ← getitem test_status "fail_magic";
      mret [("isa", JObj [("xlen", xlen); ("march", march); ("mabi", mabi)]);
            ("test_status", JObj [("base", JStr (hex_addr status_base));
                                  ("pass_magic", pass_magic); ("fail_magic", fail_magic)])]
  end.

Record options := {
  o_profile : string;
  o_contract : option json;
  o_memory_map_hash : option string;
  o_test_status_base : option Z;
  o_trim : bool;
  o_code_bank_low : option path;
  o_code_bank_high : option path;
  o_iccm_lanes : option (list path);
  o_dccm_banks : option (list path)
}.

Definition convert (elf : path) (regions : list Region) (output_manifest : path)
    (o : options) : M unit :=
  '(entry, segments) ← parse_elf32_little elf;
  '(placed, placement) ← fold_m place_segment (regions, []) segments;
  '(written, region_entries) ← write_regions placed (o_trim o);
  banks ← write_all_banks written (o_code_bank_low o) (o_code_bank_high o)
            (o_iccm_lanes o) (o_dccm_banks o);
  elf_path ← manifest_path elf;
  elf_digest ← sha256_file elf;
  isa ← contract_fields (o_contract o) (o_test_status_base o);
  write_json_atomic output_manifest
    (JObj ([("schema_version", JInt 2);
            ("kind", JStr "software_image");
            ("profile", JStr (o_profile o));
            ("elf", JObj [("path", JStr elf_path); ("sha256", JStr elf_digest)]);
            ("entry", JStr (hex_addr entry));
            ("endianness", JStr "little");
            ("word_format", JObj [("bits", JInt 32); ("hex_digits", JInt 8);
                                  ("address_unit", JStr "word")]);
            ("regions", JArr region_entries);
            ("segments", JArr placement)]
           ++ (if bool_decide (banks = []) then [] else [("banks", JArr banks)])
           ++ isa
           ++ match o_memory_map_hash o with
              | Some h => [("memory_map_sha256", JStr h)]
              | None => []
              end)).

(** *** The command *)

Record args := {
  a_elf : path;
  a_region : list string;
  a_manifest : path;
  a_profile : string;
  a_contract : path;
  a_memory_map : path;
  a_trim : bool;
  a_code_bank_low : option path;
  a_code_bank_high : option path;
  a_iccm_lane : option (list path);
  a_dccm_bank : option (list path)
}.

Definition resolve_opt (p : option path) : M (option path) :=
  match p with
  | Some p => q ← resolve p; mret (Some q)
  | None => mret None
  end.
(** [[path.resolve() for path in l] if l else None] *)
Definition resolve_list (l : option (list path)) : M (option (list path)) :=
  match l with
  | None | Some [] => mret None
  | Some l => r ← map_m resolve l; mret (Some r)
  end.

Definition main (a : args) : M Z :=
  regions ← try_except (map_m parse (a_region a)) is_argument_error
              (fun e => parser_error ("argument --region: " +:+ exn_msg e));
  try_except
    (contract ← load_json (a_contract a);
     memory_map ← load_json (a_memory_map a);
     elf ← resolve (a_elf a);
     manifest ← resolve (a_manifest a);
     memory_map_hash ← sha256_file (a_memory_map a);
     sysctrl ← getpath memory_map ["regions"; "SYSCTRL"; "base"];
     sysctrl_base ← int0 sysctrl;
     status ← getpath contract ["peripherals"; "SYSCTRL"; "registers"; "STATUS"; "offset"];
     status_offset ← int0 status;
     low ← resolve_opt (a_code_bank_low a);
     high ← resolve_opt (a_code_bank_high a);
     lanes ← resolve_list (a_iccm_lane a);
     dccm ← resolve_list (a_dccm_bank a);
     convert elf regions manifest
       {| o_profile := a_profile a;
          o_contract := Some contract;
          o_memory_map_hash := Some memory_map_hash;
          o_test_status_base := Some (sysctrl_base + status_offset);
          o_trim := a_trim a;
          o_code_bank_low := low;
          o_code_bank_high := high;
          o_iccm_lanes := lanes;
          o_dccm_banks := dccm |})
    (fun e => is_os_error e || is_value_error e)
    (fun e => parser_error (exn_msg e)) ;;
  m ← resolve (a_manifest a);
  print ("Image manifest: " +:+ path_str m) ;;
  mret 0.
End elf2mem.

(** ** The file format, read at its offsets *)

Definition u16 (blob : list Z) (o : Z) : Z := le (take 2 (drop (Z.to_nat o) blob)).
Definition u32 (blob : list Z) (o : Z) : Z := le (take 4 (drop (Z.to_nat o) blob)).

(** Program header [i] of the file: its offset, and what makes it unusable. *)
Definition phdr (blob : list Z) (i : Z) : Z := u32 blob 28 + i * u16 blob 42.
Definition loadable (blob : list Z) (i : Z) : bool :=
  (u32 blob (phdr blob i) =? PT_LOAD) && negb (u32 blob (phdr blob i + 20) =? 0).
Definition phdr_fault (blob : list Z) (i : Z) : bool :=
  (len blob <? phdr blob i + 32) ||
  (loadable blob i &&
   ((u32 blob (phdr blob i + 20) <? u32 blob (phdr blob i + 16)) ||
    (len blob <? u32 blob (phdr blob i + 4) + u32 blob (phdr blob i + 16)))).

(** The segment that a loadable header describes. *)
Definition phdr_segment (blob : list Z) (i : Z) : Segment :=
  let o := phdr blob i in
  {| address := if u32 blob (o + 12) =? 0 then u32 blob (o + 8) else u32 blob (o + 12);
     data := take (Z.to_nat (u32 blob (o + 16))) (drop (Z.to_nat (u32 blob (o + 4))) blob);
     memory_size := u32 blob (o + 20);
     flags := u32 blob (o + 24) |}.

Definition elf_segments (blob : list Z) : list Segment :=
  phdr_segment blob <$> filter (fun i => loadable blob i = true) (seqZ 0 (u16 blob 44)).

Definition elf_valid (blob : list Z) : bool :=
  (52 <=? len blob) && bool_decide (take 4 blob = [127; 69; 76; 70]) &&
  (nth 4 blob 0 =? 1) && (nth 5 blob 0 =? 1) && (32 <=? u16 blob 42) &&
  forallb (fun i => negb (phdr_fault blob i)) (seqZ 0 (u16 blob 44)) &&
  negb (bool_decide (elf_segments blob = [])).

(** Computes the offsets of structure fields. *)
Ltac eval_offsets :=
  repeat match goal with
  | |- context [Z.of_nat (sum_list ?l)] =>
      let v := eval vm_compute in (Z.of_nat (sum_list l)) in
      change (Z.of_nat (sum_list l)) with v
  end.

Section parse.
Variable blob : list Z.

Lemma unpack_nth fmt l i :
  nth i (unpack fmt l) [] = take (nth i fmt O) (drop (sum_list (take i fmt)) l).
Proof.
  revert l i. induction fmt as [|n fmt IH]; intros l [|i]; simpl; rewrite ?take_0; try done.
  rewrite IH. by rewrite drop_drop.
Qed.

Lemma unpack_from_in fmt o w : 0 <= o -> (len blob <? o + struct_size fmt) = false ->
  unpack_from fmt blob o w = (Ok (unpack fmt (drop (Z.to_nat o) blob)), w).
Proof. intros Ho Hl. unfold unpack_from. by rewrite Hl. Qed.

Lemma field_u32 fmt o i : 0 <= o -> nth i fmt O = 4%nat ->
  field (unpack fmt (drop (Z.to_nat o) blob)) i = u32 blob (o + Z.of_nat (sum_list (take i fmt))).
Proof.
  intros Ho Hi. unfold field, u32. rewrite unpack_nth, Hi, drop_drop. do 3 f_equal. lia.
Qed.

Lemma field_u16 fmt o i : 0 <= o -> nth i fmt O = 2%nat ->
  field (unpack fmt (drop (Z.to_nat o) blob)) i = u16 blob (o + Z.of_nat (sum_list (take i fmt))).
Proof.
  intros Ho Hi. unfold field, u16. rewrite unpack_nth, Hi, drop_drop. do 3 f_equal. lia.
Qed.

Hypothesis blob_ok : bytes_ok blob.

Lemma u32_range o : 0 <= u32 blob o < 2 ^ 32.
Proof.
  unfold u32. pose proof (le_range (take 4 (drop (Z.to_nat o) blob))) as Hr.
  assert (256 ^ len (take 4 (drop (Z.to_nat o) blob)) <= 256 ^ 4)
    by (apply Z.pow_le_mono_r; [lia|rewrite length_take; lia]).
  specialize (Hr (bytes_ok_take _ _ (bytes_ok_drop _ _ blob_ok))). lia.
Qed.

Lemma u16_range o : 0 <= u16 blob o < 2 ^ 16.
Proof.
  unfold u16. pose proof (le_range (take 2 (drop (Z.to_nat o) blob))) as Hr.
  assert (256 ^ len (take 2 (drop (Z.to_nat o) blob)) <= 256 ^ 2)
    by (apply Z.pow_le_mono_r; [lia|rewrite length_take; lia]).
  specialize (Hr (bytes_ok_take _ _ (bytes_ok_drop _ _ blob_ok))). lia.
Qed.

(** One turn of the loop over the headers. *)
Lemma parse_program_header_spec segs i w : 0 <= i ->
  parse_program_header blob (u32 blob 28) (u16 blob 42) segs i w =
  if phdr_fault blob i
  then (Raise (Err ValueError
         (if len blob <? phdr blob i + 32 then "program-header table extends beyond ELF"
          else "PT_LOAD " +:+ str_of_Z i +:+
            (if u32 blob (phdr blob i + 20) <? u32 blob (phdr blob i + 16)
             then " has file size larger than memory size" else " extends beyond ELF"))), w)
  else (Ok (segs ++ (if loadable blob i then [phdr_segment blob i] else [])), w).
Proof.
  intros Hi. unfold parse_program_header, phdr_fault. fold (phdr blob i).
  assert (Ho : 0 <= phdr blob i)
    by (unfold phdr; pose proof (u32_range 28); pose proof (u16_range 42); nia).
  change (struct_size PROGRAM_HEADER) with 32.
  destruct (len blob <? phdr blob i + 32) eqn:El; [done|]. cbn [orb].
  rewrite (bind_ok_eq _ _ tt w w) by done. cbv beta.
  rewrite (bind_ok_eq _ _ _ w w (unpack_from_in PROGRAM_HEADER _ w Ho El)). cbv beta.
  rewrite !field_u32 by done. eval_offsets. rewrite Z.add_0_r. unfold loadable.
  destruct (u32 blob (phdr blob i) =? PT_LOAD) eqn:Et; cbn [negb orb andb];
    [|by rewrite app_nil_r].
  destruct (u32 blob (phdr blob i + 20) =? 0) eqn:Em; cbn [negb orb andb];
    [by rewrite app_nil_r|].
  destruct (u32 blob (phdr blob i + 20) <? u32 blob (phdr blob i + 16)) eqn:Es; [done|].
  rewrite (bind_ok_eq _ _ tt w w) by done. cbn [orb].
  destruct (len blob <? u32 blob (phdr blob i + 4) + u32 blob (phdr blob i + 16)) eqn:Eb; [done|].
  rewrite (bind_ok_eq _ _ tt w w) by done. rewrite run_ret. do 3 f_equal.
  unfold phdr_segment. do 2 f_equal.
  - by destruct (u32 blob (phdr blob i + 12) =? 0).
  - pose proof (u32_range (phdr blob i + 4)). pose proof (u32_range (phdr blob i + 16)).
    bool_props. rewrite slice_in by lia. f_equal. lia.
Qed.
End parse.

Section parse_blob.
Variable blob : list Z.
Hypothesis blob_ok : bytes_ok blob.

Lemma parse_headers_spec l segs w : Forall (fun i => 0 <= i) l ->
  fold_m (parse_program_header blob (u32 blob 28) (u16 blob 42)) segs l w =
  match List.find (phdr_fault blob) l with
  | Some i => (Raise (Err ValueError
         (if len blob <? phdr blob i + 32 then "program-header table extends beyond ELF"
          else "PT_LOAD " +:+ str_of_Z i +:+
            (if u32 blob (phdr blob i + 20) <? u32 blob (phdr blob i + 16)
             then " has file size larger than memory size" else " extends beyond ELF"))), w)
  | None => (Ok (segs ++ (phdr_segment blob <$> filter (fun i => loadable blob i = true) l)), w)
  end.
Proof.
  intros Hl. revert segs. induction Hl as [|i l Hi Hl IH]; intros segs.
  - simpl. by rewrite app_nil_r.
  - cbn [fold_m List.find]. unfold mbind, M_bind.
    rewrite parse_program_header_spec by done.
    destruct (phdr_fault blob i); [done|]. rewrite IH.
    destruct (List.find (phdr_fault blob) l); [done|]. do 2 f_equal.
    rewrite filter_cons. destruct (decide (loadable blob i = true)) as [E|E].
    + rewrite E. by rewrite <- app_assoc.
    + destruct (loadable blob i); [done|]. by rewrite app_nil_r.
Qed.

Lemma find_forallb {A} (f : A -> bool) l :
  forallb (fun x => negb (f x)) l =
  match List.find f l with Some _ => false | None => true end.
Proof. induction l as [|x l IH]; simpl; [done|]. by destruct (f x). Qed.

Lemma seqZ_nonneg n : Forall (fun i => 0 <= i) (seqZ 0 n).
Proof. apply Forall_forall. intros i Hi. apply elem_of_seqZ in Hi. lia. Qed.

Lemma parse_blob_valid w :
  if elf_valid blob then parse_blob blob w = (Ok (u32 blob 24, elf_segments blob), w)
  else exists msg, parse_blob blob w = (Raise (Err ValueError msg), w).
Proof.
  unfold elf_valid, parse_blob. change (struct_size ELF_HEADER) with 52.
  rewrite Z.leb_antisym. destruct (len blob <? 52) eqn:El; [by eexists|].
  rewrite (bind_ok_eq _ _ tt w w) by done. cbv beta.
  rewrite (bind_ok_eq _ _ _ w w (unpack_from_in blob ELF_HEADER 0 w (Z.le_refl 0) El)). cbv beta.
  rewrite !unpack_nth.
  rewrite ?field_u32, ?field_u16 by done. eval_offsets.
  cbn [nth ELF_HEADER take sum_list Z.to_nat]. rewrite !drop_0.
  rewrite take_take, !nth_firstn. cbn [Nat.ltb Nat.leb Nat.min].
  case_bool_decide; cbn [negb andb]; [|by eexists].
  rewrite (bind_ok_eq _ _ tt w w) by done. cbv beta.
  destruct (nth 4 blob 0 =? 1); cbn [negb andb]; [|by eexists].
  rewrite (bind_ok_eq _ _ tt w w) by done. cbv beta.
  destruct (nth 5 blob 0 =? 1); cbn [negb andb]; [|by eexists].
  rewrite (bind_ok_eq _ _ tt w w) by done. cbv beta zeta.
  rewrite Z.leb_antisym. change (struct_size PROGRAM_HEADER) with 32.
  change (0 + 24) with 24. change (0 + 28) with 28. change (0 + 42) with 42. change (0 + 44) with 44.
  destruct (u16 blob 42 <? 32); cbn [negb andb]; [by eexists|].
  rewrite (bind_ok_eq _ _ tt w w) by done. cbv beta.
  rewrite find_forallb.
  pose proof (parse_headers_spec (seqZ 0 (u16 blob 44)) [] w (seqZ_nonneg _)) as Hfold.
  destruct (List.find _ _); cbn [andb].
  { rewrite (bind_raise_eq _ _ _ w w Hfold). by eexists. }
  rewrite (bind_ok_eq _ _ _ w w Hfold). cbn [app]. fold (elf_segments blob).
  case_bool_decide; cbn [negb andb]; [by eexists|]. done.
Qed.
End parse_blob.

(** ** Placement refines loading a byte-addressed memory *)

Definition memory : Type := Z -> Z.
Definition covered (a lo n : Z) : bool := (lo <=? a) && (a <? lo + n).

(** What loading a segment means: its bytes, then zeros up to its memory size. *)
Definition load_segment (m : memory) (s : Segment) : memory := fun a =>
  if covered a (address s) (len (data s)) then nth (Z.to_nat (a - address s)) (data s) 0
  else if covered a (address s) (memory_size s) then 0
  else m a.
Definition load (segs : list Segment) : memory := foldl load_segment (fun _ => 0) segs.

(** The little-endian word of a memory, and [n] words from [a] on. *)
Definition mem_word (m : memory) (a : Z) : Z :=
  m a + 256 * (m (a + 1) + 256 * (m (a + 2) + 256 * m (a + 3))).
Definition mem_words (m : memory) (a n : Z) : list Z :=
  (fun k => mem_word m (a + 4 * k)) <$> seqZ 0 n.

(** Region [r] shows memory [m]. *)
Record shows (m : memory) (r : Region) : Prop := {
  shows_size : len (image r) = size r;
  shows_used : 0 <= used_end r <= size r;
  shows_byte : forall o, 0 <= o < size r -> nth (Z.to_nat o) (image r) 0 = m (base r + o)
}.

Definition apart (r1 r2 : Region) : Prop :=
  base r1 + size r1 <= base r2 \/ base r2 + size r2 <= base r1.
Definition disjoint_regions (rs : list Region) : Prop :=
  forall i j r1 r2, i <> j -> rs !! i = Some r1 -> rs !! j = Some r2 -> apart r1 r2.

(** What placing leaves of a region: all but the image and the mark. *)
Definition same_region (r r' : Region) : Prop :=
  region_name r' = region_name r /\ base r' = base r /\ size r' = size r /\ output r' = output r.

#[export] Instance same_region_equiv : PreOrder same_region.
Proof.
  split; [by intros r|]. intros r1 r2 r3 (? & ? & ? & ?) (? & ? & ? & ?).
  split_and!; congruence.
Qed.

Definition segment_ok (s : Segment) : Prop := len (data s) <= memory_size s.

Lemma place_same r s : same_region r (place r s).
Proof. done. Qed.

Lemma place_shows m r s : contains r (address s) (memory_size s) = true -> segment_ok s ->
  shows m r -> shows (load_segment m s) (place r s).
Proof.
  unfold contains, segment_ok. intros Hc Hd [Hs Hu Hb]. bool_props.
  set (o1 := address s - base r). assert (Ho1 : 0 <= o1) by lia.
  assert (Ho2 : o1 + memory_size s <= len (image r)) by lia.
  set (i1 := slice_set (image r) o1 (o1 + len (data s)) (data s)).
  assert (Hl1 : length i1 = length (image r)) by (apply slice_set_length; lia).
  assert (Hb1 : forall o, 0 <= o -> nth (Z.to_nat o) i1 0 =
    if (o1 <=? o) && (o <? o1 + len (data s)) then nth (Z.to_nat (o - o1)) (data s) 0
    else nth (Z.to_nat o) (image r) 0) by (intros o Ho; apply slice_set_nth; lia).
  assert (Hb2 : forall o, 0 <= o < size r -> nth (Z.to_nat o) i1 0 =
    if covered (base r + o) (address s) (len (data s))
    then nth (Z.to_nat (base r + o - address s)) (data s) 0 else m (base r + o)).
  { intros o Ho. rewrite Hb1 by lia. unfold covered.
    replace (o1 <=? o) with (address s <=? base r + o) by (apply eq_true_iff_eq; rewrite !Z.leb_le; lia).
    replace (o <? o1 + len (data s)) with (base r + o <? address s + len (data s))
      by (apply eq_true_iff_eq; rewrite !Z.ltb_lt; lia).
    destruct ((address s <=? base r + o) && (base r + o <? address s + len (data s)));
      [do 2 f_equal; lia|by apply Hb]. }
  unfold place. fold o1. fold i1.
  destruct (Z.ltb_spec (o1 + len (data s)) (o1 + memory_size s)).
  - constructor; cbn [image size base used_end set_used_end set_image].
    + rewrite slice_set_length; [lia|lia|lia|]. rewrite zeros_length; lia.
    + lia.
    + intros o Ho. rewrite slice_set_nth; [|lia|lia|rewrite zeros_length; lia|lia].
      unfold load_segment. rewrite Hb2 by lia. unfold covered.
      destruct (Z.leb_spec (o1 + len (data s)) o), (Z.ltb_spec o (o1 + memory_size s)),
        (Z.leb_spec (address s) (base r + o)),
        (Z.ltb_spec (base r + o) (address s + len (data s))),
        (Z.ltb_spec (base r + o) (address s + memory_size s)); cbn [andb];
        try lia; rewrite ?zeros_nth; done.
  - constructor; cbn [image size base used_end set_used_end set_image]; [lia|lia|].
    intros o Ho. rewrite Hb2 by lia. unfold load_segment.
    destruct (covered (base r + o) (address s) (len (data s))) eqn:E; [done|].
    replace (memory_size s) with (len (data s)) by lia. by rewrite E.
Qed.

(** A segment inside one region does not show in a region apart from it. *)
Lemma shows_apart m r r' s : contains r (address s) (memory_size s) = true -> segment_ok s ->
  apart r r' -> shows m r' -> shows (load_segment m s) r'.
Proof.
  unfold contains, segment_ok, apart. intros Hc Hd Ha [Hs Hu Hb]. bool_props.
  constructor; [done|done|]. intros o Ho. rewrite Hb by done. unfold load_segment, covered.
  destruct (Z.leb_spec (address s) (base r' + o)); cbn [andb]; [|done].
  destruct (Z.ltb_spec (base r' + o) (address s + len (data s))); cbn [andb]; [lia|].
  destruct (Z.ltb_spec (base r' + o) (address s + memory_size s)); [lia|done].
Qed.

Lemma matches_one regions s i : matches regions s = [i] ->
  exists r, regions !! i = Some r /\ contains r (address s) (memory_size s) = true /\
  forall j r', regions !! j = Some r' -> contains r' (address s) (memory_size s) = true -> j = i.
Proof.
  unfold matches. set (p := fun i => _ = true). intros E.
  assert (Hi : i ∈ filter p (seq 0 (length regions))) by (rewrite E; left).
  apply list_elem_of_filter in Hi as [Hp _]. unfold p in Hp.
  destruct (regions !! i) as [r|] eqn:Er; [|done]. exists r. split_and!; [done|done|].
  intros j r' Hj Hc. apply list_elem_of_singleton. rewrite <- E. apply list_elem_of_filter.
  split; [unfold p; by rewrite Hj|]. apply elem_of_seq. apply lookup_lt_Some in Hj. lia.
Qed.

Lemma place_segment_ok st s w st' w' : place_segment st s w = (Ok st', w') ->
  w' = w /\ exists i r, matches st.1 s = [i] /\ st.1 !! i = Some r /\
    contains r (address s) (memory_size s) = true /\ st'.1 = <[i := place r s]> st.1.
Proof.
  destruct st as [rs pl]. unfold place_segment. cbn [fst].
  destruct (matches rs s) as [|i [|? ?]] eqn:Em; [done| |done].
  destruct (matches_one _ _ _ Em) as (r & Hr & Hc & _). rewrite Hr. intros E.
  apply ret_ok in E as [-> ->]. split; [done|]. by exists i, r.
Qed.

Lemma place_segment_disjoint rs i r s : rs !! i = Some r ->
  disjoint_regions rs -> disjoint_regions (<[i := place r s]> rs).
Proof.
  intros Hr Hd j k r1 r2 Hjk H1 H2.
  assert (Hs : forall j r1, <[i := place r s]> rs !! j = Some r1 ->
            exists r0, rs !! j = Some r0 /\ base r1 = base r0 /\ size r1 = size r0).
  { intros j' r' Hj. apply list_lookup_insert_Some in Hj as [(-> & <- & _)|[_ Hj]];
      [by exists r|by exists r']. }
  destruct (Hs _ _ H1) as (a & Ha & E1 & E2). destruct (Hs _ _ H2) as (b & Hb & E3 & E4).
  unfold apart. rewrite E1, E2, E3, E4. by eapply Hd.
Qed.

(** Placing the segments one after the other loads them in the memory that the
    regions show. *)
Lemma place_segments_shows m segs : forall st w st' w',
  fold_m place_segment st segs w = (Ok st', w') -> Forall segment_ok segs ->
  disjoint_regions st.1 -> Forall (shows m) st.1 ->
  w' = w /\ Forall (shows (foldl load_segment m segs)) st'.1 /\ Forall2 same_region st.1 st'.1.
Proof.
  revert m. induction segs as [|s segs IH]; intros m st w st' w' E Hok Hd Hs.
  - apply ret_ok in E as [-> ->]. split_and!; [done|done|]. reflexivity.
  - apply Forall_cons in Hok as [Hs0 Hok]. cbn [fold_m] in E.
    apply bind_ok in E as (st1 & w1 & E1 & E). apply place_segment_ok in E1 as (-> & i & r & Hm & Hr & Hc & E1).
    eapply IH in E as (-> & Hsh & Hsame); [|done| |]; cycle 1.
    { rewrite E1. by apply place_segment_disjoint. }
    { rewrite E1. apply Forall_lookup. intros j r' Hj. rewrite Forall_lookup in Hs.
      apply list_lookup_insert_Some in Hj as [(-> & <- & _)|[Hne Hj]].
      - apply place_shows; [done|done|by eapply Hs].
      - apply (shows_apart m r); [done|done|by eapply Hd|by eapply Hs]. }
    split_and!; [done|done|]. etransitivity; [|exact Hsame]. rewrite E1.
    rewrite <- (list_insert_id st.1 i r) at 1 by done.
    apply Forall2_insert; [|done]. reflexivity.
Qed.

(** *** The used part of a region *)

(** The segment lies in the region. *)
Definition inside_region (r : Region) (s : Segment) : bool :=
  (base r <=? address s) && (address s + memory_size s <=? base r + size r).

(** How far the segments in a region reach into it: 0 when there is none. *)
Definition used_extent (r : Region) (segs : list Segment) : Z :=
  foldr Z.max 0 ((fun s => address s + memory_size s - base r) <$> filter (fun s => inside_region r s = true) segs).

(** The words stored for a region: all of them or, with [trim], those up to the last used byte,
    and at least one. *)
Definition words_stored (trim : bool) (r : Region) (segs : list Segment) : Z :=
  if trim then Z.max 1 ((used_extent r segs + 3) / 4) else size r / 4.

Lemma used_extent_same r r' segs : same_region r r' -> used_extent r' segs = used_extent r segs.
Proof. intros (_ & Hb & Hz & _). unfold used_extent, inside_region. by rewrite Hb, Hz. Qed.

Lemma used_extent_cons r s segs : used_extent r (s :: segs) =
  if inside_region r s then Z.max (address s + memory_size s - base r) (used_extent r segs) else used_extent r segs.
Proof.
  unfold used_extent. destruct (inside_region r s) eqn:E; [by rewrite filter_cons_True|].
  rewrite filter_cons_False; [done|congruence].
Qed.

Lemma used_extent_nonneg r segs : 0 <= used_extent r segs.
Proof. unfold used_extent. induction (_ <$> _) as [|x l IH]; cbn [foldr]; lia. Qed.

(** Placing the segments marks how far each region is used. *)
Lemma place_segments_used segs : forall st w st' w', fold_m place_segment st segs w = (Ok st', w') ->
  Forall (fun r => 0 <= used_end r) st.1 ->
  Forall2 (fun r r' => used_end r' = Z.max (used_end r) (used_extent r segs)) st.1 st'.1.
Proof.
  induction segs as [|s segs IH]; intros st w st' w' E Hnn.
  - apply ret_ok in E as [-> _]. induction Hnn as [|r l Hr _ IHl]; constructor; [|done].
    change (used_extent r []) with 0. lia.
  - cbn [fold_m] in E. apply bind_ok in E as (st1 & w1 & E1 & E).
    apply place_segment_ok in E1 as (-> & i & r & Hm & Hr & Hc & E1).
    destruct (matches_one _ _ _ Hm) as (r0 & Hr0 & _ & Hone). simplify_eq.
    apply IH in E.
    + rewrite E1 in E. apply Forall2_same_length_lookup_2.
      { apply Forall2_length in E. by rewrite length_insert in E. }
      intros j x x' Hj Hj'. rewrite used_extent_cons. change (inside_region x s) with (contains x (address s) (memory_size s)).
      destruct (decide (j = i)) as [->|Hne].
      * assert (x = r) as -> by congruence. rewrite Hc.
        assert (Hp : <[i := place r s]> st.1 !! i = Some (place r s)) by (apply list_lookup_insert_eq; by eapply lookup_lt_Some).
        pose proof (Forall2_lookup_lr _ _ _ _ _ _ E Hp Hj') as ->. rewrite (used_extent_same r) by done.
        unfold place. cbn [used_end set_used_end]. lia.
      * destruct (contains x _ _) eqn:Hx; [by destruct Hne; eapply Hone|].
        eapply (Forall2_lookup_lr _ _ _ _ _ _ E); [by rewrite list_lookup_insert_ne|done].
    + rewrite E1. apply Forall_insert; [done|]. rewrite Forall_lookup in Hnn. apply Hnn in Hr.
      unfold place. cbn [used_end set_used_end]. lia.
Qed.

(** The size of the stored part, for a region that was fresh. *)
Lemma padded_size_stored r r' segs trim : same_region r r' -> used_end r' = used_extent r segs ->
  size r mod 4 = 0 -> padded_size r' trim / 4 = words_stored trim r segs.
Proof.
  intros (_ & _ & Hz & _) Hu Hm. unfold padded_size, words_stored. rewrite !land_lnot3, Hu, Hz.
  pose proof (used_extent_nonneg r segs). destruct trim; [|dlia].
  destruct (Z.max_spec 4 (4 * ((used_extent r segs + 3) / 4))) as [[? ->]|[? ->]]; dlia.
Qed.

(** ** The written images *)

Lemma word_at_shows m r o : shows m r -> 0 <= o -> o + 4 <= size r ->
  word_at (image r) o = mem_word m (base r + o).
Proof.
  intros [Hs Hu Hb] Ho Hl. rewrite word_at_nth by lia. unfold mem_word.
  rewrite !Hb by lia. by rewrite !Z.add_assoc.
Qed.

Lemma padded_size_spec r trim : 0 <= used_end r <= size r -> size r mod 4 = 0 -> 4 <= size r ->
  0 <= padded_size r trim <= size r /\ padded_size r trim mod 4 = 0 /\
  (trim = false -> padded_size r trim = size r) /\ used_end r <= padded_size r trim.
Proof.
  intros Hu Hm Hs. unfold padded_size. rewrite !land_lnot3.
  set (x := if trim then _ else _).
  assert (Hx : used_end r <= x <= size r /\ x mod 4 = 0 /\ (trim = false -> x = size r)).
  { unfold x. destruct trim; [|lia].
    destruct (Z.max_spec 4 (4 * ((used_end r + 3) / 4))) as [[? ->]|[? ->]];
      (split_and!; [dlia|dlia|dlia|done]). }
  replace (4 * ((x + 3) / 4)) with x by dlia. split_and!; [lia|lia|lia|tauto|lia].
Qed.

Lemma range_step_words (f : Z -> Z) n : 0 <= n -> n mod 4 = 0 ->
  f <$> range_step 0 n 4 = (fun k => f (4 * k)) <$> seqZ 0 (n / 4).
Proof.
  intros Hn Hm. unfold range_step. rewrite <- list_fmap_compose.
  replace ((n - 0 + 4 - 1) / 4) with (n / 4) by dlia.
  apply list_fmap_ext. intros i x Hx. simpl. f_equal.
Qed.

Lemma fmap_seqZ_ext {A} (f g : Z -> A) n : (forall k, 0 <= k < n -> f k = g k) ->
  f <$> seqZ 0 n = g <$> seqZ 0 n.
Proof.
  intros Hfg. apply list_fmap_ext. intros i x Hx. apply lookup_seqZ in Hx as [-> Hi].
  apply Hfg. lia.
Qed.

(** The text written for a region that shows [m]. *)
Lemma word_mem_text m r trim : shows m r -> size r mod 4 = 0 -> 4 <= size r ->
  let n := padded_size r trim in
  mem_text (word_at (image (set_stored_words (pad_image r n) (n / 4))) <$> range_step 0 n 4) =
  mem_text (mem_words m (base r) (n / 4)).
Proof.
  intros Hs Hm H4 n. destruct (padded_size_spec r trim) as (Hn & Hn4 & _ & _);
    [apply Hs|done|done|]. fold n in Hn, Hn4.
  assert (Hp : pad_image r n = r).
  { unfold pad_image. rewrite (shows_size m r Hs).
    replace (size r <? n) with false by (symmetry; apply Z.ltb_ge; lia).
    by rewrite andb_false_r. }
  rewrite Hp. cbn [image set_stored_words]. rewrite range_step_words by lia. f_equal.
  apply fmap_seqZ_ext. intros k Hk. apply word_at_shows; [done|lia|]. dlia.
Qed.

Section output.
Context `{Host}.

Lemma write_text_final p s w u w' : write_text p s w = (Ok u, w') ->
  keeps [canon w p] w w' /\ exists t, node_at w' (canon w p) = Some (File s t).
Proof. intros E. split; [by eapply write_raw_keeps|]. eexists. by eapply write_raw_node. Qed.

Lemma Keeps_manifest_path K p : Keeps K (manifest_path p).
Proof. unfold manifest_path. solve_keeps. Qed.
Lemma Keeps_bank_entry K n p a b : Keeps K (bank_entry n p a b).
Proof.
  unfold bank_entry. solve_keeps. apply Keeps_manifest_path.
Qed.
Lemma Keeps_region_entry K r : Keeps K (region_entry r).
Proof.
  unfold region_entry. solve_keeps. apply Keeps_manifest_path.
Qed.
Lemma Keeps_contract_fields K c b : Keeps K (contract_fields c b).
Proof. unfold contract_fields. solve_keeps. Qed.

Lemma write_word_mem_final m r trim w r1 w' : write_word_mem r trim w = (Ok r1, w') ->
  shows m r -> size r mod 4 = 0 -> 4 <= size r ->
  same_region r r1 /\ keeps [canon w (output r)] w w' /\
  exists t, node_at w' (canon w (output r)) =
    Some (File (mem_text (mem_words m (base r) (padded_size r trim / 4))) t).
Proof.
  intros E Hs Hm H4. unfold write_word_mem in E.
  apply bind_ok in E as ([] & w1 & E1 & E). apply mkdir_keeps with (K := []) in E1.
  set (n := padded_size r trim) in *.
  assert (Hsame : same_region r (set_stored_words (pad_image r n) (n / 4)))
    by (unfold pad_image; by destruct (_ && _)).
  assert (Ho : output (set_stored_words (pad_image r n) (n / 4)) = output r) by apply Hsame.
  pose proof (word_mem_text m r trim Hs Hm H4) as Htext. cbv zeta in Htext. fold n in Htext.
  cbv zeta in E. rewrite Ho, Htext in E.
  apply bind_ok in E as ([] & w2 & E2 & E). apply ret_ok in E as [-> ->].
  apply write_text_final in E2 as [HK Ht]. rewrite (keeps_canon _ _ _ _ E1) in *.
  split_and!; [done| |exact Ht]. etransitivity; [|exact HK].
  apply keeps_nil, E1.
Qed.
End output.

(** ** Banks *)

(** The words of a flat image of [n] bytes. *)
Definition flat_words (img : list Z) (n : Z) : list Z :=
  (fun k => word_at img (4 * k)) <$> seqZ 0 (n / 4).

(** A bank holds every [count]-th word of the flat image. *)
Lemma bank_words_stride img n (count b : nat) : count <> O -> (b < count)%nat ->
  0 <= n -> n mod (4 * Z.of_nat count) = 0 ->
  bank_words img (Z.of_nat count) (n / (4 * Z.of_nat count)) (Z.of_nat b) =
  stride b count (flat_words img n).
Proof.
  intros Hc Hb Hn Hm. set (depth := n / (4 * Z.of_nat count)).
  assert (Hn4 : n = 4 * (Z.of_nat count * depth))
    by (unfold depth; pose proof (Z.div_mod n (4 * Z.of_nat count)); lia).
  assert (Hd : 0 <= depth) by (apply Z.div_pos; lia).
  assert (Hq : n / 4 = Z.of_nat count * depth) by (rewrite Hn4, Z.mul_comm; by apply Z.div_mul).
  apply list_eq. intros r. rewrite stride_lookup by done. unfold bank_words, flat_words.
  rewrite !list_lookup_fmap, Hq. destruct (decide (Z.of_nat r < depth)) as [Hr|Hr].
  - rewrite !lookup_seqZ_lt by nia. simpl. do 2 f_equal. lia.
  - rewrite !lookup_seqZ_ge by nia. done.
Qed.

Section banks.
Context `{Host}.

Lemma write_banks_final r pre count depth outs : forall bank w es w',
  write_banks r pre count depth bank outs w = (Ok es, w') ->
  NoDup (canon w <$> outs) ->
  keeps (canon w <$> outs) w w' /\
  forall i p, outs !! i = Some p -> exists t, node_at w' (canon w p) =
    Some (File (mem_text (bank_words (image r) count depth (bank + Z.of_nat i))) t).
Proof.
  induction outs as [|p outs IH]; intros bank w es w' E Hnd.
  - apply ret_ok in E as [-> ->]. split; [apply keeps_refl|done].
  - cbn [write_banks] in E. apply bind_ok in E as ([] & w1 & E1 & E).
    apply mkdir_keeps with (K := []) in E1.
    apply bind_ok in E as ([] & w2 & E2 & E). apply write_text_final in E2 as [K2 Ht2].
    apply bind_ok in E as (e & w3 & E3 & E). apply (Keeps_bank_entry []) in E3.
    apply bind_ok in E as (rest & w4 & E4 & E). apply ret_ok in E as [-> ->].
    rewrite (keeps_canon _ _ _ _ E1) in K2, Ht2.
    assert (HK3 : keeps [canon w p] w w3).
    { etransitivity; [apply keeps_nil, E1|]. etransitivity; [exact K2|apply keeps_nil, E3]. }
    assert (Hc : forall q, canon w3 q = canon w q) by (intros q; by eapply keeps_canon).
    rewrite fmap_cons in Hnd. apply NoDup_cons in Hnd as [Hni Hnd].
    assert (Hcs : canon w3 <$> outs = canon w <$> outs) by (apply list_fmap_ext; intros i q _; apply Hc).
    apply IH in E4 as [K4 Hf4]; [|by rewrite Hcs]. rewrite Hcs in K4. split.
    + etransitivity; [apply keeps_head, HK3|apply keeps_tail, K4].
    + intros [|i] q Hq.
      * injection Hq as ->. destruct Ht2 as [t Ht]. exists t. rewrite Z.add_0_r.
        eapply keeps_node; [exact K4|done|]. eapply keeps_node; [exact E3|apply not_elem_of_nil|done].
      * apply Hf4 in Hq as [t Ht]. exists t. rewrite Hc in Ht. rewrite Ht. do 4 f_equal. lia.
Qed.
End banks.

(** ** The conversion *)

(** A region as [Region.parse] makes it. *)
Definition fresh_region (r : Region) : Prop :=
  0 < size r /\ image r = zeros (size r) /\ used_end r = 0.
(** A region of whole words. *)
Definition word_sized (r : Region) : Prop := size r mod 4 = 0 /\ 4 <= size r.

Lemma fresh_shows r : fresh_region r -> shows (fun _ => 0) r.
Proof.
  intros (Hs & Hi & Hu). constructor; rewrite ?Hi, ?Hu; [by apply zeros_length; lia|lia|].
  intros. apply zeros_nth.
Qed.

Lemma phdr_segment_ok blob i : bytes_ok blob -> phdr_fault blob i = false ->
  loadable blob i = true -> segment_ok (phdr_segment blob i).
Proof.
  intros Hb Hf Hl. unfold phdr_fault in Hf. rewrite Hl in Hf. cbn [andb] in Hf. bool_props.
  unfold segment_ok, phdr_segment. cbn [data memory_size].
  pose proof (u32_range blob Hb (phdr blob i + 16)). rewrite length_take. lia.
Qed.

Lemma elf_segments_ok blob : bytes_ok blob -> elf_valid blob = true ->
  Forall segment_ok (elf_segments blob).
Proof.
  intros Hb Hv. unfold elf_valid in Hv. do 2 apply andb_true_iff in Hv as [Hv ?].
  apply Forall_fmap, Forall_forall. intros i Hi. apply list_elem_of_filter in Hi as [Hl Hi].
  apply phdr_segment_ok; [done| |done].
  match goal with Hf : forallb _ _ = true |- _ => rewrite forallb_forall in Hf;
    apply list_elem_of_In, Hf in Hi end. by apply negb_true_iff in Hi.
Qed.

Section conversion.
Context `{Host}.

(** At [w], the file of [r] holds the words of [m]. *)
Definition image_written (m : memory) (trim_words : Region -> Z) (w : world)
    (k : list string) (r : Region) : Prop :=
  exists t, node_at w k = Some (File (mem_text (mem_words m (base r) (trim_words r))) t).

Lemma write_regions_final m trim : forall rs w rs' es w',
  write_regions rs trim w = (Ok (rs', es), w') ->
  Forall (shows m) rs -> Forall word_sized rs -> NoDup ((fun r => canon w (output r)) <$> rs) ->
  keeps ((fun r => canon w (output r)) <$> rs) w w' /\
  Forall (fun r => image_written m (fun r => padded_size r trim / 4) w' (canon w (output r)) r) rs.
Proof.
  induction rs as [|r rs IH]; intros w rs' es w' E Hs Hw Hnd.
  - apply ret_ok in E as [[= -> ->] ->]. split; [apply keeps_refl|done].
  - cbn [write_regions] in E. apply Forall_cons in Hs as [Hs0 Hs].
    apply Forall_cons in Hw as [[Hm H4] Hw].
    apply bind_ok in E as (r1 & w1 & E1 & E).
    apply (write_word_mem_final m) in E1 as (_ & K1 & Ht); [|done..].
    apply bind_ok in E as (e & w2 & E2 & E). apply (Keeps_region_entry []) in E2.
    apply bind_ok in E as ([rs2 es2] & w3 & E3 & E). apply ret_ok in E as [_ ->].
    assert (K2 : keeps [canon w (output r)] w w2) by (etransitivity; [exact K1|apply keeps_nil, E2]).
    assert (Hc : forall p, canon w2 p = canon w p) by (intros p; by eapply keeps_canon).
    assert (Hcs : (fun r => canon w2 (output r)) <$> rs = (fun r => canon w (output r)) <$> rs)
      by (apply list_fmap_ext; intros i x _; apply Hc).
    rewrite fmap_cons in Hnd. apply NoDup_cons in Hnd as [Hni Hnd].
    apply IH in E3 as [K3 Hf]; [|done|done|by rewrite Hcs]. rewrite Hcs in K3. split.
    + rewrite fmap_cons. etransitivity; [apply keeps_head, K2|apply keeps_tail, K3].
    + constructor.
      * destruct Ht as [t Ht]. exists t.
        eapply keeps_node; [exact K3|done|]. eapply keeps_node; [exact E2|apply not_elem_of_nil|done].
      * eapply Forall_impl; [exact Hf|]. cbv beta. intros x Hx. by rewrite Hc in Hx.
Qed.

(** The keys of the bank files. *)
Definition bank_paths (o : options) : list path :=
  from_option (fun p => [p]) [] (o_code_bank_low o) ++
  from_option (fun p => [p]) [] (o_code_bank_high o) ++
  default [] (o_iccm_lanes o) ++ default [] (o_dccm_banks o).

Lemma write_banks_leaves K w0 r pre count depth outs : forall bank,
  Forall (fun p => canon w0 p ∈ K) outs ->
  Leaves K w0 (write_banks r pre count depth bank outs).
Proof.
  induction outs as [|p outs IH]; intros bank HK; cbn [write_banks]; [solve_leaves|].
  apply Forall_cons in HK as [Hp HK].
  apply Leaves_bind; [solve_leaves|intros _]. apply Leaves_bind; [by apply Leaves_write|intros _].
  apply Leaves_bind; [apply Keeps_Leaves, Keeps_bank_entry|intros e].
  apply Leaves_bind; [by apply IH|solve_leaves].
Qed.

Lemma write_interleaved_banks_leaves K w0 r outs pre : Forall (fun p => canon w0 p ∈ K) outs ->
  Leaves K w0 (write_interleaved_banks r outs pre).
Proof.
  intros HK. unfold write_interleaved_banks.
  apply Leaves_bind; [solve_leaves|intros _]. by apply write_banks_leaves.
Qed.

Lemma write_instruction_banks_leaves K w0 r lo hi : canon w0 lo ∈ K -> canon w0 hi ∈ K ->
  Leaves K w0 (write_instruction_banks r lo hi).
Proof.
  intros Hl Hh. unfold write_instruction_banks.
  solve_leaves; first [done|apply Keeps_Leaves, Keeps_bank_entry].
Qed.

Lemma write_all_banks_leaves K w0 rs o : Forall (fun p => canon w0 p ∈ K) (bank_paths o) ->
  Leaves K w0 (write_all_banks rs (o_code_bank_low o) (o_code_bank_high o)
                (o_iccm_lanes o) (o_dccm_banks o)).
Proof.
  unfold bank_paths, write_all_banks. rewrite !Forall_app. intros (Hl & Hh & Hi & Hd).
  apply Leaves_bind; [|intros b1; apply Leaves_bind; [|intros b2; apply Leaves_bind;
    [|intros b3; solve_leaves]]].
  - destruct (o_code_bank_low o) as [lo|], (o_code_bank_high o) as [hi|]; try solve [solve_leaves].
    apply Leaves_bind; [solve_leaves|intros r].
    apply write_instruction_banks_leaves; [exact (Forall_inv Hl)|exact (Forall_inv Hh)].
  - destruct (o_iccm_lanes o) as [[|p l]|]; try solve [solve_leaves].
    apply Leaves_bind; [solve_leaves|intros _]. apply Leaves_bind; [solve_leaves|intros r].
    by apply write_interleaved_banks_leaves.
  - destruct (o_dccm_banks o) as [[|p l]|]; try solve [solve_leaves].
    apply Leaves_bind; [solve_leaves|intros _]. apply Leaves_bind; [solve_leaves|intros r].
    by apply write_interleaved_banks_leaves.
Qed.

Lemma read_bytes_ok p w blob w' : read_bytes p w = (Ok blob, w') -> bytes_ok blob.
Proof.
  unfold read_bytes. intros E. apply bind_ok in E as (c & ? & _ & E). apply ret_ok in E as [-> _].
  apply to_bytes_ok.
Qed.

Lemma same_outputs w rs rs' : Forall2 same_region rs rs' ->
  (fun r => canon w (output r)) <$> rs' = (fun r => canon w (output r)) <$> rs.
Proof.
  induction 1 as [|r r' rs rs' (_ & _ & _ & Ho) _ IH]; [done|]. rewrite !fmap_cons, Ho. by f_equal.
Qed.

Lemma same_word_sized rs rs' : Forall2 same_region rs rs' -> Forall word_sized rs ->
  Forall word_sized rs'.
Proof.
  induction 1 as [|r r' rs rs' (_ & _ & Hz & _) _ IH]; [done|]. intros Hws.
  apply Forall_cons in Hws as [Hr Hws]. constructor; [|by apply IH].
  unfold word_sized in *. by rewrite Hz.
Qed.

Lemma used_fresh regions placed segs : Forall fresh_region regions ->
  Forall2 (fun r r' => used_end r' = Z.max (used_end r) (used_extent r segs)) regions placed ->
  Forall2 (fun r r' => used_end r' = used_extent r segs) regions placed.
Proof.
  intros Hf H2. induction H2 as [|r r' l l' Hr _ IH]; [constructor|]. apply Forall_cons in Hf as [(_ & _ & Hu) Hf].
  constructor; [|by apply IH]. rewrite Hr, Hu. pose proof (used_extent_nonneg r segs). lia.
Qed.

(** What a successful conversion leaves in the region files. *)
Lemma convert_final elf regions manifest o w w' :
  convert elf regions manifest o w = (Ok tt, w') ->
  Forall fresh_region regions -> Forall word_sized regions -> disjoint_regions regions ->
  NoDup ((fun r => canon w (output r)) <$> regions) ->
  (forall r, r ∈ regions -> canon w (output r) ∉ canon w <$> bank_paths o) ->
  (forall r, r ∈ regions -> canon w (output r) <> lcanon w manifest) ->
  w_links w !! lcanon w manifest = None ->
  exists blob placed, read_bytes elf w = (Ok blob, w) /\ elf_valid blob = true /\
    Forall2 same_region regions placed /\ Forall (shows (load (elf_segments blob))) placed /\
    Forall2 (fun r r' => used_end r' = used_extent r (elf_segments blob)) regions placed /\
    Forall (fun r => image_written (load (elf_segments blob))
      (fun r => padded_size r (o_trim o) / 4) w' (canon w (output r)) r) placed /\
    exists K, keeps K w w'.
Proof.
  intros E Hfr Hws Hdis Hnd Hbk Hmf Hlk. unfold convert in E.
  apply bind_ok in E as ([entry segs] & w1 & E1 & E).
  unfold parse_elf32_little in E1. apply bind_ok in E1 as (blob & w0 & E0 & E1).
  assert (Hb : bytes_ok blob) by by eapply read_bytes_ok.
  pose proof (read_bytes_state _ _ _ _ E0) as ->.
  pose proof (parse_blob_valid blob Hb w) as Hp. destruct (elf_valid blob) eqn:Hv;
    [|destruct Hp as [msg Hp]; congruence]. rewrite Hp in E1. injection E1 as <- <- <-.
  apply bind_ok in E as ([placed pl] & w2 & E2 & E).
  pose proof (place_segments_used _ _ _ _ _ E2) as Hused.
  apply (place_segments_shows (fun _ => 0)) in E2 as (-> & Hsh & Hsame);
    [|by apply elf_segments_ok|done|by eapply Forall_impl; [exact Hfr|apply fresh_shows]].
  cbn [fst] in Hsh, Hsame.
  apply bind_ok in E as ([written es] & w3 & E3 & E).
  pose proof (same_outputs w _ _ Hsame) as Hcs. pose proof (same_word_sized _ _ Hsame Hws) as Hws'.
  apply (write_regions_final (load (elf_segments blob))) in E3 as [K3 Hf];
    [|done|done|by rewrite Hcs].
  rewrite Hcs in K3.
  apply bind_ok in E as (banks & w4 & E4 & E).
  eapply (Leaves_keeps (canon w3 <$> bank_paths o)) in E4;
    [|apply write_all_banks_leaves, Forall_forall; intros p Hp'; by apply list_elem_of_fmap_2].
  assert (Hcb : canon w3 <$> bank_paths o = canon w <$> bank_paths o)
    by (apply list_fmap_ext; intros i x _; by eapply keeps_canon).
  rewrite Hcb in E4.
  apply bind_ok in E as (p1 & w5 & E5 & E). apply (Keeps_manifest_path []) in E5.
  apply bind_ok in E as (p2 & w6 & E6 & E). apply (Keeps_sha256_file []) in E6.
  apply bind_ok in E as (p3 & w7 & E7 & E). apply (Keeps_contract_fields []) in E7.
  set (K := ((fun r => canon w (output r)) <$> regions) ++ (canon w <$> bank_paths o)).
  assert (HK : keeps K w w7).
  { etransitivity; [eapply keeps_mono; [|exact K3]; apply list_subseteq_app_l; reflexivity|].
    etransitivity; [eapply keeps_mono; [|exact E4]; apply list_subseteq_app_r; reflexivity|].
    do 2 (etransitivity; [apply keeps_nil; eassumption|]). apply keeps_nil, E7. }
  pose proof (keeps_lcanon _ _ _ manifest HK) as Hlc. pose proof (keeps_links _ _ _ HK) as Hlw.
  apply write_json_atomic_cases in E as [K8 _]; [|by rewrite Hlc, Hlw]. rewrite Hlc in K8.
  exists blob, placed. split_and!; [done..| | |].
  1: { eapply used_fresh; [exact Hfr|]. apply Hused. eapply Forall_impl; [exact Hfr|]. by intros r (_ & _ & ->). }
  2: { exists (lcanon w manifest :: K). etransitivity; [apply keeps_tail, HK|apply keeps_head, K8]. }
  apply Forall_forall. intros r Hr. rewrite Forall_forall in Hf. destruct (Hf r Hr) as [t Ht].
  exists t. assert (Hin : canon w (output r) ∈ (fun r => canon w (output r)) <$> regions).
  { rewrite <- Hcs. apply list_elem_of_fmap. by exists r. }
  apply list_elem_of_fmap in Hin as (r0 & Hr0 & Hin).
  eapply keeps_node in Ht; [|exact E4|rewrite Hr0; by apply Hbk].
  do 3 (eapply keeps_node in Ht; [|eassumption|apply not_elem_of_nil]).
  eapply keeps_node; [exact K8| |exact Ht].
  rewrite Hr0. intros Heq%list_elem_of_singleton. by eapply Hmf.
Qed.

(** The file of each region after a conversion. *)
Lemma convert_region_files elf regions manifest o w w' :
  convert elf regions manifest o w = (Ok tt, w') ->
  Forall fresh_region regions -> Forall word_sized regions -> disjoint_regions regions ->
  NoDup ((fun r => canon w (output r)) <$> regions) ->
  (forall r, r ∈ regions -> canon w (output r) ∉ canon w <$> bank_paths o) ->
  (forall r, r ∈ regions -> canon w (output r) <> lcanon w manifest) ->
  w_links w !! lcanon w manifest = None ->
  exists blob, read_bytes elf w = (Ok blob, w) /\ elf_valid blob = true /\
    forall r, r ∈ regions -> exists t, node_at w' (canon w (output r)) =
      Some (File (mem_text (mem_words (load (elf_segments blob)) (base r)
        (words_stored (o_trim o) r (elf_segments blob)))) t).
Proof.
  intros E Hfr Hws Hdis Hnd Hbk Hmf Hlk.
  apply convert_final in E as (blob & placed & E & Hv & Hsame & Hsh & Hused & Hf & _); [|done..].
  exists blob. split_and!; [done|done|]. intros r Hr.
  apply list_elem_of_lookup in Hr as [i Hi].
  destruct (Forall2_lookup_l _ _ _ _ _ Hsame Hi) as (r' & Hi' & _ & Hb & Hz & Ho).
  rewrite Forall_lookup in Hws, Hsh, Hf. destruct (Hws _ _ Hi) as [Hm H4].
  destruct (Hf _ _ Hi') as [t Ht]. rewrite Ho, Hb in Ht. exists t.
  pose proof (Forall2_lookup_lr _ _ _ _ _ _ Hused Hi Hi') as Hu.
  pose proof (Forall2_lookup_lr _ _ _ _ _ _ Hsame Hi Hi') as Hrr.
  by rewrite <- (padded_size_stored r r' _ _ Hrr Hu Hm).
Qed.
End conversion.

(** ** Properties *)

(** C5: [parse_elf32_little] refines the ELF32 format read at its fixed offsets: on a
    valid file it returns the entry point and the loadable segments in the order
    of the program headers; any other file is refused with [ValueError]. *)
Theorem parse_blob_refines (blob : list Z) w : bytes_ok blob ->
  if elf_valid blob then parse_blob blob w = (Ok (u32 blob 24, elf_segments blob), w)
  else exists msg, parse_blob blob w = (Raise (Err ValueError msg), w).
Proof. intros Hb. by apply parse_blob_valid. Qed.

(** C1: end to end, the image files are the loaded program: when [convert] succeeds on
    disjoint regions of whole words, the file of every region holds, word by word,
    the memory obtained by loading the segments of the ELF file in order (data,
    then zeros up to the memory size, zero elsewhere): the whole region, or with [trim] exactly
    its words up to the last byte of a segment in it, one word if there is none. *)
Theorem convert_writes_loaded_memory `{Host} elf regions manifest o w w' :
  convert elf regions manifest o w = (Ok tt, w') ->
  Forall fresh_region regions -> Forall word_sized regions -> disjoint_regions regions ->
  NoDup ((fun r => canon w (output r)) <$> regions) ->
  (forall r, r ∈ regions -> canon w (output r) ∉ canon w <$> bank_paths o) ->
  (forall r, r ∈ regions -> canon w (output r) <> lcanon w manifest) ->
  w_links w !! lcanon w manifest = None ->
  exists blob, read_bytes elf w = (Ok blob, w) /\ elf_valid blob = true /\
    forall r, r ∈ regions -> exists t, node_at w' (canon w (output r)) =
      Some (File (mem_text (mem_words (load (elf_segments blob)) (base r)
        (words_stored (o_trim o) r (elf_segments blob)))) t).
Proof. apply convert_region_files. Qed.

(** C12: the bank files interleave back to the flat image: when
    [write_interleaved_banks] succeeds, bank [i] of [n] holds exactly the words
    [i], [i + n], [i + 2 n], ... of the region. *)
Theorem write_interleaved_banks_stride `{Host} r outputs pre w es w' :
  write_interleaved_banks r outputs pre w = (Ok es, w') ->
  0 < size r -> NoDup (canon w <$> outputs) ->
  forall i p, outputs !! i = Some p -> exists t, node_at w' (canon w p) =
    Some (File (mem_text (stride i (length outputs) (flat_words (image r) (size r)))) t).
Proof.
  intros E Hs Hnd i p Hp. unfold write_interleaved_banks in E.
  apply bind_ok in E as ([] & w1 & E1 & E). apply fail_if_ok in E1 as [Hg ->].
  apply orb_false_iff in Hg as [Hg1 Hg2]. apply negb_false_iff in Hg2. bool_props.
  apply write_banks_final in E as [_ Hf]; [|done]. destruct (Hf _ _ Hp) as [t Ht].
  exists t. rewrite Ht. do 4 f_equal. rewrite Z.add_0_l.
  apply lookup_lt_Some in Hp. apply bank_words_stride; lia.
Qed.

(** *** Instances *)

(** An ELF file with four bytes of code at 0 and four of data at 0x1000, the data
    segment being eight bytes long in memory. *)
Definition demo_elf : list Z :=
  let h2 := to_le 2 in let h4 := to_le 4 in
  [127; 69; 76; 70; 1; 1; 1] ++ replicate 9 0 ++
  h2 2 ++ h2 243 ++ h4 1 ++ h4 0 ++ h4 52 ++ h4 0 ++ h4 0 ++
  h2 52 ++ h2 32 ++ h2 2 ++ h2 0 ++ h2 0 ++ h2 0 ++
  h4 1 ++ h4 116 ++ h4 0 ++ h4 0 ++ h4 4 ++ h4 4 ++ h4 5 ++ h4 4 ++
  h4 1 ++ h4 120 ++ h4 4096 ++ h4 4096 ++ h4 4 ++ h4 8 ++ h4 6 ++ h4 4 ++
  [1; 2; 3; 4; 170; 187; 204; 221].

Definition demo_region (n : string) (b : Z) : Region :=
  {| region_name := n; base := b; size := 16; output := Path true ["repo"; n +:+ ".mem"];
     image := zeros 16; used_end := 0; stored_words := 0 |}.
Definition demo_regions : list Region := [demo_region "CODE" 0; demo_region "DATA" 4096].

Definition demo_elf_world : world :=
  demo_world [(["repo"; "a.elf"], of_bytes demo_elf)] [["repo"]].
Definition demo_elf_path : path := Path true ["repo"; "a.elf"].
Definition demo_options : options := {|
  o_profile := "demo"; o_contract := None; o_memory_map_hash := None; o_test_status_base := None;
  o_trim := false; o_code_bank_low := None; o_code_bank_high := None;
  o_iccm_lanes := None; o_dccm_banks := None |}.

(** The same with [--trim]: of the four words of each region, one and two are stored. *)
Definition demo_trimmed : options := {|
  o_profile := "demo"; o_contract := None; o_memory_map_hash := None; o_test_status_base := None;
  o_trim := true; o_code_bank_low := None; o_code_bank_high := None;
  o_iccm_lanes := None; o_dccm_banks := None |}.
Example demo_words_stored :
  (fun r => words_stored true r (elf_segments demo_elf)) <$> demo_regions = [1; 2].
Proof. by_eval. Qed.

Lemma parse_blob_refines_witness :
  parse_blob demo_elf demo_elf_world =
  (Ok (0, [{| address := 0; data := [1; 2; 3; 4]; memory_size := 4; flags := 5 |};
           {| address := 4096; data := [170; 187; 204; 221]; memory_size := 8; flags := 6 |}]),
   demo_elf_world).
Proof.
  refine (parse_blob_refines demo_elf demo_elf_world _).
  apply Forall_forall. intros b Hb.
  assert (Hall : forallb is_byte demo_elf = true) by (vm_compute; reflexivity).
  rewrite forallb_forall in Hall. apply list_elem_of_In, Hall in Hb. unfold is_byte in Hb.
  bool_props. lia.
Defined.

Lemma convert_writes_loaded_memory_witness :
  exists blob, read_bytes (H := demo) demo_elf_path demo_elf_world = (Ok blob, demo_elf_world) /\
    elf_valid blob = true /\
    forall r, r ∈ demo_regions -> exists t,
      node_at (convert (H := demo) demo_elf_path demo_regions (Path true ["repo"; "m.json"])
                 demo_trimmed demo_elf_world).2 (canon (H := demo) demo_elf_world (output r)) =
        Some (File (mem_text (mem_words (load (elf_segments blob)) (base r)
          (words_stored true r (elf_segments blob)))) t).
Proof.
  refine (convert_writes_loaded_memory (H := demo) demo_elf_path demo_regions
    (Path true ["repo"; "m.json"]) demo_trimmed demo_elf_world _ _ _ _ _ _ _ _ _).
  - by_eval.
  - repeat constructor.
  - repeat constructor; vm_compute; done.
  - intros [|[|i]] [|[|j]] r1 r2 Hij H1 H2; simplify_eq/=; unfold apart; simpl; lia.
  - repeat constructor; vm_compute; set_solver.
  - intros r _. apply not_elem_of_nil.
  - intros r Hr. apply elem_of_cons in Hr as [->|Hr%list_elem_of_singleton]; [|subst];
      vm_compute; done.
  - by_eval.
Defined.

Definition demo_lanes : list path :=
  (fun n => Path true ["repo"; "lane" +:+ n]) <$> ["0"; "1"; "2"; "3"].
Definition demo_filled : Region := set_image (demo_region "CODE" 0) (seqZ 0 16).

Lemma write_interleaved_banks_stride_witness :
  exists t, node_at (write_interleaved_banks (H := demo) demo_filled demo_lanes "ICCM_LANE"
                       demo_elf_world).2 (canon (H := demo) demo_elf_world (Path true ["repo"; "lane2"])) =
    Some (File (mem_text [185207048]) t).
Proof.
  refine (write_interleaved_banks_stride (H := demo) demo_filled demo_lanes "ICCM_LANE"
    demo_elf_world _ _ _ _ _ 2%nat _ _).
  - vm_compute. reflexivity.
  - vm_compute. reflexivity.
  - apply (bool_decide_unpack _). vm_compute. exact I.
  - reflexivity.
Defined.
