(* ===== verification/Mmi.v ===== *)
(** [scripts/generate_manual_mmi.py]: the table of placed block RAMs is read and
    classified into the lanes of the ICCM and the banks of the DCCM, and the MMI file
    that tells [updatemem] where each word lies is generated from it. *)
From Stdlib Require Import ZArith Lia.
From S2P Require Import Prelude Str Json Xml Regex Sha256 Py Store Lib.
Local Open Scope Z_scope.
Local Open Scope py_scope.

(** ** [csv.reader] with a tab delimiter *)

Inductive csv_state := InField | InQuoted | QuoteInQuoted | StartField.

(** One line: the state, the field being read and the fields before it. *)
Fixpoint csv_chars (st : csv_state) (cur : string) (row : list string) (s : string)
    : csv_state * string * list string :=
  match s with
  | EmptyString => (st, cur, row)
  | String c s' =>
      let is_tab := Ascii.eqb c (chr 9) in
      let is_quote := Ascii.eqb c (chr 34) in
      match st with
      | StartField =>
          if is_quote then csv_chars InQuoted "" row s'
          else if is_tab then csv_chars StartField "" (row ++ [""]) s'
          else csv_chars InField (ch c) row s'
      | InField =>
          if is_tab then csv_chars StartField "" (row ++ [cur]) s'
          else csv_chars InField (cur +:+ ch c) row s'
      | InQuoted =>
          if is_quote then csv_chars QuoteInQuoted cur row s'
          else csv_chars InQuoted (cur +:+ ch c) row s'
      | QuoteInQuoted =>
          if is_quote then csv_chars InQuoted (cur +:+ dq) row s'
          else if is_tab then csv_chars StartField "" (row ++ [cur]) s'
          else csv_chars InField (cur +:+ ch c) row s'
      end
  end.

(** The rows of the lines; a quoted field goes on over the end of its line. *)
Fixpoint csv_lines (st : csv_state) (cur : string) (row : list string) (lines : list string)
    : list (list string) :=
  match lines with
  | [] => match st with InQuoted => [row ++ [cur]] | _ => [] end
  | l :: lines' =>
      let '(st', cur', row') := csv_chars st cur row l in
      match st' with
      | InQuoted => csv_lines InQuoted cur' row' lines'
      | _ => (row' ++ [cur']) :: csv_lines StartField "" [] lines'
      end
  end.
Definition csv_rows (lines : list string) : list (list string) := csv_lines StartField "" [] lines.

(** A row of [csv.DictReader]; [None] is the value of a missing column. *)
Definition dict_row (fieldnames row : list string) : list (string * option string) :=
  let d := foldl (fun d kv => dict_set kv.1 (Some kv.2) d) [] (zip fieldnames row) in
  foldl (fun d k => dict_set k None d) d (drop (length row) fieldnames).

(** ** Data *)

(** [ICCM_RE] and [DCCM_RE] *)
Definition digit_upto (hi : ascii) : re := Chr (fun c => (ord "0" <=? ord c) && (ord c <=? ord hi)).
Definition ICCM_RE : re :=
  seqs [lit "/iccm/";
        Alt (seqs [lit "lane"; Grp 1 (digit_upto "3"); lit "_reg_"; Opt (lit "bram_");
                   Grp 2 (digit_upto "7")])
            (seqs [lit "lane_q_reg["; Grp 3 (digit_upto "3"); lit "]_"; Grp 4 (digit_upto "7")]);
        Eos].
Definition DCCM_RE : re :=
  seqs [lit "/dccm_bank_gen["; Grp 1 (digit_upto "7"); lit "].bank_mem_reg_"; Opt (lit "bram_");
        Grp 2 (digit_upto "1"); Eos].

(** Read and write widths of both ports, and the bit layouts. *)
Record Geometry := Geom {
  g_read_a : Z; g_read_b : Z; g_write_a : Z; g_write_b : Z;
  g_layout_a : option string; g_layout_b : option string
}.
#[export] Instance Geometry_eq_dec : EqDecision Geometry.
Proof. solve_decision. Defined.

Definition uniform (n : Z) (layout : string) : Geometry := Geom n n n n (Some layout) (Some layout).
Definition ICCM_7SERIES_GEOMETRY : list Geometry := replicate 8 (uniform 4 "p0_d4").
Definition ICCM_ULTRASCALE_GEOMETRY : list Geometry :=
  replicate 4 (uniform 18 "p2_d16") ++ replicate 2 (uniform 9 "p1_d8") ++
  [uniform 4 "p0_d4"; uniform 2 "p0_d1"].

Record Bram := {
  cell : option string;
  loc : option string;
  ref_name : option string;
  primitive_type : option string;
  read_width_a : Z;
  read_width_b : Z;
  write_width_a : Z;
  write_width_b : Z;
  ram_mode : option string;
  porta_layout : option string;
  portb_layout : option string
}.

Definition bram_geometry (b : Bram) : Geometry :=
  Geom (read_width_a b) (read_width_b b) (write_width_a b) (write_width_b b)
    (porta_layout b) (portb_layout b).

(** [f"{value}"] *)
Definition text_of (o : option string) : string := default "None" o.

(** ** [read_bram_map] *)

Definition required_columns : list string :=
  ["cell"; "loc"; "porta_layout"; "portb_layout"; "primitive_type"; "ram_mode";
   "read_width_a"; "read_width_b"; "ref_name"; "write_width_a"; "write_width_b"].

Fixpoint split_metadata (lines : list string) : list (string * string) * list string :=
  match lines with
  | [] => ([], [])
  | raw :: lines' =>
      let '(m, d) := split_metadata lines' in
      if startswith raw "# " && contains "=" raw then (partition "=" (sdrop 2 raw) :: m, d)
      else if negb (String.eqb (strip raw) "") then (m, raw :: d)
      else (m, d)
  end.

(** [int(row[k])] *)
Definition row_int (row : list (string * option string)) (k : string) : M Z :=
  match dict_get k row with
  | Some (Some v) => lift_opt ValueError ("invalid literal for int() with base 10: " +:+ repr_str v) (py_int v)
  | Some None => raise TypeError "int() argument must be a string, a bytes-like object or a real number, not 'NoneType'"
  | None => raise KeyError (repr_str k)
  end.
Definition row_str (row : list (string * option string)) (k : string) : M (option string) :=
  lift_opt KeyError (repr_str k) (dict_get k row).

Definition row_bram (row : list (string * option string)) : M Bram :=
  c ← row_str row "cell";
  l ← row_str row "loc";
  rn ← row_str row "ref_name";
  pt ← row_str row "primitive_type";
  ra ← row_int row "read_width_a";
  rb ← row_int row "read_width_b";
  wa ← row_int row "write_width_a";
  wb ← row_int row "write_width_b";
  rm ← row_str row "ram_mode";
  la ← row_str row "porta_layout";
  lb ← row_str row "portb_layout";
  mret {| cell := c; loc := l; ref_name := rn; primitive_type := pt;
          read_width_a := ra; read_width_b := rb; write_width_a := wa; write_width_b := wb;
          ram_mode := rm; porta_layout := la; portb_layout := lb |}.

Definition read_bram_map `{Host} (p : path) : M (list (string * string) * list Bram) :=
  text ← read_text p;
  let '(pairs, data_lines) := split_metadata (splitlines text) in
  let metadata := foldl (fun d kv => dict_set kv.1 kv.2 d) [] pairs in
  fail_if (bool_decide (data_lines = [])) ValueError ("empty BRAM map: " +:+ path_str p) ;;
  match csv_rows data_lines with
  | [] => raise ValueError ("BRAM map is missing columns: " +:+ join ", " required_columns)
  | fieldnames :: rows =>
      let missing := filter (fun c => c ∉ fieldnames) required_columns in
      fail_if (negb (bool_decide (missing = []))) ValueError
        ("BRAM map is missing columns: " +:+ join ", " missing) ;;
      brams ← map_m (fun row => row_bram (dict_row fieldnames row)) rows;
      mret (metadata, brams)
  end.

(** ** [classify] *)

(** The slices of each lane or bank, as a table of tables. *)
Definition slots := list (Z * list (Z * Bram)).
Definition empty_slots (n : Z) : slots := (fun i => (i, [])) <$> seqZ 0 n.

Fixpoint zset {A} (k : Z) (v : A) (d : list (Z * A)) : list (Z * A) :=
  match d with
  | [] => [(k, v)]
  | (k', v') :: d' => if k =? k' then (k, v) :: d' else (k', v') :: zset k v d'
  end.
Fixpoint zget {A} (k : Z) (d : list (Z * A)) : option A :=
  match d with
  | [] => None
  | (k', v) :: d' => if k =? k' then Some v else zget k d'
  end.
(** [t[lane][i] = b] *)
Definition put_slot (lane i : Z) (b : Bram) (t : slots) : slots :=
  match zget lane t with Some d => zset lane (zset i b d) t | None => t end.
Definition get_slot (lane i : Z) (t : slots) : option Bram := zget lane t ≫= zget i.

Definition group_int (n : nat) (g : caps) : Z := default 0 (group n g ≫= py_int).

(** Where a cell belongs: in the ICCM or the DCCM, its lane or bank, its slice. *)
Definition cell_slot (c : string) : option (bool * Z * Z) :=
  match search ICCM_RE c with
  | Some (_, g, _) =>
      match group 1 g with
      | Some _ => Some (true, group_int 1 g, group_int 2 g)
      | None => Some (true, group_int 3 g, group_int 4 g)
      end
  | None =>
      match search DCCM_RE c with
      | Some (_, g, _) => Some (false, group_int 1 g, group_int 2 g)
      | None => None
      end
  end.

(** The loop over the block RAMs. *)
Fixpoint classify_brams (brams : list Bram) (seen_cells seen_locs : list (option string))
    (iccm dccm : slots) : M (slots * slots) :=
  match brams with
  | [] => mret (iccm, dccm)
  | b :: brams' =>
      fail_if (bool_decide (cell b ∈ seen_cells)) ValueError
        ("duplicate BRAM cell: " +:+ text_of (cell b)) ;;
      fail_if (bool_decide (loc b ∈ seen_locs)) ValueError
        ("duplicate BRAM LOC: " +:+ text_of (loc b)) ;;
      let cells := cell b :: seen_cells in
      let locs := loc b :: seen_locs in
      match cell b with
      | None => raise TypeError "expected string or bytes-like object, got 'NoneType'"
      | Some c =>
          match cell_slot c with
          | Some (true, lane, i) => classify_brams brams' cells locs (put_slot lane i b iccm) dccm
          | Some (false, bank, i) => classify_brams brams' cells locs iccm (put_slot bank i b dccm)
          | None => raise ValueError ("unrecognized ICCM/DCCM BRAM cell: " +:+ c)
          end
      end
  end.

(** [set(slices) == set(range(n))] *)
Definition full (slices : list (Z * Bram)) (n : Z) : bool :=
  forallb (fun i => match zget i slices with Some _ => true | None => false end) (seqZ 0 n) &&
  forallb (fun kb => (0 <=? kb.1) && (kb.1 <? n)) slices.

Definition lane_geometry (slices : list (Z * Bram)) : list Geometry :=
  omap (fun i => bram_geometry <$> zget i slices) (seqZ 0 8).

Definition repr_opt (o : option string) : string :=
  match o with Some s => repr_str s | None => "None" end.
Definition repr_geometry (g : Geometry) : string :=
  "(" +:+ join ", " [str_of_Z (g_read_a g); str_of_Z (g_read_b g); str_of_Z (g_write_a g);
                     str_of_Z (g_write_b g); repr_opt (g_layout_a g); repr_opt (g_layout_b g)] +:+ ")".

Fixpoint check_iccm (lanes : slots) (geometry0 : option (list Geometry)) : M unit :=
  match lanes with
  | [] => mret tt
  | (lane, slices) :: lanes' =>
      fail_if (negb (full slices 8)) ValueError
        ("ICCM lane " +:+ str_of_Z lane +:+ " does not contain slices 0..7") ;;
      let geometry := lane_geometry slices in
      fail_if (negb (bool_decide (geometry = ICCM_7SERIES_GEOMETRY)) &&
               negb (bool_decide (geometry = ICCM_ULTRASCALE_GEOMETRY))) ValueError
        ("unexpected ICCM BRAM geometry in lane " +:+ str_of_Z lane +:+ ": (" +:+
         join ", " (repr_geometry <$> geometry) +:+ ")") ;;
      match geometry0 with
      | None => check_iccm lanes' (Some geometry)
      | Some g0 =>
          fail_if (negb (bool_decide (geometry = g0))) ValueError
            ("ICCM lane " +:+ str_of_Z lane +:+ " geometry differs from lane 0") ;;
          check_iccm lanes' geometry0
      end
  end.

Definition check_dccm_slice (slices : list (Z * Bram)) (index : Z) (layout : string) : M unit :=
  match zget index slices with
  | None => raise KeyError (str_of_Z index)
  | Some b =>
      fail_if (negb (bool_decide (bram_geometry b = uniform 18 layout))) ValueError
        ("unexpected DCCM BRAM geometry at " +:+ text_of (cell b) +:+ ": " +:+
         repr_geometry (bram_geometry b))
  end.

Fixpoint check_dccm (banks : slots) : M unit :=
  match banks with
  | [] => mret tt
  | (bank, slices) :: banks' =>
      fail_if (negb (full slices 2)) ValueError
        ("DCCM bank " +:+ str_of_Z bank +:+ " does not contain slices 0 and 1") ;;
      check_dccm_slice slices 0 "p2_d16" ;;
      check_dccm_slice slices 1 "p0_d14" ;;
      check_dccm banks'
  end.

Definition classify (brams : list Bram) : M (slots * slots) :=
  '(iccm, dccm) ← classify_brams brams [] [] (empty_slots 4) (empty_slots 8);
  fail_if (negb (len brams =? 48)) ValueError
    ("expected 48 BRAMs, got " +:+ str_of_Z (len brams)) ;;
  check_iccm iccm None ;;
  check_dccm dccm ;;
  mret (iccm, dccm).

(** ** The MMI document *)

Definition removeprefix (p s : string) : string :=
  if startswith s p then sdrop (String.length p) s else s.

Definition attr_int (n : Z) : string := str_of_Z n.

(** The elements that [add_bram] adds for one port. *)
Definition port_elements (port bit_layout : string) (lsb msb begin_address end_address : Z)
    : list xml :=
  [Elem ("DataWidth_Port" +:+ port) [("MSB", str_of_Z msb); ("LSB", str_of_Z lsb)] [];
   Elem ("AddressRange_Port" +:+ port)
     [("Begin", str_of_Z begin_address); ("End", str_of_Z end_address)] [];
   Elem ("BitLayout_Port" +:+ port) [("pattern", bit_layout)] []].

(** The element [add_bram] appends to the layout. *)
Definition add_bram (b : Bram) (lsb msb begin_address end_address : Z) : M xml :=
  match ref_name b with
  | None => raise AttributeError "'NoneType' object has no attribute 'startswith'"
  | Some ref =>
      mem_type ← (if startswith ref "RAMB36" then mret "RAMB36"
                  else if startswith ref "RAMB18" then mret "RAMB18"
                  else raise ValueError ("unsupported BRAM primitive at " +:+ text_of (cell b) +:+
                                         ": " +:+ ref));
      placement ← match loc b with
                  | None => raise AttributeError "'NoneType' object has no attribute 'removeprefix'"
                  | Some l => mret (removeprefix (mem_type +:+ "_") l)
                  end;
      mret (Elem "BRAM"
              [("MemType", mem_type); ("Placement", placement);
               ("Read_Width_A", str_of_Z (read_width_a b));
               ("Read_Width_B", str_of_Z (read_width_b b)); ("SLR_INDEX", "0")]
              (port_elements "A" (text_of (porta_layout b)) lsb msb begin_address end_address ++
               port_elements "B" (text_of (portb_layout b)) lsb msb begin_address end_address ++
               [Elem "Parity" [("ON", "false"); ("NumBits", "0")] []]))
  end.

(** [add_memory_array], with the layout's block RAMs. *)
Definition add_memory_array (n : string) (brams : list xml) : xml :=
  Elem "MemoryArray"
    [("InstPath", n); ("MemoryPrimitive", "block"); ("MemoryConfiguration", "ram")]
    [Elem "MemoryLayout" [("Name", n); ("CoreMemory_Width", "32"); ("MemoryType", "RAM_TDP")] brams].

(** The position of each slice of a lane: least and most significant bit, first and
    last address. *)
Definition seven_series_ranges : list (Z * Z * Z * Z) :=
  (fun i => (i * 4, i * 4 + 3, 0, 8191)) <$> seqZ 0 8.
Definition ultrascale_ranges : list (Z * Z * Z * Z) :=
  ((fun i => (0, 17, i * 2048, i * 2048 + 2047)) <$> seqZ 0 4) ++
  ((fun i => (18, 26, (i - 4) * 4096, (i - 4) * 4096 + 4095)) <$> seqZ 4 2) ++
  [(27, 30, 0, 8191); (31, 31, 0, 8191)].
Definition dccm_ranges : list (Z * Z * Z * Z) := [(0, 17, 0, 2047); (18, 31, 0, 2047)].

Definition iccm_ranges (slices : list (Z * Bram)) : list (Z * Z * Z * Z) :=
  if bool_decide (lane_geometry slices = ICCM_7SERIES_GEOMETRY)
  then seven_series_ranges else ultrascale_ranges.

(** Slice [i] at its place, for each [i]. *)
Fixpoint add_slices (slices : list (Z * Bram)) (i : Z) (ranges : list (Z * Z * Z * Z)) : M (list xml) :=
  match ranges with
  | [] => mret []
  | (lsb, msb, lo, hi) :: ranges' =>
      match zget i slices with
      | None => raise KeyError (str_of_Z i)
      | Some b =>
          x ← add_bram b lsb msb lo hi;
          xs ← add_slices slices (i + 1) ranges';
          mret (x :: xs)
      end
  end.

Fixpoint add_arrays (prefix : string) (ranges : list (Z * Bram) -> list (Z * Z * Z * Z))
    (t : slots) : M (list xml) :=
  match t with
  | [] => mret []
  | (i, slices) :: t' =>
      brams ← add_slices slices 0 (ranges slices);
      rest ← add_arrays prefix ranges t';
      mret (add_memory_array (prefix +:+ str_of_Z i) brams :: rest)
  end.

Definition mmi_tree (part : string) (iccm dccm : slots) : M xml :=
  lanes ← add_arrays "ICCM_LANE" iccm_ranges iccm;
  banks ← add_arrays "DCCM_BANK" (fun _ => dccm_ranges) dccm;
  mret (Elem "MemInfo" [("Version", "1"); ("Minor", "9")]
          (lanes ++ banks ++
           [Elem "Config" [] [Elem "Option" [("Name", "Part"); ("Val", part)] []];
            Elem "DRC" [] [Elem "Rule" [("Name", "RDADDRCHANGE"); ("Val", "false")] []]])).

Definition array_names : list string :=
  ((fun i => "ICCM_LANE" +:+ str_of_Z i) <$> seqZ 0 4) ++
  ((fun i => "DCCM_BANK" +:+ str_of_Z i) <$> seqZ 0 8).

Section mmi.
Context `{Host}.

Definition sha256 (p : path) : M string := sha256_file p.

Definition generate (bram_map output validation : path) : M unit :=
  '(metadata, brams) ← read_bram_map bram_map;
  let part := default "" (dict_get "part" metadata) in
  fail_if (String.eqb part "") ValueError "BRAM map does not declare '# part=...'" ;;
  '(iccm, dccm) ← classify brams;
  root ← mmi_tree part iccm dccm;
  mkdir_p (parent output) ;;
  write_text output (document root) ;;
  bram_map_sha256 ← sha256 bram_map;
  mmi_sha256 ← sha256 output;
  mkdir_p (parent validation) ;;
  write_text_native validation
    (dumps_indent (JObj
      [("schema_version", JInt 1);
       ("status", JStr "pass");
       ("part", JStr part);
       ("source_dcp", match dict_get "source_dcp" metadata with Some s => JStr s | None => JNull end);
       ("bram_count", JInt (len brams));
       ("unique_loc_count", JInt (len (remove_dups (loc <$> brams))));
       ("memory_arrays", JArr (JStr <$> array_names));
       ("bram_map_sha256", JStr bram_map_sha256);
       ("mmi_sha256", JStr mmi_sha256)]) +:+ nl).

Record args := { a_bram_map : path; a_output : path; a_validation : option path }.

Definition main (a : args) : M Z :=
  let validation := match a_validation a with
                    | Some v => v
                    | None => pnames (parent (a_output a)) ["mmi_validation.json"]
                    end in
  bram_map ← resolve (a_bram_map a);
  output ← resolve (a_output a);
  v ← resolve validation;
  generate bram_map output v ;;
  output' ← resolve (a_output a);
  print ("MMI=" +:+ path_str output') ;;
  v' ← resolve validation;
  print ("VALIDATION=" +:+ path_str v') ;;
  mret 0.
End mmi.

(** ** The classification is sound *)

Lemma zget_zset {A} k k' (v : A) d : zget k (zset k' v d) = if k =? k' then Some v else zget k d.
Proof.
  induction d as [|[k2 v2] d IH]; simpl.
  - destruct (k =? k'); done.
  - destruct (k' =? k2) eqn:E; simpl; bool_props; subst.
    + destruct (k =? k2); done.
    + rewrite IH. destruct (k =? k2) eqn:E2; [|done]. bool_props. subst.
      destruct (k2 =? k') eqn:E3; [bool_props; lia|done].
Qed.

Lemma zset_keys {A} k (v v0 : A) d : zget k d = Some v0 -> (zset k v d).*1 = d.*1.
Proof.
  induction d as [|[k2 v2] d IH]; cbn [zget zset]; [done|].
  destruct (k =? k2) eqn:E; intros Hg; rewrite !fmap_cons.
  - bool_props. by subst.
  - by rewrite IH.
Qed.

Lemma zget_in {A} k (v : A) d : NoDup d.*1 -> (k, v) ∈ d -> zget k d = Some v.
Proof.
  induction d as [|[k2 v2] d IH]; simpl; intros Hnd Hin; [by apply elem_of_nil in Hin|].
  apply NoDup_cons in Hnd as [Hni Hnd]. apply elem_of_cons in Hin as [Heq|Hin].
  - simplify_eq. by rewrite Z.eqb_refl.
  - destruct (Z.eqb_spec k k2) as [->|]; [|by apply IH]. exfalso. apply Hni.
    apply list_elem_of_fmap. by exists (k2, v).
Qed.

Lemma get_put_slot lane i b t lane' i' :
  get_slot lane' i' (put_slot lane i b t) =
  if (lane' =? lane) && (i' =? i) && bool_decide (is_Some (zget lane t)) then Some b
  else get_slot lane' i' t.
Proof.
  unfold get_slot, put_slot. destruct (zget lane t) as [d|] eqn:E.
  - rewrite bool_decide_eq_true_2, andb_true_r by eauto. rewrite zget_zset.
    destruct (lane' =? lane) eqn:El; simpl; [|done]. bool_props. subst.
    rewrite zget_zset, E. simpl. done.
  - by rewrite bool_decide_eq_false_2, andb_false_r by by intros [? ?].
Qed.

Lemma put_slot_keys lane i b t : (put_slot lane i b t).*1 = t.*1.
Proof. unfold put_slot. destruct (zget lane t) eqn:E; [by eapply zset_keys|done]. Qed.

(** Every entry of the tables is a block RAM of the list, in the slot of its cell. *)
Definition slotted (brams : list Bram) (in_iccm : bool) (t : slots) : Prop :=
  forall lane i b, get_slot lane i t = Some b ->
    b ∈ brams /\ exists c, cell b = Some c /\ cell_slot c = Some (in_iccm, lane, i).

Lemma slotted_put brams b c in_iccm lane i t : b ∈ brams -> cell b = Some c ->
  cell_slot c = Some (in_iccm, lane, i) -> slotted brams in_iccm t ->
  slotted brams in_iccm (put_slot lane i b t).
Proof.
  intros Hb Hc Hs Ht lane' i' b'. rewrite get_put_slot.
  destruct ((lane' =? lane) && (i' =? i) && bool_decide (is_Some (zget lane t))) eqn:E; [|by apply Ht].
  bool_props. intros [= <-]. subst. split; [done|by exists c].
Qed.

Lemma get_empty_slot lane i n : get_slot lane i (empty_slots n) = None.
Proof.
  unfold get_slot, empty_slots. induction (seqZ 0 n) as [|k l IH]; [done|]. simpl.
  by destruct (lane =? k).
Qed.

Lemma not_seen_NoDup {A} (f : Bram -> A) x brams : NoDup (f <$> brams) ->
  (forall b, b ∈ brams -> f b = x -> False) -> NoDup (x :: (f <$> brams)).
Proof.
  intros Hn Hx. apply NoDup_cons. split; [|done]. intros Hin.
  apply list_elem_of_fmap in Hin as (b & -> & Hb). by eapply Hx.
Qed.

Lemma not_seen_tail {A} (f : Bram -> A) b brams seen x : f b ∉ seen ->
  (forall b', b' ∈ brams -> f b' ∉ x :: seen) -> forall b', b' ∈ b :: brams -> f b' ∉ seen.
Proof.
  intros Hb Hbs b' [->|Hb']%elem_of_cons; [done|]. intros Hin. apply (Hbs _ Hb'). by right.
Qed.

Lemma classify_brams_spec all brams : forall cells locs iccm dccm w t1 t2 w',
  classify_brams brams cells locs iccm dccm w = (Ok (t1, t2), w') ->
  brams ⊆ all -> slotted all true iccm -> slotted all false dccm ->
  NoDup (cell <$> brams) /\ (forall b, b ∈ brams -> cell b ∉ cells) /\
  NoDup (loc <$> brams) /\ (forall b, b ∈ brams -> loc b ∉ locs) /\
  slotted all true t1 /\ slotted all false t2 /\ t1.*1 = iccm.*1 /\ t2.*1 = dccm.*1.
Proof.
  induction brams as [|b brams IH]; intros cells locs iccm dccm w t1 t2 w' E Hall H1 H2.
  - apply ret_ok in E as [[= -> ->] ->]. split_and!; try done; try apply NoDup_nil_2;
      intros b Hb; by apply elem_of_nil in Hb.
  - cbn [classify_brams] in E. apply bind_ok in E as (u & w1 & E1 & E).
    apply fail_if_ok in E1 as [Hc ->]. apply bind_ok in E as (u' & w1 & E1 & E).
    apply fail_if_ok in E1 as [Hl ->]. bool_props.
    assert (Hb : b ∈ all) by (apply Hall; left).
    assert (Hs : brams ⊆ all) by (intros x Hx; apply Hall; by right).
    destruct (cell b) as [c|] eqn:Ec; [|done]. destruct (cell_slot c) as [[[[] lane] i]|] eqn:Es; [| |done].
    all: eapply IH in E as (Hn1 & Hc1 & Hn2 & Hl1 & Hs1 & Hs2 & Hk1 & Hk2);
      [|done|first [done|by eapply slotted_put]|first [done|by eapply slotted_put]].
    all: rewrite ?put_slot_keys in Hk1; rewrite ?put_slot_keys in Hk2; rewrite !fmap_cons, Ec.
    all: split_and!; [apply not_seen_NoDup; [done|]; intros b' Hb' Heq; apply (Hc1 b' Hb'); rewrite Heq; left
      |eapply not_seen_tail; [by rewrite Ec|exact Hc1]
      |apply not_seen_NoDup; [done|]; intros b' Hb' Heq; apply (Hl1 b' Hb'); rewrite Heq; left
      |eapply not_seen_tail; [exact Hl|exact Hl1]|done|done|done|done].
Qed.

Lemma full_get slices n i : full slices n = true -> 0 <= i < n -> is_Some (zget i slices).
Proof.
  unfold full. intros Hf Hi. apply andb_true_iff in Hf as [Hf _]. rewrite forallb_forall in Hf.
  specialize (Hf i). rewrite <- list_elem_of_In, elem_of_seqZ in Hf. specialize (Hf ltac:(lia)).
  destruct (zget i slices); [by eexists|done].
Qed.

(** What [classify] checks of the lanes and of the banks. *)
Definition lane_ok (slices : list (Z * Bram)) (g : list Geometry) : Prop :=
  full slices 8 = true /\ lane_geometry slices = g /\
  (g = ICCM_7SERIES_GEOMETRY \/ g = ICCM_ULTRASCALE_GEOMETRY).
Definition bank_ok (slices : list (Z * Bram)) : Prop :=
  full slices 2 = true /\
  (bram_geometry <$> zget 0 slices) = Some (uniform 18 "p2_d16") /\
  (bram_geometry <$> zget 1 slices) = Some (uniform 18 "p0_d14").

Lemma check_iccm_ok lanes : forall g0 w u w', check_iccm lanes g0 w = (Ok u, w') -> lanes <> [] ->
  w' = w /\ exists g, (g0 = None \/ g0 = Some g) /\ Forall (fun l => lane_ok l.2 g) lanes.
Proof.
  induction lanes as [|[lane slices] lanes IH]; intros g0 w u w' E Hne; [done|].
  cbn [check_iccm] in E.
  apply bind_ok in E as (u1 & w1 & E1 & E). apply fail_if_ok in E1 as [Hf ->].
  apply bind_ok in E as (u2 & w1 & E1 & E). apply fail_if_ok in E1 as [Hg ->].
  apply negb_false_iff in Hf.
  assert (Hok : lane_ok slices (lane_geometry slices)).
  { split_and!; [done|done|]. apply andb_false_iff in Hg as [Hg|Hg]; apply negb_false_iff in Hg;
      apply bool_decide_eq_true in Hg; auto. }
  destruct g0 as [g0|].
  - apply bind_ok in E as (u3 & w1 & E1 & E). apply fail_if_ok in E1 as [Hq ->].
    apply negb_false_iff, bool_decide_eq_true in Hq. subst g0.
    destruct lanes as [|l lanes].
    { apply ret_ok in E as [_ ->]. split; [done|]. exists (lane_geometry slices). split; [auto|by apply Forall_singleton]. }
    apply IH in E as (-> & g & [?|[= <-]] & Hall); [done| |done]. split; [done|].
      exists (lane_geometry slices). split; [auto|by constructor].
  - destruct lanes as [|l lanes].
    { apply ret_ok in E as [_ ->]. split; [done|]. exists (lane_geometry slices). split; [auto|by apply Forall_singleton]. }
    apply IH in E as (-> & g & [?|[= <-]] & Hall); [done| |done]. split; [done|].
      exists (lane_geometry slices). split; [auto|by constructor].
Qed.

Lemma check_dccm_slice_ok slices i l w u w' : check_dccm_slice slices i l w = (Ok u, w') ->
  w' = w /\ (bram_geometry <$> zget i slices) = Some (uniform 18 l).
Proof.
  unfold check_dccm_slice. destruct (zget i slices) as [b|]; [|done]. intros E.
  apply fail_if_ok in E as [Hg ->]. apply negb_false_iff, bool_decide_eq_true in Hg.
  split; [done|]. simpl. by rewrite Hg.
Qed.

Lemma check_dccm_ok banks : forall w u w', check_dccm banks w = (Ok u, w') ->
  w' = w /\ Forall (fun l => bank_ok l.2) banks.
Proof.
  induction banks as [|[bank slices] banks IH]; intros w u w' E.
  - apply ret_ok in E as [_ ->]. done.
  - cbn [check_dccm] in E.
    apply bind_ok in E as (u1 & w1 & E1 & E). apply fail_if_ok in E1 as [Hf ->].
    apply bind_ok in E as (u2 & w1 & E1 & E). apply check_dccm_slice_ok in E1 as [-> Hg0].
    apply bind_ok in E as (u3 & w1 & E1 & E). apply check_dccm_slice_ok in E1 as [-> Hg1].
    apply IH in E as [-> Hall]. split; [done|]. constructor; [|done].
    apply negb_false_iff in Hf. done.
Qed.

(** All the slots, lane by lane and bank by bank. *)
Definition slot_list (t : slots) (m n : Z) : list Bram :=
  concat ((fun lane => omap (fun i => get_slot lane i t) (seqZ 0 n)) <$> seqZ 0 m).

Definition slot_of (b : Bram) : option (bool * Z * Z) := cell b ≫= cell_slot.

Definition filled (t : slots) (m n : Z) : Prop :=
  forall lane i, 0 <= lane < m -> 0 <= i < n -> is_Some (get_slot lane i t).

Lemma slot_of_lane brams flag t lane (l : list Z) : slotted brams flag t ->
  (forall i, i ∈ l -> is_Some (get_slot lane i t)) ->
  slot_of <$> omap (fun i => get_slot lane i t) l = (fun i => Some (flag, lane, i)) <$> l.
Proof.
  intros Ht. induction l as [|i l IH]; intros Hl; [done|].
  destruct (Hl i) as [b Hb]; [left|]. destruct (Ht _ _ _ Hb) as (_ & c & Hc & Hs).
  cbn [omap list_omap]. rewrite Hb. rewrite !fmap_cons. f_equal.
  - unfold slot_of. rewrite Hc. exact Hs.
  - apply IH. intros j Hj. apply Hl. by right.
Qed.

Lemma slot_of_list brams flag t m n : slotted brams flag t -> filled t m n ->
  slot_of <$> slot_list t m n =
  concat ((fun lane => (fun i => Some (flag, lane, i)) <$> seqZ 0 n) <$> seqZ 0 m).
Proof.
  intros Ht Hf. unfold slot_list.
  assert (Hl : forall l, (forall lane, lane ∈ l -> 0 <= lane < m) ->
    slot_of <$> concat ((fun lane => omap (fun i => get_slot lane i t) (seqZ 0 n)) <$> l) =
    concat ((fun lane => (fun i => Some (flag, lane, i)) <$> seqZ 0 n) <$> l)).
  { induction l as [|lane l IH]; intros Hl; [done|]. rewrite !fmap_cons. cbn [concat].
    rewrite fmap_app, IH by (intros; apply Hl; by right). f_equal.
    apply (slot_of_lane brams); [done|]. intros i Hi. apply elem_of_seqZ in Hi.
    apply Hf; [apply Hl; left|lia]. }
  apply Hl. intros lane Hlane. apply elem_of_seqZ in Hlane. lia.
Qed.

Lemma slot_list_in brams flag t m n b : slotted brams flag t -> b ∈ slot_list t m n -> b ∈ brams.
Proof.
  intros Ht Hb. unfold slot_list in Hb. apply list_elem_of_In, in_concat in Hb as (l & Hl & Hb).
  apply list_elem_of_In, list_elem_of_fmap in Hl as (lane & -> & _).
  apply list_elem_of_In, list_elem_of_omap in Hb as (i & _ & Hb). by apply Ht in Hb as [? _].
Qed.

Lemma filled_iff t m n (P : list (Z * Bram) -> Prop) : 0 <= m -> t.*1 = seqZ 0 m ->
  (forall slices, P slices -> full slices n = true) -> Forall (fun l => P l.2) t -> filled t m n.
Proof.
  intros Hm Hk HP Hall lane i Hl Hi. unfold get_slot.
  assert (Hin : lane ∈ t.*1) by (rewrite Hk; apply elem_of_seqZ; lia).
  apply list_elem_of_fmap in Hin as ([lane' slices] & -> & Hin). cbn [fst].
  rewrite (zget_in lane' slices t); [|rewrite Hk; apply NoDup_seqZ|done]. simpl.
  rewrite Forall_forall in Hall. apply (full_get _ n); [|done]. by apply HP, (Hall _ Hin).
Qed.

(** What a successful classification says of the list and of the tables. *)
Record classified (brams : list Bram) (iccm dccm : slots) : Prop := {
  cl_count : length brams = 48%nat;
  cl_cells : NoDup (cell <$> brams);
  cl_locs : NoDup (loc <$> brams);
  cl_iccm_keys : iccm.*1 = seqZ 0 4;
  cl_dccm_keys : dccm.*1 = seqZ 0 8;
  cl_iccm : slotted brams true iccm;
  cl_dccm : slotted brams false dccm;
  cl_lanes : exists g, Forall (fun l => lane_ok l.2 g) iccm;
  cl_banks : Forall (fun l => bank_ok l.2) dccm
}.

Lemma classify_ok brams w iccm dccm w' : classify brams w = (Ok (iccm, dccm), w') ->
  w' = w /\ classified brams iccm dccm.
Proof.
  intros E. unfold classify in E. apply bind_ok in E as ([t1 t2] & w1 & E1 & E).
  assert (Hw1 : w1 = w).
  { revert E1. clear. generalize (@nil (option string)) at 1. generalize (@nil (option string)).
    generalize (empty_slots 4). generalize (empty_slots 8).
    induction brams as [|b brams IH]; intros s1 s2 c l E; [by apply ret_ok in E as [_ ->]|].
    cbn [classify_brams] in E. apply bind_ok in E as (u & w2 & E1 & E).
    apply fail_if_ok in E1 as [_ ->]. apply bind_ok in E as (u' & w2 & E1 & E).
    apply fail_if_ok in E1 as [_ ->].
    destruct (cell b); [|done]. destruct (cell_slot _) as [[[[] ?] ?]|]; [by eapply IH|by eapply IH|done]. }
  subst w1.
  apply (classify_brams_spec brams) in E1 as (Hn1 & _ & Hn2 & _ & Hs1 & Hs2 & Hk1 & Hk2); [|done| |];
    [|intros lane i b Hb; by rewrite get_empty_slot in Hb..].
  apply bind_ok in E as (u & w1 & E1 & E). apply fail_if_ok in E1 as [Hlen ->].
  apply negb_false_iff, Z.eqb_eq in Hlen.
  assert (Hk1' : t1.*1 = seqZ 0 4) by (rewrite Hk1; reflexivity).
  assert (Hk2' : t2.*1 = seqZ 0 8) by (rewrite Hk2; reflexivity).
  apply bind_ok in E as (u1 & w1 & E1 & E). apply check_iccm_ok in E1 as (-> & g & _ & Hg);
    [|intros ->; done].
  apply bind_ok in E as (u2 & w1 & E1 & E). apply check_dccm_ok in E1 as (-> & Hd).
  apply ret_ok in E as [[= -> ->] ->]. split; [done|]. constructor; try done; [lia|by exists g].
Qed.

Lemma classified_filled brams iccm dccm : classified brams iccm dccm ->
  filled iccm 4 8 /\ filled dccm 8 2.
Proof.
  intros [_ _ _ Hk1 Hk2 _ _ [g Hl] Hb]. split.
  - by apply (filled_iff _ _ _ (fun s => lane_ok s g)); [|done|intros s Hs; apply Hs|].
  - by apply (filled_iff _ _ _ bank_ok); [|done|intros s Hs; apply Hs|].
Qed.

Lemma classified_permutation brams iccm dccm : classified brams iccm dccm ->
  Permutation brams (slot_list iccm 4 8 ++ slot_list dccm 8 2).
Proof.
  intros Hc. destruct (classified_filled _ _ _ Hc) as [Hf1 Hf2].
  pose proof (slot_of_list brams true iccm 4 8 (cl_iccm _ _ _ Hc) Hf1) as H1.
  pose proof (slot_of_list brams false dccm 8 2 (cl_dccm _ _ _ Hc) Hf2) as H2.
  assert (Hall : slot_of <$> (slot_list iccm 4 8 ++ slot_list dccm 8 2) =
    concat ((fun lane => (fun i => Some (true, lane, i)) <$> seqZ 0 8) <$> seqZ 0 4) ++
    concat ((fun lane => (fun i => Some (false, lane, i)) <$> seqZ 0 2) <$> seqZ 0 8))
    by by rewrite fmap_app, H1, H2.
  symmetry. apply submseteq_length_Permutation.
  - apply NoDup_submseteq.
    + apply (NoDup_fmap_1 slot_of). rewrite Hall. apply (bool_decide_unpack _). by vm_compute.
    + intros b Hb. apply elem_of_app in Hb as [Hb|Hb];
        [exact (slot_list_in _ _ _ _ _ _ (cl_iccm _ _ _ Hc) Hb)
        |exact (slot_list_in _ _ _ _ _ _ (cl_dccm _ _ _ Hc) Hb)].
  - rewrite (cl_count _ _ _ Hc), <- (length_fmap slot_of), Hall.
    apply Nat.eq_le_incl. vm_compute. reflexivity.
Qed.

(** ** The layout covers every bit once *)

(** The bits and addresses of a [BRAM] element, at port A. *)
Definition child_attr (t k : string) (x : xml) : option Z :=
  match Xml.findall t x with
  | c :: _ => dict_get k (attrib c) ≫= py_int
  | [] => None
  end.
Definition bram_range (x : xml) : option (Z * Z * Z * Z) :=
  lsb ← child_attr "DataWidth_PortA" "LSB" x;
  msb ← child_attr "DataWidth_PortA" "MSB" x;
  lo ← child_attr "AddressRange_PortA" "Begin" x;
  hi ← child_attr "AddressRange_PortA" "End" x;
  Some (lsb, msb, lo, hi).

(** Bit [bit] of the word at address [a] lies in the range. *)
Definition range_covers (a bit : Z) (r : Z * Z * Z * Z) : bool :=
  let '(lsb, msb, lo, hi) := r in (lsb <=? bit) && (bit <=? msb) && (lo <=? a) && (a <=? hi).
Definition bram_covers (a bit : Z) (x : xml) : bool :=
  match bram_range x with Some r => range_covers a bit r | None => false end.

Definition nonneg_range (r : Z * Z * Z * Z) : bool :=
  let '(lsb, msb, lo, hi) := r in (0 <=? lsb) && (0 <=? msb) && (0 <=? lo) && (0 <=? hi).

Lemma add_bram_range b lsb msb lo hi w x w' : nonneg_range (lsb, msb, lo, hi) = true ->
  add_bram b lsb msb lo hi w = (Ok x, w') -> bram_range x = Some (lsb, msb, lo, hi).
Proof.
  intros Hn E. unfold nonneg_range in Hn. bool_props. unfold add_bram in E.
  destruct (ref_name b); [|done]. apply bind_ok in E as (mt & w1 & _ & E).
  apply bind_ok in E as (pl & w2 & _ & E). apply ret_ok in E as [-> _].
  unfold bram_range, child_attr, Xml.findall. simpl. by rewrite !py_int_str_of_Z by done.
Qed.

Lemma add_slices_ranges slices ranges : forall i w xs w', forallb nonneg_range ranges = true ->
  add_slices slices i ranges w = (Ok xs, w') -> w' = w /\ bram_range <$> xs = Some <$> ranges.
Proof.
  induction ranges as [|[[[lsb msb] lo] hi] ranges IH]; intros i w xs w' Hn E.
  - by apply ret_ok in E as [-> ->].
  - cbn [forallb] in Hn. apply andb_true_iff in Hn as [Hr Hn]. cbn [add_slices] in E.
    destruct (zget i slices) as [b|]; [|done].
    apply bind_ok in E as (x & w1 & E1 & E). pose proof (add_bram_range _ _ _ _ _ _ _ _ Hr E1) as Hx.
    assert (w1 = w) as ->.
    { unfold add_bram in E1. destruct (ref_name b); [|done].
      apply bind_ok in E1 as (mt & w2 & E2 & E1). apply bind_ok in E1 as (pl & w3 & E3 & E1).
      apply ret_ok in E1 as [_ ->]. destruct (loc b); [|done]. apply ret_ok in E3 as [_ ->].
      repeat case_match; by inversion E2. }
    apply bind_ok in E as (xs' & w2 & E2 & E). apply ret_ok in E as [-> ->].
    apply IH in E2 as [-> Hxs]; [|done]. split; [done|]. by rewrite !fmap_cons, Hx, Hxs.
Qed.

Lemma count_covers a bit xs ranges : bram_range <$> xs = Some <$> ranges ->
  length (List.filter (bram_covers a bit) xs) = length (List.filter (range_covers a bit) ranges).
Proof.
  revert ranges. induction xs as [|x xs IH]; intros [|r ranges] H; simplify_eq/=; [done|].
  match goal with H : bram_range x = _ |- _ => unfold bram_covers at 1; rewrite H end.
  destruct (range_covers a bit r); simpl; auto.
Qed.

(** A range whose addresses are whole blocks of 2048 words. *)
Definition blocky (r : Z * Z * Z * Z) : bool :=
  let '(_, _, lo, hi) := r in (lo mod 2048 =? 0) && ((hi + 1) mod 2048 =? 0).

Lemma range_covers_block a bit r : blocky r = true ->
  range_covers a bit r = range_covers (2048 * (a / 2048)) bit r.
Proof.
  destruct r as [[[lsb msb] lo] hi]. unfold blocky, range_covers. intros Hb. bool_props.
  f_equal; [f_equal|]; apply eq_true_iff_eq; rewrite !Z.leb_le; dlia.
Qed.

Lemma covered_once ranges blocks a bit : forallb blocky ranges = true ->
  forallb (fun q => forallb (fun bit =>
    Nat.eqb (length (List.filter (range_covers (2048 * q) bit) ranges)) 1) (seqZ 0 32))
    (seqZ 0 blocks) = true ->
  0 <= a < 2048 * blocks -> 0 <= bit < 32 ->
  length (List.filter (range_covers a bit) ranges) = 1%nat.
Proof.
  intros Hb Hall Ha Hbit.
  assert (Heq : List.filter (range_covers a bit) ranges =
                List.filter (range_covers (2048 * (a / 2048)) bit) ranges).
  { clear -Hb. induction ranges as [|r ranges IH]; [done|]. cbn [forallb] in Hb.
    apply andb_true_iff in Hb as [Hr Hb]. cbn [List.filter].
    rewrite (range_covers_block a) by done. by rewrite IH. }
  rewrite Heq. rewrite forallb_forall in Hall. specialize (Hall (a / 2048)).
  rewrite <- list_elem_of_In, elem_of_seqZ in Hall. specialize (Hall ltac:(dlia)).
  rewrite forallb_forall in Hall. specialize (Hall bit).
  rewrite <- list_elem_of_In, elem_of_seqZ in Hall. specialize (Hall ltac:(lia)).
  by apply Nat.eqb_eq in Hall.
Qed.

(** Every bit of a word is in one block RAM of its array. *)
Lemma slices_cover_once slices w xs w' a bit :
  (add_slices slices 0 (iccm_ranges slices) w = (Ok xs, w') /\ 0 <= a < 8192 \/
   add_slices slices 0 dccm_ranges w = (Ok xs, w') /\ 0 <= a < 2048) ->
  0 <= bit < 32 -> length (List.filter (bram_covers a bit) xs) = 1%nat.
Proof.
  intros [[E Ha]|[E Ha]] Hbit.
  - unfold iccm_ranges in E. destruct (bool_decide _);
      (apply add_slices_ranges in E as [_ Hr]; [|vm_compute; reflexivity];
       rewrite (count_covers _ _ _ _ Hr); apply (covered_once _ 4);
       [vm_compute; reflexivity|vm_compute; reflexivity|lia|done]).
  - apply add_slices_ranges in E as [_ Hr]; [|vm_compute; reflexivity].
    rewrite (count_covers _ _ _ _ Hr). apply (covered_once _ 1);
      [vm_compute; reflexivity|vm_compute; reflexivity|lia|done].
Qed.

(** ** Properties *)

(** C7: a successful [classify] accounts for every block RAM: there are exactly 48,
    with distinct cells and locations, and they are, up to order, the eight slices of
    the four ICCM lanes and the two slices of the eight DCCM banks, each in the
    slot that its cell name denotes. *)
Theorem classify_complete brams w iccm dccm w' : classify brams w = (Ok (iccm, dccm), w') ->
  length brams = 48%nat /\ NoDup (cell <$> brams) /\ NoDup (loc <$> brams) /\
  Permutation brams (slot_list iccm 4 8 ++ slot_list dccm 8 2) /\
  (forall lane i b, get_slot lane i iccm = Some b -> slot_of b = Some (true, lane, i)) /\
  (forall bank i b, get_slot bank i dccm = Some b -> slot_of b = Some (false, bank, i)).
Proof.
  intros E. apply classify_ok in E as [_ Hc]. split_and!; try apply Hc.
  - by apply classified_permutation.
  - intros lane i b Hb. apply (cl_iccm _ _ _ Hc) in Hb as (_ & c & Hb & Hs). unfold slot_of. by rewrite Hb.
  - intros lane i b Hb. apply (cl_dccm _ _ _ Hc) in Hb as (_ & c & Hb & Hs). unfold slot_of. by rewrite Hb.
Qed.

(** C6: in the generated MMI every bit of every word is in exactly one block RAM:
    for each of the 32 bits of the 8192 words of an ICCM lane, and of the 2048 words
    of a DCCM bank, exactly one [BRAM] element of the memory layout covers it. *)
Theorem layout_covers_once slices w xs w' a bit :
  (add_slices slices 0 (iccm_ranges slices) w = (Ok xs, w') /\ 0 <= a < 8192 \/
   add_slices slices 0 dccm_ranges w = (Ok xs, w') /\ 0 <= a < 2048) ->
  0 <= bit < 32 -> length (List.filter (bram_covers a bit) xs) = 1%nat.
Proof. apply slices_cover_once. Qed.

(** *** Instances *)

Definition demo_bram (c l r : string) (g : Geometry) : Bram := {|
  cell := Some c; loc := Some l; ref_name := Some r; primitive_type := Some "BLOCKRAM";
  read_width_a := g_read_a g; read_width_b := g_read_b g;
  write_width_a := g_write_a g; write_width_b := g_write_b g;
  ram_mode := Some "TDP"; porta_layout := g_layout_a g; portb_layout := g_layout_b g |}.

Definition demo_brams : list Bram :=
  concat ((fun lane => (fun ig =>
    demo_bram ("core/iccm/lane" +:+ str_of_Z lane +:+ "_reg_bram_" +:+ str_of_Z ig.1)
      ("RAMB36_X" +:+ str_of_Z lane +:+ "Y" +:+ str_of_Z ig.1) "RAMB36E1" ig.2)
    <$> zip (seqZ 0 8) ICCM_ULTRASCALE_GEOMETRY) <$> seqZ 0 4) ++
  concat ((fun bank => (fun ig =>
    demo_bram ("core/dccm_bank_gen[" +:+ str_of_Z bank +:+ "].bank_mem_reg_" +:+ str_of_Z ig.1)
      ("RAMB36_X9Y" +:+ str_of_Z (2 * bank + ig.1)) "RAMB36E1" (uniform 18 ig.2))
    <$> [(0, "p2_d16"); (1, "p0_d14")]) <$> seqZ 0 8).

Definition demo_slots : slots * slots :=
  match (classify demo_brams (demo_world [] [])).1 with Ok t => t | Raise _ => ([], []) end.

Lemma classify_complete_witness :
  Permutation demo_brams (slot_list demo_slots.1 4 8 ++ slot_list demo_slots.2 8 2).
Proof.
  refine (proj1 (proj2 (proj2 (proj2 (classify_complete demo_brams (demo_world [] [])
    demo_slots.1 demo_slots.2 (demo_world [] []) _))))).
  vm_compute. reflexivity.
Defined.

Definition demo_slices : list (Z * Bram) := default [] (zget 2 demo_slots.1).
Definition demo_layout : list xml :=
  match (add_slices demo_slices 0 (iccm_ranges demo_slices) (demo_world [] [])).1 with
  | Ok xs => xs
  | Raise _ => []
  end.

Lemma layout_covers_once_witness :
  length (List.filter (bram_covers 5000 18) demo_layout) = 1%nat.
Proof.
  apply (layout_covers_once demo_slices (demo_world [] []) demo_layout (demo_world [] []));
    [left; split; [vm_compute; reflexivity|lia]|lia].
Defined.
