(* ===== verification/PatchBit.v ===== *)
(** [scripts/patch_bitstream.py]: the software images of a run are split into the
    lanes and banks of the tightly coupled memories and patched, one [updatemem]
    run after the other, into a bitstream that has been built before. *)
From Stdlib Require Import ZArith Lia.
From S2P Require Import Prelude Str Json Xml Regex Sha256 Py Store Lib Bytes Mmi.
Local Open Scope Z_scope.
Local Open Scope py_scope.

Definition EXPECTED_ARRAYS : list string :=
  ((fun index => "ICCM_LANE" +:+ str_of_Z index) <$> seqZ 0 4) ++
  ((fun index => "DCCM_BANK" +:+ str_of_Z index) <$> seqZ 0 8).
Definition FAILURE_MARKERS : list string :=
  ["ERROR:"; "update_mem failed"; "Abnormal program termination"].
Definition BASE_BIT_RELATIVE : path :=
  Path false ["project"; "socrv.runs"; "impl_1"; "fpga_top.bit"].

(** [re.fullmatch(r"[0-9A-Fa-f]{8}", word)] *)
Definition HEX_WORD : re := seqs (replicate 8 (Chr is_hex)).
Definition hex_word (word : string) : bool :=
  match fullmatch HEX_WORD word with Some _ => true | None => false end.

(** The lines from [line_number] on. *)
Fixpoint check_lines (p : path) (line_number : Z) (lines : list string) : M (list string) :=
  match lines with
  | [] => mret []
  | raw :: lines' =>
      let word := strip raw in
      fail_if (negb (hex_word word)) ValueError
        (path_str p +:+ ":" +:+ str_of_Z line_number +:+ ": expected exactly 8 hexadecimal digits") ;;
      words ← check_lines p (line_number + 1) lines';
      mret (lower word :: words)
  end.

Definition split_words (words : list string) (ways : nat) : M (list (list string)) :=
  fail_if (negb (len words mod Z.of_nat ways =? 0)) ValueError
    ("cannot split " +:+ str_of_Z (len words) +:+ " words into " +:+ str_of_Z (Z.of_nat ways) +:+
     " interleaved memories") ;;
  mret ((fun index => stride index ways words) <$> seq 0 ways).

(** The text of a tuple; one of a single element ends in a comma. *)
Definition repr_strings (l : list string) : string :=
  match l with
  | [x] => "(" +:+ repr_str x +:+ ",)"
  | _ => "(" +:+ join ", " (repr_str <$> l) +:+ ")"
  end.

(** [arrays] of the document, then the part it declares. *)
Definition validate_tree (root : xml) : M (string * list string) :=
  let arrays := (fun node => default "" (dict_get "InstPath" (attrib node))) <$>
                Xml.findall "MemoryArray" root in
  fail_if (negb (bool_decide (arrays = EXPECTED_ARRAYS))) ValueError
    ("MMI memory arrays must be exactly " +:+ repr_strings EXPECTED_ARRAYS +:+ ", got " +:+
     repr_strings arrays) ;;
  match find_attr "Config" "Option" "Name" "Part" root with
  | Some option =>
      let part := default "" (dict_get "Val" (attrib option)) in
      fail_if (String.eqb part "") ValueError "MMI does not declare the FPGA Part" ;;
      mret (part, arrays)
  | None => raise ValueError "MMI does not declare the FPGA Part"
  end.

Section patch.
Context `{Host}.

Definition read_flat_mem (p : path) (expected_words : Z) : M (list string) :=
  text ← read_text p;
  words ← check_lines p 1 (splitlines text);
  fail_if (negb (len words =? expected_words)) ValueError
    (path_str p +:+ ": expected " +:+ str_of_Z expected_words +:+ " words, got " +:+
     str_of_Z (len words)) ;;
  mret words.

Definition write_updatemem_file (p : path) (words : list string) : M unit :=
  write_text_native p ("@00000000" +:+ nl +:+ join nl words +:+ nl).

Definition validate_mmi (p : path) : M (string * list string) :=
  text ← read_raw p;
  root ← lift_opt ParseError "not well-formed" (parse_xml text);
  validate_tree root.

(** The first candidate that is a file. *)
Fixpoint first_file (candidates : list path) : M (option path) :=
  match candidates with
  | [] => mret None
  | c :: candidates' =>
      f ← is_file c;
      if f : bool then mret (Some c) else first_file candidates'
  end.

Definition find_updatemem (explicit : option path) : M path :=
  let candidates :=
    match explicit with Some p => [p] | None => [] end ++
    match getenv "XILINX_VIVADO" with
    | Some v => if String.eqb v "" then [] else [pnames (parse_path v) ["bin"; "updatemem.bat"]]
    | None => []
    end ++
    [parse_path "D:\Xilinx\Vivado\2023.2\bin\updatemem.bat";
     parse_path "C:\Xilinx\Vivado\2023.2\bin\updatemem.bat"] in
  found ← first_file candidates;
  match found with
  | Some c => resolve c
  | None =>
      exe ← which "updatemem";
      bat ← which "updatemem.bat";
      match exe, bat with
      | Some e, _ => resolve (parse_path e)
      | None, Some b => resolve (parse_path b)
      | None, None => raise FileNotFoundError "updatemem was not found; pass --updatemem"
      end
  end.

Definition run_update (executable mmi data source_bit : path) (proc : string)
    (output_bit log : path) (expected_size : Z) : M json :=
  '(returncode, out, err) ← subprocess_run
     (MkCommand [path_str executable; "--force"; "--meminfo"; path_str mmi; "--data"; path_str data;
               "--bit"; path_str source_bit; "--proc"; proc; "--out"; path_str output_bit]
        (Some (parent output_bit)) host_environ None (String.eqb host_platform "win32"));
  (* standard error goes to the same pipe *)
  let text := out +:+ err in
  write_text_native log text ;;
  let errors := filter (fun marker => contains marker text = true) FAILURE_MARKERS in
  let success_marker := contains "update_mem completed successfully" text in
  output_exists ← is_file output_bit;
  output_size ← (if output_exists : bool then n ← stat_size output_bit; mret (Some n)
                 else mret None);
  let passed := (returncode =? 0) && bool_decide (errors = []) && success_marker &&
                output_exists && bool_decide (output_size = Some expected_size) in
  data_sha256 ← sha256 data;
  input_bit_sha256 ← sha256 source_bit;
  let result :=
    [("proc", JStr proc);
     ("data_sha256", JStr data_sha256);
     ("input_bit_sha256", JStr input_bit_sha256);
     ("returncode", JInt returncode);
     ("failure_markers", JArr (JStr <$> errors));
     ("success_marker", JBool success_marker);
     ("output_exists", JBool output_exists);
     ("output_size", match output_size with Some n => JInt n | None => JNull end);
     ("status", JStr (if passed then "pass" else "fail"))] in
  extra ← (if output_exists : bool
           then d ← sha256 output_bit; mret [("output_sha256", JStr d)]
           else mret []);
  let result := JObj (result ++ extra) in
  if negb passed
  then raise RuntimeError ("updatemem validation failed for " +:+ proc +:+ ": " +:+ repr_json result)
  else mret result.

(** The files of the lanes or banks, with the arrays they belong to. *)
Fixpoint write_image_files (work : path) (array file : string) (index : Z) (l : list (list string))
    : M (list (string * path)) :=
  match l with
  | [] => mret []
  | words :: l' =>
      let p := pnames work [file +:+ str_of_Z index +:+ ".mem"] in
      write_updatemem_file p words ;;
      rest ← write_image_files work array file (index + 1) l';
      mret ((array +:+ str_of_Z index, p) :: rest)
  end.

Definition two_digits (n : Z) : string := zfill 2 (str_of_Z n).

(** The [updatemem] runs, each on the output of the one before. *)
Fixpoint patch_steps (executable mmi work current_bit : path) (expected_size step_number : Z)
    (image_files : list (string * path)) : M (path * list json) :=
  match image_files with
  | [] => mret (current_bit, [])
  | (proc, mem) :: image_files' =>
      let next_bit := pnames work ["stage-" +:+ two_digits step_number +:+ ".bit"] in
      let log := pnames work ["stage-" +:+ two_digits step_number +:+ ".log"] in
      step ← run_update executable mmi mem current_bit proc next_bit log expected_size;
      '(final, steps) ← patch_steps executable mmi work next_bit expected_size (step_number + 1)
                          image_files';
      mret (final, step :: steps)
  end.

(** What happens in the temporary directory. *)
Definition patch_in (work bram_map base_bit final_bit executable : path)
    (code_words data_words : list string) (expected_size : Z)
    : M (string * list json * string * json) :=
  let mmi := pnames work ["base.mmi"] in
  let validation := pnames work ["mmi_validation.json"] in
  generate bram_map mmi validation ;;
  '(part, arrays) ← validate_mmi mmi;
  lanes ← split_words code_words 4;
  iccm_files ← write_image_files work "ICCM_LANE" "iccm_lane" 0 lanes;
  banks ← split_words data_words 8;
  dccm_files ← write_image_files work "DCCM_BANK" "dccm_bank" 0 banks;
  let image_files := iccm_files ++ dccm_files in
  fail_if (negb (bool_decide (image_files.*1 = arrays))) AssertionError
    "internal update order does not match MMI" ;;
  '(current_bit, steps) ← patch_steps executable mmi work base_bit expected_size 1 image_files;
  copy2 current_bit final_bit ;;
  mmi_sha256 ← sha256 mmi;
  validation_payload ← load_json validation;
  mret (part, steps, mmi_sha256, validation_payload).

Fixpoint require_files (l : list path) : M unit :=
  match l with
  | [] => mret tt
  | p :: l' =>
      f ← is_file p;
      fail_if (negb f) FileNotFoundError (path_str p) ;;
      require_files l'
  end.
Fixpoint refuse_existing (l : list path) : M unit :=
  match l with
  | [] => mret tt
  | p :: l' =>
      e ← exists_ p;
      fail_if e FileExistsError ("refusing to overwrite existing output: " +:+ path_str p) ;;
      refuse_existing l'
  end.

(** A file of the result, with its digest. *)
Definition file_entry (p : path) : M json :=
  d ← sha256 p; mret (JObj [("path", JStr (path_str p)); ("sha256", JStr d)]).

Definition patch (base_dir out_dir : path) (updatemem : option path) : M path :=
  let base_bit := joinpath base_dir BASE_BIT_RELATIVE in
  let bram_map := pnames base_dir ["bram_map.tsv"] in
  let code_mem := pnames out_dir ["images"; "code.mem"] in
  let data_mem := pnames out_dir ["images"; "data.mem"] in
  let final_bit := pnames out_dir ["competition.bit"] in
  let result_path := pnames out_dir ["patch_result.json"] in
  require_files [base_bit; bram_map; code_mem; data_mem] ;;
  refuse_existing [final_bit; result_path] ;;
  mkdir_p out_dir ;;
  code_words ← read_flat_mem code_mem 32768;
  data_words ← read_flat_mem data_mem 16384;
  executable ← find_updatemem updatemem;
  expected_size ← stat_size base_bit;
  '(part, steps, mmi_sha256, validation_payload) ← with_temp_dir "socrv-patch-"
     (fun work => patch_in work bram_map base_bit final_bit executable code_words data_words
                    expected_size);
  created ← gets host_now;
  base_sha256 ← sha256 base_bit;
  bram_map_entry ← file_entry bram_map;
  code_entry ← file_entry code_mem;
  data_entry ← file_entry data_mem;
  final_size ← stat_size final_bit;
  final_sha256 ← sha256 final_bit;
  write_text_native result_path
    (dumps_indent (JObj
      [("schema_version", JInt 1);
       ("status", JStr "pass");
       ("created_utc", JStr created);
       ("part", JStr part);
       ("updatemem", JStr (path_str executable));
       ("base_dir", JStr (path_str base_dir));
       ("base_bit", JObj [("path", JStr (path_str base_bit)); ("size", JInt expected_size);
                          ("sha256", JStr base_sha256)]);
       ("bram_map", bram_map_entry);
       ("generated_mmi", JObj [("sha256", JStr mmi_sha256); ("validation", validation_payload)]);
       ("code_mem", code_entry);
       ("data_mem", data_entry);
       ("steps", JArr steps);
       ("competition_bit", JObj [("path", JStr (path_str final_bit)); ("size", JInt final_size);
                                 ("sha256", JStr final_sha256)])]) +:+ nl) ;;
  mret result_path.

Record args := { a_base_dir : path; a_out_dir : path; a_updatemem : option path }.

Definition main (a : args) : M Z :=
  base_dir ← resolve (a_base_dir a);
  out_dir ← resolve (a_out_dir a);
  updatemem ← match a_updatemem a with
              | Some p => q ← resolve p; mret (Some q)
              | None => mret None
              end;
  result ← patch base_dir out_dir updatemem;
  print ("PATCH_RESULT=" +:+ path_str result) ;;
  print ("BITSTREAM=" +:+ path_str (pnames (parent result) ["competition.bit"])) ;;
  mret 0.
End patch.

(** ** Reading back a MEM image *)

Lemma hex_word_hex08 n : 0 <= n < 2 ^ 32 -> hex_word (hex08 n) = true.
Proof.
  intros Hn. destruct (hex08_spec n Hn) as [Hl Hh]. unfold hex_word, fullmatch, HEX_WORD.
  assert (Hs : sforall is_hex (hex08 n) = true).
  { eapply sforall_impl; [|exact Hh]. intros c Hc. by apply hex_lower_spec in Hc as [-> _]. }
  destruct (hex08 n) as [|c1 [|c2 [|c3 [|c4 [|c5 [|c6 [|c7 [|c8 [|c9 s]]]]]]]]]; try done.
  cbn [sforall] in Hs. repeat (apply andb_true_iff in Hs as [? Hs]).
  cbn [replicate seqs Regex.run].
  repeat match goal with H : is_hex _ = true |- _ => rewrite H; clear H end. done.
Qed.

Lemma mem_text_cons n ws : mem_text (n :: ws) = hex08 n +:+ nl +:+ mem_text ws.
Proof.
  unfold mem_text. rewrite fmap_cons. unfold mem_line at 1.
  destruct (mem_line <$> ws) as [|x l]; [cbn [String.concat]; by rewrite sapp_nil_r|].
  change (String.concat "" ((hex08 n +:+ nl) :: x :: l)) with
    ((hex08 n +:+ nl) +:+ "" +:+ String.concat "" (x :: l)).
  by rewrite !sapp_assoc.
Qed.

Lemma splitlines_mem_text ws : Forall (fun n => 0 <= n < 2 ^ 32) ws ->
  splitlines (mem_text ws) = hex08 <$> ws.
Proof.
  induction 1 as [|n ws Hn Hws IH]; [done|]. rewrite mem_text_cons, splitlines_line.
  - by rewrite IH.
  - destruct (hex08_spec n Hn) as [_ Hh]. eapply sforall_impl; [|exact Hh].
    intros c. apply hex_lower_line.
Qed.

Lemma mem_text_ok ws : text_ok (mem_text ws) = true.
Proof.
  induction ws as [|n ws IH]; [done|]. rewrite mem_text_cons.
  apply text_ok_app; [apply text_ok_plain, hex08_plain|]. by apply text_ok_app.
Qed.

Lemma check_lines_hex08 p ws : forall k w, Forall (fun n => 0 <= n < 2 ^ 32) ws ->
  check_lines p k (hex08 <$> ws) w = (Ok (hex08 <$> ws), w).
Proof.
  induction ws as [|n ws IH]; intros k w Hws; [done|]. apply Forall_cons in Hws as [Hn Hws].
  destruct (hex08_spec n Hn) as [_ Hh]. rewrite fmap_cons. cbn [check_lines].
  rewrite strip_hex, hex_word_hex08 by done.
  rewrite (bind_ok_eq _ _ tt w w) by done. rewrite (bind_ok_eq _ _ _ w w (IH _ w Hws)).
  by rewrite lower_hex.
Qed.

Lemma stride_fmap {A B} (f : A -> B) b n l : n <> O -> stride b n (f <$> l) = f <$> stride b n l.
Proof.
  intros Hn. apply list_eq. intros i. rewrite list_lookup_fmap, !stride_lookup by done.
  by rewrite list_lookup_fmap.
Qed.

Lemma read_flat_mem_text `{Host} p w ws t : Forall (fun n => 0 <= n < 2 ^ 32) ws ->
  node_at w (canon w p) = Some (File (mem_text ws) t) -> canon w p ∉ w_denied w ->
  read_flat_mem p (len ws) w = (Ok (hex08 <$> ws), w).
Proof.
  intros Hws Hn Hd. pose proof (mem_text_ok ws) as Hok. unfold text_ok in Hok.
  apply andb_true_iff in Hok as [Hu Hc]. unfold read_flat_mem.
  rewrite (bind_ok_eq _ _ (mem_text ws) w w).
  2: { erewrite read_text_node by done. by rewrite universal_newlines_id. }
  cbv beta. rewrite splitlines_mem_text by done.
  rewrite (bind_ok_eq _ _ _ w w (check_lines_hex08 p ws 1 w Hws)). cbv beta.
  rewrite length_fmap, Z.eqb_refl. done.
Qed.

(** ** Properties *)

(** C8: the patcher and the converter agree on the banks: from a flat image that holds
    the words [ws], as [elf2mem] writes it, [read_flat_mem] and [split_words] give
    for bank [i] exactly the words [i], [i + ways], ... that [elf2mem] puts in
    its bank file [i]. *)
Theorem split_image_banks `{Host} p w ws ways t :
  Forall (fun n => 0 <= n < 2 ^ 32) ws ->
  node_at w (canon w p) = Some (File (mem_text ws) t) -> canon w p ∉ w_denied w ->
  ways <> O -> len ws mod Z.of_nat ways = 0 ->
  (words ← read_flat_mem p (len ws); split_words words ways) w =
  (Ok ((fun i => hex08 <$> stride i ways ws) <$> seq 0 ways), w).
Proof.
  intros Hws Hn Hd Hw Hm.
  rewrite (bind_ok_eq _ _ _ w w (read_flat_mem_text p w ws t Hws Hn Hd)). unfold split_words.
  rewrite length_fmap, Hm. rewrite (bind_ok_eq _ _ tt w w) by done. rewrite run_ret. do 2 f_equal.
  apply list_fmap_ext. intros i x _. by apply stride_fmap.
Qed.

Definition demo_mem_world : world :=
  demo_world [(["repo"; "code.mem"], mem_text [1; 2; 3735928559; 4])] [["repo"]].

Lemma split_image_banks_witness :
  (words ← read_flat_mem (H := demo) (Path true ["repo"; "code.mem"]) 4; split_words words 2) demo_mem_world =
  (Ok [["00000001"; "deadbeef"]; ["00000002"; "00000004"]], demo_mem_world).
Proof.
  refine (split_image_banks (H := demo) (Path true ["repo"; "code.mem"]) demo_mem_world
    [1; 2; 3735928559; 4] 2 0 _ _ _ _ _).
  - repeat constructor; lia.
  - by_eval.
  - apply not_elem_of_empty.
  - lia.
  - reflexivity.
Defined.

(** C10: [run_update] accepts a patch step only on full evidence: it returns only if
    [updatemem] exited with 0, printed the success message and none of the failure
    markers, and left an output file of exactly the expected size; anything else
    raises. *)
Theorem run_update_checked `{Host} exe mmi data src proc out log size w r w' :
  run_update exe mmi data src proc out log size w = (Ok r, w') ->
  exists stdout stderr w1,
    run_command (MkCommand [path_str exe; "--force"; "--meminfo"; path_str mmi; "--data"; path_str data;
      "--bit"; path_str src; "--proc"; proc; "--out"; path_str out] (Some (parent out))
      host_environ None (String.eqb host_platform "win32")) w = (Ok (Done 0 stdout stderr), w1) /\
    contains "update_mem completed successfully" (stdout +:+ stderr) = true /\
    (forall marker, marker ∈ FAILURE_MARKERS -> contains marker (stdout +:+ stderr) = false) /\
    is_file_at w' out = true /\ stat_size out w' = (Ok size, w').
Proof.
  intros E. unfold run_update in E. apply bind_ok in E as ([[rc so] se] & w1 & E1 & E).
  unfold subprocess_run in E1. apply bind_ok in E1 as (res & w2 & E0 & E1).
  destruct res as [rc' so' se'| |]; [|done|done]. apply ret_ok in E1 as [[= -> -> ->] ->].
  apply bind_ok in E as (u & w3 & E3 & E).
  apply bind_ok in E as (ex & w4 & E4 & E). apply gets_ok in E4 as [-> ->].
  apply bind_ok in E as (sz & w5 & E5 & E).
  apply bind_ok in E as (d1 & w6 & E6 & E). apply bind_ok in E as (d2 & w7 & E7 & E).
  apply bind_ok in E as (ext & w8 & E8 & E). cbv zeta in E.
  apply sha256_file_state in E6 as ->. apply sha256_file_state in E7 as ->.
  assert (w8 = w5) as ->.
  { destruct (is_file_at w3 out); [|by apply ret_ok in E8 as [_ ->]].
    apply bind_ok in E8 as (d & w9 & E8 & E9). apply sha256_file_state in E8 as ->.
    by apply ret_ok in E9 as [_ ->]. }
  match type of E with (if negb ?p then _ else _) _ = _ => destruct p eqn:Hp end; [|done].
  apply ret_ok in E as [_ ->]. do 4 (apply andb_true_iff in Hp as [Hp ?]).
  bool_props. subst rc'. exists so', se', w2.
  match goal with H : is_file_at w3 out = true |- _ => rename H into Hf end.
  rewrite Hf in E5. apply bind_ok in E5 as (n & w9 & E5 & E9). apply ret_ok in E9 as [-> ->].
  pose proof (stat_size_state _ _ _ _ E5) as ->. simplify_eq.
  split_and!; [done|done| |done|done].
  intros marker Hm. destruct (contains marker (so' +:+ se')) eqn:Ec; [|done].
  match goal with H : filter _ FAILURE_MARKERS = [] |- _ => rename H into Hno end.
  assert (Hin : marker ∈ filter (fun m => contains m (so' +:+ se') = true) FAILURE_MARKERS)
    by by apply list_elem_of_filter.
  rewrite Hno in Hin. by apply elem_of_nil in Hin.
Qed.

(** ** The generated MMI is the one that is expected *)

(** The texts of the table that go to the MMI have no control characters. *)
Definition printable (o : option string) : bool := sforall value_char (text_of o).
Definition printable_bram (b : Bram) : bool :=
  printable (loc b) && printable (porta_layout b) && printable (portb_layout b).

Lemma sforall_sdrop f n s : sforall f s = true -> sforall f (sdrop n s) = true.
Proof.
  revert s. induction n as [|n IH]; intros [|c s] Hs; try done. simpl in *.
  apply andb_true_iff in Hs as [_ Hs]. by apply IH.
Qed.

Lemma add_bram_ok b lsb msb lo hi w x w' : printable_bram b = true ->
  add_bram b lsb msb lo hi w = (Ok x, w') -> w' = w /\ xml_ok x = true.
Proof.
  unfold printable_bram, printable, add_bram. intros Hp E.
  apply andb_true_iff in Hp as [Hp Hb]. apply andb_true_iff in Hp as [Hl Ha].
  destruct (ref_name b) as [ref|]; [|done]. apply bind_ok in E as (mt & w1 & E1 & E).
  assert (Hmt : w1 = w /\ sforall value_char mt = true)
    by (repeat case_match; inversion E1; subst; done).
  destruct Hmt as [-> Hmt]. apply bind_ok in E as (pl & w2 & E2 & E).
  destruct (loc b) as [l|]; [|done]. change (sforall value_char l = true) in Hl. apply ret_ok in E2 as [-> ->]. apply ret_ok in E as [-> ->].
  split; [done|]. simpl. unfold name_ok, port_elements. simpl.
  rewrite !value_char_str_of_Z, Hmt, Ha, Hb. unfold removeprefix.
  destruct (startswith l _); [rewrite sforall_sdrop by done|rewrite Hl]; done.
Qed.

Lemma add_slices_ok brams slices ranges : forall i w xs w', forallb printable_bram brams = true ->
  (forall k b, zget k slices = Some b -> b ∈ brams) ->
  add_slices slices i ranges w = (Ok xs, w') -> w' = w /\ forallb xml_ok xs = true.
Proof.
  intros i w xs w' Hp Hin. revert i w xs w'.
  induction ranges as [|[[[lsb msb] lo] hi] ranges IH]; intros i w xs w' E.
  - by apply ret_ok in E as [-> ->].
  - cbn [add_slices] in E. destruct (zget i slices) as [b|] eqn:Eb; [|done].
    apply bind_ok in E as (x & w1 & E1 & E). apply add_bram_ok in E1 as [-> Hx].
    2: { rewrite forallb_forall in Hp. by apply Hp, list_elem_of_In, (Hin i). }
    apply bind_ok in E as (xs' & w2 & E2 & E). apply ret_ok in E as [-> ->].
    apply IH in E2 as [-> Hxs]. simpl. by rewrite Hx, Hxs.
Qed.

Definition inst_path (x : xml) : string := default "" (dict_get "InstPath" (attrib x)).

Lemma add_arrays_ok brams pre ranges t : forall w xs w', forallb printable_bram brams = true ->
  sforall value_char pre = true ->
  (forall lane slices k b, (lane, slices) ∈ t -> zget k slices = Some b -> b ∈ brams) ->
  add_arrays pre ranges t w = (Ok xs, w') ->
  w' = w /\ forallb xml_ok xs = true /\ inst_path <$> xs = (fun i => pre +:+ str_of_Z i) <$> t.*1 /\
  Forall (fun x => tag x = "MemoryArray") xs.
Proof.
  intros w xs w' Hp Hpre. revert w xs w'. induction t as [|[i slices] t IH]; intros w xs w' Hin E.
  - by apply ret_ok in E as [-> ->].
  - cbn [add_arrays] in E. apply bind_ok in E as (bs & w1 & E1 & E).
    apply (add_slices_ok brams) in E1 as [-> Hbs]; [|done|intros k b; apply (Hin i slices k b); left].
    apply bind_ok in E as (rest & w2 & E2 & E). apply ret_ok in E as [-> ->].
    apply IH in E2 as (-> & Hrest & Hn & Ht); [|intros l s k b Hls; apply (Hin l s k b); by right].
    split_and!; [done| |by rewrite !fmap_cons, Hn|by constructor].
    cbn [forallb]. rewrite Hrest. unfold add_memory_array. simpl. unfold name_ok. simpl.
    by rewrite Hbs, sforall_app, Hpre, value_char_str_of_Z.
Qed.

Lemma slots_in brams flag (t : slots) n : t.*1 = seqZ 0 n -> slotted brams flag t ->
  forall lane slices k b, (lane, slices) ∈ t -> zget k slices = Some b -> b ∈ brams.
Proof.
  intros Hk Ht lane slices k b Hl Hb. apply (Ht lane k b). unfold get_slot.
  rewrite (zget_in lane slices t); [done|rewrite Hk; apply NoDup_seqZ|done].
Qed.

Lemma findall_app t a l1 l2 x : Xml.findall t (Elem x a (l1 ++ l2)) =
  Xml.findall t (Elem x a l1) ++ Xml.findall t (Elem x a l2).
Proof. unfold Xml.findall. cbn [children]. apply filter_app. Qed.

Lemma findall_all t x a l : Forall (fun x => tag x = t) l -> Xml.findall t (Elem x a l) = l.
Proof.
  unfold Xml.findall. cbn [children]. induction 1 as [|y l Hy Hl IH]; [done|].
  by rewrite filter_cons_True, IH.
Qed.

Lemma findall_none t u x a l : t <> u -> Forall (fun x => tag x = u) l ->
  Xml.findall t (Elem x a l) = [].
Proof.
  intros Hne. unfold Xml.findall. cbn [children]. induction 1 as [|y l Hy Hl IH]; [done|].
  rewrite filter_cons_False, IH; [done|congruence].
Qed.

Lemma find_part x a l part : Forall (fun x => tag x = "MemoryArray") l ->
  find_attr "Config" "Option" "Name" "Part"
    (Elem x a (l ++ [Elem "Config" [] [Elem "Option" [("Name", "Part"); ("Val", part)] []];
                     Elem "DRC" [] [Elem "Rule" [("Name", "RDADDRCHANGE"); ("Val", "false")] []]])) =
  Some (Elem "Option" [("Name", "Part"); ("Val", part)] []).
Proof.
  intros Hl. unfold find_attr. rewrite findall_app, (findall_none "Config" "MemoryArray") by done.
  reflexivity.
Qed.

(** The tree generated from a classified table passes the validation. *)
Lemma mmi_tree_valid brams part iccm dccm w root w' : classified brams iccm dccm ->
  forallb printable_bram brams = true -> sforall value_char part = true -> part <> "" ->
  mmi_tree part iccm dccm w = (Ok root, w') ->
  w' = w /\ xml_ok root = true /\
  forall w, validate_tree root w = (Ok (part, EXPECTED_ARRAYS), w).
Proof.
  intros Hc Hp Hpart Hne E. unfold mmi_tree in E.
  apply bind_ok in E as (lanes & w1 & E1 & E).
  apply (add_arrays_ok brams) in E1 as (-> & Hx1 & Hn1 & Ht1);
    [|done|done|eapply slots_in; [apply (cl_iccm_keys _ _ _ Hc)|apply (cl_iccm _ _ _ Hc)]].
  apply bind_ok in E as (banks & w2 & E2 & E).
  apply (add_arrays_ok brams) in E2 as (-> & Hx2 & Hn2 & Ht2);
    [|done|done|eapply slots_in; [apply (cl_dccm_keys _ _ _ Hc)|apply (cl_dccm _ _ _ Hc)]].
  apply ret_ok in E as [-> ->]. split_and!; [done| |].
  - cbn [xml_ok]. rewrite !forallb_app, Hx1, Hx2. simpl. by rewrite Hpart.
  - intros w2. unfold validate_tree. rewrite !findall_app, !(findall_all "MemoryArray") by done.
    change (Xml.findall "MemoryArray" (Elem ?x ?a [Elem "Config" ?b ?c; ?d])) with (@nil xml).
    assert (Hnames : inst_path <$> lanes ++ banks ++ [] = EXPECTED_ARRAYS).
    { rewrite app_nil_r, fmap_app, Hn1, Hn2, (cl_iccm_keys _ _ _ Hc), (cl_dccm_keys _ _ _ Hc). done. }
    unfold inst_path in Hnames. rewrite Hnames, bool_decide_eq_true_2 by done.
    rewrite (bind_ok_eq _ _ tt w2 w2) by done. rewrite app_assoc, find_part by by apply Forall_app.
    apply String.eqb_neq in Hne. change (default "" (dict_get "Val" _)) with part. by rewrite Hne.
Qed.

(** The generated MMI is the one the patcher expects: the document generated from a
    classified table without control characters, serialised and parsed again,
    passes [validate_mmi], which returns the part of the table and the twelve
    memories in order. *)
Theorem mmi_document_validates brams part iccm dccm w w1 w2 root :
  classify brams w = (Ok (iccm, dccm), w1) -> mmi_tree part iccm dccm w1 = (Ok root, w2) ->
  forallb printable_bram brams = true -> sforall value_char part = true -> part <> "" ->
  (tree ← lift_opt ParseError "not well-formed" (parse_xml (document root)); validate_tree tree) w2 =
  (Ok (part, EXPECTED_ARRAYS), w2).
Proof.
  intros E1 E2 Hp Hpart Hne. apply classify_ok in E1 as [-> Hc].
  eapply mmi_tree_valid in E2 as (-> & Hx & Hv); [|done|done|done|done].
  rewrite parse_xml_document by done. rewrite (bind_ok_eq _ _ root w w) by done. apply Hv.
Qed.

(** The same in the store: after [generate] succeeds on a table without
    control characters, [validate_mmi] of the file it wrote returns the part that
    the table declares and the twelve expected memories in order. *)
Lemma generate_then_validate `{Host} bram_map out validation metadata brams w w' :
  read_bram_map bram_map w = (Ok (metadata, brams), w) ->
  generate bram_map out validation w = (Ok tt, w') ->
  forallb printable_bram brams = true -> sforall value_char (default "" (dict_get "part" metadata)) = true ->
  canon w validation <> canon w out -> canon w out ∉ w_denied w ->
  validate_mmi out w' = (Ok (default "" (dict_get "part" metadata), EXPECTED_ARRAYS), w').
Proof.
  intros Hr E Hp Hpart Hne Hd. unfold generate in E. rewrite (bind_ok_eq _ _ _ _ _ Hr) in E.
  cbv beta iota zeta in E. apply bind_ok in E as (u & w1 & E1 & E).
  apply fail_if_ok in E1 as [Hpe ->]. apply String.eqb_neq in Hpe.
  apply bind_ok in E as ([iccm dccm] & w1 & E1 & E). apply classify_ok in E1 as [-> Hc].
  apply bind_ok in E as (root & w1 & E1 & E).
  eapply mmi_tree_valid in E1 as (-> & Hx & Hv); [|done|done|done|done].
  apply bind_ok in E as (u1 & w1 & E1 & E). apply (Keeps_mkdir_p (K := [])) in E1.
  apply bind_ok in E as (u2 & w2 & E2 & E). pose proof (write_raw_node _ _ _ _ _ E2) as Hn.
  apply write_raw_keeps in E2.
  apply bind_ok in E as (d1 & w3 & E3 & E). apply sha256_file_state in E3 as ->.
  apply bind_ok in E as (d2 & w3 & E3 & E). apply sha256_file_state in E3 as ->.
  apply bind_ok in E as (u3 & w3 & E3 & E). apply (Keeps_mkdir_p (K := [])) in E3.
  unfold write_text_native in E. apply write_raw_keeps in E.
  assert (K2 : keeps [canon w out] w w2).
  { etransitivity; [apply keeps_nil, E1|]. by rewrite <- (keeps_canon _ _ _ out E1). }
  assert (K3 : keeps [canon w out] w w3) by (etransitivity; [exact K2|apply keeps_nil, E3]).
  rewrite (keeps_canon _ _ _ out E1) in Hn. rewrite (keeps_canon _ _ _ validation K3) in E.
  assert (Hn' : node_at w' (canon w' out) = Some (File (document root) (w_clock w1))).
  { rewrite (keeps_canon _ _ _ out E), (keeps_canon _ _ _ out K3).
    eapply keeps_node; [exact E|intros Hin%list_elem_of_singleton; by apply Hne|].
    eapply keeps_node; [exact E3|apply not_elem_of_nil|exact Hn]. }
  unfold validate_mmi. rewrite (bind_ok_eq _ _ (document root) w' w').
  2: { eapply read_raw_node; [exact Hn'|].
       rewrite (keeps_canon _ _ _ out E), (keeps_canon _ _ _ out K3).
       by rewrite (keeps_denied _ _ _ E), (keeps_denied _ _ _ K3). }
  rewrite parse_xml_document by done. rewrite (bind_ok_eq _ _ root w' w') by done. apply Hv.
Qed.

Lemma require_files_state `{Host} l w r w' : require_files l w = (r, w') -> w' = w.
Proof.
  revert r w'. induction l as [|p l IH]; intros r w' E; [by inversion E|].
  cbn [require_files] in E. unfold is_file, gets, mbind, M_bind in E. cbv beta iota in E.
  destruct (is_file_at w p); [by eapply IH|by inversion E].
Qed.

(** C11: [patch] never overwrites a result: if the bitstream or the result file exists
    already, it raises an [OSError] (a missing input, or the refusal to overwrite) and leaves
    the whole store as it was. *)
Theorem patch_refuses_overwrite `{Host} base_dir out_dir updatemem w :
  exists_at w (pnames out_dir ["competition.bit"]) = true \/
  exists_at w (pnames out_dir ["patch_result.json"]) = true ->
  exists e, patch base_dir out_dir updatemem w = (Raise e, w) /\ is_os_error e = true.
Proof.
  intros Hex. unfold patch.
  match goal with |- context [require_files ?l] => set (files := l) end.
  destruct (require_files files w) as [[[]|e] w1] eqn:E1; pose proof (require_files_state _ _ _ _ E1) as ->.
  - rewrite (bind_ok_eq _ _ tt w w E1). cbn [refuse_existing].
    unfold exists_, gets, mbind, M_bind. cbv beta iota.
    destruct (exists_at w (pnames out_dir ["competition.bit"])) eqn:E2; [by eexists|].
    destruct Hex as [?|Hex]; [done|]. cbn [fail_if when_]. unfold mret, M_ret. rewrite Hex.
    by eexists.
  - rewrite (bind_raise_eq _ _ e w w E1). exists e. split; [done|].
    revert E1. generalize files as l. clear. intros l.
    induction l as [|p l IH]; [done|]. cbn [require_files]. unfold is_file, gets, mbind, M_bind.
    cbv beta iota. destruct (is_file_at w p); [apply IH|by intros [= <-]].
Qed.

(** *** Instances *)

Lemma patch_refuses_overwrite_witness :
  exists e, patch (H := demo) (Path true ["base"]) (Path true ["out"]) None
    (demo_world [(["out"; "competition.bit"], "bits")] [["out"]]) =
    (Raise e, demo_world [(["out"; "competition.bit"], "bits")] [["out"]]) /\ is_os_error e = true.
Proof.
  apply (patch_refuses_overwrite (H := demo)). left. vm_compute. reflexivity.
Defined.

(** A machine whose programs write [/out.bit] and report success. *)
Definition demo_updatemem : Host :=
  demo_exec_host ["repo"] (fun c w =>
    (Done 0 "update_mem completed successfully" "", put_file ["out.bit"] "new!" w)).
Definition demo_bit_world : world := demo_world [(["d.mem"], "@0"); (["in.bit"], "old!")] [].
Definition demo_step : result json * world :=
  run_update (H := demo_updatemem) (Path true ["updatemem"]) (Path true ["m.mmi"])
    (Path true ["d.mem"]) (Path true ["in.bit"]) "ICCM_LANE0" (Path true ["out.bit"])
    (Path true ["out.log"]) 4 demo_bit_world.

Lemma run_update_checked_witness : is_file_at (H := demo_updatemem) demo_step.2 (Path true ["out.bit"]) = true.
Proof.
  destruct (run_update_checked (H := demo_updatemem) (Path true ["updatemem"]) (Path true ["m.mmi"])
    (Path true ["d.mem"]) (Path true ["in.bit"]) "ICCM_LANE0" (Path true ["out.bit"])
    (Path true ["out.log"]) 4 demo_bit_world
    (match demo_step.1 with Ok r => r | Raise _ => JNull end) demo_step.2) as (? & ? & ? & ? & ? & ? & Hf & ?).
  - by_eval.
  - exact Hf.
Defined.

Definition demo_root : xml :=
  match (mmi_tree "xc7k325t" demo_slots.1 demo_slots.2 (demo_world [] [])).1 with
  | Ok root => root
  | Raise _ => Elem "" [] []
  end.

Lemma mmi_document_validates_witness :
  (tree ← lift_opt ParseError "not well-formed" (parse_xml (document demo_root)); validate_tree tree)
    (demo_world [] []) = (Ok ("xc7k325t", EXPECTED_ARRAYS), demo_world [] []).
Proof.
  apply (mmi_document_validates demo_brams "xc7k325t" demo_slots.1 demo_slots.2 (demo_world [] [])
    (demo_world [] [])).
  - by_eval.
  - by_eval.
  - by_eval.
  - by_eval.
  - discriminate.
Defined.
