(* ===== verification/BramFlow.v ===== *)
(** From an ELF file to the block RAMs: [elf2mem] writes the flat images, [patch_bitstream] splits
    them into the lanes and banks of the tightly coupled memories, and the MMI of
    [generate_manual_mmi] says which block RAM holds each bit of a word. *)
From Stdlib Require Import ZArith Lia.
From S2P Require Import Prelude Str Json Xml Py Store Lib Mmi Bytes PatchBit Elf2mem.
Local Open Scope Z_scope.
Local Open Scope py_scope.

(** ** Loaded memories hold bytes *)

Definition byte_memory (m : memory) : Prop := forall a, 0 <= m a < 256.

Lemma nth_byte l i : bytes_ok l -> 0 <= nth i l 0 < 256.
Proof.
  intros Hl. destruct (nth_in_or_default i l 0) as [Hi| ->]; [|lia].
  unfold bytes_ok in Hl. rewrite Forall_forall in Hl. by apply Hl, list_elem_of_In.
Qed.

Lemma load_segment_bytes m s : byte_memory m -> bytes_ok (data s) -> byte_memory (load_segment m s).
Proof.
  intros Hm Hs a. unfold load_segment. destruct (covered _ _ _); [by apply nth_byte|].
  destruct (covered _ _ _); [lia|apply Hm].
Qed.

Lemma load_bytes segs : Forall (fun s => bytes_ok (data s)) segs -> byte_memory (load segs).
Proof.
  unfold load. assert (Hz : byte_memory (fun _ => 0)) by by intros a.
  revert Hz. generalize (fun _ : Z => 0). induction segs as [|s segs IH]; intros m Hm Hs; [done|].
  apply Forall_cons in Hs as [Hs0 Hs]. apply IH; [by apply load_segment_bytes|done].
Qed.

Lemma elf_segments_bytes blob : bytes_ok blob -> Forall (fun s => bytes_ok (data s)) (elf_segments blob).
Proof.
  intros Hb. apply Forall_fmap, Forall_forall. intros i _. by apply bytes_ok_take, bytes_ok_drop.
Qed.

Lemma mem_word_range m a : byte_memory m -> 0 <= mem_word m a < 2 ^ 32.
Proof. intros Hm. unfold mem_word. pose proof (Hm a); pose proof (Hm (a + 1)); pose proof (Hm (a + 2)); pose proof (Hm (a + 3)). lia. Qed.

Lemma mem_words_range m a n : byte_memory m -> Forall (fun x => 0 <= x < 2 ^ 32) (mem_words m a n).
Proof. intros Hm. apply Forall_fmap, Forall_forall. intros k _. by apply mem_word_range. Qed.

Lemma mem_words_lookup m a n q : 0 <= q < n -> mem_words m a n !! Z.to_nat q = Some (mem_word m (a + 4 * q)).
Proof. intros Hq. unfold mem_words. rewrite list_lookup_fmap, lookup_seqZ_lt by lia. simpl. do 3 f_equal. lia. Qed.

(** Word [q] of a flat image is word [q / ways] of bank [q mod ways]. *)
Lemma split_lookup {A} (ws : list A) (ways : nat) q : ways <> O -> 0 <= q ->
  ((fun i => stride i ways ws) <$> seq 0 ways) !! Z.to_nat (q mod Z.of_nat ways)
    ≫= (fun bank => bank !! Z.to_nat (q / Z.of_nat ways)) = ws !! Z.to_nat q.
Proof.
  intros Hw Hq. assert (Hm := Z.mod_pos_bound q (Z.of_nat ways) ltac:(lia)).
  rewrite list_lookup_fmap, lookup_seq_lt by lia. cbn [option_fmap option_map mbind option_bind Nat.add].
  simpl. rewrite stride_lookup by done. f_equal.
  pose proof (Z.div_mod q (Z.of_nat ways) ltac:(lia)). pose proof (Z.div_pos q (Z.of_nat ways)). nia.
Qed.

(** *** The images as the patcher reads them *)

Section flow.
Context `{Host}.

Lemma image_lanes p w m a (ways : nat) depth t : byte_memory m -> ways <> O -> 0 <= depth ->
  node_at w (canon w p) = Some (File (mem_text (mem_words m a (Z.of_nat ways * depth))) t) ->
  canon w p ∉ w_denied w ->
  let banks := (fun i => hex08 <$> stride i ways (mem_words m a (Z.of_nat ways * depth))) <$> seq 0 ways in
  (words ← read_flat_mem p (Z.of_nat ways * depth); split_words words ways) w = (Ok banks, w) /\
  forall q, 0 <= q < Z.of_nat ways * depth ->
    banks !! Z.to_nat (q mod Z.of_nat ways) ≫= (fun bank => bank !! Z.to_nat (q / Z.of_nat ways)) =
    Some (hex08 (mem_word m (a + 4 * q))).
Proof.
  intros Hm Hw Hd Hn Hden. set (ws := mem_words m a (Z.of_nat ways * depth)) in *.
  assert (Hlen : len ws = Z.of_nat ways * depth)
    by (unfold ws, mem_words; rewrite length_fmap, length_seqZ; lia).
  assert (Hb : ((fun i => hex08 <$> stride i ways ws) <$> seq 0 ways) =
               ((fun i => stride i ways (hex08 <$> ws)) <$> seq 0 ways))
    by (apply list_fmap_ext; intros i x _; symmetry; by apply stride_fmap).
  cbv zeta. rewrite Hb. split.
  - rewrite <- Hlen at 1. rewrite (bind_ok_eq _ _ _ w w
      (read_flat_mem_text p w ws t (mem_words_range _ _ _ Hm) Hn Hden)).
    unfold split_words. rewrite length_fmap, Hlen, Z.mul_comm, Z.mod_mul by lia.
    by rewrite (bind_ok_eq _ _ tt w w).
  - intros q Hq. rewrite split_lookup by (done || lia). rewrite list_lookup_fmap.
    unfold ws. by rewrite mem_words_lookup.
Qed.
End flow.

(** ** Property *)

(** The array of [ways] memories of [depth] words that [xs] lays out: the four ICCM lanes or
    the eight DCCM banks. *)
Definition array_layout (slices : list (Z * Bram)) (ways : nat) (depth : Z) (xs : list xml) : Prop :=
  (exists w w', add_slices slices 0 (iccm_ranges slices) w = (Ok xs, w') /\ ways = 4%nat /\ depth = 8192) \/
  (exists w w', add_slices slices 0 dccm_ranges w = (Ok xs, w') /\ ways = 8%nat /\ depth = 2048).

(** C2: from the program to the block RAMs.  When [convert] has written the image of a region
    of [ways] memories of [depth] words, the patcher reads it and splits it into [ways]
    banks; word [q] of the region, which is the word that loading the ELF file leaves at
    [base + 4 q], is entry [q / ways] of bank [q mod ways], eight hexadecimal digits; and in
    the memory layout of that bank each of its 32 bits is in exactly one block RAM. *)
Theorem loaded_bits_in_block_rams `{Host} elf regions manifest o w w' r (ways : nat) depth :
  convert elf regions manifest o w = (Ok tt, w') ->
  Forall fresh_region regions -> Forall word_sized regions -> disjoint_regions regions ->
  NoDup ((fun r => canon w (output r)) <$> regions) ->
  (forall r, r ∈ regions -> canon w (output r) ∉ canon w <$> bank_paths o) ->
  (forall r, r ∈ regions -> canon w (output r) <> lcanon w manifest) ->
  w_links w !! lcanon w manifest = None ->
  o_trim o = false -> r ∈ regions -> canon w (output r) ∉ w_denied w ->
  ways <> O -> 0 < depth -> size r = 4 * (Z.of_nat ways * depth) ->
  exists blob banks, read_bytes elf w = (Ok blob, w) /\ elf_valid blob = true /\
    (words ← read_flat_mem (output r) (Z.of_nat ways * depth); split_words words ways) w' = (Ok banks, w') /\
    forall q, 0 <= q < Z.of_nat ways * depth ->
      banks !! Z.to_nat (q mod Z.of_nat ways) ≫= (fun bank => bank !! Z.to_nat (q / Z.of_nat ways)) =
        Some (hex08 (mem_word (load (elf_segments blob)) (base r + 4 * q))) /\
      forall slices xs bit, array_layout slices ways depth xs -> 0 <= bit < 32 ->
        length (List.filter (bram_covers (q / Z.of_nat ways) bit) xs) = 1%nat.
Proof.
  intros E Hfr Hws Hdis Hnd Hbk Hmf Hlk Htr Hr Hden Hw Hd Hz.
  destruct (convert_final _ _ _ _ _ _ E) as (_ & _ & _ & _ & _ & _ & _ & _ & K & HK); [done..|].
  destruct (convert_region_files _ _ _ _ _ _ E) as (blob & Eb & Hv & Hf); [done..|].
  destruct (Hf r Hr) as (t & Ht). unfold words_stored in Ht. rewrite Htr, Hz in Ht.
  replace (4 * (Z.of_nat ways * depth) / 4) with (Z.of_nat ways * depth) in Ht by dlia.
  rewrite <- (keeps_canon _ _ _ (output r) HK) in Ht, Hden. rewrite <- (keeps_denied _ _ _ HK) in Hden.
  assert (Hm : byte_memory (load (elf_segments blob)))
    by (apply load_bytes, elf_segments_bytes; by eapply read_bytes_ok).
  destruct (image_lanes _ _ _ _ _ _ _ Hm Hw (Z.lt_le_incl _ _ Hd) Ht Hden) as [Hb Hq].
  exists blob. eexists. split_and!; [done|done|exact Hb|]. intros q Hrange. split; [by apply Hq|].
  intros slices xs bit Hl Hbit.
  assert (0 <= q / Z.of_nat ways < depth)
    by (split; [apply Z.div_pos; lia|apply Z.div_lt_upper_bound; lia]).
  destruct Hl as [(w1 & w2 & El & -> & ->)|(w1 & w2 & El & -> & ->)];
    (eapply (slices_cover_once slices); [|exact Hbit]); [left|right]; by split.
Qed.

Lemma loaded_bits_in_block_rams_witness :
  exists blob banks, read_bytes (H := demo) demo_elf_path demo_elf_world = (Ok blob, demo_elf_world) /\
    elf_valid blob = true /\
    let w' := (convert (H := demo) demo_elf_path demo_regions (Path true ["repo"; "m.json"])
                 demo_options demo_elf_world).2 in
    (words ← read_flat_mem (H := demo) (Path true ["repo"; "DATA.mem"]) 4; split_words words 4) w' =
      (Ok banks, w') /\
    forall q, 0 <= q < 4 ->
      banks !! Z.to_nat (q mod 4) ≫= (fun bank => bank !! Z.to_nat (q / 4)) =
        Some (hex08 (mem_word (load (elf_segments blob)) (4096 + 4 * q))) /\
      forall slices xs bit, array_layout slices 4 1 xs -> 0 <= bit < 32 ->
        length (List.filter (bram_covers (q / 4) bit) xs) = 1%nat.
Proof.
  refine (loaded_bits_in_block_rams (H := demo) demo_elf_path demo_regions
    (Path true ["repo"; "m.json"]) demo_options demo_elf_world _ (demo_region "DATA" 4096) 4 1
    _ _ _ _ _ _ _ _ _ _ _ _ _ _).
  - by_eval.
  - repeat constructor.
  - repeat constructor; vm_compute; done.
  - intros [|[|i]] [|[|j]] r1 r2 Hij H1 H2; simplify_eq/=; unfold apart; simpl; lia.
  - repeat constructor; vm_compute; set_solver.
  - intros r _. apply not_elem_of_nil.
  - intros r Hr. apply elem_of_cons in Hr as [->|Hr%list_elem_of_singleton]; [|subst];
      vm_compute; done.
  - by_eval.
  - reflexivity.
  - right. left.
  - apply not_elem_of_empty.
  - done.
  - lia.
  - reflexivity.
Defined.
