(* ===== verification/Helpers.v ===== *)
(** Further operations of the run-time and idioms that several scripts share: lexical
    relative paths, sets of strings, programs run with the script's own console, and
    the lemmas that read a successful run backwards. *)
From Stdlib Require Import ZArith Lia.
From S2P Require Import Prelude Str Json Py Store Lib.
Local Open Scope Z_scope.

(** ** Lexical paths: [os.path.abspath] and [os.path.relpath] *)

(** Removes [..] together with the name before it. *)
Fixpoint norm_parts (acc parts : list string) : list string :=
  match parts with
  | [] => acc
  | p :: parts' =>
      if String.eqb p ".." then norm_parts (removelast acc) parts' else norm_parts (acc ++ [p]) parts'
  end.

(** The relative path between two lists of names without [..]. *)
Fixpoint rel_parts (p start : list string) : list string :=
  match p, start with
  | x :: p', y :: start' =>
      if String.eqb x y then rel_parts p' start' else replicate (length start) ".." ++ p
  | _, _ => replicate (length start) ".." ++ p
  end.

(** ** Sets of strings *)

Definition str_set (l : list string) : gset string := list_to_set l.
Definition sorted_set (s : gset string) : list string := sort_by string_leb (elements s).
Definition repr_sorted (s : gset string) : string := repr_list (repr_str <$> sorted_set s).

Section helpers.
Context `{Host}.

Definition abs_parts (p : path) : list string :=
  norm_parts [] ((if p_abs p then [] else host_cwd) ++ p_parts p).
Definition relpath (p start : path) : string :=
  match rel_parts (abs_parts p) (abs_parts start) with [] => "." | l => join "/" l end.

(** [root.joinpath( *Path(s).parts)] *)
Definition join_parts (root : path) (s : string) : path := foldl pdiv root (path_parts (parse_path s)).

(** [path.relative_to(root).as_posix()] *)
Definition relative_text (p root : path) : M string := q ← relative_to p root; mret (path_str q).

(** [path.is_absolute()] gives the path itself, else the one below the repository. *)
Definition in_repo_unless_absolute (p : path) : path :=
  if p_abs p then p else repo_path (path_parts p).

(** [subprocess.run(argv, cwd=cwd, check=False)] with the script's own console. *)
Definition call (av : list string) (cwd : option path) : M Z :=
  '(rc, out, err) ← subprocess_run (Command av cwd host_environ None);
  print_end out ;;
  eprint_end err ;;
  mret rc.
(** The same with [check=True]. *)
Definition check_call (av : list string) (cwd : option path) : M unit :=
  rc ← call av cwd;
  fail_if (negb (rc =? 0)) CalledProcessError
    ("Command '" +:+ repr_list (repr_str <$> av) +:+ "' returned non-zero exit status " +:+
     str_of_Z rc +:+ ".").

(** [p.rmdir()] *)
Definition rmdir (p : path) : M unit := fun w =>
  let k := lcanon w p in
  match node_at w k with
  | None => raise FileNotFoundError (no_such p) w
  | Some (File _ _) =>
      raise NotADirectoryError ("[Errno 20] Not a directory: " +:+ repr_str (path_str p)) w
  | Some Dir =>
      if has_children w k
      then raise OSError ("[Errno 39] Directory not empty: " +:+ repr_str (path_str p)) w
      else (Ok tt, set_fs (delete k (w_fs w)) w)
  end.

(** [s.rstrip("/")] *)
Definition rstrip_slash (s : string) : string := rstrip_by (Ascii.eqb "/") s.

(** [sorted(p for p in root.rglob("*") if p.is_file())] *)
Definition files_below (root : path) : M (list path) :=
  l ← rglob root; fs ← filter_m is_file l; mret (sort_by path_leb fs).

(** [try: m  except (OSError, RuntimeError, ValueError) as error: parser.error(str(error))] *)
Definition is_usual_error (e : exn) : bool := is_os_error e || is_runtime_error e || is_value_error e.
Definition is_called_process_error (e : exn) : bool :=
  match e with Err CalledProcessError _ => true | _ => false end.
Definition or_usage_error {A} (p : exn -> bool) (m : M A) : M A :=
  try_except m p (fun e => parser_error (exn_msg e)).

(** ** Lemmas *)

Lemma filter_m_gets {A} (f : world -> A -> bool) (l : list A) w :
  filter_m (fun x => gets (fun w => f w x)) l w = (Ok (List.filter (f w) l), w).
Proof.
  induction l as [|x l IH]; [done|]. cbn [filter_m List.filter].
  rewrite (bind_ok_eq _ _ (f w x) w w) by done. cbv beta.
  rewrite (bind_ok_eq _ _ _ _ _ IH). by destruct (f w x).
Qed.

Lemma files_below_spec root w l w' : files_below root w = (Ok l, w') ->
  w' = w /\ forall p, p ∈ l <-> p ∈ rglob_at w root /\ is_file_at w p = true.
Proof.
  unfold files_below, rglob. intros E. apply bind_ok in E as (l0 & w0 & E0 & E). apply gets_ok in E0 as [-> ->].
  apply bind_ok in E as (fs & w1 & E1 & E). apply ret_ok in E as [-> ->].
  unfold is_file in E1. rewrite (filter_m_gets (fun w p => is_file_at w p)) in E1.
  injection E1 as <- <-. split; [done|]. intros p.
  rewrite elem_of_sort_by, list_elem_of_In, filter_In, <- list_elem_of_In. done.
Qed.

Lemma relative_text_ok p root s w w' : relative_text p root w = (Ok s, w') -> w' = w /\
  path_within p root = true /\ s = path_str (Path false (drop (length (p_parts root)) (p_parts p))).
Proof.
  unfold relative_text, relative_to. intros E. destruct (path_within p root); [|done].
  by injection E as <- <-.
Qed.

(** A loop that only inspects the world. *)
Lemma for_inspect {A} (f : A -> M unit) (l : list A) u w w' :
  (forall x u w w', f x w = (Ok u, w') -> w' = w) ->
  for_ l f w = (Ok u, w') -> w' = w /\ Forall (fun x => f x w = (Ok tt, w)) l.
Proof.
  intros Hf. induction l as [|x l IH] in u |- *; cbn [for_]; intros E; [by inv_ok E|].
  apply bind_ok in E as ([] & w1 & E1 & E). assert (w1 = w) as -> by by eapply Hf.
  destruct (IH _ E) as [-> Hl]. split; [done|]. by constructor.
Qed.

Lemma for_ok {A} (f : A -> M unit) (l : list A) w :
  Forall (fun x => f x w = (Ok tt, w)) l -> for_ l f w = (Ok tt, w).
Proof. induction 1 as [|x l Hx _ IH]; [done|]. cbn [for_]. by rewrite (bind_ok_eq _ _ _ _ _ Hx). Qed.

Lemma ensure_within_ok p root q w w' : ensure_within p root w = (Ok q, w') ->
  w' = w /\ q = Path true (canon w p) /\ is_prefix (canon w root) (canon w p) = true.
Proof.
  unfold ensure_within, resolve, gets, mbind, M_bind, path_within. cbn [p_abs p_parts Bool.eqb andb].
  destruct (is_prefix (canon w root) (canon w p)) eqn:E.
  - rewrite andb_false_r. intros [= <- <-]. done.
  - case_bool_decide as Heq; [|done]. injection Heq as Heq. rewrite Heq in E.
    assert (Hp : is_prefix (canon w root) (canon w root) = true)
      by (apply is_prefix_spec; exists []; by rewrite app_nil_r). congruence.
Qed.

(** *** Files visited once *)

Definition is_recursion_error (e : exn) : bool :=
  match e with Err RecursionError _ => true | _ => false end.

(** What the set of files holds: resolved regular files, each once. *)
Record file_set (w : world) (seen : list path) : Prop := {
  fs_nodup : NoDup seen;
  fs_file : forall q, q ∈ seen -> is_file_at w q = true /\ q = Path true (canon w q)
}.

Lemma file_set_size w seen : file_set w seen -> (length seen <= base.size (w_fs w))%nat.
Proof.
  intros [Hnd Hf]. rewrite <- length_map_to_list, <- (length_fmap fst (map_to_list (w_fs w))).
  rewrite <- (length_fmap p_parts seen). apply submseteq_length, NoDup_submseteq.
  - apply NoDup_fmap_2_strong; [|done]. intros [a k] [b k'] Hx Hy Hxy.
    apply Hf in Hx as [_ [= -> _]]. apply Hf in Hy as [_ [= -> _]]. simpl in Hxy. by subst.
  - intros k Hk. apply list_elem_of_fmap in Hk as (q & -> & Hq). apply Hf in Hq as [Hfile Hq].
    unfold is_file_at in Hfile. rewrite Hq. simpl. destruct (canon w q) as [|a k] eqn:E; [done|].
    unfold node_at in Hfile. destruct (w_fs w !! (a :: k)) as [n|] eqn:El; [|done].
    apply list_elem_of_fmap. exists (a :: k, n). split; [done|]. by apply elem_of_map_to_list.
Qed.

(** No chain of links is too long to be followed. *)
Definition links_resolve (w : world) : Prop :=
  forall p, canon w (Path true (canon w p)) = canon w p.

Lemma file_set_add w seen p : links_resolve w -> file_set w seen ->
  Path true (canon w p) ∉ seen -> is_file_at w (Path true (canon w p)) = true ->
  file_set w (Path true (canon w p) :: seen).
Proof.
  intros Hl [Hnd Hf] Hni Hfile. constructor; [by constructor|]. intros q [->|Hq]%elem_of_cons; [|auto].
  by rewrite Hl.
Qed.

Lemma read_text_no_recursion p w e w' : read_text p w = (Raise e, w') -> is_recursion_error e = false.
Proof.
  unfold read_text, mbind, M_bind, read_raw, raise, throw.
  repeat case_match; intros; simplify_eq; done.
Qed.

(** *** Looking at documents *)

Lemma getitem_any v k x w w' : getitem v k w = (Ok x, w') -> forall w0, getitem v k w0 = (Ok x, w0).
Proof. destruct v; try done. cbn. intros E w0. apply lift_opt_ok in E as [-> _]. done. Qed.

Lemma getpath_any v ks x w w' : getpath v ks w = (Ok x, w') -> forall w0, getpath v ks w0 = (Ok x, w0).
Proof.
  revert v w. induction ks as [|k ks IH]; intros v w E w0; cbn [getpath] in *.
  - by apply ret_ok in E as [-> _].
  - apply bind_ok in E as (y & w1 & E1 & E). rewrite (bind_ok_eq _ _ y w0 w0); [by eapply IH|].
    by eapply getitem_any.
Qed.

Lemma json_eqb_str s v : json_eqb v (JStr s) = true <-> v = JStr s.
Proof.
  split; [|intros ->; simpl; apply String.eqb_refl].
  destruct v; try done. simpl. intros. by bool_props; subst.
Qed.

Lemma json_eqb_str_l s v : json_eqb (JStr s) v = true -> v = JStr s.
Proof. destruct v; try done. simpl. intros. by bool_props; subst. Qed.

Lemma read_json_state p r w w' : read_json p w = (r, w') -> w' = w.
Proof.
  unfold read_json, mbind, M_bind. destruct (read_text p w) as [[t|e] w1] eqn:E;
    apply read_text_state in E as ->; [|by intros [= <- <-]].
  unfold json_loads. destruct (loads host_recursion t) as [v| |]; [|by intros [= <- <-]|by intros [= <- <-]]. cbn.
  destruct (is_dict v); by intros [= <- <-].
Qed.
End helpers.

(** ** Operations that only look *)

(** [Reads m]: whatever its outcome, [m] leaves the world as it is. *)
Definition Reads {A} (m : M A) : Prop := forall w r w', m w = (r, w') -> w' = w.

Section Reads.
Lemma Reads_ret {A} (a : A) : Reads (mret a).
Proof. by intros w r w' [= <- <-]. Qed.
Lemma Reads_throw {A} e : Reads (throw e : M A).
Proof. by intros w r w' [= <- <-]. Qed.
Lemma Reads_raise {A} k s : Reads (raise k s : M A).
Proof. apply Reads_throw. Qed.
Lemma Reads_gets {A} (f : world -> A) : Reads (gets f).
Proof. by intros w r w' [= <- <-]. Qed.
Lemma Reads_bind {A B} (m : M A) (f : A -> M B) :
  Reads m -> (forall a, Reads (f a)) -> Reads (m ≫= f).
Proof.
  intros Hm Hf w r w'. unfold mbind, M_bind. destruct (m w) as [[a|e] w1] eqn:E;
    apply Hm in E as ->; [apply Hf|by intros [= <- <-]].
Qed.
Lemma Reads_fmap {A B} (f : A -> B) (m : M A) : Reads m -> Reads (f <$> m).
Proof. intros Hm. apply Reads_bind; [done|intros; apply Reads_ret]. Qed.
Lemma Reads_try {A} (m : M A) (p : exn -> bool) (h : exn -> M A) :
  Reads m -> (forall e, Reads (h e)) -> Reads (try_except m p h).
Proof.
  intros Hm Hh w r w'. unfold try_except. destruct (m w) as [[a|e] w1] eqn:E;
    apply Hm in E as ->; [by intros [= <- <-]|]. destruct (p e); [apply Hh|by intros [= <- <-]].
Qed.
Lemma Reads_when b m : Reads m -> Reads (when_ b m).
Proof. intros Hm. destruct b; [done|apply Reads_ret]. Qed.
Lemma Reads_fail_if b k s : Reads (fail_if b k s).
Proof. apply Reads_when, Reads_raise. Qed.
Lemma Reads_lift_opt {A} k s (o : option A) : Reads (lift_opt k s o).
Proof. destruct o; [apply Reads_ret|apply Reads_raise]. Qed.
Lemma Reads_fold_m {A B} (f : B -> A -> M B) (l : list A) b :
  (forall b x, Reads (f b x)) -> Reads (fold_m f b l).
Proof.
  intros Hf. revert b. induction l as [|x l IH]; intros b; [apply Reads_ret|]. simpl.
  apply Reads_bind; [done|]. intros. apply IH.
Qed.
Lemma Reads_map_m {A B} (f : A -> M B) (l : list A) : (forall x, Reads (f x)) -> Reads (map_m f l).
Proof.
  intros Hf. induction l as [|x l IH]; [apply Reads_ret|]. simpl.
  apply Reads_bind; [done|]. intros y. apply Reads_bind; [done|]. intros; apply Reads_ret.
Qed.
Lemma Reads_for {A} (l : list A) (f : A -> M unit) : (forall x, Reads (f x)) -> Reads (for_ l f).
Proof.
  intros Hf. induction l as [|x l IH]; [apply Reads_ret|]. simpl. by apply Reads_bind.
Qed.
Lemma Reads_filter_m {A} (f : A -> M bool) (l : list A) :
  (forall x, Reads (f x)) -> Reads (filter_m f l).
Proof.
  intros Hf. induction l as [|x l IH]; [apply Reads_ret|]. simpl.
  apply Reads_bind; [done|]. intros y. apply Reads_bind; [done|]. intros; apply Reads_ret.
Qed.
Lemma Reads_all_m {A} (f : A -> M bool) (l : list A) :
  (forall x, Reads (f x)) -> Reads (all_m f l).
Proof.
  intros Hf. induction l as [|x l IH]; [apply Reads_ret|]. simpl.
  apply Reads_bind; [done|]. intros []; [done|apply Reads_ret].
Qed.
End Reads.

(** What such an operation answers is all that is to be known of it. *)
Lemma reads_eq {A} (m : M A) w r : Reads m -> (m w).1 = r -> m w = (r, w).
Proof. intros Hm <-. destruct (m w) as [r w'] eqn:E. by rewrite (Hm _ _ _ E). Qed.

Create HintDb reads.
#[export] Hint Resolve Reads_ret Reads_throw Reads_raise Reads_gets Reads_fail_if
  Reads_lift_opt : reads.

(** Proves [Reads] of an operation from its shape. *)
Ltac reads_step :=
  match goal with
  | |- forall _, _ => intros ?
  | |- Reads (mbind _ _) => apply Reads_bind
  | |- Reads (fmap _ _) => apply Reads_fmap
  | |- Reads (try_except _ _ _) => apply Reads_try
  | |- Reads (when_ _ _) => apply Reads_when
  | |- Reads (for_ _ _) => apply Reads_for
  | |- Reads (map_m _ _) => apply Reads_map_m
  | |- Reads (filter_m _ _) => apply Reads_filter_m
  | |- Reads (all_m _ _) => apply Reads_all_m
  | |- Reads (fold_m _ _ _) => apply Reads_fold_m
  | |- Reads (match ?x with _ => _ end) => destruct x
  | |- Reads (let '_ := ?x in _) => destruct x
  | |- _ => solve [auto with reads]
  end.
Ltac solve_reads := repeat reads_step.

Section reads_io.
Context `{Host}.

Lemma Reads_read_raw p : Reads (read_raw p).
Proof. intros w r w'. apply read_raw_state. Qed.
Lemma Reads_read_text p : Reads (read_text p).
Proof. intros w r w'. apply read_text_state. Qed.
Lemma Reads_read_bytes p : Reads (read_bytes p).
Proof. intros w r w'. apply read_bytes_state. Qed.
Lemma Reads_stat_size p : Reads (stat_size p).
Proof. intros w r w'. apply stat_size_state. Qed.
Lemma Reads_iterdir p : Reads (iterdir p).
Proof. intros w r w' E. unfold iterdir in E. repeat case_match; inversion E; done. Qed.
Lemma Reads_stat_mtime p : Reads (stat_mtime p).
Proof. intros w r w' E. unfold stat_mtime in E. repeat case_match; inversion E; done. Qed.
Lemma Reads_sha256_file p : Reads (sha256_file p).
Proof. intros w r w'. apply sha256_file_state. Qed.
Lemma Reads_read_json p : Reads (read_json p).
Proof. intros w r w'. apply read_json_state. Qed.
Lemma Reads_getitem v k : Reads (getitem v k).
Proof. unfold getitem. solve_reads. Qed.
Lemma Reads_get_default v k d : Reads (get_default v k d).
Proof. unfold get_default. solve_reads. Qed.
Lemma Reads_getpath v ks : Reads (getpath v ks).
Proof.
  revert v. induction ks as [|k ks IH]; intros v; simpl; [apply Reads_ret|].
  apply Reads_bind; [apply Reads_getitem|done].
Qed.
Lemma Reads_resolve p : Reads (resolve p).
Proof. apply Reads_gets. Qed.
Lemma Reads_relative_to p root : Reads (relative_to p root).
Proof. unfold relative_to. solve_reads. Qed.
End reads_io.

#[export] Hint Resolve Reads_read_raw Reads_read_text Reads_read_bytes Reads_stat_size Reads_iterdir
  Reads_stat_mtime Reads_sha256_file Reads_read_json Reads_getitem Reads_get_default Reads_getpath
  Reads_resolve Reads_relative_to : reads.

Section reads_lib.
Context `{Host}.

Lemma Reads_is_file p : Reads (is_file p).
Proof. apply Reads_gets. Qed.
Lemma Reads_is_dir p : Reads (is_dir p).
Proof. apply Reads_gets. Qed.
Lemma Reads_exists p : Reads (exists_ p).
Proof. apply Reads_gets. Qed.
Lemma Reads_is_symlink p : Reads (is_symlink p).
Proof. apply Reads_gets. Qed.
Lemma Reads_get v k : Reads (get v k).
Proof. apply Reads_get_default. Qed.
Lemma Reads_items_of v : Reads (items_of v).
Proof. unfold items_of. solve_reads. Qed.
Lemma Reads_dict_items v : Reads (dict_items v).
Proof. unfold dict_items. solve_reads. Qed.
Lemma Reads_int0 v : Reads (int0 v).
Proof. unfold int0. solve_reads. Qed.
Lemma Reads_as_str v : Reads (as_str v).
Proof. unfold as_str. solve_reads. Qed.
Lemma Reads_hashable v : Reads (hashable v).
Proof. unfold hashable. solve_reads. Qed.
Lemma Reads_json_len v : Reads (json_len v).
Proof. unfold json_len. solve_reads. Qed.
Lemma Reads_text_at v ks : Reads (text_at v ks).
Proof. unfold text_at. solve_reads. Qed.
Lemma Reads_validate a b : Reads (validate a b).
Proof. unfold validate. solve_reads. Qed.
Lemma Reads_load_json p : Reads (load_json p).
Proof. unfold load_json, json_loads. solve_reads. Qed.
Lemma Reads_ensure_within p root : Reads (ensure_within p root).
Proof. unfold ensure_within. solve_reads. Qed.
Lemma Reads_build_path l : Reads (build_path l).
Proof. unfold build_path. apply Reads_ensure_within. Qed.
Lemma Reads_relative_text p root : Reads (relative_text p root).
Proof. unfold relative_text. solve_reads. Qed.
Lemma Reads_rglob p : Reads (rglob p).
Proof. apply Reads_gets. Qed.
End reads_lib.

#[export] Hint Resolve Reads_is_file Reads_is_dir Reads_exists Reads_is_symlink Reads_get
  Reads_items_of Reads_dict_items Reads_int0 Reads_as_str Reads_hashable Reads_json_len Reads_text_at
  Reads_validate Reads_load_json Reads_ensure_within Reads_build_path Reads_relative_text
  Reads_rglob : reads.

Section reads_files.
Context `{Host}.

Lemma Reads_files_below root : Reads (files_below root).
Proof. unfold files_below. solve_reads. Qed.
Lemma Reads_ensure_directory_accessible p l : Reads (ensure_directory_accessible p l).
Proof. unfold ensure_directory_accessible. solve_reads. Qed.
End reads_files.

#[export] Hint Resolve Reads_files_below Reads_ensure_directory_accessible : reads.

Lemma concat_nil_elem {A} (ls : list (list A)) l : concat ls = [] -> l ∈ ls -> l = [].
Proof.
  induction ls as [|l' ls IH]; cbn [concat]; intros E Hin; [by apply not_elem_of_nil in Hin|].
  apply app_nil in E as [E1 E2]. apply elem_of_cons in Hin as [->|Hin]; auto.
Qed.

(** Opens a successful bind whose first operation only looks: [x] is what it returned
    and [Ex] says so. *)
Tactic Notation "rstep" ident(E) ident(x) ident(Ex) :=
  let w1 := fresh "w" in
  apply bind_ok in E as (x & w1 & Ex & E); cbv beta in E;
  match type of Ex with ?m ?w0 = (Ok _, _) =>
    let R := fresh "R" in let Hw := fresh "Hw" in
    assert (R : Reads m) by solve_reads;
    pose proof (R _ _ _ Ex) as Hw; subst w1; clear R
  end.

(** *** Copies *)

Section copies.
Context `{Host}.

Lemma write_with_mtime_ok p c t w u w' : write_with_mtime p c t w = (Ok u, w') ->
  node_at w (canon w p) <> Some Dir /\ keeps [canon w p] w w' /\ node_at w' (canon w p) = Some (File c t).
Proof.
  unfold write_with_mtime. intros E. apply bind_ok in E as (u1 & w1 & E1 & E).
  assert (Hd : node_at w (canon w p) <> Some Dir) by (intros Hd; unfold write_raw, with_entry in E1; by rewrite Hd in E1).
  pose proof (write_raw_keeps _ _ _ _ _ E1) as HK. apply write_raw_ok in E1 as (-> & Hne & _).
  unfold modify in E. injection E as <- <-. split; [done|].
  assert (Hc : canon (put_file (canon w p) c w) p = canon w p) by (by apply canon_links).
  rewrite Hc. split.
  - etransitivity; [exact HK|]. constructor; [done|done|]. intros k n Hk Hn. simpl.
    rewrite lookup_insert_ne; [done|]. intros Heq. apply Hk. rewrite Heq. left.
  - unfold node_at. destruct (canon w p) as [|x k]; [done|]. simpl. by rewrite lookup_insert_eq.
Qed.

Lemma copy2_ok src dst w u w' : copy2 src dst w = (Ok u, w') ->
  (node_at w (canon w dst) = Some Dir /\ node_at w' (canon w dst) = Some Dir /\ w_links w' = w_links w) \/
  exists c t, read_raw src w = (Ok c, w) /\ keeps [canon w dst] w w' /\
    node_at w' (canon w dst) = Some (File c t).
Proof.
  unfold copy2. intros E. rstep E c Ec. rstep E t Et. rstep E d Ed. apply gets_ok in Ed as [-> _].
  unfold is_dir_at in E. destruct (node_at w (canon w dst)) as [[? ?|]|] eqn:En;
    [right; exists c, t; by apply write_with_mtime_ok in E as (_ & HK & Hn)|left
    |right; exists c, t; by apply write_with_mtime_ok in E as (_ & HK & Hn)].
  apply write_with_mtime_ok in E as (Hd & HK & _). split; [done|]. split; [|apply HK].
  eapply keeps_node; [exact HK| |exact En]. intros Hin%list_elem_of_singleton. congruence.
Qed.
End copies.

(** What a pure mapping returns. *)
Lemma map_m_reads {A B} (f : A -> M B) (l : list A) ys w w' : (forall x, Reads (f x)) ->
  map_m f l w = (Ok ys, w') -> w' = w /\ Forall2 (fun x y => f x w = (Ok y, w)) l ys.
Proof.
  intros Hf. revert ys. induction l as [|x l IH]; intros ys E; cbn [map_m] in E.
  - by apply ret_ok in E as [-> ->].
  - apply bind_ok in E as (y & w1 & E1 & E). pose proof (Hf _ _ _ _ E1) as ->.
    apply bind_ok in E as (ys' & w1 & E2 & E). apply ret_ok in E as [-> ->].
    apply IH in E2 as [-> E2]. split; [done|]. by constructor.
Qed.

Lemma map_m_forall {A B} (f : A -> M B) (P : B -> Prop) (l : list A) ys w w' :
  (forall x y w w', f x w = (Ok y, w') -> P y) -> map_m f l w = (Ok ys, w') -> Forall P ys.
Proof.
  intros Hf. revert ys w w'. induction l as [|x l IH]; intros ys w w' E; cbn [map_m] in E.
  - by apply ret_ok in E as [-> _].
  - apply bind_ok in E as (y & w1 & E1 & E). apply bind_ok in E as (ys' & w2 & E2 & E).
    apply ret_ok in E as [-> _]. constructor; [by eapply Hf|by eapply IH].
Qed.

(** ** Programs for the instances *)

(** Programs that answer the commands that contain a text, and change nothing. *)
Definition answers (l : list (string * exec_result)) (c : command) (w : world) : exec_result * world :=
  match List.find (fun kv => contains kv.1 (join " " (c_argv c))) l with
  | Some (_, r) => (r, w)
  | None => (NoProgram, w)
  end.
Definition ok_of {A} (d : A) (r : result A * world) : A := match r.1 with Ok a => a | Raise _ => d end.

(** ** Plain names *)

(** A name that is one part of a path. *)
Definition plain_name (n : string) : bool :=
  negb (String.eqb n "") && negb (String.eqb n ".") && negb (String.eqb n "..") &&
  sforall (fun c => negb (Ascii.eqb c "/")) n.

Lemma split_char_plain c n : sforall (fun d => negb (Ascii.eqb d c)) n = true -> split_char c n = [n].
Proof.
  induction n as [|d n IH]; [done|]. intros Hn. simpl in Hn. bool_props.
  cbn [split_char]. rewrite H, IH; done.
Qed.

Lemma split_char_cons c n s : sforall (fun d => negb (Ascii.eqb d c)) n = true ->
  split_char c (n +:+ ch c +:+ s) = n :: split_char c s.
Proof.
  induction n as [|d n IH]; intros Hn.
  - unfold ch. rewrite sapp_nil_l, sapp_cons, sapp_nil_l. cbn [split_char]. by rewrite Ascii.eqb_refl.
  - simpl in Hn. bool_props. rewrite sapp_cons. cbn [split_char]. rewrite H, IH; done.
Qed.

Lemma split_char_join c l : l <> [] -> Forall (fun n => sforall (fun d => negb (Ascii.eqb d c)) n = true) l ->
  split_char c (join (ch c) l) = l.
Proof.
  intros Hl Hf. induction l as [|n l IH]; [done|]. apply Forall_cons in Hf as [Hn Hf].
  destruct l as [|m l]; [by apply split_char_plain|].
  rewrite join_cons2, split_char_cons, IH by done. done.
Qed.

Lemma plain_name_spec n : plain_name n = true ->
  n <> "" /\ n <> "." /\ n <> ".." /\ sforall (fun c => negb (Ascii.eqb c "/")) n = true.
Proof. unfold plain_name. intros H. by bool_props. Qed.

Lemma filter_id {A} (P : A -> Prop) `{!forall x, Decision (P x)} l : Forall P l -> filter P l = l.
Proof. induction 1 as [|x l Hx _ IH]; [done|]. by rewrite filter_cons_True, IH. Qed.

Lemma parse_path_plain l : l <> [] -> Forall (fun n => plain_name n = true) l ->
  parse_path (join "/" l) = Path false l.
Proof.
  intros Hl Hp. unfold parse_path. f_equal.
  - destruct l as [|n l]; [done|]. apply Forall_cons in Hp as [Hn _].
    apply plain_name_spec in Hn as (Hn & _ & _ & Hc). destruct n as [|c n]; [done|].
    simpl in Hc. apply andb_true_iff in Hc as [Hc _].
    assert (Hs : forall r, startswith (String c r) "/" = false).
    { intros r. unfold startswith. cbn [String.prefix].
      destruct (Ascii.ascii_dec "/" c) as [<-|]; [done|done]. }
    destruct l; [|rewrite join_cons2, sapp_cons]; apply Hs.
  - rewrite (split_char_join "/"%char).
    + apply filter_id. eapply Forall_impl; [exact Hp|]. intros n (H1 & H2 & _)%plain_name_spec.
      cbv beta. rewrite !bool_decide_eq_true_2 by done. done.
    + done.
    + eapply Forall_impl; [exact Hp|]. by intros n (_ & _ & _ & ?)%plain_name_spec.
Qed.

Lemma foldl_pdiv_plain root l : Forall (fun n => plain_name n = true) l ->
  foldl pdiv root l = pnames root l.
Proof.
  revert root. induction l as [|n l IH]; intros root Hp.
  - unfold pnames. rewrite app_nil_r. by destruct root.
  - apply Forall_cons in Hp as [Hn Hp]. cbn [foldl]. rewrite IH by done.
    unfold pdiv. change n with (join "/" [n]). rewrite parse_path_plain; [|done|by constructor].
    unfold joinpath, pnames. simpl. by rewrite <- app_assoc.
Qed.

Lemma join_parts_plain root l : l <> [] -> Forall (fun n => plain_name n = true) l ->
  join_parts root (join "/" l) = pnames root l.
Proof.
  intros Hl Hp. unfold join_parts. rewrite parse_path_plain by done. by apply foldl_pdiv_plain.
Qed.

(** ** Stores without links *)

(** A store without links whose names are plain. *)
Record plain_store (w : world) : Prop := {
  ps_links : w_links w = ∅;
  ps_names : forall k n, w_fs w !! k = Some n -> Forall (fun x => plain_name x = true) k
}.

Section plain_store.
Context `{Host}.
Notation plain := (Forall (fun x => plain_name x = true)).

Lemma canon_plain_store w k : plain_store w -> plain k -> canon w (Path true k) = k.
Proof.
  intros Hw Hk. apply canon_plain; [apply Hw|]. eapply Forall_impl; [exact Hk|].
  by intros n (_ & _ & ? & _)%plain_name_spec.
Qed.

Lemma keys_below_plain w (Hw : plain_store w) k k' : k' ∈ keys_below w k ->
  exists rest, rest <> [] /\ k' = k ++ rest /\ plain k'.
Proof.
  unfold keys_below. intros Hin. apply list_elem_of_filter in Hin as [[Hp Hne] Hin].
  rewrite (ps_links _ Hw), map_to_list_empty, app_nil_r in Hin.
  apply list_elem_of_fmap in Hin as ([k2 n] & -> & Hin). apply elem_of_map_to_list in Hin.
  apply is_prefix_spec in Hp as [rest Hp]. cbn [fst] in *. exists rest. split_and!; [|done|].
  - intros ->. rewrite app_nil_r in Hp. done.
  - by eapply ps_names.
Qed.

(** What [rglob] lists below a directory. *)
Lemma rglob_plain_store w (Hw : plain_store w) k p : plain k -> p ∈ rglob_at w (Path true k) ->
  exists rest, rest <> [] /\ p = Path true (k ++ rest) /\ plain (k ++ rest).
Proof.
  intros Hk. unfold rglob_at. rewrite (canon_plain_store w k) by done. intros Hin.
  apply list_elem_of_fmap in Hin as (k' & -> & Hin).
  apply (keys_below_plain w Hw) in Hin as (rest & Hne & -> & Hpl). exists rest. split_and!; [done| |done].
  unfold pnames. cbn [p_abs p_parts]. by rewrite drop_app_length.
Qed.

Lemma rglob_plain_iff w (Hw : plain_store w) k p : plain k ->
  p ∈ rglob_at w (Path true k) <->
  exists rest n, rest <> [] /\ p = Path true (k ++ rest) /\ w_fs w !! (k ++ rest) = Some n.
Proof.
  intros Hk. unfold rglob_at. rewrite (canon_plain_store w k) by done.
  assert (Hin : forall k', k' ∈ keys_below w k <-> exists rest n, rest <> [] /\ k' = k ++ rest /\
    w_fs w !! k' = Some n).
  { intros k'. unfold keys_below.
    rewrite list_elem_of_filter, (ps_links _ Hw), map_to_list_empty, app_nil_r, list_elem_of_fmap, is_prefix_spec.
    split.
    - intros [[[rest ->] Hne] ([k2 n] & Hk2 & Hin)]. cbn in Hk2. subst k2. apply elem_of_map_to_list in Hin.
      exists rest, n. split_and!; [|done|done]. intros ->. by rewrite app_nil_r in Hne.
    - intros (rest & n & Hne & -> & Hn). split; [split; [by eexists|]|].
      + rewrite <- (app_nil_r k) at 2. intros E. by apply app_inv_head in E.
      + exists (k ++ rest, n). split; [done|]. by apply elem_of_map_to_list. }
  rewrite list_elem_of_fmap. unfold pnames. cbn [p_abs p_parts]. split.
  - intros (k' & -> & Hk'). apply Hin in Hk' as (rest & n & Hne & -> & Hn). exists rest, n.
    by rewrite drop_app_length.
  - intros (rest & n & Hne & -> & Hn). exists (k ++ rest). rewrite drop_app_length. split; [done|].
    apply Hin. by exists rest, n.
Qed.
End plain_store.
