(* ===== verification/Writes.v ===== *)
(** Operations that succeed: what a script needs of the store to read, write, copy and use a
    temporary directory, and all that has changed afterwards. *)
From Stdlib Require Import ZArith Lia.
From S2P Require Import Prelude Str Json Sha256 Py Store Lib Bytes Helpers.
Local Open Scope Z_scope.
Local Open Scope py_scope.

(** ** Stores that differ at some keys only *)

(** From [w] to [w'] only entries at the keys [P] have changed, and the directories are the
    same. *)
Record tidy (P : list string -> Prop) (w w' : world) : Prop := {
  tidy_links : w_links w' = w_links w;
  tidy_denied : w_denied w' = w_denied w;
  tidy_fs : forall k, ~ P k -> w_fs w' !! k = w_fs w !! k;
  tidy_dirs : forall k, w_fs w' !! k = Some Dir <-> w_fs w !! k = Some Dir
}.

#[export] Instance tidy_preorder P : PreOrder (tidy P).
Proof.
  split; [by intros w; constructor|]. intros w1 w2 w3 [L1 D1 F1 R1] [L2 D2 F2 R2].
  constructor; [congruence|congruence| |].
  - intros k Hk. by rewrite F2, F1.
  - intros k. by rewrite R2, R1.
Qed.

Lemma tidy_mono (P Q : list string -> Prop) w w' : (forall k, P k -> Q k) -> tidy P w w' -> tidy Q w w'.
Proof. intros HPQ [L D F R]. constructor; [done|done| |done]. intros k Hk. apply F. auto. Qed.

Section writes.
Context `{Host}.

Lemma tidy_canon P w w' p : tidy P w w' -> canon w' p = canon w p.
Proof. intros HT. apply canon_links, HT. Qed.

Lemma tidy_dir P w w' k : tidy P w w' -> node_at w' k = Some Dir <-> node_at w k = Some Dir.
Proof. intros HT. destruct k; [done|]. apply HT. Qed.

Lemma tidy_node P w w' k : tidy P w w' -> ~ P k -> node_at w' k = node_at w k.
Proof. intros HT Hk. destruct k; [done|]. by apply (tidy_fs _ _ _ HT). Qed.

(** ** Files that can be read *)

(** The file at [p] can be read and holds [c]. *)
Definition reads_as (w : world) (p : path) (c : string) : Prop :=
  (exists t, node_at w (canon w p) = Some (File c t)) /\ canon w p ∉ w_denied w.

Lemma reads_as_raw w p c : reads_as w p c -> read_raw p w = (Ok c, w).
Proof. intros [[t Hn] Hd]. by eapply read_raw_node. Qed.

Lemma reads_as_sha256 w p c : reads_as w p c -> sha256_file p w = (Ok (sha256_text c), w).
Proof.
  intros [[t Hn] Hd]. unfold sha256_file. rewrite (bind_ok_eq _ _ (to_bytes c) w w).
  - by rewrite sha256_stream_bytes.
  - by eapply read_bytes_node.
Qed.

Lemma reads_as_size w p c : reads_as w p c -> stat_size p w = (Ok (slen c), w).
Proof. intros [[t Hn] _]. unfold stat_size. by rewrite Hn. Qed.

Lemma reads_as_file w p c : reads_as w p c -> is_file_at w p = true.
Proof. intros [[t Hn] _]. unfold is_file_at. by rewrite Hn. Qed.

Lemma reads_as_keeps K w w' p c : keeps K w w' -> canon w p ∉ K -> reads_as w p c -> reads_as w' p c.
Proof.
  intros HK Hp [[t Hn] Hd]. split.
  - exists t. by eapply keeps_file_read.
  - by rewrite (keeps_canon _ _ _ _ HK), (keeps_denied _ _ _ HK).
Qed.

Lemma reads_as_tidy P w w' p c : tidy P w w' -> ~ P (canon w p) -> reads_as w p c -> reads_as w' p c.
Proof.
  intros HT Hp [[t Hn] Hd]. unfold reads_as.
  rewrite (tidy_canon _ _ _ _ HT), (tidy_denied _ _ _ HT), (tidy_node _ _ _ _ HT Hp). eauto.
Qed.

(** ** Files that can be written *)

(** A file can be written at [p]: in a directory, over nothing or an accessible file. *)
Definition can_write (w : world) (p : path) : Prop :=
  node_at w (canon w p) <> Some Dir /\ node_at w (removelast (canon w p)) = Some Dir /\
  canon w p ∉ w_denied w.

Lemma can_write_tidy P w w' p : tidy P w w' -> can_write w p -> can_write w' p.
Proof.
  intros HT (Hn & Hd & Ha). unfold can_write.
  rewrite (tidy_canon _ _ _ _ HT), (tidy_denied _ _ _ HT), !(tidy_dir _ _ _ _ HT). done.
Qed.

Lemma put_file_tidy w k c : node_at w k <> Some Dir -> tidy (eq k) w (put_file k c w).
Proof.
  intros Hn. constructor; [done|done| |]; intros k'; cbn [put_file tick set_fs w_fs].
  - intros Hk. by rewrite lookup_insert_ne.
  - destruct (decide (k = k')) as [<-|Hne]; [|by rewrite lookup_insert_ne].
    rewrite lookup_insert_eq. split; [done|]. intros Hd. destruct k; done.
Qed.

Lemma put_file_reads w p c : can_write w p -> reads_as (put_file (canon w p) c w) p c.
Proof.
  intros (Hn & _ & Hd). assert (Hc : canon (put_file (canon w p) c w) p = canon w p) by by apply canon_links.
  unfold reads_as. rewrite Hc. split; [|done]. exists (w_clock w). destruct (canon w p) as [|x k]; [done|].
  cbn [node_at put_file tick set_fs w_fs]. by rewrite lookup_insert_eq.
Qed.

(** The device holds whatever is written. *)
Definition device_has_room : Prop := forall k c w, host_write_stops k c w = None.
Context (Hroom : device_has_room).

Lemma write_raw_done w p c : can_write w p -> write_raw p c w = (Ok tt, put_file (canon w p) c w).
Proof.
  intros (Hn & Hp & Hd). unfold write_raw, with_entry, store_bytes. rewrite Hroom.
  destruct (node_at w (canon w p)) as [[c' t|]|]; [|done|].
  - by rewrite bool_decide_eq_false_2.
  - by rewrite Hp.
Qed.

(** Writing: the file holds what was written, and nothing else has changed. *)
Lemma write_raw_tidy w p c : can_write w p ->
  exists w', write_raw p c w = (Ok tt, w') /\ tidy (eq (canon w p)) w w' /\ keeps [canon w p] w w' /\
    reads_as w' p c.
Proof.
  intros Hw. exists (put_file (canon w p) c w). split_and!; [by apply write_raw_done| |apply put_file_keeps|by apply put_file_reads].
  apply put_file_tidy, Hw.
Qed.

(** Copying to a place that is no directory. *)
Lemma copy2_tidy w src dst c : reads_as w src c -> can_write w dst ->
  exists w', copy2 src dst w = (Ok tt, w') /\ tidy (eq (canon w dst)) w w' /\ reads_as w' dst c.
Proof.
  intros Hs Hd. unfold copy2. rewrite (bind_ok_eq _ _ c w w) by by apply reads_as_raw.
  rewrite (bind_ok_eq _ _ (mtime_at w src) w w) by done.
  assert (Hdir : is_dir_at w dst = false).
  { unfold is_dir_at. destruct Hd as [Hd _]. by destruct (node_at w (canon w dst)) as [[]|]. }
  rewrite (bind_ok_eq _ _ false w w) by (unfold is_dir, gets; by rewrite Hdir).
  unfold write_with_mtime. rewrite (bind_ok_eq _ _ tt w _ (write_raw_done _ _ c Hd)).
  unfold modify. set (t := mtime_at w src). set (k := canon w dst) in *.
  assert (Hc : canon (put_file k c w) dst = k) by by apply canon_links. rewrite Hc.
  eexists. split; [done|]. destruct Hd as (Hn & _ & Ha). fold k in Hn, Ha. split.
  - constructor; [done|done| |]; intros k'; cbn [put_file tick set_fs w_fs].
    + intros Hk. by rewrite !lookup_insert_ne.
    + destruct (decide (k = k')) as [<-|Hne]; [|by rewrite !lookup_insert_ne].
      rewrite lookup_insert_eq. split; [done|]. intros Hd. by destruct k.
  - split; [|by rewrite (canon_links w)]. exists t. rewrite (canon_links w) by done. fold k.
    destruct k; [done|]. cbn [node_at put_file tick set_fs w_fs]. by rewrite lookup_insert_eq.
Qed.

Lemma mkdir_p_done w p : node_at w (canon w p) = Some Dir -> mkdir_p p w = (Ok tt, w).
Proof. intros Hn. unfold mkdir_p, mkdir. by rewrite Hn. Qed.

(** ** Temporary directories *)

Lemma below_refl k : below k k = true.
Proof. unfold below. induction k as [|x k IH]; [done|]. cbn [is_prefix]. by rewrite String.eqb_refl. Qed.

Lemma remove_tree_lookup k w k' : w_fs (remove_tree k w) !! k' = if below k k' then None else w_fs w !! k'.
Proof.
  unfold remove_tree. cbn [set_links set_fs w_fs]. rewrite map_lookup_filter.
  destruct (w_fs w !! k') as [n|]; simpl; [|by destruct (below k k')].
  destruct (below k k'); by case_guard.
Qed.

Lemma with_temp_dir_done {A} prefix (body : path -> M A) (P : list string -> Prop) w a w2 d k :
  d = pnames (Path true host_tmp) [prefix +:+ host_uuid w] -> canon w d = k ->
  w_links w = ∅ -> (forall k', below k k' = true -> w_fs w !! k' = None) ->
  k <> [] -> node_at w (removelast k) = Some Dir ->
  body d (set_fs (<[k := Dir]> (w_fs w)) w) = (Ok a, w2) ->
  tidy (fun k' => below k k' = true \/ P k') (set_fs (<[k := Dir]> (w_fs w)) w) w2 ->
  with_temp_dir prefix body w = (Ok a, remove_tree k w2) /\ tidy P w (remove_tree k w2).
Proof.
  intros Ed Ek Hl Hfresh Hne Hp Hbody HT. set (w1 := set_fs (<[k := Dir]> (w_fs w)) w) in *.
  assert (Hk : node_at w k = None) by (destruct k; [done|apply Hfresh, below_refl]).
  assert (Hl2 : w_links w2 = ∅) by by rewrite (tidy_links _ _ _ HT).
  assert (Hk2 : node_at w2 k = Some Dir).
  { apply (tidy_dir _ _ _ _ HT). destruct k; [done|]. cbn [node_at w1 set_fs w_fs]. by rewrite lookup_insert_eq. }
  split.
  - unfold with_temp_dir. rewrite <- Ed. rewrite (bind_ok_eq _ _ tt w w1).
    2: { unfold mkdir. by rewrite Ek, Hk, Hp. }
    unfold finally. rewrite Hbody. unfold rmtree, is_link_at. rewrite Hl2, lookup_empty.
    rewrite (canon_links w1 w2) by apply HT. rewrite (canon_links w w1) by done. by rewrite Ek, Hk2.
  - constructor.
    + unfold remove_tree. cbn [set_links w_links]. by rewrite Hl2, Hl, map_filter_empty.
    + apply HT.
    + intros k' Hk'. rewrite remove_tree_lookup. destruct (below k k') eqn:Hb; [symmetry; by apply Hfresh|].
      rewrite (tidy_fs _ _ _ HT) by (rewrite Hb; naive_solver). cbn [w1 set_fs w_fs].
      rewrite lookup_insert_ne; [done|]. intros <-. by rewrite below_refl in Hb.
    + intros k'. rewrite remove_tree_lookup. destruct (below k k') eqn:Hb; [by rewrite Hfresh|].
      rewrite (tidy_dirs _ _ _ HT). cbn [w1 set_fs w_fs].
      rewrite lookup_insert_ne; [done|]. intros <-. by rewrite below_refl in Hb.
Qed.

Lemma reads_as_remove_tree k w p c : w_links w = ∅ -> reads_as w p c -> below k (canon w p) = false ->
  reads_as (remove_tree k w) p c.
Proof.
  intros Hl [[t Hn] Hd] Hb.
  assert (Hc : canon (remove_tree k w) p = canon w p).
  { apply canon_links. unfold remove_tree. cbn [set_links w_links]. by rewrite Hl, map_filter_empty. }
  unfold reads_as. rewrite Hc. split; [|done]. exists t. destruct (canon w p) as [|x l]; [done|].
  cbn [node_at] in *. by rewrite remove_tree_lookup, Hb.
Qed.
End writes.

(** ** Documents of plain texts, as [json.dumps] writes them *)

(** ASCII without the character 127, which [json.dumps] escapes. *)
Definition ascii_char (c : ascii) : bool := (ord c <? 128) && negb (ord c =? 127).

Fixpoint json_ascii (v : json) : bool :=
  match v with
  | JFloat l => sforall plain l
  | JStr s => sforall ascii_char s
  | JArr l => forallb json_ascii l
  | JObj d => forallb (fun kv => sforall ascii_char kv.1 && json_ascii kv.2) d
  | _ => true
  end.

Lemma escape_ascii_plain s : sforall ascii_char s = true -> escape_ascii s = escape s.
Proof.
  induction s as [|c s IH]; [done|]. cbn [sforall escape_ascii escape]. unfold ascii_char at 1. intros Hs.
  apply andb_true_iff in Hs as [[Hc Hn]%andb_true_iff Hs]. apply negb_true_iff in Hn.
  by rewrite Hc, Hn, IH.
Qed.

Lemma dump_str_plain s : sforall ascii_char s = true -> dump_str true s = dump_str false s.
Proof. intros Hs. unfold dump_str. by rewrite escape_ascii_plain. Qed.

Lemma dump_plain ind v : json_ascii v = true -> forall lvl, dump true ind lvl v = dump false ind lvl v.
Proof.
  induction v as [|b|n|l|s|l IH|d IH] using json_ind'; intros Hv lvl; try done; cbn [json_ascii] in Hv.
  - by apply dump_str_plain.
  - rewrite forallb_forall in Hv. rewrite Forall_forall in IH.
    assert (Hm : map (dump true ind (S lvl)) l = map (dump false ind (S lvl)) l).
    { apply map_ext_in. intros x Hx. apply IH; [by apply list_elem_of_In|by apply Hv]. }
    cbn [dump]. destruct l; [done|]. by rewrite Hm.
  - rewrite forallb_forall in Hv. rewrite Forall_forall in IH.
    assert (Hm : map (fun kv => dump_str true kv.1 +:+ ": " +:+ dump true ind (S lvl) kv.2) d =
      map (fun kv => dump_str false kv.1 +:+ ": " +:+ dump false ind (S lvl) kv.2) d).
    { apply map_ext_in. intros x Hx. specialize (Hv x Hx). apply andb_true_iff in Hv as [Hk Hv].
      rewrite dump_str_plain by done. f_equal. f_equal. apply IH; [by apply list_elem_of_In|done]. }
    cbn [dump]. destruct d; [done|]. by rewrite Hm.
Qed.

Lemma ascii_utf8 s : sforall ascii_char s = true -> utf8_valid s = true.
Proof.
  induction s as [|c s IH]; [done|]. cbn [sforall utf8_valid]. unfold ascii_char at 1. intros Hs.
  apply andb_true_iff in Hs as [[Hc _]%andb_true_iff Hs]. rewrite Hc. by apply IH.
Qed.

Lemma json_ascii_text v : json_ascii v = true -> json_text v = true.
Proof.
  induction v as [|b|n|l|s|l IH|d IH] using json_ind'; intros Hv; try done; cbn [json_ascii json_text] in *;
    [by apply ascii_utf8|..]; rewrite forallb_forall in *; rewrite Forall_forall in IH; intros x Hx.
  - apply IH; [by apply list_elem_of_In|by apply Hv].
  - specialize (Hv x Hx). apply andb_true_iff in Hv as [Hk Hv]. rewrite ascii_utf8 by done.
    apply IH; [by apply list_elem_of_In|done].
Qed.

(** What text mode writes, with the line ends of the platform. *)
Definition native `{Host} (s : string) : string := if host_nt then replace nl (cr +:+ nl) s else s.

Lemma replace_nl_cons new c s :
  replace nl new (String c s) = if Ascii.eqb c (chr 10) then new +:+ replace nl new s else String c (replace nl new s).
Proof.
  unfold replace at 1. cbn [replace_aux nl]. destruct (Ascii.eqb c (chr 10)) eqn:E.
  - apply Ascii.eqb_eq in E as ->. by destruct s.
  - assert (Hp : String.prefix nl (String c s) = false); [|by rewrite Hp].
    cbn [nl ch String.prefix]. destruct (Ascii.ascii_dec (chr 10) c) as [<-|]; [|done].
    by rewrite Ascii.eqb_refl in E.
Qed.

Lemma replace_nl_utf8 new s : utf8_valid new = true -> utf8_valid s = true -> utf8_valid (replace nl new s) = true.
Proof.
  intros Hnew. remember (String.length s) as n eqn:Hn. revert s Hn.
  induction n as [n IH] using lt_wf_ind. intros s -> Hs.
  assert (Ht : forall t, utf8_valid t = true -> (String.length t < String.length s)%nat ->
    utf8_valid (replace nl new t) = true) by (intros t ? Hl; by eapply (IH _ Hl t)).
  clear IH. assert (Hhi : forall c, (ord c <? 128) = false -> Ascii.eqb c (chr 10) = false).
  { intros c Hc. assert (E : (ord c <? 128) || negb (Ascii.eqb c (chr 10)) = true) by by_chars c.
    rewrite Hc in E. by apply negb_true_iff in E. }
  destruct s as [|c s]; [done|]. cbn [utf8_valid] in Hs. rewrite replace_nl_cons.
  destruct (ord c <? 128) eqn:Ec.
  { destruct (Ascii.eqb c (chr 10)); [rewrite utf8_valid_app by done|cbn [utf8_valid]; rewrite Ec];
      (apply Ht; [done|simpl; lia]). }
  rewrite Hhi by done. destruct s as [|d s]; [done|].
  destruct (in_range 194 223 c) eqn:E2.
  { apply andb_true_iff in Hs as [Hd Hs]. rewrite replace_nl_cons, Hhi by by eapply (in_range_high 128 191).
    cbn [utf8_valid]. rewrite Ec, E2, Hd. apply Ht; [done|simpl; lia]. }
  destruct s as [|e s]; [done|]. destruct (in_range 224 239 c) eqn:E3.
  { apply andb_true_iff in Hs as [Hh Hs].
    assert (Hde : in_range 128 191 d = true /\ in_range 128 191 e = true) by (clear -Hh; bool_props; done).
    destruct Hde. rewrite !replace_nl_cons, !Hhi by by eapply (in_range_high 128 191).
    cbn [utf8_valid]. rewrite Ec, E2, E3, Hh. apply Ht; [done|simpl; lia]. }
  destruct s as [|f s]; [done|]. apply andb_true_iff in Hs as [Hh Hs].
  assert (Hdef : in_range 128 191 d = true /\ in_range 128 191 e = true /\ in_range 128 191 f = true)
    by (clear -Hh; bool_props; done).
  destruct Hdef as (? & ? & ?). rewrite !replace_nl_cons, !Hhi by by eapply (in_range_high 128 191).
  cbn [utf8_valid]. rewrite Ec, E2, E3, Hh. apply Ht; [done|simpl; lia].
Qed.

Lemma universal_replace_nl s : sforall not_cr s = true -> universal_newlines (replace nl (cr +:+ nl) s) = s.
Proof.
  induction s as [|c s IH]; [done|]. cbn [sforall]. intros [Hc Hs]%andb_true_iff. rewrite replace_nl_cons.
  destruct (Ascii.eqb c (chr 10)) eqn:E.
  - apply Ascii.eqb_eq in E as ->. change ((cr +:+ nl) +:+ ?t) with (String (chr 13) (String (chr 10) t)).
    cbn [universal_newlines]. rewrite !Ascii.eqb_refl. by rewrite IH.
  - cbn [universal_newlines]. unfold not_cr in Hc. apply negb_true_iff in Hc. by rewrite Hc, IH.
Qed.

(** Text mode reads back what it wrote. *)
Lemma read_native `{Host} w p s : reads_as w p (native s) -> text_ok s = true -> read_text p w = (Ok s, w).
Proof.
  intros [[t Hn] Hd] [Hu Hc]%andb_true_iff. erewrite read_text_node; [|exact Hn|exact Hd|].
  - unfold native. destruct host_nt; [by rewrite universal_replace_nl|by rewrite universal_newlines_id].
  - unfold native. destruct host_nt; [by apply replace_nl_utf8|done].
Qed.

(** A document of plain texts written in text mode is read back. *)
Lemma load_json_native `{Host} w p v : reads_as w p (native (dumps_indent v +:+ nl)) ->
  json_wf v = true -> json_ascii v = true -> (nesting v <= host_recursion)%nat -> load_json p w = (Ok v, w).
Proof.
  intros Hr Hwf Ha Hdeep. unfold dumps_indent in Hr. rewrite dump_plain in Hr by done. unfold load_json.
  rewrite (bind_ok_eq _ _ (dump false (Some 2%nat) 0 v +:+ nl) w w).
  - unfold json_loads. by rewrite loads_dump.
  - apply read_native; [done|]. apply text_ok_app; [by apply dump_text_ok, json_ascii_text|done].
Qed.

Lemma hex08_ascii n : sforall ascii_char (hex08 n) = true.
Proof.
  assert (Hd : forall m, 0 <= m -> sforall ascii_char (digits 16 m) = true).
  { intros m Hm. eapply sforall_impl; [|apply (digits_sforall 16); lia]. intros c Hc.
    assert (E : implb (match digit_val c with Some _ => true | None => false end) (ascii_char c) = true) by by_chars c.
    unfold is_digit_of in Hc. destruct (digit_val c); [done|done]. }
  unfold hex08, zfill. destruct (Z.ltb_spec n 0); rewrite !sforall_app, sforall_srepeat by done; apply Hd; lia.
Qed.

Lemma sha256_ascii l : sforall ascii_char (sha256_bytes l) = true.
Proof.
  unfold sha256_bytes, hexdigest. generalize (h_state (sha_update (sha_update sha_init l)
    (128 :: replicate (Z.to_nat ((55 - h_count (sha_update sha_init l)) mod 64)) 0 ++
     be64 (8 * h_count (sha_update sha_init l))))).
  intros ws. unfold join. induction ws as [|w ws IH]; [done|]. rewrite fmap_cons.
  destruct ws as [|w2 ws]; [apply hex08_ascii|]. rewrite fmap_cons in *.
  change (String.concat "" (?x :: ?y :: ?l)) with (x +:+ "" +:+ String.concat "" (y :: l)).
  by rewrite !sforall_app, hex08_ascii, IH.
Qed.

(** ** Plain absolute paths *)

Definition no_slash (s : string) : bool := sforall (fun c => negb (Ascii.eqb c "/")) s.

Definition plain_path (p : path) : Prop :=
  p_abs p = true /\ p_parts p <> [] /\ Forall (fun n => plain_name n = true) (p_parts p).

(** Such a path is read back from its text. *)
Lemma parse_path_str p : plain_path p -> parse_path (path_str p) = p.
Proof.
  destruct p as [a l]. intros (Ha & Hl & Hp). cbn [p_abs p_parts] in *. subst a. unfold path_str. cbn [p_abs p_parts].
  pose proof (parse_path_plain l Hl Hp) as E. unfold parse_path in *. injection E as _ E.
  f_equal; [by destruct (join "/" l)|]. change ("/" +:+ join "/" l) with (String "/" (join "/" l)). cbn [split_char].
  rewrite Ascii.eqb_refl, filter_cons_False by (intros [? _]%andb_True; done). exact E.
Qed.

Lemma plain_path_canon `{Host} w p : w_links w = ∅ -> plain_path p -> canon w p = p_parts p.
Proof.
  intros Hl (Ha & _ & Hp). destruct p as [a l]. cbn [p_abs p_parts] in *. subst a. apply canon_plain; [done|].
  eapply Forall_impl; [exact Hp|]. by intros n (_ & _ & ? & _)%plain_name_spec.
Qed.

Lemma plain_path_names p l : plain_path p -> Forall (fun n => plain_name n = true) l -> plain_path (pnames p l).
Proof.
  intros (Ha & Hn & Hp) Hl. unfold plain_path, pnames. cbn [p_abs p_parts]. split; [done|]. split; [by destruct (p_parts p)|].
  by apply Forall_app.
Qed.

Lemma plain_name_long pre s : (2 < String.length pre)%nat -> no_slash pre = true -> no_slash s = true ->
  plain_name (pre +:+ s) = true.
Proof.
  intros Hl Hp Hs. unfold plain_name. fold (no_slash (pre +:+ s)). unfold no_slash in *. rewrite sforall_app, Hp, Hs.
  destruct pre as [|a [|b [|c pre]]]; simpl in Hl; try lia. rewrite !sapp_cons.
  repeat (apply andb_true_iff; split); try done; apply negb_true_iff, String.eqb_neq; discriminate.
Qed.

Lemma no_slash_app a b : no_slash (a +:+ b) = no_slash a && no_slash b.
Proof. apply sforall_app. Qed.

Lemma no_slash_digits n : 0 <= n -> no_slash (str_of_Z n) = true.
Proof.
  intros Hn. rewrite str_of_Z_nonneg by done. eapply sforall_impl; [|by apply digits_10_sforall].
  intros c Hc. assert (E : implb (is_digit c) (negb (Ascii.eqb c "/")) = true) by by_chars c. by rewrite Hc in E.
Qed.
