(* ===== verification/SocContract.v ===== *)
(** [scripts/generate_soc_contract.py]: the C headers and the linker fragment that
    describe the SoC to software, generated from the memory map and the software
    contract, or checked to be current. *)
From Stdlib Require Import ZArith Lia.
From S2P Require Import Prelude Str Json Py Store Lib Helpers.
Local Open Scope Z_scope.
Local Open Scope py_scope.

Definition hex_value (value : json) : M Z := int0 value.
(** [f"0x{hex_value(v[k]):08x}"] *)
Definition hex_field (v : json) (k : string) : M string :=
  x ← getitem v k; n ← hex_value x; mret ("0x" +:+ hex08 n).

Definition header_guard (n : string) (body : list string) : string :=
  join nl (["/* Generated by scripts/generate_soc_contract.py; do not edit. */";
            "#ifndef " +:+ n;
            "#define " +:+ n;
            ""] ++ body ++
           [""; "#endif /* " +:+ n +:+ " */"; ""]).

(** The two definitions of a region. *)
Definition render_region (kv : string * json) : M (list string) :=
  b ← hex_field kv.2 "base";
  s ← hex_field kv.2 "size";
  mret ["#define SOCRV_" +:+ kv.1 +:+ "_BASE " +:+ b +:+ "u";
        "#define SOCRV_" +:+ kv.1 +:+ "_SIZE " +:+ s +:+ "u"].

Definition render_memory (memory_map : json) : M string :=
  regions ← getitem memory_map "regions";
  items ← dict_items regions;
  lines ← map_m render_region items;
  reset ← hex_field memory_map "reset_vector";
  mret (header_guard "SOCRV_SOC_MEMORY_MAP_H"
          (concat lines ++ [""; "#define SOCRV_RESET_VECTOR " +:+ reset +:+ "u"])).

Definition quoted (s : string) : string := dq +:+ s +:+ dq.

Definition render_config (contract : json) : M string :=
  cpu ← getitem contract "cpu";
  clocks ← getitem contract "clocks";
  xlen ← text_at cpu ["xlen"];
  march ← text_at cpu ["march"];
  mabi ← text_at cpu ["mabi"];
  implementation ← text_at cpu ["implementation"; "name"];
  integer_march ← text_at cpu ["target"; "integer_march"];
  selection ← text_at cpu ["target"; "floating_point"; "selection"];
  single ← text_at cpu ["target"; "floating_point"; "candidates"; "single"; "march"];
  double ← text_at cpu ["target"; "floating_point"; "candidates"; "double"; "march"];
  soc_hz ← text_at clocks ["soc_hz"];
  peripheral_hz ← text_at clocks ["peripheral_hz"];
  timer_hz ← text_at clocks ["timer_hz"];
  uart_baud ← text_at clocks ["uart_baud"];
  mret (header_guard "SOCRV_SOC_CONFIG_H"
    ["#define SOCRV_XLEN " +:+ xlen +:+ "u";
     "#define SOCRV_MARCH " +:+ quoted march;
     "#define SOCRV_MABI " +:+ quoted mabi;
     "#define SOCRV_CPU_IMPLEMENTATION " +:+ quoted implementation;
     "#define SOCRV_TARGET_INTEGER_MARCH " +:+ quoted integer_march;
     "#define SOCRV_TARGET_FP_SELECTION " +:+ quoted selection;
     "#define SOCRV_TARGET_SINGLE_MARCH " +:+ quoted single;
     "#define SOCRV_TARGET_DOUBLE_MARCH " +:+ quoted double;
     "#define SOCRV_SOC_CLOCK_HZ " +:+ soc_hz +:+ "u";
     "#define SOCRV_PERIPHERAL_CLOCK_HZ " +:+ peripheral_hz +:+ "u";
     "#define SOCRV_TIMER_CLOCK_HZ " +:+ timer_hz +:+ "u";
     "#define SOCRV_UART_BAUD " +:+ uart_baud +:+ "u";
     "#define SOCRV_UART_DIVISOR (SOCRV_PERIPHERAL_CLOCK_HZ / SOCRV_UART_BAUD)"]).

Definition render_irq (contract : json) : M string :=
  interrupts ← getitem contract "interrupts";
  machine_causes ← getitem interrupts "machine_causes";
  causes ← dict_items machine_causes;
  external_sources ← getitem interrupts "external_sources";
  sources ← dict_items external_sources;
  mret (header_guard "SOCRV_SOC_IRQ_H"
    (concat ((fun kv =>
       ["#define SOCRV_MCAUSE_" +:+ upper kv.1 +:+ " " +:+ str_json kv.2 +:+ "u";
        "#define SOCRV_MIE_" +:+ upper kv.1 +:+ "_MASK (1u << " +:+ str_json kv.2 +:+ ")"]) <$> causes)
     ++ [""] ++
     concat ((fun kv =>
       ["#define SOCRV_EXT_IRQ_" +:+ upper kv.1 +:+ " " +:+ str_json kv.2 +:+ "u";
        "#define SOCRV_EXT_IRQ_" +:+ upper kv.1 +:+ "_MASK (1u << " +:+ str_json kv.2 +:+ ")"]) <$> sources))).

Definition render_register (peripheral_name : string) (kv : string * json) : M (list string) :=
  offset ← hex_field kv.2 "offset";
  reset ← hex_field kv.2 "reset";
  let prefix := "SOCRV_" +:+ peripheral_name +:+ "_" +:+ kv.1 in
  mret ["#define " +:+ prefix +:+ "_OFFSET " +:+ offset +:+ "u";
        "#define " +:+ prefix +:+ "_RESET " +:+ reset +:+ "u"].

Definition render_peripheral (kv : string * json) : M (list string) :=
  registers ← getitem kv.2 "registers";
  items ← dict_items registers;
  lines ← map_m (render_register kv.1) items;
  mret (["/* " +:+ kv.1 +:+ " register offsets. */"] ++ concat lines ++ [""]).

Definition register_bits : list string :=
  ["#define SOCRV_TIMER_CONTROL_MTIME_ENABLE (1u << 0)";
   "#define SOCRV_TIMER_CONTROL_IRQ_ENABLE   (1u << 1)";
   "#define SOCRV_UART_STATUS_RX_VALID       (1u << 0)";
   "#define SOCRV_UART_STATUS_TX_READY       (1u << 1)";
   "#define SOCRV_UART_STATUS_TX_EMPTY       (1u << 2)";
   "#define SOCRV_UART_STATUS_RX_FULL        (1u << 3)";
   "#define SOCRV_UART_CONTROL_TX_ENABLE     (1u << 0)";
   "#define SOCRV_UART_CONTROL_RX_ENABLE     (1u << 1)";
   "#define SOCRV_I2C_CONTROL_ENABLE         (1u << 0)";
   "#define SOCRV_I2C_CONTROL_SOFT_RESET     (1u << 1)";
   "#define SOCRV_I2C_CONTROL_RECOVER        (1u << 2)";
   "#define SOCRV_I2C_STATUS_BUSY            (1u << 0)";
   "#define SOCRV_I2C_STATUS_DONE            (1u << 1)";
   "#define SOCRV_I2C_STATUS_ADDR_NACK       (1u << 2)";
   "#define SOCRV_I2C_STATUS_DATA_NACK       (1u << 3)";
   "#define SOCRV_I2C_STATUS_TIMEOUT         (1u << 4)";
   "#define SOCRV_I2C_STATUS_ARB_LOST        (1u << 5)";
   "#define SOCRV_I2C_STATUS_BUS_STUCK       (1u << 6)";
   "#define SOCRV_I2C_STATUS_SCL_IN          (1u << 7)";
   "#define SOCRV_I2C_STATUS_SDA_IN          (1u << 8)";
   "#define SOCRV_I2C_STATUS_BUS_ACTIVE      (1u << 9)";
   "#define SOCRV_I2C_STATUS_BUS_READY       (1u << 10)";
   "#define SOCRV_I2C_STATUS_RX_VALID        (1u << 11)";
   "#define SOCRV_I2C_COMMAND_START          (1u << 0)";
   "#define SOCRV_I2C_COMMAND_STOP           (1u << 1)";
   "#define SOCRV_I2C_COMMAND_WRITE          (1u << 2)";
   "#define SOCRV_I2C_COMMAND_READ           (1u << 3)";
   "#define SOCRV_I2C_COMMAND_READ_NACK      (1u << 4)";
   "#define SOCRV_I2C_COMMAND_ADDRESS        (1u << 5)"].

Definition render_registers (contract : json) : M string :=
  peripherals ← getitem contract "peripherals";
  items ← dict_items peripherals;
  lines ← map_m render_peripheral items;
  test_status ← getitem contract "test_status";
  pass_magic ← hex_field test_status "pass_magic";
  fail_magic ← hex_field test_status "fail_magic";
  start_magic ← hex_field test_status "perf_start_magic";
  stop_magic ← hex_field test_status "perf_stop_magic";
  mret (header_guard "SOCRV_SOC_REGISTERS_H"
    (concat lines ++
     ["#define SOCRV_TEST_PASS_MAGIC " +:+ pass_magic +:+ "u";
      "#define SOCRV_TEST_FAIL_MAGIC " +:+ fail_magic +:+ "u";
      "#define SOCRV_TEST_PERF_START_MAGIC " +:+ start_magic +:+ "u";
      "#define SOCRV_TEST_PERF_STOP_MAGIC " +:+ stop_magic +:+ "u";
      ""] ++ register_bits)).

Definition render_linker (memory_map : json) : M string :=
  code ← getpath memory_map ["regions"; "CODE"];
  data ← getpath memory_map ["regions"; "DATA"];
  code_base ← hex_field code "base";
  code_size ← hex_field code "size";
  data_base ← hex_field data "base";
  data_size ← hex_field data "size";
  mret (join nl
    ["/* Generated by scripts/generate_soc_contract.py; do not edit. */";
     "SOCRV_CODE_ORIGIN = " +:+ code_base +:+ ";";
     "SOCRV_CODE_LENGTH = " +:+ code_size +:+ ";";
     "SOCRV_DATA_ORIGIN = " +:+ data_base +:+ ";";
     "SOCRV_DATA_LENGTH = " +:+ data_size +:+ ";";
     ""]).

Section soc_contract.
Context `{Host}.

Definition OUTPUTS : list (string * path) :=
  [("memory", repo_path ["software"; "bsp"; "include"; "soc_memory_map.h"]);
   ("config", repo_path ["software"; "bsp"; "include"; "soc_config.h"]);
   ("irq", repo_path ["software"; "bsp"; "include"; "soc_irq.h"]);
   ("registers", repo_path ["software"; "bsp"; "include"; "soc_registers.h"]);
   ("linker", repo_path ["software"; "linker"; "memory.ldh"])].

Definition load_documents : M (json * json) :=
  memory_map ← load_json (repo_path ["data"; "soc"; "memory_map.json"]);
  contract ← load_json (repo_path ["data"; "soc"; "software_contract.json"]);
  mret (memory_map, contract).

Definition rendered_outputs : M (list (string * string)) :=
  '(memory_map, contract) ← load_documents;
  memory ← render_memory memory_map;
  config ← render_config contract;
  irq ← render_irq contract;
  registers ← render_registers contract;
  linker ← render_linker memory_map;
  mret [("memory", memory); ("config", config); ("irq", irq); ("registers", registers);
        ("linker", linker)].

Definition output_path (n : string) : M path := lift_opt KeyError (repr_str n) (dict_get n OUTPUTS).

(** [not path.is_file() or path.read_text(encoding="utf-8") != content] *)
Definition stale (p : path) (content : string) : M bool :=
  f ← is_file p;
  if f : bool then text ← read_text p; mret (negb (String.eqb text content)) else mret true.

(** [str(path.relative_to(repo_path()))] *)
Definition repo_relative (p : path) : M string :=
  q ← relative_to p (repo_path []); mret (path_str q).

(** The loop over the outputs: the stale ones when checking, else they are written. *)
Fixpoint process_outputs (check : bool) (outputs : list (string * string)) : M (list string) :=
  match outputs with
  | [] => mret []
  | (n, content) :: outputs' =>
      p ← output_path n;
      failures ← (if check then
                    b ← stale p content;
                    if b : bool then r ← repo_relative p; mret [r] else mret []
                  else
                    mkdir_p (parent p) ;;
                    write_text p content ;;
                    r ← repo_relative p;
                    print ("Generated " +:+ r) ;;
                    mret []);
      rest ← process_outputs check outputs';
      mret (failures ++ rest)
  end.

Definition main (check : bool) : M Z :=
  outputs ← rendered_outputs;
  failures ← process_outputs check outputs;
  when_ (negb (bool_decide (failures = [])))
    (system_exit ("generated SoC contract files are stale:" +:+ nl +:+
                  join nl ((fun p => "  " +:+ p) <$> failures))) ;;
  when_ check (print "Generated SoC contract files are current") ;;
  mret 0.
End soc_contract.

(** ** Generating, then checking *)

Section soc_facts.
Context `{Host}.

Lemma Keeps_repo_relative K p : Keeps K (repo_relative p).
Proof. unfold repo_relative. solve_keeps. Qed.

(** The files [ps] hold the texts of [outputs]. *)
Definition holds (w : world) (outputs : list (string * string)) : Prop :=
  Forall (fun nc => exists p t, dict_get nc.1 OUTPUTS = Some p /\
    node_at w (canon w p) = Some (File nc.2 t)) outputs.

Definition output_keys (w : world) (outputs : list (string * string)) : list (list string) :=
  omap (fun nc => canon w <$> dict_get nc.1 OUTPUTS) outputs.

Lemma holds_keeps K w w' outputs : keeps K w w' -> holds w outputs ->
  (forall k, k ∈ output_keys w outputs -> k ∉ K) -> holds w' outputs.
Proof.
  intros HK Hh Hk. unfold holds in *. rewrite Forall_forall in Hh. apply Forall_forall.
  intros nc Hin. destruct (Hh nc Hin) as (p & t & Hp & Hn). exists p, t. split; [done|].
  eapply keeps_file_read; [exact HK| |exact Hn]. apply Hk. unfold output_keys.
  apply list_elem_of_omap. exists nc. split; [done|]. by rewrite Hp.
Qed.

Lemma output_keys_keeps K w w' outputs : keeps K w w' -> output_keys w' outputs = output_keys w outputs.
Proof.
  intros HK. unfold output_keys. induction outputs as [|nc outputs IH];
    cbn [omap list_omap]; [reflexivity|]. rewrite IH.
  destruct (dict_get nc.1 OUTPUTS) as [p|]; [|reflexivity].
  cbn [fmap option_fmap option_map]. rewrite (keeps_canon _ _ _ _ HK). reflexivity.
Qed.

Lemma output_keys_cons w n c p outputs : dict_get n OUTPUTS = Some p ->
  output_keys w ((n, c) :: outputs) = canon w p :: output_keys w outputs.
Proof. intros Hp. unfold output_keys. cbn [omap list_omap fst]. by rewrite Hp. Qed.

(** Writing the outputs leaves each of them in place. *)
Lemma process_outputs_write outputs : forall w l w',
  process_outputs false outputs w = (Ok l, w') -> NoDup (output_keys w outputs) ->
  l = [] /\ holds w' outputs /\ keeps (output_keys w outputs) w w'.
Proof.
  induction outputs as [|[n content] outputs IH]; intros w l w' E Hnd.
  - apply ret_ok in E as [-> ->]. split_and!; [done|constructor|apply keeps_refl].
  - cbn [process_outputs] in E. apply bind_ok in E as (p & w1 & E1 & E).
    unfold output_path in E1. apply lift_opt_ok in E1 as [Hp ->].
    apply bind_ok in E as (fl & w1 & E1 & E).
    apply bind_ok in E1 as (u & w2 & E2 & E1). apply (Keeps_mkdir_p (K := [])) in E2.
    apply bind_ok in E1 as (u1 & w3 & E3 & E1). pose proof (write_raw_node _ _ _ _ _ E3) as Hn.
    apply write_raw_keeps in E3.
    apply bind_ok in E1 as (r & w4 & E4 & E1). apply (Keeps_repo_relative []) in E4.
    apply bind_ok in E1 as (u2 & w5 & E5 & E1). apply (Keeps_print_end (K := [])) in E5.
    apply ret_ok in E1 as [-> ->].
    apply bind_ok in E as (rest & w6 & E6 & E). apply ret_ok in E as [-> ->].
    assert (HK : keeps [canon w p] w w5).
    { etransitivity; [apply keeps_nil, E2|]. rewrite <- (keeps_canon _ _ _ p E2).
      etransitivity; [exact E3|]. etransitivity; apply keeps_nil; [exact E4|exact E5]. }
    rewrite (output_keys_cons _ _ _ _ _ Hp) in *. apply NoDup_cons in Hnd as [Hni Hnd].
    apply IH in E6 as (-> & Hh & HK6); [|rewrite (output_keys_keeps _ _ _ _ HK); exact Hnd].
    rewrite (output_keys_keeps _ _ _ _ HK) in HK6. split_and!; [done| |].
    + constructor; [|done]. exists p, (w_clock w2). split; [done|]. cbn [snd].
      rewrite (keeps_canon _ _ _ p HK6), (keeps_canon _ _ _ p HK).
      eapply keeps_node; [exact HK6|done|].
      rewrite (keeps_canon _ _ _ p E2) in Hn.
      do 2 (eapply keeps_node in Hn; [|eassumption|apply not_elem_of_nil]). exact Hn.
    + etransitivity; [apply keeps_head, HK|apply keeps_tail, HK6].
Qed.

Lemma stale_current p content w t : node_at w (canon w p) = Some (File content t) ->
  canon w p ∉ w_denied w -> text_ok content = true -> stale p content w = (Ok false, w).
Proof.
  intros Hn Hd Ht. unfold text_ok in Ht. apply andb_true_iff in Ht as [Hu Hc]. unfold stale.
  assert (Hf : is_file_at w p = true) by (unfold is_file_at; by rewrite Hn).
  unfold is_file, gets, mbind, M_bind. rewrite Hf. erewrite read_text_node by done.
  by rewrite universal_newlines_id, String.eqb_refl.
Qed.

(** Checking files that hold the outputs finds nothing and changes nothing. *)
Lemma process_outputs_check outputs w : holds w outputs ->
  (forall k, k ∈ output_keys w outputs -> k ∉ w_denied w) ->
  Forall (fun nc => text_ok nc.2 = true) outputs ->
  process_outputs true outputs w = (Ok [], w).
Proof.
  intros Hh Hd Ht. induction outputs as [|[n content] outputs IH]; [done|].
  apply Forall_cons in Hh as [(p & t & Hp & Hn) Hh]. apply Forall_cons in Ht as [Ht0 Ht].
  cbn [fst snd] in *. cbn [process_outputs]. unfold output_path. rewrite Hp.
  rewrite (bind_ok_eq _ _ p w w) by done. cbv beta.
  rewrite (bind_ok_eq _ _ [] w w).
  2: { rewrite (bind_ok_eq _ _ false w w); [done|]. eapply stale_current; [exact Hn| |done].
       apply Hd. unfold output_keys. apply list_elem_of_omap. exists (n, content).
       split; [left|]. cbn [fst]. by rewrite Hp. }
  cbv beta. rewrite (bind_ok_eq _ _ [] w w); [done|]. apply IH; [done| |done].
  intros k Hk. apply Hd. unfold output_keys in *. apply list_elem_of_omap in Hk as (nc & Hnc & Hk).
  apply list_elem_of_omap. exists nc. split; [by right|done].
Qed.
End soc_facts.

Lemma rendered_outputs_reads `{Host} : Reads rendered_outputs.
Proof.
  unfold rendered_outputs, load_documents, render_memory, render_region, render_config, render_irq,
    render_registers, render_peripheral, render_register, render_linker, hex_field, hex_value, text_at.
  solve_reads.
Qed.

(** C18: generating brings the contract up to date: once [generate_soc_contract] has
    written its outputs, running it with [--check] on the same documents finds all of
    them current, returns 0 and changes no file. *)
Theorem generate_then_check `{Host} w outputs l w' :
  rendered_outputs w' = (Ok outputs, w') ->
  process_outputs false outputs w = (Ok l, w') ->
  NoDup (output_keys w outputs) -> (forall k, k ∈ output_keys w outputs -> k ∉ w_denied w) ->
  Forall (fun nc => text_ok nc.2 = true) outputs ->
  exists w2, main true w' = (Ok 0, w2) /\ w_fs w2 = w_fs w' /\ w_links w2 = w_links w'.
Proof.
  intros Hr E Hnd Hd Ht. apply process_outputs_write in E as (_ & Hh & HK); [|done].
  unfold main. rewrite (bind_ok_eq _ _ _ _ _ Hr). cbv beta.
  rewrite (bind_ok_eq _ _ [] w' w'); [by eexists|].
  apply process_outputs_check; [done| |done]. intros k Hk.
  rewrite (output_keys_keeps _ _ _ _ HK) in Hk. rewrite (keeps_denied _ _ _ HK). by apply Hd.
Qed.

(** *** An instance: the memory map of the repository with a small contract *)

Definition demo_region_json (b s : string) : json := JObj [("base", JStr b); ("size", JStr s)].
Definition demo_memory_map : json :=
  JObj [("schema_version", JInt 1); ("reset_vector", JStr "0x00000000");
        ("regions", JObj [("CODE", demo_region_json "0x00000000" "0x00020000");
                          ("DATA", demo_region_json "0x00020000" "0x00010000");
                          ("I2C", demo_region_json "0x10004000" "0x00001000")])].
Definition demo_march (s : string) : json := JObj [("march", JStr s)].
Definition demo_contract : json :=
  JObj [("cpu", JObj [("xlen", JInt 32); ("march", JStr "rv32imac"); ("mabi", JStr "ilp32");
          ("implementation", JObj [("name", JStr "core")]);
          ("target", JObj [("integer_march", JStr "rv32imac");
             ("floating_point", JObj [("selection", JStr "none");
                ("candidates", JObj [("single", demo_march "rv32imafc");
                                     ("double", demo_march "rv32imafdc")])])])]);
        ("clocks", JObj [("soc_hz", JInt 100000000); ("peripheral_hz", JInt 50000000);
                         ("timer_hz", JInt 50000000); ("uart_baud", JInt 115200)]);
        ("interrupts", JObj [("machine_causes", JObj [("timer", JInt 7)]);
                             ("external_sources", JObj [("uart", JInt 1)])]);
        ("peripherals", JObj [("I2C", JObj [("region", JStr "I2C");
            ("registers", JObj [("CONTROL", JObj [("offset", JStr "0x0"); ("reset", JStr "0x0")])])])]);
        ("test_status", JObj [("pass_magic", JStr "0x1"); ("fail_magic", JStr "0x2");
                              ("perf_start_magic", JStr "0x3"); ("perf_stop_magic", JStr "0x4")])].

Definition demo_soc_world : world := demo_world
  [(["repo"; "data"; "soc"; "memory_map.json"], dumps demo_memory_map);
   (["repo"; "data"; "soc"; "software_contract.json"], dumps demo_contract)]
  [["repo"]; ["repo"; "data"]; ["repo"; "data"; "soc"]].
Definition demo_outputs : list (string * string) :=
  match (rendered_outputs (H := demo) demo_soc_world).1 with Ok l => l | Raise _ => [] end.
Notation demo_generated := (process_outputs (H := demo) false demo_outputs demo_soc_world).

Lemma generate_then_check_witness : exists w2,
  main (H := demo) true demo_generated.2 = (Ok 0, w2) /\
  w_fs w2 = w_fs demo_generated.2 /\ w_links w2 = w_links demo_generated.2.
Proof.
  apply (generate_then_check (H := demo) demo_soc_world demo_outputs [] demo_generated.2).
  - apply reads_eq; [apply rendered_outputs_reads|by_eval].
  - by_eval.
  - apply (bool_decide_unpack _). vm_compute. exact I.
  - intros k _. apply not_elem_of_empty.
  - apply (bool_decide_unpack _). vm_compute. exact I.
Defined.
