(* ===== verification/CheckMap.v ===== *)
(** [scripts/check_memory_map.py]: the memory map is compared with the constants of
    the SystemVerilog package and of the C header, and the generated contract files
    with their sources. *)
From Stdlib Require Import ZArith Lia.
From S2P Require Import Prelude Str Json Regex Py Store Lib Helpers SocContract.
Local Open Scope Z_scope.
Local Open Scope py_scope.

Definition space1 : re := Rep true 1 is_space.
Definition space0 : re := Rep true 0 is_space.
(** [A-Z_] *)
Definition name_class (c : ascii) : bool := is_upper c || Ascii.eqb c "_".
Definition base_or_size : re := Alt (lit "BASE") (lit "SIZE").

Definition SV_PATTERN : re :=
  seqs [lit "localparam"; space1; lit "logic"; space1; lit "[31:0]"; space1;
        Grp 1 (Rep true 1 name_class); lit "_"; Grp 2 base_or_size; space0; lit "="; space0;
        lit "32'h"; Grp 3 (Rep true 1 (fun c => is_hex c || Ascii.eqb c "_"))].
Definition C_PATTERN : re :=
  seqs [lit "#define"; space1; lit "SOCRV_"; Grp 1 (Rep true 1 name_class); lit "_";
        Grp 2 base_or_size; space1; lit "0x"; Grp 3 (Rep true 1 is_hex); lit "u"].

Definition text_group (n : nat) (g : caps) : string := default "" (group n g).

Fixpoint parse_matches (l : list caps) (values : list (string * Z)) : M (list (string * Z)) :=
  match l with
  | [] => mret values
  | g :: l' =>
      let digits := replace "_" "" (text_group 3 g) in
      n ← lift_opt ValueError ("invalid literal for int() with base 16: " +:+ repr_str digits)
            (py_int16 digits);
      parse_matches l' (dict_set (text_group 1 g +:+ "_" +:+ text_group 2 g) n values)
  end.

Definition parse_constants (text : string) (pattern : re) : M (list (string * Z)) :=
  parse_matches (findall pattern text) [].

(** The constants the memory map asks for. *)
Fixpoint expected_constants (regions : list (string * json)) (expected : list (string * Z))
    : M (list (string * Z)) :=
  match regions with
  | [] => mret expected
  | (n, region) :: regions' =>
      b ← (x ← getitem region "base"; int0 x);
      s ← (x ← getitem region "size"; int0 x);
      expected_constants regions'
        (dict_set (n +:+ "_SIZE") s (dict_set (n +:+ "_BASE") b expected))
  end.

(** [v in document["regions"]] *)
Definition region_known (v : json) (regions : list (string * json)) : M bool :=
  match v with
  | JStr s => mret (dict_mem s regions)
  | JArr _ | JObj _ => raise TypeError "unhashable type"
  | _ => mret false
  end.

Definition repr_value (o : option Z) : string :=
  match o with Some n => str_of_Z n | None => "None" end.

(** What is wrong with one constant. *)
Definition key_failures (sv_values c_values : list (string * Z)) (kv : string * Z) : list string :=
  let '(key, value) := kv in
  (if bool_decide (dict_get key sv_values = Some value) then []
   else ["RTL " +:+ key +:+ ": expected 0x" +:+ hex08 value +:+ ", got " +:+
         repr_value (dict_get key sv_values)]) ++
  match dict_get key c_values with
  | Some c => if c =? value then []
              else ["C " +:+ key +:+ ": expected 0x" +:+ hex08 value +:+ ", got 0x" +:+ hex08 c]
  | None => if endswith key "_BASE" then ["C header is missing " +:+ key] else []
  end.

Section check_memory_map.
Context `{Host}.

Fixpoint stale_outputs (outputs : list (string * string)) : M (list string) :=
  match outputs with
  | [] => mret []
  | (n, content) :: outputs' =>
      output ← output_path n;
      b ← stale output content;
      failures ← (if b : bool then r ← repo_relative output;
                    mret ["generated software contract is stale: " +:+ r]
                  else mret []);
      rest ← stale_outputs outputs';
      mret (failures ++ rest)
  end.

Fixpoint unknown_regions (peripherals regions : list (string * json)) : M (list string) :=
  match peripherals with
  | [] => mret []
  | (n, peripheral) :: peripherals' =>
      region ← getitem peripheral "region";
      known ← region_known region regions;
      rest ← unknown_regions peripherals' regions;
      mret ((if known : bool then []
             else ["software peripheral " +:+ n +:+ " references unknown region " +:+ str_json region])
            ++ rest)
  end.

Definition main : M Z :=
  document ← load_json (repo_path ["data"; "soc"; "memory_map.json"]);
  contract ← load_json (repo_path ["data"; "soc"; "software_contract.json"]);
  document_regions ← getitem document "regions";
  regions ← dict_items document_regions;
  expected ← expected_constants regions [];
  sv_text ← read_text (repo_path ["rtl"; "soc"; "soc_memory_map_pkg.sv"]);
  sv_values ← parse_constants sv_text SV_PATTERN;
  c_text ← read_text (repo_path ["software"; "bsp"; "include"; "soc_memory_map.h"]);
  c_values ← parse_constants c_text C_PATTERN;
  outputs ← rendered_outputs;
  stale_failures ← stale_outputs outputs;
  contract_peripherals ← getitem contract "peripherals";
  peripherals ← dict_items contract_peripherals;
  region_failures ← unknown_regions peripherals regions;
  let failures := stale_failures ++ region_failures ++
                  concat (key_failures sv_values c_values <$> expected) in
  if negb (bool_decide (failures = []))
  then print (join nl failures) ;; mret 1
  else
    print ("Memory map/software contract OK: " +:+ str_of_Z (len expected / 2) +:+ " regions, " +:+
           str_of_Z (len peripherals) +:+ " peripherals") ;;
    mret 0.
End check_memory_map.

(** ** The constants that can be found *)

Lemma derives_seq_skip a b s g s' g' : no_grp a = true -> derives (Seq a b) s g s' g' ->
  exists s1, derives b s1 g s' g'.
Proof.
  intros Hn Hd. inversion Hd as [| |? ? ? ? s1 g1 ? ? H1 H2| | | | | | |]; subst.
  apply derives_no_grp in H1 as ->; [|done]. eauto.
Qed.

Lemma base_or_size_spec n s g s' g' : derives (Grp n base_or_size) s g s' g' ->
  g' = (n, "BASE") :: g \/ g' = (n, "SIZE") :: g.
Proof.
  intros Hd. inversion Hd as [| | | | | | | |? ? ? ? ? ? Hr|]; subst.
  inversion Hr as [| | |? ? ? ? ? ? H1|? ? ? ? ? ? H1| | | | |]; subst;
    [apply (derives_lit "BASE") in H1 as [-> ->]|apply (derives_lit "SIZE") in H1 as [-> ->]];
    rewrite stake_app; auto.
Qed.

(** The groups of a match of [C_PATTERN]: a name of capital letters and
    underscores, the kind, and the digits. *)
Lemma c_pattern_groups s s' g : derives C_PATTERN s [] s' g ->
  exists n kind digits, g = [(3%nat, digits); (2%nat, kind); (1%nat, n)] /\
    sforall name_class n = true /\ (kind = "BASE" \/ kind = "SIZE").
Proof.
  unfold C_PATTERN. cbn [seqs]. intros Hd.
  do 3 (apply derives_seq_skip in Hd as [? Hd]; [|done]).
  inversion Hd as [| |? ? ? ? s1 g1 ? ? H1 H2| | | | | | |]; subst. clear Hd.
  apply derives_grp_rep in H1 as (n & -> & -> & Hn & _).
  apply derives_seq_skip in H2 as [? Hd]; [|done].
  inversion Hd as [| |? ? ? ? s2 g2 ? ? H1 H3| | | | | | |]; subst. clear Hd.
  assert (Hk : exists kind, g2 = [(2%nat, kind); (1%nat, n)] /\ (kind = "BASE" \/ kind = "SIZE"))
    by (apply base_or_size_spec in H1 as [->| ->]; eauto).
  destruct Hk as (kind & -> & Hk).
  do 2 (apply derives_seq_skip in H3 as [? H3]; [|done]).
  inversion H3 as [| |? ? ? ? s3 g3 ? ? H4 H5| | | | | | |]; subst. clear H3.
  apply derives_grp_rep in H4 as (digits & -> & -> & _ & _). apply derives_no_grp in H5 as ->; [|done].
  by exists n, kind, digits.
Qed.

Lemma dict_set_keys {V} k (v : V) d k' : k' ∈ (dict_set k v d).*1 -> k' = k \/ k' ∈ d.*1.
Proof.
  induction d as [|[k2 v2] d IH]; cbn [dict_set].
  - intros ->%list_elem_of_singleton. by left.
  - destruct (String.eqb k k2) eqn:E; rewrite !fmap_cons; [by right|].
    intros [->|Hin]%elem_of_cons; [right; by left|]. apply IH in Hin as [->|Hin]; [by left|].
    right. by right.
Qed.

Lemma parse_matches_keys (P : string -> Prop) l : forall values w r w',
  parse_matches l values w = (Ok r, w') ->
  (forall g, g ∈ l -> P (text_group 1 g +:+ "_" +:+ text_group 2 g)) ->
  Forall P values.*1 -> Forall P r.*1.
Proof.
  induction l as [|g l IH]; intros values w r w' E Hl Hv; [by apply ret_ok in E as [-> _]|].
  cbn [parse_matches] in E. apply bind_ok in E as (n & w1 & _ & E).
  eapply IH; [exact E|intros; apply Hl; by right|].
  apply Forall_forall. intros k Hk. apply dict_set_keys in Hk as [->|Hk]; [apply Hl; left|].
  rewrite Forall_forall in Hv. by apply Hv.
Qed.

(** Every constant found by [C_PATTERN] has a name of capital letters and underscores. *)
Lemma parse_constants_c_keys text w r w' : parse_constants text C_PATTERN w = (Ok r, w') ->
  Forall (fun k => sforall name_class k = true) r.*1.
Proof.
  intros E. unfold parse_constants in E. eapply parse_matches_keys; [exact E| |constructor].
  intros g Hg. apply findall_derives in Hg as (s0 & s1 & Hd).
  apply c_pattern_groups in Hd as (n & kind & digits & -> & Hn & Hk). cbn.
  unfold text_group. cbn. rewrite !sforall_app, Hn. by destruct Hk as [->| ->].
Qed.

Lemma endswith_app a b : endswith (a +:+ b) b = true.
Proof.
  unfold endswith. rewrite slength_app. apply andb_true_iff. split; [apply Nat.leb_le; lia|].
  replace (String.length a + String.length b - String.length b)%nat with (String.length a) by lia.
  apply String.eqb_eq. induction a as [|c a IH]; [done|exact IH].
Qed.

(** ** What an empty list of failures means *)

(** The integer that the memory map gives for a field of a region. *)
Definition region_word (region : json) (field : string) : M Z := x ← getitem region field; int0 x.

Lemma Reads_region_word region field : Reads (region_word region field).
Proof. unfold region_word. solve_reads. Qed.
#[local] Hint Resolve Reads_region_word : reads.

Lemma key_inj n n' s s' : String.length s = String.length s' -> n +:+ s = n' +:+ s' -> n = n' /\ s = s'.
Proof.
  intros Hl E. pose proof (sapp_suffix _ _ _ _ Hl E) as <-. split; [by eapply sapp_inj_r|done].
Qed.

(** A constant is the one of the last region of its name. *)
Lemma expected_constants_ok regions : forall expected w r w',
  expected_constants regions expected w = (Ok r, w') -> NoDup regions.*1 ->
  w' = w /\
  (forall k, (forall n, n ∈ regions.*1 -> k <> n +:+ "_BASE" /\ k <> n +:+ "_SIZE") ->
     dict_get k r = dict_get k expected) /\
  (forall n region, (n, region) ∈ regions -> exists b s,
     region_word region "base" w = (Ok b, w) /\ region_word region "size" w = (Ok s, w) /\
     dict_get (n +:+ "_BASE") r = Some b /\ dict_get (n +:+ "_SIZE") r = Some s).
Proof.
  induction regions as [|[n region] regions IH]; intros expected w r w' E Hnd.
  - apply ret_ok in E as [-> ->]. split_and!; [done|done|]. by intros ? ? ?%elem_of_nil.
  - cbn [expected_constants] in E. fold (region_word region "base") (region_word region "size") in E.
    apply bind_ok in E as (b & w1 & Eb & E). pose proof (Reads_region_word _ _ _ _ _ Eb) as ->.
    apply bind_ok in E as (s & w1 & Es & E). pose proof (Reads_region_word _ _ _ _ _ Es) as ->.
    rewrite fmap_cons in Hnd. apply NoDup_cons in Hnd as [Hn Hnd]. cbn [fst] in Hn.
    apply IH in E as (-> & Hother & Hregions); [|done]. split; [done|]. split.
    + intros k Hk. rewrite Hother by (intros m Hm; apply Hk; by right).
      destruct (Hk n) as [? ?]; [left|]. by rewrite !dict_get_set_ne.
    + intros m rg [[= -> ->]|Hm]%elem_of_cons; [|by apply Hregions].
      exists b, s. split_and!; [done|done| |].
      * rewrite Hother; [rewrite dict_get_set_ne, dict_get_set; [done|]|].
        { by intros [_ ?]%key_inj. }
        intros m Hm. split; intros [<- ?]%key_inj; done.
      * rewrite Hother; [apply dict_get_set|]. intros m Hm. split; intros [<- ?]%key_inj; done.
Qed.

Lemma key_failures_nil sv c k v : key_failures sv c (k, v) = [] ->
  dict_get k sv = Some v /\ (forall v', dict_get k c = Some v' -> v' = v) /\
  (endswith k "_BASE" = true -> dict_get k c = Some v).
Proof.
  cbn [key_failures]. intros [H1 H2]%app_eq_nil.
  case_bool_decide; [|done]. split; [done|]. destruct (dict_get k c) as [v'|].
  - destruct (v' =? v) eqn:E; [|done]. apply Z.eqb_eq in E as ->. split; [by intros ? [= ->]|done].
  - split; [done|]. intros He. by rewrite He in H2.
Qed.

Section failures.
Context `{Host}.

Lemma stale_false p content w w' : stale p content w = (Ok false, w') ->
  w' = w /\ read_text p w = (Ok content, w).
Proof.
  unfold stale, is_file, gets, mbind, M_bind. cbv beta iota. destruct (is_file_at w p); [|done].
  destruct (read_text p w) as [[t|e] w1] eqn:E; [|done]. pose proof (read_text_state _ _ _ _ E) as ->.
  intros [= Ht <-]. apply negb_false_iff, String.eqb_eq in Ht as ->. done.
Qed.

(** The generated files [outputs] hold the texts that are rendered. *)
Definition current (w : world) (outputs : list (string * string)) : Prop :=
  Forall (fun nc => exists p, dict_get nc.1 OUTPUTS = Some p /\ read_text p w = (Ok nc.2, w)) outputs.

Lemma stale_outputs_nil outputs w : forall w', stale_outputs outputs w = (Ok [], w') ->
  w' = w /\ current w outputs.
Proof.
  induction outputs as [|[n content] outputs IH]; intros w' E; [apply ret_ok in E as [_ ->]; by split; [|constructor]|].
  cbn [stale_outputs] in E. apply bind_ok in E as (p & w1 & [Hp ->]%lift_opt_ok & E).
  apply bind_ok in E as (b & w1 & E1 & E). apply bind_ok in E as (fl & w2 & E2 & E).
  apply bind_ok in E as (rest & w3 & E3 & E). apply ret_ok in E as [Hnil ->].
  symmetry in Hnil. apply app_eq_nil in Hnil as [-> ->]. destruct b.
  - apply bind_ok in E2 as (r & w4 & _ & E2). by apply ret_ok in E2 as [? _].
  - apply ret_ok in E2 as [_ ->]. apply stale_false in E1 as [-> Ht]. apply IH in E3 as [-> Hc].
    split; [done|]. constructor; [by exists p|done].
Qed.

(** Every peripheral names a region of the map. *)
Definition mapped (w : world) (peripherals regions : list (string * json)) : Prop :=
  Forall (fun np => exists s, getitem np.2 "region" w = (Ok (JStr s), w) /\ s ∈ regions.*1) peripherals.

Lemma unknown_regions_nil peripherals regions w : forall w',
  unknown_regions peripherals regions w = (Ok [], w') -> w' = w /\ mapped w peripherals regions.
Proof.
  induction peripherals as [|[n p] peripherals IH]; intros w' E;
    [apply ret_ok in E as [_ ->]; by split; [|constructor]|].
  cbn [unknown_regions] in E. apply bind_ok in E as (region & w1 & E1 & E).
  pose proof (Reads_getitem _ _ _ _ _ E1) as ->.
  apply bind_ok in E as (known & w1 & E2 & E). apply bind_ok in E as (rest & w2 & E3 & E).
  apply ret_ok in E as [Hnil ->]. symmetry in Hnil. apply app_eq_nil in Hnil as [Hk ->].
  destruct known; [|done]. destruct region as [| | | |s| |]; try (by apply ret_ok in E2 as [? _]); try done.
  apply ret_ok in E2 as [Hs ->]. apply IH in E3 as [-> Hm]. split; [done|]. constructor; [|done].
  exists s. split; [exact E1|]. unfold dict_mem in Hs.
  destruct (dict_get s regions) as [v|] eqn:Ev; [|done]. apply dict_get_elem in Ev.
  apply list_elem_of_fmap. by exists (s, v).
Qed.

Lemma Reads_parse_matches l : forall values, Reads (parse_matches l values).
Proof.
  induction l as [|g l IH]; intros values; cbn [parse_matches]; [solve_reads|]. repeat first [apply IH|reads_step].
Qed.
Lemma Reads_parse_constants text pattern : Reads (parse_constants text pattern).
Proof. apply Reads_parse_matches. Qed.

Lemma Reads_expected_constants regions : forall expected, Reads (expected_constants regions expected).
Proof.
  induction regions as [|[n region] regions IH]; intros expected; cbn [expected_constants]; [solve_reads|].
  repeat first [apply IH|reads_step].
Qed.
Lemma Reads_stale p content : Reads (stale p content).
Proof. unfold stale. solve_reads. Qed.
#[local] Hint Resolve Reads_stale : reads.
Lemma Reads_stale_outputs outputs : Reads (stale_outputs outputs).
Proof.
  induction outputs as [|[n content] outputs IH]; cbn [stale_outputs]; [solve_reads|].
  unfold output_path, repo_relative. repeat first [apply IH|reads_step].
Qed.
Lemma Reads_unknown_regions peripherals regions : Reads (unknown_regions peripherals regions).
Proof.
  induction peripherals as [|[n p] peripherals IH]; cbn [unknown_regions]; [solve_reads|].
  unfold region_known. repeat first [apply IH|reads_step].
Qed.

(** The names of the regions of a document that was read. *)
Lemma regions_nodup document named w w' : json_wf document = true ->
  getitem document "regions" w = (Ok (JObj named), w') -> NoDup named.*1.
Proof.
  intros Hwf E. destruct document as [| | | | | |d]; try done. apply lift_opt_ok in E as [Hd _].
  cbn [json_wf] in Hwf. apply andb_true_iff in Hwf as [_ Hwf]. rewrite forallb_forall in Hwf.
  apply dict_get_elem, list_elem_of_In, Hwf in Hd. cbn [snd json_wf] in Hd.
  apply andb_true_iff in Hd as [Hd _]. by apply bool_decide_eq_true in Hd.
Qed.

(** The constants of a region in the RTL package and in the C header. *)
Definition region_agrees (w : world) (sv c : list (string * Z)) (n : string) (region : json) : Prop :=
  exists b s, region_word region "base" w = (Ok b, w) /\ region_word region "size" w = (Ok s, w) /\
    dict_get (n +:+ "_BASE") sv = Some b /\ dict_get (n +:+ "_SIZE") sv = Some s /\
    dict_get (n +:+ "_BASE") c = Some b /\ (forall s', dict_get (n +:+ "_SIZE") c = Some s' -> s' = s).
End failures.

(** ** Properties *)

#[local] Hint Resolve Reads_expected_constants Reads_parse_constants rendered_outputs_reads
  Reads_stale_outputs Reads_unknown_regions : reads.

(** The parts of a run that returned 0. *)
Lemma main_zero `{Host} w w' : main w = (Ok 0, w') ->
  exists document contract named peripherals expected outputs sv_text sv c_text c,
    load_json (repo_path ["data"; "soc"; "memory_map.json"]) w = (Ok document, w) /\
    load_json (repo_path ["data"; "soc"; "software_contract.json"]) w = (Ok contract, w) /\
    getitem document "regions" w = (Ok (JObj named), w) /\
    getitem contract "peripherals" w = (Ok (JObj peripherals), w) /\
    expected_constants named [] w = (Ok expected, w) /\
    read_text (repo_path ["rtl"; "soc"; "soc_memory_map_pkg.sv"]) w = (Ok sv_text, w) /\
    parse_constants sv_text SV_PATTERN w = (Ok sv, w) /\
    read_text (repo_path ["software"; "bsp"; "include"; "soc_memory_map.h"]) w = (Ok c_text, w) /\
    parse_constants c_text C_PATTERN w = (Ok c, w) /\
    rendered_outputs w = (Ok outputs, w) /\
    stale_outputs outputs w = (Ok [], w) /\ unknown_regions peripherals named w = (Ok [], w) /\
    concat (key_failures sv c <$> expected) = [].
Proof.
  intros E. unfold main in E. rstep E document E1. rstep E contract E2. rstep E regions E3.
  rstep E named Ed. destruct regions as [| | | | | |d]; try done. apply ret_ok in Ed as [<- _].
  rstep E expected E4. rstep E sv_text E5. rstep E sv E6. rstep E c_text E7. rstep E c E8.
  rstep E outputs E9. rstep E sf E10. rstep E ps E11. rstep E peripherals Ed.
  destruct ps as [| | | | | |d']; try done. apply ret_ok in Ed as [<- _]. rstep E rf E12.
  cbv zeta in E. match type of E with (if negb (bool_decide ?p) then _ else _) _ = _ =>
    destruct (bool_decide p) eqn:Hf end.
  2: { cbn [negb] in E. apply bind_ok in E as (? & ? & _ & E). by apply ret_ok in E as [? _]. }
  apply bool_decide_eq_true in Hf. apply app_eq_nil in Hf as [-> Hf]. apply app_eq_nil in Hf as [-> Hf].
  by exists document, contract, named, peripherals, expected, outputs, sv_text, sv, c_text, c.
Qed.

(** Without failures, every region of the map agrees with package and header. *)
Lemma no_failures_agree document named expected sv c text w : json_wf document = true ->
  getitem document "regions" w = (Ok (JObj named), w) -> expected_constants named [] w = (Ok expected, w) ->
  parse_constants text C_PATTERN w = (Ok c, w) -> concat (key_failures sv c <$> expected) = [] ->
  Forall (fun nr => region_agrees w sv c nr.1 nr.2 /\ sforall name_class nr.1 = true) named.
Proof.
  intros Hwf E3 E5 E9 Hf. apply expected_constants_ok in E5 as (_ & _ & Hregions); [|by eapply regions_nodup].
  pose proof (parse_constants_c_keys _ _ _ _ E9) as Hck.
  assert (Hkey : forall k v, dict_get k expected = Some v -> key_failures sv c (k, v) = []).
  { intros k v Hk%dict_get_elem. apply (concat_nil_elem _ _ Hf). apply list_elem_of_fmap. by exists (k, v). }
  apply Forall_forall. intros [n region] Hn. cbn [fst snd].
  destruct (Hregions n region Hn) as (b & s & Eb & Es & Hb & Hs).
  apply Hkey, key_failures_nil in Hb as (Hsb & _ & Hcb). apply Hkey, key_failures_nil in Hs as (Hss & Hcs & _).
  specialize (Hcb (endswith_app _ _)). split; [by exists b, s|].
  rewrite Forall_forall in Hck. assert (Hin : n +:+ "_BASE" ∈ c.*1).
  { apply list_elem_of_fmap. exists (n +:+ "_BASE", b). split; [done|by apply dict_get_elem]. }
  apply Hck in Hin. rewrite sforall_app in Hin. by apply andb_true_iff in Hin as [? _].
Qed.

(** C19: a memory map that passes the check is the one that hardware and software are built
    from.  When [main] returns 0, the RTL package defines the base and the size of every region
    of the map with the values of the map, the C header its base and, if it defines it, its
    size; every generated file reads as the documents render it; every peripheral of the
    contract lies in a region of the map; and every region has a name of capital letters and
    underscores: a map with any other name, [I2C] for one, is never accepted, whatever
    package and header define. *)
Theorem memory_map_agrees `{Host} w w' : main w = (Ok 0, w') ->
  exists document contract named peripherals outputs sv_text sv c_text c,
    load_json (repo_path ["data"; "soc"; "memory_map.json"]) w = (Ok document, w) /\
    load_json (repo_path ["data"; "soc"; "software_contract.json"]) w = (Ok contract, w) /\
    getitem document "regions" w = (Ok (JObj named), w) /\
    getitem contract "peripherals" w = (Ok (JObj peripherals), w) /\
    read_text (repo_path ["rtl"; "soc"; "soc_memory_map_pkg.sv"]) w = (Ok sv_text, w) /\
    parse_constants sv_text SV_PATTERN w = (Ok sv, w) /\
    read_text (repo_path ["software"; "bsp"; "include"; "soc_memory_map.h"]) w = (Ok c_text, w) /\
    parse_constants c_text C_PATTERN w = (Ok c, w) /\
    rendered_outputs w = (Ok outputs, w) /\ current w outputs /\ mapped w peripherals named /\
    Forall (fun nr => region_agrees w sv c nr.1 nr.2 /\ sforall name_class nr.1 = true) named.
Proof.
  intros E. apply main_zero in E as (document & contract & named & peripherals & expected & outputs &
    sv_text & sv & c_text & c & E1 & E2 & E3 & E4 & E5 & E6 & E7 & E8 & E9 & E10 & E11 & E12 & Hf).
  apply stale_outputs_nil in E11 as [_ Hcur]. apply unknown_regions_nil in E12 as [_ Hmap].
  exists document, contract, named, peripherals, outputs, sv_text, sv, c_text, c.
  split_and!; try done. eapply (no_failures_agree document); [by eapply load_json_wf|done..].
Qed.

(** A map with a region whose name holds anything but capital letters and underscores, [I2C] for
    one, is never accepted, whatever the RTL package and the C header define. *)
Theorem main_rejects_digit_region `{Host} w document regions n region :
  load_json (repo_path ["data"; "soc"; "memory_map.json"]) w = (Ok document, w) ->
  document = JObj regions -> forall named,
  dict_get "regions" regions = Some (JObj named) -> (n, region) ∈ named ->
  sforall name_class n = false ->
  forall r w', main w = (Ok r, w') -> r <> 0.
Proof.
  intros E1 -> named Hr Hin Hbad r w' E ->. apply main_zero in E as (document & contract & named' &
    peripherals & expected & outputs & sv_text & sv & c_text & c & E1' & _ & E3 & _ & E5 & _ & _ & _ & E9 & _ & _ & _ & Hf).
  rewrite E1 in E1'. injection E1' as <-. pose proof (load_json_wf _ _ _ _ E1) as Hwf.
  pose proof (no_failures_agree _ _ _ _ _ _ _ Hwf E3 E5 E9 Hf) as Hall.
  unfold getitem in E3. rewrite Hr in E3. apply ret_ok in E3 as [[= ->] _].
  rewrite Forall_forall in Hall. apply Hall in Hin as [_ Hn]. cbn [fst] in Hn. congruence.
Qed.

(** *** An instance *)

Definition demo_map : json :=
  JObj [("reset_vector", JStr "0x00000000");
        ("regions", JObj [("CODE", demo_region_json "0x00000000" "0x00020000");
                          ("DATA", demo_region_json "0x00020000" "0x00010000");
                          ("UART", demo_region_json "0x10000000" "0x00001000")])].
Definition demo_peripherals (region : string) : json :=
  match demo_contract with
  | JObj d => JObj (dict_set "peripherals" (JObj [("UART", JObj [("region", JStr region);
                ("registers", JObj [("CONTROL", JObj [("offset", JStr "0x0"); ("reset", JStr "0x0")])])])]) d)
  | v => v
  end.
Definition demo_package : string :=
  "package soc_memory_map_pkg;" +:+ nl +:+
  "   localparam logic [31:0] CODE_BASE    = 32'h0000_0000;" +:+ nl +:+
  "   localparam logic [31:0] CODE_SIZE    = 32'h0002_0000;" +:+ nl +:+
  "   localparam logic [31:0] DATA_BASE    = 32'h0002_0000;" +:+ nl +:+
  "   localparam logic [31:0] DATA_SIZE    = 32'h0001_0000;" +:+ nl +:+
  "   localparam logic [31:0] UART_BASE    = 32'h1000_0000;" +:+ nl +:+
  "   localparam logic [31:0] UART_SIZE    = 32'h0000_1000;" +:+ nl +:+
  "endpackage" +:+ nl.
Definition demo_map_world : world := demo_world
  [(["repo"; "data"; "soc"; "memory_map.json"], dumps demo_map);
   (["repo"; "data"; "soc"; "software_contract.json"], dumps (demo_peripherals "UART"));
   (["repo"; "rtl"; "soc"; "soc_memory_map_pkg.sv"], demo_package)]
  [["repo"]; ["repo"; "data"]; ["repo"; "data"; "soc"]; ["repo"; "rtl"]; ["repo"; "rtl"; "soc"]].
Definition demo_checked_world : world :=
  (SocContract.main (H := demo) false demo_map_world).2.
Definition demo_check : result Z * world := main (H := demo) demo_checked_world.

Lemma memory_map_agrees_witness : exists document named sv c,
  load_json (H := demo) (repo_path (H := demo) ["data"; "soc"; "memory_map.json"]) demo_checked_world =
    (Ok document, demo_checked_world) /\
  getitem document "regions" demo_checked_world = (Ok (JObj named), demo_checked_world) /\
  Forall (fun nr => region_agrees demo_checked_world sv c nr.1 nr.2 /\ sforall name_class nr.1 = true) named.
Proof.
  destruct (memory_map_agrees (H := demo) demo_checked_world demo_check.2) as
    (document & contract & named & peripherals & outputs & sv_text & sv & c_text & c &
     E1 & _ & E3 & _ & _ & _ & _ & _ & _ & _ & _ & Hall).
  - by_eval.
  - exists document, named, sv, c. split; [exact E1|]. split; [exact E3|exact Hall].
Defined.

