(* ===== verification/IsaData.v ===== *)
(** [scripts/generate_isa_data.py]: the ISA test images are built from the pinned
    sources of [riscv-tests], recorded in a manifest with their digests, and
    verified against it. *)
From Stdlib Require Import ZArith Lia.
From S2P Require Import Prelude Str Json Sha256 Py Store Lib Helpers Elf2mem.
Local Open Scope Z_scope.
Local Open Scope py_scope.

(** [not path.is_file() or sha256_file(path) != v] *)
Definition digest_differs `{Host} (p : path) (v : M json) : M bool :=
  f ← is_file p;
  if f : bool then d ← sha256_file p; x ← v; mret (negb (json_eqb (JStr d) x)) else mret true.

(** The candidate floating-point suites and those a selection asks for. *)
Definition gate (ready : bool) (suites : list json) (excluded : list string) (description : string)
    (blocked_reason : option string) : json :=
  JObj [("ready", JBool ready);
        ("suites", JArr suites);
        ("excluded_tests", JArr (JStr <$> excluded));
        ("description", JStr description);
        ("blocked_reason", match blocked_reason with Some s => JStr s | None => JNull end)].

Definition gate_manifest (selection contract : json) : M json :=
  final_gate ← getitem selection "final_gate";
  mandatory_suites ← getitem final_gate "mandatory_suites";
  fp_selection ← getitem final_gate "floating_point_selection";
  floating_point ← getpath contract ["cpu"; "target"; "floating_point"];
  single ← getpath floating_point ["candidates"; "single"; "riscv_test_suite"];
  double ← getpath floating_point ["candidates"; "double"; "riscv_test_suite"];
  hashable single ;;
  hashable double ;;
  mandatory ← items_of mandatory_suites;
  _ ← map_m hashable mandatory;
  let base_suites := List.filter (fun suite => negb (json_in suite [single; double])) mandatory in
  hashable fp_selection ;;
  let selected := match fp_selection with
                  | JStr "single" => Some [single]
                  | JStr "double" => Some [single; double]
                  | _ => None
                  end in
  let ready := match selected with Some _ => true | None => false end in
  let final_suites := json_dedup [] (mandatory ++ default [] selected) in
  double_march ← getpath floating_point ["candidates"; "double"; "march"];
  let double_ready := negb (json_eqb double_march (JStr "unsupported")) in
  mret (JObj
    [("current", gate true [JStr "rv32ui"] ["rv32ui/fence_i"]
                   "Tests implemented by the framework demo core" None);
     ("final-base", gate true base_suites []
                   "Mandatory RV32UI, RV32MI and RV32UM CPU target" None);
     ("fp-single", gate true [single] []
                   "Candidate single-precision floating-point gate" None);
     ("fp-double", gate double_ready [single; double] []
                   "Candidate double-precision floating-point gate"
                   (if double_ready then None
                    else Some "The frozen CPU contract does not implement D"));
     ("final", gate ready final_suites [] "Complete final CPU ISA acceptance gate"
                   (if ready then None
                    else Some "Select single or double precision in the CPU contract"))]).

Section isa_data.
Context `{Host}.

Definition LOCK_PATH : path := repo_path ["software"; "riscv-tests"; "dependency.lock.json"].
Definition TESTLIST_PATH : path := repo_path ["software"; "riscv-tests"; "tests.json"].
Definition UPSTREAM : path := repo_path ["software"; "riscv-tests"; "upstream"].
Definition ENVIRONMENT : path := repo_path ["software"; "riscv-tests"; "env"; "socrv"].
Definition DESTINATION : path := repo_path ["data"; "isa"].

Definition run_wsl (av : list string) (timeout : Z) : M unit :=
  command ← in_repo (repo_path []) av;
  result ← bash command (Some timeout) false;
  fail_if (negb (returncode result =? 0)) RuntimeError
    ("command failed (" +:+ str_of_Z (returncode result) +:+ "): " +:+ join " " av +:+ nl +:+
     stdout result +:+ stderr result).

Definition upstream_commit : M string :=
  '(rc, out, err) ← subprocess_run
     (Command ["git"; "rev-parse"; "HEAD"] (Some UPSTREAM) host_environ None);
  fail_if (negb (rc =? 0)) RuntimeError "riscv-tests upstream checkout is missing" ;;
  mret (strip out).

Definition compile_test (source elf map_file : path) (march mabi : string) : M unit :=
  relative_source ← relative_text source (repo_path []);
  relative_map ← relative_text map_file (repo_path []);
  relative_elf ← relative_text elf (repo_path []);
  run_wsl ["riscv64-unknown-elf-gcc";
           "-march=" +:+ march;
           "-mabi=" +:+ mabi;
           "-nostdlib"; "-nostartfiles"; "-static"; "-Wl,--gc-sections";
           "-Isoftware/riscv-tests/env/socrv";
           "-Isoftware/riscv-tests/upstream/env";
           "-Isoftware/riscv-tests/upstream/isa/macros/scalar";
           relative_source;
           "-Tsoftware/riscv-tests/env/socrv/link.ld";
           "-Wl,-Map," +:+ relative_map;
           "-o"; relative_elf] 180.

(** A region of the memory map, in the form of the converter's option. *)
Definition region_option (memory_map : json) (n : string) (output : path) : M Region :=
  b ← text_at memory_map ["regions"; n; "base"];
  s ← text_at memory_map ["regions"; n; "size"];
  parse (n +:+ ":" +:+ b +:+ ":" +:+ s +:+ ":" +:+ path_str output).

Definition indexed_outputs (output : path) (prefix : string) (n : Z) : list path :=
  (fun i => pnames output [prefix +:+ str_of_Z i +:+ ".mem"]) <$> seqZ 0 n.

(** [int(memory_map SYSCTRL base) + int(STATUS offset)] *)
Definition status_address (memory_map contract : json) : M Z :=
  b ← (x ← getpath memory_map ["regions"; "SYSCTRL"; "base"]; int0 x);
  o ← (x ← getpath contract ["peripherals"; "SYSCTRL"; "registers"; "STATUS"; "offset"]; int0 x);
  mret (b + o).

(** The regions of an image document with their final file names. *)
Fixpoint relocate_regions (prefix : string) (regions : list json) : M (list json) :=
  match regions with
  | [] => mret []
  | region :: regions' =>
      f ← getitem region "file";
      file ← as_str f;
      region' ← set_path region "file" [] (JStr (prefix +:+ name (parse_path file)));
      rest ← relocate_regions prefix regions';
      mret (region' :: rest)
  end.

(** The image manifest with the paths the dataset has once it is in place. *)
Definition relocate_image (image_document : json) (suite n march mabi : string) : M json :=
  d1 ← set_path image_document "isa" ["march"] (JStr march);
  d2 ← set_path d1 "isa" ["mabi"] (JStr mabi);
  d3 ← set_path d2 "elf" ["path"] (JStr ("data/isa/" +:+ suite +:+ "/" +:+ n +:+ "/firmware.elf"));
  rs ← getitem d3 "regions";
  regions ← items_of rs;
  regions' ← relocate_regions ("data/isa/" +:+ suite +:+ "/" +:+ n +:+ "/") regions;
  set_path d3 "regions" [] (JArr regions').

Definition build_test (suite n : string) (output : path) (march mabi : string)
    (memory_map contract : json) (memory_map_hash : string) : M json :=
  let source := pdiv (pdiv (pdiv UPSTREAM "isa") suite) (n +:+ ".S") in
  f ← is_file source;
  fail_if (negb f) RuntimeError ("riscv-tests source is missing: " +:+ path_str source) ;;
  mkdir_p output ;;
  let elf := pnames output ["firmware.elf"] in
  relative_elf ← relative_text elf (repo_path []);
  compile_test source elf (pnames output ["firmware.map"]) march mabi ;;
  dump ← in_repo (repo_path []) ["riscv64-unknown-elf-objdump"; "-d"; "-S"; relative_elf];
  disassembly ← bash dump (Some 60) false;
  fail_if (negb (returncode disassembly =? 0)) RuntimeError ("objdump failed for " +:+ n) ;;
  write_text (pnames output ["firmware.dis"]) (stdout disassembly) ;;
  code ← region_option memory_map "CODE" (pnames output ["code.mem"]);
  data ← region_option memory_map "DATA" (pnames output ["data.mem"]);
  let image_manifest := pnames output ["image.json"] in
  status ← status_address memory_map contract;
  convert elf [code; data] image_manifest
    {| o_profile := "riscv-tests/" +:+ suite +:+ "/" +:+ n;
       o_contract := Some contract;
       o_memory_map_hash := Some memory_map_hash;
       o_test_status_base := Some status;
       o_trim := true;
       o_code_bank_low := None;
       o_code_bank_high := None;
       o_iccm_lanes := Some (indexed_outputs output "iccm_lane" 4);
       o_dccm_banks := Some (indexed_outputs output "dccm_bank" 8) |} ;;
  image_document ← read_json image_manifest;
  relocated ← relocate_image image_document suite n march mabi;
  write_json_atomic image_manifest relocated ;;
  relative_source ← relative_text source (repo_path []);
  source_sha256 ← sha256_file source;
  let root := parent (parent output) in
  elf_text ← relative_text elf root;
  elf_sha256 ← sha256_file elf;
  image_text ← relative_text image_manifest root;
  mret (JObj [("suite", JStr suite); ("name", JStr n); ("march", JStr march); ("mabi", JStr mabi);
              ("source", JStr relative_source); ("source_sha256", JStr source_sha256);
              ("elf", JStr elf_text); ("elf_sha256", JStr elf_sha256);
              ("image_manifest", JStr image_text)]).

Definition replace_dataset (staging : path) : M unit :=
  destination ← ensure_within DESTINATION (repo_path ["data"]);
  expected ← resolve (repo_path ["data"; "isa"]);
  fail_if (negb (bool_decide (destination = expected))) RuntimeError
    ("refusing unexpected ISA destination: " +:+ path_str destination) ;;
  e ← exists_ destination;
  when_ e
    (let old_manifest := pnames destination ["manifest.json"] in
     f ← is_file old_manifest;
     digest ← (if f : bool then d ← sha256_file old_manifest; mret (stake 12 d)
               else mret "unmanifested");
     backup ← build_path ["quarantine"; "data-isa-" +:+ digest];
     b ← exists_ backup;
     if negb b then
       mkdir_p (parent backup) ;;
       replace_path destination backup ;;
       print ("Previous ISA dataset preserved at " +:+ path_str backup)
     else rmtree destination) ;;
  copytree staging destination.

(** What is wrong with one region of an image. *)
Definition region_failures (test region : json) : M (list string) :=
  file ← getitem region "file";
  f ← as_str file;
  differs ← digest_differs (repo_file f) (getitem region "sha256");
  if differs : bool then
    n ← text_at test ["name"];
    r ← text_at region ["name"];
    mret [n +:+ ": " +:+ r +:+ " image hash mismatch"]
  else mret [].

Definition field_mismatch (image_document test : json) (field : string) : M (list string) :=
  actual ← getpath image_document ["isa"; field];
  expected ← getitem test field;
  if json_eqb actual expected then mret [] else
    s ← text_at test ["suite"];
    n ← text_at test ["name"];
    mret [s +:+ "/" +:+ n +:+ ": " +:+ field +:+ " mismatch"].

(** What is wrong with one test of the dataset. *)
Definition test_failures (destination : path) (image_schema test : json) : M (list string) :=
  suite ← (x ← getitem test "suite"; as_str x);
  n ← (x ← getitem test "name"; as_str x);
  let test_root := pdiv (pdiv destination suite) n in
  let elf := pnames test_root ["firmware.elf"] in
  let image := pnames test_root ["image.json"] in
  elf_differs ← digest_differs elf (getitem test "elf_sha256");
  let f1 := if elf_differs : bool then [n +:+ ": ELF hash mismatch"] else [] in
  present ← is_file image;
  if negb present then mret (f1 ++ [n +:+ ": image manifest missing"]) else
    image_document ← read_json image;
    validate image_schema image_document ;;
    f2 ← field_mismatch image_document test "march";
    f3 ← field_mismatch image_document test "mabi";
    elf_path ← (x ← getpath image_document ["elf"; "path"]; as_str x);
    image_differs ← digest_differs (repo_file elf_path) (getpath image_document ["elf"; "sha256"]);
    let f4 := if image_differs : bool then [n +:+ ": image ELF hash mismatch"] else [] in
    regions ← (x ← getitem image_document "regions"; items_of x);
    f5 ← map_m (region_failures test) regions;
    mret (f1 ++ f2 ++ f3 ++ f4 ++ concat f5).

Definition MEMORY_MAP_PATH : path := repo_path ["data"; "soc"; "memory_map.json"].
Definition CONTRACT_PATH : path := repo_path ["data"; "soc"; "software_contract.json"].

Definition verify_dataset (destination : path) : M unit :=
  manifest ← read_json (pnames destination ["manifest.json"]);
  schema ← read_json (repo_path ["data"; "schemas"; "isa_dataset.schema.json"]);
  validate schema manifest ;;
  memory_map_hash ← sha256_file MEMORY_MAP_PATH;
  recorded_map ← getitem manifest "memory_map_sha256";
  fail_if (negb (json_eqb recorded_map (JStr memory_map_hash))) RuntimeError
    "ISA dataset was built for a different Memory Map" ;;
  recorded_contract ← getitem manifest "software_contract_sha256";
  contract_hash ← sha256_file CONTRACT_PATH;
  fail_if (negb (json_eqb recorded_contract (JStr contract_hash))) RuntimeError
    "ISA dataset was built for a different CPU contract" ;;
  recorded_selection ← getitem manifest "selection_sha256";
  selection_hash ← sha256_file TESTLIST_PATH;
  fail_if (negb (json_eqb recorded_selection (JStr selection_hash))) RuntimeError
    "ISA dataset selection is stale" ;;
  image_schema ← read_json (repo_path ["data"; "schemas"; "image.schema.json"]);
  tests ← (x ← getitem manifest "tests"; items_of x);
  fs ← map_m (test_failures destination image_schema) tests;
  let failures := concat fs in
  fail_if (negb (bool_decide (failures = []))) RuntimeError (join nl failures) ;;
  test_count ← (x ← getitem manifest "tests"; json_len x);
  suite_count ← (x ← getitem manifest "suites"; json_len x);
  print ("ISA dataset verified: " +:+ str_of_Z test_count +:+ " tests across " +:+
         str_of_Z suite_count +:+ " suites").

(** The tests of one suite, and its entry in the manifest. *)
Definition build_suite (staging : path) (memory_map contract : json) (memory_map_hash : string)
    (suite_config : json) : M (list json * json) :=
  suite ← (x ← getitem suite_config "name"; as_str x);
  tests ← (x ← getitem suite_config "tests"; items_of x);
  entries ← map_m (fun test =>
    n ← as_str test;
    march ← (x ← getitem suite_config "march"; as_str x);
    mabi ← (x ← getitem suite_config "mabi"; as_str x);
    entry ← build_test suite n (pdiv (pdiv staging suite) n) march mabi
              memory_map contract memory_map_hash;
    print ("Built " +:+ suite +:+ "/" +:+ n) ;;
    mret entry) tests;
  march ← getitem suite_config "march";
  mabi ← getitem suite_config "mabi";
  count ← (x ← getitem suite_config "tests"; json_len x);
  excluded ← getitem suite_config "excluded";
  mret (entries, JObj [("name", JStr suite); ("march", march); ("mabi", mabi);
                       ("test_count", JInt count); ("excluded", excluded)]).

Fixpoint build_suites (staging : path) (memory_map contract : json) (memory_map_hash : string)
    (configs : list json) : M (list json * list json) :=
  match configs with
  | [] => mret ([], [])
  | config :: configs' =>
      wanted ← getitem config "generate";
      if negb (truthy wanted)
      then build_suites staging memory_map contract memory_map_hash configs'
      else
        '(tests, suite) ← build_suite staging memory_map contract memory_map_hash config;
        '(tests', suites') ← build_suites staging memory_map contract memory_map_hash configs';
        mret (tests ++ tests', suite :: suites')
  end.

Definition generate : M unit :=
  lock ← read_json LOCK_PATH;
  selection ← read_json TESTLIST_PATH;
  selection_schema ← read_json (repo_path ["data"; "schemas"; "riscv_tests_selection.schema.json"]);
  validate selection_schema selection ;;
  actual_commit ← upstream_commit;
  commit ← getitem lock "commit";
  fail_if (negb (json_eqb (JStr actual_commit) commit)) RuntimeError
    ("riscv-tests commit mismatch: " +:+ actual_commit +:+ " != " +:+ str_json commit) ;;
  memory_map ← read_json MEMORY_MAP_PATH;
  contract ← read_json CONTRACT_PATH;
  target ← getpath contract ["cpu"; "target"];
  mandatory ← getpath selection ["final_gate"; "mandatory_suites"];
  required ← getitem target "required_riscv_test_suites";
  fail_if (negb (json_eqb mandatory required)) RuntimeError
    "mandatory riscv-tests suites differ from the CPU target contract" ;;
  fp ← getpath selection ["final_gate"; "floating_point_selection"];
  target_fp ← getpath target ["floating_point"; "selection"];
  fail_if (negb (json_eqb fp target_fp)) RuntimeError
    "floating-point selection differs from the CPU target contract" ;;
  memory_map_hash ← sha256_file MEMORY_MAP_PATH;
  staging ← build_path ["isa-data"; "generated"];
  e ← exists_ staging;
  when_ e (rmtree staging) ;;
  configs ← (x ← getitem selection "suites"; items_of x);
  '(test_entries, suite_entries) ← build_suites staging memory_map contract memory_map_hash configs;
  default_gate ← getitem selection "current_gate";
  gates ← gate_manifest selection contract;
  url ← getitem lock "url";
  contract_hash ← sha256_file CONTRACT_PATH;
  selection_hash ← sha256_file TESTLIST_PATH;
  write_json_atomic (pnames staging ["manifest.json"])
    (JObj [("schema_version", JInt 2);
           ("kind", JStr "generated_isa_dataset");
           ("default_gate", default_gate);
           ("gates", gates);
           ("upstream", JObj [("url", url); ("commit", commit)]);
           ("memory_map_sha256", JStr memory_map_hash);
           ("software_contract_sha256", JStr contract_hash);
           ("selection_sha256", JStr selection_hash);
           ("suites", JArr suite_entries);
           ("tests", JArr test_entries)]) ;;
  replace_dataset staging ;;
  verify_dataset DESTINATION.

Definition main (args_verify : bool) : M Z :=
  try_except
    (if args_verify then verify_dataset DESTINATION else generate)
    (fun e => is_os_error e || is_runtime_error e || is_value_error e || is_subprocess_error e)
    (fun e => parser_error (exn_msg e)) ;;
  mret 0.
End isa_data.

(** ** What verification shows *)

Section isa_facts.
Context `{Host}.

(** The file at [p] has the recorded digest. *)
Definition has_digest (w : world) (p : path) (recorded : json) : Prop :=
  exists content, read_bytes p w = (Ok content, w) /\ recorded = JStr (sha256_bytes content).

Lemma sha256_file_ok p d w w' : sha256_file p w = (Ok d, w') -> has_digest w p (JStr d) /\ w' = w.
Proof.
  intros E. pose proof (sha256_file_state _ _ _ _ E) as ->. unfold sha256_file in E.
  apply bind_ok in E as (content & w1 & E1 & E2). apply ret_ok in E2 as [-> <-].
  split; [|done]. exists content. by rewrite sha256_stream_bytes.
Qed.

Lemma Reads_digest_differs p v : Reads v -> Reads (digest_differs p v).
Proof. intros Hv. unfold digest_differs. solve_reads. Qed.

Lemma digest_differs_false p v w w' : Reads v -> digest_differs p v w = (Ok false, w') ->
  exists x, v w = (Ok x, w) /\ has_digest w p x.
Proof.
  intros Hv E. unfold digest_differs in E. apply bind_ok in E as (f & w1 & E1 & E).
  apply gets_ok in E1 as [-> ->]. destruct (is_file_at w p); [|done].
  apply bind_ok in E as (d & w1 & E1 & E). apply sha256_file_ok in E1 as [Hd ->].
  apply bind_ok in E as (x & w1 & E1 & E). pose proof (Hv _ _ _ E1) as ->.
  apply ret_ok in E as [E _]. symmetry in E. apply negb_false_iff, json_eqb_str_l in E as ->.
  by exists (JStr d).
Qed.

Lemma Reads_region_failures t r : Reads (region_failures t r).
Proof. unfold region_failures, digest_differs. solve_reads. Qed.
Lemma Reads_field_mismatch i t f : Reads (field_mismatch i t f).
Proof. unfold field_mismatch. solve_reads. Qed.
Lemma Reads_test_failures d s t : Reads (test_failures d s t).
Proof.
  unfold test_failures, digest_differs.
  pose proof Reads_region_failures. pose proof Reads_field_mismatch. solve_reads.
Qed.

(** A region whose file has its recorded digest. *)
Definition region_intact (w : world) (region : json) : Prop :=
  exists file digest, getitem region "file" w = (Ok (JStr file), w) /\
    getitem region "sha256" w = (Ok digest, w) /\ has_digest w (repo_file file) digest.

Lemma as_str_ok v s w w' : as_str v w = (Ok s, w') -> v = JStr s /\ w' = w.
Proof. destruct v; try done. by intros [= -> ->]. Qed.

Lemma region_failures_none test region w w' :
  region_failures test region w = (Ok [], w') -> region_intact w region.
Proof.
  intros E. unfold region_failures in E. apply bind_ok in E as (file & w1 & E1 & E).
  pose proof (Reads_getitem _ _ _ _ _ E1) as ->. apply bind_ok in E as (f & w1 & E2 & E).
  apply as_str_ok in E2 as [-> ->]. apply bind_ok in E as (b & w1 & E2 & E). destruct b.
  - apply bind_ok in E as (? & ? & _ & E). by apply bind_ok in E as (? & ? & _ & E).
  - apply digest_differs_false in E2 as (x & Hx & Hd); [|apply Reads_getitem]. by exists f, x.
Qed.

(** The image document gives the test's own [field]. *)
Definition isa_agrees (w : world) (image test : json) (field : string) : Prop :=
  exists actual expected, getpath image ["isa"; field] w = (Ok actual, w) /\
    getitem test field w = (Ok expected, w) /\ json_eqb actual expected = true.

Lemma field_mismatch_none image test field w w' :
  field_mismatch image test field w = (Ok [], w') -> isa_agrees w image test field.
Proof.
  unfold field_mismatch. intros E. rstep E actual Ea. rstep E expected Ee.
  destruct (json_eqb actual expected) eqn:Eq; [by exists actual, expected|].
  rstep E s Es. rstep E n En. done.
Qed.

(** A test whose ELF file, the ELF file of its image document and the files of that document's
    [regions] have their recorded digests, and whose ISA is the one the image was built for. *)
Definition test_intact (w : world) (destination : path) (test : json) : Prop :=
  exists suite n digest image elf_path image_digest regions_field regions,
    let root := pdiv (pdiv destination suite) n in
    getitem test "suite" w = (Ok (JStr suite), w) /\ getitem test "name" w = (Ok (JStr n), w) /\
    getitem test "elf_sha256" w = (Ok digest, w) /\ has_digest w (pnames root ["firmware.elf"]) digest /\
    read_json (pnames root ["image.json"]) w = (Ok image, w) /\
    getpath image ["elf"; "path"] w = (Ok (JStr elf_path), w) /\
    getpath image ["elf"; "sha256"] w = (Ok image_digest, w) /\
    has_digest w (repo_file elf_path) image_digest /\
    getitem image "regions" w = (Ok regions_field, w) /\ items_of regions_field w = (Ok regions, w) /\
    Forall (region_intact w) regions /\
    isa_agrees w image test "march" /\ isa_agrees w image test "mabi".

Lemma str_field_ok (test : json) k s w w' :
  (x ← getitem test k; as_str x) w = (Ok s, w') -> getitem test k w = (Ok (JStr s), w) /\ w' = w.
Proof.
  intros E. apply bind_ok in E as (v & w1 & E1 & E). pose proof (Reads_getitem _ _ _ _ _ E1) as ->.
  by apply as_str_ok in E as [-> ->].
Qed.

Lemma test_failures_none destination schema test w w' :
  test_failures destination schema test w = (Ok [], w') -> test_intact w destination test.
Proof.
  intros E. unfold test_failures in E.
  pose proof Reads_region_failures. pose proof Reads_field_mismatch.
  assert (Reads_differs : forall p v, Reads v -> Reads (digest_differs p v))
    by (intros; by apply Reads_digest_differs).
  rstep E suite E0. apply str_field_ok in E0 as [Hs _]. rstep E n E0.
  apply str_field_ok in E0 as [Hn _]. cbv zeta in E. rstep E b E1. rstep E f E2.
  destruct f; cbn [negb] in E; [|apply ret_ok in E as [E _]; by destruct b].
  rstep E image E3. rstep E u Ev. rstep E f2 Ef. rstep E f3 Eg. rstep E elf_path E4.
  rstep E4 v E6. apply as_str_ok in E4 as [-> _]. rstep E b' E5. rstep E regions E7.
  rstep E7 rs E8. rstep E f5 E9. apply ret_ok in E as [E _].
  apply map_m_reads in E9 as [_ E9]; [|apply Reads_region_failures].
  destruct b; [done|]. symmetry in E. apply app_nil in E as [_ E].
  apply app_nil in E as [-> E]. apply field_mismatch_none in Ef.
  apply app_nil in E as [-> E]. apply field_mismatch_none in Eg. destruct b'; [done|].
  apply digest_differs_false in E1 as (d & Hd & Hdig); [|apply Reads_getitem].
  apply digest_differs_false in E5 as (d' & Hd' & Hdig'); [|apply Reads_getpath].
  exists suite, n, d, image, elf_path, d', rs, regions. split_and!; try done.
  apply Forall_forall. intros r Hr. apply list_elem_of_lookup_1 in Hr as [i Hi].
  eapply Forall2_lookup_l in E9 as (fr & Hfr & E9); [|exact Hi].
  assert (fr = []) as ->; [|by eapply region_failures_none].
  apply list_elem_of_lookup_2 in Hfr. by eapply concat_nil_elem.
Qed.

Lemma recorded_ok v h p msg w u w' : has_digest w p (JStr h) ->
  fail_if (negb (json_eqb v (JStr h))) RuntimeError msg w = (Ok u, w') -> has_digest w p v.
Proof. intros Hd E. apply fail_if_ok in E as [E _]. by apply negb_false_iff, json_eqb_str in E as ->. Qed.

(** C20: when [verify_dataset] returns, the memory map, the CPU contract and the selection
    have the digests the manifest records, and so has for every test its ELF file, the ELF
    file its image document names and the file of every entry of that document's [regions]
    (CODE and DATA); the document's march and mabi are the manifest's.  The bank files that
    the document lists with their digests under [banks] are not looked at
    ([banks_unchecked]).  No file changes. *)
Theorem verify_dataset_intact destination u w w' :
  verify_dataset destination w = (Ok u, w') ->
  w_fs w' = w_fs w /\
  exists manifest memory_map_digest contract_digest selection_digest tests_field tests,
    read_json (pnames destination ["manifest.json"]) w = (Ok manifest, w) /\
    getitem manifest "memory_map_sha256" w = (Ok memory_map_digest, w) /\
    has_digest w MEMORY_MAP_PATH memory_map_digest /\
    getitem manifest "software_contract_sha256" w = (Ok contract_digest, w) /\
    has_digest w CONTRACT_PATH contract_digest /\
    getitem manifest "selection_sha256" w = (Ok selection_digest, w) /\
    has_digest w TESTLIST_PATH selection_digest /\
    getitem manifest "tests" w = (Ok tests_field, w) /\ items_of tests_field w = (Ok tests, w) /\
    Forall (test_intact w destination) tests.
Proof.
  intros E. unfold verify_dataset in E. rstep E m Em. rstep E s Es. rstep E uv Ev.
  rstep E h1 E1. apply sha256_file_ok in E1 as [H1 _]. rstep E v1 G1. rstep E u1 F1.
  apply (recorded_ok _ _ _ _ _ _ _ H1) in F1.
  rstep E v2 G2. rstep E h2 E2. apply sha256_file_ok in E2 as [H2 _]. rstep E u2 F2.
  apply (recorded_ok _ _ _ _ _ _ _ H2) in F2.
  rstep E v3 G3. rstep E h3 E3. apply sha256_file_ok in E3 as [H3 _]. rstep E u3 F3.
  apply (recorded_ok _ _ _ _ _ _ _ H3) in F3.
  rstep E sch Ei. rstep E tests Et. rstep Et tf Ht. pose proof Reads_test_failures.
  rstep E fs Ef. apply map_m_reads in Ef as [_ Ef]; [|apply Reads_test_failures].
  cbv zeta in E. rstep E u4 F4. apply fail_if_ok in F4 as [F4 _]. bool_props. split.
  { rstep E c1 Ec. rstep E c2 Ed. by injection E as <- <-. }
  exists m, v1, v2, v3, tf, tests. split_and!; try done.
  apply Forall_forall. intros t Hin. apply list_elem_of_lookup_1 in Hin as [i Hi].
  eapply Forall2_lookup_l in Ef as (ft & Hft & Et2); [|exact Hi].
  apply list_elem_of_lookup_2 in Hft. eapply concat_nil_elem in F4; [|exact Hft]. subst.
  by eapply test_failures_none.
Qed.
End isa_facts.

(** *** An instance: a dataset with one test *)

Definition demo_image_json : json :=
  JObj [("isa", JObj [("march", JStr "rv32i"); ("mabi", JStr "ilp32")]);
        ("elf", JObj [("path", JStr "data/isa/ui/add/firmware.elf"); ("sha256", JStr (sha256_text "elf"))]);
        ("regions", JArr [JObj [("name", JStr "CODE"); ("file", JStr "data/isa/ui/add/code.mem");
                                ("sha256", JStr (sha256_text "@0"))]]);
        ("banks", JArr [JObj [("name", JStr "ICCM_LANE0"); ("file", JStr "data/isa/ui/add/iccm_lane0.mem");
                              ("sha256", JStr (sha256_text "@0"))]])].
Definition demo_dataset : json :=
  JObj [("memory_map_sha256", JStr (sha256_text "{}")); ("software_contract_sha256", JStr (sha256_text "{}"));
        ("selection_sha256", JStr (sha256_text "{}")); ("suites", JArr [JStr "ui"]);
        ("tests", JArr [JObj [("suite", JStr "ui"); ("name", JStr "add"); ("march", JStr "rv32i");
                              ("mabi", JStr "ilp32"); ("elf_sha256", JStr (sha256_text "elf"))]])].
Definition demo_dataset_world : world := demo_world
  [(["repo"; "data"; "isa"; "manifest.json"], dumps demo_dataset);
   (["repo"; "data"; "isa"; "ui"; "add"; "firmware.elf"], "elf");
   (["repo"; "data"; "isa"; "ui"; "add"; "code.mem"], "@0");
   (["repo"; "data"; "isa"; "ui"; "add"; "iccm_lane0.mem"], "other words");
   (["repo"; "data"; "isa"; "ui"; "add"; "image.json"], dumps demo_image_json);
   (["repo"; "data"; "schemas"; "isa_dataset.schema.json"], "{}");
   (["repo"; "data"; "schemas"; "image.schema.json"], "{}");
   (["repo"; "data"; "soc"; "memory_map.json"], "{}");
   (["repo"; "data"; "soc"; "software_contract.json"], "{}");
   (["repo"; "software"; "riscv-tests"; "tests.json"], "{}")]
  [["repo"]].

Lemma verify_dataset_intact_witness : exists tests,
  Forall (test_intact (H := demo) demo_dataset_world (DESTINATION (H := demo))) tests.
Proof.
  destruct (verify_dataset_intact (H := demo) (DESTINATION (H := demo)) tt demo_dataset_world
    (verify_dataset (H := demo) (DESTINATION (H := demo)) demo_dataset_world).2)
    as (_ & ? & ? & ? & ? & ? & tests & _ & _ & _ & _ & _ & _ & _ & _ & Hall).
  - by_eval.
  - exists tests. exact (proj2 Hall).
Defined.

(** The bank file above differs from its recorded digest, and the dataset is accepted. *)
Example banks_unchecked :
  (verify_dataset (H := demo) (DESTINATION (H := demo)) demo_dataset_world).1 = Ok tt.
Proof. by_eval. Qed.
