(* ===== verification/BuildSoftware.v ===== *)
(** [scripts/build_software.py]: a software profile is built by [make], its ELF file
    is checked against the memory map, its sources and tools are recorded, and the
    memory images are derived from it.  A competition build first checks that the
    frozen sources of the run directory are unchanged. *)
From Stdlib Require Import ZArith Lia.
From S2P Require Import Prelude Str Json Sha256 Py Store Lib Helpers Bytes Elf2mem.
Local Open Scope Z_scope.
Local Open Scope py_scope.

Record SoftwareProfile := {
  kind : string;
  dependencies : list string;
  default_max_cycles : option Z;
  score_candidate : bool
}.

Definition PROFILES : list (string * SoftwareProfile) := [
  ("smoke", Build_SoftwareProfile "baremetal" [] (Some 300000) false);
  ("trap-timer", Build_SoftwareProfile "baremetal" [] (Some 500000) false);
  ("rtthread", Build_SoftwareProfile "rtthread" ["rt-thread"] (Some 2500000) false);
  ("coremark-smoke",
   Build_SoftwareProfile "coremark-baremetal-functional" ["coremark"] (Some 50000000) false);
  ("coremark-baremetal",
   Build_SoftwareProfile "coremark-baremetal-score-candidate" ["coremark"] None true);
  ("rtthread-coremark",
   Build_SoftwareProfile "rtthread-coremark-command" ["rt-thread"; "coremark"] (Some 30000000) false);
  ("contest-rtthread-coremark",
   Build_SoftwareProfile "contest-rtthread-coremark-command" ["rt-thread"; "coremark"]
     (Some 30000000) false)].

Record Size := { s_text : Z; s_data : Z; s_bss : Z; s_total : Z }.

(** [int(v)] for a string *)
Definition int10 (s : string) : M Z :=
  lift_opt ValueError ("invalid literal for int() with base 10: " +:+ repr_str s) (py_int s).

Definition parse_size (output : string) : M Size :=
  let lines := split_ws <$> filter (fun line => strip line <> "") (splitlines output) in
  let values := List.last lines [] in
  if (len lines <? 2) || (len values <? 4)
  then raise RuntimeError ("cannot parse size output:" +:+ nl +:+ output)
  else
    text ← int10 (nth 0 values "");
    data ← int10 (nth 1 values "");
    bss ← int10 (nth 2 values "");
    total ← int10 (nth 3 values "");
    mret {| s_text := text; s_data := data; s_bss := bss; s_total := total |}.

Record CompetitionConfig := {
  config_path : path;
  mode : string;
  entry_source : path;
  source_root : path
}.

Section build_software.
Context `{Host}.

Definition run_wsl (av : list string) (timeout : Z) : M string :=
  command ← in_repo (repo_path []) av;
  result ← bash command (Some timeout) false;
  fail_if (negb (returncode result =? 0)) RuntimeError
    ("WSL command failed (" +:+ str_of_Z (returncode result) +:+ "): " +:+ join " " av +:+ nl +:+
     stdout result +:+ stderr result) ;;
  mret (stdout result).

Definition tool_output (profile target : string) (make_variables : list string) : M string :=
  out ← run_wsl (["make"; "-s"; "-C"; "software"; "PROFILE=" +:+ profile] ++
                 make_variables ++ [target]) 180;
  mret (strip out).

Definition git_dirty : M bool :=
  '(rc, out, err) ← subprocess_run
     (Command ["git"; "status"; "--porcelain"; "--untracked-files=normal"]
        (Some (repo_path [])) host_environ None);
  mret (negb (rc =? 0) || negb (String.eqb (strip out) "")).

Definition source_entry (relative : string) : M json :=
  p ← ensure_within (repo_path ("software" :: path_parts (parse_path relative))) (repo_path []);
  f ← is_file p;
  fail_if (negb f) RuntimeError ("profile source does not exist: " +:+ path_str p) ;;
  text ← relative_text p (repo_path []);
  digest ← sha256_file p;
  mret (JObj [("path", JStr text); ("sha256", JStr digest)]).
Definition source_entries (paths : list string) : M (list json) := map_m source_entry paths.

Definition dependency_entry (n : string) : M json :=
  lock ← read_json (repo_path ["software"; n; "dependency.lock.json"]);
  url ← getitem lock "url";
  commit ← getitem lock "commit";
  mret (JObj [("name", JStr n); ("url", JStr (str_json url)); ("commit", JStr (str_json commit))]).
Definition dependency_entries (names : list string) : M (list json) := map_m dependency_entry names.

Definition relative_from_software (p : path) : string := relpath p (repo_path ["software"]).

Definition resolve_run_dir (p : path) : M path :=
  candidate ← ensure_within (in_repo_unless_absolute p) (repo_path ["competition_runs"]);
  ensure_directory_accessible candidate "competition run directory".

(** The entries of a source manifest, as a dictionary from paths to digests. *)
Definition source_item (run_dir manifest_path : path) (item : json) : M (string * string) :=
  let invalid := "invalid source entry in " +:+ path_str manifest_path in
  fail_if (negb (is_dict item)) ValueError invalid ;;
  relative ← get item "path";
  digest ← get item "sha256";
  match relative, digest with
  | JStr r, JStr d =>
      p ← ensure_within (join_parts run_dir r) (pnames run_dir ["source"; "original"]);
      key ← relative_text p run_dir;
      mret (key, d)
  | _, _ => raise ValueError invalid
  end.

Definition expected_sources (run_dir manifest_path : path) (files : list json) : M (list (string * string)) :=
  fold_m (fun d item => '(k, v) ← source_item run_dir manifest_path item; mret (dict_set k v d))
    [] files.

(** The manifest of the frozen sources. *)
Definition source_manifest_path (run_dir : path) : path :=
  pnames run_dir ["source"; "source_manifest.json"].
Definition declared_sources (run_dir : path) : M (list (string * string)) :=
  let manifest_path := source_manifest_path run_dir in
  f ← is_file manifest_path;
  fail_if (negb f) ValueError
    ("competition source manifest does not exist: " +:+ path_str manifest_path) ;;
  manifest ← read_json manifest_path;
  files ← get manifest "files";
  version ← get manifest "schema_version";
  k ← get manifest "kind";
  match files with
  | JArr items =>
      fail_if (negb (json_eqb version (JInt 1)) || negb (json_eqb k (JStr "competition_source")))
        ValueError ("invalid competition source manifest: " +:+ path_str manifest_path) ;;
      expected_sources run_dir manifest_path items
  | _ => raise ValueError ("invalid competition source manifest: " +:+ path_str manifest_path)
  end.

Definition check_source (run_dir : path) (expected : list (string * string)) (p : path) : M unit :=
  relative ← relative_text p run_dir;
  actual ← sha256_file p;
  recorded ← lift_opt KeyError (repr_str relative) (dict_get relative expected);
  fail_if (negb (String.eqb actual recorded)) ValueError
    ("competition source changed after preparation: " +:+ relative).

Definition verify_competition_sources (run_dir : path) : M unit :=
  expected ← declared_sources run_dir;
  actual_paths ← files_below (pnames run_dir ["source"; "original"]);
  names ← map_m (fun p => relative_text p run_dir) actual_paths;
  let actual_names := str_set names in
  let expected_names := str_set expected.*1 in
  fail_if (negb (bool_decide (actual_names = expected_names))) ValueError
    ("competition source set changed after preparation; added=" +:+
     repr_sorted (actual_names ∖ expected_names) +:+ ", missing=" +:+
     repr_sorted (expected_names ∖ actual_names)) ;;
  for_ actual_paths (check_source run_dir expected).

Definition load_competition_config (run_dir : path) (requested : option path) : M CompetitionConfig :=
  verify_competition_sources run_dir ;;
  let candidate := match requested with
                   | None => pnames run_dir ["source"; "competition.json"]
                   | Some p => in_repo_unless_absolute p
                   end in
  p ← ensure_within candidate (pnames run_dir ["source"]);
  f ← is_file p;
  fail_if (negb f) ValueError ("competition configuration does not exist: " +:+ path_str p) ;;
  document ← read_json p;
  schema ← read_json (repo_path ["data"; "schemas"; "competition_source.schema.json"]);
  validate schema document ;;
  m ← getitem document "mode";
  fail_if (negb (json_eqb m (JStr "core_main_replacement"))) ValueError
    "contest-rtthread-coremark currently supports only mode=core_main_replacement" ;;
  symbol ← getitem document "entry_symbol";
  fail_if (negb (json_eqb symbol (JStr "main"))) ValueError
    "core_main_replacement requires entry_symbol=main" ;;
  extra ← getitem document "extra_sources";
  fail_if (truthy extra) ValueError
    "core_main_replacement currently expects one driver C file; extra_sources must be empty" ;;
  entry ← (x ← getitem document "entry_source"; as_str x);
  entry_source ← ensure_within (join_parts run_dir entry) (pnames run_dir ["source"; "original"]);
  g ← is_file entry_source;
  fail_if (negb g) ValueError
    ("competition entry source does not exist: " +:+ path_str entry_source) ;;
  fail_if (negb (String.eqb (lower (suffix entry_source)) ".c")) ValueError
    ("competition entry source is not a C file: " +:+ path_str entry_source) ;;
  root ← resolve (pnames run_dir ["source"; "original"]);
  mret {| config_path := p; mode := str_json m; entry_source := entry_source; source_root := root |}.

(** [print(stdout, end=""); if stderr: print(stderr, end="", file=sys.stderr)] *)
Definition echo (result : CommandResult) : M unit :=
  print_end (stdout result) ;;
  when_ (negb (String.eqb (stderr result) "")) (eprint_end (stderr result)).

Definition make_variables (output : path) (contest : option CompetitionConfig) : list string :=
  ["OUT=" +:+ relative_from_software output] ++
  match contest with
  | Some c => ["CONTEST_ENTRY_SOURCE=" +:+ relative_from_software (entry_source c);
               "CONTEST_SOURCE_ROOT=" +:+ relative_from_software (source_root c)]
  | None => []
  end.

Definition run_make (profile_name : string) (force : bool) (variables : list string) : M unit :=
  command ← in_repo (repo_path [])
    (["make"] ++ (if force then ["-B"] else []) ++
     ["-C"; "software"; "PROFILE=" +:+ profile_name] ++ variables);
  result ← bash command (Some 300) false;
  echo result ;;
  fail_if (negb (ok result)) RuntimeError ("software build failed for profile " +:+ profile_name).

(** The ELF file has to start at the reset vector. *)
Definition check_entry (profile_name : string) (entry : Z) (memory_map : json) : M unit :=
  reset_vector ← (x ← getitem memory_map "reset_vector"; int0 x);
  fail_if (negb (entry =? reset_vector)) RuntimeError
    (profile_name +:+ ": ELF entry 0x" +:+ hex08 entry +:+ " does not match reset vector 0x" +:+
     hex08 reset_vector).

(** The sections have to fit the memories, the stack's eight kilobytes left free. *)
Definition check_capacity (profile_name : string) (size : Size) (memory_map : json) : M (Z * Z) :=
  code_size ← (x ← getpath memory_map ["regions"; "CODE"; "size"]; int0 x);
  data_size ← (x ← getpath memory_map ["regions"; "DATA"; "size"]; int0 x);
  fail_if (code_size <? s_text size) RuntimeError (profile_name +:+ ": text exceeds CODE capacity") ;;
  fail_if (data_size - 8192 <? s_data size + s_bss size) RuntimeError
    (profile_name +:+ ": initialized/uninitialized data reaches reserved stack") ;;
  mret (code_size, data_size).

Definition file_entry (p : path) : M json :=
  text ← relative_text p (repo_path []);
  digest ← sha256_file p;
  mret (JObj [("path", JStr text); ("sha256", JStr digest)]).

(** The field [competition] of the build manifest. *)
Definition competition_fields (contest : option CompetitionConfig) : M (list (string * json)) :=
  match contest with
  | None => mret []
  | Some c =>
      config ← file_entry (config_path c);
      entry ← file_entry (entry_source c);
      mret [("competition", JObj [("mode", JStr (mode c)); ("config", config);
                                  ("entry_source", entry)])]
  end.

Definition region_argument (memory_map : json) (n : string) (image : path) : M (list string) :=
  b ← text_at memory_map ["regions"; n; "base"];
  s ← text_at memory_map ["regions"; n; "size"];
  mret ["--region"; n +:+ ":" +:+ b +:+ ":" +:+ s +:+ ":" +:+ path_str image].

Definition bank_arguments (option_name prefix : string) (n : Z) (image_dir : path) : list string :=
  concat ((fun i => [option_name; path_str (pnames image_dir [prefix +:+ str_of_Z i +:+ ".mem"])])
          <$> seqZ 0 n).

(** The memory images are made by a run of the converter. *)
Definition make_images (profile_name : string) (elf image_dir : path) (memory_map : json) : M unit :=
  mkdir_p image_dir ;;
  code ← region_argument memory_map "CODE" (pnames image_dir ["code.mem"]);
  data ← region_argument memory_map "DATA" (pnames image_dir ["data.mem"]);
  check_call
    ([host_executable; path_str (repo_path ["scripts"; "elf2mem.py"]); "--elf"; path_str elf;
      "--profile"; profile_name] ++ code ++ data ++
     ["--manifest"; path_str (pnames image_dir ["image.json"])] ++
     bank_arguments "--iccm-lane" "iccm_lane" 4 image_dir ++
     bank_arguments "--dccm-bank" "dccm_bank" 8 image_dir)
    (Some (repo_path [])).

(** [size.json] *)
Definition write_size (output : path) (profile_name : string) (size : Size) (capacity : Z * Z) : M unit :=
  write_json_atomic (pnames output ["size.json"])
    (JObj [("schema_version", JInt 1); ("profile", JStr profile_name);
           ("text", JInt (s_text size)); ("data", JInt (s_data size)); ("bss", JInt (s_bss size));
           ("total", JInt (s_total size)); ("code_capacity", JInt capacity.1);
           ("data_capacity", JInt capacity.2); ("reserved_stack", JInt 8192)]).

(** [build_manifest.json] *)
Definition write_build_manifest (output elf : path) (profile_name : string) (profile : SoftwareProfile)
    (profile_kind compiler_version flags : string) (sources : list string) (entry : Z)
    (contest : option CompetitionConfig) : M unit :=
  contract ← read_json (repo_path ["data"; "soc"; "software_contract.json"]);
  march ← getpath contract ["cpu"; "march"];
  mabi ← getpath contract ["cpu"; "mabi"];
  elf_text ← relative_text elf (repo_path []);
  elf_sha256 ← sha256_file elf;
  deps ← dependency_entries (dependencies profile);
  srcs ← source_entries sources;
  dirty ← git_dirty;
  competition ← competition_fields contest;
  write_json_atomic (pnames output ["build_manifest.json"])
    (JObj ([("schema_version", JInt 1); ("kind", JStr "software_build");
            ("profile", JStr profile_name); ("profile_kind", JStr profile_kind);
            ("score_candidate", JBool (score_candidate profile));
            ("toolchain", JObj [("compiler", JStr compiler_version); ("flags", JStr flags);
                                ("march", march); ("mabi", mabi)]);
            ("linker", JStr "software/linker/socrv_code_data.ld");
            ("elf", JObj [("path", JStr elf_text); ("sha256", JStr elf_sha256);
                          ("entry", JStr ("0x" +:+ hex08 entry))]);
            ("dependencies", JArr deps); ("sources", JArr srcs);
            ("repository_dirty", JBool dirty)] ++ competition)).

Definition contest_profile : string := "contest-rtthread-coremark".

(** Which run directory and competition configuration a build uses. *)
Definition build_setup (profile_name : string) (run_dir competition_config : option path)
    : M (option path * option CompetitionConfig) :=
  selected_run ← match run_dir with
                 | Some p => q ← resolve_run_dir p; mret (Some q)
                 | None => mret None
                 end;
  let contest_run := String.eqb profile_name contest_profile in
  fail_if (contest_run && bool_decide (selected_run = None)) ValueError
    "contest-rtthread-coremark requires --run-dir from scripts/prepare_competition_run.py" ;;
  fail_if (negb (bool_decide (competition_config = None)) && bool_decide (selected_run = None))
    ValueError "--competition-config requires --run-dir" ;;
  contest ← match selected_run with
            | Some run => if contest_run then c ← load_competition_config run competition_config; mret (Some c)
                          else mret None
            | None => mret None
            end;
  mret (selected_run, contest).

Definition build_profile (profile_name : string) (force : bool) (run_dir competition_config : option path)
    : M (path * path) :=
  profile ← lift_opt KeyError (repr_str profile_name) (dict_get profile_name PROFILES);
  '(selected_run, contest) ← build_setup profile_name run_dir competition_config;
  let output := match selected_run with
                | Some run => pnames run ["software"]
                | None => repo_path ["build"; "software"; profile_name]
                end in
  let variables := make_variables output contest in
  run_make profile_name force variables ;;
  let elf := pnames output ["firmware.elf"] in
  f ← is_file elf;
  fail_if (negb f) RuntimeError ("software build did not produce " +:+ path_str elf) ;;
  '(entry, _) ← parse_elf32_little elf;
  memory_map ← load_json (repo_path ["data"; "soc"; "memory_map.json"]);
  check_entry profile_name entry memory_map ;;
  listed ← tool_output profile_name "print-sources" variables;
  let sources := filter (fun line => line <> "") (splitlines listed) in
  flags ← tool_output profile_name "print-flags" variables;
  profile_kind ← tool_output profile_name "print-kind" variables;
  version ← run_wsl ["riscv64-unknown-elf-gcc"; "--version"] 180;
  compiler_version ← lift_opt IndexError "list index out of range" (head (splitlines version));
  elf_text ← relative_text elf (repo_path []);
  size_output ← run_wsl ["riscv64-unknown-elf-size"; elf_text] 180;
  size ← parse_size size_output;
  capacity ← check_capacity profile_name size memory_map;
  write_size output profile_name size capacity ;;
  write_build_manifest output elf profile_name profile profile_kind compiler_version flags sources
    entry contest ;;
  let image_dir := match selected_run with
                   | Some run => pnames run ["images"]
                   | None => repo_path ["build"; "images"; profile_name]
                   end in
  make_images profile_name elf image_dir memory_map ;;
  mret (elf, image_dir).

Record args := {
  a_profile : string;
  a_force : bool;
  a_run_dir : option path;
  a_competition_config : option path
}.

Definition main (a : args) : M Z :=
  '(elf, image_dir) ← or_usage_error
    (fun e => is_usual_error e || is_called_process_error e)
    (build_profile (a_profile a) (a_force a) (a_run_dir a) (a_competition_config a));
  print ("ELF:   " +:+ path_str elf) ;;
  print ("Image: " +:+ path_str image_dir) ;;
  mret 0.
End build_software.

(** ** The frozen sources *)

Section build_facts.
Context `{Host}.

Lemma Reads_source_item run m item : Reads (source_item run m item).
Proof. unfold source_item. solve_reads. Qed.
Lemma Reads_expected_sources run m l : Reads (expected_sources run m l).
Proof. unfold expected_sources. pose proof Reads_source_item. solve_reads. Qed.
Lemma Reads_declared_sources run : Reads (declared_sources run).
Proof. unfold declared_sources. pose proof Reads_expected_sources. solve_reads. Qed.
Lemma Reads_check_source run e p : Reads (check_source run e p).
Proof. unfold check_source. solve_reads. Qed.

(** The name of a file in the manifest of the run directory. *)
Definition source_key (run_dir p : path) : string :=
  path_str (Path false (drop (length (p_parts run_dir)) (p_parts p))).

Lemma check_source_ok run expected p u w w' : check_source run expected p w = (Ok u, w') ->
  exists content, read_bytes p w = (Ok content, w) /\
    dict_get (source_key run p) expected = Some (sha256_bytes content).
Proof.
  intros E. unfold check_source in E. apply bind_ok in E as (rel & w1 & E1 & E).
  apply relative_text_ok in E1 as (-> & _ & ->).
  apply bind_ok in E as (d & w1 & E1 & E). pose proof (sha256_file_state _ _ _ _ E1) as ->.
  apply bind_ok in E as (rec & w1 & E2 & E). apply lift_opt_ok in E2 as [Hg ->].
  apply fail_if_ok in E as [Heq _]. bool_props. subst.
  unfold sha256_file in E1. apply bind_ok in E1 as (content & w1 & E1 & E2).
  apply ret_ok in E2 as [-> <-]. exists content. split; [done|].
  by rewrite sha256_stream_bytes in Hg.
Qed.

(** C21: a competition build starts only from the frozen sources: when
    [verify_competition_sources] returns, the files below [source/original] are exactly
    those the source manifest declares, and the SHA-256 digest of each is the declared
    one; the check changes nothing. *)
Theorem verify_competition_sources_frozen run u w w' :
  verify_competition_sources run w = (Ok u, w') ->
  w' = w /\ exists expected, declared_sources run w = (Ok expected, w) /\
    (forall p, p ∈ rglob_at w (pnames run ["source"; "original"]) -> is_file_at w p = true ->
      exists content, read_bytes p w = (Ok content, w) /\
        dict_get (source_key run p) expected = Some (sha256_bytes content)) /\
    (forall k, k ∈ expected.*1 ->
      exists p, p ∈ rglob_at w (pnames run ["source"; "original"]) /\ is_file_at w p = true /\
        source_key run p = k).
Proof.
  intros E. unfold verify_competition_sources in E.
  apply bind_ok in E as (expected & w1 & E1 & E). pose proof (Reads_declared_sources _ _ _ _ E1) as ->.
  apply bind_ok in E as (files & w1 & E2 & E). apply files_below_spec in E2 as [-> Hfiles].
  apply bind_ok in E as (names & w1 & E3 & E).
  apply map_m_reads in E3 as [-> Hnames]; [|intros; apply Reads_relative_text].
  apply bind_ok in E as (u1 & w1 & E4 & E). apply fail_if_ok in E4 as [Hset ->]. bool_props.
  apply for_inspect in E as [-> Hall]; [|intros x ? ? ? Ex; by apply Reads_check_source in Ex].
  split; [done|]. exists expected. split_and!; [done| |].
  - intros p Hp Hf. rewrite Forall_forall in Hall.
    assert (Hin : p ∈ files) by by apply Hfiles. by apply Hall, check_source_ok in Hin.
  - intros k Hk0. assert (Hk : k ∈ str_set expected.*1) by by apply elem_of_list_to_set.
    rewrite <- Hset in Hk. apply elem_of_list_to_set, list_elem_of_lookup_1 in Hk as [i Hi].
    eapply Forall2_lookup_r in Hnames as (p & Hp & Hrel); [|exact Hi].
    apply relative_text_ok in Hrel as (_ & _ & ->).
    apply list_elem_of_lookup_2, Hfiles in Hp as [Hp Hf]. by exists p.
Qed.


Lemma Reads_parse_elf p : Reads (parse_elf32_little p).
Proof.
  unfold parse_elf32_little, parse_blob. apply Reads_bind; [apply Reads_read_bytes|].
  intros blob. assert (forall a b c d, Reads (parse_program_header blob a b c d)).
  { intros. unfold parse_program_header, unpack_from. solve_reads. }
  unfold unpack_from. solve_reads.
Qed.
Lemma Reads_check_entry n p m : Reads (check_entry n p m).
Proof. unfold check_entry. solve_reads. Qed.
Lemma Reads_int10 s : Reads (int10 s).
Proof. apply Reads_lift_opt. Qed.
Lemma Reads_parse_size s : Reads (parse_size s).
Proof. unfold parse_size. pose proof Reads_int10. solve_reads. Qed.
Lemma Reads_check_capacity n s m : Reads (check_capacity n s m).
Proof. unfold check_capacity. solve_reads. Qed.

(** A number of a document, as the scripts read it. *)
Definition number_at (v : json) (ks : list string) (n : Z) : Prop :=
  forall w, (x ← getpath v ks; int0 x) w = (Ok n, w).

Lemma number_at_of v ks n w w' : (x ← getpath v ks; int0 x) w = (Ok n, w') -> number_at v ks n.
Proof.
  intros E w0. apply bind_ok in E as (x & w1 & E1 & E).
  rewrite (bind_ok_eq _ _ x w0 w0); [|by eapply getpath_any].
  destruct x; try done. cbn in *. apply lift_opt_ok in E as [-> _]. done.
Qed.

Lemma check_entry_ok n entry memory_map u w w' : check_entry n entry memory_map w = (Ok u, w') ->
  w' = w /\ number_at memory_map ["reset_vector"] entry.
Proof.
  intros E. pose proof (Reads_check_entry _ _ _ _ _ _ E) as ->. split; [done|]. unfold check_entry in E.
  apply bind_ok in E as (reset & w3 & E3 & E). apply fail_if_ok in E as [Heq _]. bool_props. subst reset.
  apply (number_at_of _ ["reset_vector"] _ w w3). cbn [getpath].
  apply bind_ok in E3 as (x & w1 & E2 & E3).
  rewrite (bind_ok_eq _ _ x w w1); [exact E3|]. by rewrite (bind_ok_eq _ _ x w w1).
Qed.

Lemma check_capacity_ok n size memory_map c d w w' :
  check_capacity n size memory_map w = (Ok (c, d), w') ->
  w' = w /\ number_at memory_map ["regions"; "CODE"; "size"] c /\
  number_at memory_map ["regions"; "DATA"; "size"] d /\
  s_text size <= c /\ s_data size + s_bss size + 8192 <= d.
Proof.
  intros E. pose proof (Reads_check_capacity _ _ _ _ _ _ E) as ->. unfold check_capacity in E.
  apply bind_ok in E as (c0 & w1 & E1 & E). apply bind_ok in E as (d0 & w2 & E2 & E).
  inv_ok E. inv_ok E. apply ret_ok in E as [[= -> ->] _].
  apply fail_if_ok in H0 as [Hc _]. apply fail_if_ok in H1 as [Hd _]. bool_props.
  split_and!; [done|by eapply number_at_of|by eapply number_at_of|lia|lia].
Qed.

(** A tool was run in the repository, exited with 0 and printed [report]. *)
Definition tool_says (av : list string) (w : world) (report : string) (w' : world) : Prop :=
  exists command w1 err, in_repo (repo_path []) av w = (Ok command, w1) /\
    exists result, bash command (Some 180) false w1 = (Ok result, w') /\
      returncode result = 0 /\ stdout result = report /\ stderr result = err.

Lemma run_wsl_ok av w report w' : run_wsl av 180 w = (Ok report, w') -> tool_says av w report w'.
Proof.
  unfold run_wsl. intros E. apply bind_ok in E as (command & w1 & E1 & E). apply bind_ok in E as (result & w2 & E2 & E).
  apply bind_ok in E as (u & w3 & E3 & E). apply fail_if_ok in E3 as [Hc ->]. apply ret_ok in E as [-> ->].
  apply negb_false_iff, Z.eqb_eq in Hc. exists command, w1, (stderr result). split; [done|]. by exists result.
Qed.

Lemma tool_output_ok profile target variables w out w' : tool_output profile target variables w = (Ok out, w') ->
  exists report, out = strip report /\
    tool_says (["make"; "-s"; "-C"; "software"; "PROFILE=" +:+ profile] ++ variables ++ [target]) w report w'.
Proof.
  unfold tool_output. intros E. apply bind_ok in E as (report & w1 & E1 & E). apply ret_ok in E as [-> ->].
  exists report. split; [done|]. by apply run_wsl_ok.
Qed.

Lemma run_make_ok name force variables u w w' : run_make name force variables w = (Ok u, w') ->
  exists command w1 result w2,
    in_repo (repo_path []) (["make"] ++ (if force then ["-B"] else []) ++
      ["-C"; "software"; "PROFILE=" +:+ name] ++ variables) w = (Ok command, w1) /\
    bash command (Some 300) false w1 = (Ok result, w2) /\ returncode result = 0 /\ w' = printed result w2.
Proof.
  unfold run_make. intros E. apply bind_ok in E as (command & w1 & E1 & E). apply bind_ok in E as (result & w2 & E2 & E).
  apply bind_ok in E as (u1 & w3 & E3 & E). apply fail_if_ok in E as [Hc ->]. apply negb_false_iff in Hc.
  exists command, w1, result, w2. split_and!; [done|done|by apply Z.eqb_eq|].
  unfold echo in E3. apply bind_ok in E3 as ([] & w4 & E4 & E3). injection E4 as <-. unfold printed. destruct u1.
  destruct (String.eqb (stderr result) ""); by injection E3 as <-.
Qed.

(** C22: a software build that succeeds made a program that fits the machine.  In this order:
    [make] is run in the repository for the profile and exits with 0; in the store that it leaves,
    the ELF file parses and starts at the reset vector of the memory map; the makefile is asked for
    sources, flags and kind, and the compiler for its version; the [size] tool reports on
    this ELF file, its text fits the CODE region, and data and bss fit the DATA region with eight
    kilobytes left for the stack; and only then are the size record, the build manifest and the
    images of this ELF file written. *)
Theorem build_profile_fits name force run_dir config elf image_dir w w' :
  build_profile name force run_dir config w = (Ok (elf, image_dir), w') ->
  exists run contest w0 command w1 result w2,
    let output := match run with
                  | Some run => pnames run ["software"]
                  | None => repo_path ["build"; "software"; name]
                  end in
    let variables := make_variables output contest in
    let built := printed result w2 in
    build_setup name run_dir config w = (Ok (run, contest), w0) /\ elf = pnames output ["firmware.elf"] /\
    in_repo (repo_path []) (["make"] ++ (if force then ["-B"] else []) ++
      ["-C"; "software"; "PROFILE=" +:+ name] ++ variables) w0 = (Ok command, w1) /\
    bash command (Some 300) false w1 = (Ok result, w2) /\ returncode result = 0 /\
    exists entry segments memory_map,
      parse_elf32_little elf built = (Ok (entry, segments), built) /\
      load_json (repo_path ["data"; "soc"; "memory_map.json"]) built = (Ok memory_map, built) /\
      number_at memory_map ["reset_vector"] entry /\
      exists w3 w4 w5 w6 w7 listed flags kind version report size code_size data_size,
        let asked target w report w' :=
          tool_says (["make"; "-s"; "-C"; "software"; "PROFILE=" +:+ name] ++ variables ++ [target]) w report w' in
        asked "print-sources" built listed w3 /\ asked "print-flags" w3 flags w4 /\
        asked "print-kind" w4 kind w5 /\ tool_says ["riscv64-unknown-elf-gcc"; "--version"] w5 version w6 /\
        tool_says ["riscv64-unknown-elf-size"; source_key (repo_path []) elf] w6 report w7 /\
        parse_size report w7 = (Ok size, w7) /\
        number_at memory_map ["regions"; "CODE"; "size"] code_size /\
        number_at memory_map ["regions"; "DATA"; "size"] data_size /\
        s_text size <= code_size /\ s_data size + s_bss size + 8192 <= data_size /\
        exists w8 w9 profile compiler,
          write_size output name size (code_size, data_size) w7 = (Ok tt, w8) /\
          write_build_manifest output elf name profile (strip kind) compiler (strip flags)
            (filter (fun line => line <> "") (splitlines (strip listed))) entry contest w8 = (Ok tt, w9) /\
          make_images name elf image_dir memory_map w9 = (Ok tt, w').
Proof.
  intros E. unfold build_profile in E. apply bind_ok in E as (profile & w0' & [_ ->]%lift_opt_ok & E).
  apply bind_ok in E as ([run contest] & w0 & Eset & E). cbv iota zeta in E.
  apply bind_ok in E as (u1 & w2' & (command & w1 & result & w2 & Ecmd & Ebash & Hrc & ->)%run_make_ok & E).
  set (built := printed result w2) in *. set (elf0 := pnames _ ["firmware.elf"]) in E.
  rstep E f Ef. rstep E uf Euf. apply bind_ok in E as ([entry segments] & wa & Eelf & E).
  pose proof (Reads_parse_elf _ _ _ _ Eelf) as ->. cbv iota in E.
  apply bind_ok in E as (memory_map & wa & Emap & E). pose proof (Reads_load_json _ _ _ _ Emap) as ->.
  apply bind_ok in E as (u2 & wa & [-> Hreset]%check_entry_ok & E).
  apply bind_ok in E as (l1 & w3 & (listed & -> & E3)%tool_output_ok & E). cbv zeta in E.
  apply bind_ok in E as (l2 & w4 & (flags & -> & E4)%tool_output_ok & E).
  apply bind_ok in E as (l3 & w5 & (kind & -> & E5)%tool_output_ok & E).
  apply bind_ok in E as (version & w6 & E6%run_wsl_ok & E).
  apply bind_ok in E as (compiler & wa & [_ ->]%lift_opt_ok & E).
  apply bind_ok in E as (text & wa & (-> & _ & ->)%relative_text_ok & E).
  apply bind_ok in E as (report & w7 & E7%run_wsl_ok & E).
  apply bind_ok in E as (size & wa & Esize & E). pose proof (Reads_parse_size _ _ _ _ Esize) as ->.
  apply bind_ok in E as ([c d] & wa & (-> & Hc & Hd & Hfc & Hfd)%check_capacity_ok & E).
  apply bind_ok in E as ([] & w8 & E8 & E). apply bind_ok in E as ([] & w9 & E9 & E).
  apply bind_ok in E as ([] & wa & Eim & E). apply ret_ok in E as [[= -> ->] ->].
  exists run, contest, w0, command, w1, result, w2. cbv zeta. fold built.
  split_and!; [exact Eset|reflexivity|exact Ecmd|exact Ebash|exact Hrc|].
  exists entry, segments, memory_map. split_and!; [exact Eelf|exact Emap|exact Hreset|].
  exists w3, w4, w5, w6, w7, listed, flags, kind, version, report, size, c, d.
  split_and!; try done. exists w8, w9, profile, compiler. split_and!; [exact E8|exact E9|exact Eim].
Qed.
End build_facts.

(** *** Instances *)

Definition demo_run : path := Path true ["repo"; "competition_runs"; "r"].
Definition demo_source_manifest : json :=
  JObj [("schema_version", JInt 1); ("kind", JStr "competition_source");
        ("files", JArr [JObj [("path", JStr "source/original/a.c");
                              ("sha256", JStr (sha256_text "int main;"))]])].
Definition demo_run_world : world := demo_world
  [(["repo"; "competition_runs"; "r"; "source"; "original"; "a.c"], "int main;");
   (["repo"; "competition_runs"; "r"; "source"; "source_manifest.json"], dumps demo_source_manifest)]
  [["repo"]; ["repo"; "competition_runs"]; ["repo"; "competition_runs"; "r"];
   ["repo"; "competition_runs"; "r"; "source"];
   ["repo"; "competition_runs"; "r"; "source"; "original"]].

Lemma verify_competition_sources_frozen_witness :
  exists content, read_bytes (H := demo) (pnames demo_run ["source"; "original"; "a.c"]) demo_run_world
    = (Ok content, demo_run_world) /\ sha256_bytes content = sha256_text "int main;".
Proof.
  destruct (verify_competition_sources_frozen (H := demo) demo_run tt demo_run_world demo_run_world)
    as (_ & expected & E & Hf & _); [by_eval|].
  destruct (Hf (pnames demo_run ["source"; "original"; "a.c"])) as (content & Hr & Hg).
  - apply (bool_decide_unpack _). vm_compute. exact I.
  - by_eval.
  - exists content. split; [exact Hr|].
    assert (E' : (declared_sources (H := demo) demo_run demo_run_world).1 =
      Ok [("source/original/a.c", sha256_text "int main;")]) by by_eval.
    rewrite E in E'. injection E' as ->.
    change (source_key demo_run _) with "source/original/a.c" in Hg.
    unfold dict_get in Hg. rewrite String.eqb_refl in Hg. congruence.
Defined.

Definition demo_tools : Host := demo_exec_host ["repo"] (answers
  [("riscv64-unknown-elf-size", Done 0 (join nl ["text data bss dec hex name"; "4 4 8 16 10 f"]) "");
   ("riscv64-unknown-elf-gcc", Done 0 ("gcc 13" +:+ nl) "");
   ("print-sources", Done 0 "a.c" "");
   ("make", Done 0 "" "");
   ("git", Done 0 "" "");
   ("elf2mem", Done 0 "" "")]).
Definition demo_memory_map : json :=
  JObj [("reset_vector", JStr "0x0");
        ("regions", JObj [("CODE", JObj [("base", JStr "0x0"); ("size", JStr "0x1000")]);
                          ("DATA", JObj [("base", JStr "0x1000"); ("size", JStr "0x4000")])])].
Definition demo_cpu : json := JObj [("cpu", JObj [("march", JStr "rv32imac"); ("mabi", JStr "ilp32")])].
Definition demo_build_world : world := demo_world
  [(["repo"; "build"; "software"; "smoke"; "firmware.elf"], of_bytes demo_elf);
   (["repo"; "software"; "a.c"], "int main;");
   (["repo"; "data"; "soc"; "memory_map.json"], dumps demo_memory_map);
   (["repo"; "data"; "soc"; "software_contract.json"], dumps demo_cpu)]
  [["repo"]; ["repo"; "software"]; ["repo"; "data"]; ["repo"; "data"; "soc"]; ["repo"; "build"];
   ["repo"; "build"; "software"]; ["repo"; "build"; "software"; "smoke"]].
Local Notation demo_build := (build_profile (H := demo_tools) "smoke" false None None demo_build_world).

Lemma build_profile_fits_witness : exists memory_map entry segments w1,
  parse_elf32_little (H := demo_tools) (Path true ["repo"; "build"; "software"; "smoke"; "firmware.elf"]) w1
    = (Ok (entry, segments), w1) /\
  number_at memory_map ["reset_vector"] entry.
Proof.
  destruct (build_profile_fits (H := demo_tools) "smoke" false None None
    (Path true ["repo"; "build"; "software"; "smoke"; "firmware.elf"])
    (Path true ["repo"; "build"; "images"; "smoke"]) demo_build_world demo_build.2)
    as (run & contest & w0 & command & w1 & result & w2 & _ & _ & _ & _ & _ & entry & segments & m & Hp & _ & Hn & _);
    [by_eval|].
  exists m, entry, segments, (printed result w2). split; [exact Hp|exact Hn].
Defined.
