(* ===== verification/Verilator.v ===== *)
(** [scripts/run_verilator.py]: the Verilator model is rebuilt when its inputs have
    changed, an image is run on it, and the result the simulator leaves is checked and
    completed. *)
From Stdlib Require Import ZArith Lia.
From S2P Require Import Prelude Str Json Regex Sha256 Py Store Lib Helpers BuildSoftware.
Local Open Scope Z_scope.
Local Open Scope py_scope.

(** ** Tables *)

Definition CPP_SOURCES : list string := [
  "tb/cpp/common/sim_config.cpp";
  "tb/cpp/common/uart_decoder.cpp";
  "tb/cpp/common/uart_checker.cpp";
  "tb/cpp/common/uart_stimulus.cpp";
  "tb/cpp/common/perf_stats.cpp";
  "tb/cpp/common/sim_result.cpp";
  "tb/cpp/common/sim_control.cpp";
  "tb/cpp/difftest/difftest_checker.cpp";
  "tb/cpp/difftest/spike_ref_model.cpp";
  "tb/cpp/adapter/soc_dut_adapter.cpp";
  "tb/cpp/soc_main.cpp"].
Definition MODEL_BUILD_TIMEOUT_SECONDS : Z := 900.
Definition SPIKE_COSIM_SOURCE : string := "build/reference/spike/ibex_cosim/spike_cosim.cc".

Definition DEFAULT_CYCLES : list (string * Z) := [
  ("smoke", 750000); ("trap-timer", 500000); ("rtthread", 6000000); ("coremark-smoke", 50000000);
  ("rtthread-coremark", 30000000); ("contest-rtthread-coremark", 30000000)].

Definition DEFAULT_TESTS : list (string * string) := [
  ("smoke", "baremetal-smoke");
  ("trap-timer", "baremetal-trap-timer");
  ("rtthread", "rtthread-smoke");
  ("coremark-smoke", "coremark-baremetal-functional");
  ("rtthread-coremark", "rtthread-coremark-command");
  ("contest-rtthread-coremark", "contest-rtthread-coremark-command-3")].

Definition BENCHMARK_ITERATIONS : list (string * Z) :=
  [("coremark-smoke", 1); ("rtthread-coremark", 3); ("contest-rtthread-coremark", 3)].

Definition DEFAULT_CHECKERS : list (string * string) := [
  ("smoke", "test-status-and-uart");
  ("trap-timer", "test-status");
  ("rtthread", "test-status-and-uart");
  ("coremark-smoke", "coremark-crc-and-test-status");
  ("rtthread-coremark", "uart-command-coremark-crc-test-status-and-perf-window");
  ("contest-rtthread-coremark", "coremark-crc-test-status-and-perf-window-uart")].

Definition DEFAULT_UART_EXPECT : list (string * list string) := [
  ("smoke", ["SocRV smoke PASS"]);
  ("coremark-smoke", ["Correct operation validated"]);
  ("rtthread", ["Thread Operating System"; "SocRV RT-Thread boot"; "msh >"]);
  ("rtthread-coremark", ["SocRV RT-Thread ready"; "msh >"]);
  ("contest-rtthread-coremark",
   ["SocRV RT-Thread ready"; "msh >"; "thread   pri  status"; "RT-Thread shell help"])].

Definition DEFAULT_UART_REJECT : list (string * list string) := [
  ("coremark-smoke",
   ["ERROR! list crc"; "ERROR! matrix crc"; "ERROR! state crc"; "Errors detected";
    "Cannot validate operation"]);
  ("rtthread-coremark",
   ["ERROR! list crc"; "ERROR! matrix crc"; "ERROR! state crc"; "Cannot validate operation";
    "SocRV CoreMark CRC check FAIL"]);
  ("contest-rtthread-coremark",
   ["ERROR! list crc"; "ERROR! matrix crc"; "ERROR! state crc"; "Cannot validate operation";
    "SocRV CoreMark CRC check FAIL"])].

Definition DIFFTEST_UNAVAILABLE : string :=
  "DiffTest is unavailable for the EH1F integration until a precise " +:+
  "retirement/CSR/memory trace is implemented".

(** [re.sub(r"[^a-zA-Z0-9_.-]+", "_", name)] *)
Definition test_name_char (c : ascii) : bool := is_alnum c || char_in "_.-" c.
Definition safe_test_name (n : string) : string :=
  re_sub (Rep true 1 (fun c => negb (test_name_char c))) "_" n.

Definition model_target (difftest trace : bool) : string :=
  if difftest then "soc-diff" else if trace then "soc-trace" else "soc".

(** [int(v)] for a value of a document; a number with a fraction is cut. *)
Definition float_trunc (l : string) : option Z :=
  let '(mantissa, e) := partition "e" (lower l) in
  let '(whole, fraction) := partition "." mantissa in
  m ← py_int (whole +:+ fraction);
  x ← (if String.eqb e "" then Some 0 else py_int e);
  let k := x - slen fraction in
  Some (if 0 <=? k then m * 10 ^ k else Z.quot m (10 ^ (- k))).
Definition int_of (v : json) : M Z :=
  match v with
  | JInt n => mret n
  | JBool b => mret (if b then 1 else 0)
  | JStr s => int10 s
  | JFloat l => lift_opt ValueError "cannot convert float to integer" (float_trunc l)
  | _ => raise TypeError "int() argument must be a string or a real number"
  end.
(** [a // b] *)
Definition floordiv (a b : Z) : M Z :=
  fail_if (b =? 0) ZeroDivisionError "integer division or modulo by zero" ;;
  mret (a / b).

Record image_run := {
  r_image_dir : path;
  r_test_name : string;
  r_max_cycles : Z;
  r_rebuild_model : bool;
  r_trace : bool;
  r_require_pass : bool;
  r_profile : string;
  r_seed : Z;
  r_performance : bool;
  r_benchmark_iterations : Z;
  r_reproduce : string;
  r_wall_timeout : Z;
  r_uart_command : string;
  r_uart_followup_commands : list string;
  r_uart_prompt : string;
  r_uart_prompt_timeout : Z;
  r_checker : string;
  r_uart_expect : list string;
  r_uart_reject : list string;
  r_difftest : bool;
  r_difftest_mode : string;
  r_difftest_isa : string;
  r_difftest_fault : string;
  r_run_dir : option path;
  r_competition_config : option path
}.

Section verilator.
Context `{Host}.

Definition SPIKE_BUILD_MANIFEST : path :=
  repo_path ["build"; "reference"; "spike"; "build_manifest.json"].

(** The console encodes in UTF-8, where every text can be printed as it is. *)
Definition print_console_safe (value : string) (to_stderr : bool) : M unit :=
  if to_stderr then eprint_end value else print_end value.

(** ** The inputs of the model *)

(** What a line of a file list asks for. *)
Definition filelist_line (raw_line : string) : string := strip (partition "#" raw_line).1.

(** One line of a file list: an included list is collected by [include], a source is
    added to the set, an option is skipped. *)
Definition filelist_step (include : list path -> path -> M (list path)) (seen : list path)
    (raw_line : string) : M (list path) :=
  let line := filelist_line raw_line in
  if String.eqb line "" then mret seen
  else if startswith line "-f " then include seen (repo_file (strip (sdrop 3 line)))
  else if negb (startswith line "-") && negb (startswith line "+") then
    source ← resolve (repo_file line);
    g ← is_file source;
    fail_if (negb g) RuntimeError ("filelist source is missing: " +:+ path_str source) ;;
    mret (if bool_decide (source ∈ seen) then seen else source :: seen)
  else mret seen.

(** The files a file list names, those it includes among them.  [seen] grows as the
    set of the code does; the interpreter stops a recursion deeper than its limit. *)
Fixpoint filelist_aux (depth : nat) (seen : list path) (p : path) {struct depth} : M (list path) :=
  match depth with
  | O => raise RecursionError "maximum recursion depth exceeded"
  | S depth' =>
      q ← resolve p;
      if bool_decide (q ∈ seen) then mret seen else
      f ← is_file q;
      fail_if (negb f) RuntimeError ("filelist input is missing: " +:+ path_str q) ;;
      text ← read_text q;
      fold_m (filelist_step (filelist_aux depth')) (q :: seen) (splitlines text)
  end.
(** A list within another takes one more call of the interpreter's recursion. *)
Definition filelist_inputs (p : path) : M (list path) := filelist_aux host_recursion [] p.

(** What the reference model of a DiffTest build needs. *)
Definition spike_inputs : list path := [
  SPIKE_BUILD_MANIFEST;
  repo_file SPIKE_COSIM_SOURCE;
  repo_path ["build"; "reference"; "spike"; "ibex_cosim"; "spike_cosim.h"];
  repo_path ["build"; "reference"; "spike"; "ibex_cosim"; "cosim.h"];
  repo_path ["sim"; "reference"; "spike"; "dependency.lock.json"];
  repo_path ["sim"; "reference"; "ibex-cosim"; "dependency.lock.json"];
  repo_path ["sim"; "reference"; "ibex-cosim"; "socrv_getters.patch"]].

Definition model_inputs (difftest : bool) : M (list path) :=
  inputs ← filelist_inputs (repo_path ["sim"; "filelists"; "soc_verilator.f"]);
  flags ← resolve (repo_path ["sim"; "verilator"; "common_flags.f"]);
  sources ← map_m (fun relative => resolve (repo_file relative)) CPP_SOURCES;
  found ← rglob (repo_path ["tb"; "cpp"]);
  headers ← map_m resolve (sort_by path_leb (List.filter (fun p => endswith (name p) ".h") found));
  spike ← (if difftest then
             map_m (fun p =>
               f ← is_file p;
               fail_if (negb f) RuntimeError
                 "Spike reference model is missing or stale; run `make difftest-build`" ;;
               resolve p) spike_inputs
           else mret []);
  mret (sort_by path_leb (remove_dups (inputs ++ [flags] ++ sources ++ headers ++ spike))).

Definition verilator_version : M string :=
  command ← in_repo (repo_path []) ["verilator"; "--version"];
  result ← bash command (Some 30) false;
  fail_if (negb (ok result)) RuntimeError "cannot query Verilator version" ;;
  mret (strip (stdout result)).

(** What determines the model, hashed. *)
Definition fingerprint_of (difftest trace : bool) (version : string) (entries : list json) : string :=
  sha256_text (dumps_sorted
    (JObj [("top", JStr "soc_sim_top"); ("difftest", JBool difftest); ("trace", JBool trace);
           ("version", JStr version); ("inputs", JArr entries)])).

Definition desired_model_manifest (difftest trace : bool) : M json :=
  inputs ← model_inputs difftest;
  entries ← map_m file_entry inputs;
  version ← verilator_version;
  mret (JObj [("schema_version", JInt 1); ("kind", JStr "verilator_model_build");
              ("target", JStr (if trace then "soc-trace" else "soc"));
              ("difftest", JBool difftest); ("trace", JBool trace); ("top", JStr "soc_sim_top");
              ("verilator", JStr version);
              ("fingerprint", JStr (fingerprint_of difftest trace version entries));
              ("inputs", JArr entries); ("cpp_sources", JArr (JStr <$> CPP_SOURCES))]).

Definition model_paths (difftest trace : bool) : path * path :=
  let build_root := repo_path ["build"; "verilator"; model_target difftest trace] in
  (pnames build_root ["obj_dir"; "soc_sim"], pnames build_root ["build_manifest.json"]).

Definition model_is_current (desired : json) (difftest trace : bool) : M bool :=
  let '(executable, manifest_path) := model_paths difftest trace in
  e ← is_file executable;
  m ← (if e : bool then is_file manifest_path else mret false);
  if negb m then mret false else
  actual ← try_except (v ← read_json manifest_path; mret (Some v))
             (fun e => is_os_error e || is_value_error e) (fun _ => mret None);
  match actual with
  | None => mret false
  | Some v =>
      a ← get v "fingerprint";
      d ← getitem desired "fingerprint";
      mret (json_eqb a d)
  end.

(** ** Building the model *)

Definition BASE_CFLAGS : string :=
  "-std=c++17 -O2 -I../../../../tb/cpp/common -I../../../../tb/cpp/adapter " +:+
  "-I../../../../tb/cpp/difftest".

(** The additional flags of a build with the Spike reference model. *)
Definition spike_cflags (cflags install_wsl cosim_wsl : string) : string :=
  cflags +:+ " -DSOCRV_ENABLE_SPIKE " +:+
  "-I" +:+ install_wsl +:+ "/include " +:+
  "-I" +:+ install_wsl +:+ "/include/fesvr " +:+
  "-I" +:+ install_wsl +:+ "/include/riscv " +:+
  "-I" +:+ install_wsl +:+ "/include/softfloat " +:+
  "-I" +:+ cosim_wsl.
Definition spike_ldflags (install_wsl : string) : string :=
  "-Wl,-rpath," +:+ install_wsl +:+ "/lib -L" +:+ install_wsl +:+ "/lib " +:+
  "-Wl,--start-group -lriscv -lsoftfloat -ldisasm -lfesvr -lfdt -Wl,--end-group " +:+
  "-lboost_regex -lboost_system -pthread -ldl".

(** The command line; the Spike source goes before the last source. *)
Definition verilator_argv (target : string) (cpp_sources spike_source : list string) (cflags : string)
    (trace : bool) (ldflags : list string) : list string :=
  let n := (List.length cpp_sources - 1)%nat in
  ["verilator"; "-j"; "0"; "-f"; "sim/verilator/common_flags.f"; "--top-module"; "soc_sim_top";
   "-f"; "sim/filelists/soc_verilator.f"] ++
  take n cpp_sources ++ spike_source ++ drop n cpp_sources ++
  ["--Mdir"; "build/verilator/" +:+ target +:+ "/obj_dir"; "-o"; "soc_sim"; "-CFLAGS"; cflags] ++
  (if trace then ["--trace"] else []) ++ ldflags.

Definition build_model (force difftest trace : bool) : M unit :=
  fail_if difftest RuntimeError DIFFTEST_UNAVAILABLE ;;
  desired ← desired_model_manifest difftest trace;
  current ← (if force then mret false else model_is_current desired difftest trace);
  if current : bool then
    print (if difftest then "Verilator DiffTest model is current"
           else if trace then "Verilator trace model is current"
           else "Verilator model is current")
  else
  let target := model_target difftest trace in
  let object_dir := repo_path ["build"; "verilator"; target; "obj_dir"] in
  e ← exists_ object_dir;
  when_ e (rmtree object_dir) ;;
  mkdir_p object_dir ;;
  cpp_sources ← map_m (fun source => to_wsl_path (repo_file source)) CPP_SOURCES;
  spike ← (if difftest then
             spike_cosim_source ← to_wsl_path (repo_file SPIKE_COSIM_SOURCE);
             install_wsl ← to_wsl_path (repo_path ["build"; "reference"; "spike"; "install"]);
             cosim_wsl ← to_wsl_path (repo_path ["build"; "reference"; "spike"; "ibex_cosim"]);
             mret ([spike_cosim_source], spike_cflags BASE_CFLAGS install_wsl cosim_wsl,
                   ["-LDFLAGS"; spike_ldflags install_wsl])
           else mret ([], BASE_CFLAGS, []));
  let '(spike_source, cflags, ldflags) := spike in
  command ← in_repo (repo_path [])
    (verilator_argv target cpp_sources spike_source cflags trace ldflags);
  result ← bash command (Some MODEL_BUILD_TIMEOUT_SECONDS) false;
  print_console_safe (stdout result) false ;;
  when_ (negb (String.eqb (stderr result) "")) (print_console_safe (stderr result) true) ;;
  fail_if (negb (ok result)) RuntimeError "Verilator model build failed" ;;
  let '(executable, manifest_path) := model_paths difftest trace in
  f ← is_file executable;
  fail_if (negb f) RuntimeError "Verilator build produced no executable" ;;
  write_json_atomic manifest_path desired.

Definition ensure_model_current (difftest trace : bool) : M unit :=
  desired ← desired_model_manifest difftest trace;
  current ← model_is_current desired difftest trace;
  fail_if (negb current) RuntimeError
    "Verilator model is missing or stale; rerun without --no-rtl-build".

(** ** Running an image *)

Definition relative_to_repo (p : path) : M string :=
  q ← resolve p;
  root ← resolve (repo_path []);
  relative_text q root.

Definition performance_arguments (enabled : bool) (iterations : Z) : M (list string) :=
  if negb enabled then mret [] else
  contract ← read_json (repo_path ["data"; "soc"; "software_contract.json"]);
  test_status ← getitem contract "test_status";
  start ← (x ← getitem test_status "perf_start_magic"; as_str x);
  stop ← (x ← getitem test_status "perf_stop_magic"; as_str x);
  soc_hz ← text_at contract ["clocks"; "soc_hz"];
  mret ["--perf-start-code"; start; "--perf-stop-code"; stop;
        "--benchmark-iterations"; str_of_Z iterations; "--soc-hz"; soc_hz].

Definition memory_files : list string :=
  ((fun lane => "iccm_lane" +:+ str_of_Z lane +:+ ".mem") <$> seqZ 0 4) ++
  ((fun bank => "dccm_bank" +:+ str_of_Z bank +:+ ".mem") <$> seqZ 0 8).

Fixpoint require_images (image_dir : path) (names : list string) : M unit :=
  match names with
  | [] => mret tt
  | n :: names' =>
      e ← exists_ (pnames image_dir [n]);
      fail_if (negb e) RuntimeError ("image file is missing: " +:+ path_str (pnames image_dir [n])) ;;
      require_images image_dir names'
  end.

(** Where a run puts its result, its log and its waveform. *)
Definition run_paths (selected_run : option path) (safe_name : string) (trace : bool)
    : path * path * option path :=
  match selected_run with
  | Some run =>
      (pnames run ["simulation"; "result.json"], pnames run ["simulation"; "uart.log"],
       if trace then Some (pnames run ["simulation"; "wave.vcd"]) else None)
  | None =>
      (repo_path ["build"; "result"; "soc"; safe_name +:+ ".json"],
       repo_path ["build"; "log"; "soc"; safe_name +:+ ".log"],
       if trace then Some (repo_path ["build"; "wave"; "soc"; safe_name +:+ ".vcd"]) else None)
  end.

Definition difftest_log_path (safe_name : string) : path :=
  repo_path ["build"; "log"; "difftest"; safe_name +:+ ".log"].
Definition difftest_trace_path (safe_name : string) : path :=
  repo_path ["build"; "trace"; "difftest"; safe_name +:+ ".jsonl"].
Definition spike_trace_path (safe_name : string) : path :=
  repo_path ["build"; "trace"; "difftest"; safe_name +:+ ".spike.log"].

(** The directories exist and no result of an earlier run is left. *)
Definition prepare_paths (result_path log_path : path) (wave_path : option path) (safe_name : string)
    (difftest : bool) : M unit :=
  mkdir_p (parent result_path) ;;
  mkdir_p (parent log_path) ;;
  match wave_path with Some p => mkdir_p (parent p) | None => mret tt end ;;
  unlink true result_path ;;
  when_ difftest
    (mkdir_p (parent (difftest_log_path safe_name)) ;;
     mkdir_p (parent (difftest_trace_path safe_name)) ;;
     unlink true (difftest_log_path safe_name) ;;
     unlink true (difftest_trace_path safe_name) ;;
     unlink true (spike_trace_path safe_name)).

Definition json_text_of (s : string) : string := dumps (JStr s).

(** The command line that repeats a run. *)
Definition reproduce_line (o : image_run) (selected_run : option path) : M string :=
  run_text ← match selected_run with
             | Some run => t ← relative_to_repo run; mret (" --run-dir " +:+ t)
             | None => mret ""
             end;
  config_text ← match r_competition_config o with
                | Some c => t ← relative_to_repo c; mret (" --competition-config " +:+ json_text_of t)
                | None => mret ""
                end;
  let on (b : bool) (s : string) := if b then s else "" in
  let given (s : string) := negb (String.eqb s "") in
  mret ("python -B scripts/run_verilator.py --profile " +:+ r_profile o +:+ " " +:+
    "--test " +:+ r_test_name o +:+ " --max-cycles " +:+ str_of_Z (r_max_cycles o) +:+ " " +:+
    "--no-rtl-build --no-software-build" +:+
    on (negb (r_seed o =? 1)) (" --seed " +:+ str_of_Z (r_seed o)) +:+
    run_text +:+ config_text +:+
    on (r_performance o) (" --benchmark-iterations " +:+ str_of_Z (r_benchmark_iterations o)) +:+
    on (given (r_difftest_fault o)) (" --difftest-fault " +:+ r_difftest_fault o) +:+
    on (given (r_uart_command o))
      (" --uart-command " +:+ json_text_of (r_uart_command o) +:+
       " --uart-prompt " +:+ json_text_of (r_uart_prompt o) +:+
       " --uart-prompt-timeout " +:+ str_of_Z (r_uart_prompt_timeout o) +:+
       join "" ((fun f => " --uart-followup-command " +:+ json_text_of f) <$> r_uart_followup_commands o)) +:+
    " --checker " +:+ r_checker o +:+
    join "" ((fun e => " --uart-expect " +:+ json_text_of e) <$> r_uart_expect o) +:+
    join "" ((fun e => " --uart-reject " +:+ json_text_of e) <$> r_uart_reject o) +:+
    on (negb (r_wall_timeout o =? 600)) (" --wall-timeout " +:+ str_of_Z (r_wall_timeout o)) +:+
    on (r_trace o) " --trace" +:+
    on (r_difftest o)
      (" --difftest --difftest-mode " +:+ r_difftest_mode o +:+
       on (given (r_difftest_isa o)) (" --difftest-isa " +:+ r_difftest_isa o))).

(** [name,base,size,kind,file] for a region of the memory map *)
Definition difftest_region (memory_map : json) (n kind_ file : string) : M (list string) :=
  b ← (x ← getpath memory_map ["regions"; n; "base"]; as_str x);
  s ← (x ← getpath memory_map ["regions"; n; "size"]; as_str x);
  mret ["--difftest-region"; join "," [n; b; s; kind_; file]].

(** The last entry of a name wins. *)
Fixpoint image_region (n : string) (regions : list json) (found : option json) : M (option json) :=
  match regions with
  | [] => mret found
  | region :: regions' =>
      k ← getitem region "name";
      image_region n regions' (if json_eqb k (JStr n) then Some region else found)
  end.

Definition ram_region (memory_map : json) (image_regions : list json) (n : string) : M (list string) :=
  _ ← getpath memory_map ["regions"; n];
  found ← image_region n image_regions None;
  region ← lift_opt KeyError (repr_str n) found;
  file ← (x ← getitem region "file"; as_str x);
  difftest_region memory_map n "ram" file.

Definition difftest_arguments (o : image_run) (safe_name : string) : M (list string) :=
  image ← read_json (pnames (r_image_dir o) ["image.json"]);
  memory_map ← read_json (repo_path ["data"; "soc"; "memory_map.json"]);
  spike_manifest ← read_json SPIKE_BUILD_MANIFEST;
  selected_isa ← (if String.eqb (r_difftest_isa o) ""
                  then x ← getpath image ["isa"; "march"]; as_str x else mret (r_difftest_isa o));
  spike_commit ← (x ← getpath spike_manifest ["spike"; "commit"]; as_str x);
  log_text ← relative_to_repo (difftest_log_path safe_name);
  trace_text ← relative_to_repo (difftest_trace_path safe_name);
  reset_vector ← (x ← getitem memory_map "reset_vector"; as_str x);
  reference ← (if r_trace o then t ← relative_to_repo (spike_trace_path safe_name);
                                 mret ["--difftest-reference-trace"; t]
               else mret []);
  image_regions ← (x ← getitem image "regions"; items_of x);
  ram ← map_m (ram_region memory_map image_regions) ["CODE"; "DATA"];
  mmio ← map_m (fun n => difftest_region memory_map n "mmio" "-")
           (["SYSCTRL"] ++ (if String.eqb (r_difftest_mode o) "soc-mmio"
                            then ["TIMER"; "UART"; "GPIO"] else []));
  mret (["--difftest"; "--difftest-backend"; "spike"; "--difftest-backend-version"; spike_commit;
         "--difftest-mode"; r_difftest_mode o; "--difftest-isa"; selected_isa;
         "--difftest-log"; log_text; "--difftest-trace"; trace_text;
         "--difftest-reset-pc"; reset_vector; "--difftest-reset-mtvec"; reset_vector] ++
        reference ++ concat ram ++ concat mmio ++
        (if String.eqb (r_difftest_fault o) "" then [] else ["--difftest-fault"; r_difftest_fault o])).

Definition image_arguments (image_dir : path) : M (list string) :=
  map_m (fun n => t ← relative_to_repo (pnames image_dir [n]);
                  mret ("+" +:+ stem (parse_path n) +:+ "=" +:+ t)) memory_files.

Definition cycles_per_bit : M Z :=
  contract ← read_json (repo_path ["data"; "soc"; "software_contract.json"]);
  soc_hz ← (x ← getpath contract ["clocks"; "soc_hz"]; int_of x);
  baud ← (x ← getpath contract ["clocks"; "uart_baud"]; int_of x);
  floordiv soc_hz baud.

(** The command line of the simulator. *)
Definition simulation_argv (o : image_run) (executable result_path log_path : path)
    (wave_path : option path) (safe_name reproduce : string) : M (list string) :=
  exe ← relative_to_repo executable;
  images ← image_arguments (r_image_dir o);
  result_text ← relative_to_repo result_path;
  log_text ← relative_to_repo log_path;
  manifest_text ← relative_to_repo (pnames (r_image_dir o) ["image.json"]);
  perf ← performance_arguments (r_performance o) (r_benchmark_iterations o);
  diff ← (if r_difftest o then difftest_arguments o safe_name else mret []);
  bit ← cycles_per_bit;
  wave ← match wave_path with
         | Some p => t ← relative_to_repo p; mret ["--trace"; t]
         | None => mret []
         end;
  mret ([exe] ++ images ++
    ["--test"; r_test_name o; "--profile"; r_profile o; "--seed"; str_of_Z (r_seed o);
     "--max-cycles"; str_of_Z (r_max_cycles o); "--result"; result_text; "--log"; log_text;
     "--image-manifest"; manifest_text; "--reproduce"; reproduce; "--checker"; r_checker o] ++
    perf ++ diff ++
    concat ((fun e => ["--uart-expect"; e]) <$> r_uart_expect o) ++
    concat ((fun e => ["--uart-reject"; e]) <$> r_uart_reject o) ++
    ["--uart-cycles-per-bit"; str_of_Z bit] ++
    (if String.eqb (r_uart_command o) "" then [] else
       ["--uart-command"; r_uart_command o +:+ nl; "--uart-prompt"; r_uart_prompt o;
        "--uart-prompt-timeout"; str_of_Z (r_uart_prompt_timeout o)] ++
       concat ((fun f => ["--uart-followup-command"; f +:+ nl]) <$> r_uart_followup_commands o)) ++
    wave).

(** The simulator has run: its log is kept, and its result is completed and checked. *)
Definition finish_run (o : image_run) (result_path log_path : path) (reproduce : string)
    (result : CommandResult) : M path :=
  manifest_text ← relative_to_repo (pnames (r_image_dir o) ["image.json"]);
  write_text log_path
    ("COMMAND: " +:+ reproduce +:+ nl +:+ "IMAGE: " +:+ manifest_text +:+ nl +:+
     "SEED: " +:+ str_of_Z (r_seed o) +:+ nl +:+ nl +:+ stdout result +:+ stderr result) ;;
  print_console_safe (stdout result) false ;;
  when_ (negb (String.eqb (stderr result) "")) (print_console_safe (stderr result) true) ;;
  f ← is_file result_path;
  fail_if (negb f) RuntimeError
    ("simulation produced no result (exit " +:+ str_of_Z (returncode result) +:+ "); see " +:+
     path_str log_path) ;;
  document0 ← read_json result_path;
  digest ← sha256_file (pnames (r_image_dir o) ["image.json"]);
  document ← set_path document0 "image_manifest_sha256" [] (JStr digest);
  schema ← read_json (repo_path ["data"; "schemas"; "result.schema.json"]);
  validate schema document ;;
  write_json_atomic result_path document ;;
  status ← getitem document "status";
  let pass := json_eqb status (JStr "PASS") in
  fail_if (negb (Bool.eqb pass (returncode result =? 0))) RuntimeError
    "simulation JSON status and process exit code disagree" ;;
  when_ (r_require_pass o && negb pass)
    (reason ← text_at document ["exit_reason"];
     raise RuntimeError ("simulation " +:+ str_json status +:+ ": " +:+ reason +:+ "; see " +:+
                         path_str log_path)) ;;
  mret result_path.

Definition run_image (o : image_run) : M path :=
  fail_if (r_difftest o) RuntimeError DIFFTEST_UNAVAILABLE ;;
  (if r_rebuild_model o then build_model false (r_difftest o) (r_trace o)
   else ensure_model_current (r_difftest o) (r_trace o)) ;;
  let executable := (model_paths (r_difftest o) (r_trace o)).1 in
  require_images (r_image_dir o) (memory_files ++ ["image.json"]) ;;
  let safe_name := safe_test_name (r_test_name o) +:+ (if r_difftest o then "-diff" else "") in
  selected_run ← match r_run_dir o with
                 | Some p => q ← resolve_run_dir p; mret (Some q)
                 | None => mret None
                 end;
  let '(result_path, log_path, wave_path) := run_paths selected_run safe_name (r_trace o) in
  prepare_paths result_path log_path wave_path safe_name (r_difftest o) ;;
  reproduce ← (if String.eqb (r_reproduce o) "" then reproduce_line o selected_run
               else mret (r_reproduce o));
  av ← simulation_argv o executable result_path log_path wave_path safe_name reproduce;
  command ← in_repo (repo_path []) av;
  result ← bash command (Some (r_wall_timeout o)) false;
  finish_run o result_path log_path reproduce result.

Record profile_run := {
  p_profile : string;
  p_test_name : string;
  p_max_cycles : Z;
  p_rebuild_model : bool;
  p_build_sw : bool;
  p_trace : bool;
  p_seed : Z;
  p_performance : option bool;
  p_benchmark_iterations : option Z;
  p_wall_timeout : Z;
  p_require_pass : bool;
  p_uart_command : string;
  p_uart_followup_commands : list string;
  p_uart_prompt : string;
  p_uart_prompt_timeout : Z;
  p_checker : string;
  p_uart_expect : option (list string);
  p_uart_reject : option (list string);
  p_difftest : bool;
  p_difftest_mode : string;
  p_difftest_isa : string;
  p_difftest_fault : string;
  p_run_dir : option path;
  p_competition_config : option path
}.

(** The image run of a profile, with the profile's defaults filled in. *)
Definition profile_image_run (o : profile_run) (image_dir : path) (selected_run : option path) : image_run := {|
  r_image_dir := image_dir;
  r_test_name := p_test_name o;
  r_max_cycles := p_max_cycles o;
  r_rebuild_model := p_rebuild_model o;
  r_trace := p_trace o;
  r_require_pass := p_require_pass o;
  r_profile := p_profile o;
  r_seed := p_seed o;
  r_performance := default (dict_mem (p_profile o) BENCHMARK_ITERATIONS) (p_performance o);
  r_benchmark_iterations :=
    default (default 0 (dict_get (p_profile o) BENCHMARK_ITERATIONS)) (p_benchmark_iterations o);
  r_reproduce := "";
  r_wall_timeout := p_wall_timeout o;
  r_uart_command := p_uart_command o;
  r_uart_followup_commands := p_uart_followup_commands o;
  r_uart_prompt := p_uart_prompt o;
  r_uart_prompt_timeout := p_uart_prompt_timeout o;
  r_checker := if String.eqb (p_checker o) ""
               then default "test-status" (dict_get (p_profile o) DEFAULT_CHECKERS)
               else p_checker o;
  r_uart_expect := default (default [] (dict_get (p_profile o) DEFAULT_UART_EXPECT)) (p_uart_expect o);
  r_uart_reject := default (default [] (dict_get (p_profile o) DEFAULT_UART_REJECT)) (p_uart_reject o);
  r_difftest := p_difftest o;
  r_difftest_mode := p_difftest_mode o;
  r_difftest_isa := p_difftest_isa o;
  r_difftest_fault := p_difftest_fault o;
  r_run_dir := selected_run;
  r_competition_config := p_competition_config o
|}.

Definition run_profile (o : profile_run) : M path :=
  selected_run ← match p_run_dir o with
                 | Some p => q ← resolve_run_dir p; mret (Some q)
                 | None => mret None
                 end;
  image_dir ← (if p_build_sw o then
                 '(_, image_dir) ← build_profile (p_profile o) false selected_run (p_competition_config o);
                 mret image_dir
               else match selected_run with
                    | Some run => mret (pnames run ["images"])
                    | None => mret (repo_path ["build"; "images"; p_profile o])
                    end);
  run_image (profile_image_run o image_dir selected_run).

Record args := {
  a_profile : string;
  a_test : option string;
  a_max_cycles : option Z;
  a_seed : Z;
  a_benchmark_iterations : option Z;
  a_uart_command : option string;
  a_uart_followup_command : option (list string);
  a_uart_prompt : option string;
  a_uart_prompt_timeout : Z;
  a_checker : option string;
  a_uart_expect : option (list string);
  a_uart_reject : option (list string);
  a_wall_timeout : Z;
  a_no_rtl_build : bool;
  a_no_software_build : bool;
  a_run_dir : option path;
  a_competition_config : option path;
  a_trace : bool;
  a_build_only : bool;
  a_force_rtl_build : bool;
  a_difftest : bool;
  a_difftest_mode : string;
  a_difftest_isa : option string;
  a_difftest_fault : option string
}.

(** [x or d] for an optional string *)
Definition or_else (x : option string) (d : string) : string :=
  match x with Some s => if String.eqb s "" then d else s | None => d end.
Definition coremark_profile (n : string) : bool :=
  String.eqb n "rtthread-coremark" || String.eqb n contest_profile.

(** The profile run that the command line asks for. *)
Definition requested_run (a : args) : M profile_run :=
  let test_name := or_else (a_test a) (default (a_profile a +:+ "-run") (dict_get (a_profile a) DEFAULT_TESTS)) in
  let benchmark_iterations :=
    default (default 0 (dict_get (a_profile a) BENCHMARK_ITERATIONS)) (a_benchmark_iterations a) in
  let max_cycles :=
    match a_max_cycles a with
    | None => if coremark_profile (a_profile a) then Some (24000000 + 1000000 * benchmark_iterations)
              else None
    | Some n => Some n
    end in
  let uart_command :=
    or_else (a_uart_command a)
      (if coremark_profile (a_profile a) then "coremark " +:+ str_of_Z benchmark_iterations else "") in
  let contest := String.eqb (a_profile a) contest_profile in
  let uart_followup_commands :=
    match a_uart_followup_command a with
    | Some l => l
    | None => if contest then ["ps"; "help"] else []
    end in
  let uart_prompt := or_else (a_uart_prompt a) (if contest then ">" else "msh >") in
  cycles ← match max_cycles with
           | Some n => if n =? 0 then lift_opt KeyError (repr_str (a_profile a)) (dict_get (a_profile a) DEFAULT_CYCLES)
                       else mret n
           | None => lift_opt KeyError (repr_str (a_profile a)) (dict_get (a_profile a) DEFAULT_CYCLES)
           end;
  mret {|
    p_profile := a_profile a;
    p_test_name := test_name;
    p_max_cycles := cycles;
    p_rebuild_model := negb (a_no_rtl_build a);
    p_build_sw := negb (a_no_software_build a);
    p_trace := a_trace a;
    p_seed := a_seed a;
    p_performance := None;
    p_benchmark_iterations := Some benchmark_iterations;
    p_wall_timeout := a_wall_timeout a;
    p_require_pass := true;
    p_uart_command := uart_command;
    p_uart_followup_commands := uart_followup_commands;
    p_uart_prompt := uart_prompt;
    p_uart_prompt_timeout := a_uart_prompt_timeout a;
    p_checker := default "" (a_checker a);
    p_uart_expect := a_uart_expect a;
    p_uart_reject := a_uart_reject a;
    p_difftest := a_difftest a;
    p_difftest_mode := a_difftest_mode a;
    p_difftest_isa := default "" (a_difftest_isa a);
    p_difftest_fault := default "" (a_difftest_fault a);
    p_run_dir := a_run_dir a;
    p_competition_config := a_competition_config a
  |}.

Definition main (a : args) : M Z :=
  result ← or_usage_error is_usual_error
    (if a_build_only a then
       build_model (a_force_rtl_build a) (a_difftest a) (a_trace a) ;;
       mret None
     else if negb (dict_mem (a_profile a) DEFAULT_CYCLES) && bool_decide (a_max_cycles a = None) then
       parser_error ("profile " +:+ a_profile a +:+ " is build-only unless --max-cycles is supplied")
     else
       o ← requested_run a;
       p ← run_profile o;
       mret (Some p));
  match result with
  | None => mret 0
  | Some result_path => print ("Result: " +:+ path_str result_path) ;; mret 0
  end.
End verilator.


(** ** Names of tests *)

Lemma contains_char c s : sforall (fun d => negb (Ascii.eqb c d)) s = true -> contains (ch c) s = false.
Proof.
  unfold contains. induction s as [|d s IH]; [done|]. intros Hs. simpl in Hs. bool_props.
  cbn [find ch String.prefix]. destruct (Ascii.ascii_dec c d) as [->|Hne].
  { by rewrite Ascii.eqb_refl in H. }
  specialize (IH H0). by destruct (find (ch c) s).
Qed.

(** Whatever name a test has, [safe_test_name] is a plain file name: every
    character is a letter, a digit or one of [_.-], so it cannot hold a separator;
    a name that is plain already is kept as it is. *)
Theorem safe_test_name_plain n :
  sforall test_name_char (safe_test_name n) = true /\
  contains "/" (safe_test_name n) = false /\
  (sforall test_name_char n = true -> safe_test_name n = n).
Proof.
  assert (Hn : sforall test_name_char (safe_test_name n) = true).
  { eapply sforall_impl; [|unfold safe_test_name; apply re_sub_class; reflexivity].
    intros c. cbv beta. by rewrite negb_involutive. }
  split_and!; [done| |].
  - apply (contains_char "/"). eapply sforall_impl; [|exact Hn]. intros c Hc.
    destruct (Ascii.eqb "/" c) eqn:E; [|done]. apply Ascii.eqb_eq in E. by subst.
  - intros Hp. apply re_sub_class_id. eapply sforall_impl; [|exact Hp].
    intros c Hc. cbv beta. by rewrite negb_involutive.
Qed.

(** ** File lists *)

Section filelists.
Context `{Host}.

(** The list that a line of a file list includes, and the source that it names. *)
Definition line_include (raw_line : string) : option path :=
  let line := filelist_line raw_line in
  if startswith line "-f " then Some (repo_file (strip (sdrop 3 line))) else None.
Definition line_source (raw_line : string) : option path :=
  let line := filelist_line raw_line in
  if String.eqb line "" || startswith line "-" || startswith line "+" then None else Some (repo_file line).

(** The lists that [p] includes, itself, directly or through others. *)
Inductive included (w : world) (p : path) : path -> Prop :=
  | included_self : included w p p
  | included_line q text raw target :
      included w p q -> read_text q w = (Ok text, w) -> raw ∈ splitlines text ->
      line_include raw = Some target -> included w p (Path true (canon w target)).

(** A line of [q] names the source [x]. *)
Definition names_source (w : world) (q x : path) : Prop :=
  exists text raw target, read_text q w = (Ok text, w) /\ raw ∈ splitlines text /\
    line_source raw = Some target /\ x = Path true (canon w target).
Definition sourced (w : world) (p x : path) : Prop := exists q, included w p q /\ names_source w q x.

(** [x] is the list [p], a list that it includes, or a source that one of them names. *)
Definition listed (w : world) (p x : path) : Prop := included w p x \/ sourced w p x.

Lemma included_trans w p q x : included w p q -> included w q x -> included w p x.
Proof. intros Hq Hx. induction Hx; [done|]. by eapply included_line. Qed.

Lemma sourced_trans w p q x : included w p q -> sourced w q x -> sourced w p x.
Proof. intros Hq (q' & Hq' & Hx). exists q'. split; [by eapply included_trans|done]. Qed.

(** What a line names: an included list or a source. *)
Definition line_target (w : world) (raw : string) (x : path) : Prop :=
  exists target, (line_include raw = Some target \/ line_source raw = Some target) /\ x = Path true (canon w target).

(** Everything that the list [x] names is in [files]. *)
Definition closed_in (w : world) (files : list path) (x : path) : Prop :=
  forall text raw y, read_text x w = (Ok text, w) -> raw ∈ splitlines text -> line_target w raw y -> y ∈ files.

(** The result of collecting from [seen] on: what is new is a list whose names are all there, or a
    source; and [T] is there. *)
Definition collected (w : world) (from : path) (T : path -> Prop) (seen : list path) (r : result (list path)) : Prop :=
  match r with
  | Ok seen' => file_set w seen' /\ seen ⊆ seen' /\ (length seen <= length seen')%nat /\
      (forall x, x ∈ seen' -> x ∈ seen \/ (included w from x /\ closed_in w seen' x) \/ sourced w from x) /\
      forall x, T x -> x ∈ seen'
  | Raise e => is_recursion_error e = true -> (host_recursion <= base.size (w_fs w))%nat
  end.

Lemma collected_refl w from T seen : file_set w seen -> (forall x, T x -> x ∈ seen) ->
  collected w from T seen (Ok seen).
Proof. intros Hs HT. split_and!; [done|done|lia|by intros x Hx; left|done]. Qed.

Lemma closed_in_mono w l l' x : l ⊆ l' -> closed_in w l x -> closed_in w l' x.
Proof. intros Hl Hc text raw y Ht Hr Hy. by eapply Hl, Hc. Qed.

Lemma collected_trans w from T1 T2 seen1 seen2 r : collected w from T1 seen1 (Ok seen2) ->
  collected w from T2 seen2 r -> collected w from (fun x => T1 x \/ T2 x) seen1 r.
Proof.
  intros (_ & Hs1 & Hl1 & Hx1 & Ht1) H2. destruct r as [seen3|e]; [|done].
  destruct H2 as (Hf & Hs2 & Hl2 & Hx2 & Ht2). split_and!; [done|set_solver|lia| |].
  - intros x Hx. apply Hx2 in Hx as [Hx|Hx]; [|by right].
    apply Hx1 in Hx as [Hx|[[Hi Hc]|Hx]]; [by left|right; left|by right; right].
    split; [done|by eapply closed_in_mono].
  - intros x [Hx|Hx]; [by apply Hs2, Ht1|by apply Ht2].
Qed.

Lemma collected_weaken w from (T T' : path -> Prop) seen r : (forall x, T' x -> T x) ->
  collected w from T seen r -> collected w from T' seen r.
Proof. intros HT. destruct r as [l|e]; [|done]. intros (? & ? & ? & ? & Ht). split_and!; auto. Qed.

(** What an included list collects is collected for the list that includes it. *)
Lemma collected_from w from from' T seen r : included w from from' -> collected w from' T seen r ->
  collected w from T seen r.
Proof.
  intros Hf. destruct r as [l|e]; [|done]. intros (? & ? & ? & Hx & ?). split_and!; try done.
  intros x Hin. apply Hx in Hin as [Hin|[[Hi Hc]|Hin]]; [by left|right; left|right; right].
  - split; [by eapply included_trans|done].
  - by eapply sourced_trans.
Qed.

(** A loop that collects what every step names. *)
Lemma fold_m_collects {A} w from (T : A -> path -> Prop) (f : list path -> A -> M (list path)) (l : list A) seen n :
  (forall x seen, x ∈ l -> file_set w seen -> (n <= length seen)%nat ->
     exists r, f seen x w = (r, w) /\ collected w from (T x) seen r) ->
  file_set w seen -> (n <= length seen)%nat ->
  exists r, fold_m f seen l w = (r, w) /\ collected w from (fun y => exists x, x ∈ l /\ T x y) seen r.
Proof.
  revert seen. induction l as [|x l IH]; intros seen Hf Hs Hn; cbn [fold_m].
  { exists (Ok seen). split; [done|]. apply collected_refl; [done|]. by intros y (x & Hx%elem_of_nil & _). }
  destruct (Hf x seen) as (r & Hr & Hc); [left|done|done|].
  destruct r as [seen2|e]; [|exists (Raise e); by rewrite (bind_raise_eq _ _ _ _ _ Hr)].
  rewrite (bind_ok_eq _ _ _ _ _ Hr). pose proof Hc as (Hs2 & _ & Hl & _).
  destruct (IH seen2) as (r & Hr2 & Hc2); [|done|lia|].
  { intros y seen' Hy. apply Hf. by right. }
  exists r. split; [done|]. eapply collected_weaken; [|by eapply collected_trans].
  intros y (x' & [->|Hx']%elem_of_cons & Hy); [by left|right; by exists x'].
Qed.

Lemma add_source w seen q text raw target : links_resolve w -> file_set w seen ->
  read_text q w = (Ok text, w) -> raw ∈ splitlines text ->
  line_source raw = Some target -> is_file_at w (Path true (canon w target)) = true ->
  collected w q (eq (Path true (canon w target))) seen
    (Ok (if bool_decide (Path true (canon w target) ∈ seen) then seen else Path true (canon w target) :: seen)).
Proof.
  intros Hl Hs Ht Hr Htg Hf. case_bool_decide as Hin; [apply collected_refl; [done|by intros x <-]|].
  split_and!; [by apply file_set_add|set_solver|simpl; lia| |by intros x <-; left].
  intros x [->|Hx]%elem_of_cons; [|by left]. right. right. exists q. split; [constructor|by eexists _, _, _].
Qed.

(** The kinds of lines. *)
Lemma startswith_dash line : startswith line "-f " = true -> startswith line "-" = true /\ line <> "".
Proof.
  destruct line as [|c line]; [done|]. unfold startswith. cbn [String.prefix].
  destruct (Ascii.ascii_dec "-" c); [|done]. intros _. split; [by destruct line|done].
Qed.

Lemma no_target w raw : line_include raw = None -> line_source raw = None -> forall x, ~ line_target w raw x.
Proof. intros Hi Hs x (t & [Ht|Ht] & _); congruence. Qed.

Lemma filelist_step_collects w include q text raw seen : links_resolve w -> file_set w seen ->
  read_text q w = (Ok text, w) -> raw ∈ splitlines text ->
  (forall p, exists r, include seen p w = (r, w) /\
     collected w (Path true (canon w p)) (eq (Path true (canon w p))) seen r) ->
  exists r, filelist_step include seen raw w = (r, w) /\ collected w q (line_target w raw) seen r.
Proof.
  intros Hl Hs Ht Hraw Hi. unfold filelist_step.
  pose proof (eq_refl (line_include raw)) as Hin. unfold line_include in Hin at 2.
  pose proof (eq_refl (line_source raw)) as Hso. unfold line_source in Hso at 2. cbv zeta in *.
  assert (Hskip : line_include raw = None -> line_source raw = None ->
    exists r, (mret seen : M _) w = (r, w) /\ collected w q (line_target w raw) seen r).
  { intros E1 E2. exists (Ok seen). split; [done|]. apply collected_refl; [done|].
    intros x Hx. by apply (no_target w raw) in Hx. }
  destruct (String.eqb (filelist_line raw) "") eqn:E0.
  { apply String.eqb_eq in E0. rewrite E0 in Hin, Hso. by apply Hskip. }
  destruct (startswith (filelist_line raw) "-f ") eqn:Ef.
  - apply startswith_dash in Ef as [Ed _]. rewrite Ed in Hso. cbn [orb] in Hso.
    destruct (Hi (repo_file (strip (sdrop 3 (filelist_line raw))))) as (r & Hr & Hc).
    exists r. split; [done|]. eapply collected_weaken; [|eapply collected_from; [|exact Hc]].
    + intros x (t & [E|E] & ->); congruence.
    + eapply included_line; [constructor|done|done|done].
  - destruct (startswith (filelist_line raw) "-"); [by apply Hskip|].
    destruct (startswith (filelist_line raw) "+"); [by apply Hskip|]. cbn [negb andb orb] in *.
    set (source := Path true (canon w (repo_file (filelist_line raw)))).
    rewrite (bind_ok_eq _ _ source w w) by done. cbv beta.
    rewrite (bind_ok_eq _ _ (is_file_at w source) w w) by done. cbv beta.
    destruct (is_file_at w source) eqn:Hsf; cbn [negb]; [|by eexists (Raise _)].
    rewrite (bind_ok_eq _ _ tt w w) by done. eexists (Ok _). split; [reflexivity|].
    eapply collected_weaken; [|by eapply add_source]. intros x (t & [E|E] & ->); congruence.
Qed.

Lemma filelist_aux_collects w : links_resolve w -> forall depth seen p,
  file_set w seen -> (host_recursion <= depth + length seen)%nat ->
  exists r, filelist_aux depth seen p w = (r, w) /\
    collected w (Path true (canon w p)) (eq (Path true (canon w p))) seen r.
Proof.
  intros Hl. induction depth as [|depth IH]; intros seen p Hs Hd.
  { apply file_set_size in Hs. eexists (Raise _). split; [done|]. intros _. lia. }
  cbn [filelist_aux]. rewrite (bind_ok_eq _ _ (Path true (canon w p)) w w) by done. cbv beta.
  set (q := Path true (canon w p)). case_bool_decide as Hq.
  { exists (Ok seen). split; [done|]. apply collected_refl; [done|by intros x <-]. }
  rewrite (bind_ok_eq _ _ (is_file_at w q) w w) by done. cbv beta.
  destruct (is_file_at w q) eqn:Hf; cbn [negb]; [|by eexists (Raise _)].
  rewrite (bind_ok_eq _ _ tt w w) by done. cbv beta.
  destruct (read_text q w) as [[text|e] w1] eqn:Et; pose proof (read_text_state _ _ _ _ Et) as ->.
  2: { exists (Raise e). rewrite (bind_raise_eq _ _ _ _ _ Et). split; [done|].
       apply read_text_no_recursion in Et. intros Hr. congruence. }
  rewrite (bind_ok_eq _ _ _ _ _ Et). cbv beta.
  assert (Hs1 : file_set w (q :: seen)) by by apply file_set_add.
  destruct (fold_m_collects w q (line_target w) (filelist_step (filelist_aux depth)) (splitlines text) (q :: seen)
    (length (q :: seen))) as (r & Hr & Hc); [|done|done|].
  { intros raw seen' Hraw Hs' Hn'. cbn [length] in Hn'.
    eapply filelist_step_collects; try done. intros p'. apply IH; [done|lia]. }
  exists r. split; [done|]. destruct r as [seen'|e]; [|done].
  destruct Hc as (Hs' & Hsub & Hlen & Hx & HT). simpl in Hlen.
  split_and!; [done|set_solver|lia| |intros x <-; apply Hsub; left].
  intros x Hin. apply Hx in Hin as [[->|Hin]%elem_of_cons|Hin]; [right; left|by left|by right].
  split; [constructor|]. intros text' raw y Et' Hraw Hy. rewrite Et in Et'. injection Et' as <-.
  apply HT. by exists raw.
Qed.

(** C24: [filelist_inputs] ends whatever the file lists include, themselves among others, and
    changes nothing.  It raises a [RecursionError] only if the store has as many files as the
    interpreter's recursion goes deep.  When it returns, the set holds, each once and all of them
    regular files, what the list stands for and nothing else: the list, the lists it includes
    directly or through others, and the sources they name (everything of this is there unless a
    list is also named as a source, when its own lines may be left out).  The links of the store
    are assumed to lead to the same place however often they are resolved. *)
Theorem filelist_inputs_total w p : links_resolve w ->
  let start := Path true (canon w p) in
  exists r, filelist_inputs p w = (r, w) /\
  match r with
  | Ok files => NoDup files /\ (forall x, x ∈ files -> is_file_at w x = true /\ listed w start x) /\
      ((forall x, included w start x -> ~ sourced w start x) -> forall x, listed w start x -> x ∈ files)
  | Raise e => is_recursion_error e = true -> (host_recursion <= base.size (w_fs w))%nat
  end.
Proof.
  intros Hl. cbv zeta. unfold filelist_inputs.
  destruct (filelist_aux_collects w Hl host_recursion [] p) as (r & Hr & Hc).
  { constructor; [constructor|]. intros q Hq. by apply elem_of_nil in Hq. }
  { rewrite Nat.add_0_r. done. }
  exists r. split; [done|]. destruct r as [files|e]; [|done]. destruct Hc as (Hs & _ & _ & Hx & HT).
  assert (Hnew : forall x, x ∈ files -> included w (Path true (canon w p)) x /\ closed_in w files x \/
    sourced w (Path true (canon w p)) x).
  { intros x Hin. apply Hx in Hin as [Hn|Hn]; [by apply elem_of_nil in Hn|done]. }
  split_and!; [apply Hs| |].
  - intros x Hin. split; [by apply Hs|]. apply Hnew in Hin as [[Hi _]|Hi]; [by left|by right].
  - intros Hap. assert (Hinc : forall x, included w (Path true (canon w p)) x -> x ∈ files /\ closed_in w files x).
    { assert (Hc : forall x, included w (Path true (canon w p)) x -> x ∈ files -> closed_in w files x).
      { intros x Hi Hin. apply Hnew in Hin as [[_ Hc]|Hso]; [done|]. by apply Hap in Hi. }
      intros x Hi. induction Hi as [|q text raw target Hi [Hin Hcl] Ht Hraw Htg].
      { split; [by apply HT|apply Hc; [constructor|by apply HT]]. }
      assert (Hin' : Path true (canon w target) ∈ files)
        by (eapply Hcl; [done|done|exists target; by split; [left|]]).
      split; [done|]. apply Hc; [by eapply included_line|done]. }
    intros x [Hi|(q & Hi & text & raw & target & Ht & Hraw & Htg & ->)]; [by apply Hinc|].
    apply Hinc in Hi as [_ Hcl]. eapply Hcl; [done|done|]. exists target. by split; [right|].
Qed.
End filelists.

(** ** The result of a run *)

Section runs.
Context `{Host}.

Lemma Reads_relative_to_repo p : Reads (relative_to_repo p).
Proof. unfold relative_to_repo. solve_reads. Qed.
Lemma Reads_resolve_run_dir p : Reads (resolve_run_dir p).
Proof. unfold resolve_run_dir. solve_reads. Qed.
#[local] Hint Resolve Reads_relative_to_repo Reads_resolve_run_dir : reads.

Lemma set_top d k v w x w' : set_path d k [] v w = (Ok x, w') ->
  w' = w /\ (forall w0, getitem x k w0 = (Ok v, w0)) /\ forall w0, set_path d k [] v w0 = (Ok x, w0).
Proof.
  destruct d; try done. cbn. intros [= <- <-]. split; [done|]. split; [|done]. intros w0. unfold getitem.
  by rewrite dict_get_set.
Qed.

(** What a checked result document says of the run. *)
Record result_checked (o : image_run) (result : CommandResult) (document : json) (digest : string)
    (status : json) : Prop := {
  rc_status : forall w, getitem document "status" w = (Ok status, w);
  rc_digest : forall w, getitem document "image_manifest_sha256" w = (Ok (JStr digest), w);
  rc_exit : status = JStr "PASS" <-> returncode result = 0;
  rc_pass : r_require_pass o = true -> status = JStr "PASS"
}.

(** The log of a run. *)
Definition run_log (o : image_run) (manifest_text reproduce : string) (result : CommandResult) : string :=
  "COMMAND: " +:+ reproduce +:+ nl +:+ "IMAGE: " +:+ manifest_text +:+ nl +:+
  "SEED: " +:+ str_of_Z (r_seed o) +:+ nl +:+ nl +:+ stdout result +:+ stderr result.

(** From the end of the simulator, at [w], to the end of the run, at [w']: the log is written, the
    result document that the simulator left is read, completed with the digest of the image document,
    validated and written back. *)
Record run_finished (o : image_run) (result_path log_path : path) (reproduce : string)
    (result : CommandResult) (w w' : world) : Prop := {
  rf_steps : exists manifest_text w1 found content document schema status,
    relative_to_repo (pnames (r_image_dir o) ["image.json"]) w = (Ok manifest_text, w) /\
    write_text log_path (run_log o manifest_text reproduce result) w = (Ok tt, w1) /\
    let w2 := printed result w1 in
    read_json result_path w2 = (Ok found, w2) /\
    read_bytes (pnames (r_image_dir o) ["image.json"]) w2 = (Ok content, w2) /\
    set_path found "image_manifest_sha256" [] (JStr (sha256_bytes content)) w2 = (Ok document, w2) /\
    read_json (repo_path ["data"; "schemas"; "result.schema.json"]) w2 = (Ok schema, w2) /\
    host_validate schema document = None /\
    result_checked o result document (sha256_bytes content) status /\
    write_json_atomic result_path document w2 = (Ok tt, w')
}.

Lemma finish_run_ok o result_path log_path reproduce result w p w' :
  finish_run o result_path log_path reproduce result w = (Ok p, w') ->
  p = result_path /\ run_finished o result_path log_path reproduce result w w'.
Proof.
  intros E. unfold finish_run in E. rstep E manifest_text Et.
  apply bind_ok in E as ([] & w1 & El & E). apply bind_ok in E as ([] & w2 & Ep1 & E).
  apply bind_ok in E as ([] & w3 & Ep2 & E).
  assert (w3 = printed result w1) as ->.
  { injection Ep1 as <-. unfold printed. destruct (String.eqb (stderr result) ""); by injection Ep2 as <-. }
  clear Ep1 Ep2. rstep E f Ef. rstep E u Eu. rstep E found Ed. rstep E digest Eg.
  apply bind_ok in E as (document & w4 & Es & E). pose proof Es as [-> [Hd _]]%set_top.
  rstep E schema Esc. apply bind_ok in E as ([] & w4 & Ev & E). unfold validate in Ev.
  destruct (host_validate schema document) eqn:Hv; [done|]. apply ret_ok in Ev as [_ ->].
  apply bind_ok in E as ([] & w4 & Ew & E).
  rstep E status Est. cbv zeta in E. rstep E u1 Ex. apply fail_if_ok in Ex as [Ex _].
  apply negb_false_iff, eqb_prop in Ex.
  assert (Hpass : status = JStr "PASS" <-> returncode result = 0).
  { rewrite <- json_eqb_str, Ex. apply Z.eqb_eq. }
  apply bind_ok in E as (u2 & w5 & Ep & E). apply ret_ok in E as [-> ->]. split; [done|].
  unfold sha256_file in Eg. apply bind_ok in Eg as (content & w6 & Ec & Eg).
  apply ret_ok in Eg as [-> <-]. rewrite sha256_stream_bytes in *.
  assert (Hreq : w5 = w4 /\ (r_require_pass o = true -> status = JStr "PASS")).
  { destruct (r_require_pass o), (json_eqb status (JStr "PASS")) eqn:Ep2; cbn [andb negb when_] in Ep;
      try (apply ret_ok in Ep as [_ ->]; split; [done|]; by intros; apply json_eqb_str).
    apply bind_ok in Ep as (? & ? & _ & Ep). by apply throw_not_ok in Ep. }
  destruct Hreq as [-> Hreq]. constructor.
  exists manifest_text, w1, found, content, document, schema, status. cbv zeta. split_and!; try done.
  constructor; [eapply getitem_any; exact Est|done|done|done].
Qed.

(** *** The command line of the simulator *)

(** The words [x] follow one another in the command line. *)
Definition carries (av x : list string) : Prop := exists a b, av = a ++ x ++ b.

Lemma carries_two a b l : carries (a :: b :: l) [a; b].
Proof. by exists [], l. Qed.
Lemma carries_cons a l x : carries l x -> carries (a :: l) x.
Proof. intros (b & c & ->). by exists (a :: b), c. Qed.
Lemma carries_l l l' x : carries l x -> carries (l ++ l') x.
Proof. intros (b & c & ->). exists b, (c ++ l'). by rewrite !app_assoc. Qed.
Lemma carries_r l l' x : carries l' x -> carries (l ++ l') x.
Proof. intros (b & c & ->). exists (l ++ b), c. by rewrite !app_assoc. Qed.
Lemma carries_elem a l : a ∈ l -> carries l [a].
Proof. intros (b & c & ->)%list_elem_of_split. by exists b, c. Qed.
Lemma carries_concat {A} (f : A -> list string) l a : a ∈ l -> carries (concat (f <$> l)) (f a).
Proof.
  intros (b & c & ->)%list_elem_of_split. rewrite fmap_app, concat_app. apply carries_r. cbn [fmap list_fmap concat].
  exists [], (concat (f <$> c)). done.
Qed.
Ltac carry := first [ apply carries_two | apply carries_l; carry | apply carries_r; carry | apply carries_cons; carry ].

(** The command line tells the simulator everything about the run. *)
Record simulator_told (o : image_run) (executable result_path log_path : path) (wave_path : option path)
    (reproduce : string) (av : list string) (w : world) : Prop := {
  st_executable : exists exe rest, relative_to_repo executable w = (Ok exe, w) /\ av = exe :: rest;
  st_images : forall n, n ∈ memory_files -> exists t,
    relative_to_repo (pnames (r_image_dir o) [n]) w = (Ok t, w) /\
    carries av ["+" +:+ stem (parse_path n) +:+ "=" +:+ t];
  st_manifest : exists t, relative_to_repo (pnames (r_image_dir o) ["image.json"]) w = (Ok t, w) /\
    carries av ["--image-manifest"; t];
  st_result : exists t, relative_to_repo result_path w = (Ok t, w) /\ carries av ["--result"; t];
  st_log : exists t, relative_to_repo log_path w = (Ok t, w) /\ carries av ["--log"; t];
  st_settings : Forall (carries av)
    [["--test"; r_test_name o]; ["--profile"; r_profile o]; ["--seed"; str_of_Z (r_seed o)];
     ["--max-cycles"; str_of_Z (r_max_cycles o)]; ["--reproduce"; reproduce]; ["--checker"; r_checker o]];
  st_expect : forall e, e ∈ r_uart_expect o -> carries av ["--uart-expect"; e];
  st_reject : forall e, e ∈ r_uart_reject o -> carries av ["--uart-reject"; e];
  st_uart : r_uart_command o <> "" ->
    carries av ["--uart-command"; r_uart_command o +:+ nl] /\ carries av ["--uart-prompt"; r_uart_prompt o] /\
    carries av ["--uart-prompt-timeout"; str_of_Z (r_uart_prompt_timeout o)] /\
    forall f, f ∈ r_uart_followup_commands o -> carries av ["--uart-followup-command"; f +:+ nl];
  st_wave : forall p, wave_path = Some p -> exists t, relative_to_repo p w = (Ok t, w) /\ carries av ["--trace"; t]
}.

Lemma Reads_performance_arguments b n : Reads (performance_arguments b n).
Proof. unfold performance_arguments, text_at. solve_reads. Qed.
Lemma Reads_image_region n l found : Reads (image_region n l found).
Proof. revert found. induction l as [|x l IH]; intros found; cbn [image_region]; solve_reads. Qed.
Lemma Reads_difftest_region m n k f : Reads (difftest_region m n k f).
Proof. unfold difftest_region. solve_reads. Qed.
#[local] Hint Resolve Reads_performance_arguments Reads_image_region Reads_difftest_region : reads.
Lemma Reads_ram_region m l n : Reads (ram_region m l n).
Proof. unfold ram_region. solve_reads. Qed.
#[local] Hint Resolve Reads_ram_region : reads.
Lemma Reads_difftest_arguments o n : Reads (difftest_arguments o n).
Proof. unfold difftest_arguments. solve_reads. Qed.
Lemma Reads_image_arguments d : Reads (image_arguments d).
Proof. unfold image_arguments. solve_reads. Qed.
Lemma Reads_cycles_per_bit : Reads cycles_per_bit.
Proof. unfold cycles_per_bit, floordiv, int_of, int10. solve_reads. Qed.
#[local] Hint Resolve Reads_difftest_arguments Reads_image_arguments Reads_cycles_per_bit : reads.

Lemma image_arguments_ok d l w w' : image_arguments d w = (Ok l, w') -> forall n, n ∈ memory_files ->
  exists t, relative_to_repo (pnames d [n]) w = (Ok t, w) /\ "+" +:+ stem (parse_path n) +:+ "=" +:+ t ∈ l.
Proof.
  intros E n Hn. unfold image_arguments in E. apply map_m_reads in E as [_ E]; [|intros; solve_reads].
  apply list_elem_of_lookup_1 in Hn as [i Hi]. eapply Forall2_lookup_l in E as (x & Hx & Ex); [|exact Hi].
  rstep Ex t Et. apply ret_ok in Ex as [-> _]. exists t. split; [done|]. by eapply list_elem_of_lookup_2.
Qed.

Lemma simulation_argv_told o executable result_path log_path wave safe_name reproduce av w w' :
  simulation_argv o executable result_path log_path wave safe_name reproduce w = (Ok av, w') ->
  w' = w /\ simulator_told o executable result_path log_path wave reproduce av w.
Proof.
  unfold simulation_argv. intros E. rstep E exe Ee. rstep E images Ei. rstep E rt Er. rstep E lt El. rstep E mt Em.
  rstep E perf Ep. rstep E diff Ed. rstep E bit Eb. rstep E wv Ew. apply ret_ok in E as [-> ->]. split; [done|].
  constructor.
  - by eexists _, _.
  - intros n Hn. destruct (image_arguments_ok _ _ _ _ Ei n Hn) as (t & Ht & Hin). exists t. split; [done|].
    apply carries_r, carries_l. by apply carries_elem.
  - exists mt. split; [done|carry].
  - exists rt. split; [done|carry].
  - exists lt. split; [done|carry].
  - repeat constructor; carry.
  - intros e He. do 5 apply carries_r. apply carries_l. by apply (carries_concat (fun e => ["--uart-expect"; e])).
  - intros e He. do 6 apply carries_r. apply carries_l. by apply (carries_concat (fun e => ["--uart-reject"; e])).
  - intros Hne. apply String.eqb_neq in Hne. rewrite Hne. split_and!; [carry|carry|carry|].
    intros f Hf. do 8 apply carries_r. apply carries_l, carries_r.
    by apply (carries_concat (fun f => ["--uart-followup-command"; f +:+ nl])).
  - intros p ->. rstep Ew t Et. apply ret_ok in Ew as [-> _]. exists t. split; [done|carry].
Qed.

Lemma require_images_ok d l u w w' : require_images d l w = (Ok u, w') ->
  w' = w /\ Forall (fun n => exists_at w (pnames d [n]) = true) l.
Proof.
  revert u. induction l as [|n l IH]; intros u E; cbn [require_images] in E; [by apply ret_ok in E as [_ ->]|].
  rstep E e Ee. apply gets_ok in Ee as [-> _]. rstep E u1 E1. apply fail_if_ok in E1 as [E1 _].
  apply negb_false_iff in E1. apply IH in E as [-> Hl]. split; [done|by constructor].
Qed.

(** No result of an earlier run is left. *)
Lemma prepare_paths_fresh result_path log_path wave safe_name u w w' :
  prepare_paths result_path log_path wave safe_name false w = (Ok u, w') ->
  w_links w !! lcanon w result_path = None ->
  keeps [lcanon w result_path] w w' /\ exists_at w' result_path = false.
Proof.
  unfold prepare_paths. intros E Hl. apply bind_ok in E as ([] & w1 & E1 & E). apply bind_ok in E as ([] & w2 & E2 & E).
  apply bind_ok in E as ([] & w3 & E3 & E). apply bind_ok in E as ([] & w4 & E4 & E). apply ret_ok in E as [_ ->].
  apply (mkdir_keeps []) in E1, E2. assert (K3 : keeps [] w2 w3).
  { destruct wave as [q|]; [by eapply mkdir_keeps|]. apply ret_ok in E3 as [_ ->]. apply keeps_refl. }
  assert (K : keeps [] w w3) by (do 2 (etransitivity; [eassumption|]); done).
  assert (Hl3 : w_links w3 !! lcanon w3 result_path = None)
    by by rewrite (keeps_lcanon _ _ _ result_path K), (keeps_links _ _ _ K).
  assert (K4 : keeps [lcanon w3 result_path] w3 w4) by by eapply unlink_keeps.
  split; [rewrite (keeps_lcanon _ _ _ result_path K) in K4; etransitivity; [|exact K4]; by apply keeps_nil|].
  assert (Hc : canon w4 result_path = lcanon w3 result_path)
    by (rewrite (keeps_canon _ _ _ _ K4); by apply canon_lcanon).
  unfold exists_at. rewrite Hc. unfold unlink in E4. rewrite Hl3 in E4.
  destruct (lcanon w3 result_path) as [|x k]; [done|]. cbn [node_at] in *.
  destruct (w_fs w3 !! (x :: k)) as [[c t|]|] eqn:En; [|done|].
  - injection E4 as <-. cbn [set_fs w_fs]. by rewrite lookup_delete_eq.
  - injection E4 as <-. by rewrite En.
Qed.

(** C23: a simulation run that is accepted is the run that was asked for, and consistent.  When
    [run_image] returns, then in this order: the model was built, or found current; every memory
    image and the image document were there; no result of an earlier run was left; one command
    was run, the simulator and its arguments, nothing before and nothing after them, in the
    repository, with the time limit: they name the test, the limits, every memory image, the result
    file and all the texts expected and rejected; the log was written; the result
    document that is there after the simulator was read, given the digest of the image document,
    validated, and written atomically where [run_image] says.  Its status is PASS exactly if the simulator
    exited with 0, and it is PASS if a pass was required.  A run with [difftest] never gets there. *)
Theorem run_image_checked o w p w' :
  run_image o w = (Ok p, w') ->
  r_difftest o = false /\
  exists selected log_path wave w1 w2 reproduce av command w3 result w4,
    (if r_rebuild_model o then build_model false false (r_trace o) w = (Ok tt, w1)
     else ensure_model_current false (r_trace o) w = (Ok tt, w1)) /\
    Forall (fun n => exists_at w1 (pnames (r_image_dir o) [n]) = true) (memory_files ++ ["image.json"]) /\
    run_paths selected (safe_test_name (r_test_name o)) (r_trace o) = (p, log_path, wave) /\
    (w_links w1 !! lcanon w1 p = None -> keeps [lcanon w1 p] w1 w2 /\ exists_at w2 p = false) /\
    (r_reproduce o <> "" -> reproduce = r_reproduce o) /\
    simulator_told o (model_paths false (r_trace o)).1 p log_path wave reproduce av w2 /\
    in_repo (repo_path []) av w2 = (Ok command, w3) /\
    bash command (Some (r_wall_timeout o)) false w3 = (Ok result, w4) /\
    run_finished o p log_path reproduce result w4 w'.
Proof.
  intros E. unfold run_image in E. apply bind_ok in E as (u0 & w0 & E0 & E). apply fail_if_ok in E0 as [Hd ->].
  rewrite Hd in E. split; [done|]. apply bind_ok in E as ([] & w1 & Emodel & E). cbv zeta in E.
  apply bind_ok in E as (u1 & w1' & Eimg & E). apply require_images_ok in Eimg as [-> Himg].
  rewrite sapp_nil_r in E. rstep E selected Esel. destruct (run_paths selected _ (r_trace o)) as [[rp lp] wave] eqn:Ep.
  apply bind_ok in E as (u2 & w2 & Eprep & E).
  assert (Hrep : Reads (if String.eqb (r_reproduce o) "" then reproduce_line o selected else mret (r_reproduce o)))
    by (unfold reproduce_line; solve_reads).
  apply bind_ok in E as (reproduce & w2' & Er & E). pose proof (Hrep _ _ _ Er) as ->.
  apply bind_ok in E as (av & w2' & Ea & E). apply simulation_argv_told in Ea as [-> Htold].
  apply bind_ok in E as (command & w3 & Ec & E). apply bind_ok in E as (result & w4 & Eb & E).
  apply finish_run_ok in E as [-> Hfin].
  exists selected, lp, wave, w1, w2, reproduce, av, command, w3, result, w4.
  split_and!; try done; [by destruct (r_rebuild_model o)|by intros; eapply prepare_paths_fresh|].
  intros Hne. apply String.eqb_neq in Hne. rewrite Hne in Er. by apply ret_ok in Er as [-> _].
Qed.
(** ** The model is current once it is built *)

Lemma read_json_current p d w w' t : w_links w !! lcanon w p = None ->
  write_json_atomic p (JObj d) w = (Ok t, w') -> lcanon w p ∉ w_denied w ->
  json_wf (JObj d) = true -> json_text (JObj d) = true ->
  keeps [lcanon w p] w w' /\ is_file_at w' p = true /\
  read_json p w' = (Ok (sort_keys (JObj d)), w').
Proof.
  intros Hl E Hd Hwf Htx. apply write_json_atomic_files in E as (HK & _ & Hdeep & m & Hm); [|done].
  assert (Hc : canon w' p = lcanon w p) by (rewrite (keeps_canon _ _ _ p HK); by apply canon_lcanon).
  split_and!; [done|unfold is_file_at; by rewrite Hc, Hm|].
  eapply read_json_file; rewrite ?Hc; try done. by rewrite (keeps_denied _ _ _ HK).
Qed.

(** The document at [p] can be read, and its field [k] is the text [f]. *)
Definition records_text (w : world) (p : path) (k f : string) : Prop :=
  exists v, read_json p w = (Ok v, w) /\ forall w0, getitem v k w0 = (Ok (JStr f), w0).

Lemma get_text v k a f w w' : get v k w = (Ok a, w') -> json_eqb a (JStr f) = true ->
  forall w0, getitem v k w0 = (Ok (JStr f), w0).
Proof.
  unfold get, get_default. destruct v as [| | | | | |d]; try done. intros E ->%json_eqb_str w0.
  apply ret_ok in E as [E _]. unfold getitem. destruct (dict_get k d); [by subst|done].
Qed.

(** A document written is the document recorded. *)
Lemma records_written p d k f w t w' : w_links w !! lcanon w p = None ->
  write_json_atomic p (JObj d) w = (Ok t, w') -> lcanon w p ∉ w_denied w ->
  json_wf (JObj d) = true -> json_text (JObj d) = true -> dict_get k d = Some (JStr f) ->
  keeps [lcanon w p] w w' /\ is_file_at w' p = true /\ records_text w' p k f.
Proof.
  intros Hl E Hd Hwf Htx Hf. destruct (read_json_current _ _ _ _ _ Hl E Hd Hwf Htx) as (HK & Hm & Hr).
  split_and!; [done|done|]. exists (sort_keys (JObj d)). split; [done|]. intros w0.
  assert (Hnd : NoDup d.*1).
  { cbn [json_wf] in Hwf. apply andb_true_iff in Hwf as [Hnd _]. by apply bool_decide_eq_true in Hnd. }
  destruct (dict_get_sort_keys d k Hnd) as (d' & -> & Hg). rewrite Hf in Hg. unfold getitem. by rewrite Hg.
Qed.

(** A file is still there when another one has been written. *)
Lemma still_file K w w' p : keeps K w w' -> canon w p ∉ K -> is_file_at w p = true -> is_file_at w' p = true.
Proof.
  intros HK Hp. unfold is_file_at. rewrite (keeps_canon _ _ _ _ HK).
  destruct (node_at w (canon w p)) as [[c m|]|] eqn:En; try done.
  by rewrite (keeps_node _ _ _ _ _ HK Hp En).
Qed.

(** *** The fingerprint of the inputs *)

(** The entry of a manifest for the file [p]: its name in the repository and its digest. *)
Definition describes_file (w : world) (p : path) (e : json) : Prop :=
  exists relative content, relative_text p (repo_path []) w = (Ok relative, w) /\
    read_bytes p w = (Ok content, w) /\
    e = JObj [("path", JStr relative); ("sha256", JStr (sha256_bytes content))].

Lemma file_entry_ok p e w w' : file_entry p w = (Ok e, w') -> w' = w /\ describes_file w p e.
Proof.
  unfold file_entry. intros E. rstep E t Et. rstep E d Ed. apply ret_ok in E as [-> ->]. split; [done|].
  unfold sha256_file in Ed. apply bind_ok in Ed as (c & w1 & Ec & Ed). apply ret_ok in Ed as [-> <-].
  rewrite sha256_stream_bytes. by exists t, c.
Qed.

(** The inputs of the model: the files of its file list, the common flags, the C++ sources and
    the headers below [tb/cpp]. *)
Definition model_input (w : world) (files : list path) (x : path) : Prop :=
  x ∈ files \/ x = Path true (canon w (repo_path ["sim"; "verilator"; "common_flags.f"])) \/
  (exists n, n ∈ CPP_SOURCES /\ x = Path true (canon w (repo_file n))) \/
  exists h, h ∈ rglob_at w (repo_path ["tb"; "cpp"]) /\ endswith (name h) ".h" = true /\ x = Path true (canon w h).

(** [f] is the digest of the settings, the version of Verilator and the contents of all inputs
    at [w]. *)
Record model_fingerprint (trace : bool) (w w1 : world) (f : string) (entries : list json) : Prop := {
  mf_parts : exists files inputs version,
    filelist_inputs (repo_path ["sim"; "filelists"; "soc_verilator.f"]) w = (Ok files, w) /\
    (forall x, x ∈ inputs <-> model_input w files x) /\ NoDup inputs /\
    Forall2 (describes_file w) inputs entries /\
    verilator_version w = (Ok version, w1) /\
    f = sha256_text (dumps_sorted
          (JObj [("top", JStr "soc_sim_top"); ("difftest", JBool false); ("trace", JBool trace);
                 ("version", JStr version); ("inputs", JArr entries)]))
}.

Lemma Reads_filelist_step include seen raw : (forall l p, Reads (include l p)) -> Reads (filelist_step include seen raw).
Proof. intros Hi. unfold filelist_step. solve_reads. Qed.
Lemma Reads_filelist_inputs p : Reads (filelist_inputs p).
Proof.
  unfold filelist_inputs. generalize (@nil path). revert p.
  induction host_recursion as [|n IH]; intros p l; cbn [filelist_aux]; [apply Reads_raise|].
  pose proof (Reads_filelist_step (filelist_aux n)). solve_reads.
Qed.
#[local] Hint Resolve Reads_filelist_inputs : reads.

Lemma resolve_all l r w w' : map_m resolve l w = (Ok r, w') -> w' = w /\ r = (fun p => Path true (canon w p)) <$> l.
Proof.
  revert r w'. induction l as [|p l IH]; intros r w' E; cbn [map_m] in E; [by apply ret_ok in E as [-> ->]|].
  rstep E q Eq. apply gets_ok in Eq as [-> _]. apply bind_ok in E as (r' & w1 & Er & E).
  apply IH in Er as [-> ->]. by apply ret_ok in E as [-> ->].
Qed.

Lemma model_inputs_ok inputs w w' : model_inputs false w = (Ok inputs, w') ->
  w' = w /\ exists files, filelist_inputs (repo_path ["sim"; "filelists"; "soc_verilator.f"]) w = (Ok files, w) /\
    (forall x, x ∈ inputs <-> model_input w files x) /\ NoDup inputs.
Proof.
  unfold model_inputs. intros E. rstep E files Ef. rstep E flags Efl. apply gets_ok in Efl as [-> _].
  rstep E sources Es. rstep E found Efd. apply gets_ok in Efd as [-> _].
  apply bind_ok in E as (headers & w1 & Eh & E). apply resolve_all in Eh as [-> ->].
  rstep E spike Esp. apply ret_ok in Esp as [-> _]. apply ret_ok in E as [-> ->]. split; [done|].
  exists files. split_and!; [done| |].
  - intros x. rewrite app_nil_r, elem_of_sort_by, elem_of_remove_dups, !elem_of_app, list_elem_of_singleton.
    unfold model_input. assert (Hs : x ∈ sources <-> exists n, n ∈ CPP_SOURCES /\ x = Path true (canon w (repo_file n))).
    { apply map_m_reads in Es as [_ Es]; [|intros; solve_reads]. split.
      - intros Hx. apply list_elem_of_lookup_1 in Hx as [i Hi]. eapply Forall2_lookup_r in Es as (n & Hn & En); [|exact Hi].
        exists n. split; [by eapply list_elem_of_lookup_2|]. by apply gets_ok in En as [-> _].
      - intros (n & Hn & ->). apply list_elem_of_lookup_1 in Hn as [i Hi]. eapply Forall2_lookup_l in Es as (y & Hy & En); [|exact Hi].
        apply gets_ok in En as [-> _]. by eapply list_elem_of_lookup_2. }
    rewrite Hs, list_elem_of_fmap. setoid_rewrite elem_of_sort_by. setoid_rewrite list_elem_of_In.
    setoid_rewrite filter_In. setoid_rewrite <- list_elem_of_In. naive_solver.
  - rewrite sort_by_Permutation. apply NoDup_remove_dups.
Qed.

Lemma desired_ok trace v w w1 : desired_model_manifest false trace w = (Ok v, w1) ->
  exists d f entries, v = JObj d /\ json_wf v = true /\ dict_get "fingerprint" d = Some (JStr f) /\
    dict_get "inputs" d = Some (JArr entries) /\ model_fingerprint trace w w1 f entries.
Proof.
  intros E. unfold desired_model_manifest in E. apply bind_ok in E as (inputs & w0 & Ei & E).
  apply model_inputs_ok in Ei as (-> & files & Ef & Hin & Hnd).
  assert (Hfe : forall p, Reads (file_entry p)) by (intros p; unfold file_entry; solve_reads).
  apply bind_ok in E as (entries & w2 & Ee & E). apply map_m_reads in Ee as [-> Ee]; [|done].
  apply bind_ok in E as (version & w2 & Ev & E). apply ret_ok in E as [-> ->].
  assert (Hd : Forall2 (describes_file w) inputs entries).
  { eapply Forall2_impl; [exact Ee|]. intros p e Hpe. by apply file_entry_ok in Hpe as [_ ?]. }
  do 3 eexists. split; [reflexivity|]. split; [|split; [reflexivity|split; [reflexivity|]]].
  - assert (Hall : forallb json_wf entries = true).
    { apply forallb_forall. intros x Hx. apply list_elem_of_In, list_elem_of_lookup_1 in Hx as [i Hi].
      eapply Forall2_lookup_r in Hd as (p & _ & t & c & _ & _ & ->); [|exact Hi]. done. }
    cbn. by rewrite Hall.
  - constructor. exists files, inputs, version. by split_and!.
Qed.

Lemma model_is_current_true desired d f trace w w' : desired = JObj d -> dict_get "fingerprint" d = Some (JStr f) ->
  model_is_current desired false trace w = (Ok true, w') ->
  w' = w /\ is_file_at w (model_paths false trace).1 = true /\
  records_text w (model_paths false trace).2 "fingerprint" f.
Proof.
  intros -> Hf. unfold model_is_current. destruct (model_paths false trace) as [executable manifest]. cbn [fst snd].
  intros E. rstep E e Ee. apply gets_ok in Ee as [-> _]. rstep E m Em.
  destruct m; cbn [negb] in E; [|by apply ret_ok in E as [? _]].
  destruct (is_file_at w executable); [|by apply ret_ok in Em as [? _]].
  apply bind_ok in E as (actual & w1 & Ea & E). destruct actual as [v|].
  2: { by apply ret_ok in E as [? _]. }
  unfold try_except in Ea. destruct ((v ← read_json manifest; mret (Some v)) w) as [[o|e] w2] eqn:Eb.
  2: { destruct (is_os_error e || is_value_error e); [|done]. by apply ret_ok in Ea as [? _]. }
  injection Ea as -> <-. rstep Eb x Ex. apply ret_ok in Eb as [[= ->] ->].
  rstep E a Eg. rstep E f' Ef. apply ret_ok in E as [Heq ->]. split_and!; [done|done|]. exists x. split; [done|].
  unfold getitem in Ef. rewrite Hf in Ef. apply ret_ok in Ef as [-> _]. by eapply get_text.
Qed.

(** The other way round: what is recorded is accepted. *)
Lemma model_is_current_records desired d f trace w : desired = JObj d -> dict_get "fingerprint" d = Some (JStr f) ->
  is_file_at w (model_paths false trace).1 = true -> is_file_at w (model_paths false trace).2 = true ->
  records_text w (model_paths false trace).2 "fingerprint" f ->
  model_is_current desired false trace w = (Ok true, w).
Proof.
  intros -> Hf. unfold model_is_current. destruct (model_paths false trace) as [executable manifest]. cbn [fst snd].
  intros Hx Hm (v & Hr & Hg). rewrite (bind_ok_eq _ _ true w w) by (unfold is_file, gets; by rewrite Hx).
  cbv beta. rewrite (bind_ok_eq _ _ true w w) by (unfold is_file, gets; by rewrite Hm). cbv beta.
  change (negb true) with false. cbv iota.
  rewrite (bind_ok_eq _ _ (Some v) w w) by (unfold try_except; by rewrite (bind_ok_eq _ _ _ _ _ Hr)).
  cbv beta iota. specialize (Hg w). unfold get, get_default, getitem in *. destruct v as [| | | | | |d']; try done.
  apply lift_opt_ok in Hg as [Hg _]. rewrite Hg, Hf.
  rewrite (bind_ok_eq _ _ (JStr f) w w) by done. cbv beta.
  rewrite (bind_ok_eq _ _ (JStr f) w w) by done. cbn. by rewrite String.eqb_refl.
Qed.

(** The model is made anew, from [w1] to [w2]: its directory is emptied, and Verilator, run in the
    repository, exits with 0. *)
Record model_rebuilt (trace : bool) (w1 w2 : world) : Prop := {
  mr_steps : exists wa sources wb command wc result wd,
    let object_dir := repo_path ["build"; "verilator"; model_target false trace; "obj_dir"] in
    (when_ (exists_at w1 object_dir) (rmtree object_dir) ;; mkdir_p object_dir) w1 = (Ok tt, wa) /\
    map_m (fun source => to_wsl_path (repo_file source)) CPP_SOURCES wa = (Ok sources, wb) /\
    in_repo (repo_path []) (verilator_argv (model_target false trace) sources [] BASE_CFLAGS trace []) wb =
      (Ok command, wc) /\
    bash command (Some MODEL_BUILD_TIMEOUT_SECONDS) false wc = (Ok result, wd) /\
    returncode result = 0 /\ w2 = printed result wd
}.

(** C25: a build makes its model current and skips work only for unchanged inputs.  When [build_model]
    returns, let [f] be the digest of the settings, Verilator's version and the contents of all
    the inputs (the file list's, the flags, the C++ sources and headers) found at the start.
    Either no rebuild was forced, the executable is there, the manifest records [f], and
    nothing was done but say so; or the object directory was emptied, Verilator was run
    on the sources and exited with 0, and then, the executable being there, the manifest was
    written; it records [f], and [model_is_current] accepts it, so that building again does
    nothing (given that the manifest is no link, may be read and holds text). *)
Theorem build_model_current force trace w w' :
  build_model force false trace w = (Ok tt, w') ->
  let executable := (model_paths false trace).1 in
  let manifest := (model_paths false trace).2 in
  exists desired w1 f entries,
    desired_model_manifest false trace w = (Ok desired, w1) /\ model_fingerprint trace w w1 f entries /\
    (forall w0, getitem desired "inputs" w0 = (Ok (JArr entries), w0)) /\
  ((force = false /\ is_file_at w1 executable = true /\ records_text w1 manifest "fingerprint" f /\
    exists msg, w' = log (EvOut msg) w1) \/
   exists w2, model_rebuilt trace w1 w2 /\ is_file_at w2 executable = true /\
    write_json_atomic manifest desired w2 = (Ok tt, w') /\
    (w_links w2 !! lcanon w2 manifest = None -> lcanon w2 manifest ∉ w_denied w2 ->
     canon w2 executable <> lcanon w2 manifest -> json_text desired = true ->
     is_file_at w' executable = true /\ records_text w' manifest "fingerprint" f /\
     model_is_current desired false trace w' = (Ok true, w'))).
Proof.
  intros E. cbv zeta. unfold build_model in E. rstep E u0 Eu.
  apply bind_ok in E as (desired & w1 & Hdes & E).
  destruct (desired_ok _ _ _ _ Hdes) as (d & f & entries & Hd1 & Hwf & Hg & Hi & Hfp).
  exists desired, w1, f, entries. split_and!; [done|done|by intros w0; subst; cbn; rewrite Hi|].
  apply bind_ok in E as (current & w2 & Hcur & E). destruct current.
  { left. destruct force; [by apply ret_ok in Hcur as [? _]|].
    eapply model_is_current_true in Hcur as (-> & Hx & Hr); [|done|done]. split_and!; [done|done|done|].
    by injection E as <-; eexists. }
  assert (w2 = w1) as ->.
  { destruct force; [by apply ret_ok in Hcur as [_ ->]|].
    assert (R : Reads (model_is_current desired false trace))
      by (unfold model_is_current; destruct (model_paths false trace); solve_reads). by apply R in Hcur. }
  right. cbv zeta in E. rstep E e He. apply gets_ok in He as [-> _].
  apply bind_ok in E as ([] & wr & Erm & E). apply bind_ok in E as ([] & wa & Emk & E).
  apply bind_ok in E as (sources & wb & Es & E). apply bind_ok in E as ([[sp cf] ld] & wb' & Esp & E).
  apply ret_ok in Esp as [[= -> -> ->] ->]. apply bind_ok in E as (command & wc & Ec & E).
  apply bind_ok in E as (result & wd & Eb & E). apply bind_ok in E as ([] & we & Ep1 & E).
  apply bind_ok in E as ([] & w2 & Ep2 & E).
  assert (w2 = printed result wd) as ->.
  { injection Ep1 as <-. unfold printed. destruct (String.eqb (stderr result) ""); by injection Ep2 as <-. }
  clear Ep1 Ep2. rstep E u1 Hok. apply fail_if_ok in Hok as [Hok _]. apply negb_false_iff in Hok.
  unfold ok in Hok. apply Z.eqb_eq in Hok.
  pose proof (model_is_current_records desired d f trace) as Hback.
  destruct (model_paths false trace) as [executable manifest] eqn:Em. cbn [fst snd] in *. rstep E fx Hf.
  apply gets_ok in Hf as [-> _]. rstep E u2 Hu. apply fail_if_ok in Hu as [Hf _]. apply negb_false_iff in Hf.
  exists (printed result wd). split_and!; [|done|done|].
  - constructor. exists wa, sources, wb, command, wc, result, wd. cbv zeta. split_and!; try done.
    by rewrite (bind_ok_eq _ _ _ _ _ Erm).
  - intros Hl Hd Hne Htx. subst desired. destruct (records_written _ _ _ _ _ _ _ Hl E Hd Hwf Htx Hg) as (HK & Hm & Hr).
    assert (Hx' : is_file_at w' executable = true)
      by (eapply still_file; [exact HK| |done]; by rewrite list_elem_of_singleton).
    split_and!; [done|done|by apply Hback].
Qed.
End runs.

(** *** Instances *)

Lemma safe_test_name_plain_witness : safe_test_name "isa-rv32ui-add" = "isa-rv32ui-add".
Proof. apply (safe_test_name_plain "isa-rv32ui-add"). reflexivity. Defined.

(** A machine whose Verilator makes a simulator, which reports success. *)
Definition demo_result : json :=
  JObj [("status", JStr "PASS"); ("exit_reason", JStr "test-status"); ("cycles", JInt 7)].
Definition demo_verilator : Host := demo_exec_host ["repo"] (fun c w =>
  let text := join " " (c_argv c) in
  if contains "--Mdir" text then
    (Done 0 "" "", put_file ["repo"; "build"; "verilator"; "soc"; "obj_dir"; "soc_sim"] "sim" w)
  else if contains "--max-cycles" text then
    (Done 0 ("PASS" +:+ nl) "", put_file ["repo"; "build"; "result"; "soc"; "t.json"] (dumps demo_result) w)
  else (Done 0 ("Verilator 5" +:+ nl) "", w)).

Definition repo_key (s : string) : list string := "repo" :: split_char "/" s.
Definition demo_filelist : string :=
  join nl ["-f sim/filelists/soc_verilator.f"; "rtl/top.sv # the top"; "+incdir+rtl"].
Definition demo_model_world : world := demo_world
  ([(repo_key "sim/filelists/soc_verilator.f", demo_filelist); (repo_key "rtl/top.sv", "module");
    (repo_key "sim/verilator/common_flags.f", "--cc");
    (repo_key "data/schemas/result.schema.json", "{}");
    (repo_key "data/soc/software_contract.json",
     dumps (JObj [("clocks", JObj [("soc_hz", JInt 100000000); ("uart_baud", JInt 115200)])]));
    (repo_key "build/images/t/image.json", "{}")] ++
   ((fun s => (repo_key s, "//")) <$> CPP_SOURCES) ++
   ((fun s => (repo_key ("build/images/t/" +:+ s), "@0")) <$> memory_files))
  [["repo"]].

Lemma filelist_inputs_total_witness :
  exists files, filelist_inputs (H := demo) (Path true (repo_key "sim/filelists/soc_verilator.f")) demo_model_world
    = (Ok files, demo_model_world) /\ NoDup files.
Proof.
  destruct (filelist_inputs_total (H := demo) demo_model_world
    (Path true (repo_key "sim/filelists/soc_verilator.f"))) as (r & E & Hr).
  - intros p. apply canon_no_links; [reflexivity|by repeat constructor].
  - destruct r as [files|e]; [exists files; split; [exact E|apply Hr]|].
    exfalso. assert (Hok : match (filelist_inputs (H := demo)
      (Path true (repo_key "sim/filelists/soc_verilator.f")) demo_model_world).1 with
      Ok _ => true | Raise _ => false end = true) by (vm_compute; reflexivity).
    rewrite E in Hok. discriminate.
Defined.

Definition demo_image_run : image_run := {|
  r_image_dir := Path true (repo_key "build/images/t"); r_test_name := "t"; r_max_cycles := 100;
  r_rebuild_model := true; r_trace := false; r_require_pass := true; r_profile := "t"; r_seed := 1;
  r_performance := false; r_benchmark_iterations := 0; r_reproduce := ""; r_wall_timeout := 600;
  r_uart_command := ""; r_uart_followup_commands := []; r_uart_prompt := "msh >";
  r_uart_prompt_timeout := 5000000; r_checker := "test-status"; r_uart_expect := [];
  r_uart_reject := []; r_difftest := false; r_difftest_mode := "ram-strict"; r_difftest_isa := "";
  r_difftest_fault := ""; r_run_dir := None; r_competition_config := None |}.

Lemma run_image_checked_witness :
  exists result document digest, result_checked demo_image_run result document digest (JStr "PASS").
Proof.
  destruct (run_image_checked (H := demo_verilator) demo_image_run demo_model_world
    (Path true (repo_key "build/result/soc/t.json"))
    (run_image (H := demo_verilator) demo_image_run demo_model_world).2)
    as (_ & sel & lp & wv & w1 & w2 & rep & av & cmd & w3 & result & w4 & _ & _ & _ & _ & _ & _ & _ & _ & Hfin).
  - by_eval.
  - destruct Hfin as [(mt & wl & found & content & document & schema & status & _ & _ & _ & _ & _ & _ & _ & Hr & _)].
    exists result, document, (sha256_bytes content). pose proof (rc_pass _ _ _ _ _ Hr eq_refl) as ->. exact Hr.
Defined.

Lemma build_model_current_witness : exists w1 f entries,
  model_fingerprint (H := demo_verilator) false demo_model_world w1 f entries.
Proof.
  destruct (build_model_current (H := demo_verilator) true false demo_model_world
    (build_model (H := demo_verilator) true false false demo_model_world).2)
    as (desired & w1 & f & entries & _ & Hf & _).
  - by_eval.
  - exists w1, f, entries. exact Hf.
Defined.
