(* ===== verification/IsaTests.v ===== *)
(** [scripts/run_isa_tests.py]: the tests of an ISA gate are selected from the dataset
    and run on the model. *)
From Stdlib Require Import ZArith Lia.
From S2P Require Import Prelude Str Json Py Store Lib Helpers Verilator.
Local Open Scope Z_scope.
Local Open Scope py_scope.

(** A test of the manifest: the document and the identifier [suite/name]. *)
Definition test_id (test : json) : M string :=
  suite ← text_at test ["suite"];
  n ← text_at test ["name"];
  mret (suite +:+ "/" +:+ n).

Definition parse_names (raw : option string) : option (gset string) :=
  match raw with
  | None => None
  | Some s => Some (str_set (filter (fun n => n <> "") (strip <$> split_char "," s)))
  end.

(** [name in set] for a value of a document, which has to be hashable. *)
Definition in_set (v : json) (s : list json) : M bool := hashable v ;; mret (json_in v s).

(** [set(v)] of a value of a document *)
Definition set_of (v : json) : M (list json) :=
  l ← items_of v;
  for_ l hashable ;;
  mret l.

Definition candidate_tests (selected_suites excluded tests : list json) : M (list json) :=
  filter_m (fun test =>
    suite ← getitem test "suite";
    wanted ← in_set suite selected_suites;
    if wanted : bool then id ← test_id test; mret (negb (json_in (JStr id) excluded))
    else mret false) tests.

(** The candidates that one unqualified name stands for. *)
Definition named_tests (candidates : list json) (n : string) : M (list json) :=
  named ← filter_m (fun test => x ← getitem test "name"; mret (json_eqb x (JStr n))) candidates;
  if 1 <? len named then
    ids ← map_m test_id named;
    raise ValueError ("ambiguous ISA test " +:+ n +:+ "; use one of: " +:+ join ", " ids)
  else mret named.

Definition match_names (gate_name : string) (candidates : list json) (names : gset string)
    : M (list json) :=
  let qualified := filter (fun n => contains "/" n = true) names in
  let unqualified := names ∖ qualified in
  matches1 ← filter_m (fun test => id ← test_id test; mret (bool_decide (id ∈ qualified))) candidates;
  named ← map_m (named_tests candidates) (sorted_set unqualified);
  let matches := matches1 ++ concat named in
  ids ← map_m test_id matches;
  short ← map_m (fun test => x ← getitem test "name"; hashable x ;; mret x) matches;
  let found n := bool_decide (n ∈ ids) || json_in (JStr n) short in
  let unknown := filter (fun n => found n = false) names in
  fail_if (negb (bool_decide (unknown = ∅))) ValueError
    ("unknown ISA tests for gate " +:+ gate_name +:+ ": " +:+ repr_sorted unknown) ;;
  mret matches.

Definition select_tests (manifest : json) (gate_name : string) (suites names : option (gset string))
    : M (list json) :=
  gates ← getitem manifest "gates";
  gate ← get gates gate_name;
  fail_if (json_eqb gate JNull) ValueError ("unknown ISA gate: " +:+ gate_name) ;;
  ready ← getitem gate "ready";
  when_ (negb (truthy ready))
    (reason ← text_at gate ["blocked_reason"];
     raise ValueError ("ISA gate " +:+ gate_name +:+ " is not ready: " +:+ reason)) ;;
  selected_suites ←
    (let given := default ∅ suites in
     if bool_decide (given = ∅) then x ← getitem gate "suites"; set_of x
     else mret (JStr <$> elements given));
  excluded ← (x ← getitem gate "excluded_tests"; set_of x);
  tests ← (x ← getitem manifest "tests"; items_of x);
  candidates ← candidate_tests selected_suites excluded tests;
  match names with
  | None => mret candidates
  | Some ns => match_names gate_name candidates ns
  end.

Record args := {
  a_gate : option string;
  a_suites : option string;
  a_tests : option string;
  a_list_gates : bool;
  a_max_cycles : Z;
  a_no_rtl_build : bool;
  a_difftest : bool;
  a_difftest_isa : option string;
  a_trace : bool
}.

Section isa_tests.
Context `{Host}.

Definition list_gate (entry : string * json) : M unit :=
  let '(n, gate) := entry in
  ready ← getitem gate "ready";
  let state := if truthy ready then "ready" else "blocked" in
  suites ← (x ← getitem gate "suites"; l ← items_of x; map_m as_str l);
  let suites_text := join "," suites in
  detail ← (if truthy ready then mret ""
            else r ← text_at gate ["blocked_reason"]; mret (" (" +:+ r +:+ ")"));
  print (n +:+ ": " +:+ state +:+ "; suites=" +:+
         (if String.eqb suites_text "" then "-" else suites_text) +:+ detail).

(** The image run of one test. *)
Definition isa_run (a : args) (gate_name suite n : string) (first : bool) : image_run :=
  let isa := default "" (a_difftest_isa a) in
  let reproduce :=
    "python -B scripts/run_isa_tests.py --gate " +:+ gate_name +:+ " --tests " +:+ suite +:+ "/" +:+ n +:+
    " --max-cycles " +:+ str_of_Z (a_max_cycles a) +:+ " --no-rtl-build" +:+
    (if a_difftest a then
       " --difftest" +:+ (if String.eqb isa "" then "" else " --difftest-isa " +:+ isa) else "") +:+
    (if a_trace a then " --trace" else "") in
  {| r_image_dir := repo_path ["data"; "isa"; suite; n];
     r_test_name := "isa-" +:+ suite +:+ "-" +:+ n;
     r_max_cycles := a_max_cycles a;
     r_rebuild_model := first && negb (a_no_rtl_build a);
     r_trace := a_trace a;
     r_require_pass := false;
     r_profile := "isa/" +:+ suite;
     r_seed := 1;
     r_performance := false;
     r_benchmark_iterations := 0;
     r_reproduce := reproduce;
     r_wall_timeout := 600;
     r_uart_command := "";
     r_uart_followup_commands := [];
     r_uart_prompt := "msh >";
     r_uart_prompt_timeout := 5000000;
     r_checker := "test-status";
     r_uart_expect := [];
     r_uart_reject := [];
     r_difftest := a_difftest a;
     r_difftest_mode := "ram-strict";
     r_difftest_isa := isa;
     r_difftest_fault := "";
     r_run_dir := None;
     r_competition_config := None |}.

(** The tests are run one after the other; the first may rebuild the model. *)
Fixpoint run_tests (a : args) (gate_name : string) (first : bool) (tests : list json) : M (list json) :=
  match tests with
  | [] => mret []
  | test :: tests' =>
      suite ← (x ← getitem test "suite"; as_str x);
      n ← (x ← getitem test "name"; as_str x);
      result_path ← run_image (isa_run a gate_name suite n first);
      result0 ← load_json result_path;
      result1 ← set_path result0 "isa_suite" [] (JStr suite);
      result ← set_path result1 "isa_test" [] (JStr n);
      status ← text_at result ["status"];
      cycles ← text_at result ["cycles"];
      print ("ISA " +:+ suite +:+ "/" +:+ n +:+ ": " +:+ status +:+ " (" +:+ cycles +:+ " cycles)") ;;
      rest ← run_tests a gate_name false tests';
      mret (result :: rest)
  end.

(** [all(result["status"] == "PASS" for result in results)] *)
Definition all_passed (results : list json) : M bool :=
  all_m (fun result => s ← getitem result "status"; mret (json_eqb s (JStr "PASS"))) results.

Definition write_summary (gate_name : string) (manifest : json) (results : list json) (passed : bool)
    : M path :=
  let summary_path := repo_path ["build"; "regression"; "isa"; gate_name; "summary.json"] in
  suites ← map_m (fun result => x ← getitem result "isa_suite"; as_str x) results;
  commit ← getpath manifest ["upstream"; "commit"];
  memory_map ← getitem manifest "memory_map_sha256";
  contract ← getitem manifest "software_contract_sha256";
  write_json_atomic summary_path
    (JObj [("schema_version", JInt 1); ("kind", JStr "regression"); ("target", JStr "soc-verilator");
           ("status", JStr (if passed then "PASS" else "FAIL")); ("gate", JStr gate_name);
           ("suites", JArr (JStr <$> sorted_set (str_set suites)));
           ("upstream_commit", commit); ("memory_map_sha256", memory_map);
           ("software_contract_sha256", contract); ("tests", JArr results)]) ;;
  mret summary_path.

Definition main (a : args) : M Z :=
  manifest ← read_json (repo_path ["data"; "isa"; "manifest.json"]);
  if a_list_gates a then
    gates ← (x ← getitem manifest "gates"; dict_items x);
    for_ gates list_gate ;;
    mret 0
  else
  gate_name ← (let given := default "" (a_gate a) in
               if String.eqb given "" then x ← getitem manifest "default_gate"; as_str x
               else mret given);
  tests ← or_usage_error is_value_error
            (select_tests manifest gate_name (parse_names (a_suites a)) (parse_names (a_tests a)));
  (if bool_decide (tests = []) then parser_error "no ISA tests selected" else mret tt) ;;
  results ← run_tests a gate_name true tests;
  passed ← all_passed results;
  summary_path ← write_summary gate_name manifest results passed;
  print ("ISA regression summary: " +:+ path_str summary_path) ;;
  mret (if passed : bool then 0 else 1).
End isa_tests.

(** ** What is selected *)

Section selection.
(** The identifier and the short name of a test, as the script reads them. *)
Definition id_is (test : json) (id : string) : Prop := forall w, test_id test w = (Ok id, w).
Definition name_is (test : json) (n : json) : Prop := forall w, getitem test "name" w = (Ok n, w).
Definition suite_is (test : json) (s : json) : Prop := forall w, getitem test "suite" w = (Ok s, w).

Lemma Reads_test_id t : Reads (test_id t).
Proof. unfold test_id. solve_reads. Qed.

Lemma text_at_any v k s w w' : text_at v [k] w = (Ok s, w') -> forall w0, text_at v [k] w0 = (Ok s, w0).
Proof.
  unfold text_at, getpath, getitem. destruct v as [| | | | | |d]; try done. cbn.
  destruct (dict_get k d); cbn; [|done]. by intros [= <- <-] w0.
Qed.

Lemma test_id_any t id w w' : test_id t w = (Ok id, w') -> id_is t id.
Proof.
  unfold test_id. intros E w0. apply bind_ok in E as (s & w1 & E1 & E). apply bind_ok in E as (n & w2 & E2 & E).
  apply ret_ok in E as [-> _]. unfold test_id. rewrite (bind_ok_eq _ _ s w0 w0) by by eapply text_at_any.
  by rewrite (bind_ok_eq _ _ n w0 w0) by by eapply text_at_any.
Qed.

(** What a filter that only looks keeps. *)
Lemma filter_m_reads {A} (f : A -> M bool) l r w w' : (forall x, Reads (f x)) ->
  filter_m f l w = (Ok r, w') ->
  w' = w /\ forall x, x ∈ r <-> x ∈ l /\ f x w = (Ok true, w).
Proof.
  intros Hf. revert r. induction l as [|x l IH]; intros r E; cbn [filter_m] in E.
  { apply ret_ok in E as [-> ->]. split; [done|]. intros x. split; [by intros ?%elem_of_nil|by intros [?%elem_of_nil _]]. }
  apply bind_ok in E as (b & w1 & E1 & E). pose proof (Hf _ _ _ _ E1) as ->.
  apply bind_ok in E as (r' & w1 & E2 & E). apply ret_ok in E as [-> ->].
  apply IH in E2 as [-> Hr]. split; [done|]. intros y. destruct b.
  - rewrite !elem_of_cons, Hr. split; [intros [->|[? ?]]; auto|intros [[->|?] ?]; auto].
  - rewrite elem_of_cons, Hr. split; [by intros [? ?]; auto|].
    intros [[->|?] Hy]; [|done]. rewrite E1 in Hy. done.
Qed.

(** Every element was asked. *)
Lemma filter_m_total {A} (f : A -> M bool) l r w w' : (forall x, Reads (f x)) ->
  filter_m f l w = (Ok r, w') -> forall x, x ∈ l -> exists b, f x w = (Ok b, w).
Proof.
  intros Hf. revert r w'. induction l as [|x l IH]; intros r w' E y Hy; [by apply elem_of_nil in Hy|]. cbn [filter_m] in E.
  apply bind_ok in E as (b & w1 & E1 & E). pose proof (Hf _ _ _ _ E1) as ->. apply bind_ok in E as (r' & w1 & E2 & _).
  pose proof (Reads_filter_m f l Hf _ _ _ E2) as ->. apply elem_of_cons in Hy as [->|Hy]; [by exists b|by eapply IH].
Qed.

(** A test of the suites that is not excluded. *)
Definition candidate (suites excluded : list json) (t : json) : Prop :=
  (exists s, suite_is t s /\ json_in s suites = true) /\ exists id, id_is t id /\ json_in (JStr id) excluded = false.

(** A test that one of the names stands for: its identifier, or its short name. *)
Definition chosen (names : gset string) (t : json) : Prop :=
  (exists id, id_is t id /\ id ∈ names /\ contains "/" id = true) \/
  exists n, name_is t (JStr n) /\ n ∈ names /\ contains "/" n = false.

Lemma candidate_tests_ok suites excluded tests r w w' :
  candidate_tests suites excluded tests w = (Ok r, w') ->
  w' = w /\ forall t, t ∈ r <-> t ∈ tests /\ candidate suites excluded t.
Proof.
  unfold candidate_tests. intros E. pose proof Reads_test_id.
  match type of E with filter_m ?f _ _ = _ => set (keep := f) in E end.
  assert (Hk : forall t, Reads (keep t)) by (intros t; unfold keep, in_set; solve_reads).
  pose proof (filter_m_total _ _ _ _ _ Hk E) as Htot. apply filter_m_reads in E as [-> Hr]; [|done].
  split; [done|]. intros t. rewrite Hr. split; intros [Ht E]; (split; [done|]).
  - unfold keep, in_set in E. rstep E s Es. apply bind_ok in E as (b & w1 & Eb & E).
    apply bind_ok in Eb as (u & w2 & Eu & Eb). pose proof (Reads_hashable _ _ _ _ Eu) as ->.
    apply ret_ok in Eb as [-> ->]. destruct (json_in s suites) eqn:Hs; [|done].
    rstep E id Ei. apply ret_ok in E as [E _]. symmetry in E. apply negb_true_iff in E.
    split; [exists s|exists id]; (split; [|done]); [by intros w0; eapply getitem_any|by eapply test_id_any].
  - destruct E as [(s & Hs & Hin) (id & Hid & Hex)]. destruct (Htot t Ht) as [b Eb]. rewrite Eb.
    unfold keep, in_set in Eb. rewrite (bind_ok_eq _ _ _ _ _ (Hs w)) in Eb.
    apply bind_ok in Eb as (x & w1 & Ex & Eb). apply bind_ok in Ex as (u & w2 & Eu & Ex).
    pose proof (Reads_hashable _ _ _ _ Eu) as ->. apply ret_ok in Ex as [-> ->]. rewrite Hin in Eb.
    rewrite (bind_ok_eq _ _ _ _ _ (Hid w)) in Eb. apply ret_ok in Eb as [-> _]. by rewrite Hex.
Qed.

Lemma Reads_named_tests candidates n : Reads (named_tests candidates n).
Proof. pose proof Reads_test_id. unfold named_tests. solve_reads. Qed.

(** The candidates with a name that has to be unique. *)
Lemma named_tests_ok candidates n l w w' : named_tests candidates n w = (Ok l, w') ->
  (length l <= 1)%nat /\ forall t, t ∈ l <-> t ∈ candidates /\ name_is t (JStr n).
Proof.
  unfold named_tests. intros E. apply bind_ok in E as (named & w2 & En & E).
  match type of En with filter_m ?f _ _ = _ => set (keep := f) in En end.
  assert (Hk : forall t, Reads (keep t)) by (intros t; unfold keep; solve_reads).
  apply filter_m_reads in En as [-> Hf]; [|done].
  destruct (1 <? len named) eqn:Hlen; [by apply bind_ok in E as (? & ? & _ & ?)|].
  apply ret_ok in E as [-> _]. apply Z.ltb_ge in Hlen. split; [lia|]. intros t. rewrite Hf.
  split; intros [Ht Hx]; (split; [done|]).
  - unfold keep in Hx. rstep Hx x Ex. apply ret_ok in Hx as [Hx _]. symmetry in Hx. apply json_eqb_str in Hx as ->.
    intros w0. by eapply getitem_any.
  - unfold keep. rewrite (bind_ok_eq _ _ _ _ _ (Hx w)).
    assert (He : json_eqb (JStr n) (JStr n) = true) by by apply json_eqb_str. by rewrite He.
Qed.

(** Which of the candidates the names select. *)
Lemma matches_chosen candidates names m1 m2 w : let qualified := filter (fun n => contains "/" n = true) names in
  filter_m (fun test => id ← test_id test; mret (bool_decide (id ∈ qualified))) candidates w = (Ok m1, w) ->
  Forall2 (fun n l => named_tests candidates n w = (Ok l, w)) (sorted_set (names ∖ qualified)) m2 ->
  forall t, t ∈ m1 ++ concat m2 <-> t ∈ candidates /\ chosen names t.
Proof.
  cbv zeta. set (qualified := filter _ names). intros E1 E2 t. pose proof Reads_test_id.
  match type of E1 with filter_m ?f _ _ = _ => set (keep := f) in E1 end.
  assert (Hk : forall t, Reads (keep t)) by (intros x; unfold keep; solve_reads).
  apply filter_m_reads in E1 as [_ H1]; [|done]. rewrite elem_of_app, H1. split.
  - intros [[Ht Hid]|Ht].
    + split; [done|]. left. unfold keep in Hid. rstep Hid id Eid. apply ret_ok in Hid as [Hid _].
      symmetry in Hid. bool_props. apply elem_of_filter in Hid as [Hs Hin].
      exists id. split; [by eapply test_id_any|done].
    + apply list_elem_of_In, in_concat in Ht as (l & Hl & Ht). apply list_elem_of_In in Hl, Ht.
      apply list_elem_of_lookup_1 in Hl as [i Hi]. eapply Forall2_lookup_r in E2 as (n & Hn & En); [|exact Hi].
      apply list_elem_of_lookup_2 in Hn. unfold sorted_set in Hn. rewrite elem_of_sort_by, elem_of_elements in Hn.
      apply elem_of_difference in Hn as [Hn Hq]. apply named_tests_ok in En as [_ Hf]. pose proof (proj1 (Hf t) Ht) as [Hcand Hx].
      split; [done|]. right. exists n. split_and!; [done|done|]. destruct (contains "/" n) eqn:Hc; [|done].
      destruct Hq. by apply elem_of_filter.
  - intros [Ht [(id & Hid & Hin & Hs)|(n & Hn & Hin & Hs)]].
    + left. split; [done|]. unfold keep. rewrite (bind_ok_eq _ _ _ _ _ (Hid w)), bool_decide_eq_true_2; [done|].
      by apply elem_of_filter.
    + right. assert (Hu : n ∈ sorted_set (names ∖ qualified)).
      { unfold sorted_set. rewrite elem_of_sort_by, elem_of_elements. apply elem_of_difference. split; [done|].
        intros [Hc _]%elem_of_filter. congruence. }
      apply list_elem_of_lookup_1 in Hu as [i Hi]. eapply Forall2_lookup_l in E2 as (l & Hl & En); [|exact Hi].
      apply named_tests_ok in En as [_ Hf]. apply list_elem_of_In, in_concat. exists l.
      split; apply list_elem_of_In; [by eapply list_elem_of_lookup_2|by apply Hf].
Qed.

Lemma match_names_ok gate candidates names r w w' :
  match_names gate candidates names w = (Ok r, w') ->
  w' = w /\ (forall t, t ∈ r <-> t ∈ candidates /\ chosen names t) /\
  (forall n, n ∈ names -> exists t, t ∈ r /\ (id_is t n \/ name_is t (JStr n))).
Proof.
  unfold match_names. cbv zeta. set (qualified := filter _ names). intros E. pose proof Reads_test_id.
  pose proof (Reads_named_tests candidates).
  rstep E m1 E1. rstep E m2 E2. apply map_m_reads in E2 as [_ E2]; [|done].
  rstep E ids Ei. rstep E short Es. rstep E u Eu. apply ret_ok in E as [-> ->]. apply fail_if_ok in Eu as [Eu _].
  bool_props. split; [done|]. split; [by eapply matches_chosen|].
  apply map_m_reads in Ei as [_ Ei]; [|done]. apply map_m_reads in Es as [_ Es]; [|intros; solve_reads].
  intros n Hn. destruct (decide (n ∈ ids)) as [Hin|Hnin].
  - apply list_elem_of_lookup_1 in Hin as [i Hi]. eapply Forall2_lookup_r in Ei as (t & Ht & Et); [|exact Hi].
    exists t. split; [by eapply list_elem_of_lookup_2|]. left. by eapply test_id_any.
  - destruct (json_in (JStr n) short) eqn:Hs.
    + apply existsb_exists in Hs as (x & Hx & Heq). apply list_elem_of_In in Hx.
      apply list_elem_of_lookup_1 in Hx as [i Hi]. eapply Forall2_lookup_r in Es as (t & Ht & Et); [|exact Hi].
      rstep Et y Ey. rstep Et v Ev. apply ret_ok in Et as [-> _].
      exists t. split; [by eapply list_elem_of_lookup_2|]. right. intros w0.
      assert (y = JStr n) as -> by (destruct y; try done; simpl in Heq; by bool_props; subst).
      by eapply getitem_any.
    + exfalso. assert (Hu : n ∈ filter (fun n => bool_decide (n ∈ ids) || json_in (JStr n) short = false) names).
      { apply elem_of_filter. split; [|done]. by rewrite bool_decide_eq_false_2, Hs. }
      rewrite Eu in Hu. by apply elem_of_empty in Hu.
Qed.

(** C35: [select_tests] selects exactly the tests that are asked for: when it returns, the gate is
    ready, and a test of the dataset is selected if and only if its suite is one of those asked
    for (of the gate, if none is), it is not excluded by the gate, and, if names are given, one
    of them is its identifier or its short name; every name is borne by a selected test, unknown
    names being an error. *)
Theorem select_tests_exact manifest gate_name suites names tests w w' :
  select_tests manifest gate_name suites names w = (Ok tests, w') ->
  w' = w /\ exists gates gate ready selected excluded_field excluded all_field all,
    getitem manifest "gates" w = (Ok gates, w) /\ get gates gate_name w = (Ok gate, w) /\
    getitem gate "ready" w = (Ok ready, w) /\ truthy ready = true /\
    (if bool_decide (default ∅ suites = ∅)
     then exists suites_field, getitem gate "suites" w = (Ok suites_field, w) /\ items_of suites_field w = (Ok selected, w)
     else selected = JStr <$> elements (default ∅ suites)) /\
    getitem gate "excluded_tests" w = (Ok excluded_field, w) /\ items_of excluded_field w = (Ok excluded, w) /\
    getitem manifest "tests" w = (Ok all_field, w) /\ items_of all_field w = (Ok all, w) /\
    (forall t, t ∈ tests <-> t ∈ all /\ candidate selected excluded t /\
       match names with Some ns => chosen ns t | None => True end) /\
    (forall ns, names = Some ns -> forall n, n ∈ ns -> exists t, t ∈ tests /\ (id_is t n \/ name_is t (JStr n))).
Proof.
  unfold select_tests. intros E. assert (Hset : forall v, Reads (set_of v)) by (intros; unfold set_of; solve_reads).
  assert (Hitems : forall v l w, set_of v w = (Ok l, w) -> items_of v w = (Ok l, w)).
  { clear. intros v l w E. unfold set_of in E. rstep E l' El. apply bind_ok in E as (? & ? & _ & E).
    by apply ret_ok in E as [-> _]. }
  rstep E gates Eg. rstep E gate Egt. rstep E u Eu. rstep E ready Er. rstep E u1 Eu1.
  destruct (truthy ready) eqn:Hready; [clear Eu1|by apply bind_ok in Eu1 as (? & ? & _ & ?)].
  cbv zeta in E. rstep E selected Es. rstep E excluded Ex. rstep Ex excluded_field Exf. apply Hitems in Ex.
  rstep E all Ea. rstep Ea all_field Eaf.
  apply bind_ok in E as (candidates & w1 & Ec & E). apply candidate_tests_ok in Ec as [-> Hc].
  assert (Hsel : if bool_decide (default ∅ suites = ∅)
     then exists suites_field, getitem gate "suites" w = (Ok suites_field, w) /\ items_of suites_field w = (Ok selected, w)
     else selected = JStr <$> elements (default ∅ suites)).
  { case_bool_decide; [|by apply ret_ok in Es as [-> _]]. rstep Es sf Esf. exists sf. split; [done|by apply Hitems]. }
  destruct names as [ns|].
  - apply match_names_ok in E as (-> & Ht & Hn). split; [done|].
    exists gates, gate, ready, selected, excluded_field, excluded, all_field, all. split_and!; try done.
    + intros t. rewrite Ht, Hc. tauto.
    + by intros ns' [= <-].
  - apply ret_ok in E as [-> ->]. split; [done|].
    exists gates, gate, ready, selected, excluded_field, excluded, all_field, all. split_and!; try done.
    intros t. rewrite Hc. tauto.
Qed.
End selection.

(** *** An instance *)

Definition demo_test (s n : string) : json := JObj [("suite", JStr s); ("name", JStr n)].
Definition demo_manifest : json :=
  JObj [("gates", JObj [("current", JObj [("ready", JBool true); ("suites", JArr [JStr "ui"]);
          ("excluded_tests", JArr [JStr "ui/fence_i"])])]);
        ("tests", JArr [demo_test "ui" "add"; demo_test "ui" "fence_i"; demo_test "um" "mul"])].

Lemma select_tests_exact_witness :
  exists t, t ∈ [demo_test "ui" "add"] /\ (id_is t "add" \/ name_is t (JStr "add")).
Proof.
  destruct (select_tests_exact demo_manifest "current" None (Some (str_set ["add"])) [demo_test "ui" "add"]
    (demo_world [] []) (demo_world [] []) ltac:(by_eval)) as (_ & ? & ? & ? & ? & ? & ? & ? & ? & H).
  destruct H as (_ & _ & _ & _ & _ & _ & _ & _ & _ & _ & Hn). apply (Hn _ eq_refl).
  unfold str_set. apply elem_of_list_to_set. left.
Defined.
