(* ===== verification/Regression.v ===== *)
(** [scripts/run_regression.py]: the tests of a test list are built, run and
    summarised. *)
From Stdlib Require Import ZArith Lia.
From S2P Require Import Elf2mem Prelude Str Json Py Store Lib Helpers BuildSoftware Verilator IsaTests.
Local Open Scope Z_scope.
Local Open Scope py_scope.

(** [x in v]: an element of an array, a key of an object, a part of a text. *)
Definition json_contains (v : json) (x : string) : M bool :=
  match v with
  | JArr l => mret (json_in (JStr x) l)
  | JObj d => mret (dict_mem x d)
  | JStr s => mret (contains x s)
  | _ => raise TypeError "argument is not iterable"
  end.

(** A field of the test list with the type the test runner gives it. *)
Definition as_int (v : json) : M Z :=
  match v with
  | JInt n => mret n
  | JBool b => mret (if b then 1 else 0)
  | _ => raise TypeError "expected an integer"
  end.
Definition as_strings (v : json) : M (list string) := l ← items_of v; map_m as_str l.

Section regression.
Context `{Host}.
(** [fixed d v] is the text of [f"{v:.<d>f}"] for a value of a document, or the error of a value
    that is no number: the decimal expansion of a binary float, which the model does not compute. *)
Variable fixed : nat -> json -> result string.
Definition fixed_text (d : nat) (v : json) : M string := fun w => (fixed d v, w).

Definition display_testlist_path (p : path) : M string :=
  resolved ← resolve p;
  try_except (relative_text resolved (repo_path [])) is_value_error
    (fun _ => mret (path_str resolved)).

Definition performance_line (result : json) : M (option string) :=
  performance ← get result "performance";
  if negb (is_dict performance) then mret None else
  complete ← get performance "complete";
  if negb (truthy complete) then mret None else
  cycles ← text_at performance ["cycles"];
  commits ← text_at performance ["commits"];
  ipc ← (x ← getitem performance "ipc"; fixed_text 6 x);
  per_iteration ← (x ← getitem performance "cycles_per_iteration"; fixed_text 2 x);
  per_second ← (x ← getitem performance "iterations_per_second"; fixed_text 3 x);
  mret (Some ("window=" +:+ cycles +:+ " cycles, commits=" +:+ commits +:+ ", IPC=" +:+ ipc +:+
              ", cycles/iteration=" +:+ per_iteration +:+ ", iterations/sim-second=" +:+ per_second)).

Record args := {
  a_testlist : path;
  a_suite : string;
  a_no_rtl_build : bool;
  a_trace : bool;
  a_run_dir : option path;
  a_competition_config : option path;
  a_difftest : bool;
  a_no_difftest : bool
}.

Definition select (document : json) (suite : string) : M (list json) :=
  tests ← (x ← getitem document "tests"; items_of x);
  filter_m (fun test => s ← getitem test "suite"; json_contains s suite) tests.

(** Competition tests need a run directory, and nothing else may have one. *)
Definition check_selection (a : args) (tests : list json) : M unit :=
  (if bool_decide (tests = []) then parser_error ("no tests selected for suite " +:+ a_suite a)
   else mret tt) ;;
  competition_tests ← filter_m (fun test =>
    i ← get test "image"; mret (json_eqb i (JStr contest_profile))) tests;
  (if negb (bool_decide (competition_tests = [])) && bool_decide (a_run_dir a = None)
   then parser_error "competition tests require --run-dir" else mret tt) ;;
  (if negb (bool_decide (a_run_dir a = None)) && negb (len competition_tests =? len tests)
   then parser_error "--run-dir can only be used with competition tests" else mret tt).

(** Whether a test runs with the reference model. *)
Definition difftest_enabled (a : args) (difftest_config : json) : M bool :=
  configured ← get_default difftest_config "enabled" (JBool false);
  mret (if a_difftest a then true else if a_no_difftest a then false else truthy configured).

Definition test_run (a : args) (test : json) : M profile_run :=
  performance ← get_default test "performance" (JObj []);
  difftest_config ← get_default test "difftest" (JObj []);
  enabled ← difftest_enabled a difftest_config;
  image ← (x ← getitem test "image"; as_str x);
  n ← (x ← getitem test "name"; as_str x);
  max_cycles ← (x ← getitem test "max_cycles"; as_int x);
  seed ← (x ← get_default test "seed" (JInt 1); as_int x);
  perf ← get_default performance "enabled" (JBool false);
  iterations ← (x ← get_default performance "iterations" (JInt 0); as_int x);
  wall ← (x ← get_default test "max_wall_seconds" (JInt 600); as_int x);
  uart_command ← (x ← get_default test "uart_command" (JStr ""); as_str x);
  followups ← (x ← get_default test "uart_followup_commands" (JArr []); as_strings x);
  prompt ← (x ← get_default test "uart_prompt" (JStr "msh >"); as_str x);
  prompt_timeout ← (x ← get_default test "uart_prompt_timeout" (JInt 5000000); as_int x);
  checker ← (x ← getitem test "checker"; as_str x);
  expect ← (x ← get_default test "uart_expect" (JArr []); as_strings x);
  reject ← (x ← get_default test "uart_reject" (JArr []); as_strings x);
  mode ← (x ← get_default difftest_config "mode"
                (JStr (if startswith image "rtthread" then "soc-mmio" else "ram-strict")); as_str x);
  isa ← (x ← get_default difftest_config "isa" (JStr ""); as_str x);
  mret {|
    p_profile := image; p_test_name := n; p_max_cycles := max_cycles;
    p_rebuild_model := negb (a_no_rtl_build a); p_build_sw := true; p_trace := a_trace a;
    p_seed := seed; p_performance := Some (truthy perf); p_benchmark_iterations := Some iterations;
    p_wall_timeout := wall; p_require_pass := false;
    p_uart_command := uart_command; p_uart_followup_commands := followups;
    p_uart_prompt := prompt; p_uart_prompt_timeout := prompt_timeout; p_checker := checker;
    p_uart_expect := Some expect; p_uart_reject := Some reject;
    p_difftest := enabled; p_difftest_mode := mode; p_difftest_isa := isa; p_difftest_fault := "";
    p_run_dir := a_run_dir a; p_competition_config := a_competition_config a |}.

(** What the summary says of the performance of one test. *)
Definition performance_result (result : json) : M (list json) :=
  line ← performance_line result;
  match line with
  | None => mret []
  | Some text =>
      n ← getitem result "test";
      fields ← (x ← getitem result "performance"; dict_items x);
      print ("Performance " +:+ str_json n +:+ ": " +:+ text) ;;
      mret [JObj (foldl (fun d kv => dict_set kv.1 kv.2 d) [("test", n)] fields)]
  end.

Fixpoint run_all (a : args) (tests : list json) : M (list json * list json * option path) :=
  match tests with
  | [] => mret ([], [], None)
  | test :: tests' =>
      o ← test_run a test;
      result_path ← run_profile o;
      result ← load_json result_path;
      perf ← performance_result result;
      '(results, performance_results, last_path) ← run_all a tests';
      mret (result :: results, perf ++ performance_results,
            match last_path with Some p => Some p | None => Some result_path end)
  end.

(** [any(result.get("difftest", {}).get("enabled", False) for result in results)] *)
Fixpoint any_difftest (results : list json) : M bool :=
  match results with
  | [] => mret false
  | result :: results' =>
      d ← get_default result "difftest" (JObj []);
      e ← get_default d "enabled" (JBool false);
      if truthy e then mret true else any_difftest results'
  end.

Definition main (a : args) : M Z :=
  document ← read_json (a_testlist a);
  tests ← select document (a_suite a);
  check_selection a tests ;;
  '(results, performance_results, result_path) ← run_all a tests;
  passed ← all_passed results;
  let summary_path := match a_run_dir a, result_path with
                      | Some _, Some p => pnames (parent p) ["regression_summary.json"]
                      | _, _ => repo_path ["build"; "regression"; a_suite a; "summary.json"]
                      end in
  difftest ← any_difftest results;
  model_manifest ← read_json (model_paths difftest false).2;
  testlist ← display_testlist_path (a_testlist a);
  digest ← sha256_file (a_testlist a);
  fingerprint ← getitem model_manifest "fingerprint";
  write_json_atomic summary_path
    (JObj [("schema_version", JInt 1); ("kind", JStr "regression"); ("target", JStr "soc-verilator");
           ("status", JStr (if passed : bool then "PASS" else "FAIL")); ("suite", JStr (a_suite a));
           ("testlist", JObj [("path", JStr testlist); ("sha256", JStr digest)]);
           ("model_fingerprint", fingerprint); ("tests", JArr results);
           ("performance", JArr performance_results)]) ;;
  print ("Regression summary: " +:+ path_str summary_path) ;;
  mret (if passed : bool then 0 else 1).
End regression.

(** ** What a test list asks for *)

(** The test is of the suite. *)
Definition in_suite (suite : string) (test : json) : bool :=
  match test with
  | JObj d =>
      match dict_get "suite" d with
      | Some (JArr l) => existsb (fun v => match v with JStr s => String.eqb s suite | _ => false end) l
      | Some (JObj e) => bool_decide (suite ∈ e.*1)
      | Some (JStr s) => contains suite s
      | _ => false
      end
  | _ => false
  end.

(** The fields of a test, with the values they have when they are not there. *)
Definition int_field (d : list (string * json)) (k : string) (missing n : Z) : Prop :=
  match dict_get k d with
  | Some (JInt m) => n = m
  | Some (JBool b) => n = if b then 1 else 0
  | Some _ => False
  | None => n = missing
  end.
Definition str_field (d : list (string * json)) (k missing s : string) : Prop :=
  match dict_get k d with Some v => v = JStr s | None => s = missing end.
Definition strs_field (d : list (string * json)) (k : string) (l : list string) : Prop :=
  match dict_get k d with
  | Some (JArr v) => v = JStr <$> l
  | Some (JObj e) => l = e.*1
  | Some (JStr s) => char_items s = JStr <$> l
  | Some _ => False
  | None => l = []
  end.
Definition object_field (d : list (string * json)) (k : string) (e : list (string * json)) : Prop :=
  match dict_get k d with Some v => v = JObj e | None => e = [] end.
Definition flag_field (d : list (string * json)) (k : string) : bool :=
  match dict_get k d with Some v => truthy v | None => false end.

(** The run that a test and the command line ask for. *)
Record fields_asked (a : args) (d performance difftest : list (string * json)) (o : profile_run) : Prop := {
  fa_image : dict_get "image" d = Some (JStr (p_profile o));
  fa_name : dict_get "name" d = Some (JStr (p_test_name o));
  fa_checker : dict_get "checker" d = Some (JStr (p_checker o));
  fa_cycles : dict_get "max_cycles" d <> None /\ int_field d "max_cycles" 0 (p_max_cycles o);
  fa_seed : int_field d "seed" 1 (p_seed o);
  fa_wall : int_field d "max_wall_seconds" 600 (p_wall_timeout o);
  fa_command : str_field d "uart_command" "" (p_uart_command o);
  fa_followups : strs_field d "uart_followup_commands" (p_uart_followup_commands o);
  fa_prompt : str_field d "uart_prompt" "msh >" (p_uart_prompt o);
  fa_prompt_timeout : int_field d "uart_prompt_timeout" 5000000 (p_uart_prompt_timeout o);
  fa_expect : exists l, p_uart_expect o = Some l /\ strs_field d "uart_expect" l;
  fa_reject : exists l, p_uart_reject o = Some l /\ strs_field d "uart_reject" l;
  fa_performance : p_performance o = Some (flag_field performance "enabled");
  fa_iterations : exists n, p_benchmark_iterations o = Some n /\ int_field performance "iterations" 0 n;
  fa_difftest : p_difftest o = a_difftest a || negb (a_no_difftest a) && flag_field difftest "enabled";
  fa_mode : str_field difftest "mode" (if startswith (p_profile o) "rtthread" then "soc-mmio" else "ram-strict")
              (p_difftest_mode o);
  fa_isa : str_field difftest "isa" "" (p_difftest_isa o);
  fa_rest : p_rebuild_model o = negb (a_no_rtl_build a) /\ p_build_sw o = true /\ p_trace o = a_trace a /\
    p_require_pass o = false /\ p_difftest_fault o = "" /\ p_run_dir o = a_run_dir a /\
    p_competition_config o = a_competition_config a
}.
Definition run_asked (a : args) (test : json) (o : profile_run) : Prop := exists d performance difftest,
  test = JObj d /\ object_field d "performance" performance /\ object_field d "difftest" difftest /\
  fields_asked a d performance difftest o.

(** Some lines printed. *)
Definition printed_lines (w w' : world) : Prop := exists lines, w' = foldl (fun w l => log (EvOut l) w) w lines.

(** The tests are run one after the other, from [w] to [w']: each is the run asked for, starts
    where the one before has ended, and its result is the document that it leaves. *)
Inductive tests_ran `{Host} (a : args) : list json -> list json -> list path -> world -> world -> Prop :=
  | ran_none w : tests_ran a [] [] [] w w
  | ran_test test tests o p result results paths w w1 w2 w' :
      run_asked a test o -> run_profile o w = (Ok p, w1) -> load_json p w1 = (Ok result, w1) ->
      printed_lines w1 w2 -> tests_ran a tests results paths w2 w' ->
      tests_ran a (test :: tests) (result :: results) (p :: paths) w w'.

(** ** What a successful regression is *)

Definition has_status (s : string) (result : json) : Prop :=
  exists d, result = JObj d /\ dict_get "status" d = Some (JStr s).
Definition competition_test (test : json) : Prop :=
  exists d, test = JObj d /\ dict_get "image" d = Some (JStr contest_profile).

Section facts.
Context `{Host}.
Variable fixed : nat -> json -> result string.

Lemma Reads_json_contains v x : Reads (json_contains v x).
Proof. unfold json_contains. solve_reads. Qed.
#[local] Hint Resolve Reads_json_contains : reads.
Lemma Reads_select document suite : Reads (select document suite).
Proof. unfold select. solve_reads. Qed.
Lemma Reads_all_passed results : Reads (all_passed results).
Proof. unfold all_passed. solve_reads. Qed.
#[local] Hint Resolve Reads_select Reads_all_passed : reads.

(** A suite passes exactly if every result says so. *)
Lemma all_passed_ok results b w w' : all_passed results w = (Ok b, w') ->
  b = true <-> Forall (has_status "PASS") results.
Proof.
  unfold all_passed. revert b. induction results as [|result results IH]; intros b E; cbn [all_m] in E.
  { apply ret_ok in E as [-> _]. split; [by constructor|done]. }
  rstep E x Ex. rstep Ex s Es. apply ret_ok in Ex as [-> _].
  destruct result; try done. cbn in Es. apply lift_opt_ok in Es as [Hs _].
  destruct (json_eqb s (JStr "PASS")) eqn:Ep.
  - apply json_eqb_str in Ep as ->. rewrite (IH _ E), Forall_cons. split; [|tauto].
    intros ?. split; [by eexists|done].
  - apply ret_ok in E as [-> _]. split; [done|]. rewrite Forall_cons. intros [(d' & [= <-] & Hd) _].
    rewrite Hs in Hd. injection Hd as ->. by cbn in Ep.
Qed.

Lemma competition_filter_ok tests l w w' :
  filter_m (fun test => i ← get test "image"; mret (json_eqb i (JStr contest_profile))) tests w = (Ok l, w') ->
  w' = w /\ (forall test, test ∈ l -> test ∈ tests /\ competition_test test) /\
  (forall test, test ∈ tests -> competition_test test -> test ∈ l).
Proof.
  intros E. apply filter_m_reads in E as [-> Hl]; [|intros; solve_reads].
  assert (Hc : forall test, (i ← get test "image"; mret (json_eqb i (JStr contest_profile))) w = (Ok true, w) <->
    competition_test test).
  { intros test. unfold get, get_default, competition_test. split.
    - intros E. rstep E i Ei. apply ret_ok in E as [E _]. symmetry in E. apply json_eqb_str in E as ->.
      destruct test; try done. apply ret_ok in Ei as [Ei _]. eexists. split; [done|].
      destruct (dict_get _ _); [by subst|done].
    - intros (d & -> & Hd). rewrite Hd. done. }
  split; [done|]. setoid_rewrite <- Hc. split; intros test Hin; [|intros ?]; apply Hl; [done|by split].
Qed.

Lemma filter_m_full {A} (f : A -> M bool) l r w w' : filter_m f l w = (Ok r, w') ->
  (length r <= length l)%nat /\ (length r = length l -> r = l).
Proof.
  revert r w w'. induction l as [|x l IH]; intros r w w' E; cbn [filter_m] in E; [by apply ret_ok in E as [-> _]|].
  apply bind_ok in E as (b & w1 & _ & E). apply bind_ok in E as (r' & w2 & Er & E).
  apply ret_ok in E as [-> _]. apply IH in Er as [Hle Heq].
  destruct b; cbn [length]; split; intros; try lia. f_equal. apply Heq. lia.
Qed.

(** A run directory is given exactly for the competition tests. *)
Lemma check_selection_ok a tests u w w' : check_selection a tests w = (Ok u, w') ->
  w' = w /\ tests <> [] /\ forall test, test ∈ tests -> (competition_test test <-> a_run_dir a <> None).
Proof.
  unfold check_selection. intros E. apply bind_ok in E as (u1 & w1 & E1 & E).
  destruct (bool_decide_reflect (tests = [])) as [|Hne] in E1; [done|]. apply ret_ok in E1 as [_ ->].
  apply bind_ok in E as (l & w2 & El & E). pose proof (filter_m_full _ _ _ _ _ El) as [_ Hfull].
  apply competition_filter_ok in El as (-> & Hl & Hl').
  apply bind_ok in E as (u2 & w3 & E2 & E).
  assert (w3 = w /\ (l <> [] -> a_run_dir a <> None)) as [-> Hgiven].
  { destruct (bool_decide_reflect (l = [])); [by apply ret_ok in E2 as [_ ->]|].
    destruct (bool_decide_reflect (a_run_dir a = None)); [done|]. by apply ret_ok in E2 as [_ ->]. }
  assert (w' = w /\ (a_run_dir a <> None -> l = tests)) as [-> Hall].
  { destruct (bool_decide_reflect (a_run_dir a = None)); [by apply ret_ok in E as [_ ->]|]. cbn [negb andb] in E.
    destruct (Z.eqb_spec (len l) (len tests)) as [Heq|]; [|done]. apply ret_ok in E as [_ ->].
    split; [done|]. intros _. apply Hfull. lia. }
  split_and!; [done|done|]. intros test Hin. split.
  - intros Hc. apply Hgiven. intros ->. by apply (Hl' _ Hin), elem_of_nil in Hc.
  - intros Hrun. rewrite (Hall Hrun) in Hl. by apply Hl.
Qed.

Lemma Reads_as_int v : Reads (as_int v).
Proof. unfold as_int. solve_reads. Qed.
Lemma Reads_as_strings v : Reads (as_strings v).
Proof. unfold as_strings. solve_reads. Qed.
Lemma Reads_difftest_enabled a v : Reads (difftest_enabled a v).
Proof. unfold difftest_enabled. solve_reads. Qed.
#[local] Hint Resolve Reads_as_int Reads_as_strings Reads_difftest_enabled : reads.
Lemma Reads_test_run a test : Reads (test_run a test).
Proof. unfold test_run. solve_reads. Qed.

(** *** The fields *)

Lemma as_int_field d k z n w w' : (x ← get_default (JObj d) k (JInt z); as_int x) w = (Ok n, w') ->
  w' = w /\ int_field d k z n.
Proof.
  intros E. rstep E x Ex. unfold get_default in Ex. apply ret_ok in Ex as [-> _]. unfold int_field.
  destruct (dict_get k d) as [[]|]; try done; by apply ret_ok in E as [-> ->].
Qed.

Lemma as_str_field d k s t w w' : (x ← get_default (JObj d) k (JStr s); as_str x) w = (Ok t, w') ->
  w' = w /\ str_field d k s t.
Proof.
  intros E. rstep E x Ex. unfold get_default in Ex. apply ret_ok in Ex as [-> _]. unfold str_field.
  destruct (dict_get k d) as [[]|]; try done; by apply ret_ok in E as [-> ->].
Qed.

Lemma map_as_str l r w w' : map_m as_str l w = (Ok r, w') -> w' = w /\ l = JStr <$> r.
Proof.
  intros E. apply map_m_reads in E as [-> E]; [|intros; solve_reads]. split; [done|].
  induction E as [|x y l r Hx _ IH]; [done|]. rewrite fmap_cons, <- IH.
  destruct x; try done. by apply ret_ok in Hx as [-> _].
Qed.

Lemma as_strs_field d k l w w' : (x ← get_default (JObj d) k (JArr []); as_strings x) w = (Ok l, w') ->
  w' = w /\ strs_field d k l.
Proof.
  intros E. rstep E x Ex. unfold get_default in Ex. apply ret_ok in Ex as [-> _]. unfold as_strings in E.
  rstep E items Ei. apply map_as_str in E as [-> E]. split; [done|]. unfold strs_field.
  destruct (dict_get k d) as [[| | | |s|v|e]|]; try done; apply ret_ok in Ei as [-> _]; try done.
  - assert (Hj : Inj eq eq JStr) by by intros ? ? [=]. by apply (inj (fmap JStr)) in E.
  - by destruct l.
Qed.

Lemma object_field_ok d k v w w' : get_default (JObj d) k (JObj []) w = (Ok v, w') -> forall j x r w1,
  get_default v j x w' = (Ok r, w1) -> exists e, v = JObj e /\ object_field d k e /\
    r = match dict_get j e with Some y => y | None => x end.
Proof.
  intros E j x r w1 Er. unfold get_default in E. apply ret_ok in E as [-> _]. unfold object_field.
  destruct (dict_get k d) as [[]|]; try done; apply ret_ok in Er as [-> _]; by eexists.
Qed.

Lemma str_item d k s w w' : (x ← getitem (JObj d) k; as_str x) w = (Ok s, w') -> w' = w /\ dict_get k d = Some (JStr s).
Proof.
  intros E. rstep E x Ex. apply lift_opt_ok in Ex as [Ex _]. destruct x; try done. by apply ret_ok in E as [-> ->].
Qed.

Lemma test_run_asked a test o w w' : test_run a test w = (Ok o, w') -> w' = w /\ run_asked a test o.
Proof.
  unfold test_run. intros E. rstep E pv Ep. destruct test as [| | | | | |d]; try done.
  rstep E dv Ed. rstep E en Een. rstep E image Ei. rstep E nm En. rstep E cycles Ec. rstep E seed Es.
  rstep E perf Epf. rstep E iters Eit. rstep E wall Ew. rstep E cmd Ecmd. rstep E fol Ef. rstep E prompt Epr.
  rstep E pt Ept. rstep E chk Ech. rstep E ex Eex. rstep E rj Erj. rstep E mode Em. rstep E isa Eisa.
  apply ret_ok in E as [-> ->]. split; [done|].
  destruct (object_field_ok _ _ _ _ _ Ep _ _ _ _ Epf) as (performance & -> & Hp & ->).
  unfold difftest_enabled in Een. rstep Een cf Ecf. apply ret_ok in Een as [-> _].
  destruct (object_field_ok _ _ _ _ _ Ed _ _ _ _ Ecf) as (difftest & -> & Hd & ->).
  exists d, performance, difftest. split_and!; [done|done|done|].
  apply str_item in Ei as [_ Hi], En as [_ Hn], Ech as [_ Hch].
  apply as_int_field in Es as [_ Hs], Eit as [_ Hit], Ew as [_ Hw], Ept as [_ Hpt].
  apply as_str_field in Ecmd as [_ Hcmd], Epr as [_ Hpr], Em as [_ Hm], Eisa as [_ Hisa].
  apply as_strs_field in Ef as [_ Hf], Eex as [_ Hex], Erj as [_ Hrj].
  constructor; cbn; try done; try by eexists.
  - rstep Ec x Ex. apply lift_opt_ok in Ex as [Ex _]. unfold int_field. rewrite Ex.
    destruct x; try done; by apply ret_ok in Ec as [-> _].
  - unfold flag_field. by destruct (dict_get "enabled" performance).
  - unfold flag_field. destruct (a_difftest a), (a_no_difftest a); try done. by destruct (dict_get "enabled" difftest).
Qed.

(** *** The selection *)

Lemma json_contains_ok v x b w w' : json_contains v x w = (Ok b, w') -> w' = w /\
  b = match v with
      | JArr l => existsb (fun v => match v with JStr s => String.eqb s x | _ => false end) l | JObj e => bool_decide (x ∈ e.*1) | JStr s => contains x s
      | _ => false
      end.
Proof.
  unfold json_contains. destruct v as [| | | |s|l|e]; try done; intros [-> ->]%ret_ok; (split; [done|]); [done| |].
  - unfold json_in. induction l as [|y l IH]; [done|]. cbn [existsb]. rewrite IH. f_equal.
    destruct y; try done. cbn. apply String.eqb_sym.
  - apply eq_true_iff_eq. rewrite bool_decide_eq_true. unfold dict_mem.
    pose proof (dict_get_None x e) as Hn. unfold dict_keys in Hn.
    destruct (dict_get x e) as [y|]; [|split; [done|]; intros Hx; by destruct (proj1 Hn eq_refl)].
    split; [intros _|done]. apply dec_stable. intros Hx. by apply Hn in Hx.
Qed.

Lemma select_ok document suite tests w w' : select document suite w = (Ok tests, w') -> tests <> [] ->
  w' = w /\ exists d all, document = JObj d /\ dict_get "tests" d = Some (JArr all) /\
    tests = filter (fun test => in_suite suite test = true) all.
Proof.
  unfold select. intros E Hne. pose proof (Reads_select document suite w _ _ E) as ->. split; [done|].
  rstep E l El. rstep El v Ev. destruct document as [| | | | | |d]; try done. apply lift_opt_ok in Ev as [Ev _].
  assert (Hsel : tests = filter (fun test => in_suite suite test = true) l).
  { clear El Ev Hne. revert tests E. induction l as [|t l IH]; intros tests E; [by apply ret_ok in E as [-> _]|].
    cbn [filter_m] in E. rstep E b Eb. rstep E r Er. apply ret_ok in E as [-> _]. apply IH in Er as ->.
    rstep Eb s Es. apply json_contains_ok in Eb as [_ Hb].
    assert (in_suite suite t = b) as Hin.
    { destruct t as [| | | | | |e]; try done. apply lift_opt_ok in Es as [Es _]. unfold in_suite. by rewrite Es, Hb. }
    destruct b; [by rewrite filter_cons_True|]. rewrite filter_cons_False; [done|congruence]. }
  exists d, l. split_and!; [done| |done]. rewrite Ev. destruct v as [| | | |s|l'|e]; try done.
  - apply ret_ok in El as [-> _]. destruct Hne. rewrite Hsel. clear. induction s as [|c s IH]; [done|].
    cbn [char_items]. by rewrite filter_cons_False.
  - by apply ret_ok in El as [-> _].
  - apply ret_ok in El as [-> _]. destruct Hne. rewrite Hsel. clear. induction e as [|x e IH]; [done|].
    rewrite fmap_cons, fmap_cons. by rewrite filter_cons_False.
Qed.

(** *** The runs *)

Lemma Reads_fixed_text d v : Reads (fixed_text fixed d v).
Proof. unfold fixed_text. by intros w r w' [= _ <-]. Qed.
#[local] Hint Resolve Reads_fixed_text : reads.
Lemma Reads_performance_line result : Reads (performance_line fixed result).
Proof. unfold performance_line. solve_reads. Qed.
#[local] Hint Resolve Reads_performance_line : reads.

Lemma performance_printed result l w w' : performance_result fixed result w = (Ok l, w') -> printed_lines w w'.
Proof.
  unfold performance_result. intros E. rstep E line El. destruct line as [text|]; [|apply ret_ok in E as [_ ->]; by exists []].
  rstep E n En. rstep E fields Ef. apply bind_ok in E as (u & w1 & E1 & E). apply ret_ok in E as [_ ->].
  injection E1 as _ <-. by eexists [_].
Qed.

Lemma run_all_ran a tests : forall results perf latest w w',
  run_all fixed a tests w = (Ok (results, perf, latest), w') ->
  exists paths, tests_ran a tests results paths w w' /\ latest = last paths.
Proof.
  induction tests as [|test tests IH]; intros results perf latest w w' E; cbn [run_all] in E.
  { apply ret_ok in E as [[= -> _ ->] ->]. exists []. split; [constructor|done]. }
  apply bind_ok in E as (o & w1 & Eo & E). apply test_run_asked in Eo as [-> Ho].
  apply bind_ok in E as (p & w2 & Ep & E). apply bind_ok in E as (result & w3 & El & E).
  pose proof (Reads_load_json _ _ _ _ El) as ->.
  apply bind_ok in E as (pf & w4 & Epf & E). apply performance_printed in Epf.
  apply bind_ok in E as ([[rs pfs] lp] & w5 & Er & E). apply ret_ok in E as [[= -> _ ->] ->].
  apply IH in Er as (paths & Hr & ->). exists (p :: paths). split; [by econstructor|].
  rewrite last_cons. by destruct (last paths).
Qed.

Lemma Reads_any_difftest results : Reads (any_difftest results).
Proof. induction results as [|r results IH]; cbn [any_difftest]; solve_reads. Qed.
Lemma Reads_display p : Reads (display_testlist_path p).
Proof. unfold display_testlist_path. solve_reads. Qed.
#[local] Hint Resolve Reads_any_difftest Reads_display : reads.

(** C26: the exit code of a regression is the verdict of its tests.  When [run_regression] ends, its
    tests are those of the list that name the suite, in the order of the list, and there is at least
    one; a run directory was given exactly if they are competition tests; they were run one after the
    other, each with the settings that the list and the command line ask for (the seed, the limits,
    the checker, the texts expected and rejected, the reference model or not), and its result is the
    document it left; and the exit code is 0 if the status of every result is PASS, else 1.  The
    summary that was then written, atomically and where the run belongs, says the same and holds all
    the results. *)
Theorem regression_verdict a n w w' : main fixed a w = (Ok n, w') ->
  exists d all results paths w1 summary w2,
    let tests := filter (fun test => in_suite (a_suite a) test = true) all in
    read_json (a_testlist a) w = (Ok (JObj d), w) /\ dict_get "tests" d = Some (JArr all) /\
    tests <> [] /\ (forall test, test ∈ tests -> (competition_test test <-> a_run_dir a <> None)) /\
    tests_ran a tests results paths w w1 /\
    (n = 0 <-> Forall (has_status "PASS") results) /\ (n = 0 \/ n = 1) /\
    write_json_atomic
      match a_run_dir a, last paths with
      | Some _, Some p => pnames (parent p) ["regression_summary.json"]
      | _, _ => repo_path ["build"; "regression"; a_suite a; "summary.json"]
      end (JObj summary) w1 = (Ok tt, w2) /\ printed_lines w2 w' /\
    dict_get "status" summary = Some (JStr (if n =? 0 then "PASS" else "FAIL")) /\
    dict_get "suite" summary = Some (JStr (a_suite a)) /\ dict_get "tests" summary = Some (JArr results).
Proof.
  unfold main. intros E. rstep E document Ed. rstep E tests Es.
  apply bind_ok in E as (u & w1 & Ec & E). apply check_selection_ok in Ec as (-> & Hne & Hrun).
  apply select_ok in Es as (_ & d & all & -> & Hall & ->); [|done].
  apply bind_ok in E as ([[results perf] latest] & w2 & Er & E). apply run_all_ran in Er as (paths & Hran & ->).
  rstep E passed Ep. pose proof (all_passed_ok _ _ _ _ Ep) as Hp. cbv zeta in E.
  rstep E difftest Edt. rstep E manifest Em. rstep E testlist Et. rstep E digest Edg. rstep E fingerprint Ef.
  apply bind_ok in E as ([] & w8 & Ew & E).
  apply bind_ok in E as (u1 & w9 & E1 & E). injection E1 as _ <-. apply ret_ok in E as [-> ->].
  exists d, all, results, paths, w2. do 2 eexists. cbv zeta. split_and!; try done.
  - rewrite <- Hp. by destruct passed.
  - destruct passed; auto.
  - by eexists [_].
  - by destruct passed.
Qed.
End facts.

(** *** An instance *)

Definition demo_machine : Host := demo_exec_host ["repo"] (fun c w =>
  let text := join " " (c_argv c) in
  if contains "verilator" text || contains "--max-cycles" text
  then @host_exec demo_verilator c w else @host_exec demo_tools c w).
Definition demo_contract : json := JObj
  [("cpu", JObj [("march", JStr "rv32imac"); ("mabi", JStr "ilp32")]);
   ("clocks", JObj [("soc_hz", JInt 100000000); ("uart_baud", JInt 115200)])].
Definition demo_tests : json := JObj
  [("tests", JArr [JObj [("name", JStr "t"); ("suite", JArr [JStr "smoke"]); ("image", JStr "smoke");
                         ("max_cycles", JInt 100); ("checker", JStr "test-status")]])].
Definition demo_regression_world : world := demo_world
  ([(repo_key "build/software/smoke/firmware.elf", of_bytes demo_elf);
    (repo_key "software/a.c", "int main;");
    (repo_key "data/soc/memory_map.json", dumps demo_memory_map);
    (repo_key "data/soc/software_contract.json", dumps demo_contract);
    (repo_key "data/tests/list.json", dumps demo_tests);
    (repo_key "sim/filelists/soc_verilator.f", demo_filelist); (repo_key "rtl/top.sv", "module");
    (repo_key "sim/verilator/common_flags.f", "--cc");
    (repo_key "data/schemas/result.schema.json", "{}");
    (repo_key "build/images/smoke/image.json", "{}")] ++
   ((fun s => (repo_key s, "//")) <$> CPP_SOURCES) ++
   ((fun s => (repo_key ("build/images/smoke/" +:+ s), "@0")) <$> memory_files))
  [["repo"]; repo_key "software"; repo_key "data"; repo_key "data/soc"; repo_key "build";
   repo_key "build/software"; repo_key "build/software/smoke"; repo_key "build/images";
   repo_key "build/images/smoke"].
Definition demo_regression_args : args := {|
  a_testlist := Path true (repo_key "data/tests/list.json"); a_suite := "smoke"; a_no_rtl_build := false;
  a_trace := false; a_run_dir := None; a_competition_config := None; a_difftest := false;
  a_no_difftest := false |}.
Notation demo_regression := (main (H := demo_machine) (fun _ _ => Ok "") demo_regression_args demo_regression_world).

Lemma regression_verdict_witness : exists tests results paths w1,
  tests_ran (H := demo_machine) demo_regression_args tests results paths demo_regression_world w1 /\
  Forall (has_status "PASS") results /\ tests <> [].
Proof.
  destruct (regression_verdict (H := demo_machine) (fun _ _ => Ok "") demo_regression_args 0
    demo_regression_world demo_regression.2)
    as (d & all & results & paths & w1 & summary & w2 & _ & _ & Hne & _ & Hran & Hpass & _); [by_eval|].
  eexists _, results, paths, w1. split; [exact Hran|]. split; [by apply Hpass|exact Hne].
Defined.
