(* ===== verification/RtlClean.v ===== *)
(** [scripts/clean_rtl_sources.py]: comments are removed from the RTL sources and
    their lines are tidied. *)
From Stdlib Require Import ZArith Lia.
From S2P Require Import Prelude Str Py Lib.
Local Open Scope py_scope.

Definition RTL_SUFFIXES : list string := [".sv"; ".svh"; ".v"; ".vh"].
Definition KEEP_COMMENT_MARKERS : list string :=
  ["spdx-license-identifier"; "copyright"; "verilator"; "synopsys"; "synthesis translate";
   "translate_off"; "translate_on"].
Definition IDENTIFIER_RENAMES : list (string * string) :=
  [("icache_err_pkt_t", "fetch_error_pkt_t"); ("ic_hit_f2", "tcm_fetch_valid_f2");
   ("ic_data_f2", "fetch_data_f2"); ("ic_fetch_val_f2", "fetch_byte_valid_f2");
   ("ic_access_fault_f2", "fetch_access_fault_f2"); ("ic_crit_wd_rdy", "critical_word_ready");
   ("ic_rd_parity_final_err", "fetch_parity_error"); ("ic_error_f2", "fetch_error_f2");
   ("ifu_pmu_ic_miss", "ifu_pmu_fetch_miss"); ("ifu_pmu_ic_hit", "ifu_pmu_fetch_hit");
   ("ifu_icache_error_index", "ifu_fetch_error_index");
   ("ifu_icache_sb_error_val", "ifu_fetch_single_bit_error");
   ("ifu_icache_fetch_f2", "fetch_parity_qualifier_f2");
   ("ifu_icache_error_val", "ifu_fetch_parity_error_valid")].

(** Lower-casing the ASCII letters decides the test: the other letters Python lowers
    never become a letter of a marker. *)
Definition keep_comment (comment : string) : bool :=
  existsb (fun marker => contains marker (lower comment)) KEEP_COMMENT_MARKERS.

(** The part of [s] up to the next line feed, and the rest. *)
Definition to_line_end (s : string) : string * string :=
  match find nl s with None => (s, "") | Some n => (stake n s, sdrop n s) end.

(** A block comment at the head of [s], closed by the first end after its opening. *)
Definition block_comment (s : string) : option (string * string) :=
  match find "*/" (sdrop 2 s) with
  | None => None
  | Some n => Some (stake (2 + n + 2) s, sdrop (2 + n + 2) s)
  end.

(** The line ends of a removed block comment. *)
Fixpoint line_ends (s : string) : string :=
  match s with
  | EmptyString => ""
  | String c s' => if char_in (cr +:+ nl) c then String c (line_ends s') else line_ends s'
  end.

(** What is written for a comment. *)
Definition line_text (comment : string) : string := if keep_comment comment then comment else "".
Definition block_text (comment : string) : string :=
  if keep_comment comment then comment else " " +:+ line_ends comment.

(** The loop over the characters; [None] is the error of an unterminated comment. *)
Fixpoint remove_loop (fuel : nat) (in_string escaped : bool) (s : string) : option string :=
  match fuel, s with
  | O, _ | _, EmptyString => Some ""
  | S fuel, String char s' =>
      if in_string then
        String char <$>
        (if escaped then remove_loop fuel true false s'
         else if Ascii.eqb char (chr 92) then remove_loop fuel true true s'
         else remove_loop fuel (negb (Ascii.eqb char (chr 34))) false s')
      else if Ascii.eqb char (chr 34) then String char <$> remove_loop fuel true escaped s'
      else if startswith s "//" then
        let '(comment, rest) := to_line_end s in
        String.append (line_text comment) <$> remove_loop fuel false escaped rest
      else if startswith s "/*" then
        match block_comment s with
        | None => None
        | Some (comment, rest) => String.append (block_text comment) <$> remove_loop fuel false escaped rest
        end
      else String char <$> remove_loop fuel false escaped s'
  end.
Definition remove_comments (source : string) : option string :=
  remove_loop (String.length source) false false source.

(** A line as its body and ending. *)
Definition cut_ending (line : string) : string * string :=
  let n := String.length line in
  if endswith line (cr +:+ nl) then (stake (n - 2) line, cr +:+ nl)
  else if endswith line nl || endswith line cr then (stake (n - 1) line, sdrop (n - 1) line)
  else (line, "").

(** Trailing blanks go, and so does the third and each further blank line of a run. *)
Fixpoint clean_lines (blank_run : nat) (lines : list string) : list string :=
  match lines with
  | [] => []
  | line :: lines' =>
      let '(body, ending) := cut_ending line in
      let body := rstrip_by (char_in (" " +:+ tab)) body in
      if negb (String.eqb body "") then (body +:+ ending) :: clean_lines O lines'
      else if (S blank_run <=? 2)%nat then ending :: clean_lines (S blank_run) lines'
      else clean_lines (S blank_run) lines'
  end.
Definition tidy_lines (s : string) : string := String.concat "" (clean_lines O (splitlines_keepends s)).

Definition strip_comments (source : string) : option string := tidy_lines <$> remove_comments source.

Definition rename_identifiers (source : string) : string :=
  foldl (fun s on => replace on.1 on.2 s) source IDENTIFIER_RENAMES.

Section clean_rtl_sources.
Context `{Host}.

Definition RTL_ROOT : path := pnames repo_root ["rtl"].

Definition rtl_sources : M (list path) :=
  l ← rglob RTL_ROOT;
  fs ← filter_m is_file l;
  mret (List.filter (fun p => existsb (String.eqb (lower (suffix p))) RTL_SUFFIXES &&
                              negb (existsb (String.eqb "third_party") (path_parts p))) fs).

(** Whether the file was rewritten. *)
Definition clean_source (p : path) : M bool :=
  source ← read_text p;
  cleaned ← lift_opt ValueError "unterminated block comment" (strip_comments (rename_identifiers source));
  original ← read_text p;
  if negb (String.eqb cleaned original) then write_text p cleaned ;; mret true else mret false.

Definition main : M unit :=
  paths ← rtl_sources;
  changed ← fold_m (fun changed p => c ← clean_source p; mret (changed + (if c : bool then 1 else 0))%Z) 0%Z paths;
  print ("Cleaned " +:+ str_of_Z changed +:+ " RTL source files").
End clean_rtl_sources.

(** ** Searching *)

Lemma stake_sdrop n s : s = stake n s +:+ sdrop n s.
Proof.
  revert s. induction n as [|n IH]; intros [|c s]; simpl; try done. rewrite sapp_cons. by rewrite <- IH.
Qed.

Lemma stake_length_app a b : stake (String.length a) (a +:+ b) = a.
Proof. induction a as [|c a IH]; simpl; [by destruct b|]. by rewrite IH. Qed.

Lemma sdrop_length_app a b : sdrop (String.length a) (a +:+ b) = b.
Proof. induction a as [|c a IH]; simpl; [done|]. done. Qed.

Lemma prefix_short p a b : (String.length p <= String.length a)%nat ->
  String.prefix p (a +:+ b) = true -> String.prefix p a = true.
Proof.
  revert a. induction p as [|d p IH]; intros [|c a] Hl; simpl in Hl; [done|done|lia|].
  rewrite sapp_cons. cbn [String.prefix]. destruct (Ascii.ascii_dec d c); [|done].
  apply IH. lia.
Qed.

Lemma prefix_length p s : String.prefix p s = true -> (String.length p <= String.length s)%nat.
Proof. intros [r ->]%prefix_inv. rewrite slength_app. lia. Qed.

Lemma find_cons sub c s : find sub (String c s) =
  if String.prefix sub (String c s) then Some O else S <$> find sub s.
Proof. done. Qed.

Lemma find_length sub s n : find sub s = Some n -> (n + String.length sub <= String.length s)%nat.
Proof.
  revert n. induction s as [|c s IH]; intros n.
  - cbn [find]. destruct (String.prefix sub "") eqn:E; [|done]. intros [= <-].
    apply prefix_length in E. done.
  - rewrite find_cons. destruct (String.prefix sub (String c s)) eqn:E.
    + intros [= <-]. by apply prefix_length in E.
    + destruct (find sub s) as [m|]; [|done]. intros [= <-]. specialize (IH m eq_refl). simpl. lia.
Qed.

Lemma find_prefix sub r : find sub (sub +:+ r) = Some O.
Proof.
  destruct sub as [|c sub]; [by destruct r|]. rewrite sapp_cons, find_cons, <- sapp_cons.
  by rewrite prefix_app.
Qed.

Lemma find_app sub a b n : find sub a = Some n -> find sub (a +:+ b) = Some n.
Proof.
  revert n. induction a as [|c a IH]; intros n E.
  - cbn [find] in E. destruct (String.prefix sub "") eqn:Ep; [|done]. injection E as <-.
    destruct sub; [|done]. by destruct b.
  - pose proof (find_length _ _ _ E) as Hl. rewrite find_cons in E. rewrite sapp_cons, find_cons.
    destruct (String.prefix sub (String c a)) eqn:Ep.
    + apply prefix_inv in Ep as [r Er]. rewrite <- sapp_cons, Er, sapp_assoc, prefix_app. done.
    + destruct (find sub a) as [m|] eqn:Ef; [|done]. injection E as <-.
      destruct (String.prefix sub (String c (a +:+ b))) eqn:Ep'; [|by rewrite (IH m)].
      rewrite <- sapp_cons in Ep'. apply prefix_short in Ep'; [congruence|lia].
Qed.

(** The first occurrence splits the text, and is the first one of its own beginning. *)
Lemma find_split sub s n : find sub s = Some n ->
  exists t r, s = t +:+ sub +:+ r /\ String.length t = n /\ find sub (t +:+ sub) = Some n.
Proof.
  revert n. induction s as [|c s IH]; intros n.
  - cbn [find]. destruct (String.prefix sub "") eqn:E; [|done]. intros [= <-]. destruct sub; [|done].
    by exists "", "".
  - rewrite find_cons. destruct (String.prefix sub (String c s)) eqn:E.
    + intros [= <-]. apply prefix_inv in E as [r E]. exists "", r. split_and!; [done|done|].
      rewrite sapp_nil_l. pose proof (prefix_app sub "") as Hp. rewrite sapp_nil_r in Hp.
      destruct sub; [done|]. by rewrite find_cons, Hp.
    + destruct (find sub s) as [m|] eqn:Ef; [|done]. intros [= <-].
      destruct (IH m eq_refl) as (t & r & -> & Hl & Hf). exists (String c t), r.
      split_and!; [done|simpl; by rewrite Hl|]. rewrite sapp_cons, find_cons, Hf.
      destruct (String.prefix sub (String c (t +:+ sub))) eqn:Ep; [|done].
      apply prefix_inv in Ep as [r' Er']. rewrite <- sapp_cons in E. rewrite <- sapp_assoc in E.
      rewrite sapp_cons, Er', sapp_assoc, prefix_app in E. done.
Qed.

Lemma find_nl_none s : find nl s = None <-> sforall (fun c => negb (Ascii.eqb c (chr 10))) s = true.
Proof.
  induction s as [|c s IH]; [done|]. rewrite find_cons. unfold nl, ch. cbn [String.prefix sforall].
  destruct (Ascii.ascii_dec (chr 10) c) as [<-|Hne]; [by rewrite Ascii.eqb_refl; destruct s|].
  rewrite (proj2 (Ascii.eqb_neq c (chr 10))) by congruence. simpl. rewrite <- IH. unfold nl, ch.
  by destruct (find _ s).
Qed.

(** ** The comments of a text *)

(** A lexical reading of Verilog text: characters, string literals with their quotes,
    and the two kinds of comment. *)
Inductive tok :=
  | TChar (c : ascii)
  | TStr (s : string)
  | TLine (s : string)
  | TBlock (s : string).

(** What follows the opening quote up to the closing one; the flag says that the
    character before was a backslash. *)
Inductive closes : bool -> string -> Prop :=
  | closes_quote : closes false dq
  | closes_escape s : closes true s -> closes false (String (chr 92) s)
  | closes_escaped c s : closes false s -> closes true (String c s)
  | closes_char c s : c <> chr 92 -> c <> chr 34 -> closes false s -> closes false (String c s).

(** A literal without a closing quote. *)
Inductive unclosed : bool -> string -> Prop :=
  | unclosed_end e : unclosed e ""
  | unclosed_escape s : unclosed true s -> unclosed false (String (chr 92) s)
  | unclosed_escaped c s : unclosed false s -> unclosed true (String c s)
  | unclosed_char c s : c <> chr 92 -> c <> chr 34 -> unclosed false s -> unclosed false (String c s).

Definition opens_comment (s : string) : bool := startswith s "//" || startswith s "/*".
Definition at_line_end (s : string) : Prop := s = "" \/ exists r, s = nl +:+ r.

Inductive lexes : string -> list tok -> Prop :=
  | lexes_nil : lexes "" []
  | lexes_str t s l : closes false t -> lexes s l ->
      lexes (dq +:+ t +:+ s) (TStr (dq +:+ t) :: l)
  | lexes_open t : unclosed false t -> lexes (dq +:+ t) [TStr (dq +:+ t)]
  | lexes_line t s l : find nl t = None -> at_line_end s -> lexes s l ->
      lexes ("//" +:+ t +:+ s) (TLine ("//" +:+ t) :: l)
  | lexes_block t s l : find "*/" (t +:+ "*/") = Some (String.length t) -> lexes s l ->
      lexes ("/*" +:+ t +:+ "*/" +:+ s) (TBlock ("/*" +:+ t +:+ "*/") :: l)
  | lexes_char c s l : c <> chr 34 -> opens_comment (String c s) = false -> lexes s l ->
      lexes (String c s) (TChar c :: l).

Definition text (t : tok) : string :=
  match t with TChar c => ch c | TStr s | TLine s | TBlock s => s end.
Definition render (l : list tok) : string := foldr (fun t s => text t +:+ s) "" l.

Fixpoint chars (s : string) : list tok :=
  match s with EmptyString => [] | String c s' => TChar c :: chars s' end.

(** What is left of a token: of a block comment, a blank and its line ends. *)
Definition kept_tok (t : tok) : list tok :=
  match t with
  | TLine s => if keep_comment s then [t] else []
  | TBlock s => if keep_comment s then [t] else chars (" " +:+ line_ends s)
  | _ => [t]
  end.
Definition kept (l : list tok) : list tok := concat (kept_tok <$> l).

Lemma render_app l l' : render (l ++ l') = render l +:+ render l'.
Proof. induction l as [|t l IH]; simpl; [done|]. by rewrite IH, sapp_assoc. Qed.
Lemma render_chars s : render (chars s) = s.
Proof. induction s as [|c s IH]; simpl; [done|]. by rewrite IH. Qed.
Lemma kept_cons t l : kept (t :: l) = kept_tok t ++ kept l.
Proof. done. Qed.
Lemma render_kept_line s l : render (kept (TLine s :: l)) = line_text s +:+ render (kept l).
Proof. rewrite kept_cons, render_app. unfold line_text. simpl. destruct (keep_comment s); simpl; [by rewrite sapp_nil_r|done]. Qed.
Lemma render_kept_block s l : render (kept (TBlock s :: l)) = block_text s +:+ render (kept l).
Proof.
  rewrite kept_cons, render_app. unfold block_text, kept_tok.
  destruct (keep_comment s); [simpl; by rewrite sapp_nil_r|]. by rewrite render_chars.
Qed.

(** *** The loop computes what the reading says *)

Lemma loop_closes e t : closes e t -> forall fuel s,
  remove_loop (String.length t + fuel) true e (t +:+ s) =
  String.append t <$> remove_loop fuel false false s.
Proof.
  induction 1 as [|t Ht IH|c t Ht IH|c t H1 H2 Ht IH]; intros fuel s.
  - change (dq +:+ s) with (String (chr 34) s). simpl. by destruct (remove_loop fuel false false s).
  - simpl. rewrite IH. by destruct (remove_loop fuel false false s).
  - simpl. rewrite IH. by destruct (remove_loop fuel false false s).
  - rewrite sapp_cons. cbn [String.length Nat.add remove_loop].
    rewrite (proj2 (Ascii.eqb_neq c (chr 92)) H1), (proj2 (Ascii.eqb_neq c (chr 34)) H2).
    cbn [negb]. rewrite IH. by destruct (remove_loop fuel false false s).
Qed.

Lemma loop_unclosed e t : unclosed e t -> forall fuel, (String.length t <= fuel)%nat ->
  remove_loop fuel true e t = Some t.
Proof.
  induction 1 as [e|t Ht IH|c t Ht IH|c t H1 H2 Ht IH]; intros [|fuel] Hl; simpl in Hl; try done; try lia.
  - simpl. by rewrite IH by lia.
  - simpl. by rewrite IH by lia.
  - cbn [remove_loop].
    rewrite (proj2 (Ascii.eqb_neq c (chr 92)) H1), (proj2 (Ascii.eqb_neq c (chr 34)) H2).
    cbn [negb]. by rewrite IH by lia.
Qed.

Lemma at_line_end_find s : at_line_end s -> forall t, find nl t = None ->
  to_line_end (t +:+ s) = (t, s).
Proof.
  intros Hs t Ht. unfold to_line_end. destruct Hs as [->|[r ->]].
  - by rewrite sapp_nil_r, Ht.
  - assert (E : find nl (t +:+ nl +:+ r) = Some (String.length t)).
    { revert Ht. induction t as [|c t IH]; [by intros _; rewrite sapp_nil_l; apply find_prefix|].
      rewrite sapp_cons, !find_cons.
      unfold nl, ch. cbn [String.prefix]. destruct (Ascii.ascii_dec (chr 10) c) as [<-|]; [by destruct t|].
      intros Ht. unfold nl, ch in IH. rewrite IH; [done|]. by apply fmap_None in Ht. }
    by rewrite E, stake_length_app, sdrop_length_app.
Qed.

Lemma to_line_end_split s a b : to_line_end s = (a, b) ->
  s = a +:+ b /\ at_line_end b /\ find nl a = None.
Proof.
  unfold to_line_end. destruct (find nl s) as [n|] eqn:E; intros [= <- <-].
  - apply find_split in E as (t & r & -> & <- & Hf). rewrite stake_length_app, sdrop_length_app.
    split_and!; [done|right; by exists r|]. revert Hf. induction t as [|c t IH]; [done|].
    rewrite sapp_cons, !find_cons. unfold nl, ch. cbn [String.prefix].
    destruct (Ascii.ascii_dec (chr 10) c) as [<-|]; [by destruct t|]. unfold nl, ch in IH.
    destruct (find _ (t +:+ _)) as [m|] eqn:Em; [|done]. intros [= ->]. by rewrite IH.
  - split_and!; [by rewrite sapp_nil_r|by left|done].
Qed.

Lemma block_comment_app t s : find "*/" (t +:+ "*/") = Some (String.length t) ->
  block_comment ("/*" +:+ t +:+ "*/" +:+ s) = Some ("/*" +:+ t +:+ "*/", s).
Proof.
  intros E. unfold block_comment. change (sdrop 2 ("/*" +:+ t +:+ "*/" +:+ s)) with (t +:+ "*/" +:+ s).
  rewrite <- sapp_assoc, (find_app _ _ _ _ E).
  assert (Hl : (2 + String.length t + 2 = String.length ("/*" +:+ t +:+ "*/"))%nat)
    by (rewrite !slength_app; simpl; lia).
  rewrite Hl, sapp_assoc. change ("/*" +:+ t +:+ "*/" +:+ s) with ("/*" +:+ (t +:+ "*/" +:+ s)).
  rewrite <- (sapp_assoc t), <- (sapp_assoc "/*" (t +:+ "*/")).
  by rewrite stake_length_app, sdrop_length_app.
Qed.

Lemma block_comment_split s a b : startswith s "/*" = true -> block_comment s = Some (a, b) ->
  exists t, a = "/*" +:+ t +:+ "*/" /\ s = a +:+ b /\ find "*/" (t +:+ "*/") = Some (String.length t).
Proof.
  unfold startswith. intros [r ->]%prefix_inv E. unfold block_comment in E.
  change (sdrop 2 ("/*" +:+ r)) with r in E. destruct (find "*/" r) as [n|] eqn:Ef; [|done].
  apply find_split in Ef as (t & q & -> & <- & Hf).
  assert (Hl : (2 + String.length t + 2 = String.length ("/*" +:+ t +:+ "*/"))%nat)
    by (rewrite !slength_app; simpl; lia).
  assert (Ha : "/*" +:+ t +:+ "*/" +:+ q = ("/*" +:+ t +:+ "*/") +:+ q)
    by (by rewrite !sapp_assoc).
  rewrite Hl, Ha, stake_length_app, sdrop_length_app in E. injection E as <- <-. by exists t.
Qed.

Lemma loop_out fuel c s : c <> chr 34 ->
  remove_loop (S fuel) false false (String c s) =
  if startswith (String c s) "//" then
    let '(comment, rest) := to_line_end (String c s) in
    String.append (line_text comment) <$> remove_loop fuel false false rest
  else if startswith (String c s) "/*" then
    match block_comment (String c s) with
    | None => None
    | Some (comment, rest) => String.append (block_text comment) <$> remove_loop fuel false false rest
    end
  else String c <$> remove_loop fuel false false s.
Proof. intros Hc. cbn [remove_loop]. by rewrite (proj2 (Ascii.eqb_neq c (chr 34)) Hc). Qed.

Lemma lexes_removes s l : lexes s l -> forall fuel, (String.length s <= fuel)%nat ->
  remove_loop fuel false false s = Some (render (kept l)).
Proof.
  induction 1 as [|t s l Ht Hs IH|t Ht|t s l Ht He Hs IH|t s l Ht Hs IH|c s l Hq Hc Hs IH]; intros fuel Hf;
    [by destruct fuel|..]; (destruct fuel as [|fuel]; [rewrite ?slength_app in Hf; simpl in Hf; lia|]).
  - rewrite !slength_app in Hf. simpl in Hf.
    change (dq +:+ t +:+ s) with (String (chr 34) (t +:+ s)). cbn [remove_loop].
    rewrite Ascii.eqb_refl. replace fuel with (String.length t + (fuel - String.length t))%nat by lia.
    rewrite (loop_closes _ _ Ht), IH by lia. done.
  - rewrite slength_app in Hf. simpl in Hf.
    change (dq +:+ t) with (String (chr 34) t). cbn [remove_loop]. rewrite Ascii.eqb_refl.
    rewrite (loop_unclosed _ _ Ht) by lia. cbn. by rewrite sapp_nil_r.
  - rewrite !slength_app in Hf. simpl in Hf. rewrite render_kept_line.
    change ("//" +:+ t +:+ s) with (String "/" (String "/" (t +:+ s))). rewrite loop_out by done.
    change (String "/" (String "/" (t +:+ s))) with (("//" +:+ t) +:+ s).
    rewrite (at_line_end_find s He ("//" +:+ t)) by (by apply find_nl_none in Ht; apply find_nl_none).
    unfold startswith at 1. rewrite sapp_assoc, prefix_app. rewrite IH by lia. reflexivity.
  - rewrite !slength_app in Hf. simpl in Hf. rewrite render_kept_block.
    change ("/*" +:+ t +:+ "*/" +:+ s) with (String "/" (String "*" (t +:+ "*/" +:+ s))).
    rewrite loop_out by done.
    change (String "/" (String "*" (t +:+ "*/" +:+ s))) with ("/*" +:+ t +:+ "*/" +:+ s).
    rewrite block_comment_app by done. rewrite IH by lia. unfold startswith at 2.
    rewrite prefix_app. reflexivity.
  - simpl in Hf. rewrite loop_out by done. unfold opens_comment in Hc.
    apply orb_false_iff in Hc as [-> ->]. rewrite IH by lia. done.
Qed.

(** *** What the loop accepts has a reading *)

Definition lexes_in (e : bool) (s : string) : Prop :=
  unclosed e s \/ exists t r l, closes e t /\ s = t +:+ r /\ lexes r l.

Lemma lexes_in_step e e' c s : lexes_in e' s ->
  (forall t, closes e' t -> closes e (String c t)) -> (unclosed e' s -> unclosed e (String c s)) ->
  lexes_in e (String c s).
Proof.
  intros [Hu|(t & r & l & Ht & -> & Hl)] Hc Hn; [left; auto|]. right. exists (String c t), r, l. auto.
Qed.

Lemma line_comment_split s a b : startswith s "//" = true -> to_line_end s = (a, b) ->
  exists t, a = "//" +:+ t /\ s = "//" +:+ t +:+ b /\ find nl t = None /\ at_line_end b.
Proof.
  unfold startswith. intros [z ->]%prefix_inv E. destruct (to_line_end z) as [t b'] eqn:Ez.
  apply to_line_end_split in Ez as (-> & Hb & Ht). rewrite <- sapp_assoc in E.
  rewrite (at_line_end_find b' Hb) in E by (by apply find_nl_none in Ht; apply find_nl_none).
  injection E as <- <-. by exists t.
Qed.

Lemma length_lt s c a b : String c s = a +:+ b -> a <> "" -> (String.length b <= String.length s)%nat.
Proof.
  intros E Ha. destruct a as [|d a]; [done|]. rewrite sapp_cons in E. injection E as _ ->.
  rewrite slength_app. lia.
Qed.

Lemma loop_lexes fuel : forall s r, (String.length s <= fuel)%nat ->
  (remove_loop fuel false false s = Some r -> exists l, lexes s l) /\
  (forall e, remove_loop fuel true e s = Some r -> lexes_in e s).
Proof.
  induction fuel as [|fuel IH]; intros [|c s] r Hl; simpl in Hl; try lia.
  1,2: split; [intros _; exists []; constructor|intros e _; left; constructor].
  assert (Hin : forall e r, remove_loop fuel true e s = Some r -> lexes_in e s)
    by (intros e r0; apply (IH s r0); lia).
  assert (Hout : forall b q, (String.length b <= String.length s)%nat ->
    remove_loop fuel false false b = Some q -> exists l, lexes b l)
    by (intros b q Hb; apply (IH b q); lia).
  split.
  - destruct (decide (c = chr 34)) as [->|Hq].
    + cbn [remove_loop]. rewrite Ascii.eqb_refl. intros (q & Hi & _)%fmap_Some.
      destruct (Hin _ _ Hi) as [Hu|(t & z & l & Ht & -> & Hz)]; eexists.
      * by apply (lexes_open s).
      * by apply (lexes_str t z l).
    + rewrite loop_out by done. destruct (startswith (String c s) "//") eqn:E1; [|
        destruct (startswith (String c s) "/*") eqn:E2].
      * destruct (to_line_end (String c s)) as [a b] eqn:Ee. intros (q & Hi & _)%fmap_Some.
        destruct (line_comment_split _ _ _ E1 Ee) as (t & -> & Es & Ht & Hb).
        destruct (Hout b q) as [l Hlex]; [|done|].
        { apply (length_lt s c ("//" +:+ t)); [by rewrite sapp_assoc|done]. }
        rewrite Es. eexists. by constructor.
      * destruct (block_comment (String c s)) as [[a b]|] eqn:Ee; [|done].
        intros (q & Hi & _)%fmap_Some.
        destruct (block_comment_split _ _ _ E2 Ee) as (t & -> & Es & Ht).
        destruct (Hout b q) as [l Hlex]; [by apply (length_lt _ _ _ _ Es)|done|].
        rewrite Es, sapp_assoc, sapp_assoc. eexists. by constructor.
      * intros (q & Hi & _)%fmap_Some. destruct (Hout s q) as [l Hlex]; [done|done|].
        eexists. constructor; [done| |done]. unfold opens_comment. by rewrite E1, E2.
  - intros [|]; cbn [remove_loop].
    + intros (q & Hi & _)%fmap_Some. apply (lexes_in_step _ false); [by eapply Hin|by constructor..].
    + destruct (Ascii.eqb_spec c (chr 92)) as [->|H1].
      * intros (q & Hi & _)%fmap_Some. apply (lexes_in_step _ true); [by eapply Hin|by constructor..].
      * destruct (Ascii.eqb_spec c (chr 34)) as [->|H2]; intros (q & Hi & _)%fmap_Some.
        -- destruct (Hout s q) as [l Hlex]; [done|done|]. right. exists dq, s, l.
           split_and!; [constructor|done|done].
        -- apply (lexes_in_step _ false); [by eapply Hin|by constructor..].
Qed.

(** *** What is left reads as the tokens kept *)

Lemma opens_comment_head c s s' : opens_comment (String c s) = false ->
  (forall d z, s' = String d z -> d = "/"%char \/ d = "*"%char -> exists z', s = String d z') ->
  opens_comment (String c s') = false.
Proof.
  intros Hc Hs. destruct s' as [|d z].
  - unfold opens_comment, startswith. cbn [String.prefix]. by destruct (Ascii.ascii_dec "/" c).
  - destruct (decide (d = "/"%char \/ d = "*"%char)) as [Hd|Hd].
    + destruct (Hs d z eq_refl Hd) as [z' ->]. revert Hc. unfold opens_comment, startswith.
      cbn [String.prefix]. destruct (Ascii.ascii_dec "/" c); [|done].
      destruct (Ascii.ascii_dec "/" d); [by destruct z'|].
      destruct (Ascii.ascii_dec "*" d); [by destruct z'|done].
    + unfold opens_comment, startswith. cbn [String.prefix].
      destruct (Ascii.ascii_dec "/" c); [|done].
      destruct (Ascii.ascii_dec "/" d) as [<-|]; [tauto|].
      destruct (Ascii.ascii_dec "*" d) as [<-|]; [tauto|done].
Qed.

Lemma lexes_blank t s l : sforall (fun c => negb (Ascii.eqb c "/") && negb (Ascii.eqb c (chr 34))) t = true ->
  lexes s l -> lexes (t +:+ s) (chars t ++ l).
Proof.
  induction t as [|c t IH]; intros Ht Hl; [done|]. simpl in Ht. apply andb_true_iff in Ht as [Hc Ht].
  apply andb_true_iff in Hc as [H1 H2]. rewrite sapp_cons. constructor; [|..|by apply IH].
  - intros ->. done.
  - unfold opens_comment, startswith. cbn [String.prefix].
    destruct (Ascii.ascii_dec "/" c) as [<-|]; done.
Qed.

Lemma line_ends_blank s :
  sforall (fun c => negb (Ascii.eqb c "/") && negb (Ascii.eqb c (chr 34))) (line_ends s) = true.
Proof.
  induction s as [|c s IH]; [done|]. cbn [line_ends].
  destruct (char_in (cr +:+ nl) c) eqn:E; [|done]. cbn [sforall]. rewrite IH, andb_true_r.
  assert (Hc : implb (char_in (cr +:+ nl) c) (negb (Ascii.eqb c "/") && negb (Ascii.eqb c (chr 34))) = true)
    by by_chars c. by rewrite E in Hc.
Qed.

Lemma kept_line_end s l : lexes s l -> at_line_end s -> at_line_end (render (kept l)).
Proof.
  intros Hl [->|[r ->]].
  - inversion Hl. by left.
  - inversion Hl; simplify_eq/=. right. by eexists.
Qed.

(** The text that is left starts no comment the original did not start. *)
Lemma kept_head s l d z : lexes s l -> render (kept l) = String d z ->
  d = "/"%char \/ d = "*"%char -> exists z', s = String d z'.
Proof.
  intros Hl E Hd. destruct Hl as [|t s l Ht Hl|t Ht|t s l Ht Hs Hl|t s l Ht Hl|c s l Hq Hc Hl].
  - done.
  - injection E as <- _. by destruct Hd.
  - injection E as <- _. by destruct Hd.
  - rewrite render_kept_line in E. unfold line_text in E.
    destruct (keep_comment _); [injection E as <- _; by eexists|].
    destruct (kept_line_end _ _ Hl Hs) as [E'|[r E']]; rewrite sapp_nil_l, E' in E; [done|].
    injection E as <- _. by destruct Hd.
  - rewrite render_kept_block in E. unfold block_text in E.
    destruct (keep_comment _); injection E as <- _; [by eexists|]. by destruct Hd.
  - injection E as <- _. by eexists.
Qed.

Lemma kept_lexes s l : lexes s l -> lexes (render (kept l)) (kept l).
Proof.
  induction 1 as [|t s l Ht Hs IH|t Ht|t s l Ht He Hs IH|t s l Ht Hs IH|c s l Hq Hc Hs IH].
  - constructor.
  - rewrite kept_cons, render_app. cbn [kept_tok render foldr text]. rewrite sapp_nil_r, sapp_assoc.
    by constructor.
  - cbn. rewrite sapp_nil_r. by constructor.
  - rewrite kept_cons, render_app. cbn [kept_tok]. destruct (keep_comment _); [|done].
    cbn [render foldr text]. rewrite sapp_nil_r, sapp_assoc.
    constructor; [done|by eapply kept_line_end|done].
  - rewrite kept_cons, render_app. cbn [kept_tok]. destruct (keep_comment _).
    + cbn [render foldr text]. rewrite sapp_nil_r, !sapp_assoc. by constructor.
    + rewrite render_chars. apply lexes_blank; [|done]. apply line_ends_blank.
  - rewrite kept_cons, render_app. constructor; [done| |done].
    eapply opens_comment_head; [exact Hc|]. intros d z Ez Hd. by eapply kept_head.
Qed.

(** ** The comments of the sources *)

(** C36: [strip_comments] removes the comments and nothing else.  For every text, either it
    has no lexical reading (a block comment is not closed) and the script fails, or
    it reads as some tokens and the result is the tidied text of those tokens without the comments
    that hold no marker, where a removed block comment leaves a blank and its line ends;
    string literals, even with comment signs inside, are kept.  The text left reads as
    exactly the tokens kept: no new comment or literal appears. *)
Theorem strip_comments_tokens source :
  match strip_comments source with
  | Some r => exists l, lexes source l /\ r = tidy_lines (render (kept l)) /\
                        lexes (render (kept l)) (kept l)
  | None => ~ exists l, lexes source l
  end.
Proof.
  unfold strip_comments, remove_comments.
  destruct (remove_loop _ false false source) as [q|] eqn:E; cbn [fmap option_fmap option_map].
  - destruct (proj1 (loop_lexes _ source q (le_n _)) E) as [l Hl]. exists l.
    rewrite (lexes_removes _ _ Hl) in E by done. injection E as <-.
    split_and!; [done|done|by eapply kept_lexes].
  - intros [l Hl]. by rewrite (lexes_removes _ _ Hl) in E by done.
Qed.
