(* ===== verification/Filelists.v ===== *)
(** [scripts/check_filelists.py]: the file lists of the RTL are expanded and checked
    for missing files, recursive inclusion and sources named twice. *)
From Stdlib Require Import ZArith Lia.
From S2P Require Import Prelude Str Py Store Lib Helpers.
Local Open Scope Z_scope.
Local Open Scope py_scope.

Section check_filelists.
Context `{Host}.

(** [repo_path(line[n:].strip())] *)
Definition line_path (n : nat) (line : string) : path := repo_path [strip (sdrop n line)].

(** One line of the list [p]; [include] expands a nested list.  [sources] grows as the
    list of the code does. *)
Definition expand_line (include : list path -> path -> M (list path)) (p : path)
    (sources : list path) (numbered : Z * string) : M (list path) :=
  let '(line_number, raw) := numbered in
  let at_line := path_str p +:+ ":" +:+ str_of_Z line_number +:+ ": " in
  let line := strip raw in
  if String.eqb line "" || startswith line "#" then mret sources
  else if startswith line "-f " then
    let nested := line_path 3 line in
    e ← exists_ nested;
    fail_if (negb e) ValueError (at_line +:+ "missing nested filelist " +:+ path_str nested) ;;
    include sources nested
  else if startswith line "+incdir+" then
    let include_dir := line_path 8 line in
    d ← is_dir include_dir;
    fail_if (negb d) ValueError (at_line +:+ "missing include directory " +:+ path_str include_dir) ;;
    mret sources
  else if startswith line "-" then mret sources
  else
    let source := repo_path [line] in
    e ← exists_ source;
    fail_if (negb e) ValueError (at_line +:+ "missing source " +:+ path_str source) ;;
    r ← resolve source;
    mret (sources ++ [r]).

(** [enumerate(lines, 1)] *)
Definition numbered_lines (lines : list string) : list (Z * string) :=
  zip (seqZ 1 (len lines)) lines.

(** [seen_lists] holds the lists being expanded: a list is added before its lines and
    removed after them, so the set is the same after the call as before.  The
    interpreter stops a recursion deeper than its limit. *)
Fixpoint expand (depth : nat) (seen_lists sources : list path) (p : path) {struct depth} : M (list path) :=
  match depth with
  | O => raise RecursionError "maximum recursion depth exceeded"
  | S depth' =>
      q ← resolve p;
      fail_if (bool_decide (q ∈ seen_lists)) ValueError ("recursive filelist inclusion: " +:+ path_str q) ;;
      text ← read_text q;
      fold_m (expand_line (expand depth' (q :: seen_lists)) q) sources (numbered_lines (splitlines text))
  end.

(** A list within another takes one more call of the interpreter's recursion. *)
Definition expand_list (p : path) : M (list path) := expand host_recursion [] [] p.

(** [sorted({path for path in sources if sources.count(path) > 1})] *)
Definition duplicate_sources (sources : list path) : list path :=
  sort_by path_leb (remove_dups (filter (fun p => (1 < count_occ path_eq_dec sources p)%nat) sources)).

(** [except (OSError, ValueError)] *)
Definition is_input_error (e : exn) : bool := is_os_error e || is_value_error e.

(** Whether the list failed. *)
Definition check_filelist (filelist : path) : M bool :=
  try_except
    (sources ← expand_list filelist;
     let duplicates := duplicate_sources sources in
     fail_if (negb (bool_decide (duplicates = []))) ValueError
       ("duplicate sources: " +:+ repr_paths duplicates) ;;
     print ("Filelist OK: " +:+ path_str filelist +:+ " (" +:+ str_of_Z (len sources) +:+ " sources)") ;;
     mret false)
    is_input_error
    (fun e => print ("Filelist ERROR: " +:+ exn_msg e) ;; mret true).

Definition default_filelists : list path :=
  [repo_path ["rtl"; "filelist.f"];
   repo_path ["sim"; "filelists"; "soc_verilator.f"];
   repo_path ["sim"; "filelists"; "fpga_axku062.f"];
   repo_path ["sim"; "filelists"; "fpga_kintex7.f"];
   repo_path ["sim"; "filelists"; "fpga_pynq_z2.f"]].

Definition main (filelists : list path) : M Z :=
  failed ← fold_m (fun failed filelist => f ← check_filelist filelist; mret (failed || f)) false filelists;
  mret (if failed : bool then 1 else 0).
End check_filelists.

(** ** What a file list stands for *)

Section expansion.
Context `{Host}.

(** A line that names no file and one that only has to be there. *)
Definition skipped (line : string) : bool :=
  String.eqb line "" || startswith line "#" ||
  negb (startswith line "-f ") && negb (startswith line "+incdir+") && startswith line "-".

(** The sources a list stands for, in order, those of the lists it includes at their
    place.  A derivation is finite: a list that includes itself has none. *)
Inductive expands (w : world) : path -> list path -> Prop :=
  | expands_file q text l : read_text q w = (Ok text, w) -> expands_lines w (splitlines text) l ->
      expands w q l
with expands_lines (w : world) : list string -> list path -> Prop :=
  | lines_nil : expands_lines w [] []
  | lines_skipped raw ls l : skipped (strip raw) = true -> expands_lines w ls l ->
      expands_lines w (raw :: ls) l
  | lines_nested raw ls l1 l : startswith (strip raw) "-f " = true ->
      expands w (Path true (canon w (line_path 3 (strip raw)))) l1 -> expands_lines w ls l ->
      expands_lines w (raw :: ls) (l1 ++ l)
  | lines_incdir raw ls l : startswith (strip raw) "+incdir+" = true ->
      is_dir_at w (line_path 8 (strip raw)) = true -> expands_lines w ls l ->
      expands_lines w (raw :: ls) l
  | lines_source raw ls l : exists_at w (repo_path [strip raw]) = true -> expands_lines w ls l ->
      expands_lines w (raw :: ls) (Path true (canon w (repo_path [strip raw])) :: l).

Lemma read_text_input_error p w e w' : read_text p w = (Raise e, w') -> is_input_error e = true.
Proof.
  unfold read_text, mbind, M_bind, read_raw, raise, throw.
  repeat case_match; intros; simplify_eq; done.
Qed.

(** The exceptions of an expansion: those that [main] handles, and that of a recursion that is too
    deep for the interpreter, for which as many files have to be there. *)
Definition expand_error (w : world) (e : exn) : Prop :=
  is_input_error e = true \/ is_recursion_error e = true /\ (host_recursion <= base.size (w_fs w))%nat.

(** What expanding from [sources] on gives. *)
Definition expanded (w : world) (P : list path -> Prop) (sources : list path) (r : result (list path)) : Prop :=
  match r with
  | Ok s => exists l, s = sources ++ l /\ P l
  | Raise e => expand_error w e
  end.

(** A check of a line passes or is a value error. *)
Lemma checked_line {A} (b : bool) msg (m : M A) w (Q : result A -> Prop) :
  (b = true -> exists r, m w = (r, w) /\ Q r) -> (forall s, Q (Raise (Err ValueError s))) ->
  exists r, (fail_if (negb b) ValueError msg ;; m) w = (r, w) /\ Q r.
Proof.
  intros Hm Hq. destruct b.
  - destruct Hm as (r & Hr & Hq'); [done|]. exists r. by rewrite (bind_ok_eq _ _ tt w w).
  - eexists (Raise _). split; [reflexivity|apply Hq].
Qed.

Lemma expand_line_total include q w n raw ls l0 sources :
  (forall sources p, exists r, include sources p w = (r, w) /\
     expanded w (expands w (Path true (canon w p))) sources r) ->
  exists r, expand_line include q sources (n, raw) w = (r, w) /\
    match r with
    | Ok s => exists l, s = sources ++ l /\ (expands_lines w ls l0 -> expands_lines w (raw :: ls) (l ++ l0))
    | Raise e => expand_error w e
    end.
Proof.
  intros Hi. unfold expand_line. cbv zeta.
  assert (Hskip : skipped (strip raw) = true -> exists r, (mret sources : M _) w = (r, w) /\
    match r with
    | Ok s => exists l, s = sources ++ l /\ (expands_lines w ls l0 -> expands_lines w (raw :: ls) (l ++ l0))
    | Raise e => expand_error w e
    end).
  { intros Hs. eexists (Ok sources). split; [done|]. exists []. rewrite app_nil_r.
    split; [done|by apply lines_skipped]. }
  unfold skipped in Hskip. destruct (String.eqb (strip raw) "" || startswith (strip raw) "#"); [by apply Hskip|].
  destruct (startswith (strip raw) "-f ") eqn:Ef.
  { rewrite (bind_ok_eq _ _ (exists_at w (line_path 3 (strip raw))) w w) by done. cbv beta.
    apply checked_line; [intros _|by intros; left]. destruct (Hi sources (line_path 3 (strip raw))) as (r & Hr & Hx).
    exists r. split; [done|]. destruct r as [s|e]; [|done]. destruct Hx as (l & -> & Hl). exists l.
    split; [done|by apply lines_nested]. }
  destruct (startswith (strip raw) "+incdir+") eqn:Ei.
  { rewrite (bind_ok_eq _ _ (is_dir_at w (line_path 8 (strip raw))) w w) by done. cbv beta.
    apply checked_line; [intros Hd|by intros; left]. eexists (Ok sources). split; [done|]. exists [].
    rewrite app_nil_r. split; [done|by apply lines_incdir]. }
  destruct (startswith (strip raw) "-") eqn:Ed; [by apply Hskip|].
  rewrite (bind_ok_eq _ _ (exists_at w (repo_path [strip raw])) w w) by done. cbv beta.
  apply checked_line; [intros He|by intros; left]. eexists (Ok _). split; [reflexivity|].
  exists [Path true (canon w (repo_path [strip raw]))]. split; [done|]. by apply lines_source.
Qed.

Lemma expand_lines_total include q w : (forall sources p, exists r, include sources p w = (r, w) /\
    expanded w (expands w (Path true (canon w p))) sources r) -> forall ls n sources,
  exists r, fold_m (expand_line include q) sources (zip (seqZ n (len ls)) ls) w = (r, w) /\
    expanded w (expands_lines w ls) sources r.
Proof.
  intros Hi. induction ls as [|raw ls IH]; intros n sources.
  { exists (Ok sources). split; [done|]. exists []. split; [by rewrite app_nil_r|constructor]. }
  rewrite seqZ_cons by (simpl; lia). replace (Z.pred (len (raw :: ls))) with (len ls) by (simpl; lia).
  cbn [zip zip_with fold_m].
  destruct (expand_line_total include q w n raw ls [] sources Hi) as (r & Hr & Hx).
  destruct r as [s|e]; [|exists (Raise e); by rewrite (bind_raise_eq _ _ _ _ _ Hr)].
  rewrite (bind_ok_eq _ _ _ _ _ Hr). cbv beta. clear Hx.
  destruct (IH (Z.succ n) s) as (r & Hr2 & Hx2). exists r. split; [done|].
  destruct r as [s2|e]; [|done]. destruct Hx2 as (l & -> & Hl).
  destruct (expand_line_total include q w n raw ls l sources Hi) as (r' & Hr' & Hx').
  rewrite Hr in Hr'. injection Hr' as <-. destruct Hx' as (l1 & -> & Hx').
  exists (l1 ++ l). split; [by rewrite app_assoc|by apply Hx'].
Qed.

Lemma expand_total w : links_resolve w -> forall depth seen sources p,
  file_set w seen -> (depth + length seen = host_recursion)%nat ->
  exists r, expand depth seen sources p w = (r, w) /\
    expanded w (expands w (Path true (canon w p))) sources r.
Proof.
  intros Hl. induction depth as [|depth IH]; intros seen sources p Hs Hd.
  { apply file_set_size in Hs. eexists (Raise _). split; [done|]. right. split; [done|lia]. }
  cbn [expand]. rewrite (bind_ok_eq _ _ (Path true (canon w p)) w w) by done. cbv beta.
  set (q := Path true (canon w p)). case_bool_decide as Hq; [eexists (Raise _); split; [done|by left]|].
  rewrite (bind_ok_eq _ _ tt w w) by done. cbv beta.
  destruct (read_text q w) as [[text|e] w1] eqn:Et; pose proof (read_text_state _ _ _ _ Et) as ->.
  2: { exists (Raise e). rewrite (bind_raise_eq _ _ _ _ _ Et). split; [done|].
       left. by eapply read_text_input_error. }
  rewrite (bind_ok_eq _ _ _ _ _ Et). cbv beta.
  assert (Hf : is_file_at w q = true).
  { unfold read_text in Et. apply bind_ok in Et as (c & w1 & Er & _).
    apply read_raw_ok in Er as (_ & t & Hn & _). unfold is_file_at. by rewrite Hn. }
  destruct (expand_lines_total (expand depth (q :: seen)) q w) with (ls := splitlines text) (n := 1)
    (sources := sources) as (r & Hr & Hx).
  { intros sources' p'. apply IH; [by apply file_set_add|simpl; lia]. }
  exists r. split; [done|]. destruct r as [s|e]; [|done]. destruct Hx as (l & -> & Hx).
  exists l. split; [done|by econstructor].
Qed.

Lemma duplicate_sources_nil sources : duplicate_sources sources = [] -> NoDup sources.
Proof.
  unfold duplicate_sources. intros E.
  assert (Hn : forall p, p ∉ filter (fun p => (1 < count_occ path_eq_dec sources p)%nat) sources).
  { intros p Hp. apply elem_of_remove_dups, (elem_of_sort_by path_leb) in Hp. rewrite E in Hp.
    by apply elem_of_nil in Hp. }
  apply NoDup_ListNoDup, (NoDup_count_occ path_eq_dec). intros p.
  destruct (decide (p ∈ sources)) as [Hp|Hp].
  - specialize (Hn p). rewrite list_elem_of_filter in Hn. destruct (decide (1 < count_occ path_eq_dec sources p)%nat); [tauto|lia].
  - rewrite list_elem_of_In in Hp. apply (count_occ_not_In path_eq_dec) in Hp. lia.
Qed.

(** *** The checks print, and printing changes no file *)

Scheme expands_min := Minimality for expands Sort Prop
  with expands_lines_min := Minimality for expands_lines Sort Prop.

Lemma read_text_log ev p w t : read_text p (log ev w) = (Ok t, log ev w) -> read_text p w = (Ok t, w).
Proof.
  intros E. unfold read_text in *. apply bind_ok in E as (c & w1 & E1 & E).
  apply read_raw_ok in E1 as (-> & t' & Hn & Hd).
  rewrite (bind_ok_eq _ _ c w w); [|by apply (read_raw_node p w c t')].
  destruct (utf8_valid c); [|done]. by injection E as <-.
Qed.

Lemma expands_log ev w q l : expands (log ev w) q l -> expands w q l.
Proof.
  intros E. induction E using expands_min with (P0 := fun ls l => expands_lines w ls l).
  - econstructor; [by eapply read_text_log|done].
  - constructor.
  - by apply lines_skipped.
  - by apply lines_nested.
  - by apply lines_incdir.
  - by apply (lines_source w).
Qed.

Definition well_formed (w : world) (p : path) : Prop :=
  exists l, expands w (Path true (canon w p)) l /\ NoDup l.

Lemma check_filelist_outcome w p : links_resolve w ->
  (exists failed ev, check_filelist p w = (Ok failed, log ev w) /\ (failed = false -> well_formed w p)) \/
  exists e, check_filelist p w = (Raise e, w) /\ is_recursion_error e = true /\
    (host_recursion <= base.size (w_fs w))%nat.
Proof.
  intros Hl. unfold check_filelist, try_except.
  destruct (expand_total w Hl host_recursion [] [] p) as (r & Hr & Hx).
  { constructor; [constructor|]. intros q Hq. by apply elem_of_nil in Hq. }
  { cbn [length]. rewrite Nat.add_0_r. done. }
  change (expand_list p w = (r, w)) in Hr. destruct r as [sources|e].
  - left. rewrite (bind_ok_eq _ _ _ _ _ Hr). cbv beta zeta. destruct Hx as (l & E & Hx). simpl in E. subst l.
    case_bool_decide as Hd; cbn [negb].
    + rewrite (bind_ok_eq _ _ tt w w) by done. eexists false, _. split; [reflexivity|]. intros _.
      exists sources. split; [done|by apply duplicate_sources_nil].
    + eexists true, _. split; [reflexivity|done].
  - rewrite (bind_raise_eq _ _ _ _ _ Hr). destruct Hx as [Hx|[Hx Hn]].
    + left. rewrite Hx. eexists true, _. split; [reflexivity|done].
    + right. exists e. assert (Hi : is_input_error e = false) by (destruct e as [[]|]; done). by rewrite Hi.
Qed.

(** The loop over the lists. *)
Lemma check_all_outcome filelists : forall w, links_resolve w -> forall failed0, exists r w',
  fold_m (fun failed filelist => f ← check_filelist filelist; mret (failed || f)) failed0 filelists w = (r, w') /\
  w_fs w' = w_fs w /\
  match r with
  | Ok failed => failed = false -> failed0 = false /\ Forall (well_formed w) filelists
  | Raise e => is_recursion_error e = true /\ (host_recursion <= base.size (w_fs w))%nat
  end.
Proof.
  induction filelists as [|p filelists IH]; intros w Hl failed0.
  { exists (Ok failed0), w. by split_and!. }
  cbn [fold_m]. destruct (check_filelist_outcome w p Hl) as [(f & ev & E & Hf)|(e & E & He)].
  2: { exists (Raise e), w. split; [|done]. apply bind_raise_eq. by apply bind_raise_eq. }
  rewrite (bind_ok_eq _ _ (failed0 || f) w (log ev w)) by (by rewrite (bind_ok_eq _ _ _ _ _ E)).
  destruct (IH (log ev w)) with (failed0 := failed0 || f) as (r & w' & E' & Hw & Hall); [done|].
  exists r, w'. split_and!; [done|done|]. destruct r as [failed|e]; [|done]. intros Hn.
  destruct (Hall Hn) as [Ho Hall']. apply orb_false_iff in Ho as [-> ->]. split; [done|].
  constructor; [by apply Hf|]. eapply Forall_impl; [exact Hall'|]. intros q (l & Hx & Hnd).
  exists l. split; [|done]. by eapply expands_log.
Qed.

(** C37: [check_filelists] always ends, whatever the lists include, themselves among others, and
    changes no file.  It ends with exit code 0 or 1, unless lists are nested deeper than the
    interpreter's recursion goes, for which the store needs as many files ([RecursionError]); and
    it returns 0 only if every list given has a finite expansion, so that no list includes itself
    directly or through others, all the files and directories named exist, and no source occurs
    twice in the expansion.  The links of the store are assumed to lead to the same place however
    often they are resolved (no chain of links is longer than the system follows). *)
Theorem check_filelists_sound w filelists : links_resolve w ->
  exists r w', main filelists w = (r, w') /\ w_fs w' = w_fs w /\
    match r with
    | Ok code => (code = 0 \/ code = 1) /\ (code = 0 -> Forall (well_formed w) filelists)
    | Raise e => is_recursion_error e = true /\ (host_recursion <= base.size (w_fs w))%nat
    end.
Proof.
  intros Hl. unfold main. destruct (check_all_outcome filelists w Hl false) as (r & w' & E & Hw & Hr).
  destruct r as [failed|e].
  - eexists (Ok _), w'. rewrite (bind_ok_eq _ _ _ _ _ E). split_and!; [reflexivity|done|by destruct failed; [right|left]|].
    destruct failed; [done|]. intros _. by apply Hr.
  - exists (Raise e), w'. by rewrite (bind_raise_eq _ _ _ _ _ E).
Qed.
End expansion.

(** *** An instance *)

Definition demo_lists : world := demo_world
  [(["repo"; "rtl"; "filelist.f"], join nl ["# the design"; "+incdir+rtl"; "rtl/a.sv"; "-f rtl/b.f"]);
   (["repo"; "rtl"; "b.f"], "rtl/b.sv"); (["repo"; "rtl"; "a.sv"], ""); (["repo"; "rtl"; "b.sv"], "")]
  [["repo"]; ["repo"; "rtl"]].

Lemma check_filelists_sound_witness :
  well_formed (H := demo) demo_lists (Path true ["repo"; "rtl"; "filelist.f"]).
Proof.
  destruct (check_filelists_sound (H := demo) demo_lists [Path true ["repo"; "rtl"; "filelist.f"]])
    as (r & w' & E & _ & Hc).
  - intros p. apply canon_no_links; [reflexivity|by repeat constructor].
  - assert (E0 : (main (H := demo) [Path true ["repo"; "rtl"; "filelist.f"]] demo_lists).1 = Ok 0) by by_eval.
    rewrite E in E0. simpl in E0. subst r. exact (Forall_inv (proj2 Hc eq_refl)).
Defined.
