(* ===== verification/Trees.v ===== *)
(** [scripts/clean.py], [scripts/check_generated_tree.py] and
    [scripts/write_sha256_manifest.py]: generated trees are removed, looked for
    outside their place, and listed with their digests. *)
From Stdlib Require Import ZArith Lia.
From S2P Require Import Prelude Str Sha256 Py Store Lib Helpers.
Local Open Scope Z_scope.
Local Open Scope py_scope.

(** ** [clean.py] *)

Section clean.
Context `{Host}.

(** The table is built when the module is loaded. *)
Definition TARGETS : M (list (string * list path)) :=
  software ← build_path ["software"];
  images ← build_path ["images"];
  verilator ← build_path ["verilator"];
  result ← build_path ["result"];
  log ← build_path ["log"];
  wave ← build_path ["wave"];
  regression ← build_path ["regression"];
  vivado ← build_path ["vivado"];
  mret [("software", [software]); ("images", [images]); ("sim", [verilator; result; log; wave]);
        ("regression", [regression]); ("fpga", [vivado]); ("all", [repo_path ["build"]])].

(** [p.touch()] *)
Definition touch (p : path) : M unit := fun w =>
  match node_at w (canon w p) with
  | Some (File c _) => (Ok tt, put_file (canon w p) c w)
  | Some Dir => (Ok tt, w)
  | None => create_file p w
  end.

Definition refuse_outside (build_root target : path) : M unit :=
  if negb (bool_decide (target = build_root)) && negb (path_within target build_root)
  then parser_error ("refusing to clean outside build/: " +:+ path_str target) else mret tt.

Definition remove_target (target : path) : M unit :=
  e ← exists_ target;
  if e : bool then rmtree target ;; print ("Removed generated artifacts: " +:+ path_str target)
  else print ("Nothing to remove: " +:+ path_str target).

Definition clean (scope : string) : M Z :=
  table ← TARGETS;
  chosen ← lift_opt KeyError (repr_str scope) (dict_get scope table);
  build_root ← resolve (repo_path ["build"]);
  targets ← map_m resolve chosen;
  for_ targets (refuse_outside build_root) ;;
  for_ targets remove_target ;;
  (if String.eqb scope "all"
   then mkdir_p build_root ;; touch (pnames build_root [".gitkeep"]) else mret tt) ;;
  mret 0.
End clean.

(** ** [check_generated_tree.py] *)

Definition FORBIDDEN_NAMES : list string :=
  ["vivado.log"; "vivado.jou"; "xsim.log"; "xsim.jou"; "xvlog.log"; "xelab.log"].
Definition FORBIDDEN_PARTS : list string := ["obj_dir"; ".Xil"].

Definition forbidden (p : path) : bool :=
  existsb (String.eqb (name p)) FORBIDDEN_NAMES ||
  existsb (fun part => existsb (String.eqb part) FORBIDDEN_PARTS) (path_parts p).

Section check_generated_tree.
Context `{Host}.

Definition violation (build : path) (p : path) : M bool :=
  resolved ← resolve p;
  if bool_decide (resolved = build) || path_within resolved build then mret false
  else mret (forbidden p).

Definition check_tree : M Z :=
  let root := repo_path [] in
  build ← resolve (repo_path ["build"]);
  paths ← rglob root;
  violations ← filter_m (violation build) paths;
  if negb (bool_decide (violations = [])) then
    print "Generated artifacts found outside build/:" ;;
    for_ violations (fun p => t ← relative_text p root; print ("  " +:+ t)) ;;
    mret 1
  else print "Generated-tree check passed" ;; mret 0.
End check_generated_tree.

(** ** [write_sha256_manifest.py] *)

Section write_sha256_manifest.
Context `{Host}.

(** [sha256], in chunks of a mebibyte. *)
Definition sha256 (p : path) : M string := sha256_file p.

Definition manifest_line (root p : path) : M string :=
  digest ← sha256 p;
  relative ← relative_text p root;
  mret (digest +:+ "  " +:+ relative).

Definition write_manifest (root_arg : path) (output_arg : option path) : M Z :=
  root ← resolve root_arg;
  output ← resolve (default (pnames root ["sha256.txt"]) output_arg);
  found ← rglob root;
  files ← filter_m (fun p => f ← is_file p; mret ((f : bool) && negb (bool_decide (p = output)))) found;
  let files := sort_by path_leb files in
  lines ← map_m (manifest_line root) files;
  write_text output (join nl lines +:+ nl) ;;
  print ("SHA256_MANIFEST=" +:+ path_str output) ;;
  print ("FILE_COUNT=" +:+ str_of_Z (len files)) ;;
  mret 0.
End write_sha256_manifest.

(** ** Cleaning stays below the build directory *)

Section clean_facts.
Context `{Host}.

(** From [w] to [w'] every entry that is not below [k] is kept. *)
Record spares (k : list string) (w w' : world) : Prop := {
  spares_fs : forall k' n, below k k' = false -> w_fs w !! k' = Some n -> w_fs w' !! k' = Some n;
  spares_links : forall k', below k k' = false -> w_links w' !! k' = w_links w !! k';
  spares_less : forall k', w_links w !! k' = None -> w_links w' !! k' = None
}.

#[export] Instance spares_preorder k : PreOrder (spares k).
Proof.
  split; [by intros w|]. intros w1 w2 w3 [F1 L1 N1] [F2 L2 N2]. constructor; [auto| |auto].
  intros k' Hk. by rewrite L2, L1.
Qed.

Lemma keeps_below_spares K k w w' : (forall k', k' ∈ K -> below k k' = true) -> keeps K w w' -> spares k w w'.
Proof.
  intros HK Hw. constructor.
  - intros k' n Hb Hn. apply (keeps_fs _ _ _ Hw); [|done]. intros Hk. apply HK in Hk. congruence.
  - intros k' _. by rewrite (keeps_links _ _ _ Hw).
  - intros k'. by rewrite (keeps_links _ _ _ Hw).
Qed.

Lemma below_trans a b c : below a b = true -> below b c = true -> below a c = true.
Proof.
  unfold below. rewrite !is_prefix_spec. intros [r ->] [s ->]. exists (r ++ s). by rewrite app_assoc.
Qed.

Lemma remove_tree_spares k k0 w : below k k0 = true -> spares k w (remove_tree k0 w).
Proof.
  intros Hb. assert (Hout : forall k', below k k' = false -> below k0 k' = false).
  { intros k' Hk. destruct (below k0 k') eqn:E; [|done]. by rewrite (below_trans k k0 k') in Hk. }
  constructor; cbn.
  - intros k' n Hk Hn. apply map_lookup_filter_Some. split; [done|]. by apply Hout.
  - intros k' Hk. destruct (w_links w !! k') as [t|] eqn:E.
    + apply map_lookup_filter_Some. split; [done|]. by apply Hout.
    + apply map_lookup_filter_None. by left.
  - intros k' E. apply map_lookup_filter_None. by left.
Qed.

Lemma rmtree_spares k p w r w' : rmtree p w = (r, w') -> below k (canon w p) = true -> spares k w w'.
Proof.
  unfold rmtree. intros E Hb. destruct (is_link_at w p); [by inversion E|].
  destruct (node_at w (canon w p)) as [[? ?|]|]; [by inversion E| |by inversion E].
  injection E as <- <-. by apply remove_tree_spares.
Qed.

Lemma real_key_spares k w w' k' : spares k w w' -> real_key w k' -> real_key w' k'.
Proof. intros Hs [Hd Hl]. split; [done|]. intros i Hi. by apply (spares_less _ _ _ Hs), Hl. Qed.
End clean_facts.

Section clean_safety.
Context `{Host}.

Lemma wp_reads {A} (m : M A) Q E w : Reads m -> (forall a, m w = (Ok a, w) -> Q a w) ->
  (forall e, E e w) -> wp m Q E w.
Proof.
  intros Hm Hq He. unfold wp. destruct (m w) as [[a|e] w'] eqn:Em; pose proof (Hm _ _ _ Em) as ->; auto.
Qed.

Lemma spares_same k w w' : w_fs w' = w_fs w -> w_links w' = w_links w -> spares k w w'.
Proof. intros Hf Hl. constructor; by rewrite ?Hf, ?Hl. Qed.

(** What a resolved target is. *)
Definition inside (kb : list string) (w : world) (t : path) : Prop :=
  p_abs t = true /\ real_key w (p_parts t) /\ below kb (p_parts t) = true.
Definition gone (w : world) (t : path) : Prop := node_at w (p_parts t) = None.

Lemma refuse_all kb w targets : wp (for_ targets (refuse_outside (Path true kb)))
  (fun _ w' => w' = w /\ Forall (fun t => p_abs t = true -> below kb (p_parts t) = true) targets)
  (fun _ w' => spares kb w w') w.
Proof.
  induction targets as [|t targets IH]; cbn [for_]; [by apply wp_ret|].
  apply wp_bind. unfold refuse_outside at 1. destruct (decide (t = Path true kb)) as [Ht|Ht];
    [rewrite bool_decide_eq_true_2 by done|rewrite bool_decide_eq_false_2 by done]; cbn [negb andb].
  - apply wp_ret. eapply wp_mono; [exact IH| |done]. intros [] w' [-> Hf]. split; [done|].
    constructor; [|done]. intros _. subst t. unfold below. apply is_prefix_spec. exists [].
    by rewrite app_nil_r.
  - destruct (path_within t (Path true kb)) eqn:Hp; cbn [negb].
    + apply wp_ret. eapply wp_mono; [exact IH| |done]. intros [] w' [-> Hf]. split; [done|].
      constructor; [|done]. intros _. unfold path_within in Hp. cbn in Hp. by bool_props.
    + unfold wp, parser_error. cbn. by apply spares_same.
Qed.

Lemma remove_one kb w t : kb <> [] -> inside kb w t ->
  wp (remove_target t) (fun _ w' => spares kb w w' /\ gone w' t /\ forall t', gone w t' -> gone w' t')
    (fun _ w' => spares kb w w') w.
Proof.
  intros Hkb (Ha & Hr & Hb). destruct t as [[] k]; [|done]. cbn in Hr, Hb. unfold remove_target.
  apply wp_bind, wp_gets. unfold exists_at. rewrite (canon_real w k Hr).
  destruct (node_at w k) as [nd|] eqn:En.
  - apply wp_bind. unfold wp. destruct (rmtree (Path true k) w) as [r w1] eqn:E.
    assert (Hs : spares kb w w1) by (eapply rmtree_spares; [exact E|by rewrite canon_real]).
    destruct r as [[]|e]; [|done]. cbn. split; [by etransitivity; [exact Hs|apply spares_same]|].
    unfold rmtree in E. destruct (is_link_at w _); [done|]. rewrite (canon_real w k Hr), En in E.
    destruct nd as [? ?|]; [done|]. injection E as <-. unfold gone, node_at; cbn [p_parts w_fs log remove_tree set_links set_fs].
    split.
    + destruct k as [|x k]; [exfalso; apply Hkb; by destruct kb|].
      apply map_lookup_filter_None. right. intros n _. cbn [fst]. unfold below.
      assert (Hp : is_prefix (x :: k) (x :: k) = true) by (apply is_prefix_spec; exists []; by rewrite app_nil_r).
      by rewrite Hp.
    + intros [a' k']. cbn. destruct k' as [|y k']; [done|]. intros Hn.
      apply map_lookup_filter_None. by left.
  - cbn. split_and!; [by apply spares_same|done|done].
Qed.

Lemma remove_all kb targets : kb <> [] -> forall w, Forall (inside kb w) targets ->
  wp (for_ targets remove_target) (fun _ w' => spares kb w w' /\ Forall (gone w') targets /\
      forall t, gone w t -> gone w' t)
    (fun _ w' => spares kb w w') w.
Proof.
  intros Hkb. induction targets as [|t targets IH]; intros w Hin; cbn [for_]; [by apply wp_ret|].
  apply Forall_cons in Hin as [Ht Hin]. apply wp_bind. eapply wp_mono; [by apply (remove_one kb w t)| |done].
  intros [] w1 (Hs & Hg & Hk). eapply wp_mono; [apply IH| |].
  - eapply Forall_impl; [exact Hin|]. intros t' (Ha & Hr & Hb). split_and!; [done|by eapply real_key_spares|done].
  - intros [] w2 (Hs2 & Hg2 & Hk2). split_and!; [by etransitivity|by constructor; [apply Hk2|]|auto].
  - intros e w2 Hs2. by etransitivity.
Qed.

(** The marker that [all] leaves in the new directory. *)
Lemma mark_spares kb w : real_key w kb -> w_links w !! (kb ++ [".gitkeep"]) = None ->
  wp (mkdir_p (Path true kb) ;; touch (pnames (Path true kb) [".gitkeep"]))
    (fun _ w' => spares kb w w') (fun _ w' => spares kb w w') w.
Proof.
  intros Hr Hl. apply wp_bind. unfold wp at 1. destruct (mkdir_p (Path true kb) w) as [r w1] eqn:E.
  apply (mkdir_keeps []) in E. assert (Hs : spares kb w w1)
    by (apply (keeps_below_spares []); [intros k' Hk'; by apply elem_of_nil in Hk'|done]).
  destruct r as [[]|e]; [|done].
  assert (Hc : canon w1 (pnames (Path true kb) [".gitkeep"]) = kb ++ [".gitkeep"]).
  { assert (Hc : canon w1 (Path true kb) = kb) by (by apply canon_real; eapply real_key_spares).
    rewrite canon_pname; [by rewrite Hc|done|]. rewrite Hc. by rewrite (keeps_links _ _ _ E). }
  unfold wp, touch. rewrite Hc.
  assert (Hb : below kb (kb ++ [".gitkeep"]) = true) by (apply is_prefix_spec; by eexists).
  destruct (node_at w1 (kb ++ [".gitkeep"])) as [[c t|]|].
  - etransitivity; [exact Hs|]. apply (keeps_below_spares [kb ++ [".gitkeep"]]).
    + by intros k' ->%list_elem_of_singleton.
    + constructor; [done|done|]. intros k' n Hk Hn. simpl. rewrite lookup_insert_ne; [done|set_solver].
  - done.
  - destruct (create_file _ w1) as [r w2] eqn:Ew. apply create_file_keeps in Ew. rewrite Hc in Ew.
    assert (Hs2 : spares kb w w2).
    { etransitivity; [exact Hs|]. eapply keeps_below_spares; [|exact Ew]. by intros k' ->%list_elem_of_singleton. }
    by destruct r.
Qed.

(** The paths of the table, and what the script takes them for. *)
Definition build_names : list string :=
  ["software"; "images"; "verilator"; "result"; "log"; "wave"; "regression"; "vivado"].
Definition build_paths : list path := repo_path ["build"] :: ((fun n => repo_path ["build"; n]) <$> build_names).

Lemma TARGETS_ok w table : TARGETS w = (Ok table, w) -> forall scope l p,
  dict_get scope table = Some l -> p ∈ l ->
  p = repo_path ["build"] \/ exists q, q ∈ build_paths /\ p = Path true (canon w q).
Proof.
  intros E scope l p Hg Hp. unfold TARGETS, build_path in E.
  do 8 (let x := fresh "x" in let Ex := fresh "Ex" in
        rstep E x Ex; apply ensure_within_ok in Ex as (_ & -> & _)).
  apply ret_ok in E as [E _]. assert (Hin : (scope, l) ∈ table) by by apply dict_get_elem. rewrite E in Hin.
  assert (Hb : forall n, n ∈ build_names -> exists q, q ∈ build_paths /\
    Path true (canon w (repo_path ("build" :: [n]))) = Path true (canon w q)).
  { intros n Hn. eexists. split; [|reflexivity]. right. apply list_elem_of_fmap. by exists n. }
  repeat (apply elem_of_cons in Hin as [Hin|Hin]); try by apply elem_of_nil in Hin.
  all: injection Hin as -> ->; repeat (apply elem_of_cons in Hp as [Hp|Hp]); try by apply elem_of_nil in Hp.
  all: subst p; try (by left); right; apply Hb, (bool_decide_unpack _); done.
Qed.

(** C38: [clean] removes nothing outside the build directory.  Whatever the scope and
    whatever the outcome, errors included, every file, directory and link whose real place is not
    at or below the resolved [build/] is still there, so that a link in the tree never
    leads the removal out of it; and when the script returns, the targets of every scope but
    [all] are gone. *)
Theorem clean_inside_build scope w r w' :
  canon w (repo_path ["build"]) <> [] ->
  Forall (fun p => real_key w (canon w p)) build_paths ->
  w_links w !! (canon w (repo_path ["build"]) ++ [".gitkeep"]) = None ->
  clean scope w = (r, w') ->
  spares (canon w (repo_path ["build"])) w w' /\
  forall table l, r = Ok 0 -> scope <> "all" -> TARGETS w = (Ok table, w) -> dict_get scope table = Some l ->
    Forall (fun p => node_at w' (canon w p) = None) l.
Proof.
  intros Hkb Hreal Hkeep E. set (kb := canon w (repo_path ["build"])) in *.
  assert (Hwp : wp (clean scope)
    (fun code w' => spares kb w w' /\ (scope <> "all" -> forall table l, TARGETS w = (Ok table, w) ->
       dict_get scope table = Some l -> Forall (fun p => node_at w' (canon w p) = None) l))
    (fun _ w' => spares kb w w') w).
  2: { unfold wp in Hwp. rewrite E in Hwp. destruct r as [code|e].
       - destruct Hwp as [Hs Hg]. split; [done|]. intros. by eapply Hg.
       - by split. }
  unfold clean. apply wp_bind, wp_reads; [unfold TARGETS; solve_reads| |by intros].
  intros table Et. apply wp_bind, wp_reads; [solve_reads| |by intros]. intros chosen Ec.
  apply lift_opt_ok in Ec as [Ec _]. apply wp_bind, wp_gets. fold kb.
  apply wp_bind, wp_reads; [solve_reads| |by intros]. intros targets Em.
  apply map_m_reads in Em as [_ Em]; [|intros; solve_reads].
  assert (Hts : targets = (fun p => Path true (canon w p)) <$> chosen).
  { clear -Em. induction Em as [|p t l ts Hp _ IH]; [done|]. apply gets_ok in Hp as [-> _]. by rewrite IH. }
  apply wp_bind. eapply wp_mono; [apply (refuse_all kb)| |done]. intros [] w1 [-> Hin].
  assert (Hall : Forall (inside kb w) targets).
  { rewrite Hts in Hin |- *. apply Forall_fmap. apply Forall_fmap in Hin. rewrite Forall_forall in Hreal.
    apply Forall_forall. intros p Hp. rewrite Forall_forall in Hin. specialize (Hin p Hp eq_refl).
    split_and!; [done| |done]. cbn [p_parts].
    destruct (TARGETS_ok _ _ Et _ _ p Ec Hp) as [->|(q & Hq & ->)]; [apply Hreal; left|].
    rewrite canon_real; by apply Hreal. }
  apply wp_bind. eapply wp_mono; [by apply (remove_all kb)| |done].
  intros [] w2 (Hs & Hg & _). apply wp_bind. destruct (String.eqb scope "all") eqn:Esc.
  - apply String.eqb_eq in Esc. eapply wp_mono; [apply (mark_spares kb)| |].
    + eapply real_key_spares; [exact Hs|]. rewrite Forall_forall in Hreal. apply Hreal. left.
    + by apply (spares_less _ _ _ Hs).
    + intros [] w3 Hs3. apply wp_ret. split; [by etransitivity|done].
    + intros e w3 Hs3. by etransitivity.
  - apply wp_ret, wp_ret. split; [done|]. intros _ table' l E' Hl.
    rewrite Et in E'. injection E' as <-. rewrite Ec in Hl. injection Hl as <-.
    by rewrite Hts, Forall_fmap in Hg.
Qed.
End clean_safety.

(** *** An instance: a build tree with a link that leads out of it *)

Definition demo_build_tree : world :=
  set_links {[ ["repo"; "build"; "log"; "away"] := Path true ["home"] ]}
    (demo_world [(["repo"; "build"; "log"; "a.log"], "x"); (["home"; "f"], "y")]
       [["repo"]; ["repo"; "build"]; ["repo"; "build"; "log"]; ["home"]]).

(** The same as a test. *)
Definition real_keyb (w : world) (k : list string) : bool :=
  forallb (fun n => negb (String.eqb n "..")) k &&
  forallb (fun i => match w_links w !! take (S i) k with None => true | Some _ => false end)
    (seq 0 (length k)).

Lemma real_keyb_ok w k : real_keyb w k = true -> real_key w k.
Proof.
  unfold real_keyb. intros [Hd Hl]%andb_true_iff. rewrite forallb_forall in Hd, Hl. split.
  - apply Forall_forall. intros n Hn%list_elem_of_In. apply Hd in Hn. by bool_props.
  - intros i Hi. specialize (Hl i). rewrite in_seq in Hl. specialize (Hl ltac:(lia)). by case_match.
Qed.

Lemma clean_inside_build_witness :
  w_fs (clean (H := demo) "sim" demo_build_tree).2 !! ["home"; "f"] =
  w_fs demo_build_tree !! ["home"; "f"].
Proof.
  destruct (clean_inside_build (H := demo) "sim" demo_build_tree (Ok 0)
    (clean (H := demo) "sim" demo_build_tree).2) as [Hs _].
  - vm_compute. discriminate.
  - assert (Hr : forallb (fun p => real_keyb demo_build_tree (canon (H := demo) demo_build_tree p))
      (build_paths (H := demo)) = true) by by_eval.
    apply Forall_forall. intros p Hp%list_elem_of_In. rewrite forallb_forall in Hr.
    by apply real_keyb_ok, Hr.
  - by_eval.
  - by_eval.
  - rewrite (spares_fs _ _ _ Hs ["home"; "f"] (File "y" 0)); [by_eval|by_eval|by_eval].
Defined.

(** ** Generated files outside the build directory *)

Section tree_facts.
Context `{Host}.

Lemma filter_m_fun {A} (f : A -> M bool) (g : A -> bool) (l : list A) w :
  (forall x, f x w = (Ok (g x), w)) -> filter_m f l w = (Ok (List.filter g l), w).
Proof.
  intros Hf. induction l as [|x l IH]; [done|]. cbn [filter_m List.filter].
  rewrite (bind_ok_eq _ _ (g x) w w) by done. cbv beta.
  rewrite (bind_ok_eq _ _ _ _ _ IH). by destruct (g x).
Qed.

(** A loop whose steps only print. *)
Lemma for_prints {A} (f : A -> M unit) (l : list A) :
  (forall x w, x ∈ l -> exists ev, f x w = (Ok tt, log ev w)) -> forall w,
  exists w', for_ l f w = (Ok tt, w') /\ w_fs w' = w_fs w.
Proof.
  induction l as [|x l IH]; intros Hf w; [by exists w|]. cbn [for_].
  destruct (Hf x w) as [ev E]; [left|]. rewrite (bind_ok_eq _ _ _ _ _ E).
  destruct (IH (fun y w0 Hy => Hf y w0 (proj2 (elem_of_cons _ _ _) (or_intror Hy))) (log ev w)) as (w' & E' & Hw).
  by exists w'.
Qed.

Lemma rglob_within w p root : p ∈ rglob_at w root -> path_within p root = true.
Proof.
  unfold rglob_at. intros (k & -> & _)%list_elem_of_fmap. unfold path_within, pnames.
  cbn [p_abs p_parts]. rewrite eqb_reflx. apply is_prefix_spec. by eexists.
Qed.

Lemma path_within_refl p : path_within p p = true.
Proof.
  unfold path_within. rewrite eqb_reflx. apply is_prefix_spec. exists []. by rewrite app_nil_r.
Qed.

(** [check_generated_tree] finds exactly the generated files that are out of place: it
    ends, changes no file and returns 0 if and only if no entry below the repository that
    really lies outside [build/] has a forbidden name or a forbidden directory on its path. *)
Theorem check_tree_exact w : exists code w',
  check_tree w = (Ok code, w') /\ w_fs w' = w_fs w /\ (code = 0 \/ code = 1) /\
  (code = 0 <-> forall p, p ∈ rglob_at w (repo_path []) ->
     path_within (Path true (canon w p)) (Path true (canon w (repo_path ["build"]))) = false ->
     forbidden p = false).
Proof.
  set (build := Path true (canon w (repo_path ["build"]))).
  set (bad := fun p => negb (path_within (Path true (canon w p)) build) && forbidden p).
  assert (Hv : forall p, violation build p w = (Ok (bad p), w)).
  { intros p. unfold violation, bad. rewrite (bind_ok_eq _ _ (Path true (canon w p)) w w) by done.
    destruct (path_within (Path true (canon w p)) build) eqn:E.
    - by rewrite orb_true_r.
    - rewrite bool_decide_eq_false_2; [done|]. intros Heq. rewrite Heq in E.
      by rewrite path_within_refl in E. }
  set (l := List.filter bad (rglob_at w (repo_path []))).
  assert (Hl : l = [] <-> forall p, p ∈ rglob_at w (repo_path []) ->
    path_within (Path true (canon w p)) build = false -> forbidden p = false).
  { split.
    - intros El p Hp Ho. destruct (forbidden p) eqn:Ef; [|done]. exfalso.
      assert (Hin : In p l) by (apply filter_In; split; [by apply list_elem_of_In|unfold bad; by rewrite Ho, Ef]).
      by rewrite El in Hin.
    - intros Hall. destruct l as [|p l'] eqn:El; [done|]. exfalso.
      assert (Hin : In p l) by (rewrite El; by left). apply filter_In in Hin as [Hin Hb].
      apply list_elem_of_In in Hin. unfold bad in Hb. apply andb_true_iff in Hb as [Ho Hb].
      apply negb_true_iff in Ho. rewrite (Hall p Hin Ho) in Hb. done. }
  unfold check_tree. rewrite (bind_ok_eq _ _ build w w) by done. cbv beta.
  rewrite (bind_ok_eq _ _ (rglob_at w (repo_path [])) w w) by done. cbv beta.
  rewrite (bind_ok_eq _ _ l w w) by by apply filter_m_fun. cbv beta.
  case_bool_decide as El; cbn [negb].
  - eexists 0, _. split_and!; [reflexivity|done|by left|]. rewrite <- Hl. done.
  - set (w1 := log (EvOut ("Generated artifacts found outside build/:" +:+ nl)) w).
    rewrite (bind_ok_eq _ _ tt w w1) by done. cbv beta.
    destruct (for_prints (fun p => t ← relative_text p (repo_path []); print ("  " +:+ t)) l) with (w := w1)
      as (w' & E & Hw).
    { intros p w0 Hp. apply list_elem_of_In, filter_In in Hp as [Hp%list_elem_of_In _].
      eexists. unfold relative_text, relative_to. rewrite (rglob_within _ _ _ Hp). reflexivity. }
    rewrite (bind_ok_eq _ _ _ _ _ E). eexists 1, w'.
    split_and!; [reflexivity|by rewrite Hw|by right|]. rewrite <- Hl. done.
Qed.
End tree_facts.

(** ** The digests of a directory *)

Section manifest_facts.
Context `{Host}.
Notation plain := (Forall (fun x => plain_name x = true)).

Lemma Forall2_impl_elem {A B} (P Q : A -> B -> Prop) l k :
  Forall2 P l k -> (forall x y, x ∈ l -> P x y -> Q x y) -> Forall2 Q l k.
Proof.
  induction 1 as [|x y l k Hx _ IH]; intros HQ; constructor; [apply HQ; [left|done]|].
  apply IH. intros x' y' Hx'. apply HQ. by right.
Qed.

(** The line of a file with a content. *)
Definition line_for (root p : path) (content : list Z) : string :=
  sha256_bytes content +:+ "  " +:+ path_str (Path false (drop (length (p_parts root)) (p_parts p))).

Lemma Reads_manifest_line root p : Reads (manifest_line root p).
Proof. unfold manifest_line, sha256. solve_reads. Qed.
#[local] Hint Resolve Reads_manifest_line : reads.

Lemma manifest_line_ok root p l w w' : manifest_line root p w = (Ok l, w') ->
  w' = w /\ exists content, read_bytes p w = (Ok content, w) /\ l = line_for root p content.
Proof.
  unfold manifest_line, sha256. intros E. rstep E d Ed. rstep E r Er. apply ret_ok in E as [-> ->].
  split; [done|]. apply relative_text_ok in Er as (_ & _ & ->).
  unfold sha256_file in Ed. rstep Ed content Ec. apply ret_ok in Ed as [-> _].
  exists content. by rewrite sha256_stream_bytes.
Qed.

(** The store after one file was written. *)
Definition written (w w' : world) (k : list string) (text : string) (t : Z) : Prop :=
  w_fs w' = <[k := File text t]> (w_fs w) /\ w_links w' = w_links w /\ w_denied w' = w_denied w.

Lemma written_plain w w' k text t : plain_store w -> plain k -> written w w' k text t -> plain_store w'.
Proof.
  intros Hw Hk (Hf & Hl & _). constructor; [rewrite Hl; apply Hw|]. intros k' n. rewrite Hf.
  intros [[<- _]|[_ Hn]]%lookup_insert_Some; [done|by eapply ps_names].
Qed.

Lemma written_files w w' root k text t p : plain_store w -> plain root -> plain k ->
  written w w' k text t -> p <> Path true k ->
  p ∈ rglob_at w' (Path true root) /\ is_file_at w' p = true <->
  p ∈ rglob_at w (Path true root) /\ is_file_at w p = true.
Proof.
  intros Hw Hr Hk Hwr Hp. pose proof (written_plain _ _ _ _ _ Hw Hk Hwr) as Hw'.
  rewrite !rglob_plain_iff by done. destruct Hwr as (Hf & Hl & _).
  assert (Hn : forall rest, p = Path true (root ++ rest) -> w_fs w' !! (root ++ rest) = w_fs w !! (root ++ rest)).
  { intros rest ->. rewrite Hf, lookup_insert_ne; [done|congruence]. }
  assert (Hfile : forall rest n, w_fs w !! (root ++ rest) = Some n -> p = Path true (root ++ rest) ->
    is_file_at w' p = is_file_at w p).
  { intros rest n Hkn Ep. assert (Hpl : plain (root ++ rest)) by exact (ps_names w Hw _ n Hkn).
    unfold is_file_at. rewrite Ep, !canon_plain_store by done. unfold node_at.
    destruct (root ++ rest) eqn:Er; [done|]. rewrite <- Er in *. by rewrite (Hn rest). }
  split; intros [(rest & n & Hne & Ep & E) Hif].
  - rewrite (Hn rest Ep) in E. rewrite (Hfile rest n E Ep) in Hif. split; [by exists rest, n|done].
  - rewrite <- (Hfile rest n E Ep) in Hif. rewrite <- (Hn rest Ep) in E. split; [by exists rest, n|done].
Qed.

Lemma written_read w w' k text t p content : plain_store w -> plain k -> written w w' k text t ->
  plain (p_parts p) -> p_abs p = true -> p <> Path true k ->
  read_bytes p w = (Ok content, w) -> read_bytes p w' = (Ok content, w').
Proof.
  intros Hw Hk Hwr Hpl Ha Hp E. pose proof (written_plain _ _ _ _ _ Hw Hk Hwr) as Hw'.
  destruct Hwr as (Hf & _ & Hd). destruct p as [[] kp]; [|done]. cbn in Hpl.
  unfold read_bytes in E. apply bind_ok in E as (c & w1 & E1 & E). apply ret_ok in E as [-> _].
  apply read_raw_ok in E1 as (_ & t' & Hn & Hnd). rewrite canon_plain_store in Hn, Hnd by done.
  apply (read_bytes_node _ w' c t'); rewrite canon_plain_store by done; [|by rewrite Hd].
  unfold node_at in *. destruct kp; [done|]. rewrite Hf, lookup_insert_ne; [done|congruence].
Qed.

(** the manifest that [write_sha256_manifest] leaves is complete and current: every file
    below the root, but the manifest itself, has the line with the digest of its present
    content and its relative path, and every line is that of such a file, in the order of the paths. *)
Theorem write_manifest_lists root output w w' c :
  plain_store w -> plain root -> plain output ->
  write_manifest (Path true root) (Some (Path true output)) w = (Ok c, w') ->
  exists files lines t,
    node_at w' output = Some (File (join nl lines +:+ nl) t) /\
    (forall p, p ∈ files <-> p ∈ rglob_at w' (Path true root) /\ is_file_at w' p = true /\
                             p <> Path true output) /\
    Forall2 (fun p line => exists content, read_bytes p w' = (Ok content, w') /\
                           line = line_for (Path true root) p content) files lines.
Proof.
  intros Hw Hr Ho E. unfold write_manifest in E.
  rstep E r0 E0. apply gets_ok in E0 as [-> _]. rewrite (canon_plain_store w root) in E by done.
  rstep E o0 E0. apply gets_ok in E0 as [-> _]. cbn [default] in E.
  rewrite (canon_plain_store w output) in E by done.
  rstep E found Ef. apply gets_ok in Ef as [-> _].
  rstep E files Efl. rewrite (filter_m_fun _ (fun p => is_file_at w p && negb (bool_decide (p = Path true output))))
    in Efl by done. injection Efl as <-.
  set (files := sort_by path_leb _) in E. rstep E lines El. apply map_m_reads in El as [_ El];
    [|intros; solve_reads].
  apply bind_ok in E as ([] & w1 & Ew & E). apply write_raw_ok in Ew as (-> & Hne & _).
  assert (Hc : canon w (Path true output) = output) by by apply canon_plain_store.
  rewrite Hc in E, Hne.
  assert (Hwr : written w w' output (join nl lines +:+ nl) (w_clock w)) by (by injection E as _ <-).
  clear E. exists files, lines, (w_clock w).
  assert (Hfiles : forall p, p ∈ files <-> p ∈ rglob_at w' (Path true root) /\ is_file_at w' p = true /\
    p <> Path true output).
  { intros p. unfold files. rewrite elem_of_sort_by, list_elem_of_In, filter_In, <- list_elem_of_In.
    rewrite andb_true_iff, negb_true_iff, bool_decide_eq_false.
    pose proof (written_files w w' root output _ _ p Hw Hr Ho Hwr) as Hp. tauto. }
  split_and!; [|exact Hfiles|].
  - destruct Hwr as (Hf & _). unfold node_at. destruct output as [|x output]; [done|].
    by rewrite Hf, lookup_insert_eq.
  - eapply Forall2_impl_elem; [exact El|]. intros p line Hp Hl.
    destruct (manifest_line_ok _ _ _ _ _ Hl) as (_ & content & Hc' & ->). exists content. split; [|done].
    apply Hfiles in Hp as (Hg & Hi & Hne'). pose proof (written_plain _ _ _ _ _ Hw Ho Hwr) as Hw'.
    apply rglob_plain_store in Hg as (rest & _ & -> & Hpl); [|done|done].
    by apply (written_read w _ _ _ _ _ _ Hw Ho Hwr).
Qed.
End manifest_facts.

(** *** An instance *)

Definition demo_files : world := demo_world
  [(["repo"; "out"; "b.bin"], "B"); (["repo"; "out"; "a.bin"], "A"); (["repo"; "out"; "sha256.txt"], "old")]
  [["repo"]; ["repo"; "out"]].

Lemma plain_storeb (w : world) : w_links w = ∅ ->
  forallb (fun kn => forallb plain_name kn.1) (map_to_list (w_fs w)) = true -> plain_store w.
Proof.
  intros Hl Hf. constructor; [done|]. intros k n Hn. apply elem_of_map_to_list in Hn.
  rewrite forallb_forall in Hf. apply list_elem_of_In in Hn. apply Hf in Hn. cbn in Hn.
  apply Forall_forall. intros x Hx. rewrite forallb_forall in Hn. by apply Hn, list_elem_of_In.
Qed.

Lemma write_manifest_lists_witness : exists (files : list path) lines t,
  node_at (write_manifest (H := demo) (Path true ["repo"; "out"]) (Some (Path true ["repo"; "out"; "sha256.txt"]))
    demo_files).2 ["repo"; "out"; "sha256.txt"] = Some (File (join nl lines +:+ nl) t) /\
  Path true ["repo"; "out"; "a.bin"] ∈ files.
Proof.
  destruct (write_manifest_lists (H := demo) ["repo"; "out"] ["repo"; "out"; "sha256.txt"] demo_files
    (write_manifest (H := demo) (Path true ["repo"; "out"]) (Some (Path true ["repo"; "out"; "sha256.txt"]))
      demo_files).2 0) as (files & lines & t & Hn & Hf & _).
  - apply plain_storeb; by_eval.
  - repeat constructor.
  - repeat constructor.
  - by_eval.
  - exists files, lines, t. split; [exact Hn|]. apply Hf. split_and!; [|by_eval|discriminate].
    apply (bool_decide_unpack _). vm_compute. exact I.
Defined.
