(* ===== verification/Legacy.v ===== *)
(** [scripts/import_legacy_isa.py]: the ISA data of the previous round are copied with a
    manifest, and verified against it. *)
From Stdlib Require Import ZArith Lia.
From S2P Require Import Prelude Str Json Sha256 Py Store Lib Helpers.
Local Open Scope Z_scope.
Local Open Scope py_scope.

Section import_legacy_isa.
Context `{Host}.

Definition default_source : path :=
  pnames (parent (parent (repo_path []))) ["2607round"; "superScalar"; "data"].

Definition source_commit (source : path) : M json :=
  '(rc, out, _) ← subprocess_run
     (Command ["git"; "-C"; path_str (parent source); "rev-parse"; "HEAD"] None host_environ None);
  mret (if rc =? 0 then JStr (strip out) else JNull).

Definition source_files (source : path) : M (list path) :=
  children ← iterdir source;
  roots ← filter_m (fun p => d ← is_dir p; mret (d && startswith (name p) "rv32")) children;
  files ← map_m (fun root => found ← rglob root; filter_m is_file found) (sort_by path_leb roots);
  mret (sort_by path_leb (concat files)).

Definition manifest_file (source destination input_path : path) : M json :=
  relative ← relative_to input_path source;
  let output_path := joinpath destination relative in
  n ← stat_size output_path;
  digest ← sha256_file output_path;
  mret (JObj [("path", JStr (path_str relative)); ("bytes", JInt n); ("sha256", JStr digest)]).

Definition make_manifest (source destination : path) : M json :=
  inputs ← source_files source;
  files ← map_m (manifest_file source destination) inputs;
  commit ← source_commit source;
  mret (JObj [("schema_version", JInt 1); ("kind", JStr "legacy_isa_import");
              ("source", JObj [("description", JStr "2607round/superScalar ISA test data");
                               ("git_commit", commit)]);
              ("files", JArr files)]).

Definition copy_input (source destination input_path : path) : M unit :=
  relative ← relative_to input_path source;
  let output_path := joinpath destination relative in
  mkdir_p (parent output_path) ;;
  copy2 input_path output_path.

Definition import_data (source destination : path) : M unit :=
  d ← is_dir source;
  (if negb d then system_exit ("legacy ISA source does not exist: " +:+ path_str source) else mret tt) ;;
  mkdir_p destination ;;
  inputs ← source_files source;
  (if bool_decide (inputs = []) then system_exit ("no rv32* data found under " +:+ path_str source)
   else mret tt) ;;
  for_ inputs (copy_input source destination) ;;
  manifest ← make_manifest source destination;
  write_json_atomic (pnames destination ["manifest.json"]) manifest ;;
  print ("Imported " +:+ str_of_Z (len inputs) +:+ " files into " +:+ path_str destination).

(** What is wrong with an entry, if anything. *)
Definition entry_failure (destination : path) (entry : json) : M (list string) :=
  let bad := "bad manifest entry: " +:+ repr_json entry in
  if negb (is_dict entry) then mret [bad] else
  field ← get entry "path";
  match field with
  | JStr relative =>
      let p := pdiv destination relative in
      f ← is_file p;
      if negb f then mret ["missing: " +:+ relative] else
      n ← stat_size p;
      bytes ← get entry "bytes";
      if negb (json_eqb (JInt n) bytes) then mret ["size mismatch: " +:+ relative] else
      actual ← sha256_file p;
      digest ← get entry "sha256";
      if negb (json_eqb (JStr actual) digest) then mret ["hash mismatch: " +:+ relative] else mret []
  | _ => mret [bad]
  end.

Definition verify (destination : path) : M unit :=
  let manifest_path := pnames destination ["manifest.json"] in
  f ← is_file manifest_path;
  (if negb f then system_exit ("ISA manifest is missing: " +:+ path_str manifest_path) else mret tt) ;;
  manifest ← read_json manifest_path;
  entries ← get manifest "files";
  match entries with
  | JArr entries =>
      failures ← map_m (entry_failure destination) entries;
      let failures := concat failures in
      (if negb (bool_decide (failures = []))
       then system_exit ("ISA data verification failed:" +:+ nl +:+ join nl (take 20 failures)) else mret tt) ;;
      print ("Verified " +:+ str_of_Z (len entries) +:+ " ISA data files")
  | _ => system_exit "ISA manifest field 'files' must be an array"
  end.

Record args := { a_source : path; a_destination : path; a_verify : bool }.

Definition main (a : args) : M Z :=
  destination ← resolve (a_destination a);
  (if a_verify a then verify destination
   else source ← resolve (a_source a); import_data source destination) ;;
  mret 0.
End import_legacy_isa.

(** ** What verification accepts *)

Section legacy_facts.
Context `{Host}.

(** An entry of the manifest and the file it describes. *)
Definition intact (w : world) (destination : path) (entry : json) : Prop :=
  exists d relative content,
    entry = JObj d /\ dict_get "path" d = Some (JStr relative) /\
    read_bytes (pdiv destination relative) w = (Ok content, w) /\
    dict_get "sha256" d = Some (JStr (sha256_bytes content)) /\
    exists n, dict_get "bytes" d = Some n /\ json_eqb (JInt (len content)) n = true.

Lemma Reads_entry_failure d e : Reads (entry_failure d e).
Proof. unfold entry_failure. solve_reads. Qed.
#[local] Hint Resolve Reads_entry_failure : reads.

Lemma get_obj d k v w w' : get (JObj d) k w = (Ok v, w') -> v = default JNull (dict_get k d).
Proof. unfold get, get_default. intros E. apply ret_ok in E as [-> _]. by destruct (dict_get k d). Qed.

Lemma read_bytes_size p w content n w' : read_bytes p w = (Ok content, w) -> stat_size p w = (Ok n, w') ->
  n = len content.
Proof.
  intros E Es. unfold read_bytes in E. apply bind_ok in E as (c & w1 & E1 & E).
  apply ret_ok in E as [-> _]. apply read_raw_ok in E1 as (_ & t & Hn & _).
  unfold stat_size in Es. rewrite Hn in Es. injection Es as <- _. f_equal. clear.
  induction c as [|x c IH]; [done|]. simpl. by rewrite IH.
Qed.

Lemma entry_failure_none destination entry w w' :
  entry_failure destination entry w = (Ok [], w') -> intact w destination entry.
Proof.
  unfold entry_failure. intros E. destruct entry as [| | | | | |d]; try done. cbn [is_dict negb] in E.
  rstep E field Ef. apply get_obj in Ef as ->.
  destruct (dict_get "path" d) as [[| | | |relative| |]|] eqn:Ep; try done. cbn [default] in E.
  rstep E f Ef. destruct f; [|done]. cbn [negb] in E. rstep E n En. rstep E bytes Eb.
  apply get_obj in Eb as ->. destruct (json_eqb (JInt n) _) eqn:Hn; [|done]. cbn [negb] in E.
  rstep E actual Ea. rstep E digest Ed. apply get_obj in Ed as ->.
  destruct (json_eqb (JStr actual) _) eqn:Hd; [|done]. apply json_eqb_str_l in Hd.
  unfold sha256_file in Ea. rstep Ea content Ec. apply ret_ok in Ea as [-> _].
  rewrite sha256_stream_bytes in Hd. exists d, relative, content. split_and!; [done|done|done| |].
  - destruct (dict_get "sha256" d); [by rewrite <- Hd|done].
  - rewrite <- (read_bytes_size _ _ _ _ _ Ec En). destruct (dict_get "bytes" d) as [v|]; [by exists v|done].
Qed.

(** Data that [import_legacy_isa --verify] accepts are those of the manifest: when [verify]
    returns, the manifest is a document whose field [files] is an array, and every entry of it
    names a readable file whose size and SHA-256 digest are the recorded ones.  Nothing is
    written. *)
Theorem verify_intact destination u w w' :
  verify destination w = (Ok u, w') -> w_fs w' = w_fs w /\
  exists manifest entries,
    read_json (pnames destination ["manifest.json"]) w = (Ok manifest, w) /\
    get manifest "files" w = (Ok (JArr entries), w) /\ Forall (intact w destination) entries.
Proof.
  unfold verify. intros E. rstep E f Ef. apply bind_ok in E as (u1 & w1 & E1 & E).
  destruct f; [|done]. injection E1 as _ <-. rstep E manifest Em. rstep E files Efs.
  destruct files as [| | | | |entries|]; try done. rstep E failures El.
  apply map_m_reads in El as [_ El]; [|intros; solve_reads].
  apply bind_ok in E as (u2 & w2 & E2 & E). case_bool_decide as Hc; [|done].
  injection E2 as _ <-. injection E as _ <-. split; [done|]. exists manifest, entries.
  split_and!; [done|done|]. apply Forall_forall. intros entry Hin.
  apply list_elem_of_lookup in Hin as [i Hi]. destruct (Forall2_lookup_l _ _ _ _ _ El Hi) as (l & Hl & Hx).
  apply (concat_nil_elem _ l) in Hc; [|by eapply list_elem_of_lookup_2]. subst l.
  by eapply entry_failure_none.
Qed.
End legacy_facts.

(** *** An instance *)

Definition demo_isa_entry : json :=
  JObj [("path", JStr "rv32ui/add.bin"); ("bytes", JInt 3); ("sha256", JStr (sha256_text "add"))].
Definition demo_isa_world : world := demo_world
  [(["repo"; "data"; "isa"; "rv32ui"; "add.bin"], "add");
   (["repo"; "data"; "isa"; "manifest.json"], dumps (JObj [("files", JArr [demo_isa_entry])]))]
  [["repo"]; ["repo"; "data"]; ["repo"; "data"; "isa"]; ["repo"; "data"; "isa"; "rv32ui"]].

Lemma verify_intact_witness : exists manifest entries,
  get manifest "files" demo_isa_world = (Ok (JArr entries), demo_isa_world) /\
  Forall (intact (H := demo) demo_isa_world (Path true ["repo"; "data"; "isa"])) entries.
Proof.
  destruct (verify_intact (H := demo) (Path true ["repo"; "data"; "isa"]) tt demo_isa_world
    (verify (H := demo) (Path true ["repo"; "data"; "isa"]) demo_isa_world).2)
    as (_ & manifest & entries & _ & Hg & Hf).
  - by_eval.
  - exists manifest, entries. split; [exact Hg|exact Hf].
Defined.
