(* ===== verification/Fpga.v ===== *)
(** [scripts/check_fpga_reports.py], [scripts/run_vivado.py] and
    [scripts/program_board.py]: the bitstream is built, signed off and loaded. *)
From Stdlib Require Import ZArith Lia.
From S2P Require Import Prelude Str Json Regex Sha256 Py Store Lib Helpers BuildSoftware.
Local Open Scope Z_scope.
Local Open Scope py_scope.

(** ** The reports *)

Definition any_char (c : ascii) : bool := true.
Definition digits1 : re := Rep true 1 is_digit.
(** [-?\d+(?:\.\d+)?] *)
Definition number : re :=
  seqs [Opt (Chr (Ascii.eqb "-")); digits1; Opt (Seq (Chr (Ascii.eqb ".")) digits1)].

(** [WNS\(ns\).*?\n[-\s]+\n\s*(-?\d+(?:\.\d+)?)\s+(-?\d+(?:\.\d+)?)], where the point
    matches every character. *)
Definition WNS_PATTERN : re :=
  seqs [lit "WNS(ns)"; Rep false 0 any_char; lit nl; Rep true 1 (fun c => Ascii.eqb c "-" || is_space c);
        lit nl; Rep true 0 is_space; Grp 1 number; Rep true 1 is_space; Grp 2 number].

(** [\|\s*(?:Error|Critical Warning)\s*\|] *)
Definition DRC_PATTERN : re :=
  seqs [lit "|"; Rep true 0 is_space; Alt (lit "Error") (lit "Critical Warning"); Rep true 0 is_space; lit "|"].

(** [Violations found:\s*(\d+)] *)
Definition WARNING_PATTERN : re := seqs [lit "Violations found:"; Rep true 0 is_space; Grp 1 digits1].

Definition TIMING_MET : string := "All user specified timing constraints are met.".

Section check_fpga_reports.
Context `{Host}.
(** [float(text)] as it is written to a document. *)
Variable py_float : string -> json.

(** [path.read_text(encoding="utf-8", errors="replace")]: the bytes that are not UTF-8 are
    replaced by another character outside ASCII, which no pattern tells from them. *)
Definition read_report (p : path) : M string := s ← read_raw p; mret (universal_newlines s).

Definition memory_images (image_dir : path) : list path :=
  ((fun lane => pnames image_dir ["iccm_lane" +:+ str_of_Z lane +:+ ".mem"]) <$> seqZ 0 4) ++
  ((fun bank => pnames image_dir ["dccm_bank" +:+ str_of_Z bank +:+ ".mem"]) <$> seqZ 0 8).

Definition missing_of (test : path -> M bool) (l : list path) : M (list path) :=
  filter_m (fun p => b ← test p; mret (negb b)) l.

(** The bitstream may not be older than the images it was made of. *)
Definition check_images_age (bitstream image_manifest : path) : M unit :=
  f ← is_file image_manifest;
  fail_if (negb f) ValueError ("image manifest is missing: " +:+ path_str image_manifest) ;;
  let images := memory_images (parent image_manifest) in
  missing_images ← missing_of is_file images;
  fail_if (negb (bool_decide (missing_images = []))) ValueError
    ("memory images are missing: " +:+ repr_paths missing_images) ;;
  t0 ← stat_mtime image_manifest;
  times ← map_m stat_mtime images;
  let newest_image_time := foldl Z.max t0 times in
  bit_time ← stat_mtime bitstream;
  fail_if (bit_time <? newest_image_time) ValueError
    ("bitstream is older than the current software images; " +:+
     "reset synthesis and regenerate it").

Definition group_float (g : option caps) (n : nat) : json :=
  match g with
  | Some g => match group n g with Some t => py_float t | None => JNull end
  | None => JNull
  end.

Record report := {
  timing_met : bool;
  wns_ns : json;
  tns_ns : json;
  drc_errors : Z;
  warnings : Z
}.

(** What the texts of the two reports say. *)
Definition read_reports (timing_text drc_text : string) : report :=
  let wns_match := (fun m => m.1.2) <$> search WNS_PATTERN timing_text in
  {| timing_met := contains TIMING_MET timing_text;
     wns_ns := group_float wns_match 1;
     tns_ns := group_float wns_match 2;
     drc_errors := len (findall DRC_PATTERN drc_text);
     warnings := match search WARNING_PATTERN drc_text with
                 | Some (_, g, _) => default 0 (t ← group 1 g; py_int t)
                 | None => 0
                 end |}.

Definition status (r : report) : string :=
  if timing_met r && (drc_errors r =? 0) then "PASS" else "FAIL".

Definition result_document (target : string) (r : report) (bitstream timing drc : path) (digest : string)
    : list (string * json) :=
  [("schema_version", JInt 1); ("kind", JStr "fpga"); ("target", JStr target); ("status", JStr (status r));
   ("timing_met", JBool (timing_met r)); ("wns_ns", wns_ns r); ("tns_ns", tns_ns r);
   ("drc_error_count", JInt (drc_errors r)); ("drc_warning_count", JInt (warnings r));
   ("artifacts", JObj [("bitstream", JStr (path_str bitstream)); ("bitstream_sha256", JStr digest);
                       ("timing", JStr (path_str timing)); ("drc", JStr (path_str drc))])].

Definition check (build_root : path) (target : string) (image_manifest : option path) : M path :=
  let project := pnames build_root ["project"] in
  let bitstream := pnames project ["socrv.runs"; "impl_1"; "fpga_top.bit"] in
  let timing := pnames project ["reports"; "post_impl_timing_summary.rpt"] in
  let drc := pnames project ["reports"; "post_impl_drc.rpt"] in
  missing ← missing_of exists_ [bitstream; timing; drc];
  fail_if (negb (bool_decide (missing = []))) ValueError
    ("missing FPGA artifacts: " +:+ repr_paths missing) ;;
  match image_manifest with Some m => check_images_age bitstream m | None => mret tt end ;;
  timing_text ← read_report timing;
  drc_text ← read_report drc;
  let r := read_reports timing_text drc_text in
  let result_path := pnames build_root ["result.json"] in
  digest ← sha256_file bitstream;
  extra ← match image_manifest with
          | Some m => d ← sha256_file m;
                      mret [("image_manifest", JStr (path_str m)); ("image_manifest_sha256", JStr d)]
          | None => mret []
          end;
  write_json_atomic result_path (JObj (result_document target r bitstream timing drc digest ++ extra)) ;;
  fail_if (negb (String.eqb (status r) "PASS")) ValueError
    ("FPGA report gate failed: timing_met=" +:+ (if timing_met r then "True" else "False") +:+
     ", drc_errors=" +:+ str_of_Z (drc_errors r)) ;;
  print ("FPGA reports PASS: timing met, DRC errors 0, warnings " +:+ str_of_Z (warnings r)) ;;
  n ← stat_size bitstream;
  print ("Bitstream: " +:+ path_str bitstream +:+ " (" +:+ str_of_Z n +:+ " bytes)") ;;
  mret result_path.

Record check_args := {
  c_board : string;
  c_build_root : option path;
  c_run_dir : option path;
  c_core_mhz : option Z
}.

(** The directory checked and, for a competition run, the image it was made of. *)
Definition check_location (a : check_args) : M (path * option path) :=
  match c_run_dir a with
  | Some d =>
      board ← lift_opt KeyError (repr_str (c_board a)) (dict_get (c_board a) BOARDS);
      core_mhz ← resolve_core_mhz board (c_core_mhz a);
      run_dir ← resolve_run_dir d;
      mret (pnames run_dir ["vivado"; build_prefix board +:+ "-" +:+ str_of_Z core_mhz +:+ "mhz"],
            Some (pnames run_dir ["images"; "image.json"]))
  | None =>
      build_root ← match c_build_root a with
                   | Some p => resolve p
                   | None => mret (repo_path ["build"; "vivado"; "kintex7-smoke"])
                   end;
      mret (build_root, None)
  end.

Definition check_main (a : check_args) : M Z :=
  result ← or_usage_error (fun e => is_os_error e || is_value_error e)
    ('(build_root, image_manifest) ← check_location a;
     check build_root (c_board a) image_manifest);
  print ("Result: " +:+ path_str result) ;;
  mret 0.

(** ** [run_vivado.py] *)

Fixpoint first_existing (candidates : list path) : M path :=
  match candidates with
  | [] => raise ValueError "Vivado batch launcher was not found; set VIVADO"
  | candidate :: candidates' =>
      e ← exists_ candidate;
      if e : bool then mret candidate else first_existing candidates'
  end.

Definition find_vivado : M path :=
  let override := match getenv "VIVADO" with
                  | Some s => if String.eqb s "" then [] else [parse_path s]
                  | None => []
                  end in
  first_existing (override ++
    [parse_path "D:\Xilinx\Vivado\2023.2\bin\vivado.bat";
     parse_path "D:\AppMajor\xilinx\Vivado\2023.2\bin\vivado.bat"]).






Definition select_board (name : string) (requested : option string) (core : option Z)
    : M (FpgaBoard * string * Z) :=
  board ← lift_opt KeyError (repr_str name) (dict_get name BOARDS);
  let profile := match requested with
                 | Some p => if String.eqb p "" then default_profile board else p
                 | None => default_profile board
                 end in
  core_mhz ← or_usage_error is_value_error (resolve_core_mhz board core);
  mret (board, profile, core_mhz).


(** ** [program_board.py] *)

Record program_args := {
  p_board : string;
  p_profile : option string;
  p_core_mhz : option Z;
  p_server : string
}.

(** The bitstream of the build, or for the default board that of an older build. *)
Definition program_bitstream (a : program_args) (board : FpgaBoard) (profile : string) (core_mhz : Z) : M path :=
  let bitstream := pnames (fpga_build_root board profile core_mhz)
                     ["project"; "socrv.runs"; "impl_1"; "fpga_top.bit"] in
  if String.eqb (p_board a) "kintex7_competition" && bool_decide (p_core_mhz a = None) then
    let legacy_bitstream := repo_path ["build"; "vivado"; "kintex7-" +:+ profile; "project";
                                       "socrv.runs"; "impl_1"; "fpga_top.bit"] in
    e ← exists_ legacy_bitstream;
    mret (if e : bool then legacy_bitstream else bitstream)
  else mret bitstream.

Definition program_main (a : program_args) : M Z :=
  '(board, profile, core_mhz) ← select_board (p_board a) (p_profile a) (p_core_mhz a);
  bitstream ← program_bitstream a board profile core_mhz;
  e ← exists_ bitstream;
  (if negb e then parser_error ("bitstream is missing: " +:+ path_str bitstream) else mret tt) ;;
  vivado ← find_vivado;
  call [path_str vivado; "-mode"; "batch"; "-source"; path_str (pnames (tcl_dir board) ["program.tcl"]);
        "-tclargs"; path_str bitstream; p_server a] (Some (repo_path ["build"])).
End check_fpga_reports.

(** ** What is signed off *)

Section signoff.
Context `{Host}.
Variable py_float : string -> json.

Lemma Reads_missing_of test l : (forall p, Reads (test p)) -> Reads (missing_of test l).
Proof. intros Ht. unfold missing_of. apply Reads_filter_m. intros p. apply Reads_bind; [done|]. intros; apply Reads_ret. Qed.
Lemma Reads_check_images_age b m : Reads (check_images_age b m).
Proof.
  unfold check_images_age. apply Reads_bind; [solve_reads|]. intros f. apply Reads_bind; [solve_reads|].
  intros _. apply Reads_bind; [apply Reads_missing_of; solve_reads|]. intros l. solve_reads.
Qed.
Lemma Reads_read_report p : Reads (read_report p).
Proof. unfold read_report. solve_reads. Qed.
#[local] Hint Resolve Reads_missing_of Reads_check_images_age Reads_read_report : reads.

Lemma missing_of_nil (test : path -> M bool) (f : world -> path -> bool) l w w' :
  (forall p, test p = gets (fun w => f w p)) -> missing_of test l w = (Ok [], w') ->
  w' = w /\ Forall (fun p => f w p = true) l.
Proof.
  intros Ht E. unfold missing_of in E.
  assert (E' : filter_m (fun p => b ← test p; mret (negb b)) l w = (Ok (List.filter (fun p => negb (f w p)) l), w)).
  { clear E. induction l as [|p l IH]; [done|]. cbn [filter_m List.filter]. rewrite Ht.
    rewrite (bind_ok_eq _ _ (negb (f w p)) w w) by done. cbv beta.
    rewrite (bind_ok_eq _ _ _ _ _ IH). by destruct (negb (f w p)). }
  rewrite E' in E. injection E as E <-. split; [done|]. apply Forall_forall. intros p Hp.
  destruct (f w p) eqn:Ef; [done|]. exfalso.
  assert (Hin : In p (List.filter (fun p => negb (f w p)) l))
    by (apply filter_In; split; [by apply list_elem_of_In|by rewrite Ef]).
  by rewrite E in Hin.
Qed.

Lemma stat_mtime_ok p w t w' : stat_mtime p w = (Ok t, w') -> t = mtime_at w p /\ w' = w.
Proof.
  unfold stat_mtime, mtime_at. destruct (node_at w (canon w p)) as [[? ?|]|]; [|by intros [= <- <-]|done].
  by intros [= <- <-].
Qed.

Lemma foldl_max_le l t b : foldl Z.max t l <= b -> t <= b /\ Forall (fun x => x <= b) l.
Proof.
  revert t. induction l as [|x l IH]; intros t Hl; cbn [foldl] in Hl; [done|].
  apply IH in Hl as [Hm Hf]. split; [lia|]. constructor; [lia|done].
Qed.

Lemma check_images_age_ok bitstream m u w w' : check_images_age bitstream m w = (Ok u, w') ->
  forall image, image ∈ m :: memory_images (parent m) ->
    is_file_at w image = true /\ mtime_at w image <= mtime_at w bitstream.
Proof.
  unfold check_images_age. intros E. rstep E f Ef. apply gets_ok in Ef as [-> _].
  rstep E u0 Eu. apply fail_if_ok in Eu as [Hf _]. apply negb_false_iff in Hf.
  rstep E l El. rstep E u1 Eu. apply fail_if_ok in Eu as [Hl _].
  bool_props. subst l. apply (missing_of_nil _ is_file_at) in El as [_ Hall]; [|done].
  rstep E t0 E0. apply stat_mtime_ok in E0 as [-> _].
  rstep E times Et. apply map_m_reads in Et as [_ Et]; [|intros; solve_reads].
  rstep E tb Eb. apply stat_mtime_ok in Eb as [-> _]. apply fail_if_ok in E as [Hm ->].
  apply Z.ltb_ge, foldl_max_le in Hm as [H0 Hts].
  intros image [->|Hi]%elem_of_cons; [done|]. split; [by rewrite Forall_forall in Hall; apply Hall|].
  apply list_elem_of_lookup in Hi as [i Hi]. destruct (Forall2_lookup_l _ _ _ _ _ Et Hi) as (t & Ht & Hst).
  apply stat_mtime_ok in Hst as [-> _]. rewrite Forall_lookup in Hts. by eapply Hts.
Qed.

Lemma status_pass r : String.eqb (status r) "PASS" = true -> timing_met r = true /\ drc_errors r = 0.
Proof.
  unfold status. destruct (timing_met r); cbn [andb]; [|done].
  destruct (Z.eqb_spec (drc_errors r) 0); [done|done].
Qed.

(** C39: what [check_fpga_reports] signs off is sound.  When it returns, the timing report of the
    build says that all constraints are met and the DRC report has no row of an error or a
    critical warning; for a competition run all the memory images exist and none is
    newer than the bitstream; and [result.json] holds PASS with the digest of the
    bitstream that was there. *)
Theorem check_signs_off build_root target im w p w' :
  check py_float build_root target im w = (Ok p, w') ->
  w_links w !! lcanon w (pnames build_root ["result.json"]) = None ->
  let bitstream := pnames build_root ["project"; "socrv.runs"; "impl_1"; "fpga_top.bit"] in
  let timing := pnames build_root ["project"; "reports"; "post_impl_timing_summary.rpt"] in
  let drc := pnames build_root ["project"; "reports"; "post_impl_drc.rpt"] in
  p = pnames build_root ["result.json"] /\
  (forall m, im = Some m -> forall image, image ∈ m :: memory_images (parent m) ->
     is_file_at w image = true /\ mtime_at w image <= mtime_at w bitstream) /\
  exists timing_text drc_text content extra t,
    read_report timing w = (Ok timing_text, w) /\ contains TIMING_MET timing_text = true /\
    read_report drc w = (Ok drc_text, w) /\ findall DRC_PATTERN drc_text = [] /\
    read_bytes bitstream w = (Ok content, w) /\
    let r := read_reports py_float timing_text drc_text in
    status r = "PASS" /\
    node_at w' (lcanon w p) = Some (File (dumps_manifest
      (JObj (result_document target r bitstream timing drc (sha256_bytes content) ++ extra)) +:+ nl) t).
Proof.
  intros E Hl bitstream timing drc. unfold check in E.
  assert (Hn : forall l l', pnames (pnames build_root l) l' = pnames build_root (l ++ l'))
    by (intros; unfold pnames; cbn; by rewrite app_assoc).
  rewrite !Hn in E. cbn [app] in E. fold bitstream timing drc in E.
  rstep E missing Em. rstep E u1 Eu. clear Em Eu.
  apply bind_ok in E as (u2 & w2 & Eim & E).
  assert (w2 = w /\ forall m, im = Some m -> forall image, image ∈ m :: memory_images (parent m) ->
     is_file_at w image = true /\ mtime_at w image <= mtime_at w bitstream) as [-> Him].
  { destruct im as [m|]; [|by injection Eim as _ <-]. split; [by eapply Reads_check_images_age|].
    intros m' [= <-]. by eapply check_images_age_ok. }
  rstep E timing_text Et. rstep E drc_text Ed. rstep E digest Eg.
  unfold sha256_file in Eg. rstep Eg content Ec. apply ret_ok in Eg as [-> _].
  apply bind_ok in E as (extra & w3 & Ex & E).
  assert (w3 = w) as ->.
  { destruct im as [m|]; [|by injection Ex as _ <-]. rstep Ex d Ed'. by injection Ex as _ <-. }
  apply bind_ok in E as (u3 & w4 & Ew & E). apply write_json_atomic_cases in Ew as [_ [t Ht]]; [|done].
  apply bind_ok in E as (u4 & w5 & Es & E). apply fail_if_ok in Es as [Hs ->]. apply negb_false_iff in Hs.
  destruct (status_pass _ Hs) as [Htm Hde].
  apply bind_ok in E as (u5 & w6 & Ep & E). injection Ep as _ <-.
  apply bind_ok in E as (n & w7 & Esz & E). apply bind_ok in E as (u6 & w8 & Ep & E).
  injection Ep as _ <-. apply ret_ok in E as [-> ->]. pose proof (stat_size_state _ _ _ _ Esz) as ->.
  split_and!; [done|exact Him|]. exists timing_text, drc_text, content, extra, t.
  rewrite sha256_stream_bytes in Ht. apply String.eqb_eq in Hs.
  split_and!; [done|done|done| |done|cbv zeta; split; [done|exact Ht]].
  unfold drc_errors, read_reports in Hde. destruct (findall DRC_PATTERN drc_text); [done|]. simpl in Hde. lia.
Qed.

(** *** The build leaves nothing of an earlier one to sign off *)







End signoff.

(** *** Instances *)

Definition demo_root : path := Path true ["repo"; "build"; "vivado"; "pynq_z2-smoke-50mhz"].
Definition demo_timing : string :=
  "Design Timing" +:+ nl +:+ "WNS(ns) TNS(ns)" +:+ nl +:+ "------- -------" +:+ nl +:+ " 0.125  0.000" +:+ nl +:+
  TIMING_MET +:+ nl.
Definition demo_sign_files (root : path) : list (list string * string) :=
  [(p_parts root ++ ["project"; "socrv.runs"; "impl_1"; "fpga_top.bit"], "bits");
   (p_parts root ++ ["project"; "reports"; "post_impl_timing_summary.rpt"], demo_timing);
   (p_parts root ++ ["project"; "reports"; "post_impl_drc.rpt"], "Violations found: 2" +:+ nl)].
Definition demo_signed : world := demo_world (demo_sign_files demo_root) [["repo"]; p_parts demo_root].

Example demo_wns : wns_ns (read_reports JFloat demo_timing "") = JFloat "0.125".
Proof. vm_compute. reflexivity. Qed.

Lemma check_signs_off_witness : exists drc_text,
  read_report (H := demo) (pnames demo_root ["project"; "reports"; "post_impl_drc.rpt"]) demo_signed =
    (Ok drc_text, demo_signed) /\ findall DRC_PATTERN drc_text = [].
Proof.
  destruct (check_signs_off (H := demo) JFloat demo_root "pynq_z2" None demo_signed
    (pnames demo_root ["result.json"]) (check (H := demo) JFloat demo_root "pynq_z2" None demo_signed).2)
    as (_ & _ & timing_text & drc_text & content & extra & t & _ & _ & Hd & Hf & _).
  - by_eval.
  - by_eval.
  - exists drc_text. split; [exact Hd|exact Hf].
Defined.


