(* ===== verification/Dependencies.v ===== *)
(** [scripts/fetch_dependencies.py]: the external sources are checked out at the
    revision their lock file pins, and verified. *)
From Stdlib Require Import ZArith Lia.
From S2P Require Import Prelude Str Json Py Store Lib Helpers.
Local Open Scope Z_scope.
Local Open Scope py_scope.

Record Dependency := {
  dep_name : string;
  lock_path : path;
  destination : path
}.

Section dependencies.
Context `{Host}.

Definition locked (n : string) (parts : list string) : string * Dependency :=
  (n, {| dep_name := n; lock_path := repo_path (parts ++ ["dependency.lock.json"]);
         destination := repo_path (parts ++ ["upstream"]) |}).
Definition DEPENDENCIES : list (string * Dependency) := [
  locked "rt-thread" ["software"; "rt-thread"];
  locked "riscv-tests" ["software"; "riscv-tests"];
  locked "coremark" ["software"; "coremark"];
  locked "spike" ["sim"; "reference"; "spike"];
  locked "ibex-cosim" ["sim"; "reference"; "ibex-cosim"]].

Definition git (args : list string) (cwd : path) (timeout : Z) : M CommandResult :=
  '(rc, out, err) ← subprocess_run (Command ("git" :: args) (Some cwd) host_environ (Some timeout));
  mret {| argv := "git" :: args; returncode := rc; stdout := out; stderr := err |}.
Definition git_ok (r : CommandResult) : bool := returncode r =? 0.

(** An optional array of the lock file. *)
Definition check_array (n field : string) (v : json) : M unit :=
  match v with
  | JNull | JArr _ => mret tt
  | _ => system_exit (n +:+ ": " +:+ field +:+ " must be an array")
  end.

Fixpoint require_fields (n : string) (fields : list string) (lock : list (string * json)) : M unit :=
  match fields with
  | [] => mret tt
  | field :: fields' =>
      if dict_mem field lock then require_fields n fields' lock
      else system_exit (n +:+ ": missing lock field " +:+ field)
  end.

Definition load_lock (d : Dependency) : M json :=
  lock ← read_json (lock_path d);
  version ← get lock "schema_version";
  (if json_eqb version (JInt 1) then mret tt
   else system_exit (dep_name d +:+ ": unsupported lock version " +:+ repr_json version)) ;;
  fields ← dict_items lock;
  require_fields (dep_name d) ["name"; "url"; "commit"; "required_paths"] fields ;;
  n ← getitem lock "name";
  (if json_eqb n (JStr (dep_name d)) then mret tt
   else system_exit (dep_name d +:+ ": lock name is " +:+ repr_json n)) ;;
  required ← getitem lock "required_paths";
  (if is_list required then mret tt
   else system_exit (dep_name d +:+ ": required_paths must be an array")) ;;
  sparse_paths ← get lock "sparse_paths";
  check_array (dep_name d) "sparse_paths" sparse_paths ;;
  submodules ← get lock "submodules";
  check_array (dep_name d) "submodules" submodules ;;
  mret lock.

Definition has_git (d : Dependency) : M bool := exists_ (pnames (destination d) [".git"]).

Definition current_commit (d : Dependency) : M (option string) :=
  e ← has_git d;
  if negb e then mret None else
  result ← git ["rev-parse"; "HEAD"] (destination d) 300;
  mret (if git_ok result then Some (strip (stdout result)) else None).

Definition current_remote (d : Dependency) : M (option string) :=
  e ← has_git d;
  if negb e then mret None else
  result ← git ["remote"; "get-url"; "origin"] (destination d) 300;
  mret (if git_ok result then Some (strip (stdout result)) else None).

(** [[str(x) for x in lock.get(field, [])]] *)
Definition string_list (lock : json) (field : string) : M (list string) :=
  l ← (x ← get_default lock field (JArr []); items_of x);
  mret (str_json <$> l).

Definition configure_sparse (d : Dependency) (lock : json) : M (list string) :=
  sparse_paths ← string_list lock "sparse_paths";
  match sparse_paths with
  | [] =>
      disable ← git ["sparse-checkout"; "disable"] (destination d) 300;
      if (returncode disable =? 0) || (returncode disable =? 128) then mret []
      else system_exit (dep_name d +:+ ": cannot disable sparse checkout:" +:+ nl +:+
                        stdout disable +:+ stderr disable)
  | _ =>
      sparse ← git (["sparse-checkout"; "set"; "--no-cone"] ++ sparse_paths) (destination d) 300;
      if git_ok sparse then mret sparse_paths
      else system_exit (dep_name d +:+ ": sparse checkout failed:" +:+ nl +:+
                        stdout sparse +:+ stderr sparse)
  end.

(** [actual or 'missing'] *)
Definition or_missing (s : string) : string := if String.eqb s "" then "missing" else s.

(** The paths of [required] that do not exist below [root]. *)
Definition missing_paths (root : path) (required : list string) : M (list string) :=
  filter_m (fun r => e ← exists_ (pdiv root r); mret (negb e)) required.

Definition incomplete (what : string) (missing : list string) : M unit :=
  match missing with
  | [] => mret tt
  | _ => system_exit (what +:+ ": checkout is incomplete; missing:" +:+ nl +:+
                      join nl ((fun r => "  " +:+ r) <$> missing))
  end.

Definition verify_submodule (d : Dependency) (submodule : json) : M unit :=
  sub ← (x ← getitem submodule "path"; mret (str_json x));
  let p := pdiv (destination d) sub in
  let label := dep_name d +:+ "/" +:+ sub in
  result ← git ["rev-parse"; "HEAD"] p 300;
  let actual := if git_ok result then Some (strip (stdout result)) else None in
  expected ← (x ← getitem submodule "commit"; mret (str_json x));
  (if bool_decide (actual = Some expected) then mret tt
   else system_exit (label +:+ ": expected commit " +:+ expected +:+ ", got " +:+
                     or_missing (default "" actual))) ;;
  remote ← git ["remote"; "get-url"; "origin"] p 300;
  let actual_url := if git_ok remote then rstrip_slash (strip (stdout remote)) else "" in
  expected_url ← (x ← getitem submodule "url"; mret (rstrip_slash (str_json x)));
  (if String.eqb actual_url expected_url then mret tt
   else system_exit (label +:+ ": expected origin " +:+ expected_url +:+ ", got " +:+
                     or_missing actual_url)) ;;
  required ← string_list submodule "required_paths";
  missing ← missing_paths p required;
  incomplete label missing.

Definition submodules_of (lock : json) : M (list json) :=
  x ← get_default lock "submodules" (JArr []); items_of x.

Definition verify_submodules (d : Dependency) (lock : json) : M unit :=
  submodules ← submodules_of lock;
  for_ submodules (verify_submodule d).

Definition initialize_submodules (d : Dependency) (lock : json) : M unit :=
  submodules ← submodules_of lock;
  for_ submodules (fun submodule =>
    p ← (x ← getitem submodule "path"; mret (str_json x));
    result ← git ["submodule"; "update"; "--init"; "--depth"; "1"; "--"; p] (destination d) 600;
    if git_ok result then mret tt
    else system_exit (dep_name d +:+ "/" +:+ p +:+ ": submodule checkout failed:" +:+ nl +:+
                      stdout result +:+ stderr result)) ;;
  verify_submodules d lock.

(** The origin of the checkout is the locked one. *)
Definition check_origin (d : Dependency) (lock : json) : M unit :=
  expected_url ← (x ← getitem lock "url"; mret (rstrip_slash (str_json x)));
  remote ← current_remote d;
  let actual_url := rstrip_slash (default "" remote) in
  if String.eqb actual_url expected_url then mret tt
  else system_exit (dep_name d +:+ ": expected origin " +:+ expected_url +:+ ", got " +:+
                    or_missing actual_url).

Definition verify_one (d : Dependency) : M json :=
  lock ← load_lock d;
  actual ← current_commit d;
  expected ← (x ← getitem lock "commit"; mret (str_json x));
  (if bool_decide (actual = Some expected) then mret tt
   else system_exit (dep_name d +:+ ": expected commit " +:+ expected +:+ ", got " +:+
                     or_missing (default "" actual))) ;;
  check_origin d lock ;;
  verify_submodules d lock ;;
  required ← (x ← getitem lock "required_paths"; items_of x);
  missing ← missing_paths (destination d) (str_json <$> required);
  incomplete (dep_name d) missing ;;
  url ← getitem lock "url";
  ref ← get lock "ref";
  sparse ← string_list lock "sparse_paths";
  manifest_path ← build_path ["manifest"; dep_name d +:+ ".json"];
  write_json_atomic manifest_path
    (JObj [("schema_version", JInt 1); ("kind", JStr "external_dependency");
           ("name", JStr (dep_name d)); ("url", url); ("ref", ref); ("commit", JStr expected);
           ("sparse_paths", JArr (JStr <$> sparse))]) ;;
  print (dep_name d +:+ " dependency verified: " +:+ expected) ;;
  mret lock.

Fixpoint git_all (d : Dependency) (commands : list (list string)) : M unit :=
  match commands with
  | [] => mret tt
  | command :: commands' =>
      result ← git command (destination d) 300;
      (if git_ok result then mret tt
       else system_exit (dep_name d +:+ ": git " +:+ join " " command +:+ " failed:" +:+ nl +:+
                         stdout result +:+ stderr result)) ;;
      git_all d commands'
  end.

(** The locked commit is fetched and checked out. *)
Definition fetch_checkout (d : Dependency) (lock : json) : M unit :=
  commit ← (x ← getitem lock "commit"; mret (str_json x));
  fetch ← git ["fetch"; "--depth"; "1"; "origin"; commit] (destination d) 600;
  (if git_ok fetch then mret tt
   else system_exit (dep_name d +:+ ": fetch failed:" +:+ nl +:+ stdout fetch +:+ stderr fetch)) ;;
  checkout ← git ["checkout"; "--detach"; "FETCH_HEAD"] (destination d) 300;
  if git_ok checkout then mret tt
  else system_exit (dep_name d +:+ ": checkout failed:" +:+ nl +:+ stdout checkout +:+ stderr checkout).

Definition initialize_checkout (d : Dependency) (lock : json) : M unit :=
  let dest := destination d in
  e ← exists_ dest;
  when_ e
    (children ← iterdir dest;
     match children with
     | [] => rmdir dest
     | _ => system_exit (dep_name d +:+ ": destination is non-empty and not the locked checkout: " +:+
                         path_str dest)
     end) ;;
  mkdir true false dest ;;
  url ← (x ← getitem lock "url"; mret (str_json x));
  git_all d [["init"]; ["config"; "core.autocrlf"; "false"]; ["config"; "core.symlinks"; "false"];
             ["remote"; "add"; "origin"; url]] ;;
  _ ← configure_sparse d lock;
  fetch_checkout d lock ;;
  initialize_submodules d lock.

Definition fetch_one (d : Dependency) : M unit :=
  lock ← load_lock d;
  actual ← current_commit d;
  commit ← getitem lock "commit";
  if match actual with Some a => json_eqb (JStr a) commit | None => json_eqb JNull commit end then
    _ ← configure_sparse d lock;
    initialize_submodules d lock ;;
    _ ← verify_one d;
    print (dep_name d +:+ " already present at the locked revision")
  else
  e ← has_git d;
  if e : bool then
    check_origin d lock ;;
    status ← git ["status"; "--porcelain"] (destination d) 300;
    (if negb (git_ok status) || negb (String.eqb (strip (stdout status)) "")
     then system_exit (dep_name d +:+ ": refusing to replace a modified checkout: " +:+
                       path_str (destination d))
     else mret tt) ;;
    _ ← configure_sparse d lock;
    fetch_checkout d lock ;;
    initialize_submodules d lock ;;
    _ ← verify_one d;
    print ("Updated " +:+ dep_name d +:+ " in " +:+ path_str (destination d))
  else
    initialize_checkout d lock ;;
    _ ← verify_one d;
    print ("Fetched " +:+ dep_name d +:+ " into " +:+ path_str (destination d)).

Definition selected_dependencies (n : string) : M (list Dependency) :=
  if String.eqb n "all" then mret (DEPENDENCIES.*2)
  else d ← lift_opt KeyError (repr_str n) (dict_get n DEPENDENCIES); mret [d].

Definition main (args_dependency : string) (args_verify : bool) : M Z :=
  g ← which "git";
  (if bool_decide (g = None) then system_exit "git executable not found" else mret tt) ;;
  selected ← selected_dependencies args_dependency;
  for_ selected (fun d => if args_verify then _ ← verify_one d; mret tt else fetch_one d) ;;
  mret 0.
End dependencies.

(** ** What is verified *)

Section dependency_facts.
Context `{Host}.

Lemma Reads_require_fields n fields lock : Reads (require_fields n fields lock).
Proof. induction fields as [|f fields IH]; cbn [require_fields]; [apply Reads_ret|].
  destruct (dict_mem f lock); [done|apply Reads_throw].
Qed.
Lemma Reads_check_array n f v : Reads (check_array n f v).
Proof. unfold check_array, system_exit. solve_reads. Qed.
Lemma Reads_load_lock d : Reads (load_lock d).
Proof.
  unfold load_lock, system_exit. pose proof Reads_require_fields. pose proof Reads_check_array.
  solve_reads.
Qed.
Lemma Reads_string_list v f : Reads (string_list v f).
Proof. unfold string_list. solve_reads. Qed.
Lemma Reads_missing_paths root l : Reads (missing_paths root l).
Proof. unfold missing_paths. solve_reads. Qed.

(** [git args] in [cwd] exits with 0 and prints [text] (spaces around it). *)
Definition git_says (cwd : path) (args : list string) (text : string) (w w' : world) : Prop :=
  exists result, git args cwd 300 w = (Ok result, w') /\ returncode result = 0 /\
    strip (stdout result) = text.

(** The origin that [git] reports for [cwd] is [url], a final slash apart; a failing query
    counts as no origin. *)
Definition origin_says (cwd : path) (url : string) (w w' : world) : Prop :=
  exists result, git ["remote"; "get-url"; "origin"] cwd 300 w = (Ok result, w') /\
    (if returncode result =? 0 then rstrip_slash (strip (stdout result)) else "") = rstrip_slash url.

(** What a lock file [lock] with the fields [f] must look like for the dependency [d]. *)
Record lock_of (d : Dependency) (f : list (string * json)) (url commit : json)
    (required : list json) : Prop := {
  lo_version : exists v, dict_get "schema_version" f = Some v /\ json_eqb v (JInt 1) = true;
  lo_name : dict_get "name" f = Some (JStr (dep_name d));
  lo_url : dict_get "url" f = Some url;
  lo_commit : dict_get "commit" f = Some commit;
  lo_required : dict_get "required_paths" f = Some (JArr required)
}.

(** The optional array [k] of the lock file. *)
Definition lock_array (f : list (string * json)) (k : string) (l : list json) : Prop :=
  match dict_get k f with Some v => v = JArr l | None => l = [] end.

(** The submodule [sub] of the lock file is checked out below [d] at its own commit, from its
    own origin, with its required paths. *)
Definition submodule_pinned (d : Dependency) (sub : json) (w w' : world) : Prop :=
  exists f p commit url w1 required,
    sub = JObj f /\ dict_get "path" f = Some p /\ dict_get "commit" f = Some commit /\
    dict_get "url" f = Some url /\
    git_says (pdiv (destination d) (str_json p)) ["rev-parse"; "HEAD"] (str_json commit) w w1 /\
    origin_says (pdiv (destination d) (str_json p)) (str_json url) w1 w' /\
    string_list sub "required_paths" w' = (Ok required, w') /\
    Forall (fun r => exists_at w' (pdiv (pdiv (destination d) (str_json p)) r) = true) required.

(** One submodule after the other. *)
Fixpoint submodules_pinned (d : Dependency) (subs : list json) (w w' : world) : Prop :=
  match subs with
  | [] => w' = w
  | sub :: subs' => exists w1, submodule_pinned d sub w w1 /\ submodules_pinned d subs' w1 w'
  end.

(** The record of a verified dependency. *)
Definition verified_record (d : Dependency) (f : list (string * json)) (url commit : json)
    (sparse : list json) : json :=
  JObj [("schema_version", JInt 1); ("kind", JStr "external_dependency");
        ("name", JStr (dep_name d)); ("url", url); ("ref", default JNull (dict_get "ref" f));
        ("commit", JStr (str_json commit)); ("sparse_paths", JArr ((fun x => JStr (str_json x)) <$> sparse))].

Lemma exit_unless (b : bool) msg w u w' : (if b then mret tt else system_exit msg) w = (Ok u, w') ->
  b = true /\ w' = w.
Proof. destruct b; [|done]. by intros [= _ <-]. Qed.

Lemma getitem_obj v k x w w' : getitem v k w = (Ok x, w') ->
  w' = w /\ exists f, v = JObj f /\ dict_get k f = Some x.
Proof. destruct v as [| | | | | |f]; try done. cbn. intros E. apply lift_opt_ok in E as [E ->]. eauto. Qed.

Lemma check_array_ok n k v u w w' : check_array n k v w = (Ok u, w') -> v = JNull \/ exists l, v = JArr l.
Proof. destruct v; try done; eauto. Qed.

Lemma string_list_array f k l w w' :
  match dict_get k f with Some v => v = JNull \/ (exists l, v = JArr l) | None => True end ->
  string_list (JObj f) k w = (Ok l, w') -> exists items, lock_array f k items /\ l = str_json <$> items.
Proof.
  unfold string_list, lock_array. cbn. intros Hk E. destruct (dict_get k f) as [v|].
  - destruct Hk as [->|[items ->]]; [done|]. cbn in E. injection E as <- _. eauto.
  - cbn in E. injection E as <- _. by exists [].
Qed.

Lemma require_fields_ok n fields f u w w' : require_fields n fields f w = (Ok u, w') ->
  Forall (fun k => dict_mem k f = true) fields.
Proof.
  induction fields as [|k l IH]; cbn [require_fields]; [constructor|].
  destruct (dict_mem k f) eqn:E; [|done]. intros El. constructor; [done|auto].
Qed.

Lemma dict_mem_get k (f : list (string * json)) : dict_mem k f = true -> exists v, dict_get k f = Some v.
Proof. unfold dict_mem. destruct (dict_get k f); [eauto|done]. Qed.

(** What [load_lock] accepts. *)
Lemma load_lock_ok d lock w w' : load_lock d w = (Ok lock, w') ->
  exists f url commit required, lock = JObj f /\ read_json (lock_path d) w = (Ok lock, w) /\
    lock_of d f url commit required /\
    (forall k, k ∈ ["sparse_paths"; "submodules"] ->
       match dict_get k f with Some v => v = JNull \/ (exists l, v = JArr l) | None => True end).
Proof.
  intros E. unfold load_lock in E. pose proof Reads_require_fields. pose proof Reads_check_array.
  rstep E lock' El. rstep E version Ev. apply bind_ok in E as (u1 & w1 & E1 & E).
  apply exit_unless in E1 as [Hv ->]. rstep E fields Ef. rstep E u2 Eu. apply require_fields_ok in Eu.
  rstep E nm En. apply bind_ok in E as (u3 & w1 & E1 & E). apply exit_unless in E1 as [Hn ->].
  rstep E req Er. apply bind_ok in E as (u4 & w1 & E1 & E). apply exit_unless in E1 as [Hr ->].
  rstep E sp Es. rstep E u5 Ea. rstep E sub Esub. rstep E u6 Eb. apply ret_ok in E as [-> _].
  destruct lock' as [| | | | | |f]; try done. cbn in Ef. injection Ef as <-.
  apply getitem_obj in En as (_ & f1 & [= <-] & En). apply getitem_obj in Er as (_ & f1 & [= <-] & Er).
  apply json_eqb_str in Hn as ->. destruct req as [| | | | |required|]; try done.
  cbn in Ev, Es, Esub. injection Ev as <-. injection Es as <-. injection Esub as <-.
  rewrite !Forall_cons in Eu. destruct Eu as (_ & Hu & Hc & _ & _).
  apply dict_mem_get in Hu as [url Hu]. apply dict_mem_get in Hc as [commit Hc].
  exists f, url, commit, required. split_and!; [done|done| |].
  - constructor; try done. destruct (dict_get "schema_version" f) as [v|]; [by exists v|done].
  - apply check_array_ok in Ea, Eb. intros k Hk. rewrite !elem_of_cons, elem_of_nil in Hk.
    destruct Hk as [->|[->|[]]];
      [destruct (dict_get "sparse_paths" f)|destruct (dict_get "submodules" f)]; done.
Qed.

Lemma current_commit_some d c w w' : current_commit d w = (Ok (Some c), w') ->
  exists_at w (pnames (destination d) [".git"]) = true /\
  git_says (destination d) ["rev-parse"; "HEAD"] c w w'.
Proof.
  unfold current_commit, has_git. intros E. rstep E e Ee. apply gets_ok in Ee as [-> _].
  destruct (exists_at w _); cbn [negb] in E; [|done]. split; [done|].
  apply bind_ok in E as (r & w1 & E1 & E). apply ret_ok in E as [E ->].
  unfold git_ok in E. destruct (returncode r =? 0) eqn:Er; [|done]. simplify_eq. bool_props. by exists r.
Qed.

(** The checkout's origin; without a [.git] there is none. *)
Definition checkout_origin (d : Dependency) (url : string) (w w' : world) : Prop :=
  if exists_at w (pnames (destination d) [".git"]) then origin_says (destination d) url w w'
  else w' = w /\ rstrip_slash url = "".

Lemma check_origin_ok d f u w w' : check_origin d (JObj f) w = (Ok u, w') ->
  exists url, dict_get "url" f = Some url /\ checkout_origin d (str_json url) w w'.
Proof.
  unfold check_origin. intros E. rstep E expected Ex. rstep Ex url Eu. apply ret_ok in Ex as [-> _].
  apply getitem_obj in Eu as (_ & f1 & [= <-] & Eu). exists url. split; [done|].
  apply bind_ok in E as (remote & w1 & E1 & E). cbv zeta in E. apply exit_unless in E as [E ->].
  bool_props. unfold checkout_origin, current_remote, has_git in *. rstep E1 e Ee.
  apply gets_ok in Ee as [-> _]. destruct (exists_at w _); cbn [negb] in E1.
  - apply bind_ok in E1 as (r & w2 & E1 & E2). apply ret_ok in E2 as [-> ->]. exists r.
    split; [done|]. rewrite <- E. unfold git_ok. by destruct (returncode r =? 0).
  - apply ret_ok in E1 as [-> ->]. by rewrite <- E.
Qed.

Lemma missing_paths_nil root l w w' : missing_paths root l w = (Ok [], w') ->
  Forall (fun r => exists_at w (pdiv root r) = true) l.
Proof.
  unfold missing_paths. revert w'. induction l as [|r l IH]; intros w' E; [constructor|]. cbn [filter_m] in E.
  rstep E b Eb. rstep Eb e Ee. apply ret_ok in Eb as [-> _]. apply gets_ok in Ee as [-> _].
  assert (R : Reads (filter_m (fun r => e ← exists_ (pdiv root r); mret (negb e)) l)) by solve_reads.
  apply bind_ok in E as (rest & w1 & E1 & E). pose proof (R _ _ _ E1) as ->. apply ret_ok in E as [E _].
  destruct (exists_at w (pdiv root r)) eqn:Ee; [|done]. cbn [negb] in E. subst rest.
  constructor; [done|by eapply IH].
Qed.

Lemma complete_ok root l what u w w' :
  (missing ← missing_paths root l; incomplete what missing) w = (Ok u, w') ->
  w' = w /\ Forall (fun r => exists_at w (pdiv root r) = true) l.
Proof.
  intros E. pose proof Reads_missing_paths. rstep E missing Em. destruct missing; [|done].
  apply ret_ok in E as [_ ->]. split; [done|by eapply missing_paths_nil].
Qed.

Lemma verify_submodule_ok d sub u w w' : verify_submodule d sub w = (Ok u, w') -> submodule_pinned d sub w w'.
Proof.
  unfold verify_submodule. intros E. rstep E p Ep. rstep Ep pv Epv. apply ret_ok in Ep as [-> _].
  cbv zeta in E. apply bind_ok in E as (r & w1 & E1 & E). rstep E c Ec. rstep Ec cv Ecv.
  apply ret_ok in Ec as [-> _]. apply bind_ok in E as (u1 & w2 & Eq & E). apply exit_unless in Eq as [Hc ->].
  apply bind_ok in E as (r2 & w2 & E2 & E). rstep E x Ex. rstep Ex uv Euv. apply ret_ok in Ex as [-> _].
  apply bind_ok in E as (u2 & w3 & Eq & E). apply exit_unless in Eq as [Hu ->].
  pose proof Reads_string_list. rstep E required Er. apply complete_ok in E as [-> Hall].
  apply getitem_obj in Epv as (_ & f & -> & Hp). apply getitem_obj in Ecv as (_ & f1 & [= <-] & Hcv).
  apply getitem_obj in Euv as (_ & f1 & [= <-] & Huv).
  exists f, pv, cv, uv, w1, required. bool_props. split_and!; try done.
  - exists r. unfold git_ok in *. destruct (returncode r =? 0) eqn:Er1; [|done]. bool_props. by simplify_eq.
  - exists r2. by unfold git_ok in *.
Qed.

Lemma verify_submodules_ok d l u w w' : for_ l (verify_submodule d) w = (Ok u, w') -> submodules_pinned d l w w'.
Proof.
  induction l as [|sub l IH] in w |- *; cbn [for_]; intros E; [by apply ret_ok in E as [_ ->]|].
  apply bind_ok in E as (u1 & w1 & E1 & E). exists w1. split; [by eapply verify_submodule_ok|auto].
Qed.

Lemma items_of_array f k l w w' :
  match dict_get k f with Some v => v = JNull \/ (exists l, v = JArr l) | None => True end ->
  (x ← get_default (JObj f) k (JArr []); items_of x) w = (Ok l, w') -> lock_array f k l /\ w' = w.
Proof.
  unfold lock_array. cbn. intros Hk E. destruct (dict_get k f) as [v|].
  - destruct Hk as [->|[items ->]]; [done|]. cbn in E. injection E as <- <-. done.
  - cbn in E. injection E as <- <-. done.
Qed.

(** C31: a dependency that [verify_one] accepts is the pinned one, and every step looks at
    the world the step before it left. Its lock file has the dependency's name, a URL, a
    commit and an array of required paths; [git] reports the locked commit for the checkout
    and then the locked URL (a final slash apart) as its origin; then every submodule of the
    lock file is at its own commit and origin, with its own required paths; then every
    required path of the checkout exists; then the record of exactly this name, URL, commit
    and sparse paths is written under [build/manifest], and the commit is printed. *)
Theorem verify_one_pinned d lock w w' :
  verify_one d w = (Ok lock, w') ->
  exists f url commit required submodules sparse w1 w2 w3 w4,
    lock = JObj f /\ read_json (lock_path d) w = (Ok lock, w) /\ lock_of d f url commit required /\
    lock_array f "submodules" submodules /\ lock_array f "sparse_paths" sparse /\
    exists_at w (pnames (destination d) [".git"]) = true /\
    git_says (destination d) ["rev-parse"; "HEAD"] (str_json commit) w w1 /\
    checkout_origin d (str_json url) w1 w2 /\
    submodules_pinned d submodules w2 w3 /\
    Forall (fun r => exists_at w3 (pdiv (destination d) (str_json r)) = true) required /\
    write_json_atomic
      (Path true (canon w3 (repo_path ["build"; "manifest"; dep_name d +:+ ".json"])))
      (verified_record d f url commit sparse) w3 = (Ok tt, w4) /\
    w' = log (EvOut ((dep_name d +:+ " dependency verified: " +:+ str_json commit) +:+ nl)) w4.
Proof.
  intros E. unfold verify_one in E. pose proof Reads_load_lock. rstep E lock' El.
  apply load_lock_ok in El as (f & url & commit & required & -> & Hread & Hl & Harr).
  pose proof Hl as [_ Hname Hurl Hcommit Hreq].
  apply bind_ok in E as (actual & w1 & Ec & E). rstep E expected Ex. rstep Ex cv Ecm.
  apply ret_ok in Ex as [-> _]. apply getitem_obj in Ecm as (_ & f1 & [= <-] & Ecm). simplify_eq.
  apply bind_ok in E as (u & w2 & E1 & E).
  apply exit_unless in E1 as [Eq ->]. bool_props. subst actual. apply current_commit_some in Ec as [Hg Hs].
  apply bind_ok in E as (u1 & w2 & E1 & E). apply check_origin_ok in E1 as (url' & Hu & Hq). simplify_eq.
  apply bind_ok in E as (u2 & w3 & Esub & E). unfold verify_submodules, submodules_of in Esub.
  apply bind_ok in Esub as (subs & w2' & Es & Esub).
  apply items_of_array in Es as [Hsubs ->]; [|by apply Harr; set_solver].
  apply verify_submodules_ok in Esub.
  rstep E reql Er. rstep Er rf Erf. apply getitem_obj in Erf as (_ & f1 & [= <-] & Erf). simplify_eq.
  apply ret_ok in Er as [-> _].
  pose proof Reads_missing_paths. rstep E missing Em. unfold incomplete in E.
  apply bind_ok in E as (u3 & w5 & Ei & E). destruct missing; [|done]. apply ret_ok in Ei as [_ ->].
  apply missing_paths_nil in Em. rewrite Forall_fmap in Em. pose proof Reads_string_list.
  rstep E urlv Eu'. apply getitem_obj in Eu' as (_ & f1 & [= <-] & Eu'). simplify_eq.
  rstep E ref Eref. cbn in Eref. injection Eref as <-.
  rstep E sp Esp. apply string_list_array in Esp as (sparse & Hsparse & ->); [|by apply Harr; set_solver].
  rstep E mp Emp. apply ensure_within_ok in Emp as (_ & -> & _).
  apply bind_ok in E as ([] & w6 & Ew & E). apply bind_ok in E as (u4 & w7 & Ep & E).
  apply ret_ok in E as [-> ->]. injection Ep as _ <-.
  exists f, url', cv, required, subs, sparse, w1, w2, w3, w6.
  rewrite <- list_fmap_compose in Ew. by split_and!.
Qed.

(** C32: a modified checkout is left alone: if the checkout exists at another commit than
    the locked one and [git status] fails or reports changes, [fetch_one] exits with an
    error and leaves the world as these queries left it: nothing was fetched, checked out
    or configured. *)
Theorem fetch_one_keeps_modified d lock commit actual status w w1 w2 w3 :
  load_lock d w = (Ok lock, w) ->
  getitem lock "commit" w = (Ok commit, w) ->
  exists_at w1 (pnames (destination d) [".git"]) = true ->
  current_commit d w = (Ok actual, w1) -> commit <> JNull -> (forall a, actual = Some a -> commit <> JStr a) ->
  check_origin d lock w1 = (Ok tt, w2) ->
  git ["status"; "--porcelain"] (destination d) 300 w2 = (Ok status, w3) ->
  returncode status <> 0 \/ strip (stdout status) <> "" ->
  exists msg, fetch_one d w = (Raise (SysExit 1 msg), w3).
Proof.
  intros El Ec Hg Ea Hn Hne Eo Es Hs. unfold fetch_one. rewrite (bind_ok_eq _ _ _ _ _ El). cbv beta.
  rewrite (bind_ok_eq _ _ _ _ _ Ea). cbv beta.
  rewrite (bind_ok_eq _ _ commit w1 w1).
  2: { destruct lock; try done. cbn in *. apply lift_opt_ok in Ec as [-> _]. done. }
  cbv beta. replace (match actual with Some a => json_eqb (JStr a) commit | None => json_eqb JNull commit end)
    with false.
  2: { symmetry. destruct actual as [a|].
       - destruct commit; try done. simpl. apply String.eqb_neq. intros ->. by eapply Hne.
       - by destruct commit. }
  rewrite (bind_ok_eq _ _ true w1 w1) by (unfold has_git, exists_, gets; by rewrite Hg). cbv beta iota.
  rewrite (bind_ok_eq _ _ _ _ _ Eo). cbv beta. rewrite (bind_ok_eq _ _ _ _ _ Es). cbv beta.
  replace (negb (git_ok status) || negb (String.eqb (strip (stdout status)) "")) with true.
  - eexists. reflexivity.
  - symmetry. apply orb_true_iff. unfold git_ok. destruct Hs as [Hs|Hs]; [left|right]; apply negb_true_iff.
    + by apply Z.eqb_neq.
    + by apply String.eqb_neq.
Qed.
End dependency_facts.

(** *** Instances *)

Definition demo_dep : Dependency :=
  {| dep_name := "coremark"; lock_path := Path true ["repo"; "lock.json"];
     destination := Path true ["repo"; "up"] |}.
Definition demo_lock : json :=
  JObj [("schema_version", JInt 1); ("name", JStr "coremark"); ("url", JStr "https://host/coremark/");
        ("commit", JStr "abc"); ("required_paths", JArr [JStr "core_main.c"])].
Definition demo_dep_world : world := demo_world
  [(["repo"; "lock.json"], dumps demo_lock); (["repo"; "up"; "core_main.c"], "")]
  [["repo"]; ["repo"; "up"]; ["repo"; "up"; ".git"]].
Definition demo_git (head status : string) : Host := demo_exec_host ["repo"] (answers
  [("rev-parse", Done 0 (head +:+ nl) ""); ("get-url", Done 0 ("https://host/coremark" +:+ nl) "");
   ("status", Done 0 status "")]).

Lemma verify_one_pinned_witness : exists f url commit required,
  lock_of demo_dep f url commit required /\ str_json commit = "abc".
Proof.
  destruct (verify_one_pinned (H := demo_git "abc" "") demo_dep demo_lock
    demo_dep_world (verify_one (H := demo_git "abc" "") demo_dep demo_dep_world).2)
    as (f & url & commit & required & subs & sparse & w1 & w2 & w3 & w4 & Hlock & _ & Hl & _ & _ & _ &
        (result & Hgit & _ & Hc) & _).
  { by_eval. }
  exists f, url, commit, required. split; [exact Hl|].
  destruct Hl as [_ _ _ Hcommit _]. injection Hlock as <-. by injection Hcommit as <-.
Defined.

Definition demo_dirty : Host := demo_git "123" " M core_main.c".

Lemma fetch_one_keeps_modified_witness : exists msg w,
  fetch_one (H := demo_dirty) demo_dep demo_dep_world = (Raise (SysExit 1 msg), w).
Proof.
  set (w1 := (current_commit (H := demo_dirty) demo_dep demo_dep_world).2).
  set (w2 := (check_origin (H := demo_dirty) demo_dep demo_lock w1).2).
  set (r := git (H := demo_dirty) ["status"; "--porcelain"] (Path true ["repo"; "up"]) 300 w2).
  destruct (fetch_one_keeps_modified (H := demo_dirty) demo_dep demo_lock (JStr "abc")
    (Some "123") {| argv := ["git"; "status"; "--porcelain"]; returncode := 0;
                    stdout := " M core_main.c"; stderr := "" |} demo_dep_world w1 w2 r.2)
    as [msg E]; [by_eval|reflexivity|by_eval|by_eval|done|by intros ? [= <-]|by_eval|by_eval| |].
  - right. discriminate.
  - exists msg, r.2. exact E.
Defined.
