(* ===== verification/Release.v ===== *)
(** [scripts/package_release.py] and [scripts/verify_release.py]: verified artefacts
    are copied into a release directory with a manifest of their digests, archived, and
    checked against it. *)
From Stdlib Require Import ZArith Lia.
From S2P Require Import Prelude Str Json Sha256 Py Store Lib Helpers BuildSoftware.
Local Open Scope Z_scope.
Local Open Scope py_scope.

(** The artefacts of a release: names in the release, in order, and their sources. *)
Definition inputs_of := list (string * path).
Definition inputs_below (dir : path) (l : list (string * list string)) : inputs_of :=
  (fun kv => (kv.1, pnames dir kv.2)) <$> l.

(** What a simulation and an FPGA sign-off have to say. *)
Definition simulation_accepted (simulation : json) (image_hash : string) : M bool :=
  status ← get simulation "status";
  profile ← get simulation "profile";
  image ← get simulation "image_manifest_sha256";
  mret (json_eqb status (JStr "PASS") && json_eqb profile (JStr contest_profile) &&
        json_eqb image (JStr image_hash)).
Definition is_true (v : json) : bool := match v with JBool b => b | _ => false end.
Definition fpga_accepted (fpga_result : json) (board : FpgaBoard) (image_hash : string) : M bool :=
  status ← get fpga_result "status";
  target ← get fpga_result "target";
  timing_met ← get fpga_result "timing_met";
  drc ← get fpga_result "drc_error_count";
  image ← get fpga_result "image_manifest_sha256";
  mret (json_eqb status (JStr "PASS") && json_eqb target (JStr (board_name board)) &&
        is_true timing_met && json_eqb drc (JInt 0) && json_eqb image (JStr image_hash)).

(** [name.zip] beside [name] *)
Definition archive_path (p : path) : path := pnames (parent p) [name p +:+ ".zip"].

Record release_args := {
  a_profile : option string;
  a_run_dir : option path;
  a_board : string;
  a_core_mhz : option Z
}.

Section release.
Context `{Host}.
(** The ZIP encoding of the named contents, which [shutil.make_archive] does. *)
Variable zip : list (string * string) -> string.

Definition legacy_inputs (profile : string) : inputs_of :=
  inputs_below (repo_path ["build"; "software"; profile])
    [("software/firmware.elf", ["firmware.elf"]);
     ("software/firmware.map", ["firmware.map"]);
     ("software/firmware.dis", ["firmware.dis"]);
     ("software/size.json", ["size.json"]);
     ("software/build_manifest.json", ["build_manifest.json"])] ++
  inputs_below (repo_path ["build"; "images"; profile])
    [("image/code.mem", ["code.mem"]); ("image/data.mem", ["data.mem"]);
     ("image/image.json", ["image.json"])] ++
  inputs_below (repo_path ["build"; "vivado"; "kintex7-" +:+ profile; "project"])
    [("fpga/fpga_top.bit", ["socrv.runs"; "impl_1"; "fpga_top.bit"]);
     ("fpga/post_impl_timing_summary.rpt", ["reports"; "post_impl_timing_summary.rpt"]);
     ("fpga/post_impl_drc.rpt", ["reports"; "post_impl_drc.rpt"])].

Definition set_inputs (d extra : inputs_of) : inputs_of :=
  foldl (fun d kv => dict_set kv.1 kv.2 d) d extra.

Definition fpga_root (run_dir : path) (board : FpgaBoard) (core_mhz : Z) : path :=
  pnames run_dir ["vivado"; build_prefix board +:+ "-" +:+ str_of_Z core_mhz +:+ "mhz"].

Definition fixed_inputs (run_dir fpga : path) : inputs_of :=
  inputs_below run_dir
    [("source/source_manifest.json", ["source"; "source_manifest.json"]);
     ("source/competition.json", ["source"; "competition.json"]);
     ("software/firmware.elf", ["software"; "firmware.elf"]);
     ("software/firmware.bin", ["software"; "firmware.bin"]);
     ("software/firmware.map", ["software"; "firmware.map"]);
     ("software/firmware.dis", ["software"; "firmware.dis"]);
     ("software/size.json", ["software"; "size.json"]);
     ("software/build_manifest.json", ["software"; "build_manifest.json"]);
     ("images/image.json", ["images"; "image.json"]);
     ("images/code.mem", ["images"; "code.mem"]);
     ("images/data.mem", ["images"; "data.mem"])] ++
  inputs_below fpga
    [("fpga/fpga_top.bit", ["project"; "socrv.runs"; "impl_1"; "fpga_top.bit"]);
     ("fpga/post_impl_timing_summary.rpt", ["project"; "reports"; "post_impl_timing_summary.rpt"]);
     ("fpga/post_impl_drc.rpt", ["project"; "reports"; "post_impl_drc.rpt"]);
     ("fpga/result.json", ["result.json"])].

Definition bank_inputs (run_dir : path) : inputs_of :=
  (fun n => ("images/" +:+ n, pnames run_dir ["images"; n])) <$>
    ((fun lane => "iccm_lane" +:+ str_of_Z lane +:+ ".mem") <$> seqZ 0 4) ++
    ((fun bank => "dccm_bank" +:+ str_of_Z bank +:+ ".mem") <$> seqZ 0 8).

Definition competition_inputs (run_dir : path) (board_name : string) (core_mhz : Z) : M inputs_of :=
  board ← lift_opt KeyError (repr_str board_name) (dict_get board_name BOARDS);
  let original := pnames run_dir ["source"; "original"] in
  sources ← files_below original;
  source_inputs ← map_m (fun source =>
    relative ← relative_text source original;
    mret ("source/original/" +:+ relative, source)) sources;
  mret (set_inputs []
    (fixed_inputs run_dir (fpga_root run_dir board core_mhz) ++ bank_inputs run_dir ++ source_inputs ++
     inputs_below run_dir [("simulation/result.json", ["simulation"; "result.json"]);
                           ("simulation/uart.log", ["simulation"; "uart.log"])])).

Definition verify_competition_results (run_dir : path) (board_name : string) (core_mhz : Z) : M unit :=
  let simulation_path := pnames run_dir ["simulation"; "result.json"] in
  f ← is_file simulation_path;
  fail_if (negb f) ValueError
    ("competition simulation result is missing: " +:+ path_str simulation_path) ;;
  simulation ← read_json simulation_path;
  image_hash ← sha256_file (pnames run_dir ["images"; "image.json"]);
  accepted ← simulation_accepted simulation image_hash;
  fail_if (negb accepted) ValueError
    "competition simulation has not passed with the current images" ;;
  board ← lift_opt KeyError (repr_str board_name) (dict_get board_name BOARDS);
  let fpga_result_path := pnames (fpga_root run_dir board core_mhz) ["result.json"] in
  g ← is_file fpga_result_path;
  fail_if (negb g) ValueError
    ("FPGA sign-off result is missing: " +:+ path_str fpga_result_path) ;;
  fpga_result ← read_json fpga_result_path;
  accepted' ← fpga_accepted fpga_result board image_hash;
  fail_if (negb accepted') ValueError
    ("FPGA sign-off has not passed with the current images for " +:+ Lib.board_name board +:+ " at " +:+
     str_of_Z core_mhz +:+ " MHz").

(** [shutil.make_archive(str(dir), "zip", dir.parent, dir.name)] *)
Definition make_archive (dir : path) : M path :=
  files ← files_below dir;
  contents ← map_m (fun p =>
    n ← relative_text p (parent dir);
    c ← read_raw p;
    mret (n, c)) files;
  mkdir_p (parent dir) ;;
  write_raw (archive_path dir) (zip contents) ;;
  mret (archive_path dir).

(** One artefact is copied; its entry describes the copy. *)
Definition package_entry (release_dir : path) (input : string * path) : M json :=
  let '(relative, source) := input in
  let destination := join_parts release_dir relative in
  mkdir_p (parent destination) ;;
  copy2 source destination ;;
  n ← stat_size destination;
  digest ← sha256_file destination;
  mret (JObj [("path", JStr relative); ("size", JInt n); ("sha256", JStr digest)]).

Definition key_order (a b : string * path) : bool := string_leb a.1 b.1.

Definition package (inputs : inputs_of) (release_dir : path) (manifest_fields : list (string * json))
    : M path :=
  missing ← filter_m (fun p => f ← is_file p; mret (negb f)) inputs.*2;
  fail_if (negb (bool_decide (missing = []))) ValueError
    ("release inputs are missing: " +:+ repr_paths missing) ;;
  mkdir_p release_dir ;;
  entries ← map_m (package_entry release_dir) (sort_by key_order inputs);
  write_json_atomic (pnames release_dir ["manifest.json"])
    (JObj (foldl (fun d kv => dict_set kv.1 kv.2 d) [("schema_version", JInt 1)]
             (manifest_fields ++ [("files", JArr entries)]))) ;;
  make_archive release_dir.

Definition package_release (a : release_args) : M (path * path) :=
  match a_run_dir a with
  | Some requested =>
      let profile_ok := match a_profile a with
                        | None => true
                        | Some p => String.eqb p contest_profile
                        end in
      fail_if (negb profile_ok) ValueError
        "competition --run-dir requires profile contest-rtthread-coremark" ;;
      run_dir ← resolve_run_dir requested;
      board ← lift_opt KeyError (repr_str (a_board a)) (dict_get (a_board a) BOARDS);
      core_mhz ← resolve_core_mhz board (a_core_mhz a);
      verify_competition_results run_dir (board_name board) core_mhz ;;
      inputs ← competition_inputs run_dir (board_name board) core_mhz;
      let release_dir := pnames run_dir
        ["release"; "socrv-contest-" +:+ build_prefix board +:+ "-" +:+ str_of_Z core_mhz +:+ "mhz"] in
      archive ← package inputs release_dir
        [("profile", JStr contest_profile); ("run_id", JStr (name run_dir));
         ("board", JStr (board_name board)); ("core_mhz", JInt core_mhz)];
      mret (release_dir, archive)
  | None =>
      let profile := default "smoke" (a_profile a) in
      let release_dir := repo_path ["build"; "release"; "socrv-" +:+ profile] in
      archive ← package (legacy_inputs profile) release_dir [("profile", JStr profile)];
      mret (release_dir, archive)
  end.

Definition package_main (a : release_args) : M Z :=
  '(release_dir, archive) ← or_usage_error (fun e => is_os_error e || is_value_error e) (package_release a);
  print ("Release: " +:+ path_str release_dir) ;;
  print ("Archive: " +:+ path_str archive) ;;
  mret 0.

(** ** [verify_release.py] *)

(** What is wrong with one entry of the manifest. *)
Definition entry_failures (release_dir : path) (entry : json) : M (list string) :=
  field ← getitem entry "path";
  relative ← as_str field;
  let p := pdiv release_dir relative in
  e ← exists_ p;
  if negb e then mret ["missing " +:+ relative] else
  actual_size ← stat_size p;
  size ← getitem entry "size";
  if negb (json_eqb (JInt actual_size) size) then mret ["size mismatch " +:+ relative] else
  actual ← sha256_file p;
  digest ← getitem entry "sha256";
  if negb (json_eqb (JStr actual) digest) then mret ["hash mismatch " +:+ relative] else mret [].

Definition verify_main (args_profile : string) : M Z :=
  let release_dir := repo_path ["build"; "release"; "socrv-" +:+ args_profile] in
  let manifest_path := pnames release_dir ["manifest.json"] in
  e ← exists_ manifest_path;
  (if negb e then parser_error ("release manifest is missing: " +:+ path_str manifest_path)
   else mret tt) ;;
  document ← load_json manifest_path;
  files ← (x ← getitem document "files"; items_of x);
  failures ← map_m (entry_failures release_dir) files;
  let failures := concat failures in
  (if negb (bool_decide (failures = [])) then parser_error (join "; " failures) else mret tt) ;;
  count ← (x ← getitem document "files"; json_len x);
  print ("Release verified: " +:+ path_str release_dir +:+ " (" +:+ str_of_Z count +:+ " files)") ;;
  mret 0.
End release.

(** ** A release verifies *)

Section release_facts.
Context `{Host}.
Variable zip : list (string * string) -> string.

(** The entry that describes the content [c] of the artefact [relative]. *)
Definition entry_for (relative c : string) : json :=
  JObj [("path", JStr relative); ("size", JInt (Z.of_nat (String.length c)));
        ("sha256", JStr (sha256_bytes (to_bytes c)))].

Lemma sha256_file_node p d w w' : sha256_file p w = (Ok d, w') ->
  exists c t, node_at w (canon w p) = Some (File c t) /\ d = sha256_bytes (to_bytes c).
Proof. intros E. apply file_digest in E as (_ & c & t & Hn & _ & ->). by exists c, t. Qed.

Lemma package_entry_ok dir r src w v w' : package_entry dir (r, src) w = (Ok v, w') ->
  exists c t, v = entry_for r c /\ keeps [canon w (join_parts dir r)] w w' /\
    node_at w' (canon w (join_parts dir r)) = Some (File c t).
Proof.
  unfold package_entry. intros E. cbv zeta in E. set (dst := join_parts dir r) in *.
  apply bind_ok in E as (u & w1 & E1 & E).
  assert (HK1 : forall K, keeps K w w1) by (intros K; by apply (Keeps_mkdir_p (K := K)) in E1).
  apply bind_ok in E as (u1 & w2 & E2 & E). rstep E n En. rstep E digest Ed.
  apply ret_ok in E as [-> ->]. apply sha256_file_node in Ed as (c & t & Hc & ->).
  apply copy2_ok in E2. rewrite (keeps_canon _ _ _ dst (HK1 [])) in E2.
  destruct E2 as [(Hd & Hd2 & Hl2)|(c' & t' & _ & HK & Hn)].
  { rewrite (canon_links w1 w2 dst Hl2), (keeps_canon _ _ _ dst (HK1 [])) in Hc. congruence. }
  rewrite (keeps_canon _ _ _ dst HK), (keeps_canon _ _ _ dst (HK1 [])) in Hc.
  rewrite Hn in Hc. simplify_eq. exists c, t. split_and!; [|by etransitivity; [apply HK1|]|done].
  unfold stat_size in En. rewrite (keeps_canon _ _ _ dst HK), (keeps_canon _ _ _ dst (HK1 [])), Hn in En.
  by injection En as <-.
Qed.

(** The copies of the artefacts hold what their entries say. *)
Definition copied (dir : path) (w w' : world) (input : string * path) (v : json) : Prop :=
  exists c t, v = entry_for input.1 c /\ node_at w' (canon w (join_parts dir input.1)) = Some (File c t).

Lemma copied_keeps dir K w w1 w2 input v : copied dir w w1 input v -> keeps K w1 w2 ->
  canon w (join_parts dir input.1) ∉ K -> copied dir w w2 input v.
Proof.
  intros (c & t & -> & Hn) HK Hni. exists c, t. split; [done|]. by eapply keeps_node.
Qed.

Definition destination_keys (dir : path) (w : world) (inputs : inputs_of) : list (list string) :=
  (fun kv => canon w (join_parts dir kv.1)) <$> inputs.

Lemma package_entries_ok dir inputs w vs w' : map_m (package_entry dir) inputs w = (Ok vs, w') ->
  NoDup (destination_keys dir w inputs) ->
  keeps (destination_keys dir w inputs) w w' /\ Forall2 (copied dir w w') inputs vs.
Proof.
  revert w vs. induction inputs as [|[r src] inputs IH]; intros w vs E Hnd; cbn [map_m] in E.
  { apply ret_ok in E as [-> ->]. split; [apply keeps_refl|constructor]. }
  apply bind_ok in E as (v & w1 & E1 & E). apply bind_ok in E as (vs' & w2 & E2 & E).
  apply ret_ok in E as [-> ->]. apply package_entry_ok in E1 as (c & t & -> & HK & Hn).
  cbn [destination_keys fmap list_fmap] in Hnd. apply NoDup_cons in Hnd as [Hni Hnd].
  assert (Hkeys : destination_keys dir w1 inputs = destination_keys dir w inputs).
  { unfold destination_keys. apply list_fmap_ext. intros i x _. by apply (keeps_canon _ _ _ _ HK). }
  apply IH in E2 as [HK2 Hall]; [|by rewrite Hkeys]. rewrite Hkeys in HK2. split.
  - etransitivity; [apply (keeps_head _ (destination_keys dir w inputs)), HK|apply keeps_tail, HK2].
  - constructor.
    + exists c, t. split; [done|]. by eapply keeps_node.
    + eapply Forall2_impl; [exact Hall|]. intros [r' s'] v' (c' & t' & -> & Hn').
      exists c', t'. split; [done|]. by rewrite <- (keeps_canon _ _ _ _ HK).
Qed.

Lemma entry_failures_none dir r c t w : join_parts dir r = pdiv dir (r) ->
  node_at w (canon w (join_parts dir r)) = Some (File c t) -> canon w (join_parts dir r) ∉ w_denied w ->
  entry_failures dir (entry_for r c) w = (Ok [], w).
Proof.
  intros Hj Hn Hd. unfold entry_failures, entry_for. rewrite Hj in *.
  rewrite (bind_ok_eq _ _ (JStr r) w w) by done. cbv beta.
  rewrite (bind_ok_eq _ _ r w w) by done. cbv beta zeta.
  rewrite (bind_ok_eq _ _ true w w) by (unfold exists_, gets, exists_at; by rewrite Hn). cbn [negb].
  rewrite (bind_ok_eq _ _ (Z.of_nat (String.length c)) w w) by (unfold stat_size; by rewrite Hn).
  cbv beta. rewrite (bind_ok_eq _ _ (JInt (Z.of_nat (String.length c))) w w) by done. cbv beta.
  cbn [json_eqb]. rewrite Z.eqb_refl. cbn [negb].
  rewrite (bind_ok_eq _ _ (sha256_bytes (to_bytes c)) w w).
  2: { unfold sha256_file. rewrite (bind_ok_eq _ _ (to_bytes c) w w) by by eapply read_bytes_node.
       by rewrite sha256_stream_bytes. }
  cbv beta. rewrite (bind_ok_eq _ _ (JStr (sha256_bytes (to_bytes c))) w w) by done. cbv beta.
  cbn [json_eqb]. by rewrite String.eqb_refl.
Qed.

(** What a release needs of the store: the copies, the manifest and the archive are
    different readable entries, and the manifest is no link. *)
Record package_ready (inputs : inputs_of) (dir : path) (w : world) : Prop := {
  pr_names : Forall (fun kv => join_parts dir kv.1 = pdiv dir (kv.1)) inputs;
  pr_distinct : NoDup (destination_keys dir w inputs);
  pr_manifest : lcanon w (pnames dir ["manifest.json"]) ∉ destination_keys dir w inputs;
  pr_archive : canon w (archive_path dir) ∉
    lcanon w (pnames dir ["manifest.json"]) :: destination_keys dir w inputs;
  pr_link : w_links w !! lcanon w (pnames dir ["manifest.json"]) = None;
  pr_readable : forall k, k ∈ destination_keys dir w inputs -> k ∉ w_denied w
}.

Lemma make_archive_keeps dir w p w' : make_archive zip dir w = (Ok p, w') ->
  keeps [canon w (archive_path dir)] w w'.
Proof.
  unfold make_archive. intros E. rstep E files Ef. rstep E contents Ec.
  apply bind_ok in E as (u & w1 & E1 & E). apply (Keeps_mkdir_p (K := [])) in E1.
  apply bind_ok in E as (u1 & w2 & E2 & E). apply ret_ok in E as [-> ->].
  apply write_raw_keeps in E2. rewrite (keeps_canon _ _ _ _ E1) in E2.
  etransitivity; [apply keeps_nil, E1|exact E2].
Qed.

Lemma dict_get_foldl (d extra : list (string * json)) k v :
  dict_get k (foldl (fun d kv => dict_set kv.1 kv.2 d) d (extra ++ [(k, v)])) = Some v.
Proof. rewrite foldl_app. simpl. by rewrite dict_get_set. Qed.

Lemma package_ready_perm inputs inputs' dir w : Permutation inputs inputs' ->
  package_ready inputs dir w -> package_ready inputs' dir w.
Proof.
  intros Hp [H1 H2 H3 H4 H5 H6].
  assert (Hk : Permutation (destination_keys dir w inputs) (destination_keys dir w inputs'))
    by by apply fmap_Permutation.
  constructor; [by rewrite <- Hp|by rewrite <- Hk|by rewrite <- Hk| |done|].
  - intros Hin. apply H4. apply elem_of_cons in Hin as [->|Hin]; [left|right; by rewrite Hk].
  - intros k Hin. apply H6. by rewrite Hk.
Qed.

Lemma package_ready_keeps inputs dir w w1 : keeps [] w w1 ->
  package_ready inputs dir w -> package_ready inputs dir w1.
Proof.
  intros HK [H1 H2 H3 H4 H5 H6].
  assert (Hk : destination_keys dir w1 inputs = destination_keys dir w inputs).
  { unfold destination_keys. apply list_fmap_ext. intros i x _. by apply (keeps_canon _ _ _ _ HK). }
  constructor; rewrite ?Hk, ?(keeps_lcanon _ _ _ _ HK), ?(keeps_canon _ _ _ _ HK),
    ?(keeps_links _ _ _ HK), ?(keeps_denied _ _ _ HK); done.
Qed.

Lemma entries_verify dir inputs vs w w' : Forall2 (copied dir w w') inputs vs ->
  keeps (lcanon w (pnames dir ["manifest.json"]) :: canon w (archive_path dir) :: destination_keys dir w inputs) w w' ->
  Forall (fun kv => join_parts dir kv.1 = pdiv dir (kv.1)) inputs ->
  (forall k, k ∈ destination_keys dir w inputs -> k ∉ w_denied w) ->
  map_m (entry_failures dir) vs w' = (Ok (replicate (length inputs) []), w').
Proof.
  intros Hall HK Hn Hd. set (K := _ :: _ :: _) in HK. clearbody K.
  induction Hall as [|[r s] v inputs vs (c & t & -> & Hnode) Hall IH]; [done|].
  apply Forall_cons in Hn as [Hr Hn]. cbn [map_m length replicate].
  rewrite (bind_ok_eq _ _ [] w' w').
  - cbv beta. rewrite (bind_ok_eq _ _ (replicate (length inputs) []) w' w'); [done|]. apply IH; [done|].
    intros k Hk. apply Hd. by right.
  - eapply entry_failures_none; [done|rewrite (keeps_canon _ _ _ _ HK); exact Hnode|].
    rewrite (keeps_canon _ _ _ _ HK), (keeps_denied _ _ _ HK). apply Hd. left.
Qed.

(** C33: a release verifies: after [package] has succeeded, the manifest of the release
    lists one entry for every artefact, in the order of their names, and the checks that
    [verify_release] makes on these entries (the file exists, its size and its SHA-256
    digest are as recorded) find nothing wrong. *)
Theorem package_verifies inputs dir fields w archive w' :
  package zip inputs dir fields w = (Ok archive, w') -> package_ready inputs dir w ->
  exists document entries t,
    node_at w' (lcanon w (pnames dir ["manifest.json"])) =
      Some (File (dumps_manifest (JObj document) +:+ nl) t) /\
    dict_get "files" document = Some (JArr entries) /\
    Forall2 (copied dir w w') (sort_by key_order inputs) entries /\
    map_m (entry_failures dir) entries w' = (Ok (replicate (length inputs) []), w').
Proof.
  intros E Hr. unfold package in E.
  assert (Rm : Reads (filter_m (fun p => f ← is_file p; mret (negb f)) inputs.*2)) by solve_reads.
  rstep E missing Em. rstep E u Eu. clear Em Eu. apply bind_ok in E as (u1 & w1 & E1 & E).
  apply (Keeps_mkdir_p (K := [])) in E1. apply (package_ready_keeps _ _ _ _ E1) in Hr.
  apply (package_ready_perm _ (sort_by key_order inputs)) in Hr; [|symmetry; apply sort_by_Permutation].
  apply bind_ok in E as (entries & w2 & E2 & E). apply bind_ok in E as ([] & w3 & E3 & E).
  apply package_entries_ok in E2 as [HK2 Hall]; [|apply Hr].
  set (document := foldl _ _ _) in E3. rewrite <- (keeps_lcanon _ _ _ _ E1).
  pose proof (keeps_lcanon _ _ _ (pnames dir ["manifest.json"]) HK2) as Hm2.
  apply write_json_atomic_cases in E3 as [HK3 [t Ht]];
    [|rewrite Hm2, (keeps_links _ _ _ HK2); apply Hr]. rewrite Hm2 in HK3, Ht.
  apply make_archive_keeps in E. rewrite (keeps_canon _ _ _ _ HK3), (keeps_canon _ _ _ _ HK2) in E.
  assert (Hall' : Forall2 (copied dir w1 w') (sort_by key_order inputs) entries).
  { apply Forall2_same_length_lookup. split; [by eapply Forall2_length|]. intros i x v Hx Hv.
    eapply Forall2_lookup_lr in Hall; [|exact Hx|exact Hv].
    assert (Hin : canon w1 (join_parts dir x.1) ∈ destination_keys dir w1 (sort_by key_order inputs)).
    { apply list_elem_of_fmap. exists x. split; [done|by eapply list_elem_of_lookup_2]. }
    eapply copied_keeps; [eapply copied_keeps; [exact Hall|exact HK3|]|exact E|].
    - intros Heq%list_elem_of_singleton. rewrite Heq in Hin. by apply (pr_manifest _ _ _ Hr).
    - intros Heq%list_elem_of_singleton. apply (pr_archive _ _ _ Hr). right. by rewrite <- Heq. }
  exists document, entries, t. split_and!.
  - eapply keeps_node; [exact E| |exact Ht]. intros Heq%list_elem_of_singleton.
    apply (pr_archive _ _ _ Hr). rewrite <- Heq. left.
  - apply dict_get_foldl.
  - eapply Forall2_impl; [exact Hall'|]. intros x v (c & t' & -> & Hn). exists c, t'.
    split; [done|]. by rewrite <- (keeps_canon _ _ _ _ E1).
  - rewrite <- (length_sort_by key_order inputs).
    eapply entries_verify; [exact Hall'| |apply Hr|apply Hr].
    etransitivity; [apply keeps_tail, keeps_tail, HK2|].
    etransitivity; [apply keeps_head, HK3|apply keeps_tail, keeps_head, E].
Qed.
End release_facts.

(** *** An instance *)

Definition demo_inputs : inputs_of :=
  [("software/firmware.elf", Path true ["repo"; "b"; "f.elf"]); ("image/code.mem", Path true ["repo"; "b"; "c.mem"])].
Definition demo_release_world : world := demo_world
  [(["repo"; "b"; "f.elf"], "elf"); (["repo"; "b"; "c.mem"], "@0")] [["repo"]; ["repo"; "b"]].
Definition demo_release_dir : path := Path true ["repo"; "build"; "release"; "socrv-smoke"].
Definition demo_zip (l : list (string * string)) : string := join "" (l.*2).
Local Notation demo_package := (package (H := demo) demo_zip demo_inputs demo_release_dir [("profile", JStr "smoke")] demo_release_world).

Lemma package_verifies_witness : exists entries,
  map_m (entry_failures (H := demo) demo_release_dir) entries demo_package.2 = (Ok [[]; []], demo_package.2).
Proof.
  destruct (package_verifies (H := demo) demo_zip demo_inputs demo_release_dir [("profile", JStr "smoke")]
    demo_release_world (archive_path demo_release_dir) demo_package.2)
    as (document & entries & t & _ & _ & _ & Hv).
  - by_eval.
  - constructor.
    + repeat constructor.
    + apply (bool_decide_unpack _). vm_compute. exact I.
    + apply (bool_decide_unpack _). vm_compute. exact I.
    + apply (bool_decide_unpack _). vm_compute. exact I.
    + vm_compute. reflexivity.
    + intros k _. apply not_elem_of_empty.
  - exists entries. exact Hv.
Defined.
