(* ===== verification/Competition.v ===== *)
(** [scripts/prepare_competition_run.py]: the sources of a competition entry are
    frozen in a new run directory, with a manifest of their digests and the launchers
    of the FPGA projects. *)
From Stdlib Require Import ZArith Lia.
From S2P Require Import Prelude Str Json Regex Sha256 Py Store Lib Helpers BuildSoftware.
Local Open Scope Z_scope.
Local Open Scope py_scope.

Definition run_char (c : ascii) : bool := is_alnum c || char_in "_.-" c.

(** [^[A-Za-z0-9][A-Za-z0-9_.-]*$] *)
Definition RUN_ID_PATTERN : re := Seq (Chr is_alnum) (Seq (Rep true 0 run_char) Eos).

Definition sanitize_run_component (value : string) : string :=
  let rendered := strip_by (char_in "._-") (re_sub (Rep true 1 (fun c => negb (run_char c))) "_" value) in
  if String.eqb rendered "" then "competition" else rendered.

(** [strftime("%Y%m%d_%H%M%S")] of a time in the form [2025-01-31T23:59:59]. *)
Definition compact_time (iso : string) : string :=
  let field i n := stake n (sdrop i iso) in
  field 0%nat 4%nat +:+ field 5%nat 2%nat +:+ field 8%nat 2%nat +:+ "_" +:+
  field 11%nat 2%nat +:+ field 14%nat 2%nat +:+ field 17%nat 2%nat.

Definition posix_lower_leb (p q : path) : bool := string_leb (lower (path_str p)) (lower (path_str q)).

(** ** The FPGA project launchers *)

Definition pynq_launcher : string := join nl [
  "# Auto-generated by scripts/prepare_competition_run.py.";
  "set script_dir [file normalize [file dirname [info script]]]";
  "set run_dir [file normalize [file join $script_dir ..]]";
  "set repo_dir [file normalize [file join $script_dir .. .. ..]]";
  "set image_dir [file join $run_dir images]";
  "set build_dir [file join $run_dir vivado pynq_z2-50mhz project]";
  "set create_script [file join $repo_dir fpga boards pynq_z2 tcl create_project.tcl]";
  "set argv [list $build_dir $image_dir]";
  "set argc [llength $argv]";
  "source $create_script"; ""].

(** A line of the clock table. *)
Definition table_line (board : FpgaBoard) (mhz : Z) : M string :=
  '(mult, core_divide, peripheral_divide) ←
    lift_opt KeyError (str_of_Z mhz) (mmcm_get mhz (mmcm board));
  mret ("    " +:+ str_of_Z mhz +:+ " [list " +:+ mult +:+ " " +:+ core_divide +:+ " " +:+
        peripheral_divide +:+ "]").

Definition configurable_launcher (board_name : string) : M string :=
  board ← lift_opt KeyError (repr_str board_name) (dict_get board_name BOARDS);
  table_lines ← map_m (table_line board) (supported_core_mhz board);
  let table := join (" " +:+ bsl +:+ nl) table_lines in
  let supported := join " / " (str_of_Z <$> supported_core_mhz board) in
  mret (join nl [
    "# Auto-generated by scripts/prepare_competition_run.py.";
    "if {![info exists CORE_MHZ]} {";
    "    error " +:+ dq +:+ "set CORE_MHZ before source; supported values: " +:+ supported +:+ dq;
    "}";
    "if {![string is integer -strict $CORE_MHZ]} {";
    "    error " +:+ dq +:+ "CORE_MHZ must be an integer; supported values: " +:+ supported +:+ dq;
    "}";
    "set clock_table [dict create " +:+ bsl;
    table +:+ "]";
    "if {![dict exists $clock_table $CORE_MHZ]} {";
    "    error " +:+ dq +:+ "unsupported CORE_MHZ=$CORE_MHZ; supported values: " +:+ supported +:+ dq;
    "}";
    "lassign [dict get $clock_table $CORE_MHZ] clock_mult core_divide peripheral_divide";
    "set ::env(SOCRV_CLOCK_MULT) $clock_mult";
    "set ::env(SOCRV_CORE_DIVIDE) $core_divide";
    "set ::env(SOCRV_PERIPHERAL_DIVIDE) $peripheral_divide";
    "set ::env(SOCRV_CORE_HZ) [expr {$CORE_MHZ * 1000000}]";
    "";
    "set script_dir [file normalize [file dirname [info script]]]";
    "set run_dir [file normalize [file join $script_dir ..]]";
    "set repo_dir [file normalize [file join $script_dir .. .. ..]]";
    "set image_dir [file join $run_dir images]";
    "set build_dir [file join $run_dir vivado " +:+ build_prefix board +:+ "-${CORE_MHZ}mhz project]";
    "set create_script [file join $repo_dir fpga boards " +:+ Lib.board_name board +:+ " tcl create_project.tcl]";
    "set argv [list $build_dir $image_dir]";
    "set argc [llength $argv]";
    "source $create_script"; ""]).

Record prepare_args := {
  a_source : path;
  a_run_id : option string;
  a_entry : option string
}.

Section competition.
Context `{Host}.

Definition default_run_id (source : path) (now : option string) : M string :=
  clock ← gets host_now;
  let timestamp := match now with Some t => t | None => compact_time clock end in
  f ← is_file source;
  let n := if f : bool then stem source else name source in
  mret (timestamp +:+ "_" +:+ sanitize_run_component n).

Definition validate_input_source (source0 : path) : M path :=
  source ← resolve source0;
  e ← exists_ source;
  fail_if (negb e) ValueError ("competition source does not exist: " +:+ path_str source) ;;
  l ← is_symlink source;
  fail_if l ValueError ("competition source must not be a symlink: " +:+ path_str source) ;;
  d ← is_dir source;
  if d : bool then
    found ← rglob source;
    symlinks ← filter_m is_symlink found;
    match symlinks with
    | [] => mret source
    | first :: _ =>
        raise ValueError ("competition source contains symlinks; copy real files instead: " +:+
                          path_str first)
    end
  else
    f ← is_file source;
    fail_if (negb f) ValueError
      ("competition source is not a file or directory: " +:+ path_str source) ;;
    mret source.

Definition select_requested (original : path) (requested : string) : M path :=
  let relative := parse_path requested in
  fail_if (p_abs relative || bool_decide (".." ∈ p_parts relative)) ValueError
    "--entry must be a path relative to the input source" ;;
  entry ← ensure_within (joinpath original relative) original;
  f ← is_file entry;
  fail_if (negb f) ValueError ("competition entry source does not exist: " +:+ path_str entry) ;;
  fail_if (negb (String.eqb (lower (suffix entry)) ".c")) ValueError
    ("competition entry source is not a C file: " +:+ path_str entry) ;;
  mret entry.

Definition select_automatically (original : path) : M path :=
  found ← rglob original;
  files ← filter_m is_file (List.filter (fun p => endswith (name p) ".c") found);
  let candidates := sort_by posix_lower_leb files in
  let preferred := List.filter (fun p => String.eqb (lower (name p)) "core_main.c") candidates in
  match preferred, candidates with
  | [p], _ => mret p
  | _, [p] => mret p
  | _, [] => raise ValueError "competition input contains no C source file"
  | _, _ => raise ValueError
      ("competition input contains multiple C files and no unique core_main.c; " +:+
       "use --entry <relative-path>")
  end.

Definition select_entry_source (original : path) (requested : option string) : M path :=
  match requested with
  | Some r =>
      if String.eqb r "" then select_automatically original else select_requested original r
  | None => select_automatically original
  end.

Definition manifest_entry (root p : path) : M json :=
  text ← relative_text p root;
  size ← stat_size p;
  digest ← sha256_file p;
  mret (JObj [("path", JStr text); ("size", JInt size); ("sha256", JStr digest)]).

Definition source_manifest (original : path) : M json :=
  found ← rglob original;
  items ← filter_m is_file found;
  files ← map_m (manifest_entry (parent (parent original))) (sort_by posix_lower_leb items);
  fail_if (bool_decide (files = [])) ValueError "competition input contains no files" ;;
  mret (JObj [("schema_version", JInt 1); ("kind", JStr "competition_source"); ("files", JArr files)]).

(** A launcher has to be readable. *)
Definition check_launcher (run_dir : path) (n : string) : M unit :=
  let p := pnames run_dir ["vivado"; n] in
  try_except (_ ← read_raw p; mret tt) is_permission_error
    (fun _ => raise ValueError
       ("generated Vivado launcher is not readable: " +:+ path_str p +:+
        "; fix its Windows ACL or use a new run-id")).

Definition validate_run_access (run_dir : path) : M unit :=
  for_ ["."; "source"; "source/original"; "software"; "images"; "simulation"; "vivado"]
    (fun relative =>
       _ ← ensure_directory_accessible (pdiv run_dir relative)
             ("competition run " +:+ relative +:+ " directory");
       mret tt) ;;
  for_ ["create_pynq_z2_project.tcl"; "create_kintex7_project.tcl"; "create_axku062_project.tcl"]
    (check_launcher run_dir).

(** The contents of the new run directory. *)
Definition fill_run (source temporary_run : path) (entry : option string) : M unit :=
  let source_dir := pnames temporary_run ["source"] in
  let original := pnames source_dir ["original"] in
  for_ ["software"; "images"; "simulation"; "vivado"] (fun n => mkdir_p (pnames temporary_run [n])) ;;
  f ← is_file source;
  (if f : bool then mkdir_p original ;; copy2 source (pnames original [name source])
   else copytree source original) ;;
  entry_path ← select_entry_source original entry;
  entry_relative ← relative_text entry_path temporary_run;
  manifest ← source_manifest original;
  write_json_atomic (pnames source_dir ["source_manifest.json"]) manifest ;;
  write_json_atomic (pnames source_dir ["competition.json"])
    (JObj [("schema_version", JInt 1); ("mode", JStr "core_main_replacement");
           ("entry_source", JStr entry_relative); ("extra_sources", JArr []);
           ("entry_symbol", JStr "main")]) ;;
  write_text (pnames temporary_run ["vivado"; "create_pynq_z2_project.tcl"]) pynq_launcher ;;
  kintex7 ← configurable_launcher "kintex7_competition";
  write_text (pnames temporary_run ["vivado"; "create_kintex7_project.tcl"]) kintex7 ;;
  axku062 ← configurable_launcher "axku062";
  write_text (pnames temporary_run ["vivado"; "create_axku062_project.tcl"]) axku062 ;;
  validate_run_access temporary_run.

(** A run directory that exists already is an error. *)
Definition refuse_existing_run (run_dir : path) : M unit :=
  e ← exists_ run_dir;
  when_ e
    (try_except
       (_ ← ensure_directory_accessible run_dir "existing competition run directory"; mret tt)
       is_value_error
       (fun error => raise ValueError
          ("competition run already exists but is inaccessible: " +:+ path_str run_dir +:+ "; " +:+
           exn_msg error)) ;;
     raise ValueError ("competition run already exists: " +:+ path_str run_dir)).

Definition prepare_run (source0 : path) (run_id entry : option string) (runs_root : option path)
    (now : option string) : M path :=
  source ← validate_input_source source0;
  root ← resolve (default (repo_path ["competition_runs"]) runs_root);
  mkdir_p root ;;
  selected_run_id ← match run_id with
                    | Some r => if String.eqb r "" then default_run_id source now else mret r
                    | None => default_run_id source now
                    end;
  fail_if (bool_decide (fullmatch RUN_ID_PATTERN selected_run_id = None)) ValueError
    ("run-id must start with a letter or digit and contain only letters, digits, '.', '_' or '-'") ;;
  run_dir ← ensure_within (pdiv root selected_run_id) root;
  refuse_existing_run run_dir ;;
  u ← gets host_uuid;
  temporary_run ← ensure_within (pdiv root ("." +:+ selected_run_id +:+ "." +:+ u +:+ ".tmp")) root;
  mkdir false false temporary_run ;;
  on_error
    (fill_run source temporary_run entry ;;
     replace_path temporary_run run_dir ;;
     validate_run_access run_dir)
    (e ← exists_ temporary_run;
     when_ e (rmtree_ignore_errors temporary_run)) ;;
  mret run_dir.

Definition main (a : prepare_args) : M Z :=
  run_dir ← or_usage_error (fun e => is_os_error e || is_value_error e)
    (prepare_run (a_source a) (a_run_id a) (a_entry a) None None);
  relative ← relative_text run_dir (repo_path []);
  print ("RUN_DIR=" +:+ relative) ;;
  print "SOURCE_MODE=core_main_replacement" ;;
  print ("BUILD=python scripts/build_software.py --profile contest-rtthread-coremark --run-dir " +:+
         dq +:+ relative +:+ dq) ;;
  print ("PYNQ_TCL=" +:+ path_str (pnames run_dir ["vivado"; "create_pynq_z2_project.tcl"])) ;;
  print ("KINTEX_TCL=" +:+ path_str (pnames run_dir ["vivado"; "create_kintex7_project.tcl"])) ;;
  print ("AXKU062_TCL=" +:+ path_str (pnames run_dir ["vivado"; "create_axku062_project.tcl"])) ;;
  mret 0.
End competition.

(** ** A frozen source tree passes the check of a build *)

Section frozen.
Context `{Host}.
Variable w : world.
Hypothesis Hplain : plain_store w.
Variable rk : list string.
Hypothesis Hrk : Forall (fun x => plain_name x = true) rk.

Notation plain := (Forall (fun x => plain_name x = true)).
Notation run := (Path true rk).
Notation original := (Path true (rk ++ ["source"; "original"])).

Lemma canon_plain_names k : plain k -> canon w (Path true k) = k.
Proof. by apply canon_plain_store. Qed.

Lemma plain_original : plain (rk ++ ["source"; "original"]).
Proof. apply Forall_app. split; [done|by repeat constructor]. Qed.

Lemma rglob_plain p : p ∈ rglob_at w original ->
  exists rest, p = Path true (rk ++ ["source"; "original"] ++ rest) /\ plain (["source"; "original"] ++ rest).
Proof.
  intros (rest & _ & -> & Hpl)%(rglob_plain_store w Hplain _ _ plain_original). exists rest.
  rewrite <- app_assoc in Hpl |- *. split; [done|]. by apply Forall_app in Hpl as [_ ?].
Qed.

(** A file of the tree: its name in the manifest leads back to it. *)
Lemma source_key_path p : p ∈ rglob_at w original ->
  join_parts run (source_key run p) = p /\ path_within p run = true /\
  canon w p = p_parts p /\ is_prefix (canon w original) (canon w p) = true /\ p = Path true (p_parts p).
Proof.
  intros Hin. apply rglob_plain in Hin as (rest & -> & Hpl).
  assert (Hall : plain (rk ++ ["source"; "original"] ++ rest)) by (by apply Forall_app).
  assert (Hk : source_key run (Path true (rk ++ ["source"; "original"] ++ rest)) =
    join "/" (["source"; "original"] ++ rest)).
  { unfold source_key. cbn [p_parts]. by rewrite drop_app_length. }
  split_and!.
  - by rewrite Hk, join_parts_plain.
  - unfold path_within. cbn [p_abs p_parts Bool.eqb andb]. apply is_prefix_spec. by eexists.
  - by apply canon_plain_names.
  - rewrite (canon_plain_names _ plain_original), (canon_plain_names _ Hall).
    apply is_prefix_spec. exists rest. by rewrite <- app_assoc.
  - done.
Qed.

Lemma source_key_inj p q : p ∈ rglob_at w original -> q ∈ rglob_at w original ->
  source_key run p = source_key run q -> p = q.
Proof.
  intros Hp%source_key_path Hq%source_key_path E.
  destruct Hp as [<- _], Hq as [<- _]. by rewrite E.
Qed.

(** The entry of a file, as written and as read back. *)
Definition entry_of (pd : path * string) (n : Z) : json :=
  JObj [("path", JStr (source_key run pd.1)); ("size", JInt n); ("sha256", JStr pd.2)].

Lemma manifest_entry_ok p v w' : manifest_entry run p w = (Ok v, w') ->
  exists n d, v = entry_of (p, d) n /\ sha256_file p w = (Ok d, w).
Proof.
  unfold manifest_entry. intros E. rstep E text Et. rstep E n En. rstep E d Ed.
  apply ret_ok in E as [-> _]. apply relative_text_ok in Et as (_ & _ & ->). by exists n, d.
Qed.

Lemma manifest_entries_ok l vs w' : map_m (manifest_entry run) l w = (Ok vs, w') ->
  exists pds ns, l = pds.*1 /\ vs = zip_with entry_of pds ns /\ length ns = length pds /\
    Forall (fun pd => sha256_file pd.1 w = (Ok pd.2, w)) pds.
Proof.
  intros E. apply map_m_reads in E as [_ E];
    [|intros; unfold manifest_entry; solve_reads].
  induction E as [|p v l vs Hpv E IH]; [by exists [], []|].
  destruct IH as (pds & ns & -> & -> & Hl & Hall). apply manifest_entry_ok in Hpv as (n & d & -> & Hd).
  exists ((p, d) :: pds), (n :: ns). split_and!; [done|done|simpl; lia|by constructor].
Qed.

Definition sorted_entry (pd : path * string) (n : Z) : json :=
  JObj [("path", JStr (source_key run pd.1)); ("sha256", JStr pd.2); ("size", JInt n)].

Lemma sort_entries pds ns : sort_keys (JArr (zip_with entry_of pds ns)) = JArr (zip_with sorted_entry pds ns).
Proof.
  cbn [sort_keys]. f_equal. revert ns. induction pds as [|pd pds IH]; intros [|n ns]; [done..|].
  cbn [zip_with map]. by rewrite IH.
Qed.

Lemma source_item_entry mp pd n : pd.1 ∈ rglob_at w original ->
  source_item run mp (sorted_entry pd n) w = (Ok (source_key run pd.1, pd.2), w).
Proof.
  intros Hin. apply source_key_path in Hin as (Hj & Hw & Hc & Hp & Ha). destruct pd as [p d]. cbn [fst snd] in *.
  unfold source_item, sorted_entry. rewrite (bind_ok_eq _ _ tt w w) by done. cbv beta.
  rewrite (bind_ok_eq _ _ (JStr (source_key run p)) w w) by done. cbv beta.
  rewrite (bind_ok_eq _ _ (JStr d) w w) by done. cbv beta iota. rewrite Hj.
  assert (He : ensure_within p (pnames run ["source"; "original"]) w = (Ok p, w)).
  { unfold ensure_within, resolve, gets, mbind, M_bind, path_within. cbn [p_abs p_parts Bool.eqb andb].
    change (pnames run ["source"; "original"]) with original. rewrite Hp, andb_false_r, Hc.
    rewrite <- Ha. done. }
  rewrite (bind_ok_eq _ _ p w w He). cbv beta. rewrite (bind_ok_eq _ _ (source_key run p) w w); [done|].
  unfold relative_text, relative_to. rewrite Hw. done.
Qed.

Definition expected_of (pds : list (path * string)) : list (string * string) :=
  (fun pd => (source_key run pd.1, pd.2)) <$> pds.

Lemma expected_sources_entries mp pds ns : length ns = length pds ->
  Forall (fun pd => pd.1 ∈ rglob_at w original) pds -> NoDup (expected_of pds).*1 ->
  expected_sources run mp (zip_with sorted_entry pds ns) w = (Ok (expected_of pds), w).
Proof.
  intros Hl Hin Hnd. change (expected_of pds) with ([] ++ expected_of pds) at 1.
  rewrite <- foldl_dict_set by done. unfold expected_sources. generalize ([] : list (string * string)).
  clear Hnd. revert ns Hl. induction Hin as [|pd pds Hpd Hin IH]; intros [|n ns] Hl d0; try done.
  cbn [zip_with fold_m]. rewrite (bind_ok_eq _ _ (dict_set (source_key run pd.1) pd.2 d0) w w).
  - cbv beta. rewrite IH; [done|]. simpl in Hl. lia.
  - by rewrite (bind_ok_eq _ _ _ _ _ (source_item_entry mp pd n Hpd)).
Qed.

Lemma filter_files l w' r : filter_m is_file l w = (r, w') ->
  w' = w /\ r = Ok (List.filter (is_file_at w) l).
Proof.
  unfold is_file. rewrite (filter_m_gets (fun w p => is_file_at w p)). by intros [= <- <-].
Qed.

(** What [source_manifest] writes down. *)
Lemma source_manifest_ok m w' : source_manifest original w = (Ok m, w') ->
  exists pds ns, m = JObj [("schema_version", JInt 1); ("kind", JStr "competition_source");
                           ("files", JArr (zip_with entry_of pds ns))] /\
    length ns = length pds /\ Forall (fun pd => sha256_file pd.1 w = (Ok pd.2, w)) pds /\
    Permutation pds.*1 (List.filter (is_file_at w) (rglob_at w original)).
Proof.
  unfold source_manifest. intros E. apply bind_ok in E as (found & w1 & E1 & E).
  apply gets_ok in E1 as [-> ->]. apply bind_ok in E as (items & w1 & E1 & E).
  apply filter_files in E1 as [-> E1]. injection E1 as ->.
  assert (Hp : parent (parent original) = run).
  { unfold parent. cbn [p_abs p_parts]. change ["source"; "original"] with (["source"] ++ ["original"]).
    by rewrite app_assoc, !removelast_last. }
  rewrite Hp in E. apply bind_ok in E as (files & w1 & E1 & E).
  apply manifest_entries_ok in E1 as (pds & ns & Hpds & -> & Hl & Hall).
  apply bind_ok in E as (u & w2 & _ & E). apply ret_ok in E as [-> _].
  exists pds, ns. split_and!; [done|done|done|]. rewrite <- Hpds. apply sort_by_Permutation.
Qed.

Lemma rglob_nodup : NoDup (rglob_at w original).
Proof.
  unfold rglob_at. rewrite (canon_plain_names _ plain_original).
  apply NoDup_fmap_2_strong.
  - intros k k' (r & _ & -> & _)%(keys_below_plain w Hplain) (r' & _ & -> & _)%(keys_below_plain w Hplain).
    rewrite !drop_app_length. intros [= E]. by apply app_inv_head in E as ->.
  - unfold keys_below. apply NoDup_filter. rewrite (ps_links _ Hplain), map_to_list_empty, app_nil_r.
    apply NoDup_fst_map_to_list.
Qed.

Lemma manifest_wf pds ns : json_wf (JObj [("schema_version", JInt 1); ("kind", JStr "competition_source");
  ("files", JArr (zip_with entry_of pds ns))]) = true.
Proof.
  assert (Hf : forallb json_wf (zip_with entry_of pds ns) = true).
  { revert ns. induction pds as [|pd pds IH]; intros [|n ns]; [done..|]. simpl. by rewrite IH. }
  cbn. by rewrite Hf.
Qed.

Lemma manifest_nesting pds ns : (nesting (JObj [("schema_version", JInt 1); ("kind", JStr "competition_source");
  ("files", JArr (zip_with entry_of pds ns))]) <= host_recursion)%nat.
Proof.
  assert (Hf : (max_list_with nesting (zip_with entry_of pds ns) <= 1)%nat).
  { revert ns. induction pds as [|pd pds IH]; intros [|n ns]; simpl; try lia. specialize (IH ns). lia. }
  unfold host_recursion. simpl. lia.
Qed.

Lemma declared_sources_ok pds ns t : let mp := pnames run ["source"; "source_manifest.json"] in
  let m := JObj [("schema_version", JInt 1); ("kind", JStr "competition_source");
                 ("files", JArr (zip_with entry_of pds ns))] in
  node_at w (canon w mp) = Some (File (dumps_manifest m +:+ nl) t) -> canon w mp ∉ w_denied w ->
  json_text m = true -> length ns = length pds ->
  Forall (fun pd => pd.1 ∈ rglob_at w original) pds -> NoDup (expected_of pds).*1 ->
  declared_sources run w = (Ok (expected_of pds), w).
Proof.
  intros mp m Hn Hd Htx Hl Hin Hnd. unfold declared_sources.
  change (source_manifest_path run) with mp. cbv zeta.
  rewrite (bind_ok_eq _ _ true w w) by (unfold is_file, gets, is_file_at; by rewrite Hn). cbv beta.
  rewrite (bind_ok_eq _ _ tt w w) by done. cbv beta.
  rewrite (bind_ok_eq _ _ _ w w (read_json_file mp w _ t Hd (manifest_wf pds ns) Htx (manifest_nesting pds ns) Hn)).
  cbv beta.
  set (files := zip_with entry_of pds ns) in *.
  assert (Hs : sort_keys m = JObj [("files", sort_keys (JArr files)); ("kind", JStr "competition_source");
    ("schema_version", JInt 1)]) by reflexivity.
  subst m. rewrite Hs. unfold files. rewrite (sort_entries pds ns).
  rewrite (bind_ok_eq _ _ (JArr (zip_with sorted_entry pds ns)) w w) by done. cbv beta.
  rewrite (bind_ok_eq _ _ (JInt 1) w w) by done. cbv beta.
  rewrite (bind_ok_eq _ _ (JStr "competition_source") w w) by done. cbv beta iota.
  rewrite (bind_ok_eq _ _ tt w w) by done. by apply expected_sources_entries.
Qed.

Definition tree_files : list path := List.filter (is_file_at w) (rglob_at w original).

Lemma tree_files_in p : p ∈ tree_files -> p ∈ rglob_at w original.
Proof. intros Hp. apply list_elem_of_In, filter_In in Hp as [Hp _]. by apply list_elem_of_In. Qed.

Lemma recorded_in (pds : list (path * string)) : Permutation pds.*1 tree_files ->
  Forall (fun pd => pd.1 ∈ rglob_at w original) pds.
Proof.
  intros Hp. apply Forall_forall. intros pd Hin. apply tree_files_in. rewrite <- Hp.
  by apply list_elem_of_fmap_2.
Qed.

Lemma expected_keys pds : (expected_of pds).*1 = source_key run <$> pds.*1.
Proof. unfold expected_of. by rewrite <- !list_fmap_compose. Qed.

Lemma recorded_nodup (pds : list (path * string)) : Permutation pds.*1 tree_files ->
  NoDup (expected_of pds).*1.
Proof.
  intros Hp. rewrite expected_keys. apply NoDup_fmap_2_strong.
  - intros p q Hpin Hq. rewrite Hp in Hpin, Hq. apply source_key_inj; by apply tree_files_in.
  - rewrite Hp. apply NoDup_ListNoDup, List.NoDup_filter, NoDup_ListNoDup, rglob_nodup.
Qed.

Lemma files_below_tree : files_below original w = (Ok (sort_by path_leb tree_files), w).
Proof.
  unfold files_below, rglob. rewrite (bind_ok_eq _ _ (rglob_at w original) w w) by done. cbv beta.
  unfold is_file. by rewrite (bind_ok_eq _ _ _ _ _ (filter_m_gets _ _ w)).
Qed.

Lemma relative_keys l : Forall (fun p => p ∈ rglob_at w original) l ->
  map_m (fun p => relative_text p run) l w = (Ok (source_key run <$> l), w).
Proof.
  induction 1 as [|p l Hp _ IH]; [done|]. apply source_key_path in Hp as (_ & Hw & _). cbn [map_m].
  rewrite (bind_ok_eq _ _ (source_key run p) w w) by (unfold relative_text, relative_to; by rewrite Hw).
  cbv beta. by rewrite (bind_ok_eq _ _ _ _ _ IH).
Qed.

Lemma check_source_recorded pds p d : Permutation pds.*1 tree_files -> (p, d) ∈ pds ->
  sha256_file p w = (Ok d, w) -> check_source run (expected_of pds) p w = (Ok tt, w).
Proof.
  intros Hp Hin Hs. assert (Hrg : p ∈ rglob_at w original).
  { apply tree_files_in. rewrite <- Hp. by apply (list_elem_of_fmap_2 fst pds (p, d)). }
  apply source_key_path in Hrg as (_ & Hw & _). unfold check_source.
  rewrite (bind_ok_eq _ _ (source_key run p) w w) by (unfold relative_text, relative_to; by rewrite Hw).
  cbv beta. rewrite (bind_ok_eq _ _ _ _ _ Hs). cbv beta.
  rewrite (elem_dict_get (source_key run p) d (expected_of pds) (recorded_nodup _ Hp)).
  2: { apply list_elem_of_fmap. by exists (p, d). }
  rewrite (bind_ok_eq _ _ d w w) by done. cbv beta. by rewrite String.eqb_refl.
Qed.

(** C34: a prepared run passes the check of a build: if the manifest of a run directory is
    the one that [source_manifest] makes of its frozen tree, [verify_competition_sources]
    accepts the tree (in a store without links whose names are plain). *)
Theorem prepared_sources_verify m t :
  source_manifest original w = (Ok m, w) ->
  let mp := pnames run ["source"; "source_manifest.json"] in
  node_at w (canon w mp) = Some (File (dumps_manifest m +:+ nl) t) -> canon w mp ∉ w_denied w ->
  json_text m = true ->
  verify_competition_sources run w = (Ok tt, w).
Proof.
  intros E mp Hn Hd Htx. apply source_manifest_ok in E as (pds & ns & -> & Hl & Hsha & Hperm).
  fold tree_files in Hperm. pose proof (recorded_in _ Hperm) as Hin. pose proof (recorded_nodup _ Hperm) as Hnd.
  unfold verify_competition_sources.
  rewrite (bind_ok_eq _ _ _ _ _ (declared_sources_ok pds ns t Hn Hd Htx Hl Hin Hnd)). cbv beta.
  rewrite (bind_ok_eq _ _ _ _ _ files_below_tree). cbv beta.
  assert (Hact : forall p, p ∈ sort_by path_leb tree_files <-> p ∈ pds.*1).
  { intros p. by rewrite elem_of_sort_by, Hperm. }
  rewrite (bind_ok_eq _ _ _ w w (relative_keys _ (proj2 (Forall_forall _ _) (fun p Hp =>
    tree_files_in p (proj1 (elem_of_sort_by _ _ _) Hp))))). cbv beta zeta.
  replace (bool_decide _) with true.
  2: { symmetry. apply bool_decide_eq_true, set_eq. intros k. unfold str_set.
       rewrite !elem_of_list_to_set, expected_keys, !list_elem_of_fmap. by setoid_rewrite Hact. }
  rewrite (bind_ok_eq _ _ tt w w) by done. apply for_ok, Forall_forall. intros p Hp.
  apply Hact, list_elem_of_fmap in Hp as ([p' d] & -> & Hp). rewrite Forall_forall in Hsha.
  apply (check_source_recorded pds p' d); [done|done|]. exact (Hsha _ Hp).
Qed.
End frozen.

(** *** An instance *)

Definition demo_tree : list (list string * string) :=
  [(["repo"; "competition_runs"; "r"; "source"; "original"; "src"; "core_main.c"], "int main;");
   (["repo"; "competition_runs"; "r"; "source"; "original"; "README"], "run")].
Definition demo_tree_dirs : list (list string) :=
  [["repo"]; ["repo"; "competition_runs"]; ["repo"; "competition_runs"; "r"];
   ["repo"; "competition_runs"; "r"; "source"];
   ["repo"; "competition_runs"; "r"; "source"; "original"];
   ["repo"; "competition_runs"; "r"; "source"; "original"; "src"]].
Definition demo_original : path :=
  Path true (["repo"; "competition_runs"; "r"] ++ ["source"; "original"]).
Definition demo_frozen_manifest : json :=
  ok_of JNull (source_manifest (H := demo) demo_original (demo_world demo_tree demo_tree_dirs)).
Definition demo_frozen_world : world := demo_world
  ((["repo"; "competition_runs"; "r"; "source"; "source_manifest.json"],
    dumps_manifest demo_frozen_manifest +:+ nl) :: demo_tree) demo_tree_dirs.

Lemma demo_frozen_plain : plain_store demo_frozen_world.
Proof.
  constructor; [reflexivity|].
  change (map_Forall (fun k _ => Forall (fun x => plain_name x = true) k) (w_fs demo_frozen_world)).
  apply (bool_decide_unpack _). vm_compute. exact I.
Qed.

Lemma prepared_sources_verify_witness :
  verify_competition_sources (H := demo) (Path true ["repo"; "competition_runs"; "r"]) demo_frozen_world =
  (Ok tt, demo_frozen_world).
Proof.
  refine (prepared_sources_verify (H := demo) demo_frozen_world demo_frozen_plain
    ["repo"; "competition_runs"; "r"] _ demo_frozen_manifest 0 _ _ _ _).
  - repeat constructor.
  - by_eval.
  - by_eval.
  - apply not_elem_of_empty.
  - by_eval.
Defined.

(** ** Run identifiers *)

Definition run_id_ok (id : string) : bool :=
  match id with
  | String c s => is_alnum c && sforall run_char s
  | EmptyString => false
  end.

Lemma run_char_plain c : run_char c = true -> negb (Ascii.eqb c "/") = true.
Proof. destruct (Ascii.eqb c "/") eqn:E; [|done]. apply Ascii.eqb_eq in E as ->. done. Qed.

Lemma alnum_run_char c : is_alnum c = true -> run_char c = true.
Proof. unfold run_char. by intros ->. Qed.

Lemma run_id_ok_plain id : run_id_ok id = true -> plain_name id = true.
Proof.
  destruct id as [|c s]; [done|]. simpl. intros Hid. apply andb_true_iff in Hid as [Hc Hs].
  unfold plain_name. assert (Hn : forall t, String.eqb (String c s) (String "." t) = false).
  { intros t. apply String.eqb_neq. intros [= -> _]. done. }
  change ("." : string) with (String "." ""). change (".." : string) with (String "." ".").
  rewrite !Hn. cbn [String.eqb negb andb sforall]. rewrite (run_char_plain c (alnum_run_char c Hc)).
  eapply sforall_impl; [|exact Hs]. apply run_char_plain.
Qed.

(** The identifiers that [prepare_run] accepts are exactly the words that start with a
    letter or a digit and go on with these or [_.-]; such a word is one plain name, so
    the run directory lies directly below the root of the runs. *)
Theorem run_id_pattern id :
  (fullmatch RUN_ID_PATTERN id <> None <-> run_id_ok id = true) /\
  (run_id_ok id = true -> forall root, pdiv root id = pnames root [id]).
Proof.
  split; [split|].
  - intros Hm. destruct (fullmatch RUN_ID_PATTERN id) as [g|] eqn:E; [|done].
    apply fullmatch_derives in E. inversion E as [| |? ? ? ? s1 g1 ? ? H1 H2| | | | | | |]; subst.
    inversion H1; subst. inversion H2 as [| |? ? ? ? s2 g2 ? ? H3 H4| | | | | | |]; subst.
    inversion H3; subst. inversion H4; subst. simpl. rewrite sapp_nil_r. by apply andb_true_iff.
  - destruct id as [|c s]; [done|]. simpl. intros Hid. apply andb_true_iff in Hid as [Hc Hs].
    unfold fullmatch, RUN_ID_PATTERN. cbn [Regex.run]. rewrite Hc.
    erewrite rep_greedy_all; [done|exact Hs|lia|reflexivity].
  - intros Hid root. apply run_id_ok_plain in Hid. unfold pdiv. change id with (join "/" [id]) at 1.
    by rewrite parse_path_plain by (done || by constructor).
Qed.

Lemma run_id_pattern_witness : pdiv (Path true ["repo"; "competition_runs"]) "team-1_v2.0" =
  Path true ["repo"; "competition_runs"; "team-1_v2.0"].
Proof. refine (proj2 (run_id_pattern "team-1_v2.0") _ _). reflexivity. Defined.
