(* ===== verification/Replay.v ===== *)
(** [scripts/difftest_selftest.py] and [scripts/replay_difftest.py]: injected faults are
    found by the comparison with the reference model, and a recorded run is repeated from
    the command line that [run_verilator.py] wrote into its result. *)
From Stdlib Require Import ZArith Lia.
From S2P Require Import Prelude Str Json Py Store Lib Helpers BuildSoftware Verilator.
Local Open Scope Z_scope.

(** ** [difftest_selftest.py] *)

Definition EXPECTED : list (string * string) :=
  [("order", "ORDER"); ("pc", "NEXT_PC"); ("rd", "GPR"); ("mem", "MEM")].

(** ** [subprocess.list2cmdline]: the text that is printed before a replay *)

Definition backslashes (n : nat) : string := srepeat (chr 92) n.

(** [n] backslashes have been read and not yet written. *)
Fixpoint cmdline_chars (n : nat) (quoted : bool) (s : string) : string :=
  match s with
  | EmptyString => backslashes n +:+ (if quoted then backslashes n +:+ dq else "")
  | String c r =>
      if Ascii.eqb c (chr 92) then cmdline_chars (S n) quoted r
      else if Ascii.eqb c (chr 34) then backslashes (2 * n) +:+ bsl +:+ dq +:+ cmdline_chars 0 quoted r
      else backslashes n +:+ ch c +:+ cmdline_chars 0 quoted r
  end.
Definition cmdline_word (s : string) : string :=
  let needquote := sexists (char_in (" " +:+ tab)) s || String.eqb s "" in
  (if needquote then dq else "") +:+ cmdline_chars 0 needquote s.
Definition list2cmdline (l : list string) : string := join " " (cmdline_word <$> l).

Section replay.
Context `{Host}.

Definition fault_test_name (fault : string) : string := "difftest-selftest-" +:+ fault.

Definition fault_command (fault : string) : command :=
  Command
    [host_executable; "-B"; path_str (repo_path ["scripts"; "run_verilator.py"]);
     "--profile"; "smoke"; "--test"; fault_test_name fault; "--max-cycles"; "100000";
     "--no-rtl-build"; "--no-software-build"; "--difftest"; "--difftest-mode"; "soc-mmio";
     "--difftest-isa"; "rv32imf_zicsr"; "--difftest-fault"; fault +:+ "@8"]
    (Some (repo_path [])) host_environ None.

Definition fault_result (fault : string) : path :=
  repo_path ["build"; "result"; "soc"; fault_test_name fault +:+ "-diff.json"].

(** [(result.get("failure") or {}).get("kind")] *)
Definition failure_kind (result : json) : M json :=
  failure ← get result "failure";
  get (if truthy failure then failure else JObj []) "kind".

(** The run with one injected fault; what it found wrong, if anything. *)
Definition selftest_fault (fault expected_kind : string) : M (list string) :=
  '(returncode, _, _) ← subprocess_run (fault_command fault);
  f ← is_file (fault_result fault);
  if negb f then mret [fault +:+ ": result file was not produced"] else
  result ← load_json (fault_result fault);
  actual_kind ← failure_kind result;
  if returncode =? 0 then mret [fault +:+ ": injected run unexpectedly passed"] else
  status ← get result "status";
  if negb (json_eqb status (JStr "DIFF_MISMATCH"))
  then mret [fault +:+ ": status=" +:+ str_json status +:+ ", expected DIFF_MISMATCH"]
  else if negb (json_eqb actual_kind (JStr expected_kind))
  then mret [fault +:+ ": kind=" +:+ str_json actual_kind +:+ ", expected " +:+ expected_kind]
  else
    print ("DiffTest fault self-test " +:+ fault +:+ ": " +:+ str_json actual_kind +:+ " PASS") ;;
    mret [].

Definition selftest_main : M Z :=
  failures ← fold_m (fun failures kv => l ← selftest_fault kv.1 kv.2; mret (failures ++ l)) [] EXPECTED;
  if negb (bool_decide (failures = [])) then
    for_ failures (fun failure => eprint ("FAIL: " +:+ failure)) ;;
    mret 1
  else mret 0.

(** ** [replay_difftest.py] *)

Record replay_args := {
  a_result : path;
  a_trace : bool
}.

(** [if flag not in argv: argv.append(flag)] *)
Definition with_flag (flag : string) (av : list string) : list string :=
  if bool_decide (flag ∈ av) then av else av ++ [flag].

Definition replay_argv (trace : bool) (words : list string) : list string :=
  let av := with_flag "--difftest" words in
  if trace then with_flag "--trace" av else av.

Definition replay_words (av : list string) : M Z :=
  print ("Replay: " +:+ list2cmdline av) ;;
  call av (Some (repo_path [])).

Definition replay_main (a : replay_args) : M Z :=
  document ← read_json (in_repo_unless_absolute (a_result a));
  difftest ← get_default document "difftest" (JObj []);
  enabled ← get_default difftest "enabled" (JBool false);
  (if negb (truthy enabled)
   then parser_error "the selected result was not produced with DiffTest" else mret tt) ;;
  command ← get document "reproduce";
  match command with
  | JStr text =>
      if String.eqb (strip text) "" then parser_error "the selected result has no reproduce command" else
      words ← lift_opt ValueError "No closing quotation" (shlex_split text);
      replay_words (replay_argv (a_trace a) words)
  | _ => parser_error "the selected result has no reproduce command"
  end.
End replay.

(** ** What the self-test guarantees *)

(** The programs that were run. *)
Definition runs (l : list event) : list command :=
  omap (fun e => match e with EvRun c => Some c | _ => None end) l.

Section selftest.
Context `{Host}.

(** The run with the fault failed, and its result is a mismatch of the expected kind. *)
Definition diagnosed (fault expected_kind : string) : Prop :=
  exists rc out err result w w1,
    run_command (fault_command fault) w = (Ok (Done rc out err), w1) /\ rc <> 0 /\
    load_json (fault_result fault) w1 = (Ok result, w1) /\
    get result "status" w1 = (Ok (JStr "DIFF_MISMATCH"), w1) /\
    failure_kind result w1 = (Ok (JStr expected_kind), w1).

Lemma Reads_failure_kind result : Reads (failure_kind result).
Proof. unfold failure_kind. solve_reads. Qed.
#[local] Hint Resolve Reads_failure_kind : reads.

Lemma run_command_log c r w w' : run_command c w = (r, w') -> w_log w' = w_log w ++ [EvRun c].
Proof. unfold run_command. destruct (host_exec c w). by intros [= _ <-]. Qed.

Lemma runs_app l1 l2 : runs (l1 ++ l2) = runs l1 ++ runs l2.
Proof. apply omap_app. Qed.

Lemma selftest_fault_ok fault kind l w w' : selftest_fault fault kind w = (Ok l, w') ->
  runs (w_log w') = runs (w_log w) ++ [fault_command fault] /\ (l = [] -> diagnosed fault kind).
Proof.
  unfold selftest_fault. intros E. apply bind_ok in E as ([[rc out] err] & w1 & Er & E).
  unfold subprocess_run in Er. apply bind_ok in Er as (r & w2 & Ex & Er).
  destruct r as [rc0 out0 err0| |]; [|done|done]. apply ret_ok in Er as [[= -> -> ->] ->].
  pose proof (run_command_log _ _ _ _ Ex) as Hlog. rstep E f Ef.
  assert (Hstop : forall x, (mret [x] : M (list string)) w2 = (Ok l, w') ->
    runs (w_log w') = runs (w_log w) ++ [fault_command fault] /\ (l = [] -> diagnosed fault kind)).
  { intros x E'. apply ret_ok in E' as [-> ->]. by rewrite Hlog, runs_app. }
  destruct f; cbn [negb] in E; [|by eapply Hstop].
  rstep E result El. rstep E k Ek. destruct (Z.eqb_spec rc0 0) as [|Hrc]; [by eapply Hstop|].
  rstep E status Es. destruct (json_eqb status _) eqn:Hs; cbn [negb] in E; [|by eapply Hstop].
  destruct (json_eqb k _) eqn:Hk; cbn [negb] in E; [|by eapply Hstop].
  apply json_eqb_str in Hs as ->. apply json_eqb_str in Hk as ->.
  apply bind_ok in E as (u & w3 & Ep & E). injection Ep as _ <-. apply ret_ok in E as [-> ->].
  cbn [log w_log]. rewrite Hlog, !runs_app, app_nil_r. split; [done|]. intros _.
  by exists rc0, out0, err0, result, w, w2.
Qed.

Lemma selftest_fold_ok l failures r w w' :
  fold_m (fun failures kv => l ← selftest_fault kv.1 kv.2; mret (failures ++ l)) failures l w = (Ok r, w') ->
  runs (w_log w') = runs (w_log w) ++ (fault_command <$> l.*1) /\
  exists rest, r = failures ++ rest /\ (rest = [] -> Forall (fun kv => diagnosed kv.1 kv.2) l).
Proof.
  revert failures w. induction l as [|kv l IH]; intros failures w E; cbn [fold_m] in E.
  { apply ret_ok in E as [-> ->]. rewrite app_nil_r. split; [done|]. exists []. by rewrite app_nil_r. }
  apply bind_ok in E as (f' & w1 & E1 & E). apply bind_ok in E1 as (x & w2 & Ex & E1).
  apply ret_ok in E1 as [-> ->]. apply selftest_fault_ok in Ex as [Hr Hd].
  apply IH in E as [Hr' (rest & -> & Hl)]. rewrite Hr', Hr, <- app_assoc. split; [done|].
  exists (x ++ rest). rewrite <- app_assoc. split; [done|]. intros [-> ->]%app_nil. constructor; auto.
Qed.

(** C28: the self-test tries every fault, and passes only if all are found.  When
    [difftest_selftest] ends, the programs it ran are exactly the four injected runs, in
    order: one that is not diagnosed does not keep the others from being tried.  The exit
    code is 0 or 1, and if it is 0 every one of them failed with a result that is a mismatch
    of the kind the fault has to cause. *)
Theorem selftest_verdict n w w' : selftest_main w = (Ok n, w') ->
  runs (w_log w') = runs (w_log w) ++ (fault_command <$> ["order"; "pc"; "rd"; "mem"]) /\
  (n = 0 \/ n = 1) /\
  (n = 0 -> diagnosed "order" "ORDER" /\ diagnosed "pc" "NEXT_PC" /\ diagnosed "rd" "GPR" /\
            diagnosed "mem" "MEM").
Proof.
  unfold selftest_main. intros E. apply bind_ok in E as (failures & w1 & Ef & E).
  apply selftest_fold_ok in Ef as [Hr (rest & -> & Hd)]. change (EXPECTED.*1) with ["order"; "pc"; "rd"; "mem"] in Hr.
  rewrite app_nil_l in E. destruct (bool_decide_reflect (rest = [])) as [Hrest|Hrest]; cbn [negb] in E.
  - apply ret_ok in E as [-> ->]. split_and!; [done|auto|]. intros _. specialize (Hd Hrest).
    unfold EXPECTED in Hd. by rewrite !Forall_cons in Hd; destruct Hd as (? & ? & ? & ? & _).
  - apply bind_ok in E as (u & w2 & Ep & E). apply ret_ok in E as [-> ->]. split_and!; [|auto|done].
    rewrite <- Hr. clear -Ep. revert w1 Ep. induction rest as [|x rest IH]; intros w1 Ep; cbn [for_] in Ep.
    { by apply ret_ok in Ep as [_ ->]. }
    apply bind_ok in Ep as (u1 & w3 & E1 & Ep). injection E1 as _ <-. rewrite (IH _ Ep).
    cbn [log w_log]. by rewrite runs_app, app_nil_r.
Qed.
End selftest.

(** ** The words of a recorded command line *)

(** A word is written as it is, or as a JSON string. *)
Inductive word := Plain (s : string) | Quoted (s : string).

Definition word_text (a : word) : string := match a with Plain s => s | Quoted s => json_text_of s end.
Definition word_of (a : word) : string := match a with Plain s | Quoted s => s end.

(** A character of a terminal: what both JSON and the shell leave as it is. *)
Definition printable (c : ascii) : bool := in_range 32 126 c.
Definition word_ok (a : word) : bool :=
  match a with
  | Plain s => negb (String.eqb s "") && sforall shell_safe s
  | Quoted s => sforall printable s
  end.

Lemma lex_double cur s k : sforall printable s = true ->
  lex LDouble cur (escape_ascii s +:+ dq +:+ k) = lex LWord (cur +:+ s) k.
Proof.
  revert cur. induction s as [|c s IH]; intros cur Hs; [by rewrite sapp_nil_r|].
  simpl in Hs. apply andb_true_iff in Hs as [Hc Hs].
  assert (Hstep : forall r, lex LDouble cur (escape_char c +:+ r) = lex LDouble (cur +:+ ch c) r).
  { intros r. destruct (Ascii.eqb_spec c (chr 34)) as [->|H34]; [reflexivity|].
    destruct (Ascii.eqb_spec c (chr 92)) as [->|H92]; [reflexivity|].
    assert (escape_char c = ch c) as ->.
    { assert (Hp : implb (printable c) (String.eqb (escape_char c) (ch c) || Ascii.eqb c (chr 34) ||
        Ascii.eqb c (chr 92)) = true) by by_chars c.
      rewrite Hc in Hp. cbn [implb] in Hp. apply Ascii.eqb_neq in H34, H92. rewrite H34, H92 in Hp.
      rewrite !orb_false_r in Hp. by apply String.eqb_eq. }
    unfold ch at 1. rewrite sapp_cons, sapp_nil_l. cbn [lex].
    apply Ascii.eqb_neq in H34, H92. by rewrite H34, H92. }
  assert (Ha : escape_ascii (String c s) = escape_char c +:+ escape_ascii s).
  { assert (Hp : implb (printable c) ((ord c <? 128) && negb (ord c =? 127)) = true) by by_chars c.
    rewrite Hc in Hp. cbn [implb] in Hp. cbn [escape_ascii]. bool_props. rewrite (proj2 (Z.ltb_lt _ _)) by done.
    by rewrite (proj2 (Z.eqb_neq _ _)). }
  rewrite Ha, sapp_assoc, Hstep, IH by done. by rewrite sapp_assoc.
Qed.

Lemma lex_word a k : word_ok a = true -> lex LWhite "" (word_text a +:+ k) = lex LWord (word_of a) k.
Proof.
  destruct a as [s|s]; simpl; intros Hok.
  - apply andb_true_iff in Hok as [Hne Hs]. destruct s as [|c s]; [done|]. simpl in Hs.
    apply andb_true_iff in Hs as [Hc Hs]. apply shell_safe_plain in Hc as (H1 & H2 & H3 & H4).
    rewrite sapp_cons. cbn [lex]. rewrite H1, H2, H3, H4, lex_safe by done. done.
  - unfold json_text_of, dumps. cbn [dump]. unfold dump_str.
    transitivity (lex LDouble "" (escape_ascii s +:+ dq +:+ k)); [by rewrite !sapp_assoc|].
    by rewrite lex_double.
Qed.

(** The words after the first, each with the blank before it. *)
Definition words_text (l : list word) : string := join "" ((fun a => " " +:+ word_text a) <$> l).

Lemma join_empty_cons x l : join "" (x :: l) = x +:+ join "" l.
Proof. destruct l; [by rewrite sapp_nil_r|done]. Qed.

Lemma words_text_app l1 l2 : words_text (l1 ++ l2) = words_text l1 +:+ words_text l2.
Proof.
  unfold words_text. rewrite fmap_app. induction (_ <$> l1) as [|x l IH]; [done|].
  change ((x :: l) ++ ?r) with (x :: (l ++ r)). by rewrite !join_empty_cons, IH, sapp_assoc.
Qed.

Lemma words_text_nil : words_text [] = "".
Proof. done. Qed.

Lemma words_text_cons a l : words_text (a :: l) = " " +:+ word_text a +:+ words_text l.
Proof. unfold words_text. by rewrite fmap_cons, join_empty_cons, sapp_assoc. Qed.

Lemma lex_words cur l : forallb word_ok l = true ->
  lex LWord cur (words_text l) = Some (cur :: (word_of <$> l)).
Proof.
  revert cur. induction l as [|a l IH]; intros cur Hl; [done|].
  simpl in Hl. apply andb_true_iff in Hl as [Ha Hl]. rewrite words_text_cons.
  change (lex LWord cur (" " +:+ ?r)) with (cons cur <$> lex LWhite "" r).
  rewrite lex_word, IH by done. done.
Qed.

(** ** The command line of a run *)

Definition int_word (n : Z) : word := Plain (str_of_Z n).
Definition flag (b : bool) (l : list word) : list word := if b then l else [].
Definition option_words (name : string) (l : list string) : list word :=
  concat ((fun s => [Plain name; Quoted s]) <$> l).

(** What follows [python] on the command line that repeats the run [o]; [run_text] and
    [config_text] are the places of the run directory and of its configuration. *)
Definition repeat_flags (o : image_run) (run_text config_text : option string) : list word :=
  let given (s : string) := negb (String.eqb s "") in
  [Plain "-B"; Plain "scripts/run_verilator.py"; Plain "--profile"; Plain (r_profile o);
   Plain "--test"; Plain (r_test_name o); Plain "--max-cycles"; int_word (r_max_cycles o);
   Plain "--no-rtl-build"; Plain "--no-software-build"] ++
  flag (negb (r_seed o =? 1)) [Plain "--seed"; int_word (r_seed o)] ++
  match run_text with Some t => [Plain "--run-dir"; Plain t] | None => [] end ++
  match config_text with Some t => [Plain "--competition-config"; Quoted t] | None => [] end ++
  flag (r_performance o) [Plain "--benchmark-iterations"; int_word (r_benchmark_iterations o)] ++
  flag (given (r_difftest_fault o)) [Plain "--difftest-fault"; Plain (r_difftest_fault o)] ++
  flag (given (r_uart_command o))
    ([Plain "--uart-command"; Quoted (r_uart_command o); Plain "--uart-prompt"; Quoted (r_uart_prompt o);
      Plain "--uart-prompt-timeout"; int_word (r_uart_prompt_timeout o)] ++
     option_words "--uart-followup-command" (r_uart_followup_commands o)) ++
  [Plain "--checker"; Plain (r_checker o)] ++
  option_words "--uart-expect" (r_uart_expect o) ++
  option_words "--uart-reject" (r_uart_reject o) ++
  flag (negb (r_wall_timeout o =? 600)) [Plain "--wall-timeout"; int_word (r_wall_timeout o)] ++
  flag (r_trace o) [Plain "--trace"] ++
  flag (r_difftest o)
    ([Plain "--difftest"; Plain "--difftest-mode"; Plain (r_difftest_mode o)] ++
     flag (given (r_difftest_isa o)) [Plain "--difftest-isa"; Plain (r_difftest_isa o)]).

(** The words themselves. *)
Definition repeat_argv (o : image_run) (run_text config_text : option string) : list string :=
  "python" :: (word_of <$> repeat_flags o run_text config_text).

Lemma words_text_flag b l : words_text (flag b l) = if b then words_text l else "".
Proof. by destruct b. Qed.

Lemma words_text_options name l :
  words_text (option_words name l) = join "" ((fun s => " " +:+ name +:+ " " +:+ json_text_of s) <$> l).
Proof.
  induction l as [|s l IH]; [done|]. rewrite fmap_cons, join_empty_cons, <- IH. unfold option_words.
  rewrite fmap_cons. cbn [concat]. rewrite words_text_app, !words_text_cons, !sapp_assoc. done.
Qed.

Section record.
Context `{Host}.

(** The text that [relative_to_repo] gives for a place, if there is one. *)
Definition place_text (p : option path) (t : option string) (w : world) : Prop :=
  match p, t with
  | Some p, Some t => relative_to_repo p w = (Ok t, w)
  | None, None => True
  | _, _ => False
  end.

#[local] Hint Resolve Reads_relative_to_repo : reads.

Lemma place_words (p : option path) (f : string -> list word) t m w x :
  place_text p t w -> (m = match p with
    | Some p => t ← relative_to_repo p; mret (words_text (f t))
    | None => mret ""
    end) -> m w = (Ok x, w) -> x = words_text match t with Some t => f t | None => [] end.
Proof.
  intros Hp -> E. destruct p as [p|], t as [t|]; try done; simpl in Hp.
  - rewrite (bind_ok_eq _ _ _ _ _ Hp) in E. by apply ret_ok in E as [-> _].
  - by apply ret_ok in E as [-> _].
Qed.

Lemma reproduce_words o sel run_text config_text w s w' : reproduce_line o sel w = (Ok s, w') ->
  place_text sel run_text w -> place_text (r_competition_config o) config_text w ->
  s = "python" +:+ words_text (repeat_flags o run_text config_text).
Proof.
  unfold reproduce_line. intros E Hr Hc. rstep E rt Er. rstep E ct Ec. apply ret_ok in E as [-> _].
  apply (place_words _ (fun t => [Plain "--run-dir"; Plain t]) _ _ _ _ Hr) in Er as ->; [|done].
  apply (place_words _ (fun t => [Plain "--competition-config"; Quoted t]) _ _ _ _ Hc) in Ec as ->; [|done].
  unfold repeat_flags, int_word.
  rewrite !words_text_app, !words_text_flag, !words_text_app, !words_text_options, !words_text_flag,
    !words_text_cons, !words_text_nil, !sapp_nil_r, !sapp_assoc. reflexivity.
Qed.

(** *** The runs that can be repeated *)

Definition safe (s : string) : bool := negb (String.eqb s "") && sforall shell_safe s.
Definition text_safe (s : string) : bool := sforall printable s.

(** The names of the run are words of the shell and its texts are printable ASCII. *)
Record replayable (o : image_run) (run_text config_text : option string) : Prop := {
  rp_profile : safe (r_profile o) = true;
  rp_test_name : safe (r_test_name o) = true;
  rp_checker : safe (r_checker o) = true;
  rp_fault : sforall shell_safe (r_difftest_fault o) = true;
  rp_mode : r_difftest o = true -> safe (r_difftest_mode o) = true;
  rp_isa : sforall shell_safe (r_difftest_isa o) = true;
  rp_run : forall t, run_text = Some t -> safe t = true;
  rp_config : forall t, config_text = Some t -> text_safe t = true;
  rp_command : text_safe (r_uart_command o) = true;
  rp_prompt : text_safe (r_uart_prompt o) = true;
  rp_followups : forallb text_safe (r_uart_followup_commands o) = true;
  rp_expect : forallb text_safe (r_uart_expect o) = true;
  rp_reject : forallb text_safe (r_uart_reject o) = true
}.

Lemma int_word_ok n : word_ok (int_word n) = true.
Proof.
  assert (Hd : forall m, 0 <= m -> sforall shell_safe (digits 10 m) = true).
  { intros m Hm. eapply sforall_impl; [|by apply digits_10_sforall]. intros c Hc.
    assert (Hp : implb (is_digit c) (shell_safe c) = true) by by_chars c. by rewrite Hc in Hp. }
  simpl. unfold str_of_Z, signed. destruct (Z.ltb_spec n 0).
  - rewrite sforall_app, Hd by lia. done.
  - rewrite Hd by done. rewrite andb_true_r. apply negb_true_iff, String.eqb_neq. intros E.
    pose proof (digits_10_head_is n ltac:(done)) as Hh. by rewrite E in Hh.
Qed.

Lemma flag_ok b l : (b = true -> forallb word_ok l = true) -> forallb word_ok (flag b l) = true.
Proof. destruct b; auto. Qed.

Lemma given_ok s : sforall shell_safe s = true -> negb (String.eqb s "") = true -> word_ok (Plain s) = true.
Proof. intros Hs Hne. simpl. by rewrite Hne. Qed.

Lemma option_words_ok name l : word_ok (Plain name) = true -> forallb text_safe l = true ->
  forallb word_ok (option_words name l) = true.
Proof.
  intros Hn. induction l as [|s l IH]; [done|]. cbn [forallb]. intros Hl. apply andb_true_iff in Hl as [Hs Hl].
  unfold option_words. rewrite fmap_cons. cbn [concat app forallb]. rewrite Hn.
  change (word_ok (Quoted s)) with (text_safe s). rewrite Hs. by apply IH.
Qed.

Lemma repeat_flags_ok o run_text config_text : replayable o run_text config_text ->
  forallb word_ok (repeat_flags o run_text config_text) = true.
Proof.
  intros []. unfold repeat_flags. rewrite !forallb_app, !andb_true_iff.
  assert (Hs : forall s, safe s = true -> word_ok (Plain s) = true) by done.
  split_and!; try (apply flag_ok; intros); try (apply option_words_ok; [reflexivity|done]);
    rewrite ?forallb_app, ?andb_true_iff; split_and?; cbn [forallb]; rewrite ?int_word_ok, ?Hs by auto;
    try reflexivity.
  - destruct run_text as [t|]; [|done]. cbn [forallb]. by rewrite (Hs t) by auto.
  - destruct config_text as [t|]; [|done]. cbn [forallb].
    by rewrite (rp_config0 t eq_refl : word_ok (Quoted t) = true).
  - by rewrite given_ok.
  - by rewrite (rp_command0 : word_ok (Quoted _) = true), (rp_prompt0 : word_ok (Quoted _) = true).
  - by apply option_words_ok.
  - apply flag_ok. intros. cbn [forallb]. by rewrite (given_ok (r_difftest_isa o)).
Qed.

Lemma strip_head c s : is_space c = false -> strip (String c s) <> "".
Proof.
  intros Hc. unfold strip, strip_by. cbn [lstrip_by]. rewrite Hc. cbn [rstrip_by].
  destruct (rstrip_by is_space s); [by rewrite Hc|done].
Qed.

Lemma reproduce_line_words o sel run_text config_text w s w' : reproduce_line o sel w = (Ok s, w') ->
  place_text sel run_text w -> place_text (r_competition_config o) config_text w ->
  replayable o run_text config_text -> shlex_split s = Some (repeat_argv o run_text config_text).
Proof.
  intros E Hr Hc Ho. rewrite (reproduce_words _ _ _ _ _ _ _ E Hr Hc). unfold shlex_split, repeat_argv.
  rewrite <- (lex_words "python") by by apply repeat_flags_ok.
  exact (lex_word (Plain "python") _ eq_refl).
Qed.

Lemma difftest_flag o run_text config_text : r_difftest o = true ->
  "--difftest" ∈ repeat_argv o run_text config_text.
Proof.
  intros Hd. unfold repeat_argv, repeat_flags. rewrite Hd. cbn [flag].
  apply elem_of_cons. right. apply list_elem_of_fmap. exists (Plain "--difftest"). split; [done|].
  rewrite !elem_of_app. do 12 right. left. by left.
Qed.

Lemma replay_text a d dd text w : read_json (in_repo_unless_absolute (a_result a)) w = (Ok (JObj d), w) ->
  dict_get "difftest" d = Some (JObj dd) -> dict_get "enabled" dd = Some (JBool true) ->
  dict_get "reproduce" d = Some (JStr text) -> strip text <> "" ->
  replay_main a w =
    (words ← lift_opt ValueError "No closing quotation" (shlex_split text);
     replay_words (replay_argv (a_trace a) words)) w.
Proof.
  intros Hd Hdd He Hr Ht. unfold replay_main. rewrite (bind_ok_eq _ _ _ _ _ Hd). cbv beta.
  unfold get, get_default. rewrite Hdd, Hr.
  rewrite (bind_ok_eq _ _ (JObj dd) w w) by done. cbv beta iota. rewrite He.
  rewrite (bind_ok_eq _ _ (JBool true) w w) by done. cbv beta.
  rewrite (bind_ok_eq _ _ tt w w) by done. cbv beta.
  rewrite (bind_ok_eq _ _ (JStr text) w w) by done. cbv beta iota.
  by rewrite (proj2 (String.eqb_neq _ _)).
Qed.

(** C27: a recorded run is repeated word for word.  If a result of a run with DiffTest holds the
    command line that [run_image] recorded for the run [o], and the names of that run are
    words of the shell and its texts printable ASCII, then [replay_difftest] runs exactly the
    program and arguments that describe [o], whatever quotes, blanks and backslashes the texts
    have: it adds nothing but [--trace], if that is asked for and not there. *)
Theorem replay_repeats_run o sel run_text config_text w0 text w0' a d dd w :
  reproduce_line o sel w0 = (Ok text, w0') ->
  place_text sel run_text w0 -> place_text (r_competition_config o) config_text w0 ->
  replayable o run_text config_text -> r_difftest o = true ->
  read_json (in_repo_unless_absolute (a_result a)) w = (Ok (JObj d), w) ->
  dict_get "difftest" d = Some (JObj dd) -> dict_get "enabled" dd = Some (JBool true) ->
  dict_get "reproduce" d = Some (JStr text) ->
  let words := repeat_argv o run_text config_text in
  let av := if a_trace a then with_flag "--trace" words else words in
  replay_main a w = (print ("Replay: " +:+ list2cmdline av) ;; call av (Some (repo_path []))) w.
Proof.
  intros E Hr Hc Ho Ht Hd Hdd He Hrep. cbv zeta.
  pose proof (reproduce_line_words _ _ _ _ _ _ _ E Hr Hc Ho) as Hw.
  rewrite (replay_text _ _ _ _ _ Hd Hdd He Hrep), Hw.
  - unfold lift_opt. rewrite (bind_ok_eq _ _ (repeat_argv o run_text config_text) w w) by done.
    unfold replay_argv. replace (with_flag "--difftest" _) with (repeat_argv o run_text config_text); [done|].
    unfold with_flag. by rewrite bool_decide_eq_true_2 by by apply difftest_flag.
  - apply reproduce_words with (run_text := run_text) (config_text := config_text) in E as ->; [|done|done].
    by apply strip_head.
Qed.
End record.

(** *** Instances *)

Definition demo_repeat : image_run := {|
  r_image_dir := Path true ["repo"; "build"; "images"; "t"]; r_test_name := "t"; r_max_cycles := 100;
  r_rebuild_model := true; r_trace := false; r_require_pass := true; r_profile := "rtthread"; r_seed := 7;
  r_performance := false; r_benchmark_iterations := 0; r_reproduce := ""; r_wall_timeout := 600;
  r_uart_command := "echo " +:+ dq +:+ "a b" +:+ dq; r_uart_followup_commands := ["ps"; "help"];
  r_uart_prompt := "msh >"; r_uart_prompt_timeout := 5000000; r_checker := "uart";
  r_uart_expect := ["it's \n"]; r_uart_reject := []; r_difftest := true; r_difftest_mode := "soc-mmio";
  r_difftest_isa := ""; r_difftest_fault := "pc@8"; r_run_dir := None; r_competition_config := None |}.

(** The text holds the expected line as JSON: the backslash is doubled. *)
Notation demo_text := (ok_of "" (reproduce_line (H := demo) demo_repeat None (demo_world [] []))).
Definition demo_replay_host : Host := demo_exec_host ["repo"] (answers [("--difftest", Done 3 "" "")]).
Definition demo_record (text : string) : list (string * json) :=
  [("difftest", JObj [("enabled", JBool true)]); ("reproduce", JStr text)].
Definition demo_replay_world : world :=
  demo_world [(["repo"; "r.json"], dumps_manifest (JObj (demo_record demo_text)) +:+ nl)] [["repo"]].
Definition demo_replay_args : replay_args := {| a_result := Path false ["r.json"]; a_trace := true |}.

Lemma replay_repeats_run_witness : (replay_main (H := demo_replay_host) demo_replay_args demo_replay_world).1 = Ok 3.
Proof.
  rewrite (replay_repeats_run (H := demo_replay_host) demo_repeat None None None (demo_world [] []) demo_text
    (demo_world [] []) demo_replay_args (demo_record demo_text) [("enabled", JBool true)] demo_replay_world).
  - by_eval.
  - by_eval.
  - exact I.
  - exact I.
  - split; try (vm_compute; reflexivity); done.
  - reflexivity.
  - by_eval.
  - reflexivity.
  - reflexivity.
  - reflexivity.
Defined.

(** A character that JSON escapes comes back as the text of its escape. *)
Example newline_not_repeated : exists words,
  shlex_split ("run " +:+ json_text_of nl) = Some words /\ words = ["run"; "\n"] /\ "\n" <> nl.
Proof. eexists. split; [vm_compute; reflexivity|]. split; [reflexivity|discriminate]. Qed.

(** A simulator whose comparison finds each of the faults. *)
Definition demo_faults : Host := demo_exec_host ["repo"] (fun c w =>
  match List.find (fun kv => contains (kv.1 +:+ "@8") (join " " (c_argv c))) EXPECTED with
  | Some (fault, kind) =>
      (Done 1 "" "", put_file ["repo"; "build"; "result"; "soc"; "difftest-selftest-" +:+ fault +:+ "-diff.json"]
         (dumps (JObj [("status", JStr "DIFF_MISMATCH"); ("failure", JObj [("kind", JStr kind)])])) w)
  | None => (NoProgram, w)
  end).

Lemma selftest_verdict_witness : diagnosed (H := demo_faults) "pc" "NEXT_PC".
Proof.
  destruct (selftest_verdict (H := demo_faults) 0 (demo_world [] [["repo"]])
    (selftest_main (H := demo_faults) (demo_world [] [["repo"]])).2) as (_ & _ & Hd); [by_eval|].
  apply Hd. reflexivity.
Defined.
