(* ===== verification/Spike.v ===== *)
(** [scripts/build_spike.py]: the reference model of DiffTest, Spike and the adapter of
    Ibex, is built once and reused as long as its inputs are the same. *)
From Stdlib Require Import ZArith Lia.
From S2P Require Import Prelude Str Json Sha256 Py Store Lib Helpers BuildSoftware Verilator.
Local Open Scope Z_scope.

(** A text between double quotes. *)
Definition quoted (s : string) : string := dq +:+ s +:+ dq.

Section spike.
Context `{Host}.

Definition SPIKE_LOCK : path := repo_path ["sim"; "reference"; "spike"; "dependency.lock.json"].
Definition IBEX_LOCK : path := repo_path ["sim"; "reference"; "ibex-cosim"; "dependency.lock.json"].
Definition SPIKE_SOURCE : path := repo_path ["sim"; "reference"; "spike"; "upstream"].
Definition IBEX_SOURCE : path := repo_path ["sim"; "reference"; "ibex-cosim"; "upstream"].
Definition IBEX_PATCH : path := repo_path ["sim"; "reference"; "ibex-cosim"; "socrv_getters.patch"].
Definition SPIKE_MEMORY_MAP_PATCH : path :=
  repo_path ["sim"; "reference"; "spike"; "socrv_debug_window.patch"].
(** [Path(__file__)] *)
Definition builder : path := repo_path ["scripts"; "build_spike.py"].

(** The directory of the build, found when the script is loaded. *)
Definition find_reference_root : M path := build_path ["reference"; "spike"].

Definition input_digests : M (list (string * json)) :=
  map_m (fun kp => d ← sha256_file kp.2; mret (kp.1, JStr d))
    [("spike_lock", SPIKE_LOCK); ("ibex_lock", IBEX_LOCK); ("ibex_patch", IBEX_PATCH);
     ("spike_memory_map_patch", SPIKE_MEMORY_MAP_PATCH); ("builder", builder)].

Definition configure_flags : list string := ["--enable-commitlog"; "--enable-misaligned"].

Definition desired_manifest : M json :=
  spike_lock ← read_json SPIKE_LOCK;
  ibex_lock ← read_json IBEX_LOCK;
  inputs ← input_digests;
  let fingerprint := sha256_text (dumps_sorted (JObj inputs)) in
  spike_url ← getitem spike_lock "url";
  spike_ref ← get spike_lock "ref";
  spike_commit ← getitem spike_lock "commit";
  ibex_url ← getitem ibex_lock "url";
  ibex_commit ← getitem ibex_lock "commit";
  mret (JObj
    [("schema_version", JInt 1); ("kind", JStr "spike_reference_build"); ("fingerprint", JStr fingerprint);
     ("spike", JObj [("url", spike_url); ("ref", spike_ref); ("commit", spike_commit)]);
     ("ibex_cosim", JObj [("url", ibex_url); ("commit", ibex_commit)]);
     ("configure", JArr (JStr <$> configure_flags));
     ("inputs", JObj inputs)]).

(** *** What an earlier build left *)

Section build.
Variable REFERENCE_ROOT : path.

Definition INSTALL_ROOT : path := pnames REFERENCE_ROOT ["install"].
Definition COSIM_ROOT : path := pnames REFERENCE_ROOT ["ibex_cosim"].
Definition MANIFEST_PATH : path := pnames REFERENCE_ROOT ["build_manifest.json"].

Definition install_files : list path :=
  [pnames INSTALL_ROOT ["lib"; "libriscv.a"]; pnames INSTALL_ROOT ["lib"; "pkgconfig"; "riscv-riscv.pc"]].
Definition cosim_names : list string := ["cosim.h"; "spike_cosim.h"; "spike_cosim.cc"].
Definition cosim_files : list path := (fun n => pnames COSIM_ROOT [n]) <$> cosim_names.

(** The recorded manifest, if it and the files [required] are there and it can be read. *)
Definition recorded_manifest (required : list path) : M (option json) :=
  m ← is_file MANIFEST_PATH;
  r ← (if m : bool then all_m is_file required else mret false);
  if negb r then mret None else
  try_except (actual ← read_json MANIFEST_PATH; mret (Some actual))
    (fun e => is_os_error e || is_value_error e) (fun _ => mret None).

Definition is_current (desired : json) : M bool :=
  actual ← recorded_manifest (install_files ++ cosim_files);
  match actual with
  | None => mret false
  | Some actual =>
      a ← get actual "fingerprint";
      d ← getitem desired "fingerprint";
      mret (json_eqb a d)
  end.

(** [a.get(k) == desired[k]] *)
Definition same_field (actual desired : json) (k : string) : M bool :=
  a ← get actual k; d ← getitem desired k; mret (json_eqb a d).

Definition spike_install_is_reusable (desired : json) : M bool :=
  actual ← recorded_manifest install_files;
  match actual with
  | None => mret false
  | Some actual =>
      s ← same_field actual desired "spike";
      if negb s then mret false else
      c ← same_field actual desired "configure";
      if negb c then mret false else
      inputs ← get_default actual "inputs" (JObj []);
      desired_inputs ← getitem desired "inputs";
      a ← get inputs "spike_memory_map_patch";
      d ← getitem desired_inputs "spike_memory_map_patch";
      mret (json_eqb a d)
  end.

(** *** Building *)

Definition require_checkout (p : path) (n : string) : M unit :=
  e ← exists_ (pnames p [".git"]);
  fail_if (negb e) RuntimeError (n +:+ " checkout is missing; run `make deps` first").

Definition remove_if_present (p : path) : M unit := e ← exists_ p; when_ e (rmtree p).

Definition prepare_ibex_cosim : M unit :=
  remove_if_present COSIM_ROOT ;;
  mkdir true false COSIM_ROOT ;;
  for_ cosim_names (fun n =>
    copy2 (pnames IBEX_SOURCE ["dv"; "cosim"; n]) (pnames COSIM_ROOT [n])) ;;
  '(returncode, out, err) ← subprocess_run
    (Command ["git"; "apply"; "--unsafe-paths"; "--directory"; path_str COSIM_ROOT; path_str IBEX_PATCH]
       (Some (repo_path [])) host_environ None);
  fail_if (negb (returncode =? 0)) RuntimeError
    ("cannot apply SocRV Ibex co-sim adapter patch:" +:+ nl +:+ out +:+ err).

(** The shell program of the build; a backslash at the end of a line of the Python text
    joins it to the next. *)
Definition build_script (source install memory_map_patch : string) (jobs : Z) : string :=
  join nl
    ["";
     "set -euo pipefail";
     "tmp=" +:+ quoted "$(mktemp -d)";
     "trap 'rm -rf " +:+ quoted "$tmp" +:+ "' EXIT";
     "mkdir -p " +:+ quoted "$tmp/src" +:+ " " +:+ quoted "$tmp/build";
     "cp -a " +:+ source +:+ "/. " +:+ quoted "$tmp/src/";
     "git -C " +:+ quoted "$tmp/src" +:+ " apply " +:+ memory_map_patch;
     "while IFS=$'\t' read -r path target; do";
     "  rm -f " +:+ quoted "$tmp/src/$path";
     "  ln -s " +:+ quoted "$target" +:+ " " +:+ quoted "$tmp/src/$path";
     "done < <(";
     "  cd " +:+ source;
     "  git ls-files -s |";
     "    awk '$1 == " +:+ quoted "120000" +:+ " {print $4}' |";
     "    while read -r path; do";
     "      printf '%s\t%s\n' " +:+ quoted "$path" +:+ " " +:+ quoted ("$(cat " +:+ quoted "$path" +:+ ")");
     "    done";
     ")";
     "cd " +:+ quoted "$tmp/build";
     "CXXFLAGS=" +:+ quoted "-O2 -include cstdint" +:+ " " +:+ quoted "$tmp/src/configure" +:+
       "   --enable-commitlog   --enable-misaligned   --prefix=" +:+ install;
     "make -s -j" +:+ str_of_Z jobs;
     "make -s install";
     ""].

Definition build_spike (jobs : Z) : M unit :=
  source ← to_wsl_path SPIKE_SOURCE;
  install ← to_wsl_path INSTALL_ROOT;
  memory_map_patch ← to_wsl_path SPIKE_MEMORY_MAP_PATCH;
  result ← bash (build_script source install memory_map_patch jobs) (Some 900) false;
  when_ (negb (String.eqb (stdout result) "")) (print_end (stdout result)) ;;
  when_ (negb (String.eqb (stderr result) "")) (eprint_end (stderr result)) ;;
  fail_if (negb (ok result)) RuntimeError "Spike build failed".

Record spike_args := {
  s_jobs : Z;
  s_force : bool
}.

(** Everything but the manifest, for an installation to reuse or not. *)
Definition refresh (reuse_spike : bool) (jobs : Z) : M unit :=
  e ← exists_ REFERENCE_ROOT;
  when_ (e && negb reuse_spike) (rmtree REFERENCE_ROOT) ;;
  mkdir_p REFERENCE_ROOT ;;
  mkdir_p INSTALL_ROOT ;;
  prepare_ibex_cosim ;;
  if reuse_spike then print "Reusing pinned Spike installation; refreshing co-sim adapter"
  else build_spike jobs.

Definition spike_main (a : spike_args) : M Z :=
  (if s_jobs a <? 1 then parser_error "--jobs must be positive" else mret tt) ;;
  desired ← desired_manifest;
  current ← (if s_force a then mret false else is_current desired);
  if current : bool then print "Spike reference model is current" ;; mret 0 else
  require_checkout SPIKE_SOURCE "Spike" ;;
  require_checkout IBEX_SOURCE "Ibex co-sim" ;;
  reuse_spike ← (if s_force a then mret false else spike_install_is_reusable desired);
  refresh reuse_spike (s_jobs a) ;;
  write_json_atomic MANIFEST_PATH desired ;;
  print ("Spike reference model built: " +:+ path_str MANIFEST_PATH) ;;
  mret 0.
End build.

(** The script: the directory is found outside the handler of its errors. *)
Definition script (a : spike_args) : M Z :=
  REFERENCE_ROOT ← find_reference_root;
  try_except (spike_main REFERENCE_ROOT a) is_usual_error (fun e => system_exit (exn_msg e)).
End spike.

(** ** What a build guarantees *)

Section facts.
Context `{Host}.
Variable REFERENCE_ROOT : path.
Notation MANIFEST := (MANIFEST_PATH REFERENCE_ROOT).

Lemma Reads_input_digests : Reads input_digests.
Proof. unfold input_digests. solve_reads. Qed.
#[local] Hint Resolve Reads_input_digests : reads.
Lemma Reads_desired_manifest : Reads desired_manifest.
Proof. unfold desired_manifest. solve_reads. Qed.
Lemma Reads_recorded_manifest l : Reads (recorded_manifest REFERENCE_ROOT l).
Proof. unfold recorded_manifest. solve_reads. Qed.
#[local] Hint Resolve Reads_desired_manifest Reads_recorded_manifest : reads.
Lemma Reads_is_current d : Reads (is_current REFERENCE_ROOT d).
Proof. unfold is_current. solve_reads. Qed.
Lemma Reads_same_field a d k : Reads (same_field a d k).
Proof. unfold same_field. solve_reads. Qed.
#[local] Hint Resolve Reads_is_current Reads_same_field : reads.
Lemma Reads_reusable d : Reads (spike_install_is_reusable REFERENCE_ROOT d).
Proof. unfold spike_install_is_reusable. solve_reads. Qed.
Lemma Reads_require_checkout p n : Reads (require_checkout p n).
Proof. unfold require_checkout. solve_reads. Qed.
#[local] Hint Resolve Reads_reusable Reads_require_checkout : reads.

Lemma all_m_is_file l b w w' : all_m is_file l w = (Ok b, w') ->
  b = forallb (is_file_at w) l.
Proof.
  revert b. induction l as [|p l IH]; intros b E; cbn [all_m forallb] in *; [by apply ret_ok in E as [-> _]|].
  rstep E f Ef. apply gets_ok in Ef as [-> _]. destruct (is_file_at w p); [by apply IH|].
  by apply ret_ok in E as [-> _].
Qed.

Lemma recorded_manifest_some l v w w' : recorded_manifest REFERENCE_ROOT l w = (Ok (Some v), w') ->
  forallb (is_file_at w) (MANIFEST :: l) = true /\ read_json MANIFEST w = (Ok v, w).
Proof.
  unfold recorded_manifest. intros E. rstep E m Em. apply gets_ok in Em as [-> _].
  rstep E r Er. destruct r; [|by apply ret_ok in E as [? _]].
  cbn [forallb]. destruct (is_file_at w MANIFEST); [|by apply ret_ok in Er as [? _]].
  apply all_m_is_file in Er as <-. split; [done|].
  cbn [negb] in E. unfold try_except in E. destruct ((actual ← read_json MANIFEST; mret (Some actual)) w) as [[o|e] w1] eqn:Eb.
  - injection E as -> <-. rstep Eb x Ex. by apply ret_ok in Eb as [[= ->] _].
  - destruct (is_os_error e || is_value_error e); [|done]. by apply ret_ok in E as [? _].
Qed.

Lemma recorded_manifest_ok l v w : forallb (is_file_at w) (MANIFEST :: l) = true ->
  read_json MANIFEST w = (Ok v, w) -> recorded_manifest REFERENCE_ROOT l w = (Ok (Some v), w).
Proof.
  cbn [forallb]. intros Hf Hr. apply andb_true_iff in Hf as [Hm Hl]. unfold recorded_manifest.
  rewrite (bind_ok_eq _ _ true w w) by (unfold is_file, gets; by rewrite Hm). cbv beta.
  assert (Ha : all_m is_file l w = (Ok true, w)).
  { clear -Hl. induction l as [|p l IH]; [done|]. cbn [forallb all_m] in *.
    apply andb_true_iff in Hl as [Hp Hl]. rewrite (bind_ok_eq _ _ true w w); [by apply IH|].
    unfold is_file, gets. by rewrite Hp. }
  rewrite (bind_ok_eq _ _ _ _ _ Ha). cbv beta. change (negb true) with false. cbv iota.
  unfold try_except. by rewrite (bind_ok_eq _ _ _ _ _ Hr).
Qed.

(** The field [k] of the recorded document is that of the desired one. *)
Definition fields_agree (actual desired : json) (k : string) : Prop := exists x y,
  (forall w, get actual k w = (Ok x, w)) /\ (forall w, getitem desired k w = (Ok y, w)) /\ json_eqb x y = true.

Lemma get_any v k d x w w' : get_default v k d w = (Ok x, w') -> forall w0, get_default v k d w0 = (Ok x, w0).
Proof. unfold get_default. destruct v; try done. by intros [-> _]%ret_ok w0. Qed.

Lemma fields_agree_ok actual desired k x y w w1 w2 w3 : get actual k w = (Ok x, w1) -> getitem desired k w2 = (Ok y, w3) ->
  json_eqb x y = true -> fields_agree actual desired k.
Proof. intros Hx Hy Hxy. exists x, y. split_and!; [by eapply get_any|by eapply getitem_any|done]. Qed.

Lemma same_field_ok actual desired k w w' : same_field actual desired k w = (Ok true, w') -> fields_agree actual desired k.
Proof.
  unfold same_field. intros E. rstep E a Ea. rstep E d Ed. apply ret_ok in E as [E _]. by eapply fields_agree_ok.
Qed.

(** What makes an installation reusable: its files and its manifest are there, and this records the
    same Spike commit, the same flags and the same patch. *)
Record reusable (desired actual : json) (w : world) : Prop := {
  ru_files : forallb (is_file_at w)
    [MANIFEST; pnames REFERENCE_ROOT ["install"; "lib"; "libriscv.a"];
     pnames REFERENCE_ROOT ["install"; "lib"; "pkgconfig"; "riscv-riscv.pc"]] = true;
  ru_recorded : read_json MANIFEST w = (Ok actual, w);
  ru_spike : fields_agree actual desired "spike";
  ru_configure : fields_agree actual desired "configure";
  ru_patch : exists inputs desired_inputs,
    (forall w, get_default actual "inputs" (JObj []) w = (Ok inputs, w)) /\
    (forall w, getitem desired "inputs" w = (Ok desired_inputs, w)) /\
    fields_agree inputs desired_inputs "spike_memory_map_patch"
}.

Lemma pnames_app p l k : pnames (pnames p l) k = pnames p (l ++ k).
Proof. unfold pnames. cbn. by rewrite app_assoc. Qed.

Lemma reusable_ok desired w w' : spike_install_is_reusable REFERENCE_ROOT desired w = (Ok true, w') ->
  exists actual, reusable desired actual w.
Proof.
  unfold spike_install_is_reusable. intros E. rstep E o Eo.
  destruct o as [actual|]; [|by apply ret_ok in E as [? _]].
  apply recorded_manifest_some in Eo as [Hf Hr]. unfold install_files, INSTALL_ROOT in Hf. rewrite !pnames_app in Hf.
  rstep E s Es. destruct s; [|by apply ret_ok in E as [? _]]. cbn [negb] in E.
  rstep E c Ec. destruct c; [|by apply ret_ok in E as [? _]]. cbn [negb] in E.
  rstep E inputs Ei. rstep E desired_inputs Ed. rstep E a Ea. rstep E d Edd. apply ret_ok in E as [E _].
  exists actual. constructor; [exact Hf|exact Hr|by eapply same_field_ok|by eapply same_field_ok|].
  exists inputs, desired_inputs. split_and!; [by eapply get_any|by eapply getitem_any|by eapply fields_agree_ok].
Qed.

(** The files of a finished build. *)
Definition built_files : list path :=
  pnames REFERENCE_ROOT <$>
    [["build_manifest.json"]; ["install"; "lib"; "libriscv.a"]; ["install"; "lib"; "pkgconfig"; "riscv-riscv.pc"];
     ["ibex_cosim"; "cosim.h"]; ["ibex_cosim"; "spike_cosim.h"]; ["ibex_cosim"; "spike_cosim.cc"]].

Lemma is_current_true desired f w w' : (forall w0, getitem desired "fingerprint" w0 = (Ok (JStr f), w0)) ->
  is_current REFERENCE_ROOT desired w = (Ok true, w') ->
  Forall (fun p => is_file_at w p = true) built_files /\ records_text w MANIFEST "fingerprint" f.
Proof.
  intros Hf E. unfold is_current in E. rstep E o Eo. destruct o as [actual|]; [|by apply ret_ok in E as [? _]].
  apply recorded_manifest_some in Eo as [Hfiles Hr].
  rstep E a Ea. rewrite (bind_ok_eq _ _ _ _ _ (Hf w)) in E. apply ret_ok in E as [E _]. split.
  - rewrite forallb_forall in Hfiles. apply Forall_forall. intros p Hp. apply Hfiles, list_elem_of_In.
    unfold MANIFEST_PATH, install_files, cosim_files, INSTALL_ROOT, COSIM_ROOT. rewrite !pnames_app.
    cbn [cosim_names fmap list_fmap app]. rewrite !pnames_app. exact Hp.
  - exists actual. split; [done|]. by eapply get_text.
Qed.

(** *** The build is current once its manifest is written *)

Lemma is_current_written d f w t w' : write_json_atomic MANIFEST (JObj d) w = (Ok t, w') ->
  json_wf (JObj d) = true -> json_text (JObj d) = true -> dict_get "fingerprint" d = Some (JStr f) ->
  w_links w !! lcanon w MANIFEST = None -> lcanon w MANIFEST ∉ w_denied w ->
  (forall p, p ∈ install_files REFERENCE_ROOT ++ cosim_files REFERENCE_ROOT ->
     is_file_at w p = true /\ canon w p <> lcanon w MANIFEST) ->
  is_current REFERENCE_ROOT (JObj d) w' = (Ok true, w').
Proof.
  intros E Hwf Htx Hf Hl Hd Hfiles.
  destruct (read_json_current _ _ _ _ _ Hl E Hd Hwf Htx) as (HK & Hm & Hr).
  assert (Hnd : NoDup d.*1).
  { cbn [json_wf] in Hwf. apply andb_true_iff in Hwf as [Hnd _]. by apply bool_decide_eq_true in Hnd. }
  destruct (dict_get_sort_keys d "fingerprint" Hnd) as (d' & Hd' & Hg). rewrite Hf in Hg.
  rewrite Hd' in Hr. unfold is_current. rewrite (bind_ok_eq _ _ (Some (JObj d')) w' w').
  - cbv beta iota. unfold get, get_default, getitem. rewrite Hg, Hf. unfold lift_opt.
    rewrite (bind_ok_eq _ _ (JStr f) w' w') by done. cbv beta.
    rewrite (bind_ok_eq _ _ (JStr f) w' w') by done. cbn. by rewrite String.eqb_refl.
  - apply recorded_manifest_ok; [|done]. cbn [forallb]. rewrite Hm. apply forallb_forall. intros p Hp.
    apply list_elem_of_In, Hfiles in Hp as [Hp Hne]. unfold is_file_at in *. rewrite (keeps_canon _ _ _ _ HK).
    destruct (node_at w (canon w p)) as [[c m|]|] eqn:En; try done.
    by rewrite (keeps_node _ _ _ _ _ HK ltac:(by rewrite list_elem_of_singleton) En).
Qed.

(** *** The inputs *)

(** The five files that a build depends on, by the names they have in the manifest. *)
Definition spike_inputs : list (string * path) :=
  [("spike_lock", repo_path ["sim"; "reference"; "spike"; "dependency.lock.json"]);
   ("ibex_lock", repo_path ["sim"; "reference"; "ibex-cosim"; "dependency.lock.json"]);
   ("ibex_patch", repo_path ["sim"; "reference"; "ibex-cosim"; "socrv_getters.patch"]);
   ("spike_memory_map_patch", repo_path ["sim"; "reference"; "spike"; "socrv_debug_window.patch"]);
   ("builder", repo_path ["scripts"; "build_spike.py"])].

(** What a build at [w] records of its inputs: their digests, the digest of these, and the pinned commit. *)
Record desired_build (w : world) (desired : json) (f : string) : Prop := {
  db_inputs : exists inputs,
    Forall2 (fun kp e => exists content, read_bytes kp.2 w = (Ok content, w) /\
      e = (kp.1, JStr (sha256_bytes content))) spike_inputs inputs /\
    (forall w0, getitem desired "inputs" w0 = (Ok (JObj inputs), w0)) /\
    f = sha256_text (dumps_sorted (JObj inputs));
  db_fingerprint : forall w0, getitem desired "fingerprint" w0 = (Ok (JStr f), w0);
  db_spike : exists lock url ref commit,
    read_json (repo_path ["sim"; "reference"; "spike"; "dependency.lock.json"]) w = (Ok lock, w) /\
    (forall w0, getitem lock "url" w0 = (Ok url, w0)) /\ (forall w0, get lock "ref" w0 = (Ok ref, w0)) /\
    (forall w0, getitem lock "commit" w0 = (Ok commit, w0)) /\
    (forall w0, getitem desired "spike" w0 = (Ok (JObj [("url", url); ("ref", ref); ("commit", commit)]), w0));
  db_configure : forall w0, getitem desired "configure" w0 =
    (Ok (JArr [JStr "--enable-commitlog"; JStr "--enable-misaligned"]), w0)
}.

Lemma desired_manifest_ok desired w w' : desired_manifest w = (Ok desired, w') ->
  w' = w /\ exists d f, desired = JObj d /\ dict_get "fingerprint" d = Some (JStr f) /\ desired_build w desired f.
Proof.
  unfold desired_manifest. intros E. rstep E lock El. rstep E ibex Ei. rstep E inputs Ein.
  rstep E url Eu. rstep E ref Er. rstep E commit Ec. rstep E iu Eiu. rstep E ic Eic. apply ret_ok in E as [-> ->].
  split; [done|]. do 2 eexists. split; [reflexivity|]. split; [reflexivity|]. constructor; [|done| |done].
  - exists inputs. split; [|done]. unfold input_digests in Ein.
    apply map_m_reads in Ein as [_ Ein]; [|intros; solve_reads]. eapply Forall2_impl; [exact Ein|].
    intros [k p] e Ek. rstep Ek d Ed. apply ret_ok in Ek as [-> _]. unfold sha256_file in Ed.
    apply bind_ok in Ed as (c & w1 & Ec' & Ed). apply ret_ok in Ed as [-> <-]. exists c. split; [done|].
    by rewrite sha256_stream_bytes.
  - exists lock, url, ref, commit. split_and!; [done|by eapply getitem_any|by eapply get_any|by eapply getitem_any|done].
Qed.

(** *** The steps of a build *)

Definition patch_command : command :=
  Command ["git"; "apply"; "--unsafe-paths"; "--directory"; path_str (pnames REFERENCE_ROOT ["ibex_cosim"]);
           path_str (repo_path ["sim"; "reference"; "ibex-cosim"; "socrv_getters.patch"])]
    (Some (repo_path [])) host_environ None.

(** From [w] to [w'], the adapter is made: its three sources are copied from the pinned checkout into
    a new directory, and patched by a [git apply] that exits with 0. *)
Definition adapter_made (w w' : world) : Prop := exists w1 out err,
  let cosim := pnames REFERENCE_ROOT ["ibex_cosim"] in
  (remove_if_present cosim ;; mkdir true false cosim ;;
   for_ ["cosim.h"; "spike_cosim.h"; "spike_cosim.cc"] (fun n =>
     copy2 (pnames (repo_path ["sim"; "reference"; "ibex-cosim"; "upstream"]) ["dv"; "cosim"; n]) (pnames cosim [n])))%py w
    = (Ok tt, w1) /\
  run_command patch_command w1 = (Ok (Done 0 out err), w').

Lemma prepare_ibex_cosim_ok u w w' : prepare_ibex_cosim REFERENCE_ROOT w = (Ok u, w') -> adapter_made w w'.
Proof.
  unfold prepare_ibex_cosim. intros E. apply bind_ok in E as ([] & w1 & E1 & E). apply bind_ok in E as ([] & w2 & E2 & E).
  apply bind_ok in E as ([] & w3 & E3 & E). apply bind_ok in E as ([[rc out] err] & w4 & Er & E).
  apply fail_if_ok in E as [Hrc ->]. bool_props. subst rc. unfold subprocess_run in Er.
  apply bind_ok in Er as (r & w5 & Ex & Er). destruct r as [rc0 out0 err0| |]; [|done|done].
  apply ret_ok in Er as [[= <- <- <-] ->]. exists w3, out, err. split; [|done].
  rewrite (bind_ok_eq _ _ _ _ _ E1), (bind_ok_eq _ _ _ _ _ E2). exact E3.
Qed.

(** What a command printed, where it printed something. *)
Definition echoed (result : CommandResult) (w : world) : world :=
  let w1 := if String.eqb (stdout result) "" then w else log (EvOut (stdout result)) w in
  if String.eqb (stderr result) "" then w1 else log (EvErr (stderr result)) w1.

(** From [w] to [w'], Spike is built from its pinned sources, with its patch, into the installation,
    by a shell program that exits with 0. *)
Definition built_from_source (jobs : Z) (w w' : world) : Prop :=
  exists source install memory_map_patch w1 w2 w3 result w4,
    to_wsl_path (repo_path ["sim"; "reference"; "spike"; "upstream"]) w = (Ok source, w1) /\
    to_wsl_path (pnames REFERENCE_ROOT ["install"]) w1 = (Ok install, w2) /\
    to_wsl_path (repo_path ["sim"; "reference"; "spike"; "socrv_debug_window.patch"]) w2 =
      (Ok memory_map_patch, w3) /\
    bash (build_script source install memory_map_patch jobs) (Some 900) false w3 = (Ok result, w4) /\
    returncode result = 0 /\ w' = echoed result w4.

Lemma build_spike_ok jobs u w w' : build_spike REFERENCE_ROOT jobs w = (Ok u, w') -> built_from_source jobs w w'.
Proof.
  unfold build_spike. intros E. apply bind_ok in E as (source & w1 & E1 & E).
  apply bind_ok in E as (install & w2 & E2 & E). apply bind_ok in E as (patch & w3 & E3 & E).
  apply bind_ok in E as (result & w4 & Eb & E). apply bind_ok in E as ([] & w5 & E5 & E).
  apply bind_ok in E as ([] & w6 & E6 & E). apply fail_if_ok in E as [Hok ->].
  apply negb_false_iff, Z.eqb_eq in Hok. exists source, install, patch, w1, w2, w3, result, w4.
  split_and!; try done. unfold echoed.
  assert (w5 = if String.eqb (stdout result) "" then w4 else log (EvOut (stdout result)) w4) as <-
    by (destruct (String.eqb (stdout result) ""); by injection E5 as <-).
  destruct (String.eqb (stderr result) ""); by injection E6 as <-.
Qed.

(** From [w] to [w'], everything but the manifest is made anew, or all but a reusable installation. *)
Definition refreshed (reuse : bool) (jobs : Z) (w w' : world) : Prop := exists w1 w2,
  (when_ (exists_at w REFERENCE_ROOT && negb reuse) (rmtree REFERENCE_ROOT) ;;
   mkdir_p REFERENCE_ROOT ;; mkdir_p (pnames REFERENCE_ROOT ["install"]))%py w = (Ok tt, w1) /\
  adapter_made w1 w2 /\
  if reuse then exists msg, w' = log (EvOut msg) w2 else built_from_source jobs w2 w'.

Lemma refresh_ok reuse jobs u w w' : refresh REFERENCE_ROOT reuse jobs w = (Ok u, w') -> refreshed reuse jobs w w'.
Proof.
  unfold refresh. intros E. rstep E e Ee. apply gets_ok in Ee as [-> _].
  apply bind_ok in E as ([] & w1 & E1 & E). apply bind_ok in E as ([] & w2 & E2 & E).
  apply bind_ok in E as ([] & w3 & E3 & E). apply bind_ok in E as (u1 & w4 & E4 & E).
  apply prepare_ibex_cosim_ok in E4. exists w3, w4. split_and!; [|done|].
  - rewrite (bind_ok_eq _ _ _ _ _ E1), (bind_ok_eq _ _ _ _ _ E2). exact E3.
  - destruct reuse; [|by eapply build_spike_ok]. injection E as _ <-. by eexists.
Qed.

(** C30: [build_spike] skips work only for unchanged inputs, and makes its result current.  The
    fingerprint is the digest of the digests of five files: the two lock files, the two patches and
    the script.  When the script ends, either the files of a build are all there, the fingerprint
    recorded with them is this one, no rebuild was forced, and one line was printed and nothing else
    done; or, one after the other: both checkouts were there; everything but a reusable installation was
    removed; the adapter was made from the Ibex sources and patched; Spike was built from the
    Spike sources by a shell program that exited with 0, unless the recorded
    build, whose files are there, was of the same Spike commit with the same flags and
    patch and no rebuild was forced; and the manifest, with this fingerprint, was written last.
    If then the build has left the files it has to leave, the
    manifest is no link and may be read, and the lock files hold text, this fingerprint is the one
    recorded, and building again does nothing. *)
Theorem spike_main_rebuilds a n w w' : spike_main REFERENCE_ROOT a w = (Ok n, w') ->
  exists desired f, desired_manifest w = (Ok desired, w) /\ desired_build w desired f /\
  ((s_force a = false /\ Forall (fun p => is_file_at w p = true) built_files /\
    records_text w MANIFEST "fingerprint" f /\ exists msg, w' = log (EvOut msg) w) \/
   exists reuse w1 w2,
     exists_at w (pnames (repo_path ["sim"; "reference"; "spike"; "upstream"]) [".git"]) = true /\
     exists_at w (pnames (repo_path ["sim"; "reference"; "ibex-cosim"; "upstream"]) [".git"]) = true /\
     (reuse = true -> s_force a = false /\ exists actual, reusable desired actual w) /\
     refreshed reuse (s_jobs a) w w1 /\
     write_json_atomic MANIFEST desired w1 = (Ok tt, w2) /\ (exists msg, w' = log (EvOut msg) w2) /\
     (json_wf desired = true -> json_text desired = true ->
      w_links w1 !! lcanon w1 MANIFEST = None -> lcanon w1 MANIFEST ∉ w_denied w1 ->
      (forall p, p ∈ install_files REFERENCE_ROOT ++ cosim_files REFERENCE_ROOT ->
         is_file_at w1 p = true /\ canon w1 p <> lcanon w1 MANIFEST) ->
      Forall (fun p => is_file_at w2 p = true) built_files /\ records_text w2 MANIFEST "fingerprint" f /\
      is_current REFERENCE_ROOT desired w2 = (Ok true, w2))).
Proof.
  unfold spike_main. intros E. apply bind_ok in E as (u0 & w0 & E0 & E).
  destruct (s_jobs a <? 1); [done|]. apply ret_ok in E0 as [_ ->].
  apply bind_ok in E as (desired & w0 & Ed & E). pose proof Ed as Hd.
  apply desired_manifest_ok in Hd as (-> & d & f & Hdd & Hg & Hb). exists desired, f. split_and!; [done|done|].
  pose proof (db_fingerprint _ _ _ Hb) as Hf.
  apply bind_ok in E as (current & w1 & Ec & E).
  destruct current.
  { left. destruct (s_force a); [by apply ret_ok in Ec as [? _]|].
    pose proof (Reads_is_current _ _ _ _ Ec) as ->. apply (is_current_true _ f) in Ec as [Hfiles Hrec]; [|done].
    split_and!; [done|done|done|]. apply bind_ok in E as (u & w1 & E1 & E). apply ret_ok in E as [_ ->].
    injection E1 as _ <-. by eexists. }
  assert (w1 = w) as ->.
  { destruct (s_force a); [by apply ret_ok in Ec as [_ ->]|]. by eapply Reads_is_current. }
  right. rstep E u1 E1. rstep E u2 E2. apply bind_ok in E as (reuse & w1 & Er & E).
  assert (w1 = w /\ (reuse = true -> s_force a = false /\ exists actual, reusable desired actual w))
    as [-> Hreuse].
  { destruct (s_force a); [by apply ret_ok in Er as [-> ->]|]. pose proof (Reads_reusable _ _ _ _ Er) as ->.
    split; [done|]. intros ->. split; [done|]. by eapply reusable_ok. }
  assert (Hco : forall p m u w1, require_checkout p m w = (Ok u, w1) -> exists_at w (pnames p [".git"]) = true).
  { intros p m u w1 Er'. unfold require_checkout in Er'. rstep Er' e Ee. apply gets_ok in Ee as [-> _].
    apply fail_if_ok in Er' as [Hn _]. by apply negb_false_iff in Hn. }
  apply Hco in E1, E2.
  apply bind_ok in E as (u3 & w1 & Ef & E). apply refresh_ok in Ef.
  apply bind_ok in E as ([] & w2 & Ew & E). apply bind_ok in E as (u4 & w3 & E4 & E). apply ret_ok in E as [_ ->].
  injection E4 as _ <-. exists reuse, w1, w2. split_and!; [exact E1|exact E2|done|done|done|by eexists|].
  intros Hwf Htx Hl Hden Hfiles. subst desired.
  pose proof (is_current_written _ _ _ _ _ Ew Hwf Htx Hg Hl Hden Hfiles) as Hcur.
  destruct (is_current_true _ f _ _ Hf Hcur) as [Hfs Hrec]. by split_and!.
Qed.
End facts.

(** *** An instance *)

Definition demo_reference : path := Path true ["repo"; "build"; "reference"; "spike"].
Definition demo_spike : Host := demo_exec_host ["repo"] (fun c w =>
  if contains "make -s install" (join " " (c_argv c))
  then (Done 0 "" "", put_file (p_parts (INSTALL_ROOT demo_reference) ++ ["lib"; "libriscv.a"]) "a" w)
  else (Done 0 "" "", w)).
Definition demo_lock (n : string) : string :=
  dumps (JObj [("name", JStr n); ("url", JStr ("https://host/" +:+ n)); ("commit", JStr "0123")]).
Definition demo_spike_world : world := demo_world
  ([(repo_key "sim/reference/spike/dependency.lock.json", demo_lock "spike");
    (repo_key "sim/reference/ibex-cosim/dependency.lock.json", demo_lock "ibex");
    (repo_key "sim/reference/ibex-cosim/socrv_getters.patch", "--- a");
    (repo_key "sim/reference/spike/socrv_debug_window.patch", "--- b");
    (repo_key "scripts/build_spike.py", "#")] ++
   ((fun n => (repo_key ("sim/reference/ibex-cosim/upstream/dv/cosim/" +:+ n), n)) <$> cosim_names))
  [["repo"]; repo_key "sim/reference/spike/upstream/.git"; repo_key "sim/reference/ibex-cosim/upstream/.git"].
Definition demo_spike_args : spike_args := {| s_jobs := 4; s_force := false |}.

Lemma spike_main_rebuilds_witness : exists desired f, desired_build (H := demo_spike) demo_spike_world desired f.
Proof.
  destruct (spike_main_rebuilds (H := demo_spike) demo_reference demo_spike_args 0 demo_spike_world
    (spike_main (H := demo_spike) demo_reference demo_spike_args demo_spike_world).2)
    as (desired & f & _ & Hd & _).
  - by_eval.
  - exists desired, f. exact Hd.
Defined.
