(* ===== verification/Checks.v ===== *)
(** [scripts/check_images.py] and [scripts/validate_schemas.py]: generated images agree with the
    memory map, the contract and their files, and documents agree with their schemas. *)
From Stdlib Require Import ZArith Lia.
From S2P Require Import Prelude Str Json Sha256 Py Store Lib Helpers.
Local Open Scope Z_scope.

(** ** [check_images.py] *)

Section check_images.
Context `{Host}.

(** [v.get(key)] for a key that is itself a value of a document: an object has text keys. *)
Definition get_key (v key : json) : M json :=
  match v, key with
  | JObj d, JStr k => mret (default JNull (dict_get k d))
  | JObj _, _ => hashable key ;; mret JNull
  | _, _ => raise AttributeError "object has no attribute 'get'"
  end.

(** A relative file name is one below the repository. *)
Definition image_path (s : string) : path :=
  let p := parse_path s in if p_abs p then p else repo_path [path_str p].

(** The file that [entry] names has the digest it states. *)
Definition check_digest (label key : string) (entry : json) : M unit :=
  image ← (x ← getitem entry key; s ← as_str x; mret (image_path s));
  e ← exists_ image;
  matches ← (if e : bool then
               digest ← sha256_file image;
               recorded ← getitem entry "sha256";
               mret (json_eqb (JStr digest) recorded)
             else mret false);
  fail_if (negb matches) ValueError (label +:+ " hash mismatch: " +:+ path_str image).

(** The base and the size of a region are those of the memory map. *)
Definition same_region (region expected : json) : M bool :=
  base ← (x ← getitem region "base"; int0 x);
  expected_base ← (x ← getitem expected "base"; int0 x);
  if negb (base =? expected_base) then mret false else
  size ← getitem region "size";
  expected_size ← (x ← getitem expected "size"; int0 x);
  mret (json_eqb size (JInt expected_size)).

Definition check_region (expected_regions region : json) : M unit :=
  n ← getitem region "name";
  expected ← get_key expected_regions n;
  (match expected with
   | JNull => raise ValueError ("image contains unknown region: " +:+ str_json n)
   | _ => mret tt
   end) ;;
  same ← same_region region expected;
  fail_if (negb same) ValueError
    ("image region " +:+ str_json n +:+ " does not match the current map").

(** The address of the test status is that of the register of the contract. *)
Definition check_status (contract expected_regions document : json) (p : path) : M unit :=
  status_offset ← (x ← getpath contract ["peripherals"; "SYSCTRL"; "registers"; "STATUS"; "offset"]; int0 x);
  base ← (x ← getpath expected_regions ["SYSCTRL"; "base"]; int0 x);
  recorded ← (x ← getpath document ["test_status"; "base"]; int0 x);
  fail_if (negb (recorded =? base + status_offset)) ValueError
    ("image test-status address is stale: " +:+ path_str p +:+ "; rebuild the profile").

Definition check_manifest (p : path) : M unit :=
  document ← load_json p;
  schema ← load_json (repo_path ["data"; "schemas"; "image.schema.json"]);
  validate schema document ;;
  let memory_map_path := repo_path ["data"; "soc"; "memory_map.json"] in
  memory_map ← load_json memory_map_path;
  contract ← load_json (repo_path ["data"; "soc"; "software_contract.json"]);
  expected_map_hash ← sha256_file memory_map_path;
  recorded_hash ← getitem document "memory_map_sha256";
  fail_if (negb (json_eqb recorded_hash (JStr expected_map_hash))) ValueError
    ("image uses a stale memory map: " +:+ path_str p +:+ "; rebuild the profile") ;;
  expected_regions ← getitem memory_map "regions";
  regions ← (x ← getitem document "regions"; items_of x);
  for_ regions (check_region expected_regions) ;;
  check_status contract expected_regions document p ;;
  elf ← getitem document "elf";
  check_digest "ELF" "path" elf ;;
  for_ regions (check_digest "region" "file") ;;
  banks ← (x ← get_default document "banks" (JArr []); items_of x);
  for_ banks (check_digest "bank" "file") ;;
  print ("Image OK: " +:+ path_str p).

Definition images_main (given : list path) : M Z :=
  manifests ← (match given with
               | [] => l ← glob_star (repo_path ["build"; "images"]) ["image.json"];
                       mret (sort_by path_leb l)
               | l => mret l
               end);
  (if bool_decide (manifests = []) then parser_error "no generated image manifests found" else mret tt) ;;
  or_usage_error (fun e => is_os_error e || is_value_error e)
    (for_ manifests (fun p => q ← resolve p; check_manifest q)) ;;
  mret 0.
End check_images.

(** ** [validate_schemas.py] *)

Section validate_schemas.
Context `{Host}.
(** [Draft202012Validator.check_schema(schema)], of the module [jsonschema]: the message
    of its [SchemaError], which no handler of the script knows either. *)
Variable check_schema : json -> option string.

Definition schema_read_json (p : path) : M json :=
  try_except (load_json p) is_permission_error
    (fun _ => raise RuntimeError
       ("permission denied while reading " +:+ path_str p +:+ "; fix the Windows ACL " +:+
        "or exclude the inaccessible run from this validation")).

(** [sorted(root.glob("*/..."))] with the name of the schema *)
Definition glob_instances (schema : string) (root rest : list string) : M (list (string * path)) :=
  l ← glob_star (repo_path root) rest;
  mret ((fun p => (schema, p)) <$> sort_by path_leb l).
(** [sorted(root.glob("*.json"))] with the name of the schema *)
Definition named_instances (schema : string) (root : list string) : M (list (string * path)) :=
  l ← glob_name (repo_path root) "" ".json";
  mret ((fun p => (schema, p)) <$> sort_by path_leb l).

Definition instances : M (list (string * path)) :=
  boards ← glob_instances "board.schema.json" ["fpga"; "boards"] ["board.json"];
  profiles ← named_instances "profile.schema.json" ["data"; "profiles"];
  tests ← named_instances "testlist.schema.json" ["data"; "tests"];
  builds ← glob_instances "software_build.schema.json" ["build"; "software"] ["build_manifest.json"];
  sources ← glob_instances "competition_source.schema.json" ["competition_runs"]
              ["source"; "competition.json"];
  run_builds ← glob_instances "software_build.schema.json" ["competition_runs"]
                 ["software"; "build_manifest.json"];
  mret (boards ++
    [("memory_map.schema.json", repo_path ["data"; "soc"; "memory_map.json"]);
     ("software_contract.schema.json", repo_path ["data"; "soc"; "software_contract.json"]);
     ("isa_dataset.schema.json", repo_path ["data"; "isa"; "manifest.json"]);
     ("riscv_tests_selection.schema.json", repo_path ["software"; "riscv-tests"; "tests.json"])] ++
    profiles ++ tests ++ builds ++ sources ++ run_builds).

Definition check_one_schema (p : path) : M unit :=
  schema ← schema_read_json p;
  match check_schema schema with
  | Some msg => raise ValidationError msg
  | None => t ← relative_text p (repo_path []); print ("Schema OK: " +:+ t)
  end.

Definition check_instance (loaded : list (string * json)) (schema_name : string) (p : path) : M unit :=
  instance ← schema_read_json p;
  schema ← lift_opt KeyError (repr_str schema_name) (dict_get schema_name loaded);
  validate schema instance ;;
  t ← relative_text p (repo_path []);
  print ("Data OK:   " +:+ t).

Definition schemas_main : M Z :=
  let schema_dir := repo_path ["data"; "schemas"] in
  l ← glob_name schema_dir "" ".schema.json";
  let schemas := sort_by path_leb l in
  if bool_decide (schemas = []) then
    print ("No schemas found under " +:+ path_str schema_dir) ;; mret 1
  else
  for_ schemas check_one_schema ;;
  todo ← instances;
  loaded ← fold_m (fun d p => v ← load_json p; mret (dict_set (name p) v d)) [] schemas;
  for_ todo (fun kp => check_instance loaded kp.1 kp.2) ;;
  mret 0.

Definition schemas_script : M Z :=
  try_except schemas_main is_runtime_error
    (fun e => eprint ("Schema validation failed: " +:+ exn_msg e) ;; throw (SysExit 1 "")).
End validate_schemas.

(** ** What an accepted image is *)

Definition has_field (v : json) (k : string) (x : json) : Prop :=
  exists d, v = JObj d /\ dict_get k d = Some x.

Lemma getitem_field v k w x w' : getitem v k w = (Ok x, w') -> has_field v k x.
Proof.
  destruct v; try done. cbn. intros E. apply lift_opt_ok in E as [E _]. by eexists.
Qed.

(** The number that [v] holds as a text. *)
Definition int_text (v : json) (n : Z) : Prop := exists s, v = JStr s /\ py_int0 s = Some n.
Lemma int0_text v w n w' : int0 v w = (Ok n, w') -> int_text v n.
Proof. destruct v; try done. cbn. intros E. apply lift_opt_ok in E as [E _]. by eexists. Qed.

Section accepted.
Context `{Host}.

Lemma Reads_check_digest l k e : Reads (check_digest l k e).
Proof. unfold check_digest. solve_reads. Qed.
Lemma Reads_get_key v k : Reads (get_key v k).
Proof. unfold get_key. solve_reads. Qed.
#[local] Hint Resolve Reads_check_digest Reads_get_key : reads.
Lemma Reads_same_region r e : Reads (same_region r e).
Proof. unfold same_region. solve_reads. Qed.
#[local] Hint Resolve Reads_same_region : reads.
Lemma Reads_check_region e r : Reads (check_region e r).
Proof. unfold check_region. solve_reads. Qed.
Lemma Reads_check_status c e d p : Reads (check_status c e d p).
Proof. unfold check_status. solve_reads. Qed.
#[local] Hint Resolve Reads_check_region Reads_check_status : reads.

(** The file that [entry] names under [key] is there with the digest it states. *)
Definition digest_holds (w : world) (key : string) (entry : json) : Prop :=
  exists s content, has_field entry key (JStr s) /\ read_bytes (image_path s) w = (Ok content, w) /\
    has_field entry "sha256" (JStr (sha256_bytes content)).

(** The region has a name of the memory map, and its base and size. *)
Definition region_current (expected_regions region : json) : Prop :=
  exists n expected base_text expected_base size expected_size base m,
    has_field region "name" (JStr n) /\ has_field expected_regions n expected /\
    has_field region "base" base_text /\ int_text base_text base /\
    has_field expected "base" expected_base /\ int_text expected_base base /\
    has_field region "size" size /\ json_eqb size (JInt m) = true /\
    has_field expected "size" expected_size /\ int_text expected_size m.

Lemma check_digest_ok label key entry u w w' : check_digest label key entry w = (Ok u, w') ->
  digest_holds w key entry.
Proof.
  unfold check_digest. intros E. rstep E image Ei. rstep Ei x Ex. rstep Ei s Es.
  apply ret_ok in Ei as [-> _]. destruct x; try done. apply ret_ok in Es as [-> _].
  rstep E e Ee. apply gets_ok in Ee as [-> _]. rstep E m Em. apply fail_if_ok in E as [Hm _].
  apply negb_false_iff in Hm as ->. destruct (exists_at w (image_path s0)); [|by apply ret_ok in Em as [? _]].
  rstep Em digest Ed. rstep Em recorded Er. apply ret_ok in Em as [Em _]. symmetry in Em.
  apply json_eqb_str_l in Em as ->. unfold sha256_file in Ed. rstep Ed content Ec.
  apply ret_ok in Ed as [-> _]. rewrite sha256_stream_bytes in Er. exists s0, content.
  split_and!; [by eapply getitem_field|done|by eapply getitem_field].
Qed.

Lemma same_region_ok region expected w w' : same_region region expected w = (Ok true, w') ->
  exists base_text expected_base size expected_size base m,
    has_field region "base" base_text /\ int_text base_text base /\
    has_field expected "base" expected_base /\ int_text expected_base base /\
    has_field region "size" size /\ json_eqb size (JInt m) = true /\
    has_field expected "size" expected_size /\ int_text expected_size m.
Proof.
  unfold same_region. intros E. rstep E base Eb. rstep Eb bt Ebt. rstep E base' Eb'. rstep Eb' bt' Ebt'.
  destruct (Z.eqb_spec base base') as [->|]; [|by apply ret_ok in E as [? _]]. cbn [negb] in E.
  rstep E size Es. rstep E m Em. rstep Em mt Emt. apply ret_ok in E as [E _].
  exists bt, bt', size, mt, base', m.
  split_and!; first [by eapply getitem_field|by eapply int0_text|done].
Qed.

Lemma check_region_ok expected_regions region u w w' : check_region expected_regions region w = (Ok u, w') ->
  region_current expected_regions region.
Proof.
  unfold check_region. intros E. rstep E n En. rstep E expected Ee. rstep E u1 Eu.
  assert (Hne : expected <> JNull) by by (intros ->).
  assert (exists k, n = JStr k /\ has_field expected_regions k expected) as (k & -> & Hk).
  { unfold get_key in Ee. destruct expected_regions as [| | | | | |d]; try done.
    destruct n; try (apply ret_ok in Ee as [-> _]; done).
    - eexists. split; [done|]. apply ret_ok in Ee as [Ee _]. exists d. split; [done|].
      destruct (dict_get _ d); [by subst|by rewrite Ee in Hne].
    - by cbn in Ee.
    - by cbn in Ee. }
  rstep E same Es. apply fail_if_ok in E as [Hs _]. apply negb_false_iff in Hs as ->.
  apply same_region_ok in Es as (bt & bt' & size & mt & base & m & Hall).
  exists k, expected, bt, bt', size, mt, base, m. split; [by eapply getitem_field|]. by split.
Qed.

(** The value under nested keys. *)
Definition path_field (v : json) (ks : list string) (x : json) : Prop := forall w, getpath v ks w = (Ok x, w).

(** The address of the test status is that of the register. *)
Definition status_current (contract expected_regions document : json) : Prop :=
  exists offset_text base_text recorded offset base,
    path_field contract ["peripherals"; "SYSCTRL"; "registers"; "STATUS"; "offset"] offset_text /\
    int_text offset_text offset /\
    path_field expected_regions ["SYSCTRL"; "base"] base_text /\ int_text base_text base /\
    path_field document ["test_status"; "base"] recorded /\ int_text recorded (base + offset).

Lemma check_status_ok contract expected_regions document p u w w' :
  check_status contract expected_regions document p w = (Ok u, w') ->
  status_current contract expected_regions document.
Proof.
  unfold check_status. intros E. rstep E offset Eo. rstep Eo ot Eot. rstep E base Eb. rstep Eb bt Ebt.
  rstep E rec Er. rstep Er rt Ert. apply fail_if_ok in E as [E _]. bool_props. subst rec.
  exists ot, bt, rt, offset, base. split_and!; first [by intros ?; eapply getpath_any|by eapply int0_text].
Qed.

(** C29: an image that [check_images] accepts is consistent.  When [check_manifest] returns, it has
    changed no file; the document is valid under the schema and states the digest of the
    memory map as it is now; every region of it is one of the memory map, with the same
    base and size; the address of the test status is the register's; and the ELF file,
    the file of every region and the file of every bank are there with the digests that
    the document states. *)
Theorem check_manifest_sound p u w w' : check_manifest p w = (Ok u, w') ->
  w_fs w' = w_fs w /\
  exists document schema memory_map contract map_content expected_regions regions_value regions elf,
    load_json p w = (Ok document, w) /\
    load_json (repo_path ["data"; "schemas"; "image.schema.json"]) w = (Ok schema, w) /\
    host_validate schema document = None /\
    load_json (repo_path ["data"; "soc"; "memory_map.json"]) w = (Ok memory_map, w) /\
    load_json (repo_path ["data"; "soc"; "software_contract.json"]) w = (Ok contract, w) /\
    read_bytes (repo_path ["data"; "soc"; "memory_map.json"]) w = (Ok map_content, w) /\
    has_field document "memory_map_sha256" (JStr (sha256_bytes map_content)) /\
    has_field memory_map "regions" expected_regions /\
    has_field document "regions" regions_value /\ items_of regions_value w = (Ok regions, w) /\
    Forall (region_current expected_regions) regions /\
    status_current contract expected_regions document /\
    has_field document "elf" elf /\ digest_holds w "path" elf /\
    Forall (digest_holds w "file") regions /\
    forall banks_value banks, has_field document "banks" banks_value ->
      items_of banks_value w = (Ok banks, w) -> Forall (digest_holds w "file") banks.
Proof.
  unfold check_manifest. intros E. rstep E document Ed. rstep E schema Es. rstep E u1 Ev.
  rstep E memory_map Em. rstep E contract Ec. rstep E digest Eh. rstep E recorded Er.
  rstep E u2 Eu. apply fail_if_ok in Eu as [Hh _]. apply negb_false_iff, json_eqb_str in Hh as ->.
  unfold sha256_file in Eh. rstep Eh content Ehc. apply ret_ok in Eh as [-> _].
  rewrite sha256_stream_bytes in Er.
  rstep E expected_regions Ee. rstep E regions El. rstep El rv Erv. rstep E u3 E3. rstep E u4 E4.
  rstep E elf Eelf. rstep E u5 E5. rstep E u6 E6. rstep E banks Eb.
  rstep E u7 E7. injection E as _ <-. split; [done|].
  apply for_inspect in E3 as [_ H3]; [|intros; by eapply Reads_check_region].
  apply for_inspect in E6 as [_ H6]; [|intros; by eapply Reads_check_digest].
  apply for_inspect in E7 as [_ H7]; [|intros; by eapply Reads_check_digest].
  exists document, schema, memory_map, contract, content, expected_regions, rv, regions, elf.
  split_and!; try done; try (by eapply getitem_field).
  - unfold validate in Ev. by destruct (host_validate schema document).
  - eapply Forall_impl; [exact H3|]. intros r Hr. apply (check_region_ok _ _ _ _ _ Hr).
  - by eapply check_status_ok.
  - by eapply check_digest_ok.
  - eapply Forall_impl; [exact H6|]. intros r Hr. apply (check_digest_ok _ _ _ _ _ _ Hr).
  - intros bv bs (d & -> & Hbv) Hbs. rstep Eb v Ebv. cbn in Ebv. rewrite Hbv in Ebv.
    apply ret_ok in Ebv as [-> _]. rewrite Hbs in Eb. injection Eb as <-.
    eapply Forall_impl; [exact H7|]. intros r Hr. apply (check_digest_ok _ _ _ _ _ _ Hr).
Qed.
End accepted.

(** *** An instance *)

Definition demo_map_text : string :=
  dumps (JObj [("regions", JObj
    [("ICCM", JObj [("base", JStr "0x80000000"); ("size", JStr "0x40000")]);
     ("SYSCTRL", JObj [("base", JStr "0x10000000"); ("size", JStr "0x1000")])])]).
Definition demo_contract_text : string :=
  dumps (JObj [("peripherals", JObj [("SYSCTRL", JObj [("registers", JObj
    [("STATUS", JObj [("offset", JStr "0x8")])])])])]).
Definition demo_image_document : json := JObj
  [("memory_map_sha256", JStr (sha256_text demo_map_text));
   ("regions", JArr [JObj
     [("name", JStr "ICCM"); ("base", JStr "2147483648"); ("size", JInt 262144);
      ("file", JStr "build/images/t/iccm.mem"); ("sha256", JStr (sha256_text "@0"))]]);
   ("test_status", JObj [("base", JStr "0x10000008")]);
   ("elf", JObj [("path", JStr "/elf"); ("sha256", JStr (sha256_text "elf"))])].
Definition demo_image : path := Path true ["repo"; "build"; "images"; "t"; "image.json"].
Definition demo_images : world := demo_world
  [(["elf"], "elf"); (["repo"; "build"; "images"; "t"; "iccm.mem"], "@0");
   (["repo"; "data"; "schemas"; "image.schema.json"], "{}");
   (["repo"; "data"; "soc"; "memory_map.json"], demo_map_text);
   (["repo"; "data"; "soc"; "software_contract.json"], demo_contract_text);
   (p_parts demo_image, dumps demo_image_document)] [["repo"]].

Lemma check_manifest_sound_witness : w_fs (check_manifest (H := demo) demo_image demo_images).2 = w_fs demo_images.
Proof.
  refine (proj1 (check_manifest_sound (H := demo) demo_image tt demo_images
    (check_manifest (H := demo) demo_image demo_images).2 _)). by_eval.
Defined.
