(* ===== verification/PatchChain.v ===== *)
(** The chain of [updatemem] runs of [patch_bitstream]: from the bitstream that was built, each
    run patches the output of the one before, and the last output is delivered. *)
From Stdlib Require Import ZArith Lia.
From S2P Require Import Prelude Str Json Xml Sha256 Py Store Lib Bytes Helpers Mmi PatchBit Checks.
Local Open Scope Z_scope.
Local Open Scope py_scope.

(** ** Names in the temporary directory *)

Lemma two_digits_inj n m : 0 <= n -> 0 <= m -> two_digits n = two_digits m -> n = m.
Proof.
  intros Hn Hm E. unfold two_digits in E. rewrite !str_of_Z_nonneg in E by done.
  apply (f_equal (val_from 10 0)) in E. rewrite !val_from_zfill, !val_from_digits in E by lia.
  by injection E.
Qed.

Definition stage_bit (n : Z) : string := "stage-" +:+ two_digits n +:+ ".bit".
Definition stage_log (n : Z) : string := "stage-" +:+ two_digits n +:+ ".log".

Lemma stage_bit_inj n m : 0 <= n -> 0 <= m -> stage_bit n = stage_bit m -> n = m.
Proof. intros Hn Hm E%sapp_inj_l%sapp_inj_r. by apply two_digits_inj. Qed.
Lemma stage_bit_log n m : stage_bit n <> stage_log m.
Proof. intros E%sapp_inj_l%sapp_suffix; [done|done]. Qed.

Lemma sdrop_suffix a b : sdrop (String.length (a +:+ b) - String.length b) (a +:+ b) = b.
Proof.
  rewrite slength_app, Nat.add_sub. induction a as [|c a IH]; [done|]. by rewrite sapp_cons.
Qed.

Lemma endswith_length a b p : String.length b = String.length p -> endswith (a +:+ b) p = String.eqb b p.
Proof.
  intros Hl. unfold endswith. rewrite <- Hl, sdrop_suffix. rewrite leb_correct; [done|]. rewrite slength_app. lia.
Qed.

Lemma stage_bit_ends n p : String.length p = 4%nat -> endswith (stage_bit n) p = String.eqb ".bit" p.
Proof. intros Hp. unfold stage_bit. rewrite <- sapp_assoc. by apply endswith_length. Qed.
Lemma stage_log_ends n p : String.length p = 4%nat -> endswith (stage_log n) p = String.eqb ".log" p.
Proof. intros Hp. unfold stage_log. rewrite <- sapp_assoc. by apply endswith_length. Qed.

(** ** One run *)

Section chain.
Context `{Host}.

(** The files of the design, by their names: bitstreams, memory images and memory maps. *)
Definition design_file (k : list string) : bool :=
  existsb (endswith (List.last k "")) [".bit"; ".mem"; ".mmi"].

Lemma design_file_snoc dir x : design_file (dir ++ [x]) = existsb (endswith x) [".bit"; ".mem"; ".mmi"].
Proof. unfold design_file. by rewrite last_last. Qed.

(** The files with the property [P] that are there stay as they are, and the links too. *)
Record spares (P : list string -> Prop) (w w' : world) : Prop := {
  spares_links : w_links w' = w_links w;
  spares_file : forall k c t, P k -> node_at w k = Some (File c t) -> node_at w' k = Some (File c t)
}.

Lemma spares_trans P w1 w2 w3 : spares P w1 w2 -> spares P w2 w3 -> spares P w1 w3.
Proof. intros [L1 F1] [L2 F2]. constructor; [congruence|auto]. Qed.

Lemma keeps_spares K (P : list string -> Prop) w w' : keeps K w w' -> (forall k, P k -> k ∉ K) -> spares P w w'.
Proof. intros HK HP. constructor; [apply HK|]. intros k c t Hk Hn. eapply keeps_node; [exact HK|by apply HP|done]. Qed.

Lemma spares_canon P w w' p : spares P w w' -> canon w' p = canon w p.
Proof. intros HS. apply canon_links, HS. Qed.

(** The design files other than the one at [out]. *)
Definition other_design_file (out k : list string) : Prop := design_file k = true /\ k <> out.

(** Of the bitstreams, images and maps that are there, [updatemem] changes none but the bitstream
    it is told to write.  What it does to other files (its [.log] and [.jou] files, in particular)
    is left open. *)
Definition updatemem_writes_output : Prop := forall exe mmi data src proc out w r w',
  host_exec (MkCommand [path_str exe; "--force"; "--meminfo"; path_str mmi; "--data"; path_str data;
      "--bit"; path_str src; "--proc"; proc; "--out"; path_str out] (Some (parent out)) host_environ None
      (String.eqb host_platform "win32")) w
    = (r, w') -> spares (other_design_file (canon w out)) w w'.
Hypothesis Hexec : updatemem_writes_output.

(** The file at [k] has the digest [d]. *)
Definition has_digest (w : world) (k : list string) (d : string) : Prop :=
  exists c t, node_at w k = Some (File c t) /\ d = sha256_bytes (to_bytes c).

Lemma has_digest_keep K w w' k d : keeps K w w' -> k ∉ K -> has_digest w k d -> has_digest w' k d.
Proof. intros HK Hk (c & t & Hn & ->). exists c, t. split; [by eapply keeps_node|done]. Qed.

Lemma has_digest_spare P w w' k d : spares P w w' -> P k -> has_digest w k d -> has_digest w' k d.
Proof. intros HS Hk (c & t & Hn & ->). exists c, t. split; [by eapply spares_file|done]. Qed.

Lemma has_digest_unique w k d d' : has_digest w k d -> has_digest w k d' -> d = d'.
Proof. intros (c & t & Hn & ->) (c' & t' & Hn' & ->). by simplify_eq. Qed.

Lemma sha256_has_digest p d w w' : sha256_file p w = (Ok d, w') -> w' = w /\ has_digest w (canon w p) d.
Proof. intros (-> & c & t & Hn & _ & ->)%file_digest. split; [done|by exists c, t]. Qed.

(** [step] is the record of a run that patched [data] for [proc] into a bitstream with the
    digest [before] and left one with the digest [after], of the expected size. *)
Definition patched (proc data before : string) (size : Z) (step : json) (after : string) : Prop :=
  has_field step "proc" (JStr proc) /\ has_field step "data_sha256" (JStr data) /\
  has_field step "input_bit_sha256" (JStr before) /\ has_field step "output_sha256" (JStr after) /\
  has_field step "returncode" (JInt 0) /\ has_field step "output_size" (JInt size) /\
  has_field step "status" (JStr "pass").

Lemma run_update_step exe mmi data src proc out log size step w w' :
  run_update exe mmi data src proc out log size w = (Ok step, w') -> design_file (canon w log) = false ->
  spares (other_design_file (canon w out)) w w' /\ exists d before after,
    has_digest w' (canon w data) d /\ has_digest w' (canon w src) before /\
    has_digest w' (canon w out) after /\ patched proc d before size step after.
Proof.
  intros E Hlog. unfold run_update in E. apply bind_ok in E as ([[rc so] se] & w1 & E1 & E).
  unfold subprocess_run in E1. apply bind_ok in E1 as (res & w2 & E0 & E1).
  destruct res as [rc' so' se'| |]; [|done|done]. apply ret_ok in E1 as [[= -> -> ->] ->].
  unfold run_command in E0. destruct (host_exec _ w) as [res w1] eqn:Ex. injection E0 as -> <-.
  apply Hexec in Ex. set (w2 := World _ _ _ _ _) in E.
  assert (K2 : spares (other_design_file (canon w out)) w w2) by (destruct Ex; by constructor).
  apply bind_ok in E as (u & w3 & E3 & E). unfold write_text_native in E3. apply write_raw_keeps in E3.
  rewrite (spares_canon _ _ _ _ K2) in E3.
  assert (K3 : spares (other_design_file (canon w out)) w w3).
  { eapply spares_trans; [exact K2|]. eapply keeps_spares; [exact E3|]. intros k [Hk _] ->%list_elem_of_singleton. congruence. }
  assert (Hc : forall p, canon w3 p = canon w p) by (intros p; by eapply spares_canon).
  apply bind_ok in E as (ex & w4 & E4 & E). apply gets_ok in E4 as [-> ->].
  apply bind_ok in E as (sz & w5 & E5 & E). assert (w5 = w3) as ->.
  { destruct (is_file_at w3 out); [|by apply ret_ok in E5 as [_ ->]].
    apply bind_ok in E5 as (n & w6 & E6 & E5). apply ret_ok in E5 as [_ ->]. by eapply stat_size_state. }
  apply bind_ok in E as (d1 & w6 & E6 & E). apply sha256_has_digest in E6 as [-> Hd1].
  apply bind_ok in E as (d2 & w7 & E7 & E). apply sha256_has_digest in E7 as [-> Hd2].
  apply bind_ok in E as (ext & w8 & E8 & E). cbv zeta in E.
  match type of E with (if negb ?p then _ else _) _ = _ => destruct p eqn:Hp end; [|done].
  apply ret_ok in E as [-> ->]. do 4 (apply andb_true_iff in Hp as [Hp ?]). bool_props. subst.
  match goal with Hf : is_file_at w3 out = true |- _ => rewrite Hf in * end.
  apply bind_ok in E8 as (d3 & w9 & E9 & E8). apply sha256_has_digest in E9 as [-> Hd3].
  apply ret_ok in E8 as [-> ->]. rewrite !Hc in *. split; [done|]. exists d1, d2, d3.
  split_and!; [done|done|done|]. unfold patched. split_and!; by eexists.
Qed.

(** ** The runs of a patch *)

(** [steps] patches the memories [l] (names and digests of the images) one after the other,
    from a bitstream with the digest [first] to one with the digest [last]. *)
Inductive chain (size : Z) : list (string * string) -> string -> list json -> string -> Prop :=
  | chain_nil d : chain size [] d [] d
  | chain_cons proc data l first step next steps last :
      patched proc data first size step next -> chain size l next steps last ->
      chain size ((proc, data) :: l) first (step :: steps) last.

Lemma chain_length size l first steps last : chain size l first steps last -> length steps = length l.
Proof. induction 1; simpl; congruence. Qed.

(** A design file that is not among the stages of the directory [dir] from [n] on. *)
Definition stage_input (dir k : list string) (n : Z) : Prop :=
  design_file k = true /\ forall m, n <= m -> k <> dir ++ [stage_bit m].

Lemma stage_input_mono dir k n m : n <= m -> stage_input dir k n -> stage_input dir k m.
Proof. intros Hnm [Hd Hb]. split; [done|]. intros i Hi. apply Hb. lia. Qed.

Lemma stage_keys w work n : w_links w = ∅ ->
  canon w (pnames work ["stage-" +:+ two_digits n +:+ ".bit"]) = canon w work ++ [stage_bit n] /\
  canon w (pnames work ["stage-" +:+ two_digits n +:+ ".log"]) = canon w work ++ [stage_log n].
Proof. intros Hl. split; (apply canon_pname; [done|by rewrite Hl]). Qed.

(** What the images of a patch are at [w]. *)
Definition image_digests (w : world) (files : list (string * path)) (l : list (string * string)) : Prop :=
  Forall2 (fun pf pd => pd.1 = pf.1 /\ has_digest w (canon w pf.2) pd.2) files l.

Lemma image_digests_spare P w w' files l : spares P w w' ->
  Forall (fun pf => P (canon w pf.2)) files -> image_digests w files l -> image_digests w' files l.
Proof.
  intros HS Hf Hd. induction Hd as [|pf pd files l [Hn Hd] _ IH]; [constructor|].
  apply Forall_cons in Hf as [Hk Hf]. constructor; [|by apply IH]. split; [done|].
  rewrite (spares_canon _ _ _ _ HS). by eapply has_digest_spare.
Qed.

Lemma image_digests_keep K w w' files l : keeps K w w' ->
  Forall (fun pf => canon w pf.2 ∉ K) files -> image_digests w files l -> image_digests w' files l.
Proof. intros HK. apply (image_digests_spare (fun k => k ∉ K)). by eapply keeps_spares. Qed.

Lemma patch_steps_linked exe mmi work size files : forall cur n w l d final steps w',
  patch_steps exe mmi work cur size n files w = (Ok (final, steps), w') ->
  w_links w = ∅ -> 0 <= n -> has_digest w (canon w cur) d -> stage_input (canon w work) (canon w cur) n ->
  image_digests w files l -> Forall (fun pf => stage_input (canon w work) (canon w pf.2) n) files ->
  exists last, chain size l d steps last /\ has_digest w' (canon w' final) last /\ w_links w' = ∅.
Proof.
  induction files as [|[proc mem] files IH]; intros cur n w l d final steps w' E Hl Hn Hd Hc Hi Hf.
  - apply ret_ok in E as [[= -> ->] ->]. inversion Hi; subst. exists d. split_and!; [constructor|done|done].
  - cbn [patch_steps] in E. apply bind_ok in E as (step & w1 & E1 & E).
    apply bind_ok in E as ([final' steps'] & w2 & E2 & E). apply ret_ok in E as [[= -> ->] ->].
    destruct (stage_keys w work n Hl) as [Kb Kl].
    apply run_update_step in E1 as [HK (dm & before & after & Hdm & Hb & Ha & Hp)];
      [|rewrite Kl, design_file_snoc; cbn [existsb]; by rewrite !stage_log_ends].
    rewrite Kb in HK, Ha.
    assert (Hout : forall k, stage_input (canon w work) k n -> other_design_file (canon w work ++ [stage_bit n]) k).
    { intros k [Hk1 Hk2]. split; [done|]. apply Hk2. lia. }
    apply Forall_cons in Hf as [Hfm Hf].
    inversion Hi as [|? [pn pdg] ? l' [Hpn Hpd] Hi']; subst. cbn [fst snd] in *. subst pn.
    pose proof (has_digest_spare _ _ _ _ _ HK (Hout _ Hc) Hd) as Hd1.
    pose proof (has_digest_spare _ _ _ _ _ HK (Hout _ Hfm) Hpd) as Hpd1.
    pose proof (has_digest_unique _ _ _ _ Hb Hd1) as ->. pose proof (has_digest_unique _ _ _ _ Hdm Hpd1) as ->.
    assert (Hc1 : forall p, canon w1 p = canon w p) by (intros p; by eapply spares_canon).
    eapply (IH _ (n + 1) w1 l' after) in E2 as (last & Hch & Hlast & Hll).
    + exists last. split_and!; [by econstructor|done|done].
    + by rewrite (spares_links _ _ _ HK).
    + lia.
    + by rewrite Hc1, Kb.
    + rewrite !Hc1, Kb. split; [rewrite design_file_snoc; cbn [existsb]; by rewrite stage_bit_ends|].
      intros m Hm Heq%app_inj_2%proj2; [|done].
      assert (Hs : stage_bit n = stage_bit m) by congruence. apply stage_bit_inj in Hs; lia.
    + eapply image_digests_spare; [exact HK| |done]. eapply Forall_impl; [exact Hf|].
      intros pf Hpf. by apply Hout.
    + eapply Forall_impl; [exact Hf|]. intros pf Hpf. rewrite !Hc1. eapply stage_input_mono; [|exact Hpf]. lia.
Qed.
End chain.

(** ** The operations that only look *)

Section reads.
Context `{Host}.

Lemma Reads_row_bram row : Reads (row_bram row).
Proof. unfold row_bram, row_str, row_int. solve_reads. Qed.
#[local] Hint Resolve Reads_row_bram : reads.
Lemma Reads_read_bram_map p : Reads (read_bram_map p).
Proof. unfold read_bram_map. solve_reads. Qed.

Lemma Reads_classify_brams brams : forall sc sl i d, Reads (classify_brams brams sc sl i d).
Proof.
  induction brams as [|b brams IH]; intros sc sl i d; cbn [classify_brams]; [solve_reads|].
  apply Reads_bind; [solve_reads|intros _]. apply Reads_bind; [solve_reads|intros _].
  destruct (cell b) as [c|]; [|solve_reads]. destruct (cell_slot c) as [[[[] l] k]|]; [apply IH|apply IH|solve_reads].
Qed.
Lemma Reads_check_iccm lanes : forall g, Reads (check_iccm lanes g).
Proof.
  induction lanes as [|[lane slices] lanes IH]; intros g; cbn [check_iccm]; [solve_reads|].
  repeat first [apply IH|reads_step].
Qed.
Lemma Reads_check_dccm banks : Reads (check_dccm banks).
Proof.
  induction banks as [|[bank slices] banks IH]; cbn [check_dccm]; [solve_reads|]. unfold check_dccm_slice.
  repeat first [apply IH|reads_step].
Qed.
#[local] Hint Resolve Reads_classify_brams Reads_check_iccm Reads_check_dccm : reads.
Lemma Reads_classify brams : Reads (classify brams).
Proof. unfold classify. solve_reads. Qed.

Lemma Reads_add_slices slices ranges : forall i, Reads (add_slices slices i ranges).
Proof.
  induction ranges as [|[[[a b] c] d] ranges IH]; intros i; cbn [add_slices]; [solve_reads|].
  destruct (zget i slices); [|solve_reads]. unfold add_bram. repeat first [apply IH|reads_step].
Qed.
#[local] Hint Resolve Reads_add_slices : reads.
Lemma Reads_add_arrays pre ranges t : Reads (add_arrays pre ranges t).
Proof. induction t as [|[i slices] t IH]; cbn [add_arrays]; [solve_reads|]. repeat first [apply IH|reads_step]. Qed.
#[local] Hint Resolve Reads_add_arrays : reads.
Lemma Reads_mmi_tree part i d : Reads (mmi_tree part i d).
Proof. unfold mmi_tree. solve_reads. Qed.

Lemma Reads_validate_mmi p : Reads (validate_mmi p).
Proof. unfold validate_mmi, validate_tree. solve_reads. Qed.
Lemma Reads_split_words ws n : Reads (split_words ws n).
Proof. unfold split_words. solve_reads. Qed.

(** [generate] writes its two files only. *)
Lemma generate_leaves K w0 bram_map out validation : canon w0 out ∈ K -> canon w0 validation ∈ K ->
  Leaves K w0 (generate bram_map out validation).
Proof.
  intros Ho Hv. unfold generate, write_text_native, sha256.
  assert (Hr : forall A (m : M A), Reads m -> Leaves K w0 m)
    by (intros A m Hm w r w' Hw E; apply Hm in E as ->; done).
  repeat first
    [ apply Leaves_write; assumption
    | apply Hr; solve [apply Reads_read_bram_map|apply Reads_classify|apply Reads_mmi_tree]
    | leaves_step ].
Qed.
End reads.

(** ** The image files *)

Section images.
Context `{Host}.

(** The text that [updatemem] is given for the words of a bank. *)
Definition updatemem_text (words : list string) : string :=
  let s := "@00000000" +:+ nl +:+ join nl words +:+ nl in
  if host_nt then replace nl (cr +:+ nl) s else s.

(** The memories of an array with the digests of their texts. *)
Fixpoint array_images (array : string) (index : Z) (l : list (list string)) : list (string * string) :=
  match l with
  | [] => []
  | words :: l' => (array +:+ str_of_Z index, sha256_text (updatemem_text words)) :: array_images array (index + 1) l'
  end.

Definition mem_name (file : string) (i : Z) : string := file +:+ str_of_Z i +:+ ".mem".

Lemma mem_name_inj file i j : 0 <= i -> 0 <= j -> mem_name file i = mem_name file j -> i = j.
Proof.
  intros Hi Hj E%sapp_inj_l%sapp_inj_r. apply (f_equal py_int) in E.
  rewrite !py_int_str_of_Z in E by done. by injection E.
Qed.
Lemma mem_name_stage file i m : mem_name file i <> stage_bit m /\ mem_name file i <> stage_log m.
Proof.
  unfold mem_name, stage_bit, stage_log. rewrite <- !sapp_assoc.
  split; intros E; by apply sapp_suffix in E.
Qed.

Lemma stage_input_mem dir file i n : stage_input dir (dir ++ [mem_name file i]) n.
Proof.
  split.
  - rewrite design_file_snoc. unfold mem_name. rewrite <- sapp_assoc. cbn [existsb].
    by rewrite !endswith_length.
  - intros m _ Heq%app_inj_2%proj2; [|done]. destruct (mem_name_stage file i m) as [Hb _]. apply Hb. congruence.
Qed.

Lemma write_image_files_ok work array file l : forall index w files w',
  write_image_files work array file index l w = (Ok files, w') ->
  w_links w = ∅ -> 0 <= index -> file <> "" -> (forall i, mem_name file i <> "..") ->
  keeps ((fun i => canon w work ++ [mem_name file i]) <$> seqZ index (len l)) w w' /\
  image_digests w' files (array_images array index l) /\
  Forall (fun pf => exists i, index <= i /\ canon w pf.2 = canon w work ++ [mem_name file i]) files.
Proof.
  induction l as [|words l IH]; intros index w files w' E Hl Hi Hne Hdd.
  - apply ret_ok in E as [-> ->]. split_and!; [apply keeps_refl|constructor|constructor].
  - cbn [write_image_files] in E. cbv zeta in E.
    change (pnames work [file +:+ str_of_Z index +:+ ".mem"]) with (pnames work [mem_name file index]) in E.
    set (p := pnames work [mem_name file index]) in *.
    assert (Hp : canon w p = canon w work ++ [mem_name file index])
      by (apply canon_pname; [apply Hdd|by rewrite Hl]).
    apply bind_ok in E as (u & w1 & E1 & E). unfold write_updatemem_file, write_text_native in E1.
    pose proof (write_raw_node _ _ _ _ _ E1) as Hn. apply write_raw_keeps in E1. rewrite Hp in E1, Hn.
    apply bind_ok in E as (rest & w2 & E2 & E). apply ret_ok in E as [-> ->].
    assert (Hc : forall q, canon w1 q = canon w q) by (intros q; by eapply keeps_canon).
    apply IH in E2 as (K2 & Hd & Hf); [|by rewrite (keeps_links _ _ _ E1)|lia|done|done].
    rewrite Hc in K2. setoid_rewrite Hc in Hf.
    cbn [length]. rewrite Nat2Z.inj_succ, seqZ_cons by lia. rewrite fmap_cons.
    replace (Z.pred (Z.succ (len l))) with (len l) by lia.
    replace (Z.succ index) with (index + 1) by lia. split_and!.
    + etransitivity; [apply keeps_head, E1|apply keeps_tail, K2].
    + constructor; [|done]. split; [done|]. cbn [snd].
      rewrite (keeps_canon _ _ _ p K2), Hc, Hp.
      eapply has_digest_keep; [exact K2| |by do 2 eexists].
      intros (i & Heq & Hin)%list_elem_of_fmap. apply elem_of_seqZ in Hin.
      apply app_inj_2 in Heq as [_ Heq]; [|done].
      assert (Hs : mem_name file index = mem_name file i) by congruence. apply mem_name_inj in Hs; lia.
    + constructor; [by exists index|]. eapply Forall_impl; [exact Hf|]. intros pf (i & Hle & Hpf).
      exists i. split; [lia|done].
Qed.
End images.

(** ** Property *)

Lemma array_images_length `{Host} array l : forall i, length (array_images array i l) = length l.
Proof. induction l as [|x l IH]; intros i; [done|]. cbn [array_images length]. by rewrite IH. Qed.

Lemma split_words_ok ws n l w w' : split_words ws n w = (Ok l, w') ->
  w' = w /\ l = (fun i => stride i n ws) <$> seq 0 n.
Proof.
  unfold split_words. intros E. apply bind_ok in E as (u & w1 & [_ ->]%fail_if_ok & E).
  by apply ret_ok in E as [-> ->].
Qed.

(** The memories that a patch writes: four lanes of the code image, eight banks of the data. *)
Definition patched_memories `{Host} (code_words data_words : list string) : list (string * string) :=
  array_images "ICCM_LANE" 0 ((fun i => stride i 4 code_words) <$> seq 0 4) ++
  array_images "DCCM_BANK" 0 ((fun i => stride i 8 data_words) <$> seq 0 8).

(** What the files written before the runs leave: the base bitstream, and the images. *)
Lemma patch_images_ok `{Host} work lanes banks d base_bit w iccm dccm w1 w2 :
  write_image_files work "ICCM_LANE" "iccm_lane" 0 lanes w = (Ok iccm, w1) ->
  write_image_files work "DCCM_BANK" "dccm_bank" 0 banks w1 = (Ok dccm, w2) ->
  w_links w = ∅ -> (forall n, canon w base_bit <> canon w work ++ [n]) ->
  has_digest w (canon w base_bit) d ->
  w_links w2 = ∅ /\ (forall p, canon w2 p = canon w p) /\ has_digest w2 (canon w base_bit) d /\
  image_digests w2 (iccm ++ dccm) (array_images "ICCM_LANE" 0 lanes ++ array_images "DCCM_BANK" 0 banks) /\
  Forall (fun pf => stage_input (canon w work) (canon w pf.2) 1) (iccm ++ dccm).
Proof.
  intros E1 E2 Hl Hb Hd.
  apply write_image_files_ok in E1 as (K1 & D1 & F1); [|done|lia|done|done].
  assert (Hl1 : w_links w1 = ∅) by by rewrite (keeps_links _ _ _ K1).
  assert (Hc1 : forall p, canon w1 p = canon w p) by (intros p; by eapply keeps_canon).
  apply write_image_files_ok in E2 as (K2 & D2 & F2); [|done|lia|done|done].
  assert (Hc2 : forall p, canon w2 p = canon w p)
    by (intros p; rewrite <- Hc1; by eapply keeps_canon).
  rewrite Hc1 in K2, F2. setoid_rewrite Hc1 in F2.
  assert (Hni : forall file (l : list (list string)),
    canon w base_bit ∉ (fun i => canon w work ++ [mem_name file i]) <$> seqZ 0 (len l)).
  { intros file l (i & Heq & _)%list_elem_of_fmap. by apply (Hb (mem_name file i)). }
  split_and!; [by rewrite (keeps_links _ _ _ K2)|done| | |].
  - do 2 (eapply has_digest_keep; [eassumption|apply Hni|]). done.
  - apply Forall2_app; [|done]. eapply image_digests_keep; [exact K2| |exact D1].
    eapply Forall_impl; [exact F1|]. intros pf (i & Hi & Hpf). rewrite Hc1, Hpf.
    intros (j & Heq & _)%list_elem_of_fmap. apply app_inj_2 in Heq as [_ Heq]; [|done]. discriminate Heq.
  - apply Forall_app. split; (eapply Forall_impl; [eassumption|]); intros pf (i & _ & Hpf);
      rewrite Hpf; apply stage_input_mem.
Qed.

(** The bitstream delivered is the end of a chain of checked patches of the one that was
    built.  When [patch_in] succeeds (no links, the base bitstream outside the temporary
    directory, and an [updatemem] that changes no bitstream, image or map but its output), the twelve steps
    recorded are one run for each ICCM lane and DCCM bank, in order: each read the text of
    exactly the words of its lane or bank, the first started from the base bitstream, every
    other one from the output of the one before, each left a file of the expected size with
    the recorded digest and exit code 0; and the final bitstream is the last output. *)
Lemma patch_in_chain `{Host} work bram_map base_bit final_bit exe code_words data_words size w
    part steps h v w' base :
  updatemem_writes_output ->
  patch_in work bram_map base_bit final_bit exe code_words data_words size w =
    (Ok (part, steps, h, v), w') ->
  w_links w = ∅ -> (forall n, canon w base_bit <> canon w work ++ [n]) ->
  design_file (canon w base_bit) = true -> has_digest w (canon w base_bit) base ->
  exists last, chain size (patched_memories code_words data_words) base steps last /\
    length steps = 12%nat /\ forall d, has_digest w' (canon w' final_bit) d -> d = last.
Proof.
  intros Hexec E Hl Hb Hbit Hd. unfold patch_in in E. cbv zeta in E.
  set (mmi := pnames work ["base.mmi"]) in *. set (val := pnames work ["mmi_validation.json"]) in *.
  assert (Hm : canon w mmi = canon w work ++ ["base.mmi"] /\ canon w val = canon w work ++ ["mmi_validation.json"])
    by (split; (apply canon_pname; [done|by rewrite Hl])).
  destruct Hm as [Hmm Hmv].
  apply bind_ok in E as (u & w1 & E1 & E).
  eapply (Leaves_keeps [canon w mmi; canon w val]) in E1; [|apply generate_leaves; set_solver].
  assert (Hl1 : w_links w1 = ∅) by by rewrite (keeps_links _ _ _ E1).
  assert (Hc1 : forall p, canon w1 p = canon w p) by (intros p; by eapply keeps_canon).
  apply bind_ok in E as ([part' arrays] & w2 & E2 & E). apply Reads_validate_mmi in E2 as ->.
  apply bind_ok in E as (lanes & w2 & [-> ->]%split_words_ok & E).
  apply bind_ok in E as (iccm & w2 & E2 & E).
  apply bind_ok in E as (banks & w3 & [-> ->]%split_words_ok & E).
  apply bind_ok in E as (dccm & w3 & E3 & E).
  apply bind_ok in E as ([] & w4 & [_ ->]%fail_if_ok & E).
  destruct (patch_images_ok _ _ _ base base_bit _ _ _ _ _ E2 E3 Hl1) as (Hl3 & Hc3 & Hd3 & Hi & Hf).
  { intros n. rewrite !Hc1. apply Hb. }
  { rewrite Hc1. eapply has_digest_keep; [exact E1| |done]. rewrite Hmm, Hmv.
    intros [Hk|Hk%list_elem_of_singleton]%elem_of_cons; by eapply Hb. }
  apply bind_ok in E as ([cur steps'] & w4 & E4 & E).
  eapply (patch_steps_linked Hexec) in E4 as (last & Hch & Hlast & Hl4);
    [|done|lia| | |exact Hi|]; rewrite ?Hc3; [|done| |by setoid_rewrite Hc3].
  2: { rewrite !Hc1. split; [done|intros; apply Hb]. }
  apply bind_ok in E as (u5 & w5 & E5 & E). apply bind_ok in E as (hm & w6 & E6 & E).
  apply sha256_file_state in E6 as ->. apply bind_ok in E as (vp & w6 & E6 & E).
  apply Reads_load_json in E6 as ->. apply ret_ok in E as [[= -> -> -> ->] ->].
  exists last. split_and!; [exact Hch| |].
  - rewrite (chain_length _ _ _ _ _ Hch), length_app, !array_images_length. done.
  - intros d (c & t & Hn & ->). apply copy2_ok in E5 as [(_ & Hn' & Hll)|(c' & t' & Hr & HK & Hn')].
    + rewrite (canon_links w4 w5) in Hn by done. congruence.
    + rewrite (keeps_canon _ _ _ _ HK) in Hn. apply read_raw_ok in Hr as (_ & t2 & Hn2 & _).
      destruct Hlast as (c2 & t3 & Hn3 & ->). congruence.
Qed.

(** C9: a patched bitstream has a checked history.  When [patch_steps] succeeds (no links, the
    bitstream it starts from and the images are named as such, [.bit] and [.mem], and are not among
    the stages of the directory, and an [updatemem] that, of the bitstreams, images and maps,
    changes none but its output: its logs and journals it may rewrite at will), there is one recorded step for each image,
    in order: each patched exactly the image that was written for its memory, the first started
    from the given bitstream and every other one from the output of the one before, each exited
    with 0 and left a file of the expected size with the recorded digest; and the returned
    bitstream is the last output. *)
Theorem patch_steps_chain `{Host} exe mmi work size files current w l base final steps w' :
  updatemem_writes_output ->
  patch_steps exe mmi work current size 1 files w = (Ok (final, steps), w') ->
  w_links w = ∅ -> has_digest w (canon w current) base -> stage_input (canon w work) (canon w current) 1 ->
  image_digests w files l -> Forall (fun pf => stage_input (canon w work) (canon w pf.2) 1) files ->
  exists last, chain size l base steps last /\ length steps = length files /\
    has_digest w' (canon w' final) last.
Proof.
  intros Hexec E Hl Hd Hc Hi Hf. pose proof (Forall2_length _ _ _ Hi) as Hlen.
  eapply (patch_steps_linked Hexec) in E as (last & Hch & Hlast & _); [|done|lia|done..].
  exists last. split_and!; [done| |done]. by rewrite (chain_length _ _ _ _ _ Hch).
Qed.

(** *** An instance *)

(** An [updatemem] that writes its output, where there is no file yet, and a log in its working
    directory, over the one that is there. *)
Definition demo_patcher : Host := demo_exec_host ["repo"] (fun c w =>
  let k := p_parts (parse_path (List.last (c_argv c) "")) in
  (Done 0 "update_mem completed successfully" "",
   put_file (removelast k ++ ["updatemem.log"]) "log"
     match w_fs w !! k with None => set_fs (<[k := File "bit1" 0]> (w_fs w)) w | Some _ => w end)).

Lemma demo_patcher_writes_output : updatemem_writes_output (H := demo_patcher).
Proof.
  intros exe mmi data src proc out w r w' E. cbn [host_exec demo_patcher demo_exec_host c_argv List.last] in E.
  set (k := p_parts _) in E. injection E as _ <-.
  set (w1 := match w_fs w !! k with Some _ => w | None => _ end).
  assert (K1 : keeps [] w w1).
  { unfold w1. destruct (w_fs w !! k) eqn:Ek; [apply keeps_refl|]. constructor; [done|done|].
    intros k' n _ Hn. cbn [w_fs set_fs]. rewrite lookup_insert_ne; [done|congruence]. }
  eapply (keeps_spares [removelast k ++ ["updatemem.log"]]).
  - etransitivity; [apply keeps_nil, K1|apply put_file_keeps].
  - intros k' [Hd _] ->%list_elem_of_singleton. by rewrite design_file_snoc in Hd.
Qed.

Definition demo_patch_world : world := demo_world
  [(["base.bit"], "bit0"); (["tmp"; "iccm_lane0.mem"], "@0"); (["tmp"; "iccm_lane1.mem"], "@1")] [["tmp"]].
Definition demo_patch_files : list (string * path) :=
  [("ICCM_LANE0", Path true ["tmp"; "iccm_lane0.mem"]); ("ICCM_LANE1", Path true ["tmp"; "iccm_lane1.mem"])].
#[local] Notation demo_patch := (
  patch_steps (H := demo_patcher) (Path true ["updatemem"]) (Path true ["tmp"; "base.mmi"]) (Path true ["tmp"])
    (Path true ["base.bit"]) 4 1 demo_patch_files demo_patch_world).
Definition demo_patch_final : path := Path true ["tmp"; "stage-02.bit"].
Definition demo_patch_steps : list json := match demo_patch.1 with Ok (_, l) => l | Raise _ => [] end.

Lemma demo_base_key : canon (H := demo_patcher) demo_patch_world (Path true ["base.bit"]) = ["base.bit"].
Proof. by_eval. Qed.
Lemma demo_tmp_key : canon (H := demo_patcher) demo_patch_world (Path true ["tmp"]) = ["tmp"].
Proof. by_eval. Qed.
Lemma demo_lane_key i : i = 0 \/ i = 1 ->
  canon (H := demo_patcher) demo_patch_world (Path true ["tmp"; mem_name "iccm_lane" i]) =
  ["tmp"] ++ [mem_name "iccm_lane" i].
Proof. intros [-> | ->]; by_eval. Qed.

Lemma patch_steps_chain_witness : exists last,
  chain 4 [("ICCM_LANE0", sha256_text "@0"); ("ICCM_LANE1", sha256_text "@1")] (sha256_text "bit0")
    demo_patch_steps last /\
  length demo_patch_steps = 2%nat /\
  has_digest demo_patch.2 (canon (H := demo_patcher) demo_patch.2 demo_patch_final) last.
Proof.
  refine (patch_steps_chain (H := demo_patcher) (Path true ["updatemem"]) (Path true ["tmp"; "base.mmi"])
    (Path true ["tmp"]) 4 demo_patch_files (Path true ["base.bit"]) demo_patch_world
    [("ICCM_LANE0", sha256_text "@0"); ("ICCM_LANE1", sha256_text "@1")] (sha256_text "bit0")
    demo_patch_final demo_patch_steps demo_patch.2 demo_patcher_writes_output _ _ _ _ _ _).
  - by_eval.
  - reflexivity.
  - exists "bit0", 0; split; [by_eval|unfold sha256_text; reflexivity].
  - rewrite demo_base_key, demo_tmp_key; split; [reflexivity|intros; discriminate].
  - constructor; [|constructor; [|constructor]]; (split; [reflexivity|]).
    + exists "@0", 0. split; [by_eval|unfold sha256_text; reflexivity].
    + exists "@1", 0. split; [by_eval|unfold sha256_text; reflexivity].
  - rewrite demo_tmp_key. apply Forall_cons_2; [|apply Forall_cons_2; [|apply Forall_nil_2]].
    + exact (eq_ind_r (fun k => stage_input _ k 1) (stage_input_mem ["tmp"] "iccm_lane" 0 1) (demo_lane_key 0 (or_introl eq_refl))).
    + exact (eq_ind_r (fun k => stage_input _ k 1) (stage_input_mem ["tmp"] "iccm_lane" 1 1) (demo_lane_key 1 (or_intror eq_refl))).
Defined.
