(* ===== verification/Environment.v ===== *)
(** [scripts/check_environment.py], [scripts/lint_rtl.py],
    [scripts/repair_competition_run_permissions.py] and [scripts/project_cli.py]: the tools
    and the machine the other scripts rely on. *)
From Stdlib Require Import ZArith Lia.
From S2P Require Import Prelude Str Json Regex Py Store Lib Helpers.
Local Open Scope Z_scope.

(** ** [check_environment.py] *)

Fixpoint first_nonblank (lines : list string) : string :=
  match lines with
  | [] => ""
  | line :: lines' => if String.eqb (strip line) "" then first_nonblank lines' else strip line
  end.
Definition first_line (text : string) : string := first_nonblank (splitlines text).

(** The name after [PRETTY_NAME=], without its quotes. *)
Fixpoint pretty_name (lines : list string) : string :=
  match lines with
  | [] => "unknown"
  | line :: lines' =>
      if startswith line "PRETTY_NAME="
      then strip_by (Ascii.eqb (chr 34)) (strip (partition "=" line).2)
      else pretty_name lines'
  end.

Definition version_commands : list (string * string) :=
  [("verilator", "verilator --version"); ("make", "make --version"); ("g++", "g++ --version");
   ("python3", "python3 --version"); ("git", "git --version");
   ("riscv64-unknown-elf-gcc", "riscv64-unknown-elf-gcc --version")].

Section check_environment.
Context `{Host}.
(** [platform.platform()] and [sys.version.split()[0]] *)
Variable platform_text python_version : string.

Definition windows_tool (n : string) : M (bool * json) :=
  p ← which n;
  let found := match p with Some _ => true | None => false end in
  mret (found, JObj [("found", JBool found); ("path", match p with Some s => JStr s | None => JNull end)]).

(** One tool: whether it is found, and what is reported of it. *)
Definition wsl_tool (wsl n version_command : string) : M (bool * json) :=
  path_result ← run [wsl; "bash"; "-lc"; "command -v " +:+ n] None (Some 10) false;
  version_result ← run [wsl; "bash"; "-lc"; version_command] None (Some 10) false;
  let p := first_line (stdout path_result) in
  let found := ok path_result && negb (String.eqb p "") in
  mret (found,
        JObj [("found", JBool found); ("path", if String.eqb p "" then JNull else JStr p);
              ("version", JStr (first_line (if String.eqb (stdout version_result) ""
                                            then stderr version_result else stdout version_result)))]).

(** The report on WSL, and its field [ok] (missing when there is no WSL). *)
Definition wsl_probe : M (bool * json) :=
  w ← which "wsl";
  let wsl := default "" w in
  if String.eqb wsl "" then
    mret (false, JObj [("found", JBool false); ("error", JStr "wsl executable not found")])
  else
  distro_result ← run [wsl; "bash"; "-lc"; "cat /etc/os-release"] None (Some 10) false;
  let distro := if ok distro_result then pretty_name (splitlines (stdout distro_result)) else "unknown" in
  tools ← map_m (fun nc => t ← wsl_tool wsl nc.1 nc.2; mret (nc.1, t)) version_commands;
  let all_found := forallb (fun nt => nt.2.1) tools in
  mret (all_found,
        JObj [("found", JBool true); ("ok", JBool all_found); ("distro", JStr distro);
              ("tools", JObj ((fun nt => (nt.1, nt.2.2)) <$> tools))]).

Definition environment_main (verbose : bool) : M Z :=
  executable ← resolve (parse_path host_executable);
  git ← windows_tool "git";
  make ← windows_tool "make";
  vivado ← windows_tool "vivado";
  gcc ← windows_tool "riscv64-unknown-elf-gcc";
  wsl ← wsl_probe;
  let ok_base : bool := wsl.1 in
  let ok_fpga : bool := vivado.1 in
  let report := JObj
    [("schema_version", JInt 1);
     ("host", JObj [("platform", JStr platform_text); ("python", JStr python_version);
                    ("python_executable", JStr (path_str executable))]);
     ("windows", JObj [("git", git.2); ("make", make.2); ("vivado", vivado.2);
                       ("riscv64-unknown-elf-gcc", gcc.2)]);
     ("wsl", wsl.2); ("ok_base", JBool ok_base); ("ok_fpga", JBool ok_fpga)] in
  output ← build_path ["manifest"; "eda_env.json"];
  write_json_atomic output report ;;
  print ("WSL toolchain: " +:+ (if ok_base then "PASS" else "FAIL")) ;;
  print ("Vivado:       " +:+ (if ok_fpga then "PASS" else "MISSING")) ;;
  print ("Report:       " +:+ path_str output) ;;
  when_ verbose (print (dumps_manifest report)) ;;
  mret (if ok_base then 0 else 1).

(** ** [lint_rtl.py] *)

Definition lint_argv : list string :=
  ["verilator"; "--lint-only"; "--timing"; "-Wall"; "-Wno-fatal"; "-Wno-DECLFILENAME";
   "-Wno-UNUSEDPARAM"; "-Wno-UNUSEDSIGNAL"; "-Wno-SYNCASYNCNET"; "--top-module"; "soc_top";
   "-f"; "rtl/filelist.f"].

Definition lint_main : M Z :=
  command ← in_repo (repo_path []) lint_argv;
  result ← bash command (Some 120) false;
  print_end (stdout result) ;;
  when_ (negb (String.eqb (stderr result) "")) (eprint_end (stderr result)) ;;
  mret (returncode result).
End check_environment.

(** ** [repair_competition_run_permissions.py] *)

(** A literal in either case. *)
Fixpoint lit_ignore_case (s : string) : re :=
  match s with
  | EmptyString => Eps
  | String c s' => Seq (Chr (fun d => Ascii.eqb (lower_char c) (lower_char d))) (lit_ignore_case s')
  end.

(** [Failed processing\s+([1-9]\d* )\s+files?] without the blank, in either case *)
Definition FAILED_PROCESSING_PATTERN : re :=
  seqs [lit_ignore_case "Failed processing"; Rep true 1 is_space;
        Grp 1 (Seq (Chr (in_range 49 57)) (Rep true 0 is_digit)); Rep true 1 is_space;
        lit_ignore_case "file"; Opt (lit_ignore_case "s")].

Section repair.
Context `{Host}.

Definition repair_run_dir (p : path) : M path :=
  candidate ← ensure_within (in_repo_unless_absolute p) (repo_path ["competition_runs"]);
  e ← exists_ candidate;
  fail_if (negb e) ValueError ("competition run does not exist: " +:+ path_str candidate) ;;
  mret candidate.

Definition run_permission_command (av : list string) (action : string) : M unit :=
  '(returncode, out, err) ← subprocess_run (Command av None host_environ None);
  when_ (negb (String.eqb out "")) (print_end out) ;;
  let combined_output := join nl [out; err] in
  let failed := match search FAILED_PROCESSING_PATTERN combined_output with Some _ => true | None => false end in
  when_ (negb (returncode =? 0) || failed)
    (let detail := if String.eqb (strip err) "" then strip out else strip err in
     raise RuntimeError (action +:+ " failed: " +:+
       (if String.eqb detail "" then "command returned an error" else detail))).

(** The directory can be listed, or the administrator takes its ownership. *)
Definition take_ownership (run_dir : path) : M unit :=
  try_except (_ ← ensure_directory_accessible run_dir "competition run"; mret tt) is_value_error
    (fun _ =>
       if negb host_elevated then
         raise RuntimeError
           ("Windows has protected " +:+ path_str run_dir +:+ " with an owner-only ACL. " +:+
            "Open PowerShell as Administrator and rerun this same command; " +:+
            "administrator elevation is required once to take ownership.")
       else
         run_permission_command ["takeown"; "/F"; path_str run_dir; "/A"; "/R"; "/D"; "Y"]
           ("taking ownership of " +:+ path_str run_dir)).

Definition repair (run_dir : path) : M unit :=
  fail_if (negb (String.eqb host_platform "win32")) ValueError
    "this repair command is only required on Windows" ;;
  let identity := strip_by (Ascii.eqb (chr 92))
    (default "" (getenv "USERDOMAIN") +:+ bsl +:+ default "" (getenv "USERNAME")) in
  fail_if (String.eqb identity "") ValueError "cannot determine the current Windows user" ;;
  take_ownership run_dir ;;
  run_permission_command
    ["icacls"; path_str run_dir; "/inheritance:e"; "/grant:r"; identity +:+ ":(OI)(CI)M"; "/T"]
    ("restoring inherited permissions on " +:+ path_str run_dir) ;;
  _ ← ensure_directory_accessible run_dir "repaired competition run";
  let vivado_dir := pnames run_dir ["vivado"] in
  _ ← ensure_directory_accessible vivado_dir "repaired Vivado directory";
  l ← glob_name vivado_dir "create_" "_project.tcl";
  let launchers := sort_by path_leb l in
  fail_if (bool_decide (launchers = [])) RuntimeError
    ("no Vivado launchers found after repair: " +:+ path_str vivado_dir) ;;
  for_ launchers (fun launcher => _ ← read_raw launcher; print ("Readable: " +:+ path_str launcher)).

Definition repair_main (p : path) : M Z :=
  run_dir ← or_usage_error is_usual_error (run_dir ← repair_run_dir p; repair run_dir ;; mret run_dir);
  print ("Permissions repaired: " +:+ path_str run_dir) ;;
  mret 0.
End repair.

(** ** [project_cli.py] *)

Inductive cli_command := Help | Message (text : string).

Definition HELP : string := join nl
  ["SocRV project entry points";
   "";
   "Daily CPU iteration:";
   "  make sim-smoke";
   "      Fast bare-metal SoC sanity test.";
   "  make sim-isa ISA_GATE=current";
   "      Fast ISA gate for the instructions implemented by the current core.";
   "  make sim-rtthread";
   "      Boot RT-Thread and verify scheduler/timer/basic BSP behavior.";
   "  make sim-msh";
   "      Verify help, ps and uptime on the exact FPGA RT-Thread/CoreMark image.";
   "  make sim-coremark COREMARK_ITERATIONS=3";
   "      Inject `coremark 3` through the real UART RX and collect CRC/timing data.";
   "  make sim-quick";
   "      Run the four checks above in sequence.";
   "  make sim-full";
   "      Run RV32UI/RV32MI/RV32UM, RT-Thread and CoreMark 10 milestone checks.";
   "  make diff-smoke";
   "      Lockstep the bare-metal smoke image against pinned Spike.";
   "  make diff-isa ISA_GATE=current";
   "      Run the selected riscv-tests gate with retirement-level Spike DiffTest.";
   "  make diff-rtthread";
   "      Boot RT-Thread with explicit MMIO/interrupt synchronization to Spike.";
   "  make diff-replay RESULT=<result.json> TRACE=1";
   "      Reproduce the first architectural mismatch with trace artifacts.";
   "";
   "Software:";
   "  make deps";
   "      Clone or update pinned RT-Thread, CoreMark, riscv-tests, Spike and";
   "      the minimal Ibex co-simulation adapter.";
   "  make difftest-build";
   "      Build pinned Spike locally and the separate Verilator DiffTest model.";
   "  make difftest-selftest";
   "      Inject known commit faults and verify ORDER/PC/GPR/MEM diagnosis.";
   "  make software-fpga";
   "      Build the unified RT-Thread + FinSH + CoreMark board image.";
   "  make software PROFILE=<name>";
   "      Build one explicit software profile.";
   "";
   "FPGA (these commands invoke Vivado):";
   "  make fpga-build BOARD=axku062|kintex7_competition|pynq_z2";
   "      Build the selected board's bitstream and checked reports.";
   "  make fpga-check BOARD=<board>";
   "      Check an existing implementation result without rebuilding.";
   "  make fpga-program BOARD=<board>";
   "      Program the existing default bitstream.";
   "";
   "Project checks:";
   "  make doctor";
   "      Print detailed tool/dependency diagnostics.";
   "  make check";
   "      Validate contracts, generated ISA data, schemas, scripts, filelists,";
   "      Memory Map and RTL lint.";
   "  make isa-gates";
   "      List current/final-base/fp-single/fp-double/final ISA gates.";
   "  make regression SUITE=smoke|msh|correctness|coremark|performance";
   "      Run the controlled JSON testlist.";
   "";
   "Useful variables:";
   "  BOARD=axku062|kintex7_competition|pynq_z2";
   "  CORE_MHZ=100 (AXKU062/Kintex-7 default; PYNQ-Z2 is fixed at 50 MHz)";
   "  PROFILE=rtthread-coremark (AXKU062/Kintex-7 default; PYNQ-Z2 defaults to rtthread)";
   "  ISA_GATE=current|final-base|fp-single|fp-double|final";
   "  COREMARK_ITERATIONS=3";
   "  TRACE=0|1";
   "  DIFFTEST=0|1";
   "  DIFFTEST_MODE=ram-strict|soc-mmio";
   "  JOBS=4";
   "";
   "Generated files are under build/. Use scoped clean targets where possible:";
   "  make clean-software | clean-images | clean-sim | clean-regression | clean-fpga";
   ""].

Definition cli_main (c : cli_command) : M Z :=
  match c with
  | Help => print (rstrip HELP)
  | Message text => print text
  end ;;
  mret 0.

(** ** What the scripts answer *)

Section answers.
Context `{Host}.

(** A repair does not go past a tool that reports failed files, whatever its exit code. *)
Lemma run_permission_command_ok av action u w w' : run_permission_command av action w = (Ok u, w') ->
  exists out err w1, run_command (Command av None host_environ None) w = (Ok (Done 0 out err), w1) /\
    search FAILED_PROCESSING_PATTERN (join nl [out; err]) = None.
Proof.
  unfold run_permission_command. intros E. apply bind_ok in E as ([[rc out] err] & w1 & Er & E).
  unfold subprocess_run in Er. apply bind_ok in Er as (r & w2 & Ex & Er).
  destruct r as [rc0 out0 err0| |]; [|done|done]. apply ret_ok in Er as [[= <- <- <-] ->].
  inv_ok E. destruct (Z.eqb_spec rc 0) as [->|]; [|done].
  destruct (search _ _) eqn:Es in E; [done|]. exists out, err, w2. done.
Qed.
End answers.

Example demo_failed_processing :
  (fun m => group 1 m.1.2) <$> search FAILED_PROCESSING_PATTERN
    ("Successfully processed 2 files; FAILED processing 13 FILES" +:+ nl) = Some (Some "13").
Proof. vm_compute. reflexivity. Qed.
