(* ===== verification/ImageFlow.v ===== *)
(** From [elf2mem] to [check_images]: the image document that the converter writes is one
    that the checker accepts. *)
From Stdlib Require Import ZArith Lia.
From S2P Require Import BuildSoftware Elf2mem Prelude Str Json Sha256 Py Store Lib Bytes Helpers Checks.
Local Open Scope Z_scope.
Local Open Scope py_scope.

#[local] Notation plain := (Forall (fun x => plain_name x = true)).

(** ** File names in a document *)

Lemma plain_no_dots k : plain k -> Forall (fun n => n <> "..") k.
Proof. intros Hk. eapply Forall_impl; [exact Hk|]. by intros n (_ & _ & ? & _)%plain_name_spec. Qed.

Lemma parse_path_abs k : k <> [] -> plain k -> parse_path ("/" +:+ join "/" k) = Path true k.
Proof.
  intros Hne Hk. unfold parse_path. f_equal.
  - unfold startswith. apply prefix_app.
  - change (split_char "/" ("/" +:+ join "/" k)) with ("" :: split_char "/" (join "/" k)).
    assert (Hs : split_char "/" (join "/" k) = k).
    { change (join "/" k) with (join (ch "/"%char) k). apply split_char_join; [done|].
      eapply Forall_impl; [exact Hk|]. by intros n (_ & _ & _ & ?)%plain_name_spec. }
    rewrite Hs, filter_cons_False by (vm_compute; tauto). apply filter_id.
    eapply Forall_impl; [exact Hk|]. intros n (H1 & H2 & _)%plain_name_spec. cbv beta.
    rewrite !bool_decide_eq_true_2 by done. done.
Qed.

(** *** Documents that a text file holds *)

(** A value that is read back as it was written. *)
Definition writable (v : json) : bool := json_wf v && json_text v.

Lemma writable_spec v : writable v = true <-> json_wf v = true /\ json_text v = true.
Proof. apply andb_true_iff. Qed.

Lemma writable_obj d : NoDup d.*1 -> Forall (fun kv => utf8_valid kv.1 = true /\ writable kv.2 = true) d ->
  writable (JObj d) = true.
Proof.
  intros Hnd Hd. apply writable_spec. cbn [json_wf json_text]. rewrite bool_decide_eq_true_2 by done.
  cbn [andb]. rewrite !forallb_forall. rewrite Forall_forall in Hd.
  split; intros kv Hk%list_elem_of_In; apply Hd in Hk as [Hu [Hw Ht]%writable_spec]; [done|].
  by rewrite Hu, Ht.
Qed.

Lemma writable_arr l : Forall (fun v => writable v = true) l -> writable (JArr l) = true.
Proof.
  intros Hl. apply writable_spec. cbn [json_wf json_text]. rewrite !forallb_forall.
  rewrite Forall_forall in Hl. split; intros v Hv%list_elem_of_In; by apply Hl, writable_spec in Hv as [??].
Qed.

Lemma writable_field v k x : writable v = true -> has_field v k x -> writable x = true.
Proof.
  intros [Hw Ht]%writable_spec (d & -> & Hd). cbn [json_wf json_text] in *.
  apply andb_true_iff in Hw as [_ Hw]. rewrite forallb_forall in Hw, Ht.
  apply dict_get_elem, list_elem_of_In in Hd. apply writable_spec. split; [by apply (Hw _ Hd)|].
  by apply Ht, andb_true_iff in Hd as [_ ?].
Qed.

Lemma utf8_join sep l : utf8_valid sep = true -> Forall (fun s => utf8_valid s = true) l ->
  utf8_valid (join sep l) = true.
Proof.
  intros Hs Hl. induction Hl as [|x l Hx Hl IH]; [done|]. destruct l as [|y l]; [done|].
  change (join sep (x :: y :: l)) with (x +:+ sep +:+ join sep (y :: l)).
  by rewrite !utf8_valid_app.
Qed.

Lemma utf8_plain s : sforall Str.plain s = true -> utf8_valid s = true.
Proof. intros Hs%text_ok_plain. unfold text_ok in Hs. by apply andb_true_iff in Hs as [? _]. Qed.

Lemma utf8_path b k : Forall (fun n => utf8_valid n = true) k -> utf8_valid (path_str (Path b k)) = true.
Proof.
  intros Hk. unfold path_str. cbn [p_abs p_parts]. destruct b; [|destruct k; [done|by apply utf8_join]].
  rewrite utf8_valid_app by done. by apply utf8_join.
Qed.

Lemma utf8_digest l : utf8_valid (sha256_bytes l) = true.
Proof.
  unfold sha256_bytes, hexdigest. apply utf8_join; [done|]. apply Forall_fmap, Forall_forall.
  intros n _. apply utf8_plain, hex08_plain.
Qed.

Lemma utf8_hex_addr n : utf8_valid (hex_addr n) = true.
Proof. unfold hex_addr. rewrite utf8_valid_app by done. apply utf8_plain, hex08_plain. Qed.

Section names.
Context `{Host}.

(** The place of the repository is a plain absolute path. *)
Variable Hroot : plain host_root.

(** The name that a document gives to a place leads back to it. *)
Lemma manifest_path_text p w s w' : manifest_path p w = (Ok s, w') ->
  Forall (fun n => utf8_valid n = true) (canon w p) -> utf8_valid s = true.
Proof.
  intros E Hk. unfold manifest_path in E. rstep E q Eq. apply gets_ok in Eq as [-> _].
  rstep E root Er. destruct (_ || _); [|by apply ret_ok in E as [-> _]; apply utf8_path].
  rstep E r Er'. apply ret_ok in E as [-> _]. unfold relative_to in Er'.
  destruct (path_within _ _); [|done]. apply ret_ok in Er' as [-> _]. by apply utf8_path, Forall_drop.
Qed.

Lemma image_path_manifest p w s w' : manifest_path p w = (Ok s, w') -> w_links w = ∅ ->
  plain (canon w p) -> canon w p <> host_root -> canon w p <> [] ->
  image_path s = Path true (canon w p).
Proof.
  intros E Hl Hk Hne Hnn. unfold manifest_path in E. rstep E q Eq. apply gets_ok in Eq as [-> _].
  rstep E root Er. apply gets_ok in Er as [-> _].
  change (repo_path []) with (Path true host_root) in E.
  rewrite (canon_plain w host_root) in E by (done || by apply plain_no_dots).
  rewrite bool_decide_eq_false_2 in E by (intros [= ?]; done). cbn [orb] in E. unfold path_within in E.
  cbn [p_abs p_parts Bool.eqb andb] in E. destruct (is_prefix host_root (canon w p)) eqn:Ep.
  - apply is_prefix_spec in Ep as [rest Hrest]. rstep E r Er. apply ret_ok in E as [-> _].
    unfold relative_to, path_within in Er. cbn [p_abs p_parts Bool.eqb andb] in Er.
    rewrite (proj2 (is_prefix_spec _ _)) in Er by (by exists rest). apply ret_ok in Er as [-> _].
    rewrite Hrest, drop_app_length in *. destruct rest as [|n rest]; [by rewrite app_nil_r in Hne|].
    apply Forall_app in Hk as [_ Hk]. unfold path_str. cbn [p_abs p_parts]. unfold image_path.
    rewrite parse_path_plain by done. cbn [p_abs]. unfold path_str, repo_path. cbn [p_abs p_parts foldl].
    unfold pdiv. rewrite parse_path_plain by done. done.
  - apply ret_ok in E as [-> _]. unfold path_str. cbn [p_abs p_parts]. unfold image_path.
    by rewrite parse_path_abs.
Qed.
End names.

(** ** Entries of a document *)

Section entries.
Context `{Host}.

(** [e] names the file at [k] under [key] and states its digest, which is the one of its
    content at [w]. *)
Definition recorded (w : world) (key : string) (e : json) (k : list string) : Prop :=
  writable e = true /\ exists s c t, has_field e key (JStr s) /\ image_path s = Path true k /\
    node_at w k = Some (File c t) /\ k ∉ w_denied w /\
    has_field e "sha256" (JStr (sha256_bytes (to_bytes c))).

Lemma recorded_keeps K w w' key e k : keeps K w w' -> k ∉ K -> recorded w key e k -> recorded w' key e k.
Proof.
  intros HK Hk (He & s & c & t & Hf & Hp & Hn & Hd & Hs). split; [done|].
  exists s, c, t. split_and!; try done.
  - by eapply keeps_node.
  - by rewrite (keeps_denied _ _ _ HK).
Qed.

(** A set of entries persists with its files. *)
Lemma records_keep K w w' key es ks : keeps K w w' -> Forall (fun k => k ∉ K) ks ->
  Forall2 (recorded w key) es ks -> Forall2 (recorded w' key) es ks.
Proof.
  intros HK Hks Hr. induction Hr as [|e k es ks Hr _ IH]; [done|].
  apply Forall_cons in Hks as [Hk Hks]. constructor; [by eapply recorded_keeps|by apply IH].
Qed.

(** The fields of a document are those of its sorted form. *)
Lemma has_field_sorted v k x : json_wf v = true -> has_field v k x ->
  has_field (sort_keys v) k (sort_keys x).
Proof.
  intros Hwf (d & -> & Hd). cbn [json_wf] in Hwf. apply andb_true_iff in Hwf as [Hnd _].
  apply bool_decide_eq_true in Hnd. destruct (dict_get_sort_keys d k Hnd) as (d' & -> & Hd').
  exists d'. split; [done|]. by rewrite Hd', Hd.
Qed.

Lemma getitem_has v k x w : has_field v k x -> getitem v k w = (Ok x, w).
Proof. intros (d & -> & Hd). unfold getitem. by rewrite Hd. Qed.

Lemma sort_keys_writable v : writable v = true -> writable (sort_keys v) = true.
Proof.
  intros [Hw Ht]%writable_spec. apply writable_spec. split; [by apply sort_keys_wf|by apply sort_keys_text].
Qed.

Lemma recorded_sorted w key e k : recorded w key e k -> recorded w key (sort_keys e) k.
Proof.
  intros (He & s & c & t & Hf & Hp & Hn & Hd & Hs). split; [by apply sort_keys_writable|].
  exists s, c, t. apply writable_spec in He as [Hwf _].
  apply (has_field_sorted _ _ _ Hwf) in Hf, Hs. by split_and!.
Qed.

(** A recorded entry passes the check. *)
Lemma recorded_checks w label key e k : w_links w = ∅ -> plain k -> recorded w key e k ->
  check_digest label key e w = (Ok tt, w).
Proof.
  intros Hl Hk (_ & s & c & t & Hf & Hp & Hn & Hd & Hs). unfold check_digest.
  rewrite (bind_ok_eq _ _ (image_path s) w w); cycle 1.
  { rewrite (bind_ok_eq _ _ _ _ _ (getitem_has _ _ _ w Hf)). done. }
  assert (Hc : canon w (image_path s) = k)
    by (rewrite Hp; apply canon_plain; [done|by apply plain_no_dots]).
  rewrite (bind_ok_eq _ _ true w w); cycle 1.
  { unfold exists_, gets, exists_at. by rewrite Hc, Hn. }
  cbv beta iota. rewrite (bind_ok_eq _ _ true w w); [done|].
  rewrite (bind_ok_eq _ _ (sha256_bytes (to_bytes c)) w w); cycle 1.
  { unfold sha256_file. rewrite (bind_ok_eq _ _ (to_bytes c) w w).
    - by rewrite sha256_stream_bytes.
    - eapply read_bytes_node; by rewrite Hc. }
  rewrite (bind_ok_eq _ _ _ _ _ (getitem_has _ _ _ w Hs)). cbn [json_eqb].
  by rewrite String.eqb_refl.
Qed.
End entries.

(** ** The entries that the converter writes *)

Section writes.
Context `{Host}.
Variable Hroot : plain host_root.

(** A place that a document can name: an absolute plain path other than the repository. *)
Definition nameable (k : list string) : Prop :=
  plain k /\ Forall (fun n => utf8_valid n = true) k /\ k <> [] /\ k <> host_root.

(** The entry of a region states its name, base and size. *)
Definition describes (e : json) (r : Region) : Prop :=
  has_field e "name" (JStr (region_name r)) /\ has_field e "base" (JStr (hex_addr (base r))) /\
  has_field e "size" (JInt (Elf2mem.size r)).

Lemma Reads_manifest_path p : Reads (manifest_path p).
Proof. unfold manifest_path. solve_reads. Qed.
#[local] Hint Resolve Reads_manifest_path : reads.

Lemma named_entry p w s d w1 w2 : manifest_path p w = (Ok s, w1) -> sha256_file p w1 = (Ok d, w2) ->
  w_links w = ∅ -> nameable (canon w p) ->
  w2 = w /\ utf8_valid s = true /\ utf8_valid d = true /\
  forall key e, writable e = true -> has_field e key (JStr s) -> has_field e "sha256" (JStr d) ->
    recorded w key e (canon w p).
Proof.
  intros Es Ed Hl (Hp & Hu & Hne & Hnr). pose proof (Reads_manifest_path _ _ _ _ Es) as ->.
  apply file_digest in Ed as (-> & c & t & Hn & Hd & ->). split_and!; [done| |apply utf8_digest|].
  - by eapply manifest_path_text.
  - intros key e He Hf Hs. split; [done|]. exists s, c, t. split_and!; try done.
    by eapply image_path_manifest.
Qed.

(** A literal document is writable when its texts are. *)
Ltac solve_writable :=
  repeat first
    [ assumption
    | apply utf8_hex_addr
    | match goal with
      | |- writable (JObj _) = true => apply writable_obj; [apply (bool_decide_unpack _); vm_compute; exact I|]
      | |- writable (snd (_, _)) = true => cbn [snd]
      | |- writable (JInt _) = true => reflexivity
      | |- writable (JStr ?s) = true => change (utf8_valid s = true)
      | |- Forall _ [] => constructor
      | |- Forall _ (_ :: _) => constructor; [split; [reflexivity|]|]
      end
    | reflexivity ].

Lemma bank_entry_recorded n p a b e w w' : bank_entry n p a b w = (Ok e, w') ->
  utf8_valid n = true -> w_links w = ∅ -> nameable (canon w p) -> w' = w /\ recorded w "file" e (canon w p).
Proof.
  intros E Hn Hl Hk. unfold bank_entry in E. apply bind_ok in E as (s & w1 & Es & E).
  apply bind_ok in E as (d & w2 & Ed & E). apply ret_ok in E as [-> ->].
  destruct (named_entry _ _ _ _ _ _ Es Ed Hl Hk) as (-> & Hu1 & Hu2 & Hr). split; [done|].
  apply Hr; [cbn [snd]; solve_writable|by eexists..].
Qed.

Lemma region_entry_recorded r e w w' : region_entry r w = (Ok e, w') ->
  utf8_valid (region_name r) = true ->
  w_links w = ∅ -> nameable (canon w (output r)) ->
  w' = w /\ recorded w "file" e (canon w (output r)) /\ describes e r.
Proof.
  intros E Hu Hl Hk. unfold region_entry in E. apply bind_ok in E as (s & w1 & Es & E).
  apply bind_ok in E as (d & w2 & Ed & E). apply ret_ok in E as [-> ->].
  destruct (named_entry _ _ _ _ _ _ Es Ed Hl Hk) as (-> & Hu1 & Hu2 & Hr). split_and!; [done| |].
  - apply Hr; [solve_writable|by eexists..].
  - split_and!; by eexists.
Qed.

Lemma write_word_mem_same r trim w r1 w' : write_word_mem r trim w = (Ok r1, w') ->
  Elf2mem.same_region r r1 /\ keeps [canon w (output r)] w w'.
Proof.
  intros E. unfold write_word_mem in E. apply bind_ok in E as ([] & w1 & E1 & E).
  apply mkdir_keeps with (K := []) in E1. cbv zeta in E. set (n := padded_size r trim) in *.
  assert (Hsame : Elf2mem.same_region r (set_stored_words (pad_image r n) (n / 4)))
    by (unfold pad_image; by destruct (_ && _)).
  apply bind_ok in E as ([] & w2 & E2 & E). apply ret_ok in E as [-> ->]. split; [done|].
  apply write_raw_keeps in E2. destruct Hsame as (_ & _ & _ & Ho).
  rewrite Ho, (keeps_canon _ _ _ _ E1) in E2. etransitivity; [apply keeps_nil, E1|exact E2].
Qed.

(** The keys of files, at a world. *)
Notation keys w l := ((fun p => canon w p) <$> l).

Lemma keys_keep K w w' (l : list path) : keeps K w w' -> keys w' l = keys w l.
Proof. intros HK. apply list_fmap_ext. intros i p _. by eapply keeps_canon. Qed.

Lemma write_banks_recorded r pre count depth outs : forall bank w es w',
  write_banks r pre count depth bank outs w = (Ok es, w') -> utf8_valid pre = true ->
  w_links w = ∅ -> Forall nameable (keys w outs) -> NoDup (keys w outs) ->
  keeps (keys w outs) w w' /\ Forall2 (recorded w' "file") es (keys w outs).
Proof.
  induction outs as [|p outs IH]; intros bank w es w' E Hu Hl Hn Hd.
  - apply ret_ok in E as [-> ->]. split; [apply keeps_refl|constructor].
  - cbn [write_banks] in E. apply bind_ok in E as ([] & w1 & E1 & E).
    apply mkdir_keeps with (K := []) in E1. apply bind_ok in E as ([] & w2 & E2 & E).
    apply write_raw_keeps in E2. rewrite (keeps_canon _ _ _ _ E1) in E2.
    assert (HK : keeps [canon w p] w w2) by (etransitivity; [apply keeps_nil, E1|exact E2]).
    rewrite fmap_cons in Hn, Hd |- *. apply Forall_cons in Hn as [Hp Hn]. apply NoDup_cons in Hd as [Hi Hd].
    apply bind_ok in E as (e & w3 & E3 & E).
    apply bank_entry_recorded in E3 as [-> He];
      [|by rewrite utf8_valid_app by done; apply utf8_plain, str_of_Z_plain
       |by rewrite (keeps_links _ _ _ HK)|by rewrite (keeps_canon _ _ _ _ HK)].
    rewrite (keeps_canon _ _ _ _ HK) in He.
    apply bind_ok in E as (rest & w4 & E4 & E). apply ret_ok in E as [-> ->].
    apply IH in E4 as [K4 Hr]; [|done|by rewrite (keeps_links _ _ _ HK)|by rewrite (keys_keep _ _ _ _ HK)..].
    rewrite (keys_keep _ _ _ _ HK) in K4, Hr. split.
    + etransitivity; [apply keeps_head, HK|apply keeps_tail, K4].
    + constructor; [by eapply recorded_keeps|done].
Qed.

Lemma write_interleaved_recorded r outs pre w es w' :
  write_interleaved_banks r outs pre w = (Ok es, w') -> utf8_valid pre = true ->
  w_links w = ∅ -> Forall nameable (keys w outs) -> NoDup (keys w outs) ->
  keeps (keys w outs) w w' /\ Forall2 (recorded w' "file") es (keys w outs).
Proof.
  intros E. unfold write_interleaved_banks in E. apply bind_ok in E as ([] & w1 & E1 & E).
  apply fail_if_ok in E1 as [_ ->]. by eapply write_banks_recorded.
Qed.

Lemma write_instruction_recorded r lo hi w es w' :
  write_instruction_banks r lo hi w = (Ok es, w') ->
  w_links w = ∅ -> Forall nameable (keys w [lo; hi]) ->
  keeps (keys w [lo; hi]) w w' /\ Forall2 (recorded w' "file") es (keys w [lo; hi]).
Proof.
  intros E Hl Hn. set (K := keys w [lo; hi]) in *.
  unfold write_instruction_banks in E. do 2 (apply bind_ok in E as ([] & ? & [_ ->]%fail_if_ok & E)).
  assert (Hlo : canon w lo ∈ K) by (unfold K; set_solver).
  assert (Hhi : canon w hi ∈ K) by (unfold K; set_solver).
  assert (Hw0 : keeps K w w) by apply keeps_refl.
  apply bind_ok in E as ([] & w1 & E1 & E). apply bind_ok in E as ([] & w2 & E2 & E).
  apply bind_ok in E as ([] & w3 & E3 & E). apply bind_ok in E as ([] & w4 & E4 & E).
  apply bind_ok in E as ([] & w5 & E5 & E). apply bind_ok in E as ([] & w6 & E6 & E).
  apply (Keeps_Leaves K w _ (Keeps_mkdir_p _)) in E1; [|done].
  apply (Keeps_Leaves K w _ (Keeps_mkdir_p _)) in E2; [|done].
  apply (Leaves_write K w _ _ Hlo) in E3; [|done]. apply (Leaves_write K w _ _ Hhi) in E4; [|done].
  apply (Leaves_write K w _ _ Hlo) in E5; [|done]. apply (Leaves_write K w _ _ Hhi) in E6; [|done].
  clear E1 E2 E3 E4 E5. pose proof (keeps_links _ _ _ E6) as Hl6. rewrite Hl in Hl6.
  apply Forall_cons in Hn as [Hnl [Hnh _]%Forall_cons].
  apply bind_ok in E as (e1 & w7 & E7 & E).
  apply bank_entry_recorded in E7 as [-> H1]; [|done|done|by rewrite (keeps_canon _ _ _ _ E6)].
  apply bind_ok in E as (e2 & w8 & E8 & E).
  apply bank_entry_recorded in E8 as [-> H2]; [|done|done|by rewrite (keeps_canon _ _ _ _ E6)].
  apply ret_ok in E as [-> ->]. rewrite (keeps_canon _ _ _ _ E6) in H1. rewrite (keeps_canon _ _ _ _ E6) in H2.
  split; [done|]. constructor; [done|]. constructor; [done|constructor].
Qed.

(** [m] writes the files [ps] and returns an entry for each. *)
Definition Records (ps : list path) (m : M (list json)) : Prop := forall w es w',
  m w = (Ok es, w') -> w_links w = ∅ -> Forall nameable (keys w ps) -> NoDup (keys w ps) ->
  keeps (keys w ps) w w' /\ Forall2 (recorded w' "file") es (keys w ps).

Lemma Records_ret : Records [] (mret []).
Proof. intros w es w' E _ _ _. apply ret_ok in E as [-> ->]. by split; [apply keeps_refl|constructor]. Qed.
Lemma Records_raise ps k msg : Records ps (raise k msg).
Proof. by intros w es w' E. Qed.

(** A step that inspects only. *)
Lemma Records_reads {A} ps (m : M A) f : Reads m -> (forall a, Records ps (f a)) -> Records ps (m ≫= f).
Proof.
  intros Hm Hf w es w' E. apply bind_ok in E as (a & w1 & E1 & E).
  pose proof (Hm _ _ _ E1) as ->. by apply (Hf a).
Qed.

Lemma Records_app ps1 ps2 m1 m2 (f : list json -> M (list json)) : Records ps1 m1 -> Records ps2 m2 ->
  (forall a w es w', f a w = (Ok es, w') -> exists b, m2 w = (Ok b, w') /\ es = a ++ b) ->
  Records (ps1 ++ ps2) (m1 ≫= f).
Proof.
  unfold Records. intros H1 H2 Hf w es w' E Hl Hn Hd. rewrite fmap_app in *. apply Forall_app in Hn as [Hn1 Hn2].
  apply NoDup_app in Hd as (Hd1 & Hdis & Hd2).
  apply bind_ok in E as (a & w1 & E1 & E). apply H1 in E1 as [K1 R1]; [|done..].
  apply Hf in E as (b & E & ->). pose proof (keys_keep _ _ _ ps2 K1) as Hk2.
  apply H2 in E as [K2 R2]; [|by rewrite (keeps_links _ _ _ K1)|by rewrite Hk2..].
  rewrite Hk2 in K2, R2. split.
  - etransitivity; [eapply keeps_mono; [|exact K1]|eapply keeps_mono; [|exact K2]]; set_solver.
  - apply Forall2_app; [|done]. eapply records_keep; [exact K2| |exact R1].
    apply Forall_forall. exact Hdis.
Qed.

Lemma write_all_banks_recorded rs o : Records (bank_paths o)
  (write_all_banks rs (o_code_bank_low o) (o_code_bank_high o) (o_iccm_lanes o) (o_dccm_banks o)).
Proof.
  unfold bank_paths, write_all_banks.
  set (lanes := match o_iccm_lanes o with None => _ | Some _ => _ end).
  set (dccm := match o_dccm_banks o with None => _ | Some _ => _ end).
  assert (Hlanes : Records (default [] (o_iccm_lanes o)) lanes).
  { unfold lanes. destruct (o_iccm_lanes o) as [[|p l]|]; cbn [default]; [apply Records_ret| |apply Records_ret].
    apply Records_reads; [solve_reads|intros _]. apply Records_reads; [solve_reads|intros r].
    intros w es w' E. by eapply write_interleaved_recorded. }
  assert (Hdccm : Records (default [] (o_dccm_banks o)) dccm).
  { unfold dccm. destruct (o_dccm_banks o) as [[|p l]|]; cbn [default]; [apply Records_ret| |apply Records_ret].
    apply Records_reads; [solve_reads|intros _]. apply Records_reads; [solve_reads|intros r].
    intros w es w' E. by eapply write_interleaved_recorded. }
  rewrite app_assoc. apply Records_app with (m2 := b ← lanes; c ← dccm; mret (b ++ c)).
  - destruct (o_code_bank_low o) as [lo|], (o_code_bank_high o) as [hi|]; cbn [from_option app];
      [|apply Records_raise|apply Records_raise|apply Records_ret].
    apply Records_reads; [solve_reads|intros r]. intros w es w' E Hl Hn _.
    by eapply write_instruction_recorded.
  - apply Records_app with (m2 := dccm); [done|done|]. intros a w es w' E.
    apply bind_ok in E as (b & w1 & E1 & E). apply ret_ok in E as [-> ->]. by exists b.
  - intros a w es w' E. apply bind_ok in E as (b & w1 & E1 & E).
    apply bind_ok in E as (c & w2 & E2 & E). apply ret_ok in E as [-> ->]. exists (b ++ c).
    split; [|done]. by rewrite (bind_ok_eq _ _ _ _ _ E1), (bind_ok_eq _ _ _ _ _ E2).
Qed.

(** The files of the regions. *)
Notation outs w rs := (keys w (output <$> rs)).

Lemma write_regions_recorded trim : forall rs w rs' es w',
  write_regions rs trim w = (Ok (rs', es), w') ->
  Forall (fun r => utf8_valid (region_name r) = true) rs ->
  w_links w = ∅ -> Forall nameable (outs w rs) -> NoDup (outs w rs) ->
  keeps (outs w rs) w w' /\ Forall2 (recorded w' "file") es (outs w rs) /\
  Forall2 describes es rs'  /\ Forall2 Elf2mem.same_region rs rs'.
Proof.
  induction rs as [|r rs IH]; intros w rs' es w' E Hu Hl Hn Hd.
  - apply ret_ok in E as [[= -> ->] ->]. split_and!; [apply keeps_refl|constructor..].
  - cbn [write_regions] in E. apply bind_ok in E as (r1 & w1 & E1 & E).
    apply write_word_mem_same in E1 as [Hs HK]. assert (Ho : output r1 = output r) by apply Hs.
    rewrite !fmap_cons in Hn, Hd |- *. apply Forall_cons in Hn as [Hp Hn]. apply NoDup_cons in Hd as [Hi Hd].
    apply Forall_cons in Hu as [Hur Hu].
    apply bind_ok in E as (e & w2 & E2 & E).
    apply region_entry_recorded in E2 as (-> & He & Hde);
      [|destruct Hs as [-> _]; done|by rewrite (keeps_links _ _ _ HK)|by rewrite Ho, (keeps_canon _ _ _ _ HK)].
    rewrite Ho, (keeps_canon _ _ _ _ HK) in He.
    apply bind_ok in E as ([rs2 es2] & w3 & E3 & E). apply ret_ok in E as [[= -> ->] ->].
    apply IH in E3 as (K3 & Hr & Hds & Hss);
      [|done|by rewrite (keeps_links _ _ _ HK)|by rewrite (keys_keep _ _ _ _ HK)..].
    rewrite (keys_keep _ _ _ _ HK) in K3, Hr. split_and!.
    + etransitivity; [apply keeps_head, HK|apply keeps_tail, K3].
    + constructor; [by eapply recorded_keeps|done].
    + by constructor.
    + by constructor.
Qed.

Lemma place_segment_same st s w st' w' : place_segment st s w = (Ok st', w') ->
  w' = w /\ Forall2 Elf2mem.same_region st.1 st'.1 /\
  (Forall (fun r => utf8_valid (region_name r) = true) st.1 ->
   Forall (fun v => writable v = true) st.2 -> Forall (fun v => writable v = true) st'.2).
Proof.
  destruct st as [rs pl]. unfold place_segment. intros E.
  destruct (matches rs s) as [|i [|? ?]] eqn:Em; [done| |done].
  destruct (rs !! i) as [r|] eqn:Hr; [|done]. apply ret_ok in E as [-> ->]. cbn [fst snd].
  split_and!; [done| |].
  - rewrite <- (list_insert_id rs i r) at 1 by done. by apply Forall2_insert.
  - intros Hu Hp. apply Forall_app. split; [done|]. constructor; [|constructor].
    rewrite Forall_lookup in Hu. apply Hu in Hr. solve_writable.
Qed.

Lemma same_names rs rs' : Forall2 Elf2mem.same_region rs rs' ->
  Forall (fun r => utf8_valid (region_name r) = true) rs ->
  Forall (fun r => utf8_valid (region_name r) = true) rs'.
Proof.
  induction 1 as [|r r' rs rs' (Hn & _) _ IH]; [done|]. intros [Hr Hu]%Forall_cons.
  constructor; [by rewrite Hn|by apply IH].
Qed.

Lemma place_segments_same segs : forall st w st' w', fold_m place_segment st segs w = (Ok st', w') ->
  w' = w /\ Forall2 Elf2mem.same_region st.1 st'.1 /\
  (Forall (fun r => utf8_valid (region_name r) = true) st.1 ->
   Forall (fun v => writable v = true) st.2 -> Forall (fun v => writable v = true) st'.2).
Proof.
  induction segs as [|s segs IH]; intros st w st' w' E.
  - apply ret_ok in E as [-> ->]. by split_and!.
  - cbn [fold_m] in E. apply bind_ok in E as (st1 & w1 & E1 & E).
    apply place_segment_same in E1 as (-> & Hs1 & Hw1).
    apply IH in E as (-> & Hs & Hw). split_and!; [done|by etransitivity|].
    intros Hu Hp. apply Hw; [by eapply same_names|by apply Hw1].
Qed.

(** ** The document that the converter writes *)

(** At [w], the document [d] describes the ELF file at [elf], the regions [rs] with their
    files at [files] and the banks at [bank_files]; it states the digest [h] of the memory
    map and the address [status]. *)
Record describes_image (w : world) (d : list (string * json)) (elf : list string) (rs : list Region)
    (files bank_files : list (list string)) (h : string) (status : Z) : Prop := {
  image_writable : writable (JObj d) = true;
  image_elf : exists e, has_field (JObj d) "elf" e /\ recorded w "path" e elf;
  image_regions : exists es, has_field (JObj d) "regions" (JArr es) /\
    Forall2 (recorded w "file") es files /\ Forall2 describes es rs;
  image_banks : exists es, dict_get "banks" d = (if bool_decide (es = []) then None else Some (JArr es)) /\
    Forall2 (recorded w "file") es bank_files;
  image_map : has_field (JObj d) "memory_map_sha256" (JStr h);
  image_status : exists ts, has_field (JObj d) "test_status" ts /\
    has_field ts "base" (JStr (hex_addr status))
}.

Lemma contract_fields_status c b w isa w' : contract_fields (Some c) (Some b) w = (Ok isa, w') ->
  writable c = true ->
  w' = w /\ exists i ts, isa = [("isa", i); ("test_status", ts)] /\ writable i = true /\
    writable ts = true /\ has_field ts "base" (JStr (hex_addr b)).
Proof.
  unfold contract_fields. intros E Hc. rstep E cpu E1. rstep E test E2. rstep E x3 E3. rstep E x4 E4.
  rstep E x5 E5. rstep E x6 E6. apply ret_ok in E6 as [-> _]. rstep E x7 E7. rstep E x8 E8.
  apply ret_ok in E as [-> ->]. apply getitem_field in E1, E2, E3, E4, E5, E7, E8.
  apply (writable_field _ _ _ Hc) in E1, E2. apply (writable_field _ _ _ E1) in E3, E4, E5.
  apply (writable_field _ _ _ E2) in E7, E8. split; [done|].
  do 2 eexists. split_and!; [done|solve_writable|solve_writable|by eexists].
Qed.

Lemma describes_same es rs rs' : Forall2 describes es rs' -> Forall2 Elf2mem.same_region rs rs' ->
  Forall2 describes es rs.
Proof.
  intros Hd. revert rs. induction Hd as [|e r es rs' He _ IH]; intros rs Hs; inversion Hs; subst; [constructor|].
  constructor; [|by apply IH]. destruct He as (Ha & Hb & Hc).
  match goal with Hr : Elf2mem.same_region _ _ |- _ => destruct Hr as (Hn & Hbase & Hz & _) end.
  unfold describes. by rewrite <- Hn, <- Hbase, <- Hz.
Qed.

(** The document, field by field. *)
Definition image_document (profile ep ed : string) (entry : Z) (es pl banks : list json) (i ts : json)
    (h : string) : list (string * json) :=
  [("schema_version", JInt 2); ("kind", JStr "software_image"); ("profile", JStr profile);
   ("elf", JObj [("path", JStr ep); ("sha256", JStr ed)]); ("entry", JStr (hex_addr entry));
   ("endianness", JStr "little");
   ("word_format", JObj [("bits", JInt 32); ("hex_digits", JInt 8); ("address_unit", JStr "word")]);
   ("regions", JArr es); ("segments", JArr pl)] ++
  (if bool_decide (banks = []) then [] else [("banks", JArr banks)]) ++
  [("isa", i); ("test_status", ts)] ++ [("memory_map_sha256", JStr h)].

Lemma recorded_writable w key es ks : Forall2 (recorded w key) es ks ->
  Forall (fun v => writable v = true) es.
Proof. induction 1 as [|e k es ks He _ IH]; [constructor|]. constructor; [apply He|done]. Qed.

Lemma image_document_describes w profile ep ed entry es pl banks i ts h status elf rs files bank_files :
  utf8_valid profile = true -> utf8_valid ep = true -> utf8_valid ed = true -> utf8_valid h = true ->
  Forall (fun v => writable v = true) pl -> writable i = true -> writable ts = true ->
  has_field ts "base" (JStr (hex_addr status)) ->
  recorded w "path" (JObj [("path", JStr ep); ("sha256", JStr ed)]) elf ->
  Forall2 (recorded w "file") es files -> Forall2 describes es rs ->
  Forall2 (recorded w "file") banks bank_files ->
  describes_image w (image_document profile ep ed entry es pl banks i ts h) elf rs files bank_files h status.
Proof.
  intros Hpr Hep Hed Hh Hpl Hi Hts Hst Helf Hes Hds Hbs.
  pose proof (writable_arr _ (recorded_writable _ _ _ _ Hes)) as Hwe.
  pose proof (writable_arr _ (recorded_writable _ _ _ _ Hbs)) as Hwb.
  apply writable_arr in Hpl. unfold image_document. constructor.
  - case_bool_decide; cbn [app]; solve_writable.
  - eexists. split; [by eexists|done].
  - exists es. split; [by eexists|done].
  - exists banks. split; [|done]. by case_bool_decide.
  - eexists. split; [done|]. by case_bool_decide.
  - exists ts. split; [|done]. eexists. split; [done|]. by case_bool_decide.
Qed.

(** Documents persist with the files that they name. *)
Lemma describes_keep K w w' d elf rs files bank_files h status : keeps K w w' ->
  Forall (fun k => k ∉ K) (elf :: files ++ bank_files) ->
  describes_image w d elf rs files bank_files h status ->
  describes_image w' d elf rs files bank_files h status.
Proof.
  intros HK [He [Hf Hb]%Forall_app]%Forall_cons [Hw (e & Hef & Her) (es & Hes & Hesr & Hd) (bs & Hbs & Hbr) Hm Hs].
  constructor; [done| | | |done|done].
  - exists e. split; [done|]. by eapply recorded_keeps.
  - exists es. split_and!; [done| |done]. by eapply records_keep.
  - exists bs. split; [done|]. by eapply records_keep.
Qed.

Lemma convert_describes elf regions m o w w' c h status :
  convert elf regions m o w = (Ok tt, w') ->
  o_contract o = Some c -> o_memory_map_hash o = Some h -> o_test_status_base o = Some status ->
  writable c = true -> utf8_valid h = true -> utf8_valid (o_profile o) = true ->
  Forall (fun r => utf8_valid (region_name r) = true) regions ->
  w_links w = ∅ -> nameable (canon w elf) ->
  let files := outs w regions ++ keys w (bank_paths o) in
  Forall nameable files -> NoDup files -> canon w elf ∉ files ->
  lcanon w m ∉ canon w elf :: files ->
  keeps (lcanon w m :: files) w w' /\ exists d t,
    node_at w' (lcanon w m) = Some (File (dumps_manifest (JObj d) +:+ nl) t) /\
    (nesting (JObj d) <= host_recursion)%nat /\
    describes_image w' d (canon w elf) regions (outs w regions) (keys w (bank_paths o)) h status.
Proof.
  intros E Hc Hh Hs Hwc Huh Hup Hun Hl He files Hn Hd Hef Hm. unfold convert in E. rewrite Hc, Hh, Hs in E.
  apply Forall_app in Hn as [Hn1 Hn2]. apply NoDup_app in Hd as (Hd1 & Hdis & Hd2).
  apply bind_ok in E as ([entry segs] & w1 & E1 & E). apply Reads_parse_elf in E1 as ->.
  apply bind_ok in E as ([placed pl] & w2 & E2 & E).
  apply place_segments_same in E2 as (-> & Hsame & Hpl). cbn [fst snd] in Hsame, Hpl.
  pose proof (same_outputs w _ _ Hsame) as Ho.
  assert (Ho' : outs w placed = outs w regions) by by rewrite <- !list_fmap_compose.
  apply bind_ok in E as ([written es] & w3 & E3 & E).
  apply write_regions_recorded in E3 as (K3 & R3 & D3 & S3); rewrite ?Ho';
    [|by eapply same_names|done..].
  rewrite Ho' in K3, R3. pose proof (keys_keep _ _ _ (bank_paths o) K3) as Hk3.
  apply bind_ok in E as (banks & w4 & E4 & E).
  destruct (write_all_banks_recorded _ _ _ _ _ E4) as [K4 R4];
    [by rewrite (keeps_links _ _ _ K3)|by rewrite Hk3..|].
  rewrite Hk3 in K4, R4. assert (R3' : Forall2 (recorded w4 "file") es (outs w regions))
    by (eapply records_keep; [exact K4|by apply Forall_forall|exact R3]).
  assert (K : keeps files w w4).
  { etransitivity; [eapply keeps_mono; [|exact K3]|eapply keeps_mono; [|exact K4]]; unfold files; set_solver. }
  pose proof (keeps_links _ _ _ K) as Hl4. rewrite Hl in Hl4.
  apply bind_ok in E as (ep & w5 & E5 & E). apply bind_ok in E as (ed & w6 & E6 & E).
  destruct (named_entry _ _ _ _ _ _ E5 E6 Hl4) as (-> & Hue & Hud & Hel); [by rewrite (keeps_canon _ _ _ _ K)|].
  rewrite (keeps_canon _ _ _ _ K) in Hel.
  apply bind_ok in E as (isa & w7 & E7 & E).
  apply contract_fields_status in E7 as (-> & i & ts & -> & Hwi & Hwt & Hts); [|done].
  pose proof (keeps_lcanon _ _ _ m K) as Hlm.
  apply write_json_atomic_files in E as (K8 & _ & Hdeep & t & Ht); [|by rewrite Hl4, lookup_empty].
  rewrite Hlm in K8, Ht. split.
  { etransitivity; [apply keeps_tail, K|apply keeps_head, K8]. }
  exists (image_document (o_profile o) ep ed entry es pl banks i ts h), t. split; [exact Ht|]. split; [exact Hdeep|].
  apply (describes_keep _ _ _ _ _ _ _ _ _ _ K8).
  { apply Forall_forall. intros k Hk ->%list_elem_of_singleton. by apply Hm. }
  apply image_document_describes; try done; [by apply Hpl| |by eapply describes_same; [|etransitivity]].
  apply Hel; [solve_writable|by eexists..].
Qed.
End writes.

(** ** The checks on such a document *)

Section checks.
Context `{Host}.

Lemma load_json_keep K p w w' v : keeps K w w' -> canon w p ∉ K ->
  load_json p w = (Ok v, w) -> load_json p w' = (Ok v, w').
Proof.
  intros HK Hp E. unfold load_json in E |- *. rstep E t Et. unfold read_text in Et. rstep Et c Ec.
  apply read_raw_ok in Ec as (_ & m & Hn & Hd).
  destruct (utf8_valid c) eqn:Hu; [|done]. apply ret_ok in Et as [-> _].
  rewrite (bind_ok_eq _ _ (universal_newlines c) w' w').
  - unfold json_loads in *. destruct (loads host_recursion _); [|done|done]. by apply ret_ok in E as [-> _].
  - pose proof (keeps_file_read _ _ _ _ _ _ HK Hp Hn) as Hn'. eapply read_text_node; [done| |done].
    by rewrite (keeps_canon _ _ _ _ HK), (keeps_denied _ _ _ HK).
Qed.

Lemma sha256_file_keep K p w w' d : keeps K w w' -> canon w p ∉ K ->
  sha256_file p w = (Ok d, w) -> sha256_file p w' = (Ok d, w').
Proof.
  intros HK Hp E. apply file_digest in E as (_ & c & t & Hn & Hd & ->). unfold sha256_file.
  rewrite (bind_ok_eq _ _ (to_bytes c) w' w'); [by rewrite sha256_stream_bytes|].
  pose proof (keeps_file_read _ _ _ _ _ _ HK Hp Hn) as Hn'. eapply read_bytes_node; [done|].
  by rewrite (keeps_canon _ _ _ _ HK), (keeps_denied _ _ _ HK).
Qed.

(** A document written with [write_json_atomic] is read with its keys sorted. *)
Lemma load_json_file p w v t : canon w p ∉ w_denied w -> json_wf v = true -> json_text v = true ->
  (nesting v <= host_recursion)%nat ->
  node_at w (canon w p) = Some (File (dumps_manifest v +:+ nl) t) ->
  load_json p w = (Ok (sort_keys v), w).
Proof.
  intros Hd Hwf Htx Hdeep Hn. assert (Hok : text_ok (dumps_manifest v +:+ nl) = true)
    by (apply text_ok_app; [by apply dump_text_ok, sort_keys_text|done]).
  unfold text_ok in Hok. apply andb_true_iff in Hok as [Hu Hc].
  unfold load_json. rewrite (bind_ok_eq _ _ (dumps_manifest v +:+ nl) w w).
  2: { erewrite read_text_node by done. by rewrite universal_newlines_id. }
  unfold json_loads, dumps_manifest.
  by rewrite loads_dump; [|by apply sort_keys_wf|by rewrite nesting_sort_keys].
Qed.

(** The memory map knows the region: its name, its base and its size. *)
Definition region_known (expected : json) (r : Region) : Prop :=
  exists x b s, has_field expected (region_name r) x /\
    has_field x "base" b /\ int_text b (base r) /\
    has_field x "size" s /\ int_text s (Elf2mem.size r).

Lemma int0_of v n w : int_text v n -> int0 v w = (Ok n, w).
Proof. intros (s & -> & Hs). unfold int0. by rewrite Hs. Qed.

Lemma region_checks expected e r w : region_known expected r -> 0 <= base r -> describes e r ->
  writable e = true -> check_region expected (sort_keys e) w = (Ok tt, w).
Proof.
  intros (x & b & s & (d & -> & Hx) & Hb & Hbi & Hs & Hsi) Hpos (Hn & He & Hz) [Hwf _]%writable_spec.
  apply (has_field_sorted _ _ _ Hwf) in Hn, He, Hz. unfold check_region.
  rewrite (bind_ok_eq _ _ _ _ _ (getitem_has _ _ _ w Hn)). cbn [sort_keys get_key].
  rewrite (bind_ok_eq _ _ x w w) by by rewrite Hx. cbv beta.
  rewrite (bind_ok_eq _ _ tt w w) by by destruct Hb as (? & -> & _).
  rewrite (bind_ok_eq _ _ true w w); [done|]. unfold same_region.
  rewrite (bind_ok_eq _ _ (base r) w w).
  2: { rewrite (bind_ok_eq _ _ _ _ _ (getitem_has _ _ _ w He)). apply int0_of.
       eexists. split; [done|]. by apply py_int0_hex08. }
  rewrite (bind_ok_eq _ _ (base r) w w).
  2: { rewrite (bind_ok_eq _ _ _ _ _ (getitem_has _ _ _ w Hb)). by apply int0_of. }
  rewrite Z.eqb_refl. cbn [negb]. rewrite (bind_ok_eq _ _ _ _ _ (getitem_has _ _ _ w Hz)).
  rewrite (bind_ok_eq _ _ (Elf2mem.size r) w w).
  2: { rewrite (bind_ok_eq _ _ _ _ _ (getitem_has _ _ _ w Hs)). by apply int0_of. }
  cbn [sort_keys json_eqb]. by rewrite Z.eqb_refl.
Qed.

Lemma Forall2_sorted w key es ks : Forall2 (recorded w key) es ks ->
  Forall2 (recorded w key) (map sort_keys es) ks.
Proof.
  intros Hr. induction Hr as [|e k es ks He _ IH]; [constructor|]. constructor; [by apply recorded_sorted|done].
Qed.

Lemma entries_check w label es ks : w_links w = ∅ -> Forall plain ks ->
  Forall2 (recorded w "file") es ks ->
  for_ (map sort_keys es) (check_digest label "file") w = (Ok tt, w).
Proof.
  intros Hl Hk Hr. apply for_ok. apply Forall2_sorted in Hr. revert Hk.
  induction Hr as [|e k es' ks He _ IH]; intros Hk; [constructor|]. apply Forall_cons in Hk as [Hp Hk].
  constructor; [by eapply recorded_checks|by apply IH].
Qed.

Lemma regions_check w expected es ks rs : Forall (region_known expected) rs ->
  Forall (fun r => 0 <= base r) rs -> Forall2 describes es rs -> Forall2 (recorded w "file") es ks ->
  for_ (map sort_keys es) (check_region expected) w = (Ok tt, w).
Proof.
  intros Hk Hp Hd Hr. apply recorded_writable in Hr. apply for_ok. revert Hk Hp Hr.
  induction Hd as [|e r es rs He _ IH]; [constructor|].
  intros [Hr Hk]%Forall_cons [Hr' Hp]%Forall_cons [Hw Hws]%Forall_cons.
  constructor; [by eapply region_checks|by apply IH].
Qed.

Lemma status_checks contract expected v ot bt ts status offset base p w : writable v = true ->
  path_field contract ["peripherals"; "SYSCTRL"; "registers"; "STATUS"; "offset"] ot -> int_text ot offset ->
  path_field expected ["SYSCTRL"; "base"] bt -> int_text bt base ->
  has_field v "test_status" ts -> has_field ts "base" (JStr (hex_addr status)) ->
  status = base + offset -> 0 <= status ->
  check_status contract expected (sort_keys v) p w = (Ok tt, w).
Proof.
  intros Hwv Ho Hoi Hb Hbi Ht Hs -> Hpos. pose proof (writable_field _ _ _ Hwv Ht) as [Hwt _]%writable_spec.
  apply writable_spec in Hwv as [Hwf _].
  apply (has_field_sorted _ _ _ Hwt) in Hs. apply (has_field_sorted _ _ _ Hwf) in Ht.
  unfold check_status. rewrite (bind_ok_eq _ _ offset w w).
  2: { rewrite (bind_ok_eq _ _ _ _ _ (Ho w)). by apply int0_of. }
  rewrite (bind_ok_eq _ _ base w w).
  2: { rewrite (bind_ok_eq _ _ _ _ _ (Hb w)). by apply int0_of. }
  rewrite (bind_ok_eq _ _ (base + offset) w w).
  2: { rewrite (bind_ok_eq _ _ (sort_keys (JStr (hex_addr (base + offset)))) w w).
       - apply int0_of. eexists. split; [done|]. by apply py_int0_hex08.
       - cbn [getpath]. rewrite (bind_ok_eq _ _ _ _ _ (getitem_has _ _ _ w Ht)).
         by rewrite (bind_ok_eq _ _ _ _ _ (getitem_has _ _ _ w Hs)). }
  by rewrite Z.eqb_refl.
Qed.

(** The inputs that [check_manifest] reads, and what it takes from them. *)
Record soc_inputs (w : world) (expected : json) (h : string) (schema : json) (status : Z) : Prop := {
  in_schema : load_json (repo_path ["data"; "schemas"; "image.schema.json"]) w = (Ok schema, w);
  in_map : exists m, load_json (repo_path ["data"; "soc"; "memory_map.json"]) w = (Ok m, w) /\
    has_field m "regions" expected;
  in_hash : sha256_file (repo_path ["data"; "soc"; "memory_map.json"]) w = (Ok h, w);
  in_status : exists contract ot bt offset base,
    load_json (repo_path ["data"; "soc"; "software_contract.json"]) w = (Ok contract, w) /\
    path_field contract ["peripherals"; "SYSCTRL"; "registers"; "STATUS"; "offset"] ot /\ int_text ot offset /\
    path_field expected ["SYSCTRL"; "base"] bt /\ int_text bt base /\ status = base + offset /\
    json_text contract = true
}.

Lemma soc_inputs_keep K w w' expected h schema status : keeps K w w' ->
  (forall f, f ∈ [["data"; "schemas"; "image.schema.json"]; ["data"; "soc"; "memory_map.json"];
                  ["data"; "soc"; "software_contract.json"]] -> canon w (repo_path f) ∉ K) ->
  soc_inputs w expected h schema status -> soc_inputs w' expected h schema status.
Proof.
  intros HK Hf [Hs (m & Hm & Hr) Hh (c & ot & bt & o & b & Hc & Hrest)]. constructor.
  - eapply load_json_keep; [done| |done]. apply Hf. set_solver.
  - exists m. split; [|done]. eapply load_json_keep; [done| |done]. apply Hf. set_solver.
  - eapply sha256_file_keep; [done| |done]. apply Hf. set_solver.
  - exists c, ot, bt, o, b. split; [|done]. eapply load_json_keep; [done| |done]. apply Hf. set_solver.
Qed.

Lemma described_accepted p w d t elf rs files bank_files h status schema expected :
  w_links w = ∅ -> canon w p ∉ w_denied w ->
  node_at w (canon w p) = Some (File (dumps_manifest (JObj d) +:+ nl) t) ->
  (nesting (JObj d) <= host_recursion)%nat -> soc_inputs w expected h schema status ->
  Forall (region_known expected) rs -> Forall (fun r => 0 <= base r) rs -> 0 <= status ->
  plain elf -> Forall plain files -> Forall plain bank_files ->
  describes_image w d elf rs files bank_files h status ->
  load_json p w = (Ok (sort_keys (JObj d)), w) /\
  (host_validate schema (sort_keys (JObj d)) = None ->
   check_manifest p w = (Ok tt, log (EvOut ("Image OK: " +:+ path_str p +:+ nl)) w)).
Proof.
  intros Hl Hd Hn Hdeep [Hs (m & Hm & Hmr) Hh (c & ot & bt & o & b & Hc & Ho & Hoi & Hb & Hbi & Hst & _)]
    Hknown Hpos Hspos Hpe Hpf Hpb
    [Hwv (e & He & Her) (es & Hes & Hesr & Hesd) (bs & Hbs & Hbsr) Hmap (ts & Hts & Htsb)].
  pose proof Hwv as [Hwf Htx]%writable_spec.
  pose proof (load_json_file p w _ t Hd Hwf Htx Hdeep Hn) as Hload. split; [exact Hload|]. intros Hval.
  apply (has_field_sorted _ _ _ Hwf) in He, Hes, Hmap.
  unfold check_manifest. rewrite (bind_ok_eq _ _ _ _ _ Hload).
  rewrite (bind_ok_eq _ _ _ _ _ Hs). rewrite (bind_ok_eq _ _ tt w w) by (unfold validate; by rewrite Hval).
  cbv beta zeta. rewrite (bind_ok_eq _ _ _ _ _ Hm), (bind_ok_eq _ _ _ _ _ Hc), (bind_ok_eq _ _ _ _ _ Hh).
  rewrite (bind_ok_eq _ _ _ _ _ (getitem_has _ _ _ w Hmap)).
  change (json_eqb (sort_keys (JStr h)) (JStr h)) with (String.eqb h h). rewrite String.eqb_refl.
  rewrite (bind_ok_eq _ _ tt w w) by done.
  rewrite (bind_ok_eq _ _ _ _ _ (getitem_has _ _ _ w Hmr)).
  rewrite (bind_ok_eq _ _ (map sort_keys es) w w)
    by by rewrite (bind_ok_eq _ _ _ _ _ (getitem_has _ _ _ w Hes)).
  rewrite (bind_ok_eq _ _ tt w w) by by eapply regions_check.
  rewrite (bind_ok_eq _ _ tt w w)
    by by apply (status_checks c expected (JObj d) ot bt ts status o b).
  rewrite (bind_ok_eq _ _ _ _ _ (getitem_has _ _ _ w He)).
  rewrite (bind_ok_eq _ _ tt w w) by (eapply recorded_checks; [done|exact Hpe|by apply recorded_sorted]).
  rewrite (bind_ok_eq _ _ tt w w) by by apply (entries_check w "region" es files).
  rewrite (bind_ok_eq _ _ (map sort_keys bs) w w); cycle 1.
  { cbn [json_wf] in Hwf. apply andb_true_iff in Hwf as [Hnd _]. apply bool_decide_eq_true in Hnd.
    destruct (dict_get_sort_keys d "banks" Hnd) as (d' & -> & Hd').
    unfold get_default. rewrite Hd', Hbs. by case_bool_decide; subst. }
  rewrite (bind_ok_eq _ _ tt w w); [done|]. by apply (entries_check w "bank" bs bank_files).
Qed.
End checks.

(** ** The two commands *)

Section commands.
Context `{Host}.
Variable Hroot : plain host_root.
Variable Hcwd : Forall (fun n => n <> "..") host_cwd.

Notation keys w l := ((fun p => canon w p) <$> l).

Lemma resolve_key w p : w_links w = ∅ -> canon w (Path true (canon w p)) = canon w p.
Proof. intros Hl. by apply canon_no_links. Qed.

(** The bank files that the options name. *)
Definition arg_banks (a : args) : list path :=
  from_option (fun p => [p]) [] (a_code_bank_low a) ++
  from_option (fun p => [p]) [] (a_code_bank_high a) ++
  default [] (a_iccm_lane a) ++ default [] (a_dccm_bank a).

Lemma Reads_resolve_opt p : Reads (resolve_opt p).
Proof. unfold resolve_opt. solve_reads. Qed.
Lemma Reads_resolve_list l : Reads (resolve_list l).
Proof. unfold resolve_list. solve_reads. Qed.
#[local] Hint Resolve Reads_resolve_opt Reads_resolve_list : reads.

Lemma resolve_opt_keys p q w w' : resolve_opt p w = (Ok q, w') -> w_links w = ∅ ->
  keys w (from_option (fun x => [x]) [] q) = keys w (from_option (fun x => [x]) [] p).
Proof.
  intros E Hl. destruct p as [p|]; [|by apply ret_ok in E as [-> _]]. unfold resolve_opt in E.
  rstep E r Er. apply gets_ok in Er as [-> _]. apply ret_ok in E as [-> _].
  cbn [from_option]. rewrite !list_fmap_singleton. by rewrite resolve_key.
Qed.

Lemma resolve_list_keys l q w w' : resolve_list l w = (Ok q, w') -> w_links w = ∅ ->
  keys w (default [] q) = keys w (default [] l).
Proof.
  intros E Hl. destruct l as [[|p l]|]; [by apply ret_ok in E as [-> _]| |by apply ret_ok in E as [-> _]].
  unfold resolve_list in E. rstep E r Er. apply ret_ok in E as [-> _].
  apply map_m_reads in Er as [_ Hr]; [|intros; apply Reads_resolve].
  change (keys w r = keys w (p :: l)). induction Hr as [|x y l' r Hy _ IH]; [done|]. rewrite !fmap_cons, IH. f_equal.
  apply gets_ok in Hy as [-> _]. by rewrite resolve_key.
Qed.

Lemma Reads_parse s : Reads (parse s).
Proof. unfold parse, int_base_0. solve_reads. Qed.

Lemma parse_nonneg s r w w' : parse s w = (Ok r, w') -> w' = w /\ 0 <= base r.
Proof.
  unfold parse, int_base_0. intros E. destruct (split_max ":" 3 s) as [|n [|b [|z [|o [|? ?]]]]]; try done.
  rstep E x Ex. rstep E y Ey. destruct (_ || _) eqn:Eb; [done|]. apply ret_ok in E as [-> ->].
  split; [done|]. cbn. bool_props. lia.
Qed.

Lemma parsed_bases l rs w w' : map_m parse l w = (Ok rs, w') -> Forall (fun r => 0 <= base r) rs.
Proof.
  intros Hr. apply map_m_reads in Hr as [_ Hr]; [|apply Reads_parse].
  induction Hr as [|x r l rs Hx _ IH]; constructor; [|done]. by apply parse_nonneg in Hx as [_ ?].
Qed.

Lemma nameable_plain ks : Forall nameable ks -> Forall plain ks.
Proof. intros Hks. eapply Forall_impl; [exact Hks|]. by intros k [Hk _]. Qed.

(** A run whose files are apart: nothing that it writes is among its inputs, and nothing is
    written twice. *)
Record run_apart (w : world) (a : args) (regions : list Region) : Prop := {
  apart_links : w_links w = ∅;
  apart_readable : canon w (a_manifest a) ∉ w_denied w;
  apart_elf : nameable (canon w (a_elf a));
  apart_files : Forall nameable (keys w ((output <$> regions) ++ arg_banks a));
  apart_written : NoDup (keys w (a_manifest a :: (output <$> regions) ++ arg_banks a));
  apart_inputs : forall p, p ∈ [a_elf a; repo_path ["data"; "schemas"; "image.schema.json"];
      repo_path ["data"; "soc"; "memory_map.json"]; repo_path ["data"; "soc"; "software_contract.json"]] ->
    canon w p ∉ keys w (a_manifest a :: (output <$> regions) ++ arg_banks a);
  apart_text : utf8_valid (a_profile a) = true;
  apart_names : Forall (fun r => utf8_valid (region_name r) = true) regions
}.

(** What the command hands to [convert]. *)
Lemma main_converts a w n w' : main a w = (Ok n, w') -> w_links w = ∅ ->
  a_memory_map a = repo_path ["data"; "soc"; "memory_map.json"] ->
  a_contract a = repo_path ["data"; "soc"; "software_contract.json"] ->
  forall regions expected h schema status, map_m parse (a_region a) w = (Ok regions, w) ->
  soc_inputs w expected h schema status ->
  exists o c w1, convert (Path true (canon w (a_elf a))) regions (Path true (canon w (a_manifest a))) o w = (Ok tt, w1) /\
    o_contract o = Some c /\ writable c = true /\ o_memory_map_hash o = Some h /\
    o_test_status_base o = Some status /\ o_profile o = a_profile a /\
    keys w (bank_paths o) = keys w (arg_banks a) /\
    w' = log (EvOut ("Image manifest: " +:+ path_str (Path true (canon w1 (a_manifest a))) +:+ nl)) w1.
Proof.
  intros E Hl Hm Hc regions expected h schema status Hr
    [_ (mm & Hmm & d & -> & Hreg) Hh (c & ot & bt & o & b & Hcc & Ho & Hoi & Hb & Hbi & -> & Hw)].
  unfold main in E. rewrite Hm, Hc in E.
  apply bind_ok in E as (rs & w0 & E0 & E). unfold try_except in E0. rewrite Hr in E0. injection E0 as <- <-.
  apply bind_ok in E as ([] & w1 & E1 & E).
  unfold try_except in E1.
  match type of E1 with (let '_ := ?m w in _) = _ => destruct (m w) as [[[]|e] w2] eqn:E2 end;
    [|by destruct (is_os_error e || is_value_error e)].
  injection E1 as <-. rename w2 into w1.
  rewrite (bind_ok_eq _ _ _ _ _ Hcc), (bind_ok_eq _ _ _ _ _ Hmm) in E2.
  rstep E2 elf Eelf. apply gets_ok in Eelf as [-> _]. rstep E2 man Eman. apply gets_ok in Eman as [-> _].
  rewrite (bind_ok_eq _ _ _ _ _ Hh) in E2. rstep E2 sys Es. rstep E2 sb Esb.
  rstep E2 st Est. rstep E2 so Eso. rstep E2 low Elow. rstep E2 high Ehigh. rstep E2 lanes Elanes.
  rstep E2 dccm Edccm.
  assert (sys = bt) as ->.
  { cbn [getpath] in Es. rewrite (bind_ok_eq _ _ expected w w) in Es by (apply getitem_has; by eexists).
    specialize (Hb w). cbn [getpath] in Hb. rewrite Hb in Es. by injection Es as <-. }
  rewrite (Ho w) in Est. injection Est as <-.
  rewrite (int0_of _ _ w Hbi) in Esb. injection Esb as <-.
  rewrite (int0_of _ _ w Hoi) in Eso. injection Eso as <-.
  assert (Hwr : writable c = true)
    by (apply writable_spec; split; [by eapply load_json_wf|done]).
  do 3 eexists. split; [exact E2|]. cbn [o_contract o_memory_map_hash o_test_status_base o_profile].
  split_and!; try done.
  - unfold bank_paths, arg_banks. cbn [o_code_bank_low o_code_bank_high o_iccm_lanes o_dccm_banks].
    rewrite !fmap_app. rewrite (resolve_opt_keys _ _ _ _ Elow), (resolve_opt_keys _ _ _ _ Ehigh),
      (resolve_list_keys _ _ _ _ Elanes), (resolve_list_keys _ _ _ _ Edccm) by done. done.
  - rstep E m Em. apply gets_ok in Em as [-> _]. apply bind_ok in E as ([] & w3 & E3 & E).
    apply ret_ok in E as [_ ->]. by injection E3 as <-.
Qed.
End commands.

Lemma images_main_one `{Host} p w w' : check_manifest (Path true (canon w p)) w = (Ok tt, w') ->
  images_main [p] w = (Ok 0, w').
Proof.
  intros E. unfold images_main. rewrite (bind_ok_eq _ _ [p] w w) by done.
  rewrite (bind_ok_eq _ _ tt w w) by by case_bool_decide.
  rewrite (bind_ok_eq _ _ tt w w'); [done|]. unfold or_usage_error, try_except. cbn [for_].
  rewrite (bind_ok_eq _ _ tt w w'); [done|].
  by rewrite (bind_ok_eq _ _ (Path true (canon w p)) w w).
Qed.

(** What a run of the command leaves: a manifest that describes the image files, and
    nothing else of the store changed. *)
Lemma main_describes `{Host} a n w w' regions expected h schema status :
  main a w = (Ok n, w') ->
  Forall (fun x => plain_name x = true) host_root -> Forall (fun x => x <> "..") host_cwd ->
  a_memory_map a = repo_path ["data"; "soc"; "memory_map.json"] ->
  a_contract a = repo_path ["data"; "soc"; "software_contract.json"] ->
  map_m parse (a_region a) w = (Ok regions, w) -> run_apart w a regions ->
  soc_inputs w expected h schema status ->
  let outputs := (fun p => canon w p) <$> (output <$> regions) in
  let banks := (fun p => canon w p) <$> arg_banks a in
  keeps (canon w (a_manifest a) :: outputs ++ banks) w w' /\ exists d t,
    node_at w' (canon w (a_manifest a)) = Some (File (dumps_manifest (JObj d) +:+ nl) t) /\
    (nesting (JObj d) <= host_recursion)%nat /\
    describes_image w' d (canon w (a_elf a)) regions outputs banks h status.
Proof.
  intros E Hroot Hcwd Hm Hc Hr [Hl Hden Helf Hfiles Hnd Hin Hpr Hnm] Hsoc. cbv zeta.
  assert (Hh : utf8_valid h = true)
    by (destruct Hsoc as [_ _ (_ & ? & ? & _ & _ & ->)%file_digest _]; apply utf8_digest).
  destruct (main_converts Hcwd _ _ _ _ E Hl Hm Hc _ _ _ _ _ Hr Hsoc)
    as (o & c & w1 & E1 & Hoc & Hwc & Hoh & Hos & Hop & Hob & ->).
  pose proof (resolve_key Hcwd w (a_elf a) Hl) as Hke.
  assert (Hkm : lcanon w (Path true (canon w (a_manifest a))) = canon w (a_manifest a)).
  { rewrite <- canon_lcanon; [by apply resolve_key|]. by rewrite Hl. }
  rewrite fmap_cons, fmap_app in *. rewrite <- Hob in *. apply NoDup_cons in Hnd as [Hmn Hnd].
  assert (Hef := Hin (a_elf a) ltac:(left)). apply not_elem_of_cons in Hef as [Hem Hef].
  destruct (convert_describes Hroot _ _ _ _ _ _ _ _ _ E1 Hoc Hoh Hos Hwc Hh) as [K (d & t & Hn & Hdeep & Hd)];
    rewrite ?Hkm, ?Hke, ?Hop; try done.
  { apply not_elem_of_cons. split; [congruence|done]. }
  rewrite Hkm, Hke in *.
  set (w2 := log _ w1). assert (K2 : keeps [] w1 w2) by by apply keeps_same.
  split; [etransitivity; [exact K|by apply keeps_nil]|]. exists d, t. split_and!; [done..|].
  eapply describes_keep; [exact K2| |exact Hd]. apply Forall_true; intros; apply not_elem_of_nil.
Qed.

(** ** Property *)

(** C4: what [elf2mem] writes, [check_images] accepts.  After a run of [elf2mem] on the memory
    map and the contract of the repository, with regions that the map knows and files apart
    from one another, the manifest reads back as a document, and if the schema admits that
    document, [check_images] on it returns 0: the memory map is the one recorded, every region
    has the name, the base and the size of the map, the test status is at the register's
    address, and the ELF file, the flat images and the banks have the recorded digests,
    under the names that the document gives them.  It changes no file. *)
Theorem converted_image_accepted `{Host} a n w w' regions expected h schema status :
  main a w = (Ok n, w') ->
  Forall (fun x => plain_name x = true) host_root -> Forall (fun x => x <> "..") host_cwd ->
  a_memory_map a = repo_path ["data"; "soc"; "memory_map.json"] ->
  a_contract a = repo_path ["data"; "soc"; "software_contract.json"] ->
  map_m parse (a_region a) w = (Ok regions, w) -> run_apart w a regions ->
  soc_inputs w expected h schema status -> 0 <= status ->
  Forall (region_known expected) regions ->
  exists document, load_json (a_manifest a) w' = (Ok document, w') /\
    (host_validate schema document = None ->
     exists w2, images_main [a_manifest a] w' = (Ok 0, w2) /\ w_fs w2 = w_fs w').
Proof.
  intros E Hroot Hcwd Hm Hc Hr Hap Hsoc Hst Hk.
  destruct (main_describes _ _ _ _ _ _ _ _ _ E Hroot Hcwd Hm Hc Hr Hap Hsoc) as [K (d & t & Hn & Hdeep & Hd)].
  destruct Hap as [Hl Hden Helf Hfiles Hnd Hin Hpr Hnm].
  rewrite fmap_cons, fmap_app in *. apply NoDup_cons in Hnd as [Hmn Hnd].
  assert (Hl' : w_links w' = ∅) by by rewrite (keeps_links _ _ _ K).
  assert (Hc' : canon w' (a_manifest a) = canon w (a_manifest a)) by by eapply keeps_canon.
  assert (Hc2 : canon w' (Path true (canon w' (a_manifest a))) = canon w (a_manifest a))
    by (rewrite (resolve_key Hcwd) by done; done).
  apply (soc_inputs_keep _ _ _ _ _ _ _ K) in Hsoc.
  2: { intros f Hf. apply Hin. set_solver. }
  apply Forall_app in Hfiles as [Hf1 Hf2].
  apply parsed_bases in Hr.
  assert (Hacc : forall p, canon w' p = canon w (a_manifest a) ->
    load_json p w' = (Ok (sort_keys (JObj d)), w') /\
    (host_validate schema (sort_keys (JObj d)) = None ->
     check_manifest p w' = (Ok tt, log (EvOut ("Image OK: " +:+ path_str p +:+ nl)) w'))).
  { intros p Hp. apply (described_accepted p w' d t (canon w (a_elf a)) regions
      (canon w <$> (output <$> regions)) (canon w <$> arg_banks a) h status schema expected);
      rewrite ?Hp; try done.
    - by rewrite (keeps_denied _ _ _ K).
    - apply Helf.
    - by apply nameable_plain.
    - by apply nameable_plain. }
  exists (sort_keys (JObj d)). split; [by apply Hacc|]. intros Hval.
  apply (Hacc _ Hc2), images_main_one in Hval. by eexists.
Qed.

(** *** An instance *)

Definition demo_map : json := JObj [("regions", JObj
  [("CODE", JObj [("base", JStr "0x0"); ("size", JStr "0x10")]);
   ("DATA", JObj [("base", JStr "0x1000"); ("size", JStr "16")]);
   ("SYSCTRL", JObj [("base", JStr "0x10000000"); ("size", JStr "0x1000")])])].
Definition demo_regions_value : json := default JNull
  match demo_map with JObj d => dict_get "regions" d | _ => None end.
Definition demo_contract : json := JObj
  [("cpu", JObj [("xlen", JInt 32); ("march", JStr "rv32imc"); ("mabi", JStr "ilp32")]);
   ("test_status", JObj [("pass_magic", JStr "0x600d600d"); ("fail_magic", JStr "0xbad0bad0")]);
   ("peripherals", JObj [("SYSCTRL", JObj [("registers", JObj
      [("STATUS", JObj [("offset", JStr "0x8")])])])])].
Definition demo_run_world : world := demo_world
  [(["repo"; "a.elf"], of_bytes demo_elf);
   (["repo"; "data"; "schemas"; "image.schema.json"], "{}");
   (["repo"; "data"; "soc"; "memory_map.json"], dumps demo_map);
   (["repo"; "data"; "soc"; "software_contract.json"], dumps demo_contract)] [["repo"]].
Definition demo_args : args := {|
  a_elf := parse_path "a.elf";
  a_region := ["CODE:0:16:build/code.mem"; "DATA:0x1000:16:build/data.mem"];
  a_manifest := parse_path "build/image.json";
  a_profile := "demo";
  a_contract := repo_path (H := demo) ["data"; "soc"; "software_contract.json"];
  a_memory_map := repo_path (H := demo) ["data"; "soc"; "memory_map.json"];
  a_trim := false;
  a_code_bank_low := None; a_code_bank_high := None;
  a_iccm_lane := Some ((fun n => parse_path ("build/lane" +:+ n)) <$> ["0"; "1"; "2"; "3"]);
  a_dccm_bank := None |}.
Definition demo_run_regions : list Region :=
  [{| region_name := "CODE"; base := 0; Elf2mem.size := 16; output := Path false ["build"; "code.mem"];
      image := zeros 16; used_end := 0; stored_words := 0 |};
   {| region_name := "DATA"; base := 4096; Elf2mem.size := 16; output := Path false ["build"; "data.mem"];
      image := zeros 16; used_end := 0; stored_words := 0 |}].
Definition demo_hash : string := sha256_text (dumps demo_map).
#[local] Notation demo_run := (main (H := demo) demo_args demo_run_world).

Lemma converted_image_accepted_witness :
  exists document, load_json (H := demo) (a_manifest demo_args) demo_run.2 = (Ok document, demo_run.2) /\
    (@None string = None -> exists w2, images_main (H := demo) [a_manifest demo_args] demo_run.2 = (Ok 0, w2) /\
       w_fs w2 = w_fs demo_run.2).
Proof.
  refine (converted_image_accepted (H := demo) demo_args 0 demo_run_world demo_run.2 demo_run_regions
    demo_regions_value demo_hash (JObj []) 268435464 _ _ _ _ _ _ _ _ _ _).
  - by_eval.
  - repeat constructor.
  - repeat constructor; done.
  - reflexivity.
  - reflexivity.
  - by_eval.
  - constructor.
    + reflexivity.
    + apply not_elem_of_empty.
    + apply (bool_decide_unpack _). vm_compute. exact I.
    + apply (bool_decide_unpack _). vm_compute. exact I.
    + apply (bool_decide_unpack _). vm_compute. exact I.
    + apply Forall_forall, (bool_decide_unpack _). vm_compute. exact I.
    + reflexivity.
    + repeat constructor.
  - constructor.
    + by_eval.
    + exists demo_map. split; [by_eval|]. by eexists.
    + by_eval.
    + exists demo_contract, (JStr "0x8"), (JStr "0x10000000"), 8, 268435456.
      split_and!; [by_eval|done|by eexists|done|by eexists|done|by_eval].
  - lia.
  - repeat constructor; do 3 eexists; split_and!; by eexists.
Defined.
