(* ===== verification/UnitTests.v ===== *)
(** [scripts/tests/]: the unit tests of the repository, run on the model.  A test is an operation
    that raises [AssertionError], or what the code under test raises, when it fails.  The tests
    that read the RTL, the constraints and the Tcl of the boards, and those that digest or
    generate texts of tens of thousands of characters, are left out. *)
From Stdlib Require Import ZArith Lia.
From S2P Require Import BuildSoftware Elf2mem IsaTests Environment Competition ImageFlow.
From S2P Require Import Prelude Str Json Regex Sha256 Py Store Lib Bytes Helpers Mmi PatchBit.
Local Open Scope Z_scope.
Local Open Scope py_scope.

(** ** Assertions *)

(** [self.assertTrue(b)], and [self.assertEqual(a, b)] on the values a test compares. *)
Definition assert_true (b : bool) : M unit := fail_if (negb b) AssertionError "False is not true".
Definition assert_equal {A} `{EqDecision A} (a b : A) : M unit := assert_true (bool_decide (a = b)).
Definition assert_json (a b : json) : M unit := assert_true (json_eqb a b).
(** [self.assertIn(fragment, text)] *)
Definition assert_in (fragment text : string) : M unit := assert_true (Str.contains fragment text).
(** [with self.assertRaisesRegex(k, fragment): m], the pattern being a plain text. *)
Definition assert_raises {A} (k : exn -> bool) (fragment : string) (m : M A) : M unit := fun w =>
  match m w with
  | (Ok _, w') => raise AssertionError "exception not raised" w'
  | (Raise e, w') =>
      if k e then assert_true (Str.contains fragment (exn_msg e)) w' else (Raise e, w')
  end.
Definition is_error (k : exn_kind) (e : exn) : bool :=
  match e with Err k' _ => bool_decide (k' = k) | SysExit _ _ => false end.

(** ** [test_elf2mem.py] *)

Definition synthetic_elf : list Z :=
  let ident := [127; 69; 76; 70; 1; 1; 1] ++ replicate 9 0 in
  let header := ident ++ concat (zip_with to_le (drop 1 ELF_HEADER)
    [2; 243; 1; 0; struct_size ELF_HEADER; 0; 0; struct_size ELF_HEADER; struct_size PROGRAM_HEADER; 2; 0; 0; 0]) in
  let code_offset := 256 in
  let data_offset := 260 in
  let code_header := concat (zip_with to_le PROGRAM_HEADER [1; code_offset; 0; 0; 4; 4; 5; 4]) in
  let data_header := concat (zip_with to_le PROGRAM_HEADER [1; data_offset; 4096; 4096; 4; 8; 6; 4]) in
  let blob0 := zeros (data_offset + 4) in
  let blob1 := slice_set blob0 0 (len header) header in
  let h := struct_size ELF_HEADER in
  let p := struct_size PROGRAM_HEADER in
  let blob2 := slice_set blob1 h (h + p) code_header in
  let blob3 := slice_set blob2 (h + p) (h + p + p) data_header in
  let blob4 := slice_set blob3 code_offset (code_offset + 4) [1; 2; 3; 4] in
  slice_set blob4 data_offset (data_offset + 4) [170; 187; 204; 221].

Section tests.
Context `{Host}.

(** [tempfile.TemporaryDirectory()] *)
Definition temporary {A} (body : path -> M A) : M A := with_temp_dir "tmp" body.

Definition first_lines (p : path) : M (list string) := t ← read_text p; mret (splitlines t).

Definition test_split_regions_and_zero_fill : M unit :=
  let schema_path := repo_path ["data"; "schemas"; "image.schema.json"] in
  temporary (fun root =>
    let elf := pnames root ["test.elf"] in
    let code := pnames root ["code.mem"] in
    let data := pnames root ["data.mem"] in
    let manifest := pnames root ["image.json"] in
    write_raw elf (of_bytes synthetic_elf) ;;
    returncode ← Elf2mem.main {|
      a_elf := elf;
      a_region := ["CODE:0x0:16:" +:+ path_str code; "DATA:0x1000:16:" +:+ path_str data];
      a_manifest := manifest;
      a_profile := "unspecified";
      a_contract := repo_path ["data"; "soc"; "software_contract.json"];
      a_memory_map := repo_path ["data"; "soc"; "memory_map.json"];
      a_trim := false;
      a_code_bank_low := None; a_code_bank_high := None;
      a_iccm_lane := None; a_dccm_bank := None |};
    assert_equal returncode 0 ;;
    code_lines ← first_lines code;
    assert_equal (code_lines !! 0%nat) (Some "04030201") ;;
    data_lines ← first_lines data;
    assert_equal (data_lines !! 0%nat) (Some "ddccbbaa") ;;
    assert_equal (data_lines !! 1%nat) (Some "00000000") ;;
    image ← load_json manifest;
    entry ← getitem image "entry";
    assert_json entry (JStr "0x00000000") ;;
    regions ← (x ← getitem image "regions"; items_of x);
    used ← map_m (fun r => getitem r "used") regions;
    assert_json (JArr used) (JArr [JInt 4; JInt 8]) ;;
    schema ← load_json schema_path;
    validate schema image).

(** ** [test_bitstream_patch.py] *)

Definition test_flat_mem_validation_and_interleave : M unit :=
  temporary (fun root =>
    let p := pnames root ["code.mem"] in
    write_raw p (join nl ["00000000"; "00000001"; "00000002"; "00000003"; ""]) ;;
    words ← read_flat_mem p 4;
    ways ← split_words words 2;
    assert_equal ways [["00000000"; "00000002"]; ["00000001"; "00000003"]]).

(** A row of the BRAM map. *)
Definition bram_row (cell loc : string) (width layout : string) : string :=
  join tab [cell; loc; "RAMB36E1"; "BMEM.bram.RAMB36E1"; width; width; width; width; "TDP"; "0"; "0"; layout; layout].
Definition bram_lines (part : string) : list string :=
  ["# bram_map_version=1"; "# part=" +:+ part; "# source_bit=C:/base/project/socrv.runs/impl_1/fpga_top.bit";
   join tab ["cell"; "loc"; "ref_name"; "primitive_type"; "read_width_a"; "read_width_b"; "write_width_a";
             "write_width_b"; "ram_mode"; "doa_reg"; "dob_reg"; "porta_layout"; "portb_layout"]] ++
  concat ((fun lane => (fun index =>
    bram_row ("u_soc/core/mem/iccm/lane" +:+ str_of_Z lane +:+ "_reg_" +:+ str_of_Z index)
             ("RAMB36_X0Y" +:+ str_of_Z (lane * 8 + index)) "4" "p0_d4") <$> seqZ 0 8) <$> seqZ 0 4) ++
  concat ((fun bank => (fun il =>
    bram_row ("u_soc/core/mem/Gen_dccm_enable.dccm/dccm_bank_gen[" +:+ str_of_Z bank +:+ "].bank_mem_reg_" +:+
              str_of_Z il.1) ("RAMB36_X1Y" +:+ str_of_Z (bank * 2 + il.1)) "18" il.2)
    <$> [(0, "p2_d16"); (1, "p0_d14")]) <$> seqZ 0 8).
Definition write_bram_map (p : path) (part : string) : M unit :=
  write_raw p (join nl (bram_lines part) +:+ nl).

Definition make_patch_tree (root : path) : M (path * path * path) :=
  let base_dir := pnames root ["base"; "vivado"; "pynq_z2-50mhz"] in
  let out_dir := pnames root ["target"] in
  let base_bit := joinpath base_dir BASE_BIT_RELATIVE in
  mkdir true false (parent base_bit) ;;
  write_raw base_bit "test-bitstream" ;;
  write_bram_map (pnames base_dir ["bram_map.tsv"]) "xc7z020clg400-1" ;;
  let images := pnames out_dir ["images"] in
  mkdir true false images ;;
  write_raw (pnames images ["code.mem"]) (mem_text (zeros 32768)) ;;
  write_raw (pnames images ["data.mem"]) (mem_text (zeros 16384)) ;;
  let executable := pnames root ["updatemem.bat"] in
  write_raw executable "" ;;
  mret (base_dir, out_dir, executable).

(** One missing input; the test's [args[0]] is the path itself, here the message. *)
Definition missing_input (in_base : bool) (missing : path) : M unit :=
  temporary (fun root =>
    '(base_dir, out_dir, executable) ← make_patch_tree root;
    let target := joinpath (if in_base then base_dir else out_dir) missing in
    unlink false target ;;
    assert_raises (is_error FileNotFoundError) (path_str target) (patch base_dir out_dir (Some executable))).
Definition test_patch_reports_each_missing_required_input : M unit :=
  for_ [(true, BASE_BIT_RELATIVE); (true, Path false ["bram_map.tsv"]);
        (false, Path false ["images"; "code.mem"]); (false, Path false ["images"; "data.mem"])]
    (fun bm => missing_input bm.1 bm.2).

Definition existing_result (result_name : string) : M unit :=
  temporary (fun root =>
    '(base_dir, out_dir, executable) ← make_patch_tree root;
    write_raw (pnames out_dir ["build_report.json"]) ("{}" +:+ nl) ;;
    write_raw (pnames out_dir [result_name]) ("existing" +:+ nl) ;;
    assert_raises (is_error FileExistsError) "refusing to overwrite" (patch base_dir out_dir (Some executable))).
Definition test_patch_allows_built_output_run_but_refuses_existing_results : M unit :=
  for_ ["competition.bit"; "patch_result.json"] existing_result.

(** ** [test_fpga_boards.py] *)

Definition test_board_defaults : M unit :=
  a ← resolve_core_mhz axku062 None; assert_equal a 100 ;;
  k ← resolve_core_mhz kintex7_competition None; assert_equal k 100 ;;
  p ← resolve_core_mhz pynq_z2 None; assert_equal p 50 ;;
  assert_equal (default_profile axku062) "rtthread-coremark" ;;
  assert_equal (default_profile kintex7_competition) "rtthread-coremark" ;;
  assert_equal (default_profile pynq_z2) "rtthread".

Definition test_pynq_rejects_frequency_sweep : M unit :=
  assert_raises is_value_error "choose one of: 50" (resolve_core_mhz pynq_z2 (Some 100)).

(** The arithmetic of the test is in hundredths of a MHz. *)
Definition assert_clock_table (board : FpgaBoard) : M unit :=
  for_ (supported_core_mhz board) (fun core_mhz => assert_true (clock_ok board core_mhz)).

Definition clock_contract (board : FpgaBoard) (supported : list Z) : M unit :=
  assert_equal (supported_core_mhz board) supported ;;
  for_ (range_step 100 251 10) (fun core_mhz =>
    m ← resolve_core_mhz board (Some core_mhz); assert_equal m core_mhz) ;;
  assert_clock_table board.
Definition test_kintex_release_clock_contract : M unit :=
  clock_contract kintex7_competition ([100; 110; 120; 125] ++ range_step 130 251 10).
Definition test_axku062_clock_contract : M unit :=
  clock_contract axku062 ([50; 100; 110; 120; 125] ++ range_step 130 251 10).

Definition test_build_directories_are_board_scoped : M unit :=
  assert_equal (name (fpga_build_root kintex7_competition "smoke" 100)) "kintex7-smoke-100mhz" ;;
  assert_equal (name (fpga_build_root pynq_z2 "rtthread" 50)) "pynq_z2-rtthread-50mhz" ;;
  assert_equal (name (fpga_build_root axku062 "rtthread-coremark" 100)) "axku062-rtthread-coremark-100mhz".
End tests.

(** ** [test_isa_selection.py] *)

Definition gate (ready : bool) (suites excluded : list string) (reason : json) : json := JObj
  [("ready", JBool ready); ("suites", JArr (JStr <$> suites)); ("excluded_tests", JArr (JStr <$> excluded));
   ("blocked_reason", reason)].
Definition isa_test (suite n : string) : json := JObj [("suite", JStr suite); ("name", JStr n)].
(** [setUp] *)
Definition isa_manifest : json := JObj
  [("gates", JObj
    [("current", gate true ["rv32ui"] ["rv32ui/fence_i"] JNull);
     ("final-base", gate true ["rv32ui"; "rv32mi"; "rv32um"] [] JNull);
     ("final", gate false ["rv32ui"; "rv32mi"; "rv32um"] [] (JStr "select floating point"))]);
   ("tests", JArr [isa_test "rv32ui" "add"; isa_test "rv32ui" "fence_i"; isa_test "rv32mi" "csr";
                   isa_test "rv32um" "mul"])].

Definition test_current_gate_excludes_fence_i : M unit :=
  selected ← select_tests isa_manifest "current" None None;
  pairs ← map_m (fun t => x ← getitem t "suite"; suite ← as_str x;
                          y ← getitem t "name"; n ← as_str y; mret (suite, n)) selected;
  assert_equal pairs [("rv32ui", "add")].
Definition test_final_base_uses_all_mandatory_suites : M unit :=
  selected ← select_tests isa_manifest "final-base" None None;
  suites ← map_m (fun t => x ← getitem t "suite"; as_str x) selected;
  assert_true (bool_decide ((list_to_set suites : gset string) = list_to_set ["rv32ui"; "rv32mi"; "rv32um"])).
Definition test_qualified_name_selects_one_test : M unit :=
  selected ← select_tests isa_manifest "final-base" None (Some {["rv32um/mul"]});
  assert_json (JArr selected) (JArr [isa_test "rv32um" "mul"]).
Definition test_blocked_final_gate_fails_before_simulation : M unit :=
  assert_raises is_value_error "not ready" (select_tests isa_manifest "final" None None).

(** ** [test_permission_repair.py] *)

(** [subprocess.run] replaced by one that completes with the given output. *)
Definition completing (out : string) : Host :=
  demo_exec_host ["repo"] (fun _ w => (Done 0 out "", w)).

Definition test_icacls_failed_processing_is_an_error : M unit :=
  assert_raises is_runtime_error "Failed processing 2 files"
    (run_permission_command
       (H := completing ("Successfully processed 0 files; Failed processing 2 files" +:+ nl)) ["icacls"] "repair").
Definition test_successful_permission_command_is_accepted : M unit :=
  run_permission_command
    (H := completing ("Successfully processed 4 files; Failed processing 0 files" +:+ nl)) ["icacls"] "repair".

(** ** [test_competition_source.py] *)

Section competition_tests.
Context `{Host}.

Definition c_main (status : string) : string := "int main(void) { return " +:+ status +:+ "; }" +:+ nl.

Definition test_prepare_core_main_run : M unit :=
  temporary (fun root =>
    let source := pnames root ["input"] in
    mkdir false false source ;;
    write_raw (pnames source ["core_main.c"]) (c_main "0") ;;
    write_raw (pnames source ["rules.txt"]) ("contest" +:+ nl) ;;
    run ← prepare_run source (Some "round1") None (Some (pnames root ["runs"])) None;
    config ← load_json (pnames run ["source"; "competition.json"]);
    schema ← load_json (repo_path ["data"; "schemas"; "competition_source.schema.json"]);
    validate schema config ;;
    mode ← getitem config "mode";
    assert_json mode (JStr "core_main_replacement") ;;
    entry ← getitem config "entry_source";
    assert_json entry (JStr "source/original/core_main.c") ;;
    manifest ← load_json (pnames run ["source"; "source_manifest.json"]);
    files ← (x ← getitem manifest "files"; items_of x);
    entries ← map_m (fun item => x ← getitem item "path"; k ← as_str x; mret (k, item)) files;
    let copied := pnames run ["source"; "original"; "core_main.c"] in
    item ← lift_opt KeyError "" (dict_get "source/original/core_main.c" entries);
    recorded ← getitem item "sha256";
    digest ← sha256_file copied;
    assert_json recorded (JStr digest) ;;
    kintex ← read_text (pnames run ["vivado"; "create_kintex7_project.tcl"]);
    assert_in "set ::env(SOCRV_CORE_HZ) [expr {$CORE_MHZ * 1000000}]" kintex ;;
    pynq ← read_text (pnames run ["vivado"; "create_pynq_z2_project.tcl"]);
    assert_in "pynq_z2-50mhz" pynq ;;
    axku_launcher ← read_text (pnames run ["vivado"; "create_axku062_project.tcl"]);
    assert_in "axku062-${CORE_MHZ}mhz" axku_launcher ;;
    assert_in "supported values: 50 / 100 / 110" axku_launcher ;;
    assert_in "230 / 240 / 250" axku_launcher ;;
    kintex_launcher ← read_text (pnames run ["vivado"; "create_kintex7_project.tcl"]);
    assert_in "110 [list 5.5 10.0 22]" kintex_launcher ;;
    assert_in "240 [list 6.0 5.0 24]" kintex_launcher ;;
    assert_in "fpga boards axku062 tcl create_project.tcl" axku_launcher).

Definition test_only_c_file_is_the_default_entry : M unit :=
  temporary (fun root =>
    let source := pnames root ["contest_driver.c"] in
    write_raw source (c_main "0") ;;
    run ← prepare_run source (Some "single") None (Some (pnames root ["runs"])) None;
    config ← load_json (pnames run ["source"; "competition.json"]);
    entry ← getitem config "entry_source";
    assert_json entry (JStr "source/original/contest_driver.c")).

Definition test_ambiguous_c_sources_require_entry : M unit :=
  temporary (fun root =>
    let source := pnames root ["input"] in
    mkdir false false source ;;
    write_raw (pnames source ["one.c"]) nl ;;
    write_raw (pnames source ["two.c"]) nl ;;
    assert_raises is_value_error "use --entry"
      (prepare_run source (Some "ambiguous") None (Some (pnames root ["runs"])) None)).

Definition test_source_change_after_preparation_is_rejected : M unit :=
  temporary (fun root =>
    let source := pnames root ["core_main.c"] in
    write_raw source (c_main "0") ;;
    run ← prepare_run source (Some "changed") None (Some (pnames root ["runs"])) None;
    write_raw (pnames run ["source"; "original"; "core_main.c"]) (c_main "1") ;;
    assert_raises is_value_error "changed after preparation" (verify_competition_sources run)).

Definition test_default_run_id_is_stable_for_supplied_time : M unit :=
  temporary (fun root =>
    let source := pnames root ["CoreMark input"] in
    mkdir false false source ;;
    id ← default_run_id source (Some (compact_time "2026-08-13T14:32:05"));
    assert_equal id "20260813_143205_CoreMark_input").
End competition_tests.

(** ** The suite *)

(** What the tests find: a temporary directory, and of the repository the schemas, the memory
    map and the contract, cut to the fields that the tests lead to. *)
Definition fixture : world := demo_world
  [(["repo"; "data"; "schemas"; "image.schema.json"], "{}");
   (["repo"; "data"; "schemas"; "competition_source.schema.json"], "{}");
   (["repo"; "data"; "soc"; "memory_map.json"], dumps demo_map);
   (["repo"; "data"; "soc"; "software_contract.json"], dumps demo_contract)] [["repo"]; ["tmp"]].

(** A test passes when it returns. *)
Definition passes (t : M unit) : bool := match t fixture with (Ok _, _) => true | (Raise _, _) => false end.

Definition suite : list (M unit) :=
  let H := demo in
  [test_split_regions_and_zero_fill; test_flat_mem_validation_and_interleave;
   test_patch_reports_each_missing_required_input;
   test_patch_allows_built_output_run_but_refuses_existing_results;
   test_board_defaults; test_pynq_rejects_frequency_sweep; test_kintex_release_clock_contract;
   test_axku062_clock_contract; test_build_directories_are_board_scoped;
   test_current_gate_excludes_fence_i; test_final_base_uses_all_mandatory_suites;
   test_qualified_name_selects_one_test; test_blocked_final_gate_fails_before_simulation;
   test_icacls_failed_processing_is_an_error; test_successful_permission_command_is_accepted;
   test_prepare_core_main_run; test_only_c_file_is_the_default_entry;
   test_ambiguous_c_sources_require_entry; test_source_change_after_preparation_is_rejected;
   test_default_run_id_is_stable_for_supplied_time].

(** The tests of the repository hold of the model. *)
Lemma unit_tests_pass : Forall (fun t => passes t = true) suite.
Proof. repeat first [apply Forall_nil_2 | apply Forall_cons_2; [by_eval|]]. Qed.
