(* ===== verification/PatchFlow.v ===== *)
(** [patch_bitstream] as a whole, with an [updatemem] that does what it is documented to do: the
    patch succeeds, the bitstream delivered is the base bitstream with every lane and bank
    patched into it in order, and nothing else has changed. *)
From Stdlib Require Import ZArith Lia.
From S2P Require Import UnitTests.
From S2P Require Import Prelude Str Json Xml Sha256 Py Store Lib Bytes Helpers Writes Mmi PatchBit Checks PatchChain.
Local Open Scope Z_scope.
Local Open Scope py_scope.

(** ** [updatemem] *)

(** The entries of a directory, and those that [updatemem] uses as its logs and journals. *)
Definition inside (dir k : list string) : Prop := exists n, k = dir ++ [n].
Definition tool_log (dir k : list string) : Prop :=
  exists n, k = dir ++ [n] /\ endswith n ".log" || endswith n ".jou" = true.

(** The memory [mem] of a map has a block RAM with the address [a]. *)
Definition holds_address (mem : xml) (a : Z) : Prop := exists layout bram range first last,
  layout ∈ Xml.findall "MemoryLayout" mem /\ bram ∈ Xml.findall "BRAM" layout /\
  range ∈ Xml.findall "AddressRange_PortA" bram /\
  dict_get "Begin" (attrib range) = Some (str_of_Z first) /\ dict_get "End" (attrib range) = Some (str_of_Z last) /\
  first <= a <= last.

(** The text [map] is a memory map for [part], and has a memory [proc] of at least [n] words. *)
Definition map_memory (map part proc : string) (n : Z) : Prop := exists root option mem,
  parse_xml map = Some root /\ find_attr "Config" "Option" "Name" "Part" root = Some option /\
  dict_get "Val" (attrib option) = Some part /\
  mem ∈ Xml.findall "MemoryArray" root /\ dict_get "InstPath" (attrib mem) = Some proc /\
  forall a, 0 <= a < n -> holds_address mem a.

(** What [updatemem] accepts as the image of the memory [proc]. *)
Definition image_for `{Host} (map part proc data : string) : Prop := exists words,
  data = updatemem_text words /\ Forall (fun s => hex_word s = true) words /\ map_memory map part proc (len words).

(** [bitfile part bits]: a bitstream for the part; [upd map proc data bits] is the bitstream [bits]
    with the image [data] in the memory [proc] of the map.  The program replaces the contents of
    block RAMs, so a bitstream stays one for its part, and of its size.  Run as the file [exe] with
    the content [program], on files that it can read (a memory map, an image that fits the named
    memory of this map, a bitstream for the part of the map) and with an output that it can write,
    it exits with 0, reports success and no error, writes the output and, in its working
    directory, its logs and journals, and, at most, new files. *)
Record updatemem_conforms `{Host} (exe : path) (program : string) (bitfile : string -> string -> Prop)
    (upd : string -> string -> string -> string -> string) : Prop := {
  upd_bits : forall map part proc data bits, image_for map part proc data -> bitfile part bits ->
    bitfile part (upd map proc data bits) /\ slen (upd map proc data bits) = slen bits;
  upd_run : forall mmi data src proc out w map part d b,
    plain_path mmi -> plain_path data -> plain_path src -> plain_path out ->
    reads_as w exe program -> reads_as w mmi map -> reads_as w data d -> reads_as w src b ->
    image_for map part proc d -> bitfile part b ->
    can_write w out -> inside (canon w (parent out)) (canon w out) ->
    exists so se w',
      host_exec (MkCommand [path_str exe; "--force"; "--meminfo"; path_str mmi; "--data"; path_str data;
        "--bit"; path_str src; "--proc"; proc; "--out"; path_str out] (Some (parent out)) host_environ None
        (String.eqb host_platform "win32")) w
        = (Done 0 so se, w') /\
      contains "update_mem completed successfully" (so +:+ se) = true /\
      Forall (fun m => contains m (so +:+ se) = false) FAILURE_MARKERS /\
      spares (fun k => k <> canon w out /\ ~ tool_log (canon w (parent out)) k) w w' /\
      tidy (inside (canon w (parent out))) w w' /\
      exists t, node_at w' (canon w out) = Some (File (upd map proc d b) t)
}.

Lemma reads_as_spares `{Host} P w w' p c : spares P w w' -> w_denied w' = w_denied w -> P (canon w p) ->
  reads_as w p c -> reads_as w' p c.
Proof.
  intros HS Hd Hp [[t Hn] Ha]. unfold reads_as. rewrite (spares_canon _ _ _ _ HS), Hd. split; [|done].
  exists t. by eapply spares_file.
Qed.

Section flow.
Context `{Host} (Hroom : device_has_room).
Context (exe : path) (program : string) (bitfile : string -> string -> Prop)
  (upd : string -> string -> string -> string -> string) (Hupd : updatemem_conforms exe program bitfile upd).

(** Every memory patched in turn. *)
Definition patch_all (map : string) (images : list (string * string)) (bits : string) : string :=
  foldl (fun bits pd => upd map pd.1 pd.2 bits) bits images.

(** The digests of the images. *)
Definition digests (images : list (string * string)) : list (string * string) :=
  (fun pd => (pd.1, sha256_text pd.2)) <$> images.

Lemma run_update_done mmi data src proc out log size w map part d b :
  plain_path mmi -> plain_path data -> plain_path src -> plain_path out ->
  reads_as w exe program -> reads_as w mmi map -> reads_as w data d -> reads_as w src b ->
  image_for map part proc d -> bitfile part b -> can_write w out -> can_write w log -> size = slen b ->
  let dir := canon w (parent out) in
  let rest k := k <> canon w out /\ ~ tool_log dir k in
  inside dir (canon w out) -> tool_log dir (canon w log) -> ~ tool_log dir (canon w out) ->
  rest (canon w data) -> rest (canon w src) ->
  exists step w', run_update exe mmi data src proc out log size w = (Ok step, w') /\
    spares rest w w' /\ tidy (inside dir) w w' /\
    reads_as w' out (upd map proc d b) /\
    patched proc (sha256_text d) (sha256_text b) size step (sha256_text (upd map proc d b)).
Proof.
  intros Pm Pd Ps Po Hexe Hmap Hdata Hsrc Him Hbit Hout Hlog -> dir rest Hino Hinl Hlo Hdo Hso.
  destruct (upd_run _ _ _ _ Hupd mmi data src proc out w map part d b Pm Pd Ps Po Hexe Hmap Hdata Hsrc Him Hbit Hout Hino)
    as (so & se & w0 & Ex & Hok & Hmark & K0 & T0 & t & Hn).
  destruct (upd_bits _ _ _ _ Hupd _ _ _ _ _ Him Hbit) as [_ Hsize].
  match type of Ex with host_exec ?c _ = _ => set (cmd := c) in Ex end.
  set (w1 := World (w_fs w0) (w_links w0) (w_denied w0) (w_clock w0) (w_log w ++ [EvRun cmd])).
  assert (K1 : spares rest w w1) by (destruct K0; by constructor).
  assert (T1 : tidy (inside dir) w w1) by (destruct T0; by constructor).
  assert (Hc1 : forall p, canon w1 p = canon w p) by (intros p; by eapply spares_canon).
  destruct (write_raw_tidy Hroom w1 log (native (so +:+ se))) as (w2 & E2 & T2 & K2 & _); [by eapply can_write_tidy|].
  rewrite Hc1 in T2, K2.
  assert (K : spares rest w w2).
  { eapply spares_trans; [exact K1|]. eapply keeps_spares; [exact K2|]. intros k [_ Hk] ->%list_elem_of_singleton. done. }
  assert (T : tidy (inside dir) w w2).
  { etransitivity; [exact T1|]. eapply tidy_mono; [|exact T2]. intros k <-. destruct Hinl as (n & -> & _). by exists n. }
  assert (Hr : forall p c, rest (canon w p) -> reads_as w p c -> reads_as w2 p c).
  { intros p c Hp Hpc. eapply reads_as_spares; [exact K|apply (tidy_denied _ _ _ T)|exact Hp|exact Hpc]. }
  assert (Hro : reads_as w2 out (upd map proc d b)).
  { eapply reads_as_keeps; [exact K2|rewrite Hc1; intros Heq%list_elem_of_singleton; congruence|].
    split; [exists t; by rewrite Hc1|]. rewrite Hc1, (tidy_denied _ _ _ T1). apply Hout. }
  unfold run_update, subprocess_run. rewrite (bind_ok_eq _ _ (0, so, se) w w1).
  2: { rewrite (bind_ok_eq _ _ (Done 0 so se) w w1); [done|]. unfold run_command. fold cmd. by rewrite Ex. }
  cbv beta iota zeta. rewrite (bind_ok_eq _ _ tt w1 w2) by exact E2.
  rewrite (bind_ok_eq _ _ true w2 w2) by (unfold is_file, gets; by rewrite (reads_as_file _ _ _ Hro)).
  rewrite (bind_ok_eq _ _ (Some (slen b)) w2 w2).
  2: { rewrite (bind_ok_eq _ _ _ w2 w2 (reads_as_size _ _ _ Hro)). by rewrite Hsize. }
  rewrite (bind_ok_eq _ _ _ w2 w2 (reads_as_sha256 _ _ _ (Hr _ _ Hdo Hdata))).
  rewrite (bind_ok_eq _ _ _ w2 w2 (reads_as_sha256 _ _ _ (Hr _ _ Hso Hsrc))).
  rewrite (bind_ok_eq _ _ [("output_sha256", JStr (sha256_text (upd map proc d b)))] w2 w2).
  2: { by rewrite (bind_ok_eq _ _ _ w2 w2 (reads_as_sha256 _ _ _ Hro)). }
  assert (Hnone : filter (fun marker => contains marker (so +:+ se) = true) FAILURE_MARKERS = []).
  { clear -Hmark. induction Hmark as [|m l Hm Hl IH]; [done|]. rewrite filter_cons_False; [done|congruence]. }
  rewrite Hnone, Hok, bool_decide_eq_true_2, bool_decide_eq_true_2 by done. cbn [negb andb Z.eqb].
  eexists _, w2. split; [reflexivity|]. split_and!; try done. unfold patched. split_and!; by eexists.
Qed.
(** ** The working directory *)

(** A directory in which every name can be written. *)
Definition work_dir (w : world) (dir : list string) : Prop :=
  node_at w dir = Some Dir /\ forall k, inside dir k -> node_at w k <> Some Dir /\ k ∉ w_denied w.

Lemma work_dir_tidy P w w' dir : tidy P w w' -> work_dir w dir -> work_dir w' dir.
Proof.
  intros HT [Hd Hk]. split; [by apply (tidy_dir _ _ _ _ HT)|]. intros k Hi.
  rewrite (tidy_dir _ _ _ _ HT), (tidy_denied _ _ _ HT). by apply Hk.
Qed.

Lemma work_dir_write w work n : w_links w = ∅ -> work_dir w (canon w work) -> n <> ".." ->
  canon w (pnames work [n]) = canon w work ++ [n] /\ can_write w (pnames work [n]).
Proof.
  intros Hl [Hd Hk] Hn. assert (Hc : canon w (pnames work [n]) = canon w work ++ [n])
    by (apply canon_pname; [done|by rewrite Hl]).
  split; [done|]. unfold can_write. rewrite Hc, removelast_last. destruct (Hk (canon w work ++ [n])); [by exists n|done].
Qed.

Lemma parent_pname p n : parent (pnames p [n]) = p.
Proof. destruct p as [a l]. unfold parent, pnames. cbn [p_abs p_parts]. by rewrite removelast_last. Qed.

Lemma inside_snoc dir n : inside dir (dir ++ [n]).
Proof. by exists n. Qed.

(** No stage of the directory at [dir] from [n] on, and no log of [updatemem]. *)
Definition no_stage (dir k : list string) (n : Z) : Prop :=
  (forall m, n <= m -> k <> dir ++ [stage_bit m]) /\ ~ tool_log dir k.

Lemma no_stage_mono dir k n m : n <= m -> no_stage dir k n -> no_stage dir k m.
Proof. intros Hnm [Hb Hl]. split; [|done]. intros i Hi. apply Hb. lia. Qed.

Lemma tool_log_snoc dir x : tool_log dir (dir ++ [x]) -> endswith x ".log" || endswith x ".jou" = true.
Proof. intros (n & Heq%app_inj_2%proj2 & Hn); [|done]. congruence. Qed.

Lemma stage_tool_log dir n : tool_log dir (dir ++ [stage_log n]) /\ ~ tool_log dir (dir ++ [stage_bit n]).
Proof.
  split.
  - eexists. split; [reflexivity|]. by rewrite stage_log_ends.
  - intros Ht%tool_log_snoc. by rewrite !stage_bit_ends in Ht.
Qed.

Lemma no_stage_next dir n : 0 <= n -> no_stage dir (dir ++ [stage_bit n]) (n + 1).
Proof.
  intros Hn. split; [|apply stage_tool_log].
  intros m Hm Heq%app_inj_2%proj2; [|done]. assert (Hs : stage_bit n = stage_bit m) by congruence. apply stage_bit_inj in Hs; lia.
Qed.

Lemma no_stage_mem dir file i n : no_stage dir (dir ++ [mem_name file i]) n.
Proof.
  split.
  - intros m _ Heq%app_inj_2%proj2; [|done]. destruct (mem_name_stage file i m) as [Hb _]. apply Hb. congruence.
  - intros Ht%tool_log_snoc. unfold mem_name in Ht. by rewrite <- sapp_assoc, !endswith_length in Ht.
Qed.

Lemma no_stage_spares dir k n : no_stage dir k n -> k <> dir ++ [stage_bit n] /\ ~ tool_log dir k.
Proof. intros [Hb Hl]. split; [|done]. apply Hb. lia. Qed.

Lemma Forall2_impl_l {A B} (P : A -> Prop) (Q R : A -> B -> Prop) l k :
  (forall x y, P x -> Q x y -> R x y) -> Forall P l -> Forall2 Q l k -> Forall2 R l k.
Proof.
  intros Hi Hl Hk. induction Hk as [|x y l k Hxy _ IH]; [constructor|]. apply Forall_cons in Hl as [Hx Hl].
  constructor; auto.
Qed.

Lemma stage_plain work n : plain_path work -> 0 <= n -> plain_path (pnames work [stage_bit n]).
Proof.
  intros Hw Hn. apply plain_path_names; [done|]. constructor; [|constructor]. apply plain_name_long; [simpl; lia|done|].
  rewrite no_slash_app. unfold two_digits, zfill. rewrite no_slash_app, no_slash_digits by done.
  unfold no_slash. by rewrite sforall_srepeat.
Qed.

(** ** The runs of a patch *)

(** The images [files] are at hand. *)
Definition images_ready (w : world) (files : list (string * path)) (images : list (string * string)) : Prop :=
  Forall2 (fun pf pd => pd.1 = pf.1 /\ reads_as w pf.2 pd.2) files images.

Lemma patch_steps_done mmi map part work size files :
  plain_path mmi -> plain_path work -> Forall (fun pf => plain_path pf.2) files ->
  forall images cur n w b, plain_path cur ->
  w_links w = ∅ -> work_dir w (canon w work) -> 0 <= n -> size = slen b ->
  reads_as w exe program -> no_stage (canon w work) (canon w exe) n ->
  reads_as w mmi map -> no_stage (canon w work) (canon w mmi) n ->
  reads_as w cur b -> no_stage (canon w work) (canon w cur) n -> bitfile part b ->
  images_ready w files images -> Forall (fun pf => no_stage (canon w work) (canon w pf.2) 0) files ->
  Forall (fun pd => image_for map part pd.1 pd.2) images ->
  exists final steps w', patch_steps exe mmi work cur size n files w = (Ok (final, steps), w') /\
    tidy (inside (canon w work)) w w' /\
    (forall p c, no_stage (canon w work) (canon w p) n -> reads_as w p c -> reads_as w' p c) /\
    reads_as w' final (patch_all map images b) /\
    chain size (digests images) (sha256_text b) steps (sha256_text (patch_all map images b)).
Proof.
  intros Pm Pw. induction files as [|[proc mem] files IH]; intros Pf images cur n w b Pc Hl Hw Hn Hsz Hexe Hnx
    Hmap Hnm Hcur Hns Hbit Hi Hf Him.
  - inversion Hi; subst. exists cur, [], w. split_and!; try done. constructor.
  - inversion Hi as [|? [pn d] ? images' [Hpn Hd] Hi']; subst. cbn [fst snd] in *. subst pn.
    apply Forall_cons in Hf as [Hfm Hf]. apply Forall_cons in Pf as [Pmem Pf]. apply Forall_cons in Him as [Hd1 Him]. cbn [fst snd] in Hd1.
    assert (Pn : plain_path (pnames work [stage_bit n])) by by apply stage_plain.
    destruct (work_dir_write w work (stage_bit n) Hl Hw) as [Kb Cb]; [done|].
    destruct (work_dir_write w work (stage_log n) Hl Hw) as [Kl Cl]; [done|].
    set (next := pnames work [stage_bit n]) in *. set (lg := pnames work [stage_log n]) in *.
    assert (Hpar : canon w (parent next) = canon w work) by (unfold next; by rewrite parent_pname).
    destruct (upd_bits _ _ _ _ Hupd _ _ _ _ _ Hd1 Hbit) as [Hbit1 Hsize].
    destruct (run_update_done mmi mem cur proc next lg (slen b) w map part d b) as
      (step & w1 & E1 & K1 & T1 & Hnext & Hp); rewrite ?Hpar, ?Kb, ?Kl; try done; try apply stage_tool_log;
      auto using inside_snoc.
    { apply no_stage_spares. eapply no_stage_mono; [|exact Hfm]. lia. }
    { by apply no_stage_spares. }
    cbv beta zeta in K1. rewrite Hpar, Kb in K1. rewrite Hpar in T1.
    assert (Hc1 : forall p, canon w1 p = canon w p) by (intros p; by eapply spares_canon).
    assert (Hr1 : forall p c, no_stage (canon w work) (canon w p) n -> reads_as w p c -> reads_as w1 p c).
    { intros p c Hpn Hr. eapply reads_as_spares; [exact K1|apply (tidy_denied _ _ _ T1)|by apply no_stage_spares|exact Hr]. }
    assert (Hlater : forall k, no_stage (canon w work) k n -> no_stage (canon w1 work) k (n + 1)).
    { intros k Hk. rewrite Hc1. eapply no_stage_mono; [|exact Hk]. lia. }
    destruct (IH Pf images' next (n + 1) w1 (upd map proc d b) Pn) as (final & steps & w2 & E2 & T2 & R2 & Hfin & Hch).
    + by rewrite (tidy_links _ _ _ T1).
    + rewrite Hc1. by eapply work_dir_tidy.
    + lia.
    + by rewrite Hsize.
    + by apply Hr1.
    + rewrite (Hc1 exe). by apply Hlater.
    + by apply Hr1.
    + rewrite (Hc1 mmi). by apply Hlater.
    + done.
    + rewrite !Hc1, Kb. by apply no_stage_next.
    + done.
    + eapply Forall2_impl_l; [|exact Hf|exact Hi']. intros pf pd Hpf [? Hr]. split; [done|].
      apply Hr1; [|done]. by eapply no_stage_mono.
    + eapply Forall_impl; [exact Hf|]. intros pf Hpf. by rewrite !Hc1.
    + done.
    + exists final, (step :: steps), w2. split_and!.
      * cbn [patch_steps]. cbv zeta. rewrite (bind_ok_eq _ _ _ _ _ E1). by rewrite (bind_ok_eq _ _ _ _ _ E2).
      * etransitivity; [exact T1|]. by rewrite Hc1 in T2.
      * intros p c Hpn Hr. apply R2; [|by apply Hr1]. rewrite !Hc1. eapply no_stage_mono; [|exact Hpn]. lia.
      * exact Hfin.
      * econstructor; [exact Hp|exact Hch].
Qed.
(** ** The image files *)

Fixpoint image_texts (array : string) (index : Z) (l : list (list string)) : list (string * string) :=
  match l with
  | [] => []
  | words :: l' => (array +:+ str_of_Z index, updatemem_text words) :: image_texts array (index + 1) l'
  end.

(** The files of an array from [index] on. *)
Definition mem_key (dir : list string) (file : string) (index : Z) (k : list string) : Prop :=
  exists i, index <= i /\ k = dir ++ [mem_name file i].

Lemma mem_key_fresh dir file index i : 0 <= i < index -> ~ mem_key dir file index (dir ++ [mem_name file i]).
Proof.
  intros Hi (j & Hj & Heq). apply app_inj_2 in Heq as [_ Heq]; [|done].
  assert (Hs : mem_name file i = mem_name file j) by congruence. apply mem_name_inj in Hs; lia.
Qed.

Lemma images_ready_tidy P w w' files images : tidy P w w' -> Forall (fun pf => ~ P (canon w pf.2)) files ->
  images_ready w files images -> images_ready w' files images.
Proof.
  intros HT Hf Hi. eapply Forall2_impl_l; [|exact Hf|exact Hi]. intros pf pd Hp [? Hr]. split; [done|].
  by eapply reads_as_tidy.
Qed.

Lemma write_image_files_done work array file l : plain_path work -> (2 < String.length file)%nat ->
  no_slash file = true -> forall index w,
  w_links w = ∅ -> work_dir w (canon w work) -> 0 <= index ->
  exists files w', write_image_files work array file index l w = (Ok files, w') /\
    tidy (mem_key (canon w work) file index) w w' /\ images_ready w' files (image_texts array index l) /\
    Forall (fun pf => plain_path pf.2 /\ mem_key (canon w work) file index (canon w pf.2)) files.
Proof.
  intros Pw Hlen Hns. assert (Pn : forall i, 0 <= i -> plain_name (mem_name file i) = true).
  { intros i Hi. unfold mem_name. apply plain_name_long; [done|done|]. by rewrite no_slash_app, no_slash_digits. }
  induction l as [|words l IH]; intros index w Hl Hw Hi.
  - exists [], w. split_and!; [done|done|constructor|constructor].
  - destruct (work_dir_write w work (mem_name file index) Hl Hw) as [Kp Cp]; [by apply plain_name_spec, Pn|].
    set (p := pnames work [mem_name file index]) in *.
    destruct (write_raw_tidy Hroom w p (updatemem_text words) Cp) as (w1 & E1 & T1 & _ & R1). rewrite Kp in T1.
    assert (Hc1 : forall q, canon w1 q = canon w q) by (intros q; by eapply tidy_canon).
    destruct (IH (index + 1) w1) as (files & w2 & E2 & T2 & R2 & F2);
      [by rewrite (tidy_links _ _ _ T1)|rewrite Hc1; by eapply work_dir_tidy|lia|].
    rewrite Hc1 in T2, F2. setoid_rewrite Hc1 in F2.
    exists ((array +:+ str_of_Z index, p) :: files), w2. split_and!.
    + cbn [write_image_files]. cbv zeta. fold (mem_name file index). fold p.
      rewrite (bind_ok_eq _ _ tt w w1) by exact E1. by rewrite (bind_ok_eq _ _ files w1 w2).
    + etransitivity; (eapply tidy_mono; [|eassumption]); [intros k <-; by exists index|].
      intros k (i & ? & ->). exists i. split; [lia|done].
    + constructor; [|exact R2]. split; [done|]. cbn [snd]. eapply reads_as_tidy; [exact T2| |exact R1].
      rewrite Hc1, Kp. apply mem_key_fresh. lia.
    + constructor; [split; [apply plain_path_names; [done|]; constructor; [by apply Pn|constructor]|by exists index]|].
      eapply Forall_impl; [exact F2|]. intros pf (? & i & ? & ?). split; [done|]. exists i. split; [lia|done].
Qed.

Lemma images_ready_names w files images : images_ready w files images -> files.*1 = images.*1.
Proof. induction 1 as [|pf pd files images [Hn _] _ IH]; [done|]. by rewrite !fmap_cons, Hn, IH. Qed.

(** What is patched: four lanes of the code and eight banks of the data. *)
Definition memory_images (code data : list Z) : list (string * string) :=
  ((fun i => ("ICCM_LANE" +:+ str_of_Z (Z.of_nat i), updatemem_text (hex08 <$> stride i 4 code))) <$> seq 0 4) ++
  ((fun i => ("DCCM_BANK" +:+ str_of_Z (Z.of_nat i), updatemem_text (hex08 <$> stride i 8 data))) <$> seq 0 8).

Lemma memory_images_texts code data :
  image_texts "ICCM_LANE" 0 ((fun i => stride i 4 (hex08 <$> code)) <$> seq 0 4) ++
  image_texts "DCCM_BANK" 0 ((fun i => stride i 8 (hex08 <$> data)) <$> seq 0 8) = memory_images code data.
Proof. unfold memory_images. cbn [seq fmap list_fmap image_texts app]. by rewrite !stride_fmap. Qed.

Lemma memory_images_names code data : (memory_images code data).*1 = EXPECTED_ARRAYS.
Proof. reflexivity. Qed.

(** ** The MMI *)

(** The table [table] of placed block RAMs is for [part] and gives the document [root]. *)
Record mmi_table (table part : string) (root : xml) (metadata : list (string * string)) (brams : list Bram)
    (iccm dccm : slots) : Prop := {
  mt_read : forall p w, reads_as w p table -> read_bram_map p w = (Ok (metadata, brams), w);
  mt_part : dict_get "part" metadata = Some part;
  mt_part_ok : part <> "" /\ sforall ascii_char part = true /\ sforall value_char part = true;
  mt_source : sforall ascii_char (default "" (dict_get "source_dcp" metadata)) = true;
  mt_classify : forall w, classify brams w = (Ok (iccm, dccm), w);
  mt_printable : forallb printable_bram brams = true;
  mt_tree : forall w, mmi_tree part iccm dccm w = (Ok root, w)
}.

(** The record that [generate] writes beside the document. *)
Definition validation_record (table part : string) (root : xml) (metadata : list (string * string))
    (brams : list Bram) : json :=
  JObj [("schema_version", JInt 1); ("status", JStr "pass"); ("part", JStr part);
        ("source_dcp", match dict_get "source_dcp" metadata with Some s => JStr s | None => JNull end);
        ("bram_count", JInt (len brams)); ("unique_loc_count", JInt (len (remove_dups (loc <$> brams))));
        ("memory_arrays", JArr (JStr <$> array_names)); ("bram_map_sha256", JStr (sha256_text table));
        ("mmi_sha256", JStr (sha256_text (document root)))].

Lemma validation_record_ok table part root metadata brams iccm dccm :
  mmi_table table part root metadata brams iccm dccm ->
  json_wf (validation_record table part root metadata brams) = true /\
  json_ascii (validation_record table part root metadata brams) = true /\
  (nesting (validation_record table part root metadata brams) <= host_recursion)%nat.
Proof.
  intros Ht. destruct (mt_part_ok _ _ _ _ _ _ _ Ht) as (_ & Hp & _). pose proof (mt_source _ _ _ _ _ _ _ Ht) as Hs.
  unfold validation_record. split_and!.
  - cbn [json_wf forallb snd fmap list_fmap fst]. rewrite bool_decide_eq_true_2 by
      (repeat (apply NoDup_cons; split; [apply (bool_decide_unpack _); vm_compute; exact I|]); constructor).
    by destruct (dict_get "source_dcp" metadata).
  - cbn [json_ascii forallb snd fst]. rewrite Hp. unfold sha256_text. rewrite !sha256_ascii.
    destruct (dict_get "source_dcp" metadata) as [t|]; [|reflexivity].
    change (sforall ascii_char t = true) in Hs. cbn [json_ascii]. by rewrite Hs.
  - unfold host_recursion. destruct (dict_get "source_dcp" metadata); simpl; lia.
Qed.

Lemma generate_done bram_map out validation table part root metadata brams iccm dccm w :
  mmi_table table part root metadata brams iccm dccm -> reads_as w bram_map table ->
  can_write w out -> can_write w validation ->
  node_at w (canon w (parent out)) = Some Dir -> node_at w (canon w (parent validation)) = Some Dir ->
  canon w validation <> canon w out -> canon w bram_map <> canon w out ->
  exists w', generate bram_map out validation w = (Ok tt, w') /\
    tidy (fun k => k = canon w out \/ k = canon w validation) w w' /\
    reads_as w' out (document root) /\
    reads_as w' validation (native (dumps_indent (validation_record table part root metadata brams) +:+ nl)).
Proof.
  intros Ht Htab Ho Hv Hdo Hdv Hvo Hbo. destruct (mt_part_ok _ _ _ _ _ _ _ Ht) as (Hne & _).
  destruct (write_raw_tidy Hroom w out (document root) Ho) as (w1 & E1 & T1 & K1 & R1).
  assert (Hc1 : forall p, canon w1 p = canon w p) by (intros p; by eapply keeps_canon).
  destruct (write_raw_tidy Hroom w1 validation
    (native (dumps_indent (validation_record table part root metadata brams) +:+ nl))) as (w2 & E2 & T2 & _ & R2);
    [by eapply can_write_tidy|]. rewrite Hc1 in T2.
  assert (Htab1 : reads_as w1 bram_map table) by (eapply reads_as_keeps; [exact K1|set_solver|done]).
  exists w2. split_and!.
  - unfold generate. rewrite (bind_ok_eq _ _ _ w w (mt_read _ _ _ _ _ _ _ Ht _ _ Htab)). cbv beta iota zeta.
    rewrite (mt_part _ _ _ _ _ _ _ Ht). change (default "" (Some part)) with part. apply String.eqb_neq in Hne. rewrite Hne.
    rewrite (bind_ok_eq _ _ tt w w) by done.
    rewrite (bind_ok_eq _ _ _ w w (mt_classify _ _ _ _ _ _ _ Ht w)).
    rewrite (bind_ok_eq _ _ _ w w (mt_tree _ _ _ _ _ _ _ Ht w)).
    rewrite (bind_ok_eq _ _ _ w w (mkdir_p_done _ _ Hdo)). rewrite (bind_ok_eq _ _ _ w w1 E1).
    unfold sha256. rewrite (bind_ok_eq _ _ _ w1 w1 (reads_as_sha256 _ _ _ Htab1)).
    rewrite (bind_ok_eq _ _ _ w1 w1 (reads_as_sha256 _ _ _ R1)).
    rewrite (bind_ok_eq _ _ tt w1 w1); [exact E2|]. apply mkdir_p_done. rewrite Hc1. by apply (tidy_dir _ _ _ _ T1).
  - etransitivity; (eapply tidy_mono; [|eassumption]); intros k <-; auto.
  - eapply reads_as_tidy; [exact T2| |exact R1]. by rewrite Hc1.
  - exact R2.
Qed.

Lemma validate_mmi_done p w table part root metadata brams iccm dccm :
  mmi_table table part root metadata brams iccm dccm -> reads_as w p (document root) ->
  validate_mmi p w = (Ok (part, EXPECTED_ARRAYS), w).
Proof.
  intros Ht Hr. destruct (mt_part_ok _ _ _ _ _ _ _ Ht) as (Hne & _ & Hv).
  pose proof (mt_classify _ _ _ _ _ _ _ Ht w) as Hc. apply classify_ok in Hc as [_ Hc].
  pose proof (mt_tree _ _ _ _ _ _ _ Ht w) as Hroot.
  eapply mmi_tree_valid in Hroot as (_ & Hx & Hval); [|done|by eapply mt_printable|done|done].
  unfold validate_mmi. rewrite (bind_ok_eq _ _ _ w w (reads_as_raw _ _ _ Hr)).
  rewrite parse_xml_document by done. rewrite (bind_ok_eq _ _ root w w) by done. apply Hval.
Qed.

(** *** The memories of the map *)

Lemma add_slices_range slices ranges : forall i w xs w', add_slices slices i ranges w = (Ok xs, w') ->
  forall lsb msb lo hi, (lsb, msb, lo, hi) ∈ ranges -> exists bram range, bram ∈ xs /\ tag bram = "BRAM" /\
    range ∈ Xml.findall "AddressRange_PortA" bram /\
    dict_get "Begin" (attrib range) = Some (str_of_Z lo) /\ dict_get "End" (attrib range) = Some (str_of_Z hi).
Proof.
  induction ranges as [|[[[l0 m0] b0] e0] ranges IH]; intros i w xs w' E lsb msb lo hi Hin; [by apply elem_of_nil in Hin|].
  cbn [add_slices] in E. destruct (zget i slices) as [b|]; [|done].
  apply bind_ok in E as (x & w1 & E1 & E). apply bind_ok in E as (xs' & w2 & E2 & E). apply ret_ok in E as [-> ->].
  apply elem_of_cons in Hin as [[= -> -> -> ->]|Hin].
  - unfold add_bram in E1. destruct (ref_name b) as [ref|]; [|done].
    apply bind_ok in E1 as (mt & w3 & _ & E1). apply bind_ok in E1 as (pl & w4 & _ & E1). apply ret_ok in E1 as [-> _].
    eexists _, (Elem "AddressRange_PortA" [("Begin", str_of_Z b0); ("End", str_of_Z e0)] []).
    split_and!; [left|done| |reflexivity|reflexivity].
    apply list_elem_of_filter. split; [|apply elem_of_app; left; right; left]. done.
  - destruct (IH _ _ _ _ E2 _ _ _ _ Hin) as (bram & range & Hb & Hr). exists bram, range. split; [by right|done].
Qed.

Lemma add_arrays_in pre ranges t : forall w xs w', add_arrays pre ranges t w = (Ok xs, w') ->
  forall i slices, (i, slices) ∈ t -> exists brams w1 w2, add_slices slices 0 (ranges slices) w1 = (Ok brams, w2) /\
    add_memory_array (pre +:+ str_of_Z i) brams ∈ xs.
Proof.
  induction t as [|[j sl] t IH]; intros w xs w' E i slices Hin; [by apply elem_of_nil in Hin|].
  cbn [add_arrays] in E. apply bind_ok in E as (brams & w1 & E1 & E). apply bind_ok in E as (rest & w2 & E2 & E).
  apply ret_ok in E as [-> ->]. apply elem_of_cons in Hin as [[= -> ->]|Hin].
  - eexists _, _, _. split; [exact E1|left].
  - destruct (IH _ _ _ E2 _ _ Hin) as (bs & w3 & w4 & Hs & Hx). eexists _, _, _. split; [exact Hs|by right].
Qed.

Lemma iccm_range_full slices : exists lsb msb, (lsb, msb, 0, 8191) ∈ iccm_ranges slices.
Proof. unfold iccm_ranges. case_bool_decide; [exists 0, 3|exists 27, 30]; by apply (bool_decide_unpack _). Qed.

(** A memory of the document with a block RAM for all the addresses up to [hi]. *)
Lemma array_memory map root part (xs : list xml) n brams lsb msb hi slices ranges w w' :
  parse_xml map = Some root ->
  (exists option, find_attr "Config" "Option" "Name" "Part" root = Some option /\ dict_get "Val" (attrib option) = Some part) ->
  (forall x, x ∈ xs -> tag x = "MemoryArray" -> x ∈ Xml.findall "MemoryArray" root) ->
  add_memory_array n brams ∈ xs -> add_slices slices 0 ranges w = (Ok brams, w') -> (lsb, msb, 0, hi) ∈ ranges ->
  map_memory map part n (hi + 1).
Proof.
  intros Hp (o & Ho & Hv) Hx Hin E Hr.
  destruct (add_slices_range _ _ _ _ _ _ E _ _ _ _ Hr) as (bram & range & Hb & Ht & Hrange & Hbe & Hen).
  exists root, o, (add_memory_array n brams). split_and!; try done; [by apply Hx|]. intros a Ha.
  eexists (Elem "MemoryLayout" _ brams), bram, range, 0, hi. split_and!; try done; try lia.
  - apply list_elem_of_filter. split; [done|left].
  - by apply list_elem_of_filter.
Qed.

Lemma map_memory_mono map part proc n m : m <= n -> map_memory map part proc n -> map_memory map part proc m.
Proof. intros Hm (r & o & x & ? & ? & ? & ? & ? & Ha). exists r, o, x. split_and!; try done. intros a ?. apply Ha. lia. Qed.

(** The generated document has the memories that are patched. *)
Lemma generated_memories table part root metadata brams iccm dccm :
  mmi_table table part root metadata brams iccm dccm ->
  (forall i, 0 <= i < 4 -> map_memory (document root) part ("ICCM_LANE" +:+ str_of_Z i) 8192) /\
  (forall i, 0 <= i < 8 -> map_memory (document root) part ("DCCM_BANK" +:+ str_of_Z i) 2048).
Proof.
  intros Ht. destruct (mt_part_ok _ _ _ _ _ _ _ Ht) as (Hne & _ & Hv).
  pose (w := World ∅ ∅ ∅ 0 []). pose proof (mt_classify _ _ _ _ _ _ _ Ht w) as [_ Hc]%classify_ok.
  pose proof (mt_tree _ _ _ _ _ _ _ Ht w) as E. pose proof E as E'.
  eapply mmi_tree_valid in E' as (_ & Hx & _); [|done|by eapply mt_printable|done|done].
  unfold mmi_tree in E. apply bind_ok in E as (lanes & w1 & E1 & E). apply bind_ok in E as (banks & w2 & E2 & E).
  apply ret_ok in E as [-> _].
  assert (Hl1 : Forall (fun x => tag x = "MemoryArray") lanes /\ Forall (fun x => tag x = "MemoryArray") banks).
  { split; [eapply (add_arrays_ok brams) in E1 as (_ & _ & _ & ?)|eapply (add_arrays_ok brams) in E2 as (_ & _ & _ & ?)];
      try done; try (by eapply mt_printable); eapply slots_in; apply Hc. }
  set (root := Elem _ _ _) in *. pose proof (parse_xml_document root Hx) as Hp.
  assert (Ho : exists option, find_attr "Config" "Option" "Name" "Part" root = Some option /\
    dict_get "Val" (attrib option) = Some part).
  { exists (Elem "Option" [("Name", "Part"); ("Val", part)] []). split; [|done]. unfold root.
    rewrite app_assoc. apply find_part. by apply Forall_app. }
  assert (Hroot : forall x, x ∈ lanes ++ banks -> tag x = "MemoryArray" -> x ∈ Xml.findall "MemoryArray" root).
  { intros x Hin Htag. apply list_elem_of_filter. split; [done|]. cbn [root children]. rewrite app_assoc. apply elem_of_app. by left. }
  split; intros i Hi.
  - assert (Hin : i ∈ iccm.*1) by (rewrite (cl_iccm_keys _ _ _ Hc); apply elem_of_seqZ; lia).
    apply list_elem_of_fmap in Hin as ([j slices] & -> & Hin).
    destruct (add_arrays_in _ _ _ _ _ _ E1 _ _ Hin) as (bs & w3 & w4 & Es & Hb).
    destruct (iccm_range_full slices) as (lsb & msb & Hr).
    eapply (array_memory _ root part (lanes ++ banks) _ bs lsb msb 8191); try done. apply elem_of_app. by left.
  - assert (Hin : i ∈ dccm.*1) by (rewrite (cl_dccm_keys _ _ _ Hc); apply elem_of_seqZ; lia).
    apply list_elem_of_fmap in Hin as ([j slices] & -> & Hin).
    destruct (add_arrays_in _ _ _ _ _ _ E2 _ _ Hin) as (bs & w3 & w4 & Es & Hb).
    eapply (array_memory _ root part (lanes ++ banks) _ bs 0 17 2047); try done; [apply elem_of_app; by right|left].
Qed.

Lemma words_fit map part proc i ways words depth : (i < ways)%nat -> 0 <= depth -> len words = Z.of_nat ways * depth ->
  Forall (fun n => 0 <= n < 2 ^ 32) words -> map_memory map part proc depth ->
  image_for map part proc (updatemem_text (hex08 <$> stride i ways words)).
Proof.
  intros Hi Hp Hl Hw Hm. exists (hex08 <$> stride i ways words). split; [done|].
  assert (Hlen : length (stride i ways words) = Z.to_nat depth) by (apply stride_length; lia).
  split; [|by rewrite length_fmap, Hlen, Z2Nat.id]. apply Forall_fmap, Forall_forall. intros n Hn.
  apply list_elem_of_lookup in Hn as [r Hr]. rewrite stride_lookup in Hr by lia.
  apply hex_word_hex08. eapply (Forall_lookup_1 _ _ _ _ Hw), Hr.
Qed.

(** The images that are patched fit the generated map. *)
Lemma images_fit table part root metadata brams iccm dccm code data :
  mmi_table table part root metadata brams iccm dccm ->
  Forall (fun n => 0 <= n < 2 ^ 32) code /\ len code = 32768 ->
  Forall (fun n => 0 <= n < 2 ^ 32) data /\ len data = 16384 ->
  Forall (fun pd => image_for (document root) part pd.1 pd.2) (memory_images code data).
Proof.
  intros Ht [Hc Hlc] [Hd Hld]. destruct (generated_memories _ _ _ _ _ _ _ Ht) as [Hi Hb].
  apply Forall_app. split; apply Forall_fmap, Forall_forall; intros i Hin%elem_of_seq; cbn [fst snd compose].
  - apply (words_fit _ _ _ i 4 code 8192); [lia|lia|lia|done|]. apply Hi. lia.
  - apply (words_fit _ _ _ i 8 data 2048); [lia|lia|lia|done|]. apply Hb. lia.
Qed.

(** ** In the temporary directory *)

Lemma split_words_done ws n w : len ws mod Z.of_nat n = 0 ->
  split_words ws n w = (Ok ((fun i => stride i n ws) <$> seq 0 n), w).
Proof. intros Hm. unfold split_words. rewrite Hm. by rewrite (bind_ok_eq _ _ tt w w). Qed.

Lemma outside_no_stage dir k n : ~ inside dir k -> no_stage dir k n.
Proof. intros Hk. split; [intros m _ ->; by apply Hk, inside_snoc|]. intros (x & -> & _). by apply Hk, inside_snoc. Qed.

Lemma other_no_stage dir x n : startswith x "stage-" = false -> endswith x ".log" || endswith x ".jou" = false ->
  no_stage dir (dir ++ [x]) n.
Proof.
  intros Hx He. split.
  - intros m _ Heq%app_inj_2%proj2; [|done]. assert (x = stage_bit m) as -> by congruence.
    unfold startswith, stage_bit in Hx. by rewrite prefix_app in Hx.
  - intros Ht%tool_log_snoc. congruence.
Qed.

Lemma mem_key_inside dir file index k : mem_key dir file index k -> inside dir k.
Proof. intros (i & _ & ->). apply inside_snoc. Qed.

Lemma mem_key_no_stage dir file index k : mem_key dir file index k -> no_stage dir k 0.
Proof. intros (i & _ & ->). apply no_stage_mem. Qed.

(** The images are written and ready, and what was in the directory before is as it was. *)
Lemma images_done work code data w : plain_path work -> w_links w = ∅ -> work_dir w (canon w work) ->
  exists iccm dccm w1 w2,
    write_image_files work "ICCM_LANE" "iccm_lane" 0 ((fun i => stride i 4 (hex08 <$> code)) <$> seq 0 4) w = (Ok iccm, w1) /\
    write_image_files work "DCCM_BANK" "dccm_bank" 0 ((fun i => stride i 8 (hex08 <$> data)) <$> seq 0 8) w1 = (Ok dccm, w2) /\
    tidy (fun k => mem_key (canon w work) "iccm_lane" 0 k \/ mem_key (canon w work) "dccm_bank" 0 k) w w2 /\
    images_ready w2 (iccm ++ dccm) (memory_images code data) /\
    Forall (fun pf => plain_path pf.2 /\ no_stage (canon w work) (canon w pf.2) 0) (iccm ++ dccm).
Proof.
  intros Pw Hl Hw.
  destruct (write_image_files_done work "ICCM_LANE" "iccm_lane" ((fun i => stride i 4 (hex08 <$> code)) <$> seq 0 4)
    Pw ltac:(simpl; lia) eq_refl 0 w Hl Hw) as (iccm & w1 & E1 & T1 & R1 & F1); [lia|].
  assert (Hc1 : forall p, canon w1 p = canon w p) by (intros p; by eapply tidy_canon).
  destruct (write_image_files_done work "DCCM_BANK" "dccm_bank" ((fun i => stride i 8 (hex08 <$> data)) <$> seq 0 8)
    Pw ltac:(simpl; lia) eq_refl 0 w1) as (dccm & w2 & E2 & T2 & R2 & F2);
    [by rewrite (tidy_links _ _ _ T1)|rewrite Hc1; by eapply work_dir_tidy|lia|].
  rewrite Hc1 in T2, F2. setoid_rewrite Hc1 in F2. exists iccm, dccm, w1, w2. split_and!; try done.
  - etransitivity; (eapply tidy_mono; [|eassumption]); auto.
  - rewrite <- memory_images_texts. apply Forall2_app; [|done]. eapply images_ready_tidy; [exact T2| |exact R1].
    eapply Forall_impl; [exact F1|]. intros pf (_ & i & _ & Hi) (j & _ & Hj). rewrite Hc1, Hi in Hj.
    apply app_inj_2 in Hj as [_ Hj]; [|done]. discriminate Hj.
  - apply Forall_app. split; (eapply Forall_impl; [eassumption|]); intros pf [? ?%mem_key_no_stage]; done.
Qed.

(** What a script writes beside the images and stages. *)
Definition plain_entry (x : string) : Prop :=
  startswith x "iccm_lane" = false /\ startswith x "dccm_bank" = false /\ startswith x "stage-" = false /\
  endswith x ".log" || endswith x ".jou" = false.

(** The images, the runs and the copy of the last output. *)
Lemma runs_done work mmi map part base_bit final_bit code data size bits w :
  plain_path work -> plain_path mmi -> plain_path base_bit -> bitfile part bits ->
  Forall (fun pd => image_for map part pd.1 pd.2) (memory_images code data) ->
  reads_as w exe program -> ~ inside (canon w work) (canon w exe) ->
  reads_as w mmi map -> (exists x, canon w mmi = canon w work ++ [x] /\ plain_entry x) ->
  w_links w = ∅ -> work_dir w (canon w work) -> size = slen bits -> reads_as w base_bit bits ->
  can_write w final_bit -> ~ inside (canon w work) (canon w base_bit) -> ~ inside (canon w work) (canon w final_bit) ->
  exists fi fd w2 w3 final steps w4 w5,
    write_image_files work "ICCM_LANE" "iccm_lane" 0 ((fun i => stride i 4 (hex08 <$> code)) <$> seq 0 4) w = (Ok fi, w2) /\
    write_image_files work "DCCM_BANK" "dccm_bank" 0 ((fun i => stride i 8 (hex08 <$> data)) <$> seq 0 8) w2 = (Ok fd, w3) /\
    (fi ++ fd).*1 = EXPECTED_ARRAYS /\
    patch_steps exe mmi work base_bit size 1 (fi ++ fd) w3 = (Ok (final, steps), w4) /\
    copy2 final final_bit w4 = (Ok tt, w5) /\
    tidy (fun k => inside (canon w work) k \/ k = canon w final_bit) w w5 /\
    reads_as w5 final_bit (patch_all map (memory_images code data) bits) /\
    chain size (digests (memory_images code data)) (sha256_text bits) steps
      (sha256_text (patch_all map (memory_images code data) bits)) /\
    (forall p x c, canon w p = canon w work ++ [x] -> plain_entry x -> reads_as w p c -> reads_as w5 p c).
Proof.
  intros Pw Pm Pb Hbit Him Hexe Hix Hmap (xm & Kxm & Pxm) Hl Hw Hsz Hbase Hfin Hibase Hif.
  destruct (images_done work code data w Pw Hl Hw) as (fi & fd & w2 & w3 & E2 & E3 & T3 & Rf & Ff).
  assert (Hc3 : forall p, canon w3 p = canon w p) by (intros p; by eapply tidy_canon).
  assert (T03 : tidy (inside (canon w work)) w w3).
  { eapply tidy_mono; [|exact T3]. intros k [Hk|Hk]; by eapply mem_key_inside. }
  assert (Hr3 : forall p x c, canon w p = canon w work ++ [x] -> plain_entry x -> reads_as w p c -> reads_as w3 p c).
  { intros p x c Hp (Hi & Hd & _) Hr. eapply reads_as_tidy; [exact T3| |exact Hr]. rewrite Hp.
    intros [(j & _ & Hj)|(j & _ & Hj)]; apply app_inj_2 in Hj as [_ [= ->]]; try done;
      unfold startswith, mem_name in Hi, Hd; by rewrite prefix_app in *. }
  destruct (patch_steps_done mmi map part work size (fi ++ fd) Pm Pw (Forall_impl _ _ _ Ff (fun _ => @proj1 _ _))
    (memory_images code data) base_bit 1 w3 bits Pb)
    as (final & steps & w4 & E4 & T4 & R4 & Hfinal & Hch); rewrite ?Hc3; try done.
  { by rewrite (tidy_links _ _ _ T03). }
  { by eapply work_dir_tidy. }
  { by eapply reads_as_tidy. }
  { by apply outside_no_stage. }
  { by eapply Hr3. }
  { rewrite Kxm. apply other_no_stage; apply Pxm. }
  { by eapply reads_as_tidy. }
  { by apply outside_no_stage. }
  { eapply Forall_impl; [exact Ff|]. intros pf [_ Hpf]. by rewrite Hc3. }
  rewrite Hc3 in T4, R4. assert (Hc4 : forall p, canon w4 p = canon w p) by (intros p; rewrite <- Hc3; by eapply tidy_canon).
  assert (T04 : tidy (inside (canon w work)) w w4) by by etransitivity.
  destruct (copy2_tidy Hroom w4 final final_bit (patch_all map (memory_images code data) bits) Hfinal) as (w5 & E5 & T5 & R5);
    [by eapply can_write_tidy|]. rewrite Hc4 in T5.
  exists fi, fd, w2, w3, final, steps, w4, w5. split_and!; try done.
  - by rewrite (images_ready_names _ _ _ Rf), memory_images_names.
  - etransitivity; (eapply tidy_mono; [|eassumption]); [auto|intros k <-; auto].
  - intros p x c Hp Hx Hr. eapply reads_as_tidy; [exact T5| |].
    + rewrite Hc4, Hp. intros Heq. apply Hif. rewrite Heq. apply inside_snoc.
    + apply R4; [rewrite Hc3, Hp; apply other_no_stage; apply Hx|by eapply Hr3].
Qed.

Lemma patch_in_done work bram_map base_bit final_bit code data size table part root metadata brams iccm dccm bits w :
  mmi_table table part root metadata brams iccm dccm -> plain_path work -> plain_path base_bit ->
  bitfile part bits -> reads_as w exe program -> ~ inside (canon w work) (canon w exe) ->
  w_links w = ∅ -> work_dir w (canon w work) -> size = slen bits ->
  reads_as w bram_map table -> reads_as w base_bit bits -> can_write w final_bit ->
  ~ inside (canon w work) (canon w bram_map) -> ~ inside (canon w work) (canon w base_bit) ->
  ~ inside (canon w work) (canon w final_bit) ->
  Forall (fun n => 0 <= n < 2 ^ 32) code /\ len code = 32768 ->
  Forall (fun n => 0 <= n < 2 ^ 32) data /\ len data = 16384 ->
  exists steps w',
    patch_in work bram_map base_bit final_bit exe (hex08 <$> code) (hex08 <$> data) size w =
      (Ok (part, steps, sha256_text (document root), validation_record table part root metadata brams), w') /\
    tidy (fun k => inside (canon w work) k \/ k = canon w final_bit) w w' /\
    reads_as w' final_bit (patch_all (document root) (memory_images code data) bits) /\
    chain size (digests (memory_images code data)) (sha256_text bits) steps
      (sha256_text (patch_all (document root) (memory_images code data) bits)).
Proof.
  intros Ht Pw Pb Hbit Hexe Hix Hl Hw Hsz Htab Hbase Hfin Hib Hibase Hif Hcode Hdata.
  destruct (work_dir_write w work "base.mmi" Hl Hw) as [Km Cm]; [done|].
  destruct (work_dir_write w work "mmi_validation.json" Hl Hw) as [Kv Cv]; [done|].
  set (mmi := pnames work ["base.mmi"]) in *. set (val := pnames work ["mmi_validation.json"]) in *.
  destruct (generate_done bram_map mmi val table part root metadata brams iccm dccm w Ht Htab Cm Cv) as
    (w1 & E1 & T1 & Rm1 & Rv1); rewrite ?Km, ?Kv; unfold mmi, val; rewrite ?parent_pname; try apply Hw.
  1: { intros Heq%app_inj_2%proj2; done. }
  1: { intros Heq. apply Hib. rewrite Heq. apply inside_snoc. }
  fold mmi in Rm1. fold val in Rv1. rewrite Km, Kv in T1.
  assert (T01 : tidy (inside (canon w work)) w w1).
  { eapply tidy_mono; [|exact T1]. intros k [-> | ->]; apply inside_snoc. }
  assert (Hc1 : forall p, canon w1 p = canon w p) by (intros p; by eapply tidy_canon).
  assert (Pm : plain_path mmi) by (apply plain_path_names; [done|by repeat constructor]).
  destruct (runs_done work mmi (document root) part base_bit final_bit code data size bits w1) as
    (fi & fd & w2 & w3 & final & steps & w4 & w5 & E2 & E3 & En & E4 & E5 & T15 & R5 & Hch & Hlast); rewrite ?Hc1; try done.
  { by eapply images_fit. }
  { by eapply reads_as_tidy. }
  { by exists "base.mmi". }
  { by rewrite (tidy_links _ _ _ T01). }
  { by eapply work_dir_tidy. }
  { by eapply reads_as_tidy. }
  { by eapply can_write_tidy. }
  rewrite !Hc1 in T15. setoid_rewrite Hc1 in Hlast. destruct (validation_record_ok _ _ _ _ _ _ _ Ht) as (Hwf & Hasc & Hdeep).
  assert (Rm : reads_as w5 mmi (document root)) by (eapply Hlast; [exact Km|done|exact Rm1]).
  assert (Rv : load_json val w5 = (Ok (validation_record table part root metadata brams), w5))
    by (eapply load_json_native; [eapply Hlast; [exact Kv|done|exact Rv1]|done|done|done]).
  exists steps, w5. split_and!; [|etransitivity; [eapply tidy_mono; [|exact T01]; auto|exact T15]|exact R5|exact Hch].
  unfold patch_in. cbv zeta. fold mmi val. rewrite (bind_ok_eq _ _ _ _ _ E1).
  rewrite (bind_ok_eq _ _ _ _ _ (validate_mmi_done _ _ _ _ _ _ _ _ _ Ht Rm1)). cbv beta iota.
  rewrite (bind_ok_eq _ _ _ w1 w1) by (apply split_words_done; rewrite length_fmap; by destruct Hcode as [_ ->]).
  rewrite (bind_ok_eq _ _ _ _ _ E2).
  rewrite (bind_ok_eq _ _ _ w2 w2) by (apply split_words_done; rewrite length_fmap; by destruct Hdata as [_ ->]).
  rewrite (bind_ok_eq _ _ _ _ _ E3), En, bool_decide_eq_true_2 by done.
  rewrite (bind_ok_eq _ _ tt w3 w3) by done. rewrite (bind_ok_eq _ _ _ _ _ E4). cbv beta iota.
  rewrite (bind_ok_eq _ _ _ _ _ E5).
  rewrite (bind_ok_eq _ _ _ w5 w5 (reads_as_sha256 _ _ _ Rm)). by rewrite (bind_ok_eq _ _ _ w5 w5 Rv).
Qed.

(** ** The whole patch *)

(** The temporary directory of a patch. *)
Definition patch_tmp (w : world) : list string := host_tmp ++ ["socrv-patch-" +:+ host_uuid w].

(** What a patch starts from: a bitstream [bits] with the table [table] of its block RAMs, the
    images of [code] and [data], an output directory without results, the [updatemem] at [exe], and
    a temporary directory that does not exist. *)
Record patch_inputs (base_dir out_dir : path) (updatemem : option path) (bits table : string)
    (code data : list Z) (w : world) : Prop := {
  pi_links : w_links w = ∅;
  pi_tmp : node_at w host_tmp = Some Dir;
  pi_tmp_plain : Forall (fun n => plain_name n = true) host_tmp /\ no_slash (host_uuid w) = true;
  pi_base_plain : plain_path base_dir;
  pi_fresh : forall k, below (patch_tmp w) k = true -> w_fs w !! k = None /\ k ∉ w_denied w;
  pi_base : reads_as w (joinpath base_dir BASE_BIT_RELATIVE) bits;
  pi_table : reads_as w (pnames base_dir ["bram_map.tsv"]) table;
  pi_code : reads_as w (pnames out_dir ["images"; "code.mem"]) (mem_text code);
  pi_data : reads_as w (pnames out_dir ["images"; "data.mem"]) (mem_text data);
  pi_code_words : Forall (fun n => 0 <= n < 2 ^ 32) code /\ len code = 32768;
  pi_data_words : Forall (fun n => 0 <= n < 2 ^ 32) data /\ len data = 16384;
  pi_out : node_at w (canon w out_dir) = Some Dir;
  pi_free : Forall (fun n => w_fs w !! (canon w out_dir ++ [n]) = None /\ (canon w out_dir ++ [n]) ∉ w_denied w)
    ["competition.bit"; "patch_result.json"];
  pi_exe : find_updatemem updatemem w = (Ok exe, w);
  pi_program : reads_as w exe program
}.

Lemma require_files_done l w : Forall (fun p => is_file_at w p = true) l -> require_files l w = (Ok tt, w).
Proof.
  induction 1 as [|p l Hp _ IH]; [done|]. cbn [require_files].
  rewrite (bind_ok_eq _ _ true w w) by (unfold is_file, gets; by rewrite Hp). by rewrite (bind_ok_eq _ _ tt w w).
Qed.

Lemma refuse_existing_done l w : Forall (fun p => exists_at w p = false) l -> refuse_existing l w = (Ok tt, w).
Proof.
  induction 1 as [|p l Hp _ IH]; [done|]. cbn [refuse_existing].
  rewrite (bind_ok_eq _ _ false w w) by (unfold exists_, gets; by rewrite Hp). by rewrite (bind_ok_eq _ _ tt w w).
Qed.

Lemma inside_below dir k : inside dir k -> below dir k = true.
Proof. intros [n ->]. apply is_prefix_spec. by exists [n]. Qed.

Lemma below_snoc dir n o x : below (dir ++ [n]) (o ++ [x]) = true -> x = n \/ (o <> [] /\ below (dir ++ [n]) o = true).
Proof.
  intros [rest E]%is_prefix_spec. destruct rest as [|y rest _] using rev_ind.
  - rewrite app_nil_r in E. apply app_inj_2 in E as [_ E]; [|done]. left. congruence.
  - right. rewrite app_assoc in E. apply app_inj_2 in E as [-> _]; [|done].
    split; [by destruct dir|]. apply is_prefix_spec. by exists rest.
Qed.

Section inputs.
Context (base_dir out_dir : path) (updatemem : option path) (bits table : string) (code data : list Z).
Context (w : world) (Hi : patch_inputs base_dir out_dir updatemem bits table code data w).

Lemma input_apart p c : reads_as w p c -> below (patch_tmp w) (canon w p) = false.
Proof.
  intros [[t Hn] _]. destruct (below _ _) eqn:Hb; [|done]. apply (pi_fresh _ _ _ _ _ _ _ _ Hi) in Hb as [Hb _].
  destruct (canon w p); [done|]. cbn [node_at] in Hn. congruence.
Qed.

Lemma output_apart n : n ∈ ["competition.bit"; "patch_result.json"] ->
  canon w (pnames out_dir [n]) = canon w out_dir ++ [n] /\ can_write w (pnames out_dir [n]) /\
  below (patch_tmp w) (canon w (pnames out_dir [n])) = false /\
  exists_at w (pnames out_dir [n]) = false /\ (forall p c, reads_as w p c -> canon w p <> canon w (pnames out_dir [n])).
Proof.
  intros Hin. pose proof (pi_free _ _ _ _ _ _ _ _ Hi) as Hf. rewrite Forall_forall in Hf. apply Hf in Hin as Hn.
  destruct Hn as [Hn Hd]. assert (Hdd : n <> ".." /\ startswith n "socrv-patch-" = false).
  { rewrite !elem_of_cons in Hin. by destruct Hin as [-> |[-> |?%elem_of_nil]]. }
  destruct Hdd as [Hdd Hs]. assert (Hc : canon w (pnames out_dir [n]) = canon w out_dir ++ [n])
    by (apply canon_pname; [done|by rewrite (pi_links _ _ _ _ _ _ _ _ Hi)]).
  assert (Hnode : node_at w (canon w out_dir ++ [n]) = None) by by destruct (canon w out_dir).
  split; [done|]. unfold can_write, exists_at. rewrite Hc, Hnode, removelast_last. split_and!; try done.
  - apply (pi_out _ _ _ _ _ _ _ _ Hi).
  - destruct (below _ _) eqn:Hb; [|done]. apply below_snoc in Hb as [-> |[Hne Hb]].
    + unfold startswith in Hs. by rewrite prefix_app in Hs.
    + apply (pi_fresh _ _ _ _ _ _ _ _ Hi) in Hb as [Hb _]. pose proof (pi_out _ _ _ _ _ _ _ _ Hi) as Ho.
      destruct (canon w out_dir); [done|]. cbn [node_at] in Ho. congruence.
  - intros p c [[t Hp] _] Heq. rewrite Heq, Hnode in Hp. done.
Qed.

Notation base_bit := (joinpath base_dir BASE_BIT_RELATIVE).
Notation bram_map := (pnames base_dir ["bram_map.tsv"]).
Notation final_bit := (pnames out_dir ["competition.bit"]).
Context (part : string) (root : xml) (metadata : list (string * string)) (brams : list Bram) (iccm dccm : slots)
  (Ht : mmi_table table part root metadata brams iccm dccm) (Hbit : bitfile part bits).

(** With the temporary directory, what could be read or written before still can. *)
Lemma temp_world : let k := patch_tmp w in let w1 := set_fs (<[k := Dir]> (w_fs w)) w in
  work_dir w1 k /\ (forall p c, reads_as w p c -> reads_as w1 p c) /\
  (forall p, can_write w p -> below k (canon w p) = false -> can_write w1 p).
Proof.
  cbv zeta. set (k := patch_tmp w). set (w1 := set_fs _ w). pose proof (pi_fresh _ _ _ _ _ _ _ _ Hi) as Hf. fold k in Hf.
  assert (Hk : k <> []) by by (unfold k, patch_tmp; destruct host_tmp).
  assert (Hn : forall k', node_at w1 k' = if decide (k' = k) then Some Dir else node_at w k').
  { intros k'. unfold w1. destruct k' as [|x l]; [by rewrite decide_False|]. cbn [node_at set_fs w_fs].
    destruct (decide (x :: l = k)) as [E|Hne]; [rewrite E; apply lookup_insert_eq|by apply lookup_insert_ne]. }
  assert (Hc : forall p, canon w1 p = canon w p) by (intros p; by apply canon_links).
  split_and!.
  - split; [rewrite Hn; by rewrite decide_True|]. intros k' Hin. apply inside_below in Hin as Hb. apply Hf in Hb as [Hb Hd].
    rewrite Hn, decide_False; [|intros ->; destruct Hin as [n Hin]; apply (f_equal length) in Hin; rewrite length_app in Hin; simpl in Hin; lia].
    split; [|done]. destruct k'; [by destruct Hin as [n Hin]; destruct k|]. cbn [node_at]. congruence.
  - intros p c Hr. apply input_apart in Hr as Hb. destruct Hr as [[t Hr] Hd]. unfold reads_as. rewrite !Hc, Hn.
    split; [|done]. exists t. rewrite decide_False; [done|]. intros E. rewrite E in Hb. fold k in Hb. by rewrite below_refl in Hb.
  - intros p (Hp & Hd & Ha) Hb. unfold can_write. rewrite !Hc, !Hn. split_and!; [|by case_decide|done].
    rewrite decide_False; [done|]. intros E. rewrite E in Hb. by rewrite below_refl in Hb.
Qed.

Lemma temp_done :
  exists steps w3,
    with_temp_dir "socrv-patch-" (fun work => patch_in work bram_map base_bit final_bit exe (hex08 <$> code)
      (hex08 <$> data) (slen bits)) w =
      (Ok (part, steps, sha256_text (document root), validation_record table part root metadata brams), w3) /\
    tidy (eq (canon w final_bit)) w w3 /\ reads_as w3 final_bit (patch_all (document root) (memory_images code data) bits) /\
    chain (slen bits) (digests (memory_images code data)) (sha256_text bits) steps
      (sha256_text (patch_all (document root) (memory_images code data) bits)).
Proof.
  destruct temp_world as (Hwork & Hread & Hwrite). set (k := patch_tmp w) in *.
  pose proof (pi_links _ _ _ _ _ _ _ _ Hi) as Hl.
  set (d := pnames (Path true host_tmp) ["socrv-patch-" +:+ host_uuid w]).
  assert (Htmp : canon w (Path true host_tmp) = host_tmp) by (apply canon_plain; [done|]; eapply Forall_impl; [apply (pi_tmp_plain _ _ _ _ _ _ _ _ Hi)|];
        by intros n (_ & _ & ? & _)%plain_name_spec).
  assert (Hd : canon w d = k) by (unfold d; rewrite canon_pname, Htmp; [done|done|by rewrite Hl]).
  set (w1 := set_fs (<[k := Dir]> (w_fs w)) w) in *.
  assert (Pd : plain_path d).
  { destruct (pi_tmp_plain _ _ _ _ _ _ _ _ Hi) as [Hp Hu]. unfold plain_path, d, pnames. cbn [p_abs p_parts].
    split; [done|]. split; [by destruct host_tmp|]. apply Forall_app. split; [done|]. constructor; [|constructor].
    apply plain_name_long; [simpl; lia|done|done]. }
  assert (Pb : plain_path base_bit).
  { apply (plain_path_names base_dir); [apply (pi_base_plain _ _ _ _ _ _ _ _ Hi)|by repeat constructor]. }
  assert (Hc : forall p, canon w1 p = canon w p) by (intros p; by apply canon_links).
  destruct (output_apart "competition.bit") as (Kf & Wf & Bf & _ & _); [left|]. fold k in Bf.
  assert (Hout : forall p, below k (canon w p) = false -> ~ inside k (canon w p))
    by (intros p Hb Hin%inside_below; congruence).
  pose proof (pi_table _ _ _ _ _ _ _ _ Hi) as Rt. pose proof (pi_base _ _ _ _ _ _ _ _ Hi) as Rb.
  pose proof (pi_program _ _ _ _ _ _ _ _ Hi) as Rx.
  destruct (patch_in_done d bram_map base_bit final_bit code data (slen bits) table part root metadata brams
    iccm dccm bits w1 Ht Pd Pb Hbit) as (steps & w2 & E & T & R & Hch); rewrite ?Hc, ?Hd; auto.
  { apply Hout. by eapply input_apart. }
  { apply Hout. by eapply input_apart. }
  { apply Hout. by eapply input_apart. }
  { by eapply pi_code_words. }
  { by eapply pi_data_words. }
  rewrite !Hc, Hd in T. exists steps, (remove_tree k w2).
  assert (Hk : k <> [] /\ node_at w (removelast k) = Some Dir).
  { unfold k, patch_tmp. rewrite removelast_last. split; [by destruct host_tmp|apply (pi_tmp _ _ _ _ _ _ _ _ Hi)]. }
  assert (T2 : tidy (fun k' => below k k' = true \/ canon w final_bit = k') w1 w2).
  { eapply tidy_mono; [|exact T]. intros k' [Hin|Heq]; [left; by apply inside_below|by right]. }
  destruct (with_temp_dir_done "socrv-patch-" (fun work => patch_in work bram_map base_bit final_bit exe
    (hex08 <$> code) (hex08 <$> data) (slen bits)) _ w _ w2 d k eq_refl Hd Hl
    (fun k' Hb => proj1 (pi_fresh _ _ _ _ _ _ _ _ Hi k' Hb)) (proj1 Hk) (proj2 Hk) E T2) as [E3 T3].
  split_and!; [exact E3|exact T3| |exact Hch]. apply reads_as_remove_tree; [by rewrite (tidy_links _ _ _ T)|done|].
  by rewrite (tidy_canon _ _ _ _ T), Hc.
Qed.

(** The inputs are read and accepted, and nothing has happened yet. *)
Lemma patch_reads :
  require_files [base_bit; bram_map; pnames out_dir ["images"; "code.mem"]; pnames out_dir ["images"; "data.mem"]] w
    = (Ok tt, w) /\
  refuse_existing [final_bit; pnames out_dir ["patch_result.json"]] w = (Ok tt, w) /\
  read_flat_mem (pnames out_dir ["images"; "code.mem"]) 32768 w = (Ok (hex08 <$> code), w) /\
  read_flat_mem (pnames out_dir ["images"; "data.mem"]) 16384 w = (Ok (hex08 <$> data), w).
Proof.
  destruct (pi_code_words _ _ _ _ _ _ _ _ Hi) as [Hc <-]. destruct (pi_data_words _ _ _ _ _ _ _ _ Hi) as [Hd <-].
  split_and!.
  - apply require_files_done.
    repeat constructor; eapply reads_as_file;
      [eapply pi_base|eapply pi_table|eapply pi_code|eapply pi_data]; exact Hi.
  - destruct (output_apart "competition.bit") as (_ & _ & _ & E1 & _); [left|].
    destruct (output_apart "patch_result.json") as (_ & _ & _ & E2 & _); [right; left|].
    apply refuse_existing_done. by repeat constructor.
  - destruct (pi_code _ _ _ _ _ _ _ _ Hi) as [[t Hn] Ha]. by eapply read_flat_mem_text.
  - destruct (pi_data _ _ _ _ _ _ _ _ Hi) as [[t Hn] Ha]. by eapply read_flat_mem_text.
Qed.
End inputs.

(** A file of the record, with the digest of [c]. *)
Definition file_record (p : path) (c : string) : json :=
  JObj [("path", JStr (path_str p)); ("sha256", JStr (sha256_text c))].

Lemma file_entry_done w p c : reads_as w p c -> file_entry p w = (Ok (file_record p c), w).
Proof. intros Hr. unfold file_entry. by rewrite (bind_ok_eq _ _ _ w w (reads_as_sha256 _ _ _ Hr)). Qed.

(** What the result file records. *)
Definition patch_record (base_dir out_dir : path) (part created bits table code_text data_text final : string)
    (root : xml) (validation : json) (steps : list json) : json :=
  let base_bit := joinpath base_dir BASE_BIT_RELATIVE in
  let final_bit := pnames out_dir ["competition.bit"] in
  JObj
    [("schema_version", JInt 1); ("status", JStr "pass"); ("created_utc", JStr created); ("part", JStr part);
     ("updatemem", JStr (path_str exe)); ("base_dir", JStr (path_str base_dir));
     ("base_bit", JObj [("path", JStr (path_str base_bit)); ("size", JInt (slen bits));
                        ("sha256", JStr (sha256_text bits))]);
     ("bram_map", file_record (pnames base_dir ["bram_map.tsv"]) table);
     ("generated_mmi", JObj [("sha256", JStr (sha256_text (document root))); ("validation", validation)]);
     ("code_mem", file_record (pnames out_dir ["images"; "code.mem"]) code_text);
     ("data_mem", file_record (pnames out_dir ["images"; "data.mem"]) data_text);
     ("steps", JArr steps);
     ("competition_bit", JObj [("path", JStr (path_str final_bit)); ("size", JInt (slen final));
                               ("sha256", JStr (sha256_text final))])].
End flow.

(** C3: a patch delivers the bitstream that holds the program.  Given its inputs (a built bitstream
    with a table of its block RAMs that classifies, two flat images of 32768 and 16384 words, an
    output directory without results) and an [updatemem] that behaves as documented, [patch]
    succeeds.  The bitstream it leaves is the base bitstream with the twelve images patched in, in
    order: the words [i], [i + 4], ... of the code in ICCM lane [i] and the words [i], [i + 8], ...
    of the data in DCCM bank [i], each at the place that the memory map generated from the table
    gives it; the recorded steps are a chain of digests from the base bitstream to this one; the
    result file records all digests; and no other entry of the store has changed, the temporary
    directory included.  The device is assumed to have room for the files, and [updatemem] to
    succeed on a map it can read, an image that fits the memory it is for in this map, and a
    bitstream for the part of the map. *)
Theorem patch_delivers `{Host} program bitfile upd base_dir out_dir updatemem exe bits table code data part root
    metadata brams iccm dccm w :
  device_has_room -> updatemem_conforms exe program bitfile upd ->
  patch_inputs exe program base_dir out_dir updatemem bits table code data w ->
  mmi_table table part root metadata brams iccm dccm -> bitfile part bits ->
  let final := patch_all upd (document root) (memory_images code data) bits in
  let final_bit := pnames out_dir ["competition.bit"] in
  let result := pnames out_dir ["patch_result.json"] in
  exists steps created w',
    patch base_dir out_dir updatemem w = (Ok result, w') /\
    reads_as w' final_bit final /\
    chain (slen bits) (digests (memory_images code data)) (sha256_text bits) steps (sha256_text final) /\
    reads_as w' result (native (dumps_indent (patch_record exe base_dir out_dir part created bits table
      (mem_text code) (mem_text data) final root (validation_record table part root metadata brams) steps) +:+ nl)) /\
    tidy (fun k => k = canon w final_bit \/ k = canon w result) w w'.
Proof.
  intros Hroom Hupd Hi Ht Hbit. cbv zeta. destruct (patch_reads _ _ _ _ _ _ _ _ _ _ Hi) as (E1 & E2 & E3 & E4).
  destruct (temp_done Hroom _ _ _ upd Hupd _ _ _ _ _ _ _ _ Hi _ _ _ _ _ _ Ht Hbit)
    as (steps & w3 & E5 & T3 & R3 & Hch).
  destruct (output_apart _ _ _ _ _ _ _ _ _ _ Hi "competition.bit") as (Kf & _ & _ & _ & Af); [left|].
  destruct (output_apart _ _ _ _ _ _ _ _ _ _ Hi "patch_result.json") as (Kr & Wr & _ & _ & Ar); [right; left|].
  assert (Hc3 : forall p, canon w3 p = canon w p) by (intros p; by eapply tidy_canon).
  assert (Hr : forall p c, reads_as w p c -> reads_as w3 p c)
    by (intros p c Hp; eapply reads_as_tidy; [exact T3| |exact Hp]; intros E; by eapply Af).
  set (record := patch_record exe base_dir out_dir part (host_now w3) bits table (mem_text code) (mem_text data)
    (patch_all upd (document root) (memory_images code data) bits) root (validation_record table part root metadata brams) steps).
  destruct (write_raw_tidy Hroom w3 (pnames out_dir ["patch_result.json"]) (native (dumps_indent record +:+ nl)))
    as (w4 & E6 & T4 & _ & R4); [by eapply can_write_tidy|]. rewrite Hc3 in T4.
  exists steps, (host_now w3), w4. split_and!; [| |exact Hch|exact R4|].
  - unfold patch. cbv zeta. rewrite (bind_ok_eq _ _ _ _ _ E1), (bind_ok_eq _ _ _ _ _ E2).
    rewrite (bind_ok_eq _ _ _ _ _ (mkdir_p_done _ _ (pi_out _ _ _ _ _ _ _ _ _ _ Hi))).
    rewrite (bind_ok_eq _ _ _ _ _ E3), (bind_ok_eq _ _ _ _ _ E4), (bind_ok_eq _ _ _ _ _ (pi_exe _ _ _ _ _ _ _ _ _ _ Hi)).
    pose proof (pi_base _ _ _ _ _ _ _ _ _ _ Hi) as Rb. pose proof (pi_table _ _ _ _ _ _ _ _ _ _ Hi) as Rt.
    pose proof (pi_code _ _ _ _ _ _ _ _ _ _ Hi) as Rc. pose proof (pi_data _ _ _ _ _ _ _ _ _ _ Hi) as Rd.
    rewrite (bind_ok_eq _ _ _ _ _ (reads_as_size _ _ _ Rb)), (bind_ok_eq _ _ _ _ _ E5). cbv beta iota.
    rewrite (bind_ok_eq _ _ (host_now w3) w3 w3) by done. unfold sha256.
    rewrite (bind_ok_eq _ _ _ _ _ (reads_as_sha256 _ _ _ (Hr _ _ Rb))).
    rewrite (bind_ok_eq _ _ _ _ _ (file_entry_done _ _ _ (Hr _ _ Rt))), (bind_ok_eq _ _ _ _ _ (file_entry_done _ _ _ (Hr _ _ Rc))),
      (bind_ok_eq _ _ _ _ _ (file_entry_done _ _ _ (Hr _ _ Rd))).
    rewrite (bind_ok_eq _ _ _ _ _ (reads_as_size _ _ _ R3)), (bind_ok_eq _ _ _ _ _ (reads_as_sha256 _ _ _ R3)).
    rewrite (bind_ok_eq _ _ tt w3 w4) by exact E6. done.
  - eapply reads_as_tidy; [exact T4| |exact R3]. rewrite Hc3, Kf, Kr. intros Heq%app_inj_2%proj2; done.
  - etransitivity; (eapply tidy_mono; [|eassumption]); intros k <-; auto.
Qed.

(** *** An instance *)

(** An [updatemem] that moves the last digit of the first word of an image into the bitstream, if
    the memory map has the named memory, and keeps a log beside the output. *)
Definition demo_upd (map proc data bits : string) : string :=
  match bits with
  | EmptyString => ""
  | String _ rest => rest +:+ ch (default "0"%char (String.get 17 data))
  end.

Definition has_memory (map proc : string) : bool :=
  match parse_xml map with
  | Some root => existsb (fun mem => bool_decide (dict_get "InstPath" (attrib mem) = Some proc))
                   (Xml.findall "MemoryArray" root)
  | None => false
  end.

#[local] Transparent canon.

Definition demo_log (k : list string) (w : world) : world :=
  let l := removelast k ++ ["updatemem.log"] in
  match node_at w l with Some Dir => w | _ => put_file l "patched" w end.

Definition demo_update (c : command) (w : world) : exec_result * world :=
  match c_argv c with
  | [_; _; _; mmi; _; data; _; src; _; proc; _; out] =>
      let key s := walk 40 (w_links w) [] (p_parts (parse_path s)) in
      match node_at w (key mmi), node_at w (key data), node_at w (key src) with
      | Some (File m _), Some (File d _), Some (File b _) =>
          if has_memory m proc
          then (Done 0 "update_mem completed successfully" "",
                put_file (key out) (demo_upd m proc d b) (demo_log (key out) w))
          else (Done 1 "ERROR: no such memory" "", w)
      | _, _, _ => (Done 1 "ERROR: cannot read the images" "", w)
      end
  | _ => (Done 2 "ERROR: usage" "", w)
  end.
Definition demo_updater : Host := demo_exec_host ["repo"] demo_update.

Lemma image_memory `{Host} map part proc data : image_for map part proc data -> has_memory map proc = true.
Proof.
  intros (words & _ & _ & root & option & mem & Hp & _ & _ & Hin & Hn & _). unfold has_memory. rewrite Hp.
  apply existsb_exists. exists mem. split; [by apply list_elem_of_In|]. by apply bool_decide_eq_true.
Qed.

Lemma demo_log_only k dir x w : k = dir ++ [x] -> tidy (eq (dir ++ ["updatemem.log"])) w (demo_log k w) /\
  keeps [dir ++ ["updatemem.log"]] w (demo_log k w).
Proof.
  intros ->. unfold demo_log. rewrite removelast_last. destruct (node_at w _) as [[c t|]|] eqn:E; [|split; [reflexivity|apply keeps_refl]|];
    (split; [apply put_file_tidy; by rewrite E|apply put_file_keeps]).
Qed.

Definition demo_bitfile (part bits : string) : Prop := part = "xc7z020clg400-1" /\ 0 < slen bits.

Lemma demo_upd_conforms exe program : updatemem_conforms (H := demo_updater) exe program demo_bitfile demo_upd.
Proof.
  constructor.
  - intros map part proc data bits _ [Hp Hb]. destruct bits as [|c bits]; [simpl in Hb; lia|].
    cbn [demo_upd]. unfold demo_bitfile. rewrite slength_app. simpl in *. split_and!; [done|lia|lia].
  - intros mmi data src proc out w map part d b Pm Pd Ps Po _ [[t0 Hm] _] [[t Hd] _] [[t' Hs] _] Him _ Ho Hin.
    set (k := canon (H := demo_updater) w out) in *. destruct Hin as [x Hx].
    destruct (demo_log_only k _ x w Hx) as [T1 K1].
    exists "update_mem completed successfully", "", (put_file k (demo_upd map proc d b) (demo_log k w)).
    assert (Hk : forall p, plain_path p ->
      walk 40 (w_links w) [] (p_parts (parse_path (path_str p))) = canon (H := demo_updater) w p).
    { intros p Hp. rewrite parse_path_str by done. destruct Hp as [Ha _]. unfold canon. by rewrite Ha. }
    assert (Hne : node_at (demo_log k w) k <> Some Dir) by (rewrite (tidy_dir _ _ _ _ T1); apply Ho).
    split_and!.
    + cbn [host_exec demo_updater demo_exec_host]. unfold demo_update. cbn [c_argv].
      rewrite !Hk, Hm, Hd, Hs by done. by rewrite (image_memory (H := demo_updater) _ _ _ _ Him).
    + reflexivity.
    + repeat constructor.
    + eapply spares_trans; (eapply keeps_spares; [first [exact K1|apply put_file_keeps]|]).
      * intros k' [_ Hl] ->%list_elem_of_singleton. apply Hl. by eexists.
      * by intros k' [Hl _] ->%list_elem_of_singleton.
    + etransitivity; (eapply tidy_mono; [|first [exact T1|by apply put_file_tidy]]); intros k' <-; [by eexists|by exists x].
    + exists (w_clock (demo_log k w)). destruct k as [|y k]; [by destruct (canon (H := demo_updater) w (parent out))|].
      cbn [node_at put_file tick set_fs w_fs]. by rewrite lookup_insert_eq.
Qed.

(** The table of block RAMs of the unit tests. *)
Definition demo_table : string := join nl (bram_lines "xc7z020clg400-1") +:+ nl.
Definition demo_rows : list (string * string) * list Bram :=
  match (read_bram_map (H := demo_updater) (Path true ["t"]) (demo_world [(["t"], demo_table)] [])).1 with
  | Ok x => x
  | Raise _ => ([], [])
  end.
Definition demo_memories : slots * slots :=
  match (classify demo_rows.2 (demo_world [] [])).1 with Ok t => t | Raise _ => ([], []) end.
Definition demo_mmi : xml :=
  match (mmi_tree "xc7z020clg400-1" demo_memories.1 demo_memories.2 (demo_world [] [])).1 with
  | Ok root => root
  | Raise _ => Elem "" [] []
  end.

Lemma demo_mmi_table :
  mmi_table (H := demo_updater) demo_table "xc7z020clg400-1" demo_mmi demo_rows.1 demo_rows.2
    demo_memories.1 demo_memories.2.
Proof.
  constructor.
  - intros p w Hr. unfold read_bram_map.
    rewrite (bind_ok_eq _ _ demo_table w w).
    2: { apply read_native; [exact Hr|vm_compute; reflexivity]. }
    by_eval.
  - by_eval.
  - split; [discriminate|split; by_eval].
  - by_eval.
  - intros w. by_eval.
  - by_eval.
  - intros w. by_eval.
Qed.

Definition demo_code : list Z := replicate (Z.to_nat 32768) 305419896.
Definition demo_data : list Z := replicate (Z.to_nat 16384) 11.
Definition demo_built : world := demo_world
  [(["base"; "project"; "socrv.runs"; "impl_1"; "fpga_top.bit"], "test-bitstream");
   (["base"; "bram_map.tsv"], demo_table);
   (["out"; "images"; "code.mem"], mem_text demo_code); (["out"; "images"; "data.mem"], mem_text demo_data);
   (["tools"; "updatemem"], "")]
  [["base"]; ["out"]; ["out"; "images"]; ["tools"]; ["tmp"]].

(** Both sides are the same after evaluation, without evaluating the texts. *)
Ltac by_lookup := match goal with |- @eq ?T ?a ?b => exact_no_check (@eq_refl T b) end.

Definition demo_keys : list (list string) :=
  [["base"; "project"; "socrv.runs"; "impl_1"; "fpga_top.bit"]; ["base"; "bram_map.tsv"];
   ["out"; "images"; "code.mem"]; ["out"; "images"; "data.mem"]; ["tools"; "updatemem"];
   ["base"]; ["out"]; ["out"; "images"]; ["tools"]; ["tmp"]].

Lemma demo_world_keys files dirs k n : w_fs (demo_world files dirs) !! k = Some n -> k ∈ files.*1 ++ dirs.
Proof.
  intros E%elem_of_list_to_map_2. apply elem_of_app in E as [E|E]; apply elem_of_app; [left|right].
  - apply list_elem_of_fmap in E as (kc & [= -> _] & Hin). apply list_elem_of_fmap. by exists kc.
  - by apply list_elem_of_fmap in E as (k' & [= -> _] & Hin).
Qed.

Lemma demo_built_keys k n : w_fs demo_built !! k = Some n -> k ∈ demo_keys.
Proof. exact (demo_world_keys _ _ k n). Qed.

Lemma demo_reads k c : Forall (fun n => plain_name n = true) k -> k <> [] ->
  w_fs demo_built !! k = Some (File c 0) -> reads_as (H := demo_updater) demo_built (Path true k) c.
Proof.
  intros Hp Hk Hl. assert (Hc : canon (H := demo_updater) demo_built (Path true k) = k)
    by (apply plain_path_canon; [done|done]).
  unfold reads_as. rewrite Hc. split; [exists 0; by destruct k|apply not_elem_of_empty].
Qed.

Lemma demo_words n z : 0 <= n -> 0 <= z < 2 ^ 32 ->
  Forall (fun n => 0 <= n < 2 ^ 32) (replicate (Z.to_nat n) z) /\ len (replicate (Z.to_nat n) z) = n.
Proof. intros Hn Hz. split; [by apply Forall_replicate|]. rewrite length_replicate. lia. Qed.

Lemma demo_inputs : patch_inputs (H := demo_updater) (Path true ["tools"; "updatemem"]) "" (Path true ["base"])
  (Path true ["out"]) (Some (Path true ["tools"; "updatemem"])) "test-bitstream" demo_table
  demo_code demo_data demo_built.
Proof.
  assert (Hout : canon (H := demo_updater) demo_built (Path true ["out"]) = ["out"])
    by (apply plain_path_canon; [done|by repeat constructor]).
  constructor.
  - reflexivity.
  - by_lookup.
  - split; [by repeat constructor|done].
  - by repeat constructor.
  - intros k Hb. split; [|apply not_elem_of_empty].
    destruct (w_fs demo_built !! k) as [n|] eqn:E; [|done]. exfalso. apply demo_built_keys in E.
    assert (Hf : Forall (fun k => below ["tmp"; "socrv-patch-uuid"] k = false) demo_keys)
      by (repeat constructor). rewrite Forall_forall in Hf. apply Hf in E.
    change (below ["tmp"; "socrv-patch-uuid"] k = true) in Hb. congruence.
  - apply demo_reads; [by repeat constructor|done|by_lookup].
  - apply demo_reads; [by repeat constructor|done|by_lookup].
  - apply demo_reads; [by repeat constructor|done|by_lookup].
  - apply demo_reads; [by repeat constructor|done|by_lookup].
  - by apply demo_words.
  - by apply demo_words.
  - rewrite Hout. by_lookup.
  - rewrite Hout. repeat constructor; try by_lookup; apply not_elem_of_empty.
  - by_lookup.
  - apply demo_reads; [by repeat constructor|done|by_lookup].
Qed.

Lemma patch_delivers_witness : exists w',
  patch (H := demo_updater) (Path true ["base"]) (Path true ["out"]) (Some (Path true ["tools"; "updatemem"]))
    demo_built = (Ok (Path true ["out"; "patch_result.json"]), w') /\
  reads_as (H := demo_updater) w' (Path true ["out"; "competition.bit"])
    (patch_all demo_upd (document demo_mmi) (memory_images (H := demo_updater) demo_code demo_data) "test-bitstream").
Proof.
  destruct (patch_delivers (H := demo_updater) "" demo_bitfile demo_upd (Path true ["base"]) (Path true ["out"])
    (Some (Path true ["tools"; "updatemem"])) (Path true ["tools"; "updatemem"]) "test-bitstream" demo_table
    demo_code demo_data "xc7z020clg400-1" demo_mmi demo_rows.1 demo_rows.2 demo_memories.1 demo_memories.2 demo_built
    ltac:(intros k c w; reflexivity) (demo_upd_conforms _ _) demo_inputs demo_mmi_table
    ltac:(split; [reflexivity|simpl; lia])) as (steps & created & w' & E & R & _).
  exists w'. split; [exact E|exact R].
Defined.
